(* ===== verification/_CoqProject ===== *)
-Q . S2P
Prelude.v
Strs.v
Json.v
Errors.v
ApiOtlp.v
ApiOutput.v
ApiTypes.v
ProblemSpec.v
Persist.v
Kube.v
Watches.v
Main.v
Trace.v
Cluster.v
Utils.v
Relations.v
Exporters.v
Processors.v
Receivers.v
Extensions.v
Connectors.v
ConfGen.v
Names.v
ConfGenFacts.v
PipelineFacts.v
WfInput.v
Samples.v
ExporterSpec.v
ConfGenSpec.v
PipelineSpec.v
RoutingSpec.v
ExtensionSpec.v
ModeSpec.v
TenantManager.v
RouteController.v
TenantSpec.v
TenantBehaviour.v
CollectorManager.v
Validator.v
CollectorController.v
CollectorInput.v
CollectorTrace.v
CollectorSpec.v
PodSpec.v
ValidatorSpec.v
TypeSpec.v
FlowSpec.v
SetupSpec.v
Settle.v
SettleRun.v
ConvergeSpec.v
HealthSpec.v
EndToEnd.v
DeploySpec.v
IsolationSpec.v
GoHeap.v
GoTypes.v
DeepCopy.v
DeepCopySpec.v
InPlace.v
InPlaceSpec.v
