(* ===== verification/Prelude.v ===== *)
(** * The telemetry controller

    The telemetry controller (a Kubernetes operator, [src/]) turns tenants,
    subscriptions, outputs and bridges into the configuration of an
    OpenTelemetry collector. Two reconcilers do the work:

    - the tenant reconciler ([controllers/telemetry/route_controller.go]) decides
      which subscriptions and outputs a tenant owns, validates the outputs a
      subscription names, connects bridges, and records all of it in statuses;
    - the collector reconciler ([controllers/telemetry/collector_controller.go])
      reads those statuses, assembles the collector's configuration from them,
      validates it, and applies the collector with its secret and RBAC objects.

    The development models both from the Go source, shallowly: structs are
    records, handlers are functions over an abstract API server, loops are folds
    and recursive functions over lists. There is no fuel: every recursion is
    structural. Objects are values in most files; what the program shares and
    changes in memory is modelled apart, on a heap, and related to the values.

    ** Files

    - [Prelude], [Strs], [Json], [Errors]: slices and maps with their nil-ness,
      Go's string and path functions on byte strings, [any] values with the JSON
      round trip of the exporter wrappers, errors as values with what
      [errors.Is] and the API helpers see of them, and the state-passing monad
      [M W A] of a computation against the API server.
    - [ApiOtlp], [ApiOutput], [ApiTypes]: the types of [api/telemetry/v1alpha1]
      and of [pkg/sdk/model]; the class [ProblemHandler] is the interface of
      [pkg/resources/problem], and its laws are proved for every resource.
    - [Persist]: what the JSON form of a status keeps; the class [Stored] is
      what the in-memory server uses to receive a status update.
    - [Kube], [Cluster], [Trace], [CollectorTrace]: the class [Client] of the
      calls to the API server, a small in-memory server that satisfies the
      promises used, and clients over any other client that log the updates
      sent and the objects applied.
    - [Watches], [Main]: what the reconcilers register with the controller
      manager ([SetupWithManager]: field indexes, watches, owned kinds), the
      scheme ([groupversion_info.go]), and [cmd/main.go].
    - [Utils], [Relations], [Exporters], [Processors], [Receivers],
      [Extensions], [Connectors], [ConfGen]: the configuration generator,
      [pkg/resources/otel_conf_gen] and [pkg/sdk/utils], file by file.
      [ConfGen.assemble] is the configuration of [AssembleConfig] before its
      additional arguments; [None] is a panic.
    - [TenantManager], [RouteController]: [tenant_resource_manager.go],
      [bridge_manager.go] and the tenant reconciler. A step gives back the
      tenant it changed in place together with its error; objects shared by
      pointers (the output cache) are threaded through the loops.
    - [CollectorManager], [Validator], [CollectorController]:
      [collector_manager.go], the validator and the collector reconciler.
    - [Names], [ConfGenFacts], [PipelineFacts], [WfInput], [Samples]: lemmas on
      the generated names and sections, the well-formed inputs, and the concrete
      objects the theorems are applied to.
    - [GoHeap], [GoTypes], [DeepCopy], [DeepCopySpec]: Go's memory of variables,
      arrays and maps, the types of the API group as shapes of values in it, and
      the generated deep copies ([zz_generated.deepcopy.go]), type by type. A
      copier [Copies] a shape; the classes are solved type by type from the
      copiers of the fields.
    - [InPlace], [InPlaceSpec]: the problem lists ([problem.go]) in that memory,
      where an append may write into an array that others see, and what the
      copies of a status that are kept for comparison are then worth.
    - [Settle], [SettleRun]: the specification of a tenant's reconciliation on
      the in-memory server, object by object ([settle]), and the simulation of
      the reconciler's calls, loops and intermediate updates by it.
    - The theorems on the configuration are in [ConfGenSpec], [PipelineSpec],
      [RoutingSpec], [FlowSpec], [ExporterSpec], [ExtensionSpec], [ModeSpec],
      [TypeSpec] and [ValidatorSpec]; on the reconcilers in [TenantSpec],
      [TenantBehaviour], [CollectorInput], [CollectorSpec], [PodSpec],
      [ConvergeSpec], [HealthSpec] and [SetupSpec]; on statuses and problems in
      [Persist] and [ProblemSpec]; on the two reconcilers together in
      [EndToEnd], [DeploySpec] and [IsolationSpec]; on memory in
      [DeepCopySpec] and [InPlaceSpec].

    ** Theorems

    - C1, C10: from the tenants to a running collector, through both reconcilers:
      once every tenant was reconciled, in any order, the reconciliation of a
      collector builds, assembles, converts and applies all it should and
      reports success, and after that further reconciliations of either kind
      change nothing. They rest on the lemmas behind C2 and C6 and on
      [EndToEnd].
    - C11: a tenant is ready after a reconciliation exactly when the cluster had
      what it needs ([healthy]), and failed otherwise.
    - C2, C9, C12, C13: the reconciliation of a tenant refines [settle]; one
      reconciliation settles a tenant, one round settles tenants that share no
      resource, and tenants that share one are never settled.
    - C3, C7, C14 to C16, C33: the service section. Every component that a
      pipeline names is defined; the pipelines are exactly those of the tenants,
      subscriptions and outputs, start with the memory limiter, and do not
      depend on the order of Go's map iterations; the routing tables send each
      subscription to its own pipeline.
    - C8: isolation, through both reconcilers. The pipelines and connectors of
      the configuration that is built once the tenants were reconciled form a
      graph in which a tenant's records reach exactly the outputs that the
      subscriptions it takes name, and those of the tenants that a chain of
      bridges leads to. It rests on [FlowSpec], the same for every well-formed
      input, and on [EndToEnd].
    - C17, C18: types. A component's configuration is of the type in its name,
      and a pipeline is made of components that work on its signal.
    - C6: the assembled configuration converts to the collector's own types and
      every component and pipeline is found again under its identifier.
    - C27 to C29, C37: exporters with their queues, authenticators and storages,
      and the dry-run mode.
    - C4: whatever the server answers, the reconciliation of a tenant writes only
      to what the tenant may touch. C23: what the status says afterwards.
    - C19, C20: the contract between the two halves. What the collector manager
      builds from an unchanging cluster is a [wf_input], the hypothesis of the
      theorems on the configuration.
    - C5, C21, C22, C36: validation of the input, what is applied and in which
      order, what is reported, and when the request is put back in the queue.
    - C24, C25, C35: memory. Every generated deep copy is a copy, nothing written
      through the copy is seen through the original, and the comparisons that
      guard the status updates mean on the shared memory what the other files
      say they mean on values.
    - C26, C38 to C40: the pods: credentials, volumes, memory limit.
    - C30, C31, C34: set-up. What a reconciliation reads is watched, and the
      program starts the manager only after all of it was registered.
    - C32: what the stored form of a status keeps, for every resource through a
      class.

    Other theorems of these files say more about single parts:
    [ExtensionSpec.service_extensions_exact], [ModeSpec.additional_args_flatten],
    [PodSpec.pod_template],
    [ProblemSpec.add_problems_spec], [ProblemSpec.add_problems_idempotent],
    [TenantBehaviour.log_sources_exact], [TenantBehaviour.adoption_keeps_accepted],
    [TenantBehaviour.validation_splits_references],
    [TenantBehaviour.resources_split_by_owner],
    [TenantBehaviour.bridge_validation_exact], [SetupSpec.field_indexes_exact],
    [SetupSpec.kinds_registered] and
    [EndToEnd.settled_tenants_make_a_valid_input].

    Some state behaviour that is probably not intended: C13 and
    [ConvergeSpec.handover_depends_on_order] (tenants that share a namespace),
    [ModeSpec.transform_in_name_panics], [TenantBehaviour.failed_output_blocks],
    [TenantBehaviour.bridges_of_tenant] (a bridge from a tenant to itself),
    [CollectorSpec.built_input_never_empty], [PodSpec.credential_keys_collide],
    [PodSpec.file_volumes_collide] and
    [ValidatorSpec.validation_misses_status_outputs]. C23 includes that the
    guard of the status update never holds it back, and C30 that secrets are
    read but not watched.

    ** Conventions

    - Iteration over a Go map goes through the class [MapRange], which may give
      a different permutation at every place of the program; the places are
      numbered, [site_...], from 1 to 13. Theorems hold for every instance.
    - [golist] and [gomap] distinguish nil from empty where the code compares
      with nil or with [reflect.DeepEqual].
    - Code outside the repository is a parameter: the class [Platform] (label
      selectors, opaque strings, texts of errors and quantities), [Client],
      [ResourceReconciler], [Mapstructure] and [Otel], [Signals] (the signals the
      collector's components work on), [Foreign] (the types of other modules in
      memory and their deep copies), and for the set-up [Launcher], [Manager] and
      [Groups]. What a theorem needs of them is a named hypothesis
      ([snapshot], [index_sound], [accepts_types], [mapstructure_laws],
      [documented], [reliable], ...) that the in-memory server or a sample
      instance is shown to satisfy.
    - Integers are [Z]; the only arithmetic that can lose precision, the
      conversion to float64 of numbers in [any] and of the memory limit, is
      written out in [Json.float64_of_int] and [CollectorManager.goMemLimitValue].

    ** Not modelled, and simplifications

    - Objects are values outside the files on memory. The reconcilers share
      memory between an object and the copy of its status kept for comparison
      (C25), and the objects they read are their own copies (C24). Log lines are
      left out. The constructors of the base manager ([manager.go]), which
      pair the client with a logger: a manager is the [Client] it embeds.
    - Flags are given as parsed; between [Start] and the end of the program the
      reconcilers run one reconciliation at a time, in any order. Errors and
      other requests' writes between two calls of one reconciliation are covered
      where the [Client] is arbitrary (C4, C5, C22, C23, C30, C31, and the theorems of
      [TenantBehaviour]), not
      on the in-memory server.
    - The text of names is ASCII, as Kubernetes requires, so case conversion of
      paths and names works byte by byte.
    - After a status update the program goes on with the object it sent; the
      resource version that the server fills in is not part of the objects.
    - [OtelCollector] copies the collector's common fields; that the copy shares
      its argument map with the collector in memory is left out, as nothing
      reads that map afterwards.
    - The hook that keeps the finalizers of an existing collector object runs
      inside the resource reconciler and belongs to that parameter.

    This file holds nil-aware slices and maps, map iteration, the loops that
    fill a map, and the list functions the components share. *)
From stdpp Require Export base option list strings gmap sorting.

(** * Go slices and maps whose nil-ness the program observes

    A Go slice or map is [nil] or a value; [nil] and an empty value behave the
    same under [len], [range] and [append], and differently under [== nil] and
    [reflect.DeepEqual]. [None] is [nil]. *)
Declare Scope go_scope.
Delimit Scope go_scope with go.
Open Scope go_scope.

Abbreviation golist A := (option (list A)).
Abbreviation gomap K V := (option (gmap K V)).

Definition elems {A} (s : golist A) : list A := default [] s.

Definition melems {K V} `{Countable K} (m : gomap K V) : gmap K V := default ∅ m.

(** [s == nil] *)
Definition is_nil {A} (s : option A) : bool :=
  match s with None => true | Some _ => false end.

(** [append(s, xs...)]: appending nothing to a nil slice leaves it nil. *)
Definition append {A} (s : golist A) (xs : list A) : golist A :=
  match s, xs with
  | None, [] => None
  | _, _ => Some (elems s ++ xs)
  end.

Lemma elems_append {A} (s : golist A) xs : elems (append s xs) = elems s ++ xs.
Proof. destruct s, xs; cbn; rewrite ?app_nil_r; done. Qed.

(** A slice that the JSON decoder produced from a field tagged [omitempty]:
    an empty list is never written, so it is read back as [nil]. *)
Definition decoded {A} (s : golist A) : Prop := s ≠ Some [].

(** * Ranging over a Go map

    The order of [for k, v := range m] is unspecified. Every loop of the
    program that ranges over a map takes its order from this class; the tag
    says which loop it is, so that two loops need not agree. *)
Class MapRange : Type := {
  range_map : ∀ {K V : Type} `{Countable K}, nat → gmap K V → list (K * V);
  range_map_perm : ∀ {K V : Type} `{Countable K} (site : nat) (m : gmap K V),
    range_map site m ≡ₚ map_to_list m
}.

(** Two orders to run the program with. *)
#[export] Program Instance forward_range : MapRange | 10 := {
  range_map := λ K V _ _ _ m, map_to_list m
}.
Next Obligation. done. Qed.

Definition backward_range : MapRange.
Proof.
  refine {| range_map := λ K V _ _ _ m, reverse (map_to_list m) |}.
  intros K V ? ? site m. apply reverse_Permutation.
Defined.

Section RangeLemmas.
Context `{MapRange} {K V : Type} `{Countable K}.
Implicit Types (m : gmap K V) (site : nat).

Lemma elem_of_range_map site m k v : (k, v) ∈ range_map site m ↔ m !! k = Some v.
Proof. by rewrite range_map_perm, elem_of_map_to_list. Qed.

Lemma range_map_keys_nodup site m : NoDup ((range_map site m).*1).
Proof. rewrite range_map_perm. apply NoDup_fst_map_to_list. Qed.

Lemma elem_of_range_map_keys site m k : k ∈ (range_map site m).*1 ↔ is_Some (m !! k).
Proof.
  rewrite list_elem_of_fmap. split.
  - intros ([? v] & -> & E). apply elem_of_range_map in E. by exists v.
  - intros [v E]. exists (k, v). by rewrite elem_of_range_map.
Qed.

Lemma elem_of_range_map_values site m v : v ∈ (range_map site m).*2 ↔ ∃ k, m !! k = Some v.
Proof.
  rewrite list_elem_of_fmap. split.
  - intros ([k ?] & -> & E). apply elem_of_range_map in E. by exists k.
  - intros [k E]. exists (k, v). by rewrite elem_of_range_map.
Qed.

Lemma range_map_nil site m : range_map site m = [] ↔ m = ∅.
Proof.
  split.
  - intros E. apply map_to_list_empty_iff, Permutation_nil_r.
    by rewrite <- (range_map_perm site), E.
  - intros ->. apply Permutation_nil_r. rewrite range_map_perm.
    by rewrite map_to_list_empty.
Qed.
End RangeLemmas.

(** * Loops that fill a map

    [for ... { result[k] = v }]: the pairs in the order the loop writes them. *)
Fixpoint insert_all {K V} `{Countable K} (kvs : list (K * V)) (m : gmap K V) : gmap K V :=
  match kvs with
  | [] => m
  | kv :: kvs => insert_all kvs (<[kv.1 := kv.2]> m)
  end.

Lemma lookup_empty_is_Some {K V} `{Countable K} (k : K) : is_Some ((∅ : gmap K V) !! k) ↔ False.
Proof. rewrite lookup_empty. split; [apply is_Some_None|done]. Qed.

Lemma elem_of_bind_fst {A K V} (f : A → list (K * V)) l k :
  k ∈ (l ≫= f).*1 ↔ ∃ x, x ∈ l ∧ k ∈ (f x).*1.
Proof.
  rewrite list_elem_of_fmap. setoid_rewrite list_elem_of_bind. setoid_rewrite list_elem_of_fmap.
  naive_solver.
Qed.

(** [maps.Copy(dst, src)] *)
Definition maps_copy {K V} `{Countable K} (dst src : gmap K V) : gmap K V := src ∪ dst.

Section InsertAll.
Context {K V : Type} `{Countable K}.
Implicit Types (m : gmap K V) (kvs : list (K * V)).

Lemma insert_all_app kvs1 kvs2 m :
  insert_all (kvs1 ++ kvs2) m = insert_all kvs2 (insert_all kvs1 m).
Proof. revert m. induction kvs1; cbn; auto. Qed.

Lemma insert_all_is_Some kvs m k :
  is_Some (insert_all kvs m !! k) ↔ k ∈ kvs.*1 ∨ is_Some (m !! k).
Proof.
  revert m. induction kvs as [|[k' v'] kvs IH]; intros m; cbn; [set_solver|].
  rewrite IH, elem_of_cons.
  destruct (decide (k' = k)) as [->|Hne].
  - rewrite lookup_insert_eq. naive_solver eauto.
  - rewrite lookup_insert_ne by done. naive_solver.
Qed.

Lemma insert_all_inv kvs m k v :
  insert_all kvs m !! k = Some v → (k, v) ∈ kvs ∨ (m !! k = Some v ∧ k ∉ kvs.*1).
Proof.
  revert m. induction kvs as [|[k' v'] kvs IH]; intros m; cbn; [set_solver|].
  intros E. apply IH in E as [E|[E Hk]]; [set_solver|].
  destruct (decide (k' = k)) as [->|Hne].
  - rewrite lookup_insert_eq in E. set_solver.
  - rewrite lookup_insert_ne in E by done. set_solver.
Qed.

(** When every pair written under [k] holds the same value, that value stays. *)
Lemma insert_all_lookup kvs m k v :
  (k, v) ∈ kvs → (∀ v', (k, v') ∈ kvs → v' = v) → insert_all kvs m !! k = Some v.
Proof.
  intros Hin Huniq.
  destruct (insert_all kvs m !! k) as [v'|] eqn:E.
  - destruct (insert_all_inv _ _ _ _ E) as [Hv|[_ Hk]]; [by f_equal; apply Huniq|].
    exfalso. apply Hk, list_elem_of_fmap. by exists (k, v).
  - apply eq_None_not_Some in E. exfalso. apply E, insert_all_is_Some. left.
    apply list_elem_of_fmap. by exists (k, v).
Qed.

Lemma insert_all_notin kvs m k : k ∉ kvs.*1 → insert_all kvs m !! k = m !! k.
Proof.
  revert m. induction kvs as [|[k' v'] kvs IH]; intros m; cbn; [done|].
  rewrite not_elem_of_cons. intros [Hne Hk]. rewrite IH by done.
  by rewrite lookup_insert_ne.
Qed.

(** The last write wins. *)
Lemma insert_all_last kvs m k v :
  insert_all (kvs ++ [(k, v)]) m !! k = Some v.
Proof. rewrite insert_all_app. cbn. apply lookup_insert_eq. Qed.

(** A loop whose keys are pairwise distinct does not depend on its order. *)
Lemma insert_all_perm kvs1 kvs2 m :
  NoDup (kvs1.*1) → kvs1 ≡ₚ kvs2 → insert_all kvs1 m = insert_all kvs2 m.
Proof.
  intros Hnd Hp. revert m Hnd.
  induction Hp as [|[k v] l1 l2 Hp IH|[k1 v1] [k2 v2] l|l1 l2 l3 Hp1 IH1 Hp2 IH2];
    intros m Hnd; cbn in *.
  - done.
  - apply IH. by apply NoDup_cons in Hnd as [_ ?].
  - rewrite insert_insert_ne; [done|].
    apply NoDup_cons in Hnd as [Hk _]. set_solver.
  - rewrite IH1 by done. apply IH2. by rewrite <- Hp1.
Qed.

Lemma maps_copy_is_Some m1 m2 k :
  is_Some (maps_copy m1 m2 !! k) ↔ is_Some (m1 !! k) ∨ is_Some (m2 !! k).
Proof. unfold maps_copy. rewrite lookup_union_is_Some. tauto. Qed.

Lemma maps_copy_inv m1 m2 k v : maps_copy m1 m2 !! k = Some v → m2 !! k = Some v ∨ m1 !! k = Some v.
Proof. unfold maps_copy. rewrite lookup_union_Some_raw. tauto. Qed.

Lemma maps_copy_lookup_r m1 m2 k v : m2 !! k = Some v → maps_copy m1 m2 !! k = Some v.
Proof. intros E. unfold maps_copy. by apply lookup_union_Some_l. Qed.

Lemma maps_copy_lookup_l m1 m2 k : m2 !! k = None → maps_copy m1 m2 !! k = m1 !! k.
Proof. intros E. unfold maps_copy. by apply lookup_union_r. Qed.
End InsertAll.

(** * Association lists with distinct keys *)
Lemma nodup_fst_fun {A B} (l : list (A * B)) k v1 v2 :
  NoDup (l.*1) → (k, v1) ∈ l → (k, v2) ∈ l → v1 = v2.
Proof.
  intros Hnd H1 H2. induction l as [|[k' v'] l IH]; cbn in *; [set_solver|].
  apply NoDup_cons in Hnd as [Hk Hnd]. rewrite elem_of_cons in H1, H2.
  destruct H1 as [E1|H1], H2 as [E2|H2]; [congruence| | |auto]; exfalso; apply Hk.
  - injection E1 as -> ->. by apply (list_elem_of_fmap_2 fst _ _ H2).
  - injection E2 as -> ->. by apply (list_elem_of_fmap_2 fst _ _ H1).
Qed.

(** * First match: [slices.IndexFunc] followed by an index *)
Fixpoint find_first {A} (f : A → bool) (l : list A) : option A :=
  match l with
  | [] => None
  | x :: l => if f x then Some x else find_first f l
  end.

Lemma find_first_Some {A} (f : A → bool) l x :
  find_first f l = Some x → x ∈ l ∧ f x = true.
Proof.
  induction l as [|y l IH]; cbn; [done|].
  destruct (f y) eqn:E; [intros [= ->]; set_solver|]. intros Hx. apply IH in Hx. set_solver.
Qed.

Lemma find_first_is_Some {A} (f : A → bool) l x :
  x ∈ l → f x = true → is_Some (find_first f l).
Proof.
  induction l as [|y l IH]; cbn; [set_solver|].
  intros Hx Hf. destruct (f y) eqn:E; [done|].
  apply elem_of_cons in Hx as [->|Hx]; [congruence|auto].
Qed.

(** A key that is unique in a list tells its elements apart. *)
Lemma NoDup_key {A B} (key : A → B) (l : list A) x y :
  NoDup (key <$> l) → x ∈ l → y ∈ l → key x = key y → x = y.
Proof.
  intros Hnd [i Hi]%list_elem_of_lookup [j Hj]%list_elem_of_lookup E.
  assert (i = j) as ->; [|congruence].
  apply (NoDup_lookup _ _ _ (key x) Hnd); rewrite list_lookup_fmap; [by rewrite Hi|by rewrite Hj, E].
Qed.

(** The first match is the only one when the key is unique. *)
Lemma find_first_unique {A B} `{EqDecision B} (key : A → B) l x :
  NoDup (key <$> l) → x ∈ l → find_first (λ y, bool_decide (key x = key y)) l = Some x.
Proof.
  induction l as [|y l IH]; cbn; [set_solver|].
  rewrite NoDup_cons. intros [Hy Hnd] Hx. case_bool_decide as E.
  - apply elem_of_cons in Hx as [->|Hx]; [done|].
    exfalso. apply Hy. rewrite <- E. by apply list_elem_of_fmap_2.
  - apply elem_of_cons in Hx as [->|Hx]; [done|auto].
Qed.

(** * Removing duplicates, keeping the first occurrence *)
Fixpoint dedup_by {A B} `{EqDecision B} (key : A → B) (seen : list B) (l : list A) : list A :=
  match l with
  | [] => []
  | x :: l =>
      if bool_decide (key x ∈ seen) then dedup_by key seen l
      else x :: dedup_by key (key x :: seen) l
  end.

Section Dedup.
Context {A B : Type} `{EqDecision B} (key : A → B).

Lemma elem_of_dedup_by_keys seen l b :
  b ∈ key <$> dedup_by key seen l ↔ b ∈ key <$> l ∧ b ∉ seen.
Proof.
  revert seen. induction l as [|x l IH]; intros seen; cbn; [set_solver|].
  case_bool_decide as Hx; cbn; rewrite ?elem_of_cons, IH, ?elem_of_cons.
  - naive_solver.
  - destruct (decide (b = key x)) as [->|]; naive_solver.
Qed.

(** Only the members of the seen list matter. *)
Lemma dedup_by_seen s1 s2 l : (∀ b, b ∈ s1 ↔ b ∈ s2) → dedup_by key s1 l = dedup_by key s2 l.
Proof.
  revert s1 s2. induction l as [|x l IH]; intros s1 s2 Hs; cbn; [done|].
  rewrite (bool_decide_ext _ _ (Hs (key x))). case_bool_decide; [by apply IH|].
  f_equal. apply IH. intros b. rewrite !elem_of_cons, Hs. done.
Qed.

Lemma dedup_by_app seen l1 l2 :
  dedup_by key seen (l1 ++ l2) =
  dedup_by key seen l1 ++ dedup_by key (seen ++ (key <$> dedup_by key seen l1)) l2.
Proof.
  revert seen. induction l1 as [|x l1 IH]; intros seen; cbn; [by rewrite app_nil_r|].
  case_bool_decide as E; [by rewrite IH|]. rewrite IH. cbn. do 2 f_equal.
  apply dedup_by_seen. intros b. rewrite !elem_of_app, !elem_of_cons, elem_of_app. tauto.
Qed.

Lemma dedup_by_nodup seen l : NoDup (key <$> dedup_by key seen l).
Proof.
  revert seen. induction l as [|x l IH]; intros seen; cbn; [constructor|].
  case_bool_decide; [done|]. cbn. constructor; [|done].
  rewrite elem_of_dedup_by_keys. set_solver.
Qed.

Lemma dedup_by_sublist seen l : sublist (dedup_by key seen l) l.
Proof.
  revert seen. induction l as [|x l IH]; intros seen; cbn; [constructor|].
  case_bool_decide; by constructor.
Qed.
End Dedup.

(** * Tactics *)

(** Case analysis on the scrutinee of the first [match] or [if] of the goal. *)
Ltac go_case :=
  match goal with
  | |- context [ if ?b then _ else _ ] => destruct b eqn:?
  | |- context [ match ?x with _ => _ end ] => destruct x eqn:?
  end.

(** Splits a conjunction and closes what the [go] hints close. *)
Create HintDb go.
#[export] Hint Resolve list_elem_of_here list_elem_of_further : go.
#[export] Hint Rewrite @lookup_insert_eq @lookup_empty : go.

Ltac go_auto := repeat split; eauto with go; try done.

(** A closed decidable fact, after computing the goal to one *)
Ltac by_decision := cbn; apply (bool_decide_unpack _); by vm_compute.
