(* ===== verification/Strs.v ===== *)
(** The functions of Go's [strings], [slices] and [path/filepath] packages that
    the program calls, on byte strings, with the facts the other files use. *)
From S2P Require Import Prelude.
From Stdlib Require Import Ascii.

(** * Predicates *)

(** [strings.HasPrefix(s, p)] *)
Fixpoint HasPrefix (s p : string) : bool :=
  match p, s with
  | EmptyString, _ => true
  | String a p, String b s => bool_decide (a = b) && HasPrefix s p
  | _, EmptyString => false
  end.

(** [strings.Contains(s, sub)] *)
Fixpoint Contains (s sub : string) : bool :=
  HasPrefix s sub ||
  match s with
  | EmptyString => false
  | String _ s => Contains s sub
  end.

(** * Cutting and joining *)

(** The text before and after the first byte [c]. *)
Fixpoint cut (c : ascii) (s : string) : option (string * string) :=
  match s with
  | EmptyString => None
  | String a s =>
      if bool_decide (a = c) then Some ("", s)
      else '(l, r) ← cut c s; Some (String a l, r)
  end.

(** [strings.SplitN(s, "/", 2)] for a one-byte separator *)
Definition SplitN2 (c : ascii) (s : string) : list string :=
  match cut c s with None => [s] | Some (l, r) => [l; r] end.

(** [strings.Split(s, sep)] for a one-byte separator *)
Fixpoint Split (c : ascii) (s : string) : list string :=
  match s with
  | EmptyString => [""]
  | String a s =>
      if bool_decide (a = c) then "" :: Split c s
      else match Split c s with
           | [] => [String a ""]
           | w :: ws => String a w :: ws
           end
  end.

(** [strings.Join(ws, sep)] *)
Fixpoint Join (ws : list string) (sep : string) : string :=
  match ws with
  | [] => ""
  | [w] => w
  | w :: ws => w +:+ sep +:+ Join ws sep
  end.

(** * Byte-wise maps *)
Fixpoint map_bytes (f : ascii → ascii) (s : string) : string :=
  match s with
  | EmptyString => ""
  | String a s => String (f a) (map_bytes f s)
  end.

Definition code (a : ascii) : N := N_of_ascii a.

Definition between (lo hi : ascii) (a : ascii) : bool :=
  (code lo <=? code a)%N && (code a <=? code hi)%N.

Definition lower_byte (a : ascii) : ascii :=
  if between "A"%char "Z"%char a then ascii_of_N (code a + 32) else a.

Definition upper_byte (a : ascii) : ascii :=
  if between "a"%char "z"%char a then ascii_of_N (code a - 32) else a.

(** [strings.ToLower] and [strings.ToUpper] on ASCII text *)
Definition ToLower : string → string := map_bytes lower_byte.
Definition ToUpper : string → string := map_bytes upper_byte.

(** [strings.ReplaceAll(s, old, new)] for one-byte [old] and [new] *)
Definition ReplaceAll (old new : ascii) : string → string :=
  map_bytes (λ a, if bool_decide (a = old) then new else a).

(** * Trimming *)

(** Drops prefixes of [s] listed in [ws], [n] times at most. *)
Fixpoint trim_prefixes (n : nat) (ws : list string) (s : string) : string :=
  match n with
  | O => s
  | S n =>
      match find_first (HasPrefix s) ws with
      | None => s
      | Some w => trim_prefixes n ws (String.substring (String.length w) (String.length s) s)
      end
  end.

(** Every trimmed prefix is non-empty, so the length of [s] bounds their number. *)
Definition TrimLeft (ws : list string) (s : string) : string :=
  trim_prefixes (String.length s) ws s.

Definition TrimRight (ws : list string) (s : string) : string :=
  String.rev (TrimLeft (String.rev <$> ws) (String.rev s)).

Definition bytes_of (l : list N) : string :=
  String.string_of_list_ascii (ascii_of_N <$> l).

(** The UTF-8 encodings of the code points [unicode.IsSpace] accepts. *)
Definition space_encodings : list string :=
  bytes_of <$>
    [ [9]; [10]; [11]; [12]; [13]; [32]; [0xC2; 0x85]; [0xC2; 0xA0];
      [0xE1; 0x9A; 0x80];
      [0xE2; 0x80; 0x80]; [0xE2; 0x80; 0x81]; [0xE2; 0x80; 0x82]; [0xE2; 0x80; 0x83];
      [0xE2; 0x80; 0x84]; [0xE2; 0x80; 0x85]; [0xE2; 0x80; 0x86]; [0xE2; 0x80; 0x87];
      [0xE2; 0x80; 0x88]; [0xE2; 0x80; 0x89]; [0xE2; 0x80; 0x8A];
      [0xE2; 0x80; 0xA8]; [0xE2; 0x80; 0xA9]; [0xE2; 0x80; 0xAF];
      [0xE2; 0x81; 0x9F]; [0xE3; 0x80; 0x80] ]%N.

(** [strings.TrimSpace] on valid UTF-8 *)
Definition TrimSpace (s : string) : string :=
  TrimRight space_encodings (TrimLeft space_encodings s).

(** [strings.Trim(s, "/")] *)
Definition TrimSlashes (s : string) : string := TrimRight ["/"] (TrimLeft ["/"] s).

(** * [path/filepath] on a Unix system *)

(** The components [Clean] keeps: empty ones and [.] disappear, [..] removes the
    component before it, and at the root it disappears itself. *)
Fixpoint clean_components (rooted : bool) (acc : list string) (cs : list string) : list string :=
  match cs with
  | [] => reverse acc
  | c :: cs =>
      if bool_decide (c = "" ∨ c = ".") then clean_components rooted acc cs
      else if bool_decide (c = "..") then
        match acc with
        | [] => clean_components rooted (if rooted then [] else [".."]) cs
        | a :: acc' =>
            if bool_decide (a = "..") then clean_components rooted (".." :: acc) cs
            else clean_components rooted acc' cs
        end
      else clean_components rooted (c :: acc) cs
  end.

(** [filepath.Clean] *)
Definition Clean (path : string) : string :=
  if bool_decide (path = "") then "."
  else
    let rooted := HasPrefix path "/" in
    let body := Join (clean_components rooted [] (Split "/"%char path)) "/" in
    if rooted then "/" +:+ body
    else if bool_decide (body = "") then "." else body.

(** The text up to and including the last byte [c]. *)
Fixpoint upto_last (c : ascii) (s : string) : option string :=
  match s with
  | EmptyString => None
  | String a s =>
      match upto_last c s with
      | Some r => Some (String a r)
      | None => if bool_decide (a = c) then Some (String a "") else None
      end
  end.

(** [filepath.Dir] *)
Definition Dir (path : string) : string := Clean (default "" (upto_last "/"%char path)).

(** * Sorting strings *)

(** [slices.Sort] on strings *)
Definition sort_strings (l : list string) : list string := merge_sort String.le l.

(** [slices.SortFunc] with [strings.Compare] on a key *)
Definition key_le {A} (key : A → string) (x y : A) : Prop := String.le (key x) (key y).

#[export] Instance key_le_dec {A} (key : A → string) : RelDecision (key_le key).
Proof. intros x y. unfold key_le. apply _. Defined.

#[export] Instance key_le_total {A} (key : A → string) : Total (key_le key).
Proof. intros x y. apply (total String.le). Qed.

#[export] Instance key_le_trans {A} (key : A → string) : Transitive (key_le key).
Proof. intros x y z. unfold key_le. apply transitivity. Qed.

Definition sort_by {A} (key : A → string) (l : list A) : list A := merge_sort (key_le key) l.

(** * Facts *)
Lemma sort_strings_perm l : sort_strings l ≡ₚ l.
Proof. apply merge_sort_Permutation. Qed.

Lemma sort_strings_sorted l : StronglySorted String.le (sort_strings l).
Proof. apply StronglySorted_merge_sort; apply _. Qed.

(** Sorting forgets the order of its input. *)
Lemma sort_strings_perm_eq l1 l2 : l1 ≡ₚ l2 → sort_strings l1 = sort_strings l2.
Proof.
  intros Hp. apply (StronglySorted_unique String.le); auto using sort_strings_sorted.
  by rewrite !sort_strings_perm.
Qed.

Lemma sort_by_perm {A} (key : A → string) l : sort_by key l ≡ₚ l.
Proof. apply merge_sort_Permutation. Qed.

Lemma sort_by_sorted {A} (key : A → string) l : StronglySorted (key_le key) (sort_by key l).
Proof. apply StronglySorted_merge_sort; apply _. Qed.

Lemma app_assoc_str (s t u : string) : (s +:+ t) +:+ u = s +:+ (t +:+ u).
Proof. induction s as [|a s IH]; [done|]. cbn. unfold String.app in *. cbn. by rewrite <- IH. Qed.

Lemma app_nil_l_str (s : string) : "" +:+ s = s.
Proof. done. Qed.

Lemma app_cons_str a (s t : string) : String a s +:+ t = String a (s +:+ t).
Proof. done. Qed.

Lemma app_nil_r_str (s : string) : s +:+ "" = s.
Proof. induction s as [|a s IH]; [done|]. by rewrite app_cons_str, IH. Qed.

#[export] Instance app_inj_l (p : string) : Inj (=) (=) (String.append p).
Proof.
  induction p as [|a p IH]; intros s t; [done|].
  rewrite !app_cons_str. intros [= E]. by apply IH.
Qed.

Lemma HasPrefix_spec s p : HasPrefix s p = true ↔ ∃ t, s = p +:+ t.
Proof.
  revert s. induction p as [|a p IH]; intros [|b s]; cbn.
  - split; [|done]. intros _. by exists "".
  - split; [|done]. intros _. by exists (String b s).
  - split; [done|]. intros [t E]. discriminate.
  - rewrite andb_true_iff, bool_decide_eq_true, IH. split.
    + intros [-> [t ->]]. by exists t.
    + intros [t E]. rewrite app_cons_str in E. injection E as -> ->. eauto.
Qed.

Lemma Contains_unfold s sub :
  Contains s sub =
  HasPrefix s sub || match s with EmptyString => false | String _ s => Contains s sub end.
Proof. by destruct s. Qed.

Lemma Contains_spec s sub : Contains s sub = true ↔ ∃ l r, s = l +:+ sub +:+ r.
Proof.
  induction s as [|a s IH]; rewrite Contains_unfold, orb_true_iff, HasPrefix_spec.
  - split.
    + intros [[t E]|?]; [|done]. exists "", t. done.
    + intros (l & r & E). left. destruct l; [eauto|discriminate].
  - rewrite IH. split.
    + intros [[t E]|(l & r & ->)]; [by exists "", t|]. by exists (String a l), r.
    + intros ([|b l] & r & E); [left; by exists r|].
      rewrite app_cons_str in E. injection E as -> ->. eauto.
Qed.

(** * Words without a given byte, and the names built from them *)

(** [c] does not occur in [s]. *)
Fixpoint free_of (c : ascii) (s : string) : bool :=
  match s with
  | EmptyString => true
  | String a s => negb (bool_decide (a = c)) && free_of c s
  end.

(** A separator that the first word does not contain splits back uniquely. *)
Lemma sep_inj c (s1 s2 t1 t2 : string) :
  free_of c s1 = true → free_of c s2 = true →
  s1 +:+ String c t1 = s2 +:+ String c t2 → s1 = s2 ∧ t1 = t2.
Proof.
  revert s2. induction s1 as [|a s1 IH]; intros [|b s2]; cbn;
    rewrite ?andb_true_iff, ?negb_true_iff, ?bool_decide_eq_false,
      ?app_cons_str, ?app_nil_l_str.
  - by intros _ _ [= ->].
  - intros _ [Hb _] [= <- _]. done.
  - intros [Ha _] _ [= -> _]. done.
  - intros [_ H1] [_ H2] [= <- E]. destruct (IH s2 H1 H2 E) as [-> ->]. done.
Qed.

(** A word free of [c] is never a word with [c] in it. *)
Lemma sep_ne c (s t1 t2 : string) : free_of c s = true → s ≠ t1 +:+ String c t2.
Proof.
  revert t1. induction s as [|a s IH]; intros [|b t1]; cbn;
    rewrite ?app_cons_str, ?app_nil_l_str; try done;
    rewrite andb_true_iff, negb_true_iff, bool_decide_eq_false.
  - intros [Ha _] [= -> _]. done.
  - intros [_ Hs] [= <- E]. by apply (IH t1).
Qed.

Lemma free_of_app c s t : free_of c (s +:+ t) = free_of c s && free_of c t.
Proof.
  induction s as [|a s IH]; [done|]. rewrite app_cons_str. cbn. by rewrite IH, andb_assoc.
Qed.

Lemma cut_free c s : free_of c s = true → cut c s = None.
Proof.
  induction s as [|a s IH]; cbn; [done|].
  rewrite andb_true_iff, negb_true_iff. intros [-> Hs]. by rewrite IH.
Qed.

Lemma cut_app c s t : free_of c s = true → cut c (s +:+ String c t) = Some (s, t).
Proof.
  induction s as [|a s IH]; cbn.
  - rewrite app_nil_l_str. cbn. by rewrite bool_decide_true.
  - rewrite andb_true_iff, negb_true_iff. intros [Ha Hs]. rewrite app_cons_str. cbn.
    rewrite Ha, IH by done. done.
Qed.

Lemma cut_Some c s l r : cut c s = Some (l, r) → s = l +:+ String c r ∧ free_of c l = true.
Proof.
  revert l. induction s as [|a s IH]; intros l; cbn; [done|].
  case_bool_decide as E.
  - intros [= <- <-]. by subst.
  - destruct (cut c s) as [[l' r']|] eqn:Ec; cbn; [|done].
    intros [= <- <-]. destruct (IH l' eq_refl) as [-> Hf]. rewrite app_cons_str. cbn.
    by rewrite Hf, bool_decide_false.
Qed.

Example trim_space_ex : TrimSpace ("  a b" +:+ bytes_of [0xC2; 0xA0; 10]%N) = "a b".
Proof. reflexivity. Qed.
Example dir_ex : (Dir "/var/log/x.json", Dir "x.json", Dir "/a/../b//c/./d", Dir "/x") =
  ("/var/log", ".", "/b/c", "/").
Proof. reflexivity. Qed.
