(* ===== verification/Json.v ===== *)
(** Dynamic Go values ([any]) and the composition of [json.Marshal] and
    [json.Unmarshal] into [map[string]any] that the exporters use to turn a
    configuration struct into a map. *)
From S2P Require Import Prelude.

(** * Values of type [any] *)
Inductive any : Type :=
| any_nil
| any_bool (b : bool)
| any_string (s : string)
| any_int (z : Z)          (** an integer of some Go integer type *)
| any_float (z : Z)        (** a float64 that holds an integer *)
| any_strings (l : list string)
| any_slice (l : list any)
| any_map (m : gmap string any).

(** * Integers through JSON

    A number decoded into [any] is a float64: the integer is rounded to 53
    significant bits, to nearest, ties to even. *)
Definition float64_of_int (z : Z) : Z :=
  let e := (Z.log2 (Z.abs z) - 52)%Z in
  if (e <=? 0)%Z then z
  else
    let q := (Z.abs z / 2 ^ e)%Z in
    let r := (Z.abs z mod 2 ^ e)%Z in
    let half := (2 ^ (e - 1))%Z in
    let q' := if (r <? half)%Z then q
              else if (half <? r)%Z then (q + 1)%Z
              else if Z.even q then q else (q + 1)%Z in
    (Z.sgn z * (q' * 2 ^ e))%Z.

(** * Struct encoding

    The fields of a struct in declaration order, under their JSON names; [None]
    is a field that [omitempty] leaves out. *)
Abbreviation fields := (list (string * option any)).

Definition field_string (name : string) (s : string) : string * option any :=
  (name, Some (any_string s)).
Definition field_bool (name : string) (b : bool) : string * option any :=
  (name, Some (any_bool b)).

(** [omitempty] on a value *)
Definition opt_string (name : string) (s : string) : string * option any :=
  (name, if bool_decide (s = "") then None else Some (any_string s)).
Definition opt_bool (name : string) (b : bool) : string * option any :=
  (name, if b then Some (any_bool true) else None).
Definition opt_int (name : string) (z : Z) : string * option any :=
  (name, if bool_decide (z = 0%Z) then None else Some (any_float (float64_of_int z))).
Definition opt_strings (name : string) (s : golist string) : string * option any :=
  (name, match elems s with [] => None | l => Some (any_slice (any_string <$> l)) end).
Definition opt_ints (name : string) (s : golist Z) : string * option any :=
  (name, match elems s with
         | [] => None
         | l => Some (any_slice ((λ z, any_float (float64_of_int z)) <$> l))
         end).

(** [omitempty] on a pointer: only [nil] is left out. *)
Definition opt_ptr {A} (enc : A → any) (name : string) (p : option A) : string * option any :=
  (name, enc <$> p).
(** A pointer without [omitempty]: [nil] is written as [null]. *)
Definition field_ptr {A} (enc : A → any) (name : string) (p : option A) : string * option any :=
  (name, Some (match p with None => any_nil | Some a => enc a end)).

Definition enc_int (z : Z) : any := any_float (float64_of_int z).
Definition enc_string_map (f : string → string) (m : gomap string string) : any :=
  match m with None => any_nil | Some m => any_map ((any_string ∘ f) <$> m) end.
Definition enc_bool_map (m : gomap string bool) : any :=
  match m with None => any_nil | Some m => any_map (any_bool <$> m) end.

(** Embedding a struct: its fields are promoted unless the outer struct
    declares a field of the same JSON name, even one that is left out. *)
Definition embed (outer inner : fields) : fields :=
  outer ++ filter (λ f, f.1 ∉ outer.*1) inner.

(** The object that decoding the encoded struct gives back. *)
Definition object (fs : fields) : gmap string any :=
  list_to_map (omap (λ f, v ← f.2; Some (f.1, v)) fs).
Definition enc_struct (fs : fields) : any := any_map (object fs).

(** * Facts *)
Lemma object_lookup fs k v :
  NoDup (fs.*1) → (k, Some v) ∈ fs → object fs !! k = Some v.
Proof.
  intros Hnd Hin. unfold object.
  induction fs as [|[k' [v'|]] fs IH]; cbn in *; [set_solver| |];
    apply NoDup_cons in Hnd as [Hk Hnd]; apply elem_of_cons in Hin as [E|Hin].
  - injection E as -> ->. apply lookup_insert_eq.
  - rewrite lookup_insert_ne; [auto|]. intros ->. apply Hk, list_elem_of_fmap. by exists (k, Some v).
  - discriminate.
  - auto.
Qed.

Lemma object_lookup_None fs k : (∀ v, (k, Some v) ∉ fs) → object fs !! k = None.
Proof.
  intros Hk. unfold object. apply not_elem_of_list_to_map. intros Hin.
  apply list_elem_of_fmap in Hin as ([k' v] & -> & Hin).
  apply list_elem_of_omap in Hin as ([k'' [v'|]] & Hin & E); [|discriminate].
  injection E as -> ->. by apply (Hk v).
Qed.

Lemma embed_keys outer inner k :
  k ∈ (embed outer inner).*1 ↔ k ∈ outer.*1 ∨ k ∈ inner.*1.
Proof.
  unfold embed. rewrite fmap_app, elem_of_app, !list_elem_of_fmap. setoid_rewrite list_elem_of_filter.
  split; [naive_solver|]. intros [?|(f & -> & Hf)]; [by left|].
  destruct (decide (f.1 ∈ outer.*1)) as [E|E]; [left; by apply list_elem_of_fmap|right; eauto].
Qed.

Lemma embed_nodup outer inner :
  NoDup (outer.*1) → NoDup (inner.*1) → NoDup ((embed outer inner).*1).
Proof.
  intros Ho Hi. unfold embed. rewrite fmap_app. apply NoDup_app. split_and!; [done| |].
  - intros k Hk Hin. apply list_elem_of_fmap in Hin as (f & -> & Hf).
    apply list_elem_of_filter in Hf as [? _]. done.
  - eapply sublist_NoDup; [exact Hi|]. apply fmap_sublist, sublist_filter.
Qed.

(** The outer struct's field wins, also when it is left out. *)
Lemma embed_shadows outer inner k :
  NoDup (outer.*1) → k ∈ outer.*1 → object (embed outer inner) !! k = object outer !! k.
Proof.
  intros Hnd Hk. apply list_elem_of_fmap in Hk as ([k' [v|]] & -> & Hin); cbn.
  - unfold object, embed. rewrite omap_app, list_to_map_app.
    rewrite (lookup_union_Some_l _ _ _ v); [symmetry|]; by apply (object_lookup outer).
  - rewrite !object_lookup_None; [done| |].
    + intros v Hv. by pose proof (nodup_fst_fun _ _ _ _ Hnd Hin Hv).
    + intros v Hv. unfold embed in Hv. apply elem_of_app in Hv as [Hv|Hv].
      * by pose proof (nodup_fst_fun _ _ _ _ Hnd Hin Hv).
      * apply list_elem_of_filter in Hv as [Hv _]. apply Hv. by apply (list_elem_of_fmap_2 fst _ _ Hin).
Qed.

(** Integers of at most 53 bits survive the trip through float64. *)
Lemma float64_of_int_exact z : (Z.abs z < 2 ^ 53)%Z → float64_of_int z = z.
Proof.
  intros Hz. unfold float64_of_int.
  assert (Z.log2 (Z.abs z) < 53)%Z.
  { destruct (decide (Z.abs z = 0%Z)) as [->|]; [done|]. apply Z.log2_lt_pow2; lia. }
  destruct (Z.leb_spec (Z.log2 (Z.abs z) - 52) 0); lia.
Qed.
