(* ===== verification/Errors.v ===== *)
(** Go errors as values: what [emperror.dev/errors], [multierror] and the API
    machinery let the program observe of an error, which is its text, the
    sentinels it wraps and the API reason it carries. *)
From S2P Require Import Prelude.

(** The package-level error values of [manager/collector_manager.go] *)
Inductive sentinel := ErrTenantFailed | ErrNoResources.

#[export] Instance sentinel_eq_dec : EqDecision sentinel.
Proof. solve_decision. Defined.

(** The reasons of an API error that the program asks for *)
Inductive api_reason := NotFound | Conflict | OtherReason.

#[export] Instance api_reason_eq_dec : EqDecision api_reason.
Proof. solve_decision. Defined.

Inductive error : Type :=
| ErrText (msg : string)                      (** [errors.New], [errors.Errorf] *)
| ErrSentinel (s : sentinel)
| ErrApi (r : api_reason) (msg : string)      (** an answer of the API server *)
| ErrWrap (msg : string) (e : error)          (** [errors.Wrap], [errors.Wrapf] *)
| ErrCombine (es : list error)                (** [errors.Combine] *)
| ErrMulti (es : list error).                 (** [multierror.Append] *)

(** [errors.Is(err, sentinel)] *)
Fixpoint Is (e : error) (s : sentinel) : bool :=
  match e with
  | ErrText _ | ErrApi _ _ => false
  | ErrSentinel s' => bool_decide (s' = s)
  | ErrWrap _ e => Is e s
  | ErrCombine es | ErrMulti es => existsb (λ e, Is e s) es
  end.

(** [apierrors.ReasonForError]: the reason of the first API error in the chain *)
Fixpoint reason_for (e : error) : option api_reason :=
  match e with
  | ErrText _ | ErrSentinel _ => None
  | ErrApi r _ => Some r
  | ErrWrap _ e => reason_for e
  | ErrCombine es | ErrMulti es =>
      fold_right (λ e acc, match reason_for e with Some r => Some r | None => acc end) None es
  end.

Definition IsNotFound (e : error) : bool := bool_decide (reason_for e = Some NotFound).
Definition IsConflict (e : error) : bool := bool_decide (reason_for e = Some Conflict).

(** A Go function that returns [(T, error)] *)
Inductive result (A : Type) : Type :=
| Ok (a : A)
| Err (e : error).
Arguments Ok {A} a.
Arguments Err {A} e.

(** [errors.Wrapf(err, msg)] on the error of a result *)
Definition wrap {A} (msg : string) (r : result A) : result A :=
  match r with Ok a => Ok a | Err e => Err (ErrWrap msg e) end.

(** [client.IgnoreNotFound(err) != nil] *)
Definition is_real_error (o : option error) : option error :=
  match o with
  | Some e => if IsNotFound e then None else Some e
  | None => None
  end.

(** [errors.Combine]: nil errors are dropped; nothing left is no error, one
    error is itself. *)
Definition Combine (os : list (option error)) : option error :=
  match omap id os with
  | [] => None
  | [e] => Some e
  | es => Some (ErrCombine es)
  end.

(** [multierror.Append] in a loop followed by [ErrorOrNil] *)
Definition MultiError (es : list error) : option error :=
  match es with [] => None | _ => Some (ErrMulti es) end.

Declare Scope world_scope.
Delimit Scope world_scope with world.

(** * Computations against the cluster

    A function that talks to the API server takes the world and gives it back
    with its result, on errors too. *)
Definition M (W A : Type) : Type := W → W * A.

Definition ret {W A} (a : A) : M W A := λ w, (w, a).
Definition bind {W A B} (m : M W A) (f : A → M W B) : M W B :=
  λ w, let '(w, a) := m w in f a w.

(** Binds the value of a call that returned no error; an error returns. *)
Definition try {W A B} (m : M W (result A)) (f : A → M W (result B)) : M W (result B) :=
  bind m (λ r, match r with Ok a => f a | Err e => ret (Err e) end).

Notation "x <~ m ; f" := (bind m (λ x, f))
  (at level 100, m at next level, right associativity) : world_scope.
Notation "x <! m ; f" := (try m (λ x, f))
  (at level 100, m at next level, right associativity) : world_scope.

Definition wrapM {W A} (msg : string) (m : M W (result A)) : M W (result A) :=
  bind m (λ r, ret (wrap msg r)).

(** A loop over a list that carries a state and stops at the first error. *)
Fixpoint loop {W A S} (f : A → S → M W (result S)) (xs : list A) (s : S) : M W (result S) :=
  match xs with
  | [] => ret (Ok s)
  | x :: xs => try (f x s) (loop f xs)
  end.

(** A loop that cannot fail. *)
Fixpoint foreach {W A S} (f : A → S → M W S) (xs : list A) (s : S) : M W S :=
  match xs with
  | [] => ret s
  | x :: xs => bind (f x s) (foreach f xs)
  end.

(** * Facts *)
Lemma wrap_Ok {A} msg (r : result A) a : wrap msg r = Ok a ↔ r = Ok a.
Proof. destruct r; cbn; split; congruence. Qed.

Lemma Is_wrap msg e s : Is (ErrWrap msg e) s = Is e s.
Proof. done. Qed.

Lemma try_Ok {W A B} (m : M W (result A)) (f : A → M W (result B)) w w' b :
  try m f w = (w', Ok b) ↔ ∃ w1 a, m w = (w1, Ok a) ∧ f a w1 = (w', Ok b).
Proof.
  unfold try, bind, ret. destruct (m w) as [w1 [a|e]]; split.
  - eauto.
  - by intros (? & ? & [= <- <-] & ?).
  - done.
  - by intros (? & ? & ? & ?).
Qed.

Lemma wrapM_Ok {W A} msg (m : M W (result A)) w w' a :
  wrapM msg m w = (w', Ok a) ↔ m w = (w', Ok a).
Proof.
  unfold wrapM, bind, ret. destruct (m w) as [w1 r]. split.
  - intros [= <- E]. f_equal. by apply wrap_Ok in E.
  - by intros [= <- ->].
Qed.

(** Induction on a loop that succeeds: an invariant of its state. *)
Lemma loop_inv {W A S} (P : list A → S → Prop) (f : A → S → M W (result S)) xs :
  ∀ done s w w' s',
  P done s →
  (∀ done x s w w' s', P done s → x ∈ xs → f x s w = (w', Ok s') → P (done ++ [x]) s') →
  loop f xs s w = (w', Ok s') → P (done ++ xs) s'.
Proof.
  induction xs as [|x xs IH]; intros dn s w w' s' HP Hstep; cbn.
  - intros [= _ <-]. by rewrite app_nil_r.
  - intros E. apply try_Ok in E as (w1 & s1 & Ef & El).
    replace (dn ++ x :: xs) with ((dn ++ [x]) ++ xs) by (by rewrite <- app_assoc).
    apply (IH _ s1 w1 w'); [|set_solver|done].
    eapply Hstep; eauto. set_solver.
Qed.

Lemma foreach_inv {W A S} (P : list A → S → Prop) (f : A → S → M W S) xs :
  ∀ done s w w' s',
  P done s →
  (∀ done x s w w' s', P done s → x ∈ xs → f x s w = (w', s') → P (done ++ [x]) s') →
  foreach f xs s w = (w', s') → P (done ++ xs) s'.
Proof.
  induction xs as [|x xs IH]; intros dn s w w' s' HP Hstep; cbn.
  - intros [= _ <-]. by rewrite app_nil_r.
  - unfold bind. destruct (f x s w) as [w1 s1] eqn:Ef. intros El.
    replace (dn ++ x :: xs) with ((dn ++ [x]) ++ xs) by (by rewrite <- app_assoc).
    apply (IH _ s1 w1 w'); [|set_solver|done].
    eapply Hstep; eauto. set_solver.
Qed.
