(* ===== verification/ApiOtlp.v ===== *)
(** The client, queue and retry settings of [api/telemetry/v1alpha1/otlp_config.go]
    as records, a field per Go field and a [None] per nil pointer, each with the
    fields its JSON tags write. *)
From S2P Require Import Prelude Json Errors.

(** What the program takes from packages outside the repository. *)
Class Platform : Type := {
  (** [component.ID]; its [MarshalText] gives a text or an error *)
  component_ID : Type;
  component_ID_text : component_ID → option string;
  (** the text [configopaque.String] marshals to *)
  opaque_text : string → string;
  (** [metav1.LabelSelector] and [metav1.LabelSelectorAsSelector] *)
  label_selector : Type;
  selector : Type;
  LabelSelectorAsSelector : label_selector → result selector;
  (** how [multierror] and [errors.Combine] print the errors they join *)
  multierror_text : list string → string;
  combine_text : list string → string;
  (** [runtime.GOOS], and the Windows storage directory read from the environment *)
  GOOS : string;
  file_storage_directory_windows : string;
  (** [configauth.Config] *)
  configauth_Config : Type;
  (** [resource.NewQuantity(v, BinarySI).String()] *)
  quantity_text : Z → string
}.

Record TimeoutSettings := mkTimeoutSettings {
  TimeoutSettings_Timeout : option string
}.

Definition TimeoutSettings_fields (c : TimeoutSettings) : fields :=
  [ opt_ptr any_string "timeout" (TimeoutSettings_Timeout c) ].

Record QueueBatch := mkQueueBatch {
  QueueBatch_FlushTimeout : string;
  QueueBatch_MinSize : option Z;
  QueueBatch_MaxSize : option Z;
  QueueBatch_Sizer : option string;
  QueueBatch_MetadataKeys : golist string
}.

Record QueueSettings := mkQueueSettings {
  QueueSettings_NumConsumers : option Z;
  QueueSettings_QueueSize : option Z;
  QueueSettings_Sizer : option string;
  QueueSettings_WaitForResult : option bool;
  QueueSettings_BlockOnOverflow : option bool;
  QueueSettings_Batch : option QueueBatch
}.

Record BackOffConfig := mkBackOffConfig {
  BackOffConfig_InitialInterval : option string;
  BackOffConfig_RandomizationFactor : option string;
  BackOffConfig_Multiplier : option string;
  BackOffConfig_MaxInterval : option string;
  BackOffConfig_MaxElapsedTime : option string
}.

Record KeepaliveClientConfig := mkKeepaliveClientConfig {
  KeepaliveClientConfig_Time : option string;
  KeepaliveClientConfig_Timeout : option string;
  KeepaliveClientConfig_PermitWithoutStream : bool
}.

Definition KeepaliveClientConfig_fields (c : KeepaliveClientConfig) : fields :=
  [ opt_ptr any_string "time" (KeepaliveClientConfig_Time c);
    opt_ptr any_string "timeout" (KeepaliveClientConfig_Timeout c);
    opt_bool "permit_without_stream" (KeepaliveClientConfig_PermitWithoutStream c) ].

Record TLSSetting := mkTLSSetting {
  TLSSetting_CAFile : string;
  TLSSetting_CAPem : string;
  TLSSetting_IncludeSystemCACertsPool : bool;
  TLSSetting_CertFile : string;
  TLSSetting_CertPem : string;
  TLSSetting_KeyFile : string;
  TLSSetting_KeyPem : string;
  TLSSetting_MinVersion : string;
  TLSSetting_MaxVersion : string;
  TLSSetting_CipherSuites : golist string;
  TLSSetting_ReloadInterval : option string;
  TLSSetting_CurvePreferences : golist string
}.

Definition TLSSetting_fields (c : TLSSetting) : fields :=
  [ opt_string "ca_file" (TLSSetting_CAFile c);
    opt_string "ca_pem" (TLSSetting_CAPem c);
    opt_bool "include_system_ca_certs_pool" (TLSSetting_IncludeSystemCACertsPool c);
    opt_string "cert_file" (TLSSetting_CertFile c);
    opt_string "cert_pem" (TLSSetting_CertPem c);
    opt_string "key_file" (TLSSetting_KeyFile c);
    opt_string "key_pem" (TLSSetting_KeyPem c);
    opt_string "min_version" (TLSSetting_MinVersion c);
    opt_string "max_version" (TLSSetting_MaxVersion c);
    opt_strings "cipher_suites" (TLSSetting_CipherSuites c);
    opt_ptr any_string "reload_interval" (TLSSetting_ReloadInterval c);
    opt_strings "curve_preferences" (TLSSetting_CurvePreferences c) ].

Record TLSClientSetting := mkTLSClientSetting {
  TLSClientSetting_TLSSetting : TLSSetting;
  TLSClientSetting_Insecure : bool;
  TLSClientSetting_InsecureSkipVerify : bool;
  TLSClientSetting_ServerName : string
}.

Definition TLSClientSetting_fields (c : TLSClientSetting) : fields :=
  embed [ opt_bool "insecure" (TLSClientSetting_Insecure c);
          opt_bool "insecure_skip_verify" (TLSClientSetting_InsecureSkipVerify c);
          opt_string "server_name_override" (TLSClientSetting_ServerName c) ]
        (TLSSetting_fields (TLSClientSetting_TLSSetting c)).

Record Authentication := mkAuthentication {
  Authentication_AuthenticatorID : option string
}.

Definition Authentication_fields (c : Authentication) : fields :=
  [ opt_ptr any_string "authenticator" (Authentication_AuthenticatorID c) ].

Record CompressionParams := mkCompressionParams { CompressionParams_Level : option Z }.

Definition CompressionParams_fields (c : CompressionParams) : fields :=
  [ opt_ptr enc_int "level" (CompressionParams_Level c) ].

Record CookiesConfig := mkCookiesConfig { CookiesConfig_Enabled : bool }.

Definition CookiesConfig_fields (c : CookiesConfig) : fields :=
  [ opt_bool "enabled" (CookiesConfig_Enabled c) ].

(** An optional struct field. *)
Definition opt_struct {A} (f : A → fields) (name : string) (p : option A) : string * option any :=
  opt_ptr (enc_struct ∘ f) name p.

Record GRPCClientConfig := mkGRPCClientConfig {
  GRPCClientConfig_Endpoint : option string;
  GRPCClientConfig_Compression : option string;
  GRPCClientConfig_TLSSetting : option TLSClientSetting;
  GRPCClientConfig_Keepalive : option KeepaliveClientConfig;
  GRPCClientConfig_ReadBufferSize : option Z;
  GRPCClientConfig_WriteBufferSize : option Z;
  GRPCClientConfig_WaitForReady : option bool;
  GRPCClientConfig_Headers : option (gomap string string);
  GRPCClientConfig_BalancerName : option string;
  GRPCClientConfig_Authority : option string;
  GRPCClientConfig_Auth : option Authentication
}.

Definition GRPCClientConfig_fields (c : GRPCClientConfig) : fields :=
  [ field_ptr any_string "endpoint" (GRPCClientConfig_Endpoint c);
    opt_ptr any_string "compression" (GRPCClientConfig_Compression c);
    opt_struct TLSClientSetting_fields "tls" (GRPCClientConfig_TLSSetting c);
    opt_struct KeepaliveClientConfig_fields "keepalive" (GRPCClientConfig_Keepalive c);
    opt_ptr enc_int "read_buffer_size" (GRPCClientConfig_ReadBufferSize c);
    opt_ptr enc_int "write_buffer_size" (GRPCClientConfig_WriteBufferSize c);
    opt_ptr any_bool "wait_for_ready" (GRPCClientConfig_WaitForReady c);
    opt_ptr (enc_string_map id) "headers" (GRPCClientConfig_Headers c);
    opt_ptr any_string "balancer_name" (GRPCClientConfig_BalancerName c);
    opt_ptr any_string "authority" (GRPCClientConfig_Authority c);
    opt_struct Authentication_fields "auth" (GRPCClientConfig_Auth c) ].

(** [internalConfig.Auth = auth] on the embedded client configuration *)
Definition GRPCClientConfig_set_Auth (a : option Authentication) (c : GRPCClientConfig) : GRPCClientConfig :=
  mkGRPCClientConfig (GRPCClientConfig_Endpoint c) (GRPCClientConfig_Compression c)
    (GRPCClientConfig_TLSSetting c) (GRPCClientConfig_Keepalive c)
    (GRPCClientConfig_ReadBufferSize c) (GRPCClientConfig_WriteBufferSize c)
    (GRPCClientConfig_WaitForReady c) (GRPCClientConfig_Headers c)
    (GRPCClientConfig_BalancerName c) (GRPCClientConfig_Authority c) a.

Record HTTPClientConfig := mkHTTPClientConfig {
  HTTPClientConfig_Endpoint : option string;
  HTTPClientConfig_ProxyURL : option string;
  HTTPClientConfig_TLSSetting : option TLSClientSetting;
  HTTPClientConfig_ReadBufferSize : option Z;
  HTTPClientConfig_WriteBufferSize : option Z;
  HTTPClientConfig_Timeout : option string;
  HTTPClientConfig_Headers : option (gomap string string);
  HTTPClientConfig_Auth : option Authentication;
  HTTPClientConfig_Compression : option string;
  HTTPClientConfig_CompressionParams : option CompressionParams;
  HTTPClientConfig_MaxIdleConns : option Z;
  HTTPClientConfig_MaxIdleConnsPerHost : option Z;
  HTTPClientConfig_MaxConnsPerHost : option Z;
  HTTPClientConfig_IdleConnTimeout : option string;
  HTTPClientConfig_DisableKeepAlives : option bool;
  HTTPClientConfig_HTTP2ReadIdleTimeout : option string;
  HTTPClientConfig_HTTP2PingTimeout : option string;
  HTTPClientConfig_Cookies : option CookiesConfig
}.

Definition HTTPClientConfig_set_Auth (a : option Authentication) (c : HTTPClientConfig) : HTTPClientConfig :=
  mkHTTPClientConfig (HTTPClientConfig_Endpoint c) (HTTPClientConfig_ProxyURL c)
    (HTTPClientConfig_TLSSetting c) (HTTPClientConfig_ReadBufferSize c)
    (HTTPClientConfig_WriteBufferSize c) (HTTPClientConfig_Timeout c)
    (HTTPClientConfig_Headers c) a (HTTPClientConfig_Compression c)
    (HTTPClientConfig_CompressionParams c) (HTTPClientConfig_MaxIdleConns c)
    (HTTPClientConfig_MaxIdleConnsPerHost c) (HTTPClientConfig_MaxConnsPerHost c)
    (HTTPClientConfig_IdleConnTimeout c) (HTTPClientConfig_DisableKeepAlives c)
    (HTTPClientConfig_HTTP2ReadIdleTimeout c) (HTTPClientConfig_HTTP2PingTimeout c)
    (HTTPClientConfig_Cookies c).

Section HTTPFields.
Context `{Platform}.

(** The header values are [configopaque.String]s: what is written is their
    marshalled text. *)
Definition HTTPClientConfig_fields (c : HTTPClientConfig) : fields :=
  [ opt_ptr any_string "endpoint" (HTTPClientConfig_Endpoint c);
    opt_ptr any_string "proxy_url" (HTTPClientConfig_ProxyURL c);
    opt_struct TLSClientSetting_fields "tls" (HTTPClientConfig_TLSSetting c);
    opt_ptr enc_int "read_buffer_size" (HTTPClientConfig_ReadBufferSize c);
    opt_ptr enc_int "write_buffer_size" (HTTPClientConfig_WriteBufferSize c);
    opt_ptr any_string "timeout" (HTTPClientConfig_Timeout c);
    opt_ptr (enc_string_map opaque_text) "headers" (HTTPClientConfig_Headers c);
    opt_struct Authentication_fields "auth" (HTTPClientConfig_Auth c);
    opt_ptr any_string "compression" (HTTPClientConfig_Compression c);
    opt_struct CompressionParams_fields "compression_params" (HTTPClientConfig_CompressionParams c);
    opt_ptr enc_int "max_idle_conns" (HTTPClientConfig_MaxIdleConns c);
    opt_ptr enc_int "max_idle_conns_per_host" (HTTPClientConfig_MaxIdleConnsPerHost c);
    opt_ptr enc_int "max_conns_per_host" (HTTPClientConfig_MaxConnsPerHost c);
    opt_ptr any_string "idle_conn_timeout" (HTTPClientConfig_IdleConnTimeout c);
    opt_ptr any_bool "disable_keep_alives" (HTTPClientConfig_DisableKeepAlives c);
    opt_ptr any_string "http2_read_idle_timeout" (HTTPClientConfig_HTTP2ReadIdleTimeout c);
    opt_ptr any_string "http2_ping_timeout" (HTTPClientConfig_HTTP2PingTimeout c);
    opt_struct CookiesConfig_fields "cookies" (HTTPClientConfig_Cookies c) ].
End HTTPFields.
