(* ===== verification/ApiOutput.v ===== *)
(** The output resource of [api/telemetry/v1alpha1/output_types.go]: one record
    per exporter kind with its JSON fields, the authentication and batch
    settings, and the resource with its status. *)
From S2P Require Import Prelude Json ApiOtlp.

(** [v1alpha1.NamespacedName] (common.go) *)
Record NamespacedName := mkNamespacedName {
  NamespacedName_Namespace : string;
  NamespacedName_Name : string
}.

#[export] Instance NamespacedName_eq_dec : EqDecision NamespacedName.
Proof. solve_decision. Defined.

#[export] Instance NamespacedName_countable : Countable NamespacedName.
Proof.
  refine (inj_countable'
    (λ n, (NamespacedName_Namespace n, NamespacedName_Name n))
    (λ p, mkNamespacedName p.1 p.2) _).
  by intros [].
Defined.

(** [NamespacedName.String] *)
Definition NamespacedName_String (n : NamespacedName) : string :=
  NamespacedName_Namespace n +:+ "/" +:+ NamespacedName_Name n.

(** [state.State] with its constants *)
Abbreviation State := string (only parsing).
Definition StateReady : State := "ready".
Definition StateFailed : State := "failed".

Record Batch := mkBatch {
  Batch_Timeout : string;
  Batch_SendBatchSize : Z;
  Batch_SendBatchMaxSize : Z;
  Batch_MetadataKeys : golist string;
  Batch_MetadataCardinalityLimit : Z
}.

(** [corev1.SecretReference] *)
Record SecretReference := mkSecretReference {
  SecretReference_Namespace : string;
  SecretReference_Name : string
}.

Record BasicAuthConfig := mkBasicAuthConfig {
  BasicAuthConfig_SecretRef : option SecretReference;
  BasicAuthConfig_UsernameField : string;
  BasicAuthConfig_PasswordField : string
}.

Record BearerAuthConfig := mkBearerAuthConfig {
  BearerAuthConfig_SecretRef : option SecretReference;
  BearerAuthConfig_TokenField : string
}.

Record OutputAuth := mkOutputAuth {
  OutputAuth_BasicAuth : option BasicAuthConfig;
  OutputAuth_BearerAuth : option BearerAuthConfig
}.

Record OTLPGRPC := mkOTLPGRPC {
  OTLPGRPC_QueueConfig : option QueueSettings;
  OTLPGRPC_RetryConfig : option BackOffConfig;
  OTLPGRPC_TimeoutSettings : TimeoutSettings;
  OTLPGRPC_GRPCClientConfig : GRPCClientConfig
}.

Record OTLPHTTP := mkOTLPHTTP {
  OTLPHTTP_QueueConfig : option QueueSettings;
  OTLPHTTP_RetryConfig : option BackOffConfig;
  OTLPHTTP_HTTPClientConfig : HTTPClientConfig;
  OTLPHTTP_Encoding : option string
}.

Record Rotation := mkRotation {
  Rotation_MaxMegabytes : Z;
  Rotation_MaxDays : Z;
  Rotation_MaxBackups : Z;
  Rotation_LocalTime : option bool
}.

Definition Rotation_fields (c : Rotation) : fields :=
  [ opt_int "max_megabytes" (Rotation_MaxMegabytes c);
    opt_int "max_days" (Rotation_MaxDays c);
    opt_int "max_backups" (Rotation_MaxBackups c);
    opt_ptr any_bool "localtime" (Rotation_LocalTime c) ].

Record GroupBy := mkGroupBy {
  GroupBy_Enabled : bool;
  GroupBy_ResourceAttribute : string;
  GroupBy_MaxOpenFiles : Z
}.

Definition GroupBy_fields (c : GroupBy) : fields :=
  [ opt_bool "enabled" (GroupBy_Enabled c);
    opt_string "resource_attribute" (GroupBy_ResourceAttribute c);
    opt_int "max_open_files" (GroupBy_MaxOpenFiles c) ].

Record ElasticsearchMapping := mkElasticsearchMapping { ElasticsearchMapping_Mode : option string }.

Definition ElasticsearchMapping_fields (c : ElasticsearchMapping) : fields :=
  [ opt_ptr any_string "mode" (ElasticsearchMapping_Mode c) ].

Record ElasticsearchRetry := mkElasticsearchRetry {
  ElasticsearchRetry_Enabled : option bool;
  ElasticsearchRetry_MaxRetries : option Z;
  ElasticsearchRetry_InitialInterval : option string;
  ElasticsearchRetry_MaxInterval : option string;
  ElasticsearchRetry_RetryOnStatus : golist Z
}.

Definition ElasticsearchRetry_fields (c : ElasticsearchRetry) : fields :=
  [ opt_ptr any_bool "enabled" (ElasticsearchRetry_Enabled c);
    opt_ptr enc_int "max_retries" (ElasticsearchRetry_MaxRetries c);
    opt_ptr any_string "initial_interval" (ElasticsearchRetry_InitialInterval c);
    opt_ptr any_string "max_interval" (ElasticsearchRetry_MaxInterval c);
    opt_ints "retry_on_status" (ElasticsearchRetry_RetryOnStatus c) ].

Record ElasticsearchFlush := mkElasticsearchFlush {
  ElasticsearchFlush_Bytes : option Z;
  ElasticsearchFlush_Interval : option string
}.

Definition ElasticsearchFlush_fields (c : ElasticsearchFlush) : fields :=
  [ opt_ptr enc_int "bytes" (ElasticsearchFlush_Bytes c);
    opt_ptr any_string "interval" (ElasticsearchFlush_Interval c) ].

Record ElasticsearchDiscover := mkElasticsearchDiscover {
  ElasticsearchDiscover_OnStart : option bool;
  ElasticsearchDiscover_Interval : option string
}.

Definition ElasticsearchDiscover_fields (c : ElasticsearchDiscover) : fields :=
  [ opt_ptr any_bool "on_start" (ElasticsearchDiscover_OnStart c);
    opt_ptr any_string "interval" (ElasticsearchDiscover_Interval c) ].

Record Elasticsearch := mkElasticsearch {
  Elasticsearch_Endpoint : option string;
  Elasticsearch_Endpoints : golist string;
  Elasticsearch_CloudID : option string;
  Elasticsearch_User : option string;
  Elasticsearch_Password : option string;
  Elasticsearch_APIKey : option string;
  Elasticsearch_LogsIndex : option string;
  Elasticsearch_MetricsIndex : option string;
  Elasticsearch_TracesIndex : option string;
  Elasticsearch_Mapping : option ElasticsearchMapping;
  Elasticsearch_Retry : option ElasticsearchRetry;
  Elasticsearch_Flush : option ElasticsearchFlush;
  Elasticsearch_QueueConfig : option QueueSettings;
  Elasticsearch_NumWorkers : option Z;
  Elasticsearch_TLSSetting : option TLSClientSetting;
  Elasticsearch_Pipeline : option string;
  Elasticsearch_Discover : option ElasticsearchDiscover
}.

Record Endpoint := mkEndpoint {
  Endpoint_TCPAddr : option string;
  Endpoint_ValidateTCPResolution : bool
}.

Definition Endpoint_fields (c : Endpoint) : fields :=
  [ field_ptr any_string "tcp_addr" (Endpoint_TCPAddr c);
    opt_bool "validate_tcp_resolution" (Endpoint_ValidateTCPResolution c) ].

Record KubernetesMetadata := mkKubernetesMetadata {
  KubernetesMetadata_Key : string;
  KubernetesMetadata_IncludePodLabels : bool
}.

Definition KubernetesMetadata_fields (c : KubernetesMetadata) : fields :=
  [ field_string "key" (KubernetesMetadata_Key c);
    field_bool "include_pod_labels" (KubernetesMetadata_IncludePodLabels c) ].

(** The embedded [*Endpoint] carries a JSON name, so it is a named field. *)
Record TCPClientSettings := mkTCPClientSettings {
  TCPClientSettings_Endpoint : option Endpoint;
  TCPClientSettings_ConnectionTimeout : option string;
  TCPClientSettings_TLSSetting : option TLSClientSetting;
  TCPClientSettings_SharedKey : option string
}.

Definition TCPClientSettings_fields (c : TCPClientSettings) : fields :=
  [ field_ptr (enc_struct ∘ Endpoint_fields) "endpoint" (TCPClientSettings_Endpoint c);
    opt_ptr any_string "connection_timeout" (TCPClientSettings_ConnectionTimeout c);
    opt_struct TLSClientSetting_fields "tls" (TCPClientSettings_TLSSetting c);
    opt_ptr any_string "shared_key" (TCPClientSettings_SharedKey c) ].

Record Fluentforward := mkFluentforward {
  Fluentforward_TCPClientSettings : TCPClientSettings;
  Fluentforward_RequireAck : option bool;
  Fluentforward_Tag : option string;
  Fluentforward_CompressGzip : option bool;
  Fluentforward_DefaultLabelsEnabled : option (gomap string bool);
  Fluentforward_QueueConfig : option QueueSettings;
  Fluentforward_RetryConfig : option BackOffConfig;
  Fluentforward_Kubernetes : option KubernetesMetadata
}.

Record S3UploaderConfig := mkS3UploaderConfig {
  S3UploaderConfig_Region : string;
  S3UploaderConfig_S3Bucket : string;
  S3UploaderConfig_S3BasePrefix : string;
  S3UploaderConfig_S3Prefix : string;
  S3UploaderConfig_S3PartitionFormat : string;
  S3UploaderConfig_S3PartitionTimezone : string;
  S3UploaderConfig_FilePrefix : string;
  S3UploaderConfig_Endpoint : string;
  S3UploaderConfig_RoleArn : string;
  S3UploaderConfig_S3ForcePathStyle : bool;
  S3UploaderConfig_DisableSSL : bool;
  S3UploaderConfig_ACL : string;
  S3UploaderConfig_StorageClass : string;
  S3UploaderConfig_Compression : string;
  S3UploaderConfig_RetryMode : string;
  S3UploaderConfig_RetryMaxAttempts : Z;
  S3UploaderConfig_RetryMaxBackoff : option string;
  S3UploaderConfig_UniqueKeyFuncName : string
}.

Definition S3UploaderConfig_fields (c : S3UploaderConfig) : fields :=
  [ opt_string "region" (S3UploaderConfig_Region c);
    opt_string "s3_bucket" (S3UploaderConfig_S3Bucket c);
    opt_string "s3_base_prefix" (S3UploaderConfig_S3BasePrefix c);
    opt_string "s3_prefix" (S3UploaderConfig_S3Prefix c);
    opt_string "s3_partition_format" (S3UploaderConfig_S3PartitionFormat c);
    opt_string "s3_partition_timezone" (S3UploaderConfig_S3PartitionTimezone c);
    opt_string "file_prefix" (S3UploaderConfig_FilePrefix c);
    opt_string "endpoint" (S3UploaderConfig_Endpoint c);
    opt_string "role_arn" (S3UploaderConfig_RoleArn c);
    opt_bool "s3_force_path_style" (S3UploaderConfig_S3ForcePathStyle c);
    opt_bool "disable_ssl" (S3UploaderConfig_DisableSSL c);
    opt_string "acl" (S3UploaderConfig_ACL c);
    opt_string "storage_class" (S3UploaderConfig_StorageClass c);
    opt_string "compression" (S3UploaderConfig_Compression c);
    opt_string "retry_mode" (S3UploaderConfig_RetryMode c);
    opt_int "retry_max_attempts" (S3UploaderConfig_RetryMaxAttempts c);
    opt_ptr any_string "retry_max_backoff" (S3UploaderConfig_RetryMaxBackoff c);
    opt_string "unique_key_func_name" (S3UploaderConfig_UniqueKeyFuncName c) ].

Record ResourceAttrsToS3 := mkResourceAttrsToS3 {
  ResourceAttrsToS3_S3Bucket : string;
  ResourceAttrsToS3_S3Prefix : string
}.

Definition ResourceAttrsToS3_fields (c : ResourceAttrsToS3) : fields :=
  [ opt_string "s3_bucket" (ResourceAttrsToS3_S3Bucket c);
    opt_string "s3_prefix" (ResourceAttrsToS3_S3Prefix c) ].

Section Output.
Context `{Platform}.

Record File := mkFile {
  File_Path : string;
  File_Append : bool;
  File_Rotation : option Rotation;
  File_FormatType : string;
  File_Encoding : option component_ID;
  File_Compression : string;
  File_FlushInterval : option string;
  File_GroupBy : option GroupBy
}.

Record AWSS3 := mkAWSS3 {
  AWSS3_S3Uploader : option S3UploaderConfig;
  AWSS3_MarshalerName : option string;
  AWSS3_Encoding : option component_ID;
  AWSS3_EncodingFileExtension : string;
  AWSS3_ResourceAttrsToS3 : option ResourceAttrsToS3;
  AWSS3_TimeoutSettings : TimeoutSettings;
  AWSS3_QueueConfig : option QueueSettings;
  AWSS3_RetryConfig : option BackOffConfig
}.

Record OutputSpec := mkOutputSpec {
  OutputSpec_OTLPGRPC : option OTLPGRPC;
  OutputSpec_Fluentforward : option Fluentforward;
  OutputSpec_OTLPHTTP : option OTLPHTTP;
  OutputSpec_File : option File;
  OutputSpec_Elasticsearch : option Elasticsearch;
  OutputSpec_AWSS3 : option AWSS3;
  OutputSpec_Authentication : option OutputAuth;
  OutputSpec_Batch : option Batch
}.

Record OutputStatus := mkOutputStatus {
  OutputStatus_Tenant : string;
  OutputStatus_State : State;
  OutputStatus_Problems : golist string;
  OutputStatus_ProblemsCount : nat
}.

Record Output := mkOutput {
  Output_Namespace : string;
  Output_Name : string;
  Output_Spec : OutputSpec;
  Output_Status : OutputStatus
}.

Definition Output_NamespacedName (o : Output) : NamespacedName :=
  mkNamespacedName (Output_Namespace o) (Output_Name o).

(** An optional component ID: marshalling it can fail. *)
Definition opt_ID (name : string) (i : option component_ID) : option (string * option any) :=
  match i with
  | None => Some (name, None)
  | Some i => t ← component_ID_text i; Some (name, Some (any_string t))
  end.

Definition File_fields (c : File) : option fields :=
  encoding ← opt_ID "encoding" (File_Encoding c);
  Some
  [ opt_string "path" (File_Path c);
    opt_bool "append" (File_Append c);
    opt_struct Rotation_fields "rotation" (File_Rotation c);
    opt_string "format" (File_FormatType c);
    encoding;
    opt_string "compression" (File_Compression c);
    opt_ptr any_string "flush_interval" (File_FlushInterval c);
    opt_struct GroupBy_fields "group_by" (File_GroupBy c) ].
End Output.

(** The queue and retry fields of [AWSS3] and [Elasticsearch] that the exporter
    wrappers shadow are written by these when the struct stands alone. *)
Definition QueueBatch_fields (c : QueueBatch) : fields :=
  [ opt_string "flush_timeout" (QueueBatch_FlushTimeout c);
    opt_ptr enc_int "min_size" (QueueBatch_MinSize c);
    opt_ptr enc_int "max_size" (QueueBatch_MaxSize c);
    opt_ptr any_string "sizer" (QueueBatch_Sizer c);
    opt_strings "metadata_keys" (QueueBatch_MetadataKeys c) ].

Definition QueueSettings_fields (c : QueueSettings) : fields :=
  [ opt_ptr enc_int "num_consumers" (QueueSettings_NumConsumers c);
    opt_ptr enc_int "queue_size" (QueueSettings_QueueSize c);
    opt_ptr any_string "sizer" (QueueSettings_Sizer c);
    opt_ptr any_bool "wait_for_result" (QueueSettings_WaitForResult c);
    opt_ptr any_bool "block_on_overflow" (QueueSettings_BlockOnOverflow c);
    opt_struct QueueBatch_fields "batch" (QueueSettings_Batch c) ].

Definition BackOffConfig_fields (c : BackOffConfig) : fields :=
  [ opt_ptr any_string "initial_interval" (BackOffConfig_InitialInterval c);
    opt_ptr any_string "randomization_factor" (BackOffConfig_RandomizationFactor c);
    opt_ptr any_string "multiplier" (BackOffConfig_Multiplier c);
    opt_ptr any_string "max_interval" (BackOffConfig_MaxInterval c);
    opt_ptr any_string "max_elapsed_time" (BackOffConfig_MaxElapsedTime c) ].

Definition Elasticsearch_fields (c : Elasticsearch) : fields :=
  [ opt_ptr any_string "endpoint" (Elasticsearch_Endpoint c);
    opt_strings "endpoints" (Elasticsearch_Endpoints c);
    opt_ptr any_string "cloudid" (Elasticsearch_CloudID c);
    opt_ptr any_string "user" (Elasticsearch_User c);
    opt_ptr any_string "password" (Elasticsearch_Password c);
    opt_ptr any_string "api_key" (Elasticsearch_APIKey c);
    opt_ptr any_string "logs_index" (Elasticsearch_LogsIndex c);
    opt_ptr any_string "metrics_index" (Elasticsearch_MetricsIndex c);
    opt_ptr any_string "traces_index" (Elasticsearch_TracesIndex c);
    opt_struct ElasticsearchMapping_fields "mapping" (Elasticsearch_Mapping c);
    opt_struct ElasticsearchRetry_fields "retry" (Elasticsearch_Retry c);
    opt_struct ElasticsearchFlush_fields "flush" (Elasticsearch_Flush c);
    opt_struct QueueSettings_fields "sending_queue" (Elasticsearch_QueueConfig c);
    opt_ptr enc_int "num_workers" (Elasticsearch_NumWorkers c);
    opt_struct TLSClientSetting_fields "tls" (Elasticsearch_TLSSetting c);
    opt_ptr any_string "pipeline" (Elasticsearch_Pipeline c);
    opt_struct ElasticsearchDiscover_fields "discover" (Elasticsearch_Discover c) ].

Definition AWSS3_fields `{Platform} (c : AWSS3) : option fields :=
  encoding ← opt_ID "encoding" (AWSS3_Encoding c);
  Some (embed
  [ opt_struct S3UploaderConfig_fields "s3uploader" (AWSS3_S3Uploader c);
    opt_ptr any_string "marshaler" (AWSS3_MarshalerName c);
    encoding;
    opt_string "encoding_file_extension" (AWSS3_EncodingFileExtension c);
    opt_struct ResourceAttrsToS3_fields "resource_attrs_to_s3" (AWSS3_ResourceAttrsToS3 c);
    opt_struct QueueSettings_fields "sending_queue" (AWSS3_QueueConfig c);
    opt_struct BackOffConfig_fields "retry_on_failure" (AWSS3_RetryConfig c) ]
  (TimeoutSettings_fields (AWSS3_TimeoutSettings c))).
