(* ===== verification/ApiTypes.v ===== *)
(** The remaining resources of [api/telemetry/v1alpha1]: tenants, subscriptions,
    bridges and collectors with their statuses, the problem list every status
    carries ([pkg/resources/problem]) and the interface of a resource a tenant
    can own ([pkg/sdk/model]). *)
From S2P Require Import Prelude Strs Json ApiOtlp ApiOutput.

(** * Problem lists: [pkg/resources/problem/problem.go] *)
Class ProblemHandler (C : Type) : Type := {
  GetProblems : C → golist string;
  SetProblems : golist string → C → C
}.

(** What every implementation promises [Add]. *)
Class ProblemHandlerLaws (C : Type) `{ProblemHandler C} : Prop := {
  get_set_problems : ∀ ps (c : C), GetProblems (SetProblems ps c) = ps;
  set_set_problems : ∀ ps qs (c : C), SetProblems ps (SetProblems qs c) = SetProblems ps c
}.

Definition Add1 {C} `{ProblemHandler C} (c : C) (problem : string) : C :=
  let problem := TrimSpace problem in
  if bool_decide (problem = "") then c
  else if bool_decide (problem ∈ elems (GetProblems c)) then c
  else SetProblems (append (GetProblems c) [problem]) c.

Definition Add {C} `{ProblemHandler C} (c : C) (problems : list string) : C :=
  foldl Add1 c problems.

Definition ClearProblems {C} `{ProblemHandler C} (c : C) : C := SetProblems (Some []) c.

(** * Tenants: [tenant_types.go] *)
Record TransformStatement := mkTransformStatement {
  TransformStatement_Context : string;
  TransformStatement_Conditions : golist string;
  TransformStatement_Statements : golist string;
  TransformStatement_ErrorMode : string
}.

Record Transform := mkTransform {
  Transform_Name : string;
  Transform_FlattenData : bool;
  Transform_ErrorMode : string;
  Transform_TraceStatements : golist TransformStatement;
  Transform_MetricStatements : golist TransformStatement;
  Transform_LogStatements : golist TransformStatement
}.

Record RouteConfig := mkRouteConfig {
  RouteConfig_DefaultPipelines : golist string;
  RouteConfig_ErrorMode : string
}.

Record PersistenceConfig := mkPersistenceConfig {
  PersistenceConfig_EnableFileStorage : bool;
  PersistenceConfig_Directory : string
}.

Record TenantStatus := mkTenantStatus {
  TenantStatus_Subscriptions : golist NamespacedName;
  TenantStatus_LogSourceNamespaces : golist string;
  TenantStatus_ConnectedBridges : golist string;
  TenantStatus_State : State;
  TenantStatus_Problems : golist string;
  TenantStatus_ProblemsCount : nat
}.

#[export] Instance TenantStatus_eq_dec : EqDecision TenantStatus.
Proof. solve_decision. Defined.

Section Tenant.
Context `{Platform}.

Record TenantSpec := mkTenantSpec {
  TenantSpec_SubscriptionNamespaceSelectors : list label_selector;
  TenantSpec_LogSourceNamespaceSelectors : list label_selector;
  TenantSpec_SelectFromAllNamespaces : bool;
  TenantSpec_Transform : Transform;
  TenantSpec_RouteConfig : RouteConfig;
  TenantSpec_PersistenceConfig : PersistenceConfig
}.

Record Tenant := mkTenant {
  Tenant_Name : string;
  Tenant_Spec : TenantSpec;
  Tenant_Status : TenantStatus
}.

Definition Tenant_set_Status (s : TenantStatus) (t : Tenant) : Tenant :=
  mkTenant (Tenant_Name t) (Tenant_Spec t) s.

Definition Tenant_SetProblems (ps : golist string) (t : Tenant) : Tenant :=
  let s := Tenant_Status t in
  Tenant_set_Status
    (mkTenantStatus (TenantStatus_Subscriptions s) (TenantStatus_LogSourceNamespaces s)
       (TenantStatus_ConnectedBridges s) (TenantStatus_State s) ps (length (elems ps))) t.

#[export] Instance Tenant_ProblemHandler : ProblemHandler Tenant := {
  GetProblems t := TenantStatus_Problems (Tenant_Status t);
  SetProblems := Tenant_SetProblems
}.

(** [tenant.Status.State = st] and the assignments of the reconciler's steps *)
Definition Tenant_set_State (st : State) (t : Tenant) : Tenant :=
  let s := Tenant_Status t in
  Tenant_set_Status
    (mkTenantStatus (TenantStatus_Subscriptions s) (TenantStatus_LogSourceNamespaces s)
       (TenantStatus_ConnectedBridges s) st (TenantStatus_Problems s) (TenantStatus_ProblemsCount s)) t.

Definition Tenant_set_LogSourceNamespaces (ns : golist string) (t : Tenant) : Tenant :=
  let s := Tenant_Status t in
  Tenant_set_Status
    (mkTenantStatus (TenantStatus_Subscriptions s) ns
       (TenantStatus_ConnectedBridges s) (TenantStatus_State s) (TenantStatus_Problems s)
       (TenantStatus_ProblemsCount s)) t.

Definition Tenant_set_Subscriptions (ss : golist NamespacedName) (t : Tenant) : Tenant :=
  let s := Tenant_Status t in
  Tenant_set_Status
    (mkTenantStatus ss (TenantStatus_LogSourceNamespaces s)
       (TenantStatus_ConnectedBridges s) (TenantStatus_State s) (TenantStatus_Problems s)
       (TenantStatus_ProblemsCount s)) t.

Definition Tenant_set_ConnectedBridges (bs : golist string) (t : Tenant) : Tenant :=
  let s := Tenant_Status t in
  Tenant_set_Status
    (mkTenantStatus (TenantStatus_Subscriptions s) (TenantStatus_LogSourceNamespaces s)
       bs (TenantStatus_State s) (TenantStatus_Problems s) (TenantStatus_ProblemsCount s)) t.
End Tenant.

(** * Subscriptions: [subscription_types.go] *)
Record SubscriptionSpec := mkSubscriptionSpec {
  SubscriptionSpec_Condition : string;
  SubscriptionSpec_Outputs : golist NamespacedName
}.

Record SubscriptionStatus := mkSubscriptionStatus {
  SubscriptionStatus_Tenant : string;
  SubscriptionStatus_Outputs : golist NamespacedName;
  SubscriptionStatus_State : State;
  SubscriptionStatus_Problems : golist string;
  SubscriptionStatus_ProblemsCount : nat
}.

Record Subscription := mkSubscription {
  Subscription_Namespace : string;
  Subscription_Name : string;
  Subscription_Spec : SubscriptionSpec;
  Subscription_Status : SubscriptionStatus
}.

Definition Subscription_NamespacedName (s : Subscription) : NamespacedName :=
  mkNamespacedName (Subscription_Namespace s) (Subscription_Name s).

Definition Subscription_set_Status (st : SubscriptionStatus) (s : Subscription) : Subscription :=
  mkSubscription (Subscription_Namespace s) (Subscription_Name s) (Subscription_Spec s) st.

Definition Subscription_SetProblems (ps : golist string) (s : Subscription) : Subscription :=
  let st := Subscription_Status s in
  Subscription_set_Status
    (mkSubscriptionStatus (SubscriptionStatus_Tenant st) (SubscriptionStatus_Outputs st)
       (SubscriptionStatus_State st) ps (length (elems ps))) s.

#[export] Instance Subscription_ProblemHandler : ProblemHandler Subscription := {
  GetProblems s := SubscriptionStatus_Problems (Subscription_Status s);
  SetProblems := Subscription_SetProblems
}.

Definition Subscription_SetTenant (t : string) (s : Subscription) : Subscription :=
  let st := Subscription_Status s in
  Subscription_set_Status
    (mkSubscriptionStatus t (SubscriptionStatus_Outputs st) (SubscriptionStatus_State st)
       (SubscriptionStatus_Problems st) (SubscriptionStatus_ProblemsCount st)) s.

Definition Subscription_SetState (x : State) (s : Subscription) : Subscription :=
  let st := Subscription_Status s in
  Subscription_set_Status
    (mkSubscriptionStatus (SubscriptionStatus_Tenant st) (SubscriptionStatus_Outputs st) x
       (SubscriptionStatus_Problems st) (SubscriptionStatus_ProblemsCount st)) s.

(** [subscription.Status.Outputs = outputs] *)
Definition Subscription_set_Outputs (os : golist NamespacedName) (s : Subscription) : Subscription :=
  let st := Subscription_Status s in
  Subscription_set_Status
    (mkSubscriptionStatus (SubscriptionStatus_Tenant st) os (SubscriptionStatus_State st)
       (SubscriptionStatus_Problems st) (SubscriptionStatus_ProblemsCount st)) s.

(** * Outputs: the status methods of [output_types.go] *)
Section OutputMethods.
Context `{Platform}.

Definition Output_set_Status (st : OutputStatus) (o : Output) : Output :=
  mkOutput (Output_Namespace o) (Output_Name o) (Output_Spec o) st.

Definition Output_SetProblems (ps : golist string) (o : Output) : Output :=
  let st := Output_Status o in
  Output_set_Status
    (mkOutputStatus (OutputStatus_Tenant st) (OutputStatus_State st) ps (length (elems ps))) o.

#[export] Instance Output_ProblemHandler : ProblemHandler Output := {
  GetProblems o := OutputStatus_Problems (Output_Status o);
  SetProblems := Output_SetProblems
}.

Definition Output_SetTenant (t : string) (o : Output) : Output :=
  let st := Output_Status o in
  Output_set_Status
    (mkOutputStatus t (OutputStatus_State st) (OutputStatus_Problems st)
       (OutputStatus_ProblemsCount st)) o.

Definition Output_SetState (x : State) (o : Output) : Output :=
  let st := Output_Status o in
  Output_set_Status
    (mkOutputStatus (OutputStatus_Tenant st) x (OutputStatus_Problems st)
       (OutputStatus_ProblemsCount st)) o.
End OutputMethods.

(** * Bridges: [bridge_types.go] *)
Record BridgeSpec := mkBridgeSpec {
  BridgeSpec_SourceTenant : string;
  BridgeSpec_TargetTenant : string;
  BridgeSpec_Condition : string
}.

Record BridgeStatus := mkBridgeStatus {
  BridgeStatus_State : State;
  BridgeStatus_Problems : golist string;
  BridgeStatus_ProblemsCount : nat
}.

#[export] Instance BridgeStatus_eq_dec : EqDecision BridgeStatus.
Proof. solve_decision. Defined.

Record Bridge := mkBridge {
  Bridge_Name : string;
  Bridge_Spec : BridgeSpec;
  Bridge_Status : BridgeStatus
}.

Definition Bridge_SetProblems (ps : golist string) (b : Bridge) : Bridge :=
  mkBridge (Bridge_Name b) (Bridge_Spec b)
    (mkBridgeStatus (BridgeStatus_State (Bridge_Status b)) ps (length (elems ps))).

#[export] Instance Bridge_ProblemHandler : ProblemHandler Bridge := {
  GetProblems b := BridgeStatus_Problems (Bridge_Status b);
  SetProblems := Bridge_SetProblems
}.

Definition Bridge_set_State (x : State) (b : Bridge) : Bridge :=
  mkBridge (Bridge_Name b) (Bridge_Spec b)
    (mkBridgeStatus x (BridgeStatus_Problems (Bridge_Status b))
       (BridgeStatus_ProblemsCount (Bridge_Status b))).

(** * Collectors: [collector_types.go] *)
Record MemoryLimiter := mkMemoryLimiter {
  MemoryLimiter_CheckInterval : string;
  MemoryLimiter_MemoryLimitMiB : Z;
  MemoryLimiter_MemorySpikeLimitMiB : Z;
  MemoryLimiter_MemoryLimitPercentage : Z;
  MemoryLimiter_MemorySpikePercentage : Z
}.

#[export] Instance MemoryLimiter_eq_dec : EqDecision MemoryLimiter.
Proof. solve_decision. Defined.

(** The zero value of the struct *)
Definition MemoryLimiter_zero : MemoryLimiter := mkMemoryLimiter "" 0 0 0 0.

Record EventsToLogs := mkEventsToLogs {
  EventsToLogs_KubeAPIQPS : option Z;
  EventsToLogs_KubeAPIBurst : option Z;
  EventsToLogs_DedupInterval : option string
}.

(** The parts of [corev1] the collector's pod template is built from. *)
Record HostPathVolumeSource := mkHostPath { HostPath_Path : string; HostPath_Type : option string }.
Record Volume := mkVolume { Volume_Name : string; Volume_HostPath : option HostPathVolumeSource }.
Record VolumeMount := mkVolumeMount {
  VolumeMount_Name : string; VolumeMount_ReadOnly : bool; VolumeMount_MountPath : string }.
Record Container := mkContainer {
  Container_Name : string; Container_Image : string; Container_Command : list string;
  Container_Args : list string; Container_VolumeMounts : golist VolumeMount }.
Inductive EnvVarSource := FieldRef (path : string) | SecretKeyRef (name key : string).
Record EnvVar := mkEnvVar {
  EnvVar_Name : string; EnvVar_Value : string; EnvVar_ValueFrom : option EnvVarSource }.

(** [Requests] and [Limits]: the [Value()] of each quantity *)
Record ResourceRequirements := mkResourceRequirements {
  Resources_Requests : gomap string Z;
  Resources_Limits : gomap string Z
}.

(** The fields of [OpenTelemetryCommonFields] the program reads or writes; it
    copies the others through. *)
Record OpenTelemetryCommonFields := mkCommonFields {
  Common_Image : string;
  Common_ServiceAccount : string;
  Common_Args : gomap string string;
  Common_Volumes : golist Volume;
  Common_VolumeMounts : golist VolumeMount;
  Common_InitContainers : golist Container;
  Common_Env : golist EnvVar;
  Common_Resources : ResourceRequirements
}.

Definition CommonFields_zero : OpenTelemetryCommonFields :=
  mkCommonFields "" "" None None None None None (mkResourceRequirements None None).

Record CollectorStatus := mkCollectorStatus {
  CollectorStatus_Tenants : golist string;
  CollectorStatus_State : State;
  CollectorStatus_Problems : golist string;
  CollectorStatus_ProblemsCount : nat
}.

#[export] Instance CollectorStatus_eq_dec : EqDecision CollectorStatus.
Proof. solve_decision. Defined.

Section Collector.
Context `{Platform}.

Record CollectorSpec := mkCollectorSpec {
  CollectorSpec_TenantSelector : label_selector;
  CollectorSpec_ControlNamespace : string;
  CollectorSpec_Debug : option bool;
  CollectorSpec_DryRunMode : option bool;
  CollectorSpec_EventsToLogs : option EventsToLogs;
  CollectorSpec_MemoryLimiter : option MemoryLimiter;
  CollectorSpec_OtelCommonFields : option OpenTelemetryCommonFields
}.

(** The memory limiter a collector gets when none is given *)
Definition MemoryLimiter_default : MemoryLimiter := mkMemoryLimiter "1s" 0 25 75 0.

Definition CollectorSpec_SetDefaults (c : CollectorSpec) : CollectorSpec :=
  mkCollectorSpec (CollectorSpec_TenantSelector c) (CollectorSpec_ControlNamespace c)
    (CollectorSpec_Debug c) (CollectorSpec_DryRunMode c) (CollectorSpec_EventsToLogs c)
    (Some (default MemoryLimiter_default (CollectorSpec_MemoryLimiter c)))
    (Some (default CommonFields_zero (CollectorSpec_OtelCommonFields c))).

(** [ResourceList.Memory] gives a zero quantity when the list has no memory. A
    nil [OtelCommonFields] is a nil dereference: no result. *)
Definition CollectorSpec_GetMemoryLimit (c : CollectorSpec) : option (option Z) :=
  match CollectorSpec_OtelCommonFields c with
  | None => None
  | Some f =>
      match Resources_Requests (Common_Resources f), Resources_Limits (Common_Resources f) with
      | Some _, Some limits => Some (Some (default 0%Z (limits !! "memory")))
      | _, _ => Some None
      end
  end.

Record Collector := mkCollector {
  Collector_Name : string;
  Collector_Spec : CollectorSpec;
  Collector_Status : CollectorStatus
}.

Definition Collector_set_Status (s : CollectorStatus) (c : Collector) : Collector :=
  mkCollector (Collector_Name c) (Collector_Spec c) s.

Definition Collector_SetProblems (ps : golist string) (c : Collector) : Collector :=
  Collector_set_Status
    (mkCollectorStatus (CollectorStatus_Tenants (Collector_Status c))
       (CollectorStatus_State (Collector_Status c)) ps (length (elems ps))) c.

#[export] Instance Collector_ProblemHandler : ProblemHandler Collector := {
  GetProblems c := CollectorStatus_Problems (Collector_Status c);
  SetProblems := Collector_SetProblems
}.

Definition Collector_set_State (x : State) (c : Collector) : Collector :=
  let s := Collector_Status c in
  Collector_set_Status
    (mkCollectorStatus (CollectorStatus_Tenants s) x (CollectorStatus_Problems s)
       (CollectorStatus_ProblemsCount s)) c.

Definition Collector_set_Tenants (ts : golist string) (c : Collector) : Collector :=
  let s := Collector_Status c in
  Collector_set_Status
    (mkCollectorStatus ts (CollectorStatus_State s) (CollectorStatus_Problems s)
       (CollectorStatus_ProblemsCount s)) c.
End Collector.

(** * Resources a tenant can own: [pkg/sdk/model/types.go]

    [model.ResourceOwnedByTenant] as the union of its two implementations. *)
Section Resource.
Context `{Platform}.

Inductive Resource :=
| ResSubscription (s : Subscription)
| ResOutput (o : Output).

Definition GetName (r : Resource) : string :=
  match r with ResSubscription s => Subscription_Name s | ResOutput o => Output_Name o end.
Definition GetNamespace (r : Resource) : string :=
  match r with ResSubscription s => Subscription_Namespace s | ResOutput o => Output_Namespace o end.
Definition GetTenant (r : Resource) : string :=
  match r with
  | ResSubscription s => SubscriptionStatus_Tenant (Subscription_Status s)
  | ResOutput o => OutputStatus_Tenant (Output_Status o)
  end.
Definition GetState (r : Resource) : State :=
  match r with
  | ResSubscription s => SubscriptionStatus_State (Subscription_Status s)
  | ResOutput o => OutputStatus_State (Output_Status o)
  end.
Definition SetTenant (t : string) (r : Resource) : Resource :=
  match r with
  | ResSubscription s => ResSubscription (Subscription_SetTenant t s)
  | ResOutput o => ResOutput (Output_SetTenant t o)
  end.
Definition SetState (x : State) (r : Resource) : Resource :=
  match r with
  | ResSubscription s => ResSubscription (Subscription_SetState x s)
  | ResOutput o => ResOutput (Output_SetState x o)
  end.

#[export] Instance Resource_ProblemHandler : ProblemHandler Resource := {
  GetProblems r := match r with ResSubscription s => GetProblems s | ResOutput o => GetProblems o end;
  SetProblems ps r :=
    match r with
    | ResSubscription s => ResSubscription (SetProblems ps s)
    | ResOutput o => ResOutput (SetProblems ps o)
    end
}.

(** The name of a resource as the managers print it: [namespace/name] *)
Definition resource_ref (r : Resource) : string := GetNamespace r +:+ "/" +:+ GetName r.
End Resource.

(** * The laws of the problem handlers *)
#[export] Instance Tenant_problem_laws `{Platform} : ProblemHandlerLaws Tenant.
Proof. split; intros; reflexivity. Qed.
#[export] Instance Subscription_problem_laws : ProblemHandlerLaws Subscription.
Proof. split; intros; reflexivity. Qed.
#[export] Instance Output_problem_laws `{Platform} : ProblemHandlerLaws Output.
Proof. split; intros; reflexivity. Qed.
#[export] Instance Bridge_problem_laws : ProblemHandlerLaws Bridge.
Proof. split; intros; reflexivity. Qed.
#[export] Instance Collector_problem_laws `{Platform} : ProblemHandlerLaws Collector.
Proof. split; intros; reflexivity. Qed.
#[export] Instance Resource_problem_laws `{Platform} : ProblemHandlerLaws Resource.
Proof. split; [by intros ? []|by intros ? ? []]. Qed.

#[global] Arguments Add : simpl never.
