(* ===== verification/ProblemSpec.v ===== *)
(** [problem.Add] against a reference definition, for every resource that
    carries a problem list: the class of problem handlers is the interface, its
    laws are all the proofs use. *)
From S2P Require Import Prelude Strs Json ApiOtlp ApiOutput ApiTypes.

(** The problems that remain of a list of messages *)
Definition cleaned (ps : list string) : list string := filter (λ p, p ≠ "") (TrimSpace <$> ps).

Section Problems.
Context {C : Type} `{!ProblemHandler C, !ProblemHandlerLaws C}.
Implicit Types (c : C).

Lemma Add_cons c p ps : Add c (p :: ps) = Add (Add1 c p) ps.
Proof. done. Qed.

Lemma Add1_problems c p :
  elems (GetProblems (Add1 c p)) = elems (GetProblems c) ++ dedup_by id (elems (GetProblems c)) (cleaned [p]).
Proof.
  unfold Add1, cleaned. cbn [fmap list_fmap]. rewrite filter_cons. case_bool_decide as E.
  - rewrite decide_False by (intros Hne; by apply Hne). cbn. by rewrite app_nil_r.
  - rewrite decide_True by done. cbn. case_bool_decide as Hin; cbn; [by rewrite app_nil_r|].
    rewrite get_set_problems. by destruct (GetProblems c).
Qed.

Lemma Add1_frame c p : Add1 c p = c ∨ ∃ l, Add1 c p = SetProblems l c.
Proof. unfold Add1. case_bool_decide; [by left|]. case_bool_decide; eauto. Qed.

(** A message that is empty, or already listed, changes nothing. *)
Lemma Add1_known c p : TrimSpace p = "" ∨ TrimSpace p ∈ elems (GetProblems c) → Add1 c p = c.
Proof. unfold Add1. case_bool_decide; [done|]. intros [?|?]; [done|]. by rewrite bool_decide_true. Qed.

Lemma Add_problems c ps :
  elems (GetProblems (Add c ps)) = elems (GetProblems c) ++ dedup_by id (elems (GetProblems c)) (cleaned ps).
Proof.
  revert c. induction ps as [|p ps IH]; intros c; [cbn; by rewrite app_nil_r|].
  change (cleaned (p :: ps)) with (filter (λ p, p ≠ "") ([TrimSpace p] ++ (TrimSpace <$> ps))).
  rewrite Add_cons, IH, Add1_problems, filter_app, dedup_by_app, list_fmap_id, app_assoc. done.
Qed.

Lemma Add_frame c ps : Add c ps = c ∨ ∃ l, Add c ps = SetProblems l c.
Proof.
  revert c. induction ps as [|p ps IH]; intros c; [by left|]. rewrite Add_cons.
  destruct (IH (Add1 c p)) as [->|[l ->]], (Add1_frame c p) as [->|[l' ->]]; eauto.
  right. exists l. apply set_set_problems.
Qed.

Lemma Add_known c ps : (∀ p, p ∈ cleaned ps → p ∈ elems (GetProblems c)) → Add c ps = c.
Proof.
  induction ps as [|p ps IH]; intros Hps; [done|]. rewrite Add_cons.
  assert (∀ x, x ∈ cleaned [p] ∨ x ∈ cleaned ps → x ∈ elems (GetProblems c)) as Hp.
  { intros x Hx. apply Hps. unfold cleaned in *. rewrite list_elem_of_filter in *. cbn.
    rewrite list_elem_of_filter in Hx. set_solver. }
  rewrite Add1_known; [by apply IH; auto|].
  destruct (decide (TrimSpace p = "")) as [|Hne]; [by left|right]. apply Hp. left.
  unfold cleaned. cbn. rewrite decide_True by done. apply list_elem_of_here.
Qed.

(** A message that was added is listed, unless it is blank. *)
Lemma Add_listed c msg : TrimSpace msg = "" ∨ TrimSpace msg ∈ elems (GetProblems (Add c [msg])).
Proof.
  destruct (decide (TrimSpace msg = "")) as [|Hne]; [by left|right].
  rewrite Add_problems, elem_of_app.
  destruct (decide (TrimSpace msg ∈ elems (GetProblems c))) as [|Hn]; [by left|right].
  pose proof (elem_of_dedup_by_keys id (elems (GetProblems c)) (cleaned [msg]) (TrimSpace msg)) as Hd.
  rewrite !list_fmap_id in Hd. apply Hd. split; [|done]. unfold cleaned. cbn.
  rewrite decide_True by done. apply list_elem_of_here.
Qed.
End Problems.

(** Adding problems appends, in order, each trimmed non-empty message that
    is not listed yet, once, and touches nothing of the resource but its
    problem list. *)
Theorem add_problems_spec {C} `{!ProblemHandler C, !ProblemHandlerLaws C} (c : C) ps :
  elems (GetProblems (Add c ps)) =
    elems (GetProblems c) ++ dedup_by id (elems (GetProblems c)) (cleaned ps) ∧
  (Add c ps = c ∨ ∃ l, Add c ps = SetProblems l c).
Proof. split; [apply Add_problems|apply Add_frame]. Qed.

(** Reporting the same problems again changes nothing, so a reconciliation
    that keeps failing the same way keeps the same status. *)
Theorem add_problems_idempotent {C} `{!ProblemHandler C, !ProblemHandlerLaws C} (c : C) ps :
  Add (Add c ps) ps = Add c ps.
Proof.
  apply Add_known. intros p Hp. rewrite Add_problems, elem_of_app.
  destruct (decide (p ∈ elems (GetProblems c))) as [|Hn]; [by left|right].
  pose proof (elem_of_dedup_by_keys id (elems (GetProblems c)) (cleaned ps) p) as Hd.
  rewrite !list_fmap_id in Hd. by apply Hd.
Qed.

Definition sample_bridge : Bridge :=
  mkBridge "b" (mkBridgeSpec "red" "blue" "true") (mkBridgeStatus StateReady (Some ["old"]) 1).

Lemma add_problems_spec_witness :
  elems (GetProblems (Add sample_bridge [" new "; ""; "old"; "new"])) = ["old"; "new"] ∧
  (Add sample_bridge [" new "; ""; "old"; "new"] = sample_bridge ∨
   ∃ l, Add sample_bridge [" new "; ""; "old"; "new"] = SetProblems l sample_bridge).
Proof.
  destruct (add_problems_spec sample_bridge [" new "; ""; "old"; "new"]) as [E F].
  split; [rewrite E; vm_compute; reflexivity|exact F].
Defined.

Lemma add_problems_idempotent_witness :
  Add (Add sample_bridge ["x"; "y"]) ["x"; "y"] = Add sample_bridge ["x"; "y"].
Proof. apply (add_problems_idempotent sample_bridge ["x"; "y"]). Defined.
