(* ===== verification/Persist.v ===== *)
(** Statuses as the API server keeps them: JSON objects written and read by the
    field tags of the status structs of [api/telemetry/v1alpha1]. Every field
    is tagged [omitempty], so what is empty is not written and is read back as
    the zero value of its type. *)
From S2P Require Import Prelude Strs Json ApiOtlp ApiOutput ApiTypes.

(** * Fields *)

(** [int] tagged [omitempty]; a typed field is decoded without going through
    float64. *)
Definition opt_count (name : string) (n : nat) : string * option any :=
  (name, if bool_decide (n = 0) then None else Some (any_int (Z.of_nat n))).

Definition NamespacedName_json (n : NamespacedName) : any :=
  enc_struct [field_string "namespace" (NamespacedName_Namespace n); field_string "name" (NamespacedName_Name n)].

Definition opt_refs (name : string) (l : golist NamespacedName) : string * option any :=
  (name, match elems l with [] => None | l => Some (any_slice (NamespacedName_json <$> l)) end).

(** Reading a field that may be absent; [None] is an error of the decoder. *)
Definition read_string (v : option any) : option string :=
  match v with None | Some any_nil => Some "" | Some (any_string s) => Some s | _ => None end.

Definition read_count (v : option any) : option nat :=
  match v with
  | None | Some any_nil => Some 0
  | Some (any_int z) => if (0 <=? z)%Z then Some (Z.to_nat z) else None
  | _ => None
  end.

Definition read_slice {A} (read : any → option A) (v : option any) : option (golist A) :=
  match v with
  | None | Some any_nil => Some None
  | Some (any_slice l) => Some <$> mapM read l
  | _ => None
  end.

Definition read_text (v : any) : option string := read_string (Some v).

Definition NamespacedName_of_json (v : any) : option NamespacedName :=
  match v with
  | any_map m => ns ← read_string (m !! "namespace"); n ← read_string (m !! "name"); Some (mkNamespacedName ns n)
  | _ => None
  end.

(** * Statuses

    The interface of a status: how it is written, how it is read, and what is
    left of it when it has been through the server. *)
Class Stored (S : Type) : Type := {
  to_json : S → fields;
  of_json : gmap string any → option S;
  normal : S → S
}.

Class StoredLaws (S : Type) `{!Stored S} : Prop := {
  of_to_json : ∀ s : S, of_json (object (to_json s)) = Some (normal s);
  normal_idemp : ∀ s : S, normal (normal s) = normal s
}.

(** A slice that was written and read *)
Definition renil {A} (l : golist A) : golist A := match elems l with [] => None | l => Some l end.

#[export] Instance TenantStatus_stored : Stored TenantStatus := {
  to_json s :=
    [ opt_refs "subscriptions" (TenantStatus_Subscriptions s);
      opt_strings "logSourceNamespaces" (TenantStatus_LogSourceNamespaces s);
      opt_strings "connectedBridges" (TenantStatus_ConnectedBridges s);
      opt_string "state" (TenantStatus_State s);
      opt_strings "problems" (TenantStatus_Problems s);
      opt_count "problemsCount" (TenantStatus_ProblemsCount s) ];
  of_json m :=
    subs ← read_slice NamespacedName_of_json (m !! "subscriptions");
    ns ← read_slice read_text (m !! "logSourceNamespaces");
    bs ← read_slice read_text (m !! "connectedBridges");
    st ← read_string (m !! "state");
    ps ← read_slice read_text (m !! "problems");
    n ← read_count (m !! "problemsCount");
    Some (mkTenantStatus subs ns bs st ps n);
  normal s :=
    mkTenantStatus (renil (TenantStatus_Subscriptions s)) (renil (TenantStatus_LogSourceNamespaces s))
      (renil (TenantStatus_ConnectedBridges s)) (TenantStatus_State s) (renil (TenantStatus_Problems s))
      (TenantStatus_ProblemsCount s)
}.

#[export] Instance SubscriptionStatus_stored : Stored SubscriptionStatus := {
  to_json s :=
    [ opt_string "tenant" (SubscriptionStatus_Tenant s);
      opt_refs "outputs" (SubscriptionStatus_Outputs s);
      opt_string "state" (SubscriptionStatus_State s);
      opt_strings "problems" (SubscriptionStatus_Problems s);
      opt_count "problemsCount" (SubscriptionStatus_ProblemsCount s) ];
  of_json m :=
    t ← read_string (m !! "tenant");
    os ← read_slice NamespacedName_of_json (m !! "outputs");
    st ← read_string (m !! "state");
    ps ← read_slice read_text (m !! "problems");
    n ← read_count (m !! "problemsCount");
    Some (mkSubscriptionStatus t os st ps n);
  normal s :=
    mkSubscriptionStatus (SubscriptionStatus_Tenant s) (renil (SubscriptionStatus_Outputs s))
      (SubscriptionStatus_State s) (renil (SubscriptionStatus_Problems s)) (SubscriptionStatus_ProblemsCount s)
}.

#[export] Instance OutputStatus_stored : Stored OutputStatus := {
  to_json s :=
    [ opt_string "tenant" (OutputStatus_Tenant s);
      opt_string "state" (OutputStatus_State s);
      opt_strings "problems" (OutputStatus_Problems s);
      opt_count "problemsCount" (OutputStatus_ProblemsCount s) ];
  of_json m :=
    t ← read_string (m !! "tenant");
    st ← read_string (m !! "state");
    ps ← read_slice read_text (m !! "problems");
    n ← read_count (m !! "problemsCount");
    Some (mkOutputStatus t st ps n);
  normal s :=
    mkOutputStatus (OutputStatus_Tenant s) (OutputStatus_State s) (renil (OutputStatus_Problems s))
      (OutputStatus_ProblemsCount s)
}.

#[export] Instance BridgeStatus_stored : Stored BridgeStatus := {
  to_json s :=
    [ opt_string "state" (BridgeStatus_State s);
      opt_strings "problems" (BridgeStatus_Problems s);
      opt_count "problemsCount" (BridgeStatus_ProblemsCount s) ];
  of_json m :=
    st ← read_string (m !! "state");
    ps ← read_slice read_text (m !! "problems");
    n ← read_count (m !! "problemsCount");
    Some (mkBridgeStatus st ps n);
  normal s := mkBridgeStatus (BridgeStatus_State s) (renil (BridgeStatus_Problems s)) (BridgeStatus_ProblemsCount s)
}.

#[export] Instance CollectorStatus_stored : Stored CollectorStatus := {
  to_json s :=
    [ opt_strings "tenants" (CollectorStatus_Tenants s);
      opt_string "state" (CollectorStatus_State s);
      opt_strings "problems" (CollectorStatus_Problems s);
      opt_count "problemsCount" (CollectorStatus_ProblemsCount s) ];
  of_json m :=
    ts ← read_slice read_text (m !! "tenants");
    st ← read_string (m !! "state");
    ps ← read_slice read_text (m !! "problems");
    n ← read_count (m !! "problemsCount");
    Some (mkCollectorStatus ts st ps n);
  normal s :=
    mkCollectorStatus (renil (CollectorStatus_Tenants s)) (CollectorStatus_State s)
      (renil (CollectorStatus_Problems s)) (CollectorStatus_ProblemsCount s)
}.

(** What a get gives back after the status was sent *)
Definition stored {S} `{!Stored S} (s : S) : S := default s (of_json (object (to_json s))).

#[global] Arguments stored : simpl never.

(** * Facts *)
Lemma renil_decoded {A} (l : golist A) : decoded l → renil l = l.
Proof. by destruct l as [[|x l]|]. Qed.

Lemma decoded_renil {A} (l : golist A) : decoded (renil l).
Proof. by destruct l as [[|x l]|]. Qed.

Lemma renil_renil {A} (l : golist A) : renil (renil l) = renil l.
Proof. apply renil_decoded, decoded_renil. Qed.

Lemma elems_renil {A} (l : golist A) : elems (renil l) = elems l.
Proof. by destruct l as [[|x l]|]. Qed.

(** The entry of a field, written or left out *)
Lemma object_field fs k v : NoDup (fs.*1) → (k, v) ∈ fs → object fs !! k = v.
Proof.
  intros Hnd Hin. destruct v as [v|]; [by apply object_lookup|].
  apply object_lookup_None. intros v Hv. by pose proof (nodup_fst_fun _ _ _ _ Hnd Hin Hv).
Qed.

Lemma read_opt_string name s : read_string (opt_string name s).2 = Some s.
Proof. cbn. case_bool_decide as E; [by rewrite E|done]. Qed.

Lemma read_opt_count name n : read_count (opt_count name n).2 = Some n.
Proof.
  cbn. case_bool_decide as E; [by rewrite E|]. cbn. destruct (Z.leb_spec 0 (Z.of_nat n)); [|lia]. by rewrite Nat2Z.id.
Qed.

Lemma mapM_written {A} (write : A → any) (read : any → option A) l :
  (∀ a, read (write a) = Some a) → mapM read (write <$> l) = Some l.
Proof. intros Hr. induction l as [|a l IH]; cbn; [done|]. by rewrite Hr, IH. Qed.

Lemma read_opt_strings name l : read_slice read_text (opt_strings name l).2 = Some (renil l).
Proof.
  unfold opt_strings, renil. cbn [snd]. destruct (elems l) as [|s ss]; [done|].
  unfold read_slice. by rewrite mapM_written.
Qed.

Lemma NamespacedName_roundtrip n : NamespacedName_of_json (NamespacedName_json n) = Some n.
Proof. by destruct n. Qed.

Lemma read_opt_refs name l : read_slice NamespacedName_of_json (opt_refs name l).2 = Some (renil l).
Proof.
  unfold opt_refs, renil. cbn [snd]. destruct (elems l) as [|r rs]; [done|].
  unfold read_slice. rewrite mapM_written; [done|]. apply NamespacedName_roundtrip.
Qed.

Section Entries.
Context (fs : fields) (Hnd : NoDup (fs.*1)).

Lemma string_at name s : opt_string name s ∈ fs → read_string (object fs !! name) = Some s.
Proof. intros Hin. rewrite (object_field fs name _ Hnd Hin). apply (read_opt_string name). Qed.

Lemma count_at name n : opt_count name n ∈ fs → read_count (object fs !! name) = Some n.
Proof. intros Hin. rewrite (object_field fs name _ Hnd Hin). apply (read_opt_count name). Qed.

Lemma strings_at name l : opt_strings name l ∈ fs → read_slice read_text (object fs !! name) = Some (renil l).
Proof. intros Hin. rewrite (object_field fs name _ Hnd Hin). apply (read_opt_strings name). Qed.

Lemma refs_at name l : opt_refs name l ∈ fs → read_slice NamespacedName_of_json (object fs !! name) = Some (renil l).
Proof. intros Hin. rewrite (object_field fs name _ Hnd Hin). apply (read_opt_refs name). Qed.
End Entries.

(** Reads the fields of a written status one after the other. *)
Ltac listed := repeat first [apply list_elem_of_here | apply list_elem_of_further].
Ltac read_fields :=
  cbn [of_json to_json normal TenantStatus_stored SubscriptionStatus_stored OutputStatus_stored BridgeStatus_stored
    CollectorStatus_stored];
  match goal with |- context [object ?fs] =>
    let Hnd := fresh in
    assert (NoDup (fs.*1)) as Hnd by (apply (bool_decide_unpack _); reflexivity);
    repeat (first [ erewrite (string_at fs Hnd) by listed | erewrite (count_at fs Hnd) by listed
                  | erewrite (strings_at fs Hnd) by listed | erewrite (refs_at fs Hnd) by listed ];
            cbn [mbind option_bind])
  end; reflexivity.

#[export] Instance TenantStatus_laws : StoredLaws TenantStatus.
Proof. split; intros s; [read_fields|]. cbn. by rewrite !renil_renil. Qed.
#[export] Instance SubscriptionStatus_laws : StoredLaws SubscriptionStatus.
Proof. split; intros s; [read_fields|]. cbn. by rewrite !renil_renil. Qed.
#[export] Instance OutputStatus_laws : StoredLaws OutputStatus.
Proof. split; intros s; [read_fields|]. cbn. by rewrite !renil_renil. Qed.
#[export] Instance BridgeStatus_laws : StoredLaws BridgeStatus.
Proof. split; intros s; [read_fields|]. cbn. by rewrite !renil_renil. Qed.
#[export] Instance CollectorStatus_laws : StoredLaws CollectorStatus.
Proof. split; intros s; [read_fields|]. cbn. by rewrite !renil_renil. Qed.

Lemma stored_normal {S} `{StoredLaws S} (s : S) : stored s = normal s.
Proof. unfold stored. by rewrite of_to_json. Qed.

Lemma renil_fixed {A} (l : golist A) : renil l = l ↔ decoded l.
Proof. split; [intros <-; apply decoded_renil|apply renil_decoded]. Qed.

(** C32. A status that is sent and read again is the status that was sent, up
    to slices that were empty but not nil, which are nil afterwards: nothing
    else is lost by leaving empty fields out, and exactly the statuses without
    such slices come back unchanged. The status that [ClearProblems] leaves is
    not one of them. *)
Theorem status_roundtrip :
  (∀ s : TenantStatus, of_json (object (to_json s)) = Some (normal s) ∧
     (normal s = s ↔ decoded (TenantStatus_Subscriptions s) ∧ decoded (TenantStatus_LogSourceNamespaces s) ∧
        decoded (TenantStatus_ConnectedBridges s) ∧ decoded (TenantStatus_Problems s))) ∧
  (∀ s : SubscriptionStatus, of_json (object (to_json s)) = Some (normal s) ∧
     (normal s = s ↔ decoded (SubscriptionStatus_Outputs s) ∧ decoded (SubscriptionStatus_Problems s))) ∧
  (∀ s : OutputStatus, of_json (object (to_json s)) = Some (normal s) ∧
     (normal s = s ↔ decoded (OutputStatus_Problems s))) ∧
  (∀ s : BridgeStatus, of_json (object (to_json s)) = Some (normal s) ∧
     (normal s = s ↔ decoded (BridgeStatus_Problems s))) ∧
  (∀ s : CollectorStatus, of_json (object (to_json s)) = Some (normal s) ∧
     (normal s = s ↔ decoded (CollectorStatus_Tenants s) ∧ decoded (CollectorStatus_Problems s))) ∧
  (∀ (b : Bridge), of_json (object (to_json (Bridge_Status (ClearProblems b)))) ≠ Some (Bridge_Status (ClearProblems b))).
Proof.
  split_and!; try (intros s; split; [apply of_to_json|destruct s; cbn; rewrite <- ?renil_fixed;
    split; [intros E; injection E; tauto|intros; f_equal; tauto]]).
  intros b. rewrite of_to_json. destruct b as [? ? []]. by cbn.
Qed.
