(* ===== verification/Kube.v ===== *)
(** The API server as the program sees it: the calls of the controller-runtime
    client the controllers make, over an abstract world. The server is not part
    of the repository, so every call is a field of a class and the world is
    whatever the server keeps; the hypotheses the theorems need about it are
    stated where they are used. *)
From S2P Require Import Prelude Json Errors ApiOtlp ApiOutput ApiTypes.

(** [corev1.Secret] *)
Record Secret := mkSecret {
  Secret_Namespace : string;
  Secret_Name : string;
  Secret_Data : gomap string string
}.

Definition Secret_zero : Secret := mkSecret "" "" None.

(** The two kinds of resource that a tenant owns, and anything else that could
    be passed where one of them is expected. *)
Inductive ResourceKind := KSubscription | KOutput | KOther (type_name : string).

(** [%T] of a resource of the kind *)
Definition kind_text (k : ResourceKind) : string :=
  match k with
  | KSubscription => "*v1alpha1.Subscription"
  | KOutput => "*v1alpha1.Output"
  | KOther t => t
  end.

(** The kinds of object the controllers read, write, watch or own *)
Inductive Kind :=
| TenantKind | SubscriptionKind | OutputKind | BridgeKind | CollectorKind
| NamespaceKind | SecretKind | OpenTelemetryCollectorKind
| OtherKind (type_name : string).

#[export] Instance Kind_eq_dec : EqDecision Kind.
Proof. solve_decision. Defined.

(** The kind of an owned resource *)
Definition resource_kind (k : ResourceKind) : Kind :=
  match k with KSubscription => SubscriptionKind | KOutput => OutputKind | KOther t => OtherKind t end.

Class Client `{Platform} (W : Type) : Type := {
  (** [client.Get] *)
  Get_Tenant : string → M W (result Tenant);
  Get_Collector : string → M W (result Collector);
  Get_Bridge : string → M W (result Bridge);
  Get_Subscription : NamespacedName → M W (result Subscription);
  Get_Output : NamespacedName → M W (result Output);
  Get_Secret : NamespacedName → M W (result Secret);
  (** [client.List] of everything *)
  List_all_Tenants : M W (result (list Tenant));
  List_all_Collectors : M W (result (list Collector));
  (** [client.List] with a label selector; a namespace is its name *)
  List_Namespaces : selector → M W (result (list string));
  List_Tenants : selector → M W (result (list Tenant));
  (** [client.List] with a field selector *)
  List_Tenants_by_name : string → M W (result (list Tenant));
  List_Bridges_by_source : string → M W (result (list Bridge));
  List_Bridges_by_target : string → M W (result (list Bridge));
  List_Resources_by_tenant : ResourceKind → string → M W (result (list Resource));
  (** [client.List] in a namespace *)
  List_Resources_in : ResourceKind → string → M W (result (list Resource));
  (** [client.Status().Update] *)
  Update_Tenant_status : Tenant → M W (option error);
  Update_Collector_status : Collector → M W (option error);
  Update_Bridge_status : Bridge → M W (option error);
  Update_Resource_status : Resource → M W (option error)
}.

(** [err.Error()] *)
Fixpoint error_text `{Platform} (e : error) : string :=
  match e with
  | ErrText msg => msg
  | ErrSentinel ErrTenantFailed => "tenant failed"
  | ErrSentinel ErrNoResources => "there are no resources deployed that the collector(s) can use"
  | ErrApi _ msg => msg
  | ErrWrap msg e => msg +:+ ": " +:+ error_text e
  | ErrCombine es => combine_text (map error_text es)
  | ErrMulti es => multierror_text (map error_text es)
  end.

(** [client.List] whose caller treats "not found" as an empty list *)
Definition list_or_empty {W A} (m : M W (result (list A))) : M W (result (list A)) :=
  bind m (λ r, ret (match r with
                    | Ok l => Ok l
                    | Err e => match is_real_error (Some e) with Some e => Err e | None => Ok [] end
                    end)).

Lemma list_or_empty_Ok {W A} (m : M W (result (list A))) w w' l :
  list_or_empty m w = (w', Ok l) →
  m w = (w', Ok l) ∨ (l = [] ∧ ∃ e, m w = (w', Err e) ∧ IsNotFound e = true).
Proof.
  unfold list_or_empty, bind, ret, is_real_error. destruct (m w) as [w1 [a|e]].
  - intros [= <- <-]. by left.
  - destruct (IsNotFound e) eqn:E; [|done]. intros [= <- <-]. right. eauto.
Qed.
