(* ===== verification/Watches.v ===== *)
(** What the controllers register with the controller manager before they run:
    field indexes, watches and owned kinds ([SetupWithManager] in
    [route_controller.go] and [collector_controller.go], the fields named in
    [pkg/sdk/model/types.go], the constructors of [manager.go] and
    [cmd/main.go]). The controller manager itself is not part of the repository:
    what it is asked to do is a class. *)
From S2P Require Import Prelude Strs Json Errors ApiOtlp ApiOutput ApiTypes Kube.

(** * Field indexes *)
Definition StatusTenantReferenceField : string := ".status.tenant".
Definition BridgeSourceTenantReferenceField : string := ".spec.sourceTenant".
Definition BridgeTargetTenantReferenceField : string := ".spec.targetTenant".
Definition TenantNameField : string := ".metadata.name".

Section Registration.
Context `{Platform}.

(** [client.Object]: what an extractor or a map function can be given *)
Inductive Object :=
| ObjTenant (t : Tenant)
| ObjSubscription (s : Subscription)
| ObjOutput (o : Output)
| ObjBridge (b : Bridge)
| ObjAny (k : Kind).

(** [Items[i]] of a list as an object *)
Definition object_of (r : Resource) : Object :=
  match r with ResSubscription s => ObjSubscription s | ResOutput o => ObjOutput o end.

(** [GetItems] of the two list types: each item as the interface *)
Definition SubscriptionList_GetItems (items : list Subscription) : list Resource := ResSubscription <$> items.
Definition OutputList_GetItems (items : list Output) : list Resource := ResOutput <$> items.

(** [if v == "" { return nil }; return []string{v}] *)
Definition unless_empty (v : string) : golist string := if bool_decide (v = "") then None else Some [v].

(** An extractor panics ([None]) on an object of another type. *)
Definition extractor : Type := Object → option (golist string).

Definition subscription_tenant : extractor := λ rawObj,
  match rawObj with
  | ObjSubscription s => Some (unless_empty (SubscriptionStatus_Tenant (Subscription_Status s)))
  | _ => None
  end.
Definition output_tenant : extractor := λ rawObj,
  match rawObj with
  | ObjOutput o => Some (unless_empty (OutputStatus_Tenant (Output_Status o)))
  | _ => None
  end.
Definition bridge_source : extractor := λ rawObj,
  match rawObj with
  | ObjBridge b => Some (unless_empty (BridgeSpec_SourceTenant (Bridge_Spec b)))
  | _ => None
  end.
Definition bridge_target : extractor := λ rawObj,
  match rawObj with
  | ObjBridge b => Some (unless_empty (BridgeSpec_TargetTenant (Bridge_Spec b)))
  | _ => None
  end.
Definition tenant_name : extractor := λ rawObj,
  match rawObj with ObjTenant t => Some (Some [Tenant_Name t]) | _ => None end.

Record field_index := mkFieldIndex { fi_obj : Kind; fi_field : string; fi_extractor : extractor }.

Definition fieldIndexes : list field_index :=
  [ mkFieldIndex SubscriptionKind StatusTenantReferenceField subscription_tenant;
    mkFieldIndex OutputKind StatusTenantReferenceField output_tenant;
    mkFieldIndex BridgeKind BridgeSourceTenantReferenceField bridge_source;
    mkFieldIndex BridgeKind BridgeTargetTenantReferenceField bridge_target;
    mkFieldIndex TenantKind TenantNameField tenant_name ].

(** The objects of [l] that a list with a field selector gives: those whose
    index entries hold the value *)
Definition indexed (ext : extractor) (v : string) (o : Object) : Prop :=
  match ext o with Some vs => v ∈ elems vs | None => False end.

#[export] Instance indexed_dec ext v o : Decision (indexed ext v o).
Proof. unfold indexed. destruct (ext o); apply _. Defined.

Lemma elem_of_unless_empty v n : n ∈ elems (unless_empty v) ↔ n ≠ "" ∧ v = n.
Proof.
  unfold unless_empty. case_bool_decide as E; cbn.
  - rewrite elem_of_nil. naive_solver.
  - rewrite list_elem_of_singleton. naive_solver.
Qed.

Lemma indexed_subscription n s :
  indexed subscription_tenant n (ObjSubscription s) ↔ n ≠ "" ∧ SubscriptionStatus_Tenant (Subscription_Status s) = n.
Proof. apply elem_of_unless_empty. Qed.
Lemma indexed_output n o :
  indexed output_tenant n (ObjOutput o) ↔ n ≠ "" ∧ OutputStatus_Tenant (Output_Status o) = n.
Proof. apply elem_of_unless_empty. Qed.
Lemma indexed_source n b :
  indexed bridge_source n (ObjBridge b) ↔ n ≠ "" ∧ BridgeSpec_SourceTenant (Bridge_Spec b) = n.
Proof. apply elem_of_unless_empty. Qed.
Lemma indexed_target n b :
  indexed bridge_target n (ObjBridge b) ↔ n ≠ "" ∧ BridgeSpec_TargetTenant (Bridge_Spec b) = n.
Proof. apply elem_of_unless_empty. Qed.
Lemma indexed_name n t : indexed tenant_name n (ObjTenant t) ↔ Tenant_Name t = n.
Proof. unfold indexed. cbn. rewrite list_elem_of_singleton. naive_solver. Qed.

(** * Controllers *)
Context {W : Type} `{!Client W}.
Open Scope world_scope.

(** [reconcile.Request] *)
Abbreviation Request := NamespacedName.

(** [handler.EnqueueRequestsFromMapFunc]: the requests for an object, nil when
    the listing fails *)
Definition map_func : Type := Object → M W (golist Request).

Definition enqueueAllTenants : map_func := λ _,
  r <~ List_all_Tenants;
  ret match r with
      | Err _ => None
      | Ok tenants => Some ((λ t, mkNamespacedName "" (Tenant_Name t)) <$> tenants)
      end.

Definition enqueueAllCollectors : map_func := λ _,
  r <~ List_all_Collectors;
  ret match r with
      | Err _ => None
      | Ok collectors => Some ((λ c, mkNamespacedName "" (Collector_Name c)) <$> collectors)
      end.

(** What the builder has collected when it is completed *)
Record controller := mkController {
  ctl_for : Kind;
  ctl_watches : list (Kind * map_func);
  ctl_owns : list Kind
}.

Definition For (k : Kind) : controller := mkController k [] [].
Definition Watches (k : Kind) (h : map_func) (c : controller) : controller :=
  mkController (ctl_for c) (ctl_watches c ++ [(k, h)]) (ctl_owns c).
Definition Owns (k : Kind) (c : controller) : controller :=
  mkController (ctl_for c) (ctl_watches c) (ctl_owns c ++ [k]).

(** [for _, resource := range watchedResources { builder = builder.Watches(resource, h) }] *)
Definition watch_all (resources : list Kind) (h : map_func) (builder : controller) : controller :=
  foldl (λ b resource, Watches resource h b) builder resources.

Definition tenant_watchedResources : list Kind := [SubscriptionKind; OutputKind; BridgeKind; NamespaceKind].
Definition collector_watchedResources : list Kind :=
  [TenantKind; SubscriptionKind; BridgeKind; OutputKind; NamespaceKind; SecretKind].

Definition tenant_controller : controller :=
  watch_all tenant_watchedResources enqueueAllTenants (For TenantKind).
Definition collector_controller : controller :=
  Owns OpenTelemetryCollectorKind (watch_all collector_watchedResources enqueueAllCollectors (For CollectorKind)).

(** The controller manager: [GetFieldIndexer().IndexField], [builder.Complete],
    the checks and [Start] *)
Class Manager (G : Type) : Type := {
  IndexField : field_index → M G (option error);
  Complete : controller → M G (option error);
  AddHealthzCheck : string → M G (option error);
  AddReadyzCheck : string → M G (option error);
  Start : M G (option error)
}.

Section SetupWithManager.
Context {G : Type} `{!Manager G}.

(** [%T] of the objects the indexes are for *)
Definition kind_type (k : Kind) : string :=
  match k with
  | TenantKind => "*v1alpha1.Tenant"
  | SubscriptionKind => "*v1alpha1.Subscription"
  | OutputKind => "*v1alpha1.Output"
  | BridgeKind => "*v1alpha1.Bridge"
  | CollectorKind => "*v1alpha1.Collector"
  | NamespaceKind => "*v1.Namespace"
  | SecretKind => "*v1.Secret"
  | OpenTelemetryCollectorKind => "*v1beta1.OpenTelemetryCollector"
  | OtherKind t => t
  end.

Definition index_field (idx : field_index) (_ : unit) : M G (result unit) :=
  err <~ IndexField idx;
  ret match err with
      | Some e => Err (ErrWrap ("failed to index field " +:+ fi_field idx +:+ " for object " +:+ kind_type (fi_obj idx)) e)
      | None => Ok tt
      end.

Definition RouteReconciler_SetupWithManager : M G (option error) :=
  r <~ loop index_field fieldIndexes tt;
  match r with
  | Err e => ret (Some e)
  | Ok _ => Complete tenant_controller
  end.

Definition CollectorReconciler_SetupWithManager : M G (option error) := Complete collector_controller.
End SetupWithManager.
End Registration.
#[global] Arguments indexed : simpl never.
#[global] Arguments indexed_dec : simpl never.
Arguments controller {_} W.
Arguments Manager {_} W G.
