(* ===== verification/Main.v ===== *)
(** [cmd/main.go]: the options of the program, the controller manager they
    configure, and the order in which it is set up and started. The flags are
    given as parsed and log lines are left out. The scheme the client works with
    is built by [init] from the groups of Kubernetes and of the repository
    ([api/telemetry/v1alpha1/groupversion_info.go]). *)
From S2P Require Import Prelude Strs Json Errors ApiOtlp ApiOutput ApiTypes Kube Watches.

(** * The scheme *)

(** [schema.GroupVersion] *)
Record group_version := mkGroupVersion { Group : string; Version : string }.
Definition GroupVersion : group_version := mkGroupVersion "telemetry.kube-logging.dev" "v1alpha1".

(** The Go types that are registered, under their group *)
Definition scheme : Type := list (group_version * Kind).

(** The list type of a kind *)
Definition list_of (k : Kind) : Kind := OtherKind (kind_type k +:+ "List").

(** The groups that are not the repository's, and what [metav1] adds to a group *)
Class Groups : Type := {
  clientgoscheme_AddToScheme : scheme → result scheme;
  otelv1beta1_AddToScheme : scheme → result scheme;
  rbacv1_AddToScheme : scheme → result scheme;
  AddToGroupVersion : group_version → scheme → scheme
}.

Section Scheme.
Context `{!Groups}.

Definition AddKnownTypes (gv : group_version) (types : list Kind) (s : scheme) : scheme := s ++ ((λ k, (gv, k)) <$> types).

Definition addKnownTypes (s : scheme) : result scheme :=
  Ok (AddToGroupVersion GroupVersion (AddKnownTypes GroupVersion
    [ BridgeKind; list_of BridgeKind; CollectorKind; list_of CollectorKind; OutputKind; list_of OutputKind;
      SubscriptionKind; list_of SubscriptionKind; TenantKind; list_of TenantKind ] s)).

(** [utilruntime.Must]: [None] is the panic on an error. *)
Definition Must {A} (r : result A) : option A := match r with Ok a => Some a | Err _ => None end.

(** [init], on the new scheme *)
Definition init : option scheme :=
  s ← Must (clientgoscheme_AddToScheme []);
  s ← Must (otelv1beta1_AddToScheme s);
  s ← Must (rbacv1_AddToScheme s);
  Must (addKnownTypes s).
End Scheme.

(** * Options *)

(** The variables the flags are bound to *)
Record flags := mkFlags {
  metricsAddr : string;
  probeAddr : string;
  enableLeaderElection : bool;
  secureMetrics : bool;
  enableHTTP2 : bool
}.

(** The default value of every flag *)
Definition default_flags : flags := mkFlags ":8443" ":8081" false true false.

(** [tls.Config]: the field the program sets *)
Record tls_Config := mkTlsConfig { NextProtos : golist string }.

Definition disableHTTP2 (_ : tls_Config) : tls_Config := mkTlsConfig (Some ["http/1.1"]).

Definition tlsOpts (f : flags) : list (tls_Config → tls_Config) :=
  if enableHTTP2 f then [] else [disableHTTP2].

(** What a server makes of its options: they are applied in order. *)
Definition apply_tls (opts : list (tls_Config → tls_Config)) (c : tls_Config) : tls_Config :=
  foldl (λ c f, f c) c opts.

(** [filters.WithAuthenticationAndAuthorization], the only filter there is *)
Inductive filter_provider := WithAuthenticationAndAuthorization.

Record metrics_options := mkMetricsOptions {
  BindAddress : string;
  SecureServing : bool;
  Metrics_TLSOpts : list (tls_Config → tls_Config);
  FilterProvider : option filter_provider
}.

Definition metricsServerOptions (f : flags) : metrics_options :=
  mkMetricsOptions (metricsAddr f) (secureMetrics f) (tlsOpts f)
    (if secureMetrics f then Some WithAuthenticationAndAuthorization else None).

(** [ctrl.Options] *)
Record manager_options := mkManagerOptions {
  Metrics : metrics_options;
  Webhook_TLSOpts : list (tls_Config → tls_Config);
  HealthProbeBindAddress : string;
  LeaderElection : bool;
  LeaderElectionID : string
}.

Definition managerOptions (f : flags) : manager_options :=
  mkManagerOptions (metricsServerOptions f) (tlsOpts f) (probeAddr f) (enableLeaderElection f)
    "ee888a7e.kube-logging.dev".

(** [ctrl.NewManager]; the manager it makes is in the world afterwards. *)
Class Launcher (G : Type) : Type := {
  NewManager : manager_options → M G (option error)
}.

Section Main.
Context `{Platform} {W : Type} `{!Client W} {G : Type} `{!Launcher G} `{!Manager W G}.
Open Scope world_scope.

(** [if err := ...; err != nil { os.Exit(1) }] *)
Definition or_exit (m : M G (option error)) (k : M G nat) : M G nat :=
  err <~ m; match err with Some _ => ret 1 | None => k end.

(** The exit code of the program *)
Definition main (f : flags) : M G nat :=
  or_exit (NewManager (managerOptions f))
  (or_exit RouteReconciler_SetupWithManager
  (or_exit CollectorReconciler_SetupWithManager
  (or_exit (AddHealthzCheck "healthz")
  (or_exit (AddReadyzCheck "readyz")
  (or_exit Start (ret 0)))))).
End Main.
