(* ===== verification/Trace.v ===== *)
(** Every client, with the kinds it is asked to read and the status updates it
    is asked for written to a log: what a theorem says of the log holds of every
    API server. *)
From S2P Require Import Prelude Strs Json Errors ApiOtlp ApiOutput ApiTypes Kube.

Section Trace.
Context `{Platform} {W : Type} `{!Client W}.

(** A call to the server: what is read, or the status update that is sent *)
Inductive access :=
| Read (k : Kind)
| WTenant (t : Tenant)
| WCollector (c : Collector)
| WBridge (b : Bridge)
| WResource (r : Resource).

(** A client over another: [rd] makes a call that reads, [send] one that sends
    an update. *)
Definition client_over {W'} (rd : ∀ A, Kind → M W A → M W' A) (send : ∀ A, access → M W A → M W' A) : Client W' := {|
  Get_Tenant n := rd _ TenantKind (Get_Tenant n);
  Get_Collector n := rd _ CollectorKind (Get_Collector n);
  Get_Bridge n := rd _ BridgeKind (Get_Bridge n);
  Get_Subscription n := rd _ SubscriptionKind (Get_Subscription n);
  Get_Output n := rd _ OutputKind (Get_Output n);
  Get_Secret n := rd _ SecretKind (Get_Secret n);
  List_all_Tenants := rd _ TenantKind List_all_Tenants;
  List_all_Collectors := rd _ CollectorKind List_all_Collectors;
  List_Namespaces s := rd _ NamespaceKind (List_Namespaces s);
  List_Tenants s := rd _ TenantKind (List_Tenants s);
  List_Tenants_by_name n := rd _ TenantKind (List_Tenants_by_name n);
  List_Bridges_by_source n := rd _ BridgeKind (List_Bridges_by_source n);
  List_Bridges_by_target n := rd _ BridgeKind (List_Bridges_by_target n);
  List_Resources_by_tenant k n := rd _ (resource_kind k) (List_Resources_by_tenant k n);
  List_Resources_in k n := rd _ (resource_kind k) (List_Resources_in k n);
  Update_Tenant_status t := send _ (WTenant t) (Update_Tenant_status t);
  Update_Collector_status c := send _ (WCollector c) (Update_Collector_status c);
  Update_Bridge_status b := send _ (WBridge b) (Update_Bridge_status b);
  Update_Resource_status r := send _ (WResource r) (Update_Resource_status r)
|}.

Definition traced : Type := W * list access.

(** A call that reads objects of a kind *)
Definition reading {A} (k : Kind) (m : M W A) : M traced A := λ s, let '(w, a) := m s.1 in ((w, s.2 ++ [Read k]), a).
(** A call that sends an update; the log holds it whether it succeeds or not. *)
Definition logging {A} (x : access) (m : M W A) : M traced A := λ s, let '(w, a) := m s.1 in ((w, s.2 ++ [x]), a).

#[export] Instance traced_client : Client traced := client_over (@reading) (@logging).

(** [runs P Q m]: the calls [m] makes all satisfy [P], and its result
    satisfies [Q], from every state of the server. *)
Definition runs {A} (P : access → Prop) (Q : A → Prop) (m : M traced A) : Prop :=
  ∀ s s' a, m s = (s', a) → Q a ∧ ∃ new, s'.2 = s.2 ++ new ∧ Forall P new.

Definition anything {A} (_ : A) : Prop := True.
Definition on_Ok {A} (Q : A → Prop) (r : result A) : Prop := match r with Ok a => Q a | Err _ => True end.

Implicit Types P : access → Prop.

Lemma runs_reading {A} P k (m : M W A) : P (Read k) → runs P anything (reading k m).
Proof.
  intros Hk s s' a. unfold reading. destruct (m s.1) as [w b]. intros [= <- <-].
  split; [done|]. exists [Read k]. split; [done|]. by constructor.
Qed.

Lemma runs_logging {A} P x (m : M W A) : P x → runs P anything (logging x m).
Proof.
  intros Hx s s' a. unfold logging. destruct (m s.1) as [w b]. intros [= <- <-].
  split; [done|]. exists [x]. split; [done|]. by constructor.
Qed.

Lemma runs_ret {A} P (Q : A → Prop) a : Q a → runs P Q (ret a).
Proof. intros Ha s s' b [= <- <-]. split; [done|]. exists []. by rewrite app_nil_r. Qed.

Lemma runs_bind {A B} P (Q : A → Prop) (R : B → Prop) m f :
  runs P Q m → (∀ a, Q a → runs P R (f a)) → runs P R (bind m f).
Proof.
  intros Hm Hf s s' b. unfold bind. destruct (m s) as [s1 a] eqn:E. intros Eb.
  destruct (Hm _ _ _ E) as (Ha & n1 & E1 & F1). destruct (Hf a Ha _ _ _ Eb) as (Hb & n2 & E2 & F2).
  split; [done|]. exists (n1 ++ n2). rewrite E2, E1, app_assoc. split; [done|]. by apply Forall_app.
Qed.

Lemma runs_try {A B} P (Q : A → Prop) (R : B → Prop) m (f : A → M traced (result B)) :
  runs P (on_Ok Q) m → (∀ a, Q a → runs P (on_Ok R) (f a)) → runs P (on_Ok R) (try m f).
Proof.
  intros Hm Hf. unfold try. eapply runs_bind; [exact Hm|]. intros [a|e] Ha; [by apply Hf|].
  by apply runs_ret.
Qed.

Lemma runs_weaken {A} P P' (Q Q' : A → Prop) m :
  (∀ x, P x → P' x) → (∀ a, Q a → Q' a) → runs P Q m → runs P' Q' m.
Proof.
  intros HP HQ Hm s s' a E. destruct (Hm _ _ _ E) as (Ha & n & En & F). split; [auto|].
  exists n. split; [done|]. by eapply Forall_impl.
Qed.

Lemma runs_any {A} P (Q : A → Prop) m : runs P Q m → runs P anything m.
Proof. by apply runs_weaken. Qed.

Lemma runs_wrapM {A} P (Q : A → Prop) msg m : runs P (on_Ok Q) m → runs P (on_Ok Q) (wrapM msg m).
Proof.
  intros Hm. unfold wrapM. eapply runs_bind; [exact Hm|]. intros [a|e] Ha; by apply runs_ret.
Qed.

Lemma runs_loop {A S} P (I : S → Prop) (f : A → S → M traced (result S)) xs :
  (∀ x s, x ∈ xs → I s → runs P (on_Ok I) (f x s)) → ∀ s, I s → runs P (on_Ok I) (loop f xs s).
Proof.
  induction xs as [|x xs IH]; intros Hf s Hs; cbn; [by apply runs_ret|].
  eapply runs_try; [apply Hf; [apply list_elem_of_here|done]|].
  apply IH. intros y s' Hy. by apply Hf, list_elem_of_further.
Qed.

Lemma runs_foreach {A S} P (I : S → Prop) (f : A → S → M traced S) xs :
  (∀ x s, x ∈ xs → I s → runs P I (f x s)) → ∀ s, I s → runs P I (foreach f xs s).
Proof.
  induction xs as [|x xs IH]; intros Hf s Hs; cbn; [by apply runs_ret|].
  eapply runs_bind; [apply Hf; [apply list_elem_of_here|done]|].
  apply IH. intros y s' Hy. by apply Hf, list_elem_of_further.
Qed.

Lemma runs_list_or_empty {A} P (m : M traced (result (list A))) (Q : list A → Prop) :
  Q [] → runs P (on_Ok Q) m → runs P (on_Ok Q) (list_or_empty m).
Proof.
  intros Hnil Hm. unfold list_or_empty. eapply runs_bind; [exact Hm|]. intros [l|e] Hl; apply runs_ret; [done|].
  cbn. by destruct (IsNotFound e).
Qed.

Lemma on_Ok_anything {A} (r : result A) : on_Ok anything r.
Proof. by destruct r. Qed.

Lemma runs_read {A} P k (m : M W (result A)) : P (Read k) → runs P (on_Ok anything) (reading k m).
Proof. intros Hk. eapply runs_weaken; [done| |by apply runs_reading]. intros r _. apply on_Ok_anything. Qed.
End Trace.
Arguments traced {_} W : rename.
Arguments access {_}.
