(* ===== verification/Cluster.v ===== *)
(** A small API server to run the controllers against: the objects it keeps,
    and a switch that makes it refuse updates. An update of a status changes
    nothing else of the object, and what is kept is what the JSON form of the
    status holds. *)
From S2P Require Import Prelude Strs Json Errors ApiOtlp ApiOutput ApiTypes Persist Kube Watches.

Section Cluster.
Context `{Platform}.

Record cluster := mkCluster {
  cl_namespaces : list string;
  cl_tenants : list Tenant;
  cl_bridges : list Bridge;
  cl_collectors : list Collector;
  cl_resources : list Resource;
  cl_secrets : list Secret;
  cl_refuses : bool
}.

Definition not_found {A} : result A := Err (ErrApi NotFound "not found").

Definition find_or {A B} (f : A → bool) (g : A → option B) (l : list A) : result B :=
  match find_first f l ≫= g with Some b => Ok b | None => not_found end.

Definition kind_of (r : Resource) : ResourceKind :=
  match r with ResSubscription _ => KSubscription | ResOutput _ => KOutput end.

Definition is_kind (k : ResourceKind) (r : Resource) : bool :=
  match k, r with
  | KSubscription, ResSubscription _ | KOutput, ResOutput _ => true
  | _, _ => false
  end.

Definition at_ref (n : NamespacedName) (k : ResourceKind) (r : Resource) : bool :=
  is_kind k r && bool_decide (GetNamespace r = NamespacedName_Namespace n)
  && bool_decide (GetName r = NamespacedName_Name n).

Definition ref_of (r : Resource) : NamespacedName := mkNamespacedName (GetNamespace r) (GetName r).

Definition update_in {A} (same : A → bool) (f : A → A) (l : list A) : list A :=
  (λ y, if same y then f y else y) <$> l.

(** The object of the server with the status of the one that was sent *)
Definition receive_Tenant (sent t : Tenant) : Tenant := Tenant_set_Status (stored (Tenant_Status sent)) t.
Definition receive_Collector (sent c : Collector) : Collector := Collector_set_Status (stored (Collector_Status sent)) c.
Definition receive_Bridge (sent b : Bridge) : Bridge :=
  mkBridge (Bridge_Name b) (Bridge_Spec b) (stored (Bridge_Status sent)).
Definition receive_Resource (sent r : Resource) : Resource :=
  match sent, r with
  | ResSubscription s, ResSubscription s' => ResSubscription (Subscription_set_Status (stored (Subscription_Status s)) s')
  | ResOutput o, ResOutput o' => ResOutput (Output_set_Status (stored (Output_Status o)) o')
  | _, _ => r
  end.

Definition refused : option error := Some (ErrApi Conflict "the object has been modified").

Definition update (f : cluster → cluster) : M cluster (option error) := λ w,
  if cl_refuses w then (w, refused) else (f w, None).

(** The index that a list of a kind by its tenant reads *)
Definition tenant_index (k : ResourceKind) : extractor :=
  match k with KSubscription => subscription_tenant | KOutput => output_tenant | KOther _ => λ _, None end.

Definition look {A} (f : cluster → A) : M cluster A := λ w, (w, f w).
End Cluster.

(** The lists with a field selector are answered from the indexes that are
    registered. *)
#[export] Instance cluster_client `{Platform} (matches : selector → string → bool) : Client cluster | 50 := {
  Get_Tenant n := look (λ w, find_or (λ t, bool_decide (Tenant_Name t = n)) Some (cl_tenants w));
  Get_Collector n := look (λ w, find_or (λ c, bool_decide (Collector_Name c = n)) Some (cl_collectors w));
  Get_Bridge n := look (λ w, find_or (λ b, bool_decide (Bridge_Name b = n)) Some (cl_bridges w));
  Get_Subscription n := look (λ w, find_or (at_ref n KSubscription)
    (λ r, match r with ResSubscription s => Some s | _ => None end) (cl_resources w));
  Get_Output n := look (λ w, find_or (at_ref n KOutput)
    (λ r, match r with ResOutput o => Some o | _ => None end) (cl_resources w));
  Get_Secret n := look (λ w, find_or (λ s, bool_decide (Secret_Namespace s = NamespacedName_Namespace n)
    && bool_decide (Secret_Name s = NamespacedName_Name n)) Some (cl_secrets w));
  List_all_Tenants := look (λ w, Ok (cl_tenants w));
  List_all_Collectors := look (λ w, Ok (cl_collectors w));
  List_Namespaces s := look (λ w, Ok (filter (λ n, matches s n = true) (cl_namespaces w)));
  List_Tenants s := look (λ w, Ok (cl_tenants w));
  List_Tenants_by_name n := look (λ w, Ok (filter (λ t, indexed tenant_name n (ObjTenant t)) (cl_tenants w)));
  List_Bridges_by_source n := look (λ w, Ok (filter (λ b, indexed bridge_source n (ObjBridge b)) (cl_bridges w)));
  List_Bridges_by_target n := look (λ w, Ok (filter (λ b, indexed bridge_target n (ObjBridge b)) (cl_bridges w)));
  List_Resources_by_tenant k n := look (λ w, Ok (filter (λ r, is_kind k r = true ∧ indexed (tenant_index k) n (object_of r)) (cl_resources w)));
  List_Resources_in k ns := look (λ w, Ok (filter (λ r, is_kind k r = true ∧ GetNamespace r = ns) (cl_resources w)));
  Update_Tenant_status t := update (λ w, mkCluster (cl_namespaces w)
    (update_in (λ t', bool_decide (Tenant_Name t' = Tenant_Name t)) (receive_Tenant t) (cl_tenants w))
    (cl_bridges w) (cl_collectors w) (cl_resources w) (cl_secrets w) (cl_refuses w));
  Update_Collector_status c := update (λ w, mkCluster (cl_namespaces w) (cl_tenants w) (cl_bridges w)
    (update_in (λ c', bool_decide (Collector_Name c' = Collector_Name c)) (receive_Collector c) (cl_collectors w))
    (cl_resources w) (cl_secrets w) (cl_refuses w));
  Update_Bridge_status b := update (λ w, mkCluster (cl_namespaces w) (cl_tenants w)
    (update_in (λ b', bool_decide (Bridge_Name b' = Bridge_Name b)) (receive_Bridge b) (cl_bridges w))
    (cl_collectors w) (cl_resources w) (cl_secrets w) (cl_refuses w));
  Update_Resource_status r := update (λ w, mkCluster (cl_namespaces w) (cl_tenants w) (cl_bridges w)
    (cl_collectors w) (update_in (at_ref (ref_of r) (kind_of r)) (receive_Resource r) (cl_resources w)) (cl_secrets w) (cl_refuses w))
}.

(** The promises of the API server the theorems rely on hold here. *)
Section Laws.
Context `{Platform} (matches : selector → string → bool).

Lemma cluster_index kind name w w' l r :
  List_Resources_by_tenant (W := cluster) (Client := cluster_client matches) kind name w = (w', Ok l) →
  r ∈ l → GetTenant r = name.
Proof.
  intros [= _ <-] [[_ Hr] _]%list_elem_of_filter. destruct kind, r; try done.
  - by apply indexed_subscription in Hr as [_ ?].
  - by apply indexed_output in Hr as [_ ?].
Qed.

Lemma cluster_get_tenant name w w' t :
  Get_Tenant (W := cluster) (Client := cluster_client matches) name w = (w', Ok t) → Tenant_Name t = name.
Proof.
  intros [= _ E]. unfold find_or in E. destruct (find_first _ _) as [t'|] eqn:Ef; cbn in E; [|done].
  injection E as ->. apply find_first_Some in Ef as [_ Ef]. by apply bool_decide_eq_true in Ef.
Qed.
End Laws.
