(* ===== verification/Utils.v ===== *)
(** [pkg/sdk/utils/utils.go] *)
From S2P Require Import Prelude Strs Json Errors ApiOtlp ApiOutput ApiTypes Kube.

(** [NormalizeStringSlice]: the map of seen keys is the list of kept ones. *)
Definition NormalizeStringSlice (inputList : list string) : list string :=
  sort_strings (dedup_by id [] inputList).

(** [DerefOr], [DerefOrZero] on a bool *)
Definition DerefOr {A} (p : option A) (defVal : A) : A :=
  match p with None => defVal | Some v => v end.
Definition DerefOrZero (p : option bool) : bool := DerefOr p false.

(** The text of a natural number *)
Definition index_text (n : nat) : string := pretty.pretty n.

Section Concrete.
Context `{Platform}.

(** [GetConcreteType[T]] for the two implementations of the interface *)
Definition as_Subscription (r : Resource) : option Subscription :=
  match r with ResSubscription s => Some s | ResOutput _ => None end.
Definition as_Output (r : Resource) : option Output :=
  match r with ResOutput o => Some o | ResSubscription _ => None end.

(** [ToObject[T]]: each item as the interface; for items that are held as the
    interface already, the conversion is the identity. *)
Definition ToObject {T} (convert : T → Resource) (items : list T) : list Resource := convert <$> items.

Lemma ToObject_id rs : ToObject id rs = rs.
Proof. apply list_fmap_id. Qed.

(** [GetConcreteTypeFromList[T]]: the first object of another type is an error
    that names its index. *)
Fixpoint concrete_from {A} (as_T : Resource → option A) (type_text : string) (i : nat)
    (objects : list Resource) : result (list A) :=
  match objects with
  | [] => Ok []
  | obj :: objects =>
      match as_T obj with
      | None => Err (ErrText ("failed to convert object at index " +:+ index_text i +:+ " to type " +:+ type_text))
      | Some concrete =>
          match concrete_from as_T type_text (S i) objects with
          | Ok rest => Ok (concrete :: rest)
          | Err e => Err e
          end
      end
  end.

Definition GetConcreteTypeFromList {A} (as_T : Resource → option A) (type_text : string)
    (objects : list Resource) : result (list A) := concrete_from as_T type_text 0 objects.

Lemma concrete_from_Ok {A} (as_T : Resource → option A) text i rs l :
  concrete_from as_T text i rs = Ok l ↔ mapM as_T rs = Some l.
Proof.
  revert i l. induction rs as [|r rs IH]; intros i l; cbn.
  - split; by intros [= <-].
  - destruct (as_T r) as [a|]; cbn; [|split; intros; discriminate].
    pose proof (IH (S i)) as IHi. destruct (concrete_from as_T text (S i) rs) as [l'|e].
    + rewrite (proj1 (IHi l') eq_refl). cbn. split; by intros [= <-].
    + destruct (mapM as_T rs) as [l'|]; cbn; [by discriminate (proj2 (IHi l') eq_refl)|].
      split; intros; discriminate.
Qed.
End Concrete.

(** The result has no duplicates, is sorted, and holds the members of the input. *)
Lemma NormalizeStringSlice_spec l :
  NoDup (NormalizeStringSlice l) ∧ StronglySorted String.le (NormalizeStringSlice l) ∧
  ∀ x, x ∈ NormalizeStringSlice l ↔ x ∈ l.
Proof.
  unfold NormalizeStringSlice. split_and!.
  - rewrite sort_strings_perm. pose proof (dedup_by_nodup id [] l) as Hn. by rewrite list_fmap_id in Hn.
  - apply sort_strings_sorted.
  - intros x. rewrite sort_strings_perm.
    pose proof (elem_of_dedup_by_keys id [] l x) as Hd. rewrite !list_fmap_id in Hd. set_solver.
Qed.
