(* ===== verification/Relations.v ===== *)
(** [pkg/resources/otel_conf_gen/pipeline/components/common.go]: the relations
    between tenants, subscriptions and outputs that a collector is configured
    from, the lookups over them, and the query for an output's secret. *)
From S2P Require Import Prelude Strs Json Errors ApiOtlp ApiOutput ApiTypes Kube.

(** [components.ErrorMode] *)
Abbreviation ErrorMode := string (only parsing).
Definition ErrorModeIgnore : ErrorMode := "ignore".
Definition ErrorModeSilent : ErrorMode := "silent".
Definition ErrorModePropagate : ErrorMode := "propagate".

(** [SortNamespacedNames]: sorts by the printed name. The order of two different
    names that print alike is unspecified in Go; here it is the input's. *)
Definition SortNamespacedNames (names : list NamespacedName) : list NamespacedName :=
  sort_by NamespacedName_String names.

Section Relations.
Context `{Platform} `{MapRange}.

Record OutputWithSecretData := mkOutputWithSecretData {
  OWS_Output : Output;
  OWS_Secret : Secret
}.

(** The suffix [namespace_name] of the names generated for an output *)
Definition ns_name (n : NamespacedName) : string :=
  NamespacedName_Namespace n +:+ "_" +:+ NamespacedName_Name n.

(** [GetExporterNameForOutput] *)
Definition GetExporterNameForOutput (o : Output) : string :=
  let s := Output_Spec o in
  let suffix := ns_name (Output_NamespacedName o) in
  if negb (is_nil (OutputSpec_OTLPGRPC s)) then "otlp_grpc/" +:+ suffix
  else if negb (is_nil (OutputSpec_OTLPHTTP s)) then "otlp_http/" +:+ suffix
  else if negb (is_nil (OutputSpec_Fluentforward s)) then "fluentforwardexporter/" +:+ suffix
  else if negb (is_nil (OutputSpec_File s)) then "file/" +:+ suffix
  else if negb (is_nil (OutputSpec_Elasticsearch s)) then "elasticsearch/" +:+ suffix
  else if negb (is_nil (OutputSpec_AWSS3 s)) then "awss3/" +:+ suffix
  else "".

(** [ResourceRelations] *)
Record ResourceRelations := mkRelations {
  Tenants : golist Tenant;
  Subscriptions : gomap NamespacedName Subscription;
  Bridges : golist Bridge;
  OutputsWithSecretData : golist OutputWithSecretData;
  TenantSubscriptionMap : gomap string (golist NamespacedName);
  SubscriptionOutputMap : gomap NamespacedName (golist NamespacedName)
}.

(** [m[k]] on a map of slices: a missing key reads as nil. *)
Definition slice_at {K} `{Countable K} {A} (m : gomap K (golist A)) (k : K) : golist A :=
  default None (melems m !! k).

Definition FindOutputsForSubscription (r : ResourceRelations) (subscription : NamespacedName) : golist NamespacedName :=
  match melems (SubscriptionOutputMap r) !! subscription with
  | None => None
  | Some outputs => outputs
  end.

Definition IsOutputInSubscription (r : ResourceRelations) (subscription output : NamespacedName) : bool :=
  bool_decide (output ∈ elems (FindOutputsForSubscription r subscription)).

(** [GetTenantByName] *)
Definition GetTenantByName (r : ResourceRelations) (tenantName : string) : result Tenant :=
  match find_first (λ t, bool_decide (Tenant_Name t = tenantName)) (elems (Tenants r)) with
  | Some t => Ok t
  | None => Err (ErrText ("tenant " +:+ tenantName +:+ " not found"))
  end.

(** [FindTenantForOutput]: the outer loop ranges over the tenants in the order
    of the map, the first subscription that holds the output decides. *)
Fixpoint find_tenant_in (r : ResourceRelations) (target : NamespacedName)
    (entries : list (string * golist NamespacedName)) : result Tenant :=
  match entries with
  | [] => Err (ErrText ("tenant for output " +:+ NamespacedName_String target +:+ " not found"))
  | (tenantName, subs) :: entries =>
      if existsb (λ s, IsOutputInSubscription r s target) (elems subs)
      then GetTenantByName r tenantName
      else find_tenant_in r target entries
  end.

Definition site_FindTenantForOutput : nat := 1.

Definition FindTenantForOutput (r : ResourceRelations) (target : NamespacedName) : result Tenant :=
  find_tenant_in r target
    (range_map site_FindTenantForOutput (melems (TenantSubscriptionMap r))).

(** * The secret of an output's authentication *)

(** The secret references of the configured methods, with their names *)
Definition auth_refs (auth : OutputAuth) : list (SecretReference * string) :=
  match OutputAuth_BasicAuth auth ≫= BasicAuthConfig_SecretRef with
  | Some r => [(r, "BasicAuth")]
  | None => []
  end ++
  match OutputAuth_BearerAuth auth ≫= BearerAuthConfig_SecretRef with
  | Some r => [(r, "BearerAuth")]
  | None => []
  end.

Context {W : Type} `{!Client W}.

(** [QueryOutputSecretWithData]; the callers have checked that the output has
    an authentication section, [None] stands for the nil dereference. *)
Definition QueryOutputSecretWithData (o : Output) : option (M W (result Secret)) :=
  auth ← OutputSpec_Authentication (Output_Spec o);
  Some
  match auth_refs auth with
  | [] => ret (Err (ErrText "no valid authentication method configured"))
  | [(ref, name)] =>
      let n := mkNamespacedName (SecretReference_Namespace ref) (SecretReference_Name ref) in
      wrapM ("failed to retrieve " +:+ name +:+ " secret " +:+ NamespacedName_String n)
        (Get_Secret n)
  | _ => ret (Err (ErrText "multiple authentication methods configured; only one is allowed"))
  end.

(** [QueryOutputSecret]: the error alone *)
Definition QueryOutputSecret (o : Output) : option (M W (option error)) :=
  q ← QueryOutputSecretWithData o;
  Some (bind q (λ r, ret match r with
    | Ok _ => None
    | Err e => Some (ErrWrap ("failed to query secret for output "
                 +:+ Output_Namespace o +:+ "/" +:+ Output_Name o) e)
    end)).
End Relations.

(** * Facts *)
Section RelationFacts.
Context `{Platform} `{MapRange}.
Implicit Types (r : ResourceRelations).

Lemma SortNamespacedNames_perm names : SortNamespacedNames names ≡ₚ names.
Proof. apply sort_by_perm. Qed.

Lemma GetTenantByName_Ok r name t :
  GetTenantByName r name = Ok t → t ∈ elems (Tenants r) ∧ Tenant_Name t = name.
Proof.
  unfold GetTenantByName. destruct (find_first _ _) as [t'|] eqn:E; [|done].
  intros [= ->]. apply find_first_Some in E as [? E]. by apply bool_decide_eq_true in E.
Qed.

Lemma GetTenantByName_total r t :
  t ∈ elems (Tenants r) → ∃ t', GetTenantByName r (Tenant_Name t) = Ok t'.
Proof.
  intros Ht. unfold GetTenantByName.
  destruct (find_first_is_Some (λ t', bool_decide (Tenant_Name t' = Tenant_Name t)) _ t Ht)
    as [t' ->]; eauto. by apply bool_decide_eq_true.
Qed.

(** The tenant that is found has a subscription that holds the output. *)
Definition tenant_holds r (name : string) (target : NamespacedName) : Prop :=
  ∃ subs s outs, melems (TenantSubscriptionMap r) !! name = Some subs ∧ s ∈ elems subs ∧
    melems (SubscriptionOutputMap r) !! s = Some outs ∧ target ∈ elems outs.

Lemma IsOutputInSubscription_spec r s o :
  IsOutputInSubscription r s o = true ↔
  ∃ outs, melems (SubscriptionOutputMap r) !! s = Some outs ∧ o ∈ elems outs.
Proof.
  unfold IsOutputInSubscription, FindOutputsForSubscription. rewrite bool_decide_eq_true.
  destruct (melems (SubscriptionOutputMap r) !! s) as [outs|]; split.
  - eauto.
  - by intros (? & [= <-] & ?).
  - by intros ?%not_elem_of_nil.
  - by intros (? & ? & ?).
Qed.

Lemma existsb_holds r subs target :
  existsb (λ s, IsOutputInSubscription r s target) (elems subs) = true ↔
  ∃ s outs, s ∈ elems subs ∧ melems (SubscriptionOutputMap r) !! s = Some outs ∧ target ∈ elems outs.
Proof.
  rewrite existsb_exists. setoid_rewrite <- list_elem_of_In. setoid_rewrite IsOutputInSubscription_spec.
  naive_solver.
Qed.

Lemma find_tenant_in_Ok r target entries t :
  find_tenant_in r target entries = Ok t →
  ∃ name subs, (name, subs) ∈ entries ∧ GetTenantByName r name = Ok t ∧
    existsb (λ s, IsOutputInSubscription r s target) (elems subs) = true.
Proof.
  induction entries as [|[name subs] entries IH]; cbn; [done|].
  destruct (existsb _ _) eqn:E; [|set_solver]. intros Ht. set_solver.
Qed.

Lemma find_tenant_in_total r target entries name subs :
  (name, subs) ∈ entries →
  existsb (λ s, IsOutputInSubscription r s target) (elems subs) = true →
  (∀ name' subs', (name', subs') ∈ entries → ∃ t, GetTenantByName r name' = Ok t) →
  ∃ t, find_tenant_in r target entries = Ok t.
Proof.
  induction entries as [|[name' subs'] entries IH]; cbn; [set_solver|].
  intros Hin Hex Hall. destruct (existsb _ (elems subs')) eqn:E; [by eapply Hall, list_elem_of_here|].
  apply elem_of_cons in Hin as [[= -> ->]|Hin]; [congruence|].
  apply IH; [done..|]. intros. eapply Hall. by apply list_elem_of_further.
Qed.

Lemma FindTenantForOutput_sound r target t :
  FindTenantForOutput r target = Ok t →
  t ∈ elems (Tenants r) ∧ tenant_holds r (Tenant_Name t) target.
Proof.
  intros Ht. apply find_tenant_in_Ok in Ht as (name & subs & Hin & Hget & Hex).
  apply elem_of_range_map in Hin. apply GetTenantByName_Ok in Hget as [Ht <-].
  apply existsb_holds in Hex as (s & outs & ? & ? & ?). split; [done|]. by exists subs, s, outs.
Qed.

Lemma FindTenantForOutput_complete r name target :
  tenant_holds r name target →
  (∀ n subs, melems (TenantSubscriptionMap r) !! n = Some subs →
     ∃ t, t ∈ elems (Tenants r) ∧ Tenant_Name t = n) →
  ∃ t, FindTenantForOutput r target = Ok t.
Proof.
  intros (subs & s & outs & Hsubs & ? & ? & ?) Hall.
  apply (find_tenant_in_total r target _ name subs).
  - by apply elem_of_range_map.
  - apply existsb_holds. eauto.
  - intros n' subs' Hin. apply elem_of_range_map in Hin.
    destruct (Hall _ _ Hin) as (t & Ht & <-). by apply GetTenantByName_total.
Qed.
End RelationFacts.
