(* ===== verification/Exporters.v ===== *)
(** [pkg/resources/otel_conf_gen/pipeline/components/exporter]: the exporter
    configurations generated for the outputs of a collector, one generator per
    exporter kind, with the queue and retry defaults they share. *)
From S2P Require Import Prelude Strs Json Errors ApiOtlp ApiOutput ApiTypes Kube Relations.

(** * Queue and retry wrappers: [exporter/common.go] *)
Record queueBatchPartitionWrapper := mkPartition { partition_MetadataKeys : golist string }.

Definition partition_fields (p : queueBatchPartitionWrapper) : fields :=
  [ opt_strings "metadata_keys" (partition_MetadataKeys p) ].

Record queueBatchWrapper := mkQueueBatchWrapper {
  qbw_FlushTimeout : string;
  qbw_MinSize : option Z;
  qbw_MaxSize : option Z;
  qbw_Sizer : option string;
  qbw_Partition : option queueBatchPartitionWrapper
}.

Definition queueBatchWrapper_fields (w : queueBatchWrapper) : fields :=
  [ opt_string "flush_timeout" (qbw_FlushTimeout w);
    opt_ptr enc_int "min_size" (qbw_MinSize w);
    opt_ptr enc_int "max_size" (qbw_MaxSize w);
    opt_ptr any_string "sizer" (qbw_Sizer w);
    opt_struct partition_fields "partition" (qbw_Partition w) ].

Definition newQueueBatchWrapper (batch : QueueBatch) : queueBatchWrapper :=
  mkQueueBatchWrapper (QueueBatch_FlushTimeout batch) (QueueBatch_MinSize batch)
    (QueueBatch_MaxSize batch) (QueueBatch_Sizer batch)
    (if (0 <? length (elems (QueueBatch_MetadataKeys batch)))%nat
     then Some (mkPartition (QueueBatch_MetadataKeys batch)) else None).

Record queueWrapper := mkQueueWrapper {
  qw_Enabled : option bool;
  qw_NumConsumers : option Z;
  qw_QueueSize : option Z;
  qw_Sizer : option string;
  qw_WaitForResult : option bool;
  qw_BlockOnOverflow : option bool;
  qw_Storage : option string;
  qw_Batch : option queueBatchWrapper
}.

Definition queueWrapper_zero : queueWrapper :=
  mkQueueWrapper None None None None None None None None.

Definition queueWrapper_fields (q : queueWrapper) : fields :=
  [ opt_ptr any_bool "enabled" (qw_Enabled q);
    opt_ptr enc_int "num_consumers" (qw_NumConsumers q);
    opt_ptr enc_int "queue_size" (qw_QueueSize q);
    opt_ptr any_string "sizer" (qw_Sizer q);
    opt_ptr any_bool "wait_for_result" (qw_WaitForResult q);
    opt_ptr any_bool "block_on_overflow" (qw_BlockOnOverflow q);
    opt_ptr any_string "storage" (qw_Storage q);
    opt_struct queueBatchWrapper_fields "batch" (qw_Batch q) ].

(** [if user != nil { field = user }] *)
Definition override {A} (user current : option A) : option A :=
  match user with Some a => Some a | None => current end.

Definition setDefaultQueueSettings (q : queueWrapper) (api : option QueueSettings) : queueWrapper :=
  match api with
  | None =>
      mkQueueWrapper (Some true) (qw_NumConsumers q) (Some 1000%Z) (qw_Sizer q)
        (qw_WaitForResult q) (qw_BlockOnOverflow q) (qw_Storage q) (qw_Batch q)
  | Some s =>
      mkQueueWrapper (Some true)
        (override (QueueSettings_NumConsumers s) (qw_NumConsumers q))
        (override (QueueSettings_QueueSize s) (Some 1000%Z))
        (override (QueueSettings_Sizer s) (qw_Sizer q))
        (override (QueueSettings_WaitForResult s) (qw_WaitForResult q))
        (override (QueueSettings_BlockOnOverflow s) (qw_BlockOnOverflow q))
        (qw_Storage q)
        (override (newQueueBatchWrapper <$> QueueSettings_Batch s) (qw_Batch q))
  end.

(** [internalConfig.QueueConfig.Storage = ...] *)
Definition queueWrapper_set_Storage (s : string) (q : queueWrapper) : queueWrapper :=
  mkQueueWrapper (qw_Enabled q) (qw_NumConsumers q) (qw_QueueSize q) (qw_Sizer q)
    (qw_WaitForResult q) (qw_BlockOnOverflow q) (Some s) (qw_Batch q).

Record backOffWrapper := mkBackOffWrapper {
  bow_Enabled : option bool;
  bow_InitialInterval : option string;
  bow_RandomizationFactor : option string;
  bow_Multiplier : option string;
  bow_MaxInterval : option string;
  bow_MaxElapsedTime : option string
}.

Definition backOffWrapper_zero : backOffWrapper :=
  mkBackOffWrapper None None None None None None.

Definition backOffWrapper_fields (b : backOffWrapper) : fields :=
  [ opt_ptr any_bool "enabled" (bow_Enabled b);
    opt_ptr any_string "initial_interval" (bow_InitialInterval b);
    opt_ptr any_string "randomization_factor" (bow_RandomizationFactor b);
    opt_ptr any_string "multiplier" (bow_Multiplier b);
    opt_ptr any_string "max_interval" (bow_MaxInterval b);
    opt_ptr any_string "max_elapsed_time" (bow_MaxElapsedTime b) ].

Definition setDefaultBackOffConfig (b : backOffWrapper) (api : option BackOffConfig) : backOffWrapper :=
  match api with
  | None =>
      mkBackOffWrapper (Some true) (bow_InitialInterval b) (bow_RandomizationFactor b)
        (bow_Multiplier b) (bow_MaxInterval b) (Some "0s")
  | Some s =>
      mkBackOffWrapper (Some true)
        (override (BackOffConfig_InitialInterval s) (bow_InitialInterval b))
        (override (BackOffConfig_RandomizationFactor s) (bow_RandomizationFactor b))
        (override (BackOffConfig_Multiplier s) (bow_Multiplier b))
        (override (BackOffConfig_MaxInterval s) (bow_MaxInterval b))
        (override (BackOffConfig_MaxElapsedTime s) (Some "0s"))
  end.

Definition queue_of (api : option QueueSettings) : queueWrapper :=
  setDefaultQueueSettings queueWrapper_zero api.
Definition retry_of (api : option BackOffConfig) : backOffWrapper :=
  setDefaultBackOffConfig backOffWrapper_zero api.

(** * Exporter configurations as the config map holds them *)

(** [prometheus_exporter.go] *)
Record TLSServerConfig := mkTLSServerConfig {
  TLSServerConfig_TLSSetting : TLSSetting;
  TLSServerConfig_ClientCAFile : string;
  TLSServerConfig_ReloadClientCAFile : bool
}.

Record CORSConfig := mkCORSConfig {
  CORSConfig_AllowedOrigins : golist string;
  CORSConfig_AllowedHeaders : golist string;
  CORSConfig_MaxAge : Z
}.

Record ResourceToTelemetrySettings := mkResourceToTelemetry { ResourceToTelemetry_Enabled : bool }.

Section Exporters.
Context `{Platform} `{MapRange}.

Record HTTPServerConfig := mkHTTPServerConfig {
  HTTPServerConfig_Endpoint : string;
  HTTPServerConfig_TLSSetting : option TLSServerConfig;
  HTTPServerConfig_CORS : option CORSConfig;
  HTTPServerConfig_Auth : option configauth_Config;
  HTTPServerConfig_MaxRequestBodySize : Z;
  HTTPServerConfig_IncludeMetadata : bool;
  HTTPServerConfig_ResponseHeaders : gomap string string
}.

Record PrometheusExporterConfig := mkPrometheusExporterConfig {
  Prometheus_HTTPServerConfig : HTTPServerConfig;
  Prometheus_Namespace : string;
  Prometheus_ConstLabels : gomap string string;
  Prometheus_SendTimestamps : bool;
  Prometheus_MetricExpiration : Z;
  Prometheus_ResourceToTelemetrySettings : option ResourceToTelemetrySettings;
  Prometheus_EnableOpenMetrics : bool;
  Prometheus_AddMetricSuffixes : bool
}.

Inductive exporter_config :=
| ExpMap (m : gmap string any)
| ExpPrometheus (c : PrometheusExporterConfig).

Definition DefaultPrometheusExporterID : string := "prometheus/message_metrics_exporter".

Definition GenerateMetricsExporters : gmap string exporter_config :=
  {[ DefaultPrometheusExporterID :=
       ExpPrometheus (mkPrometheusExporterConfig
         (mkHTTPServerConfig ":9999" None None None 0 false None)
         "" None false 0 None false false) ]}.

(** [debug_exporter.go] *)
Definition DebugExporterID : string := "debug".

Definition GenerateDebugExporters : gmap string exporter_config :=
  {[ DebugExporterID := ExpMap {[ "verbosity" := any_string "detailed" ]} ]}.

(** * What the generators share *)

Definition file_storage_name (tenantName : string) : string := "file_storage/" +:+ tenantName.

(** The queue of an output whose tenant persists its logs is stored. *)
Definition with_storage (t : Tenant) (q : queueWrapper) : queueWrapper :=
  if PersistenceConfig_EnableFileStorage (TenantSpec_PersistenceConfig (Tenant_Spec t))
  then queueWrapper_set_Storage (file_storage_name (Tenant_Name t)) q else q.

(** The authenticator extension of an output, basic before bearer *)
Definition auth_reference (o : Output) : option Authentication :=
  match OutputSpec_Authentication (Output_Spec o) with
  | None => None
  | Some a =>
      if negb (is_nil (OutputAuth_BasicAuth a)) then
        Some (mkAuthentication (Some ("basicauth/" +:+ ns_name (Output_NamespacedName o))))
      else if negb (is_nil (OutputAuth_BearerAuth a)) then
        Some (mkAuthentication (Some ("bearertokenauth/" +:+ ns_name (Output_NamespacedName o))))
      else None
  end.

(** A generator's loop: an output gives an entry, or is skipped. *)
Definition generate (entry : OutputWithSecretData → option (string * exporter_config))
    (r : ResourceRelations) : gmap string exporter_config :=
  insert_all (omap entry (elems (OutputsWithSecretData r))) ∅.

(** The tenant of an output; without one the output is skipped. *)
Definition tenant_of (r : ResourceRelations) (o : Output) : option Tenant :=
  match FindTenantForOutput r (Output_NamespacedName o) with Ok t => Some t | Err _ => None end.

(** * OTLP over gRPC: [otlp_exporter.go] *)
Record OTLPGRPCWrapper := mkOTLPGRPCWrapper {
  grpcw_QueueConfig : option queueWrapper;
  grpcw_RetryConfig : option backOffWrapper;
  grpcw_TimeoutSettings : TimeoutSettings;
  grpcw_GRPCClientConfig : GRPCClientConfig
}.

Definition mapToOTLPGRPCWrapper (api : OTLPGRPC) : OTLPGRPCWrapper :=
  mkOTLPGRPCWrapper
    (Some (queue_of (OTLPGRPC_QueueConfig api)))
    (Some (retry_of (OTLPGRPC_RetryConfig api)))
    (OTLPGRPC_TimeoutSettings api)
    (OTLPGRPC_GRPCClientConfig api).

Definition OTLPGRPCWrapper_fields (w : OTLPGRPCWrapper) : fields :=
  embed [ opt_struct queueWrapper_fields "sending_queue" (grpcw_QueueConfig w);
          opt_struct backOffWrapper_fields "retry_on_failure" (grpcw_RetryConfig w) ]
        (TimeoutSettings_fields (grpcw_TimeoutSettings w) ++
         GRPCClientConfig_fields (grpcw_GRPCClientConfig w)).

Definition otlp_grpc_entry (r : ResourceRelations) (output : OutputWithSecretData) : option (string * exporter_config) :=
  let o := OWS_Output output in
  api ← OutputSpec_OTLPGRPC (Output_Spec o);
  let w := mapToOTLPGRPCWrapper api in
  tenant ← tenant_of r o;
  let w := mkOTLPGRPCWrapper (with_storage tenant <$> grpcw_QueueConfig w) (grpcw_RetryConfig w)
             (grpcw_TimeoutSettings w)
             (match auth_reference o with
              | Some a => GRPCClientConfig_set_Auth (Some a) (grpcw_GRPCClientConfig w)
              | None => grpcw_GRPCClientConfig w
              end) in
  Some (GetExporterNameForOutput o, ExpMap (object (OTLPGRPCWrapper_fields w))).

Definition GenerateOTLPGRPCExporters (r : ResourceRelations) : gmap string exporter_config :=
  generate (otlp_grpc_entry r) r.

(** * OTLP over HTTP: [otlphttp_exporter.go] *)
Record OTLPHTTPWrapper := mkOTLPHTTPWrapper {
  httpw_QueueConfig : option queueWrapper;
  httpw_RetryConfig : option backOffWrapper;
  httpw_HTTPClientConfig : HTTPClientConfig
}.

Definition mapToOTLPHTTPWrapper (api : OTLPHTTP) : OTLPHTTPWrapper :=
  mkOTLPHTTPWrapper
    (Some (queue_of (OTLPHTTP_QueueConfig api)))
    (Some (retry_of (OTLPHTTP_RetryConfig api)))
    (OTLPHTTP_HTTPClientConfig api).

Definition OTLPHTTPWrapper_fields (w : OTLPHTTPWrapper) : fields :=
  embed [ opt_struct queueWrapper_fields "sending_queue" (httpw_QueueConfig w);
          opt_struct backOffWrapper_fields "retry_on_failure" (httpw_RetryConfig w) ]
        (HTTPClientConfig_fields (httpw_HTTPClientConfig w)).

Definition otlp_http_entry (r : ResourceRelations) (output : OutputWithSecretData) : option (string * exporter_config) :=
  let o := OWS_Output output in
  api ← OutputSpec_OTLPHTTP (Output_Spec o);
  let w := mapToOTLPHTTPWrapper api in
  tenant ← tenant_of r o;
  let w := mkOTLPHTTPWrapper (with_storage tenant <$> httpw_QueueConfig w) (httpw_RetryConfig w)
             (match auth_reference o with
              | Some a => HTTPClientConfig_set_Auth (Some a) (httpw_HTTPClientConfig w)
              | None => httpw_HTTPClientConfig w
              end) in
  Some (GetExporterNameForOutput o, ExpMap (object (OTLPHTTPWrapper_fields w))).

Definition GenerateOTLPHTTPExporters (r : ResourceRelations) : gmap string exporter_config :=
  generate (otlp_http_entry r) r.

(** * Fluent forward: [fluent_forward_exporter.go] *)
Record FluentForwardWrapper := mkFluentForwardWrapper {
  ffw_TCPClientSettings : TCPClientSettings;
  ffw_RequireAck : option bool;
  ffw_Tag : option string;
  ffw_CompressGzip : option bool;
  ffw_DefaultLabelsEnabled : option (gomap string bool);
  ffw_QueueConfig : option queueWrapper;
  ffw_RetryConfig : option backOffWrapper;
  ffw_Kubernetes : option KubernetesMetadata
}.

Definition mapToFluentForwardWrapper (api : Fluentforward) (isAxoflowDistribution : bool) : FluentForwardWrapper :=
  mkFluentForwardWrapper (Fluentforward_TCPClientSettings api)
    (Fluentforward_RequireAck api) (Fluentforward_Tag api) (Fluentforward_CompressGzip api)
    (Fluentforward_DefaultLabelsEnabled api)
    (Some (queue_of (Fluentforward_QueueConfig api)))
    (Some (retry_of (Fluentforward_RetryConfig api)))
    (if isAxoflowDistribution then Fluentforward_Kubernetes api else None).

Definition FluentForwardWrapper_fields (w : FluentForwardWrapper) : fields :=
  embed [ opt_ptr any_bool "require_ack" (ffw_RequireAck w);
          opt_ptr any_string "tag" (ffw_Tag w);
          opt_ptr any_bool "compress_gzip" (ffw_CompressGzip w);
          opt_ptr enc_bool_map "default_labels_enabled" (ffw_DefaultLabelsEnabled w);
          opt_struct queueWrapper_fields "sending_queue" (ffw_QueueConfig w);
          opt_struct backOffWrapper_fields "retry_on_failure" (ffw_RetryConfig w);
          opt_struct KubernetesMetadata_fields "kubernetes_metadata" (ffw_Kubernetes w) ]
        (TCPClientSettings_fields (ffw_TCPClientSettings w)).

Definition fluentforward_entry (r : ResourceRelations) (isAxoflowDistribution : bool)
    (output : OutputWithSecretData) : option (string * exporter_config) :=
  let o := OWS_Output output in
  api ← OutputSpec_Fluentforward (Output_Spec o);
  let w := mapToFluentForwardWrapper api isAxoflowDistribution in
  tenant ← tenant_of r o;
  let w := mkFluentForwardWrapper (ffw_TCPClientSettings w) (ffw_RequireAck w) (ffw_Tag w)
             (ffw_CompressGzip w) (ffw_DefaultLabelsEnabled w)
             (with_storage tenant <$> ffw_QueueConfig w) (ffw_RetryConfig w) (ffw_Kubernetes w) in
  Some ("fluentforwardexporter/" +:+ ns_name (Output_NamespacedName o),
        ExpMap (object (FluentForwardWrapper_fields w))).

Definition GenerateFluentforwardExporters (r : ResourceRelations) (isAxoflowDistribution : bool) : gmap string exporter_config :=
  generate (fluentforward_entry r isAxoflowDistribution) r.

(** * File: [file_exporter.go] *)
Definition file_entry (output : OutputWithSecretData) : option (string * exporter_config) :=
  let o := OWS_Output output in
  api ← OutputSpec_File (Output_Spec o);
  values ← File_fields api;
  Some ("file/" +:+ ns_name (Output_NamespacedName o), ExpMap (object values)).

Definition GenerateFileExporter (r : ResourceRelations) : gmap string exporter_config :=
  generate file_entry r.

(** * Elasticsearch: [elasticsearch_exporter.go] *)
Record ElasticsearchWrapper := mkElasticsearchWrapper {
  esw_Elasticsearch : Elasticsearch;
  esw_QueueConfig : option queueWrapper;
  esw_Retry : option ElasticsearchRetry;
  esw_Auth : option Authentication
}.

Definition setDefaultElasticsearchRetry (api : option ElasticsearchRetry) : ElasticsearchRetry :=
  match api with
  | None => mkElasticsearchRetry (Some true) None None None None
  | Some r =>
      mkElasticsearchRetry (override (ElasticsearchRetry_Enabled r) (Some true))
        (ElasticsearchRetry_MaxRetries r) (ElasticsearchRetry_InitialInterval r)
        (ElasticsearchRetry_MaxInterval r) (ElasticsearchRetry_RetryOnStatus r)
  end.

Definition mapToElasticsearchWrapper (api : Elasticsearch) : ElasticsearchWrapper :=
  mkElasticsearchWrapper api
    (Some (queue_of (Elasticsearch_QueueConfig api)))
    (Some (setDefaultElasticsearchRetry (Elasticsearch_Retry api)))
    None.

Definition ElasticsearchWrapper_fields (w : ElasticsearchWrapper) : fields :=
  embed [ opt_struct queueWrapper_fields "sending_queue" (esw_QueueConfig w);
          opt_struct ElasticsearchRetry_fields "retry" (esw_Retry w);
          opt_struct Authentication_fields "auth" (esw_Auth w) ]
        (Elasticsearch_fields (esw_Elasticsearch w)).

Definition elasticsearch_entry (r : ResourceRelations) (output : OutputWithSecretData) : option (string * exporter_config) :=
  let o := OWS_Output output in
  api ← OutputSpec_Elasticsearch (Output_Spec o);
  let w := mapToElasticsearchWrapper api in
  tenant ← tenant_of r o;
  let w := mkElasticsearchWrapper (esw_Elasticsearch w) (with_storage tenant <$> esw_QueueConfig w)
             (esw_Retry w) (match auth_reference o with Some a => Some a | None => esw_Auth w end) in
  Some (GetExporterNameForOutput o, ExpMap (object (ElasticsearchWrapper_fields w))).

Definition GenerateElasticsearchExporters (r : ResourceRelations) : gmap string exporter_config :=
  generate (elasticsearch_entry r) r.

(** * AWS S3: [aws_s3_exporter.go] *)
Record AWSS3Wrapper := mkAWSS3Wrapper {
  s3w_AWSS3 : AWSS3;
  s3w_QueueConfig : option queueWrapper;
  s3w_RetryConfig : option backOffWrapper
}.

Definition mapToAWSS3Wrapper (api : AWSS3) : AWSS3Wrapper :=
  mkAWSS3Wrapper api (Some (queue_of (AWSS3_QueueConfig api))) (Some (retry_of (AWSS3_RetryConfig api))).

Definition AWSS3Wrapper_fields (w : AWSS3Wrapper) : option fields :=
  inner ← AWSS3_fields (s3w_AWSS3 w);
  Some (embed [ opt_struct queueWrapper_fields "sending_queue" (s3w_QueueConfig w);
                opt_struct backOffWrapper_fields "retry_on_failure" (s3w_RetryConfig w) ] inner).

Definition awss3_entry (r : ResourceRelations) (output : OutputWithSecretData) : option (string * exporter_config) :=
  let o := OWS_Output output in
  api ← OutputSpec_AWSS3 (Output_Spec o);
  let w := mapToAWSS3Wrapper api in
  tenant ← tenant_of r o;
  let w := mkAWSS3Wrapper (s3w_AWSS3 w) (with_storage tenant <$> s3w_QueueConfig w) (s3w_RetryConfig w) in
  values ← AWSS3Wrapper_fields w;
  Some (GetExporterNameForOutput o, ExpMap (object values)).

Definition GenerateAWSS3Exporters (r : ResourceRelations) : gmap string exporter_config :=
  generate (awss3_entry r) r.
End Exporters.
