(* ===== verification/Processors.v ===== *)
(** [pkg/resources/otel_conf_gen/pipeline/components/processor]: the processor
    configurations. *)
From S2P Require Import Prelude Strs Json Errors ApiOtlp ApiOutput ApiTypes Kube Relations.
From Stdlib Require Import Ascii.

(** The double quote, and a text between two of them *)
Definition dquote : string := String "034"%char "".
Definition quoted (s : string) : string := dquote +:+ s +:+ dquote.

(** * Attributes: [attributes_processor.go] *)
Abbreviation Action := string (only parsing).
Definition ActionInsert : Action := "insert".
Definition ActionUpdate : Action := "update".
Definition ActionUpsert : Action := "upsert".
Definition ActionDelete : Action := "delete".
Definition ActionHash : Action := "hash".
Definition ActionExtract : Action := "extract".
Definition ActionConvert : Action := "convert".

Record AttributesProcessorAction := mkAction {
  Action_Action : Action;
  Action_Key : string;
  Action_Value : string;
  Action_FromAttribute : string;
  Action_FromContext : string
}.

Record AttributesProcessor := mkAttributesProcessor {
  AttributesProcessor_Actions : list AttributesProcessorAction
}.

Definition GenerateTenantAttributeProcessor (tenantName : string) : AttributesProcessor :=
  mkAttributesProcessor [ mkAction ActionInsert "tenant" tenantName "" "" ].

Definition GenerateSubscriptionAttributeProcessor (subscriptionName : string) : AttributesProcessor :=
  mkAttributesProcessor [ mkAction ActionInsert "subscription" subscriptionName "" "" ].

Definition GenerateOutputExporterNameProcessor (outputName : string) : AttributesProcessor :=
  mkAttributesProcessor [ mkAction ActionInsert "exporter" outputName "" "" ].

(** * Delta to cumulative: [delta_to_cumulative_processor.go] *)
Definition DefaultDeltaToCumulativeProcessorID : string := "deltatocumulative".

Record DeltaToCumulativeConfig := mkDeltaToCumulative {
  DeltaToCumulative_MaxStale : Z;
  DeltaToCumulative_MaxStreams : Z
}.

(** * Transform: [transform_processor.go] *)
Record TransformProcessorStatement := mkTransformProcessorStatement {
  TPS_Context : string;
  TPS_Conditions : golist string;
  TPS_Statements : golist string;
  TPS_ErrorMode : ErrorMode
}.

Record TransformProcessor := mkTransformProcessor {
  TransformProcessor_ErrorMode : ErrorMode;
  TransformProcessor_FlattenData : bool;
  TransformProcessor_TraceStatements : golist TransformProcessorStatement;
  TransformProcessor_MetricStatements : golist TransformProcessorStatement;
  TransformProcessor_LogStatements : golist TransformProcessorStatement
}.

(** [convertAPIStatements]: the result is never nil. *)
Definition convertAPIStatements (l : golist TransformStatement) : golist TransformProcessorStatement :=
  Some ((λ s, mkTransformProcessorStatement (TransformStatement_Context s)
                (TransformStatement_Conditions s) (TransformStatement_Statements s)
                (TransformStatement_ErrorMode s)) <$> elems l).

(** A processor's configuration as the config map holds it: the dynamic type is
    what the type assertion of [assembleAdditionalArgs] tests. *)
Inductive processor_config :=
| ProcMap (m : gmap string any)
| ProcAttributes (p : AttributesProcessor)
| ProcTransform (p : TransformProcessor)
| ProcDelta (p : DeltaToCumulativeConfig).

Definition GenerateMetricsProcessors : gmap string processor_config :=
  insert_all
    [ (DefaultDeltaToCumulativeProcessorID, ProcDelta (mkDeltaToCumulative 0 0));
      ("attributes/metricattributes", ProcAttributes (mkAttributesProcessor
        [ mkAction ActionInsert "app" "" "k8s.pod.labels.app" "";
          mkAction ActionInsert "host" "" "k8s.node.name" "";
          mkAction ActionInsert "namespace" "" "k8s.namespace.name" "";
          mkAction ActionInsert "container" "" "k8s.container.name" "";
          mkAction ActionInsert "pod" "" "k8s.pod.name" "" ])) ] ∅.

(** * Batch: [batch_processor.go] *)
Definition set_if (b : bool) (k : string) (v : any) (m : gmap string any) : gmap string any :=
  if b then <[k := v]> m else m.

Definition GenerateBatchProcessorForOutput (batch : Batch) : gmap string any :=
  let m := {[ "timeout" := any_string (Batch_Timeout batch) ]} in
  let m := set_if (negb (Batch_SendBatchSize batch =? 0)%Z) "send_batch_size"
             (any_int (Batch_SendBatchSize batch)) m in
  let m := set_if (negb (Batch_SendBatchMaxSize batch =? 0)%Z) "send_batch_max_size"
             (any_int (Batch_SendBatchMaxSize batch)) m in
  let m := set_if (negb (is_nil (Batch_MetadataKeys batch))) "metadata_keys"
             (any_strings (elems (Batch_MetadataKeys batch))) m in
  set_if (negb (Batch_MetadataCardinalityLimit batch =? 0)%Z) "metadata_cardinality_limit"
    (any_int (Batch_MetadataCardinalityLimit batch)) m.

(** * Filter: [filter_processor.go] *)
Definition GenerateFilterProcessor : gmap string any :=
  {[ "error_mode" := any_string ErrorModeIgnore;
     "logs" := any_map {[ "log_record" := any_strings
       [ "resource.attributes[" +:+ quoted "exclude-tc" +:+ "] == " +:+ quoted "true";
         "resource.attributes[" +:+ quoted "exclude-fluentbit" +:+ "] == " +:+ quoted "true" ] ]} ]}.

(** * Kubernetes attributes: [k8s_attributes_processor.go] *)
Definition NodeNameEnvVar : string := "KUBE_NODE_NAME".

(** The local struct types of the function, held as values of [any] *)
Definition k8s_source (name from : string) : any :=
  any_map {[ "name" := any_string name; "from" := any_string from ]}.

Definition k8s_field_extract (tag : string) (key_field key from : string) : any :=
  any_map {[ "tag_name" := any_string tag; key_field := any_string key; "from" := any_string from ]}.

Definition GenerateDefaultKubernetesProcessor : gmap string any :=
  let defaultSources :=
    [ k8s_source "k8s.namespace.name" "resource_attribute";
      k8s_source "k8s.pod.name" "resource_attribute" ] in
  let defaultPodAssociation := [ any_map {[ "sources" := any_slice defaultSources ]} ] in
  let defaultMetadata :=
    [ "k8s.namespace.name"; "k8s.node.name"; "k8s.pod.name"; "k8s.pod.uid"; "k8s.pod.ip";
      "k8s.pod.start_time"; "k8s.replicaset.name"; "k8s.deployment.name"; "k8s.cluster.uid";
      "k8s.container.name"; "container.image.name"; "container.image.tag" ] in
  let defaultLabels := [ k8s_field_extract "all_labels" "key_regex" ".*" "pod" ] in
  insert_all
    [ ("auth_type", any_string "serviceAccount");
      ("passthrough", any_bool false);
      ("filter", any_map {[ "node_from_env_var" := any_string NodeNameEnvVar ]});
      ("extract", any_map (insert_all
        [ ("metadata", any_strings defaultMetadata);
          ("deployment_name_from_replicaset", any_bool true);
          ("labels", any_slice defaultLabels);
          ("annotations", any_slice
            [ k8s_field_extract "exclude-tc" "key" "telemetry.kube-logging.dev/exclude" "pod";
              k8s_field_extract "exclude-fluentbit" "key" "fluentbit.io/exclude" "pod" ]) ] ∅));
      ("pod_association", any_slice defaultPodAssociation) ] ∅.

(** * Memory limiter: [memory_limiter_processor.go] *)
Definition GenerateProcessorMemoryLimiter (l : MemoryLimiter) : gmap string any :=
  let m := {[ "check_interval" := any_string (MemoryLimiter_CheckInterval l) ]} in
  let m := set_if (negb (MemoryLimiter_MemoryLimitMiB l =? 0)%Z) "limit_mib"
             (any_int (MemoryLimiter_MemoryLimitMiB l)) m in
  let m := set_if (negb (MemoryLimiter_MemorySpikeLimitMiB l =? 0)%Z) "spike_limit_mib"
             (any_int (MemoryLimiter_MemorySpikeLimitMiB l)) m in
  let m := set_if (negb (MemoryLimiter_MemoryLimitPercentage l =? 0)%Z) "limit_percentage"
             (any_int (MemoryLimiter_MemoryLimitPercentage l)) m in
  set_if (negb (MemoryLimiter_MemorySpikePercentage l =? 0)%Z) "spike_limit_percentage"
    (any_int (MemoryLimiter_MemorySpikePercentage l)) m.

Section TransformProcessors.
Context `{Platform}.

Definition GenerateTransformProcessorForTenant (tenant : Tenant) : TransformProcessor :=
  let t := TenantSpec_Transform (Tenant_Spec tenant) in
  mkTransformProcessor (Transform_ErrorMode t) (Transform_FlattenData t)
    (convertAPIStatements (Transform_TraceStatements t))
    (convertAPIStatements (Transform_MetricStatements t))
    (convertAPIStatements (Transform_LogStatements t)).

(** The name of a tenant's transform; empty when it has none *)
Definition transform_name (tenant : Tenant) : string :=
  Transform_Name (TenantSpec_Transform (Tenant_Spec tenant)).

(** What [GenerateTransformProcessorForTenantPipeline] appends to the processors
    of the tenant's root pipeline *)
Definition GenerateTransformProcessorForTenantPipeline (tenantName : string)
    (processors : list string) (tenants : list Tenant) : list string :=
  foldl (λ ps tenant,
      if bool_decide (Tenant_Name tenant = tenantName) && negb (bool_decide (transform_name tenant = ""))
      then ps ++ ["transform/" +:+ transform_name tenant] else ps)
    processors tenants.
End TransformProcessors.
