(* ===== verification/Receivers.v ===== *)
(** [pkg/resources/otel_conf_gen/pipeline/components/receiver]: the receivers of
    a tenant's root pipeline. *)
From S2P Require Import Prelude Strs Json Errors ApiOtlp ApiOutput ApiTypes Kube Relations Exporters Processors.

(** A [map[string]string] literal *)
Definition smap (l : list (string * string)) : any :=
  any_map (insert_all ((λ kv, (kv.1, any_string kv.2)) <$> l) ∅).

(** [createIncludeList] *)
Definition createIncludeList (namespaces : list string) (includeAll : bool) : list string :=
  if includeAll then ["/var/log/pods/*/*/*.log"]
  else (λ ns, "/var/log/pods/" +:+ ns +:+ "_*/*/*.log") <$> filter (λ ns, ns ≠ "") namespaces.

(** The operators that parse a container log line *)
Definition filelog_operators : list any :=
  [ any_map {[ "type" := any_string "router"; "id" := any_string "get-format";
       "routes" := any_slice
         [ smap [("output", "parser-docker");
                 ("expr", "body matches " +:+ quoted "^\\{")];
           smap [("output", "parser-containerd");
                 ("expr", "body matches " +:+ quoted "^[^ Z]+Z")] ] ]};
    any_map {[ "type" := any_string "regex_parser"; "id" := any_string "parser-containerd";
       "regex" := any_string "^(?P<time>[^ ^Z]+Z) (?P<stream>stdout|stderr) (?P<logtag>[^ ]*) ?(?P<log>.*)$";
       "output" := any_string "extract_metadata_from_filepath";
       "timestamp" := smap [("parse_from", "attributes.time"); ("layout", "%Y-%m-%dT%H:%M:%S.%LZ")] ]};
    any_map {[ "type" := any_string "json_parser"; "id" := any_string "parser-docker";
       "output" := any_string "extract_metadata_from_filepath";
       "timestamp" := smap [("parse_from", "attributes.time"); ("layout", "%Y-%m-%dT%H:%M:%S.%LZ")] ]};
    any_map {[ "type" := any_string "regex_parser"; "id" := any_string "extract_metadata_from_filepath";
       "regex" := any_string "^.*\/(?P<namespace>[^_]+)_(?P<pod_name>[^_]+)_(?P<uid>[a-f0-9-]+)\/(?P<container_name>[^\/]+)\/(?P<restart_count>\d+)\.log$";
       "parse_from" := any_string ("attributes[" +:+ quoted "log.file.path" +:+ "]");
       "cache" := any_map {[ "size" := any_int 128 ]} ]};
    smap [("type", "move"); ("from", "attributes.log"); ("to", "body")];
    smap [("type", "move"); ("from", "attributes.stream");
          ("to", "attributes[" +:+ quoted "log.iostream" +:+ "]")];
    smap [("type", "move"); ("from", "attributes.container_name");
          ("to", "resource[" +:+ quoted "k8s.container.name" +:+ "]")];
    smap [("type", "move"); ("from", "attributes.namespace");
          ("to", "resource[" +:+ quoted "k8s.namespace.name" +:+ "]")];
    smap [("type", "move"); ("from", "attributes.pod_name");
          ("to", "resource[" +:+ quoted "k8s.pod.name" +:+ "]")];
    smap [("type", "move"); ("from", "attributes.restart_count");
          ("to", "resource[" +:+ quoted "k8s.container.restart_count" +:+ "]")];
    smap [("type", "move"); ("from", "attributes.uid");
          ("to", "resource[" +:+ quoted "k8s.pod.uid" +:+ "]")] ].

Section Receivers.
Context `{Platform}.

(** The checkpoint storage of a receiver, off in dry-run mode *)
Definition receiver_storage (dryRunMode : bool) (tenant : Tenant) : bool :=
  negb dryRunMode && PersistenceConfig_EnableFileStorage (TenantSpec_PersistenceConfig (Tenant_Spec tenant)).

Definition GenerateDefaultKubernetesReceiver (namespaces : list string) (dryRunMode : bool)
    (tenant : Tenant) : gmap string any :=
  let k8sReceiver := insert_all
    [ ("include", any_strings (createIncludeList namespaces
                    (TenantSpec_SelectFromAllNamespaces (Tenant_Spec tenant))));
      ("exclude", any_strings ["/var/log/pods/*/otc-container/*.log"]);
      ("start_at", any_string "end");
      ("include_file_path", any_bool true);
      ("include_file_name", any_bool false);
      ("operators", any_slice filelog_operators);
      ("retry_on_failure", any_map {[ "enabled" := any_bool true;
                                      "max_elapsed_time" := any_string "0s" ]}) ] ∅ in
  set_if (receiver_storage dryRunMode tenant) "storage"
    (any_string (file_storage_name (Tenant_Name tenant))) k8sReceiver.

(** [k8s_events_receiver.go] *)
Definition set_ptr {A} (enc : A → any) (k : string) (p : option A) (m : gmap string any) : gmap string any :=
  match p with Some a => <[k := enc a]> m | None => m end.

Definition GenerateKubernetesEventsReceiver (namespaces : list string) (dryRunMode : bool)
    (tenant : Tenant) (eventsToLogs : EventsToLogs) : gmap string any :=
  let m := set_if (negb (TenantSpec_SelectFromAllNamespaces (Tenant_Spec tenant))
                   && (0 <? length namespaces)%nat) "namespaces" (any_strings namespaces) ∅ in
  let m := set_ptr any_int "kube_api_qps" (EventsToLogs_KubeAPIQPS eventsToLogs) m in
  let m := set_ptr any_int "kube_api_burst" (EventsToLogs_KubeAPIBurst eventsToLogs) m in
  let m := set_ptr any_string "dedup_interval" (EventsToLogs_DedupInterval eventsToLogs) m in
  set_if (receiver_storage dryRunMode tenant) "storage"
    (any_string (file_storage_name (Tenant_Name tenant))) m.
End Receivers.
