(* ===== verification/Extensions.v ===== *)
(** [pkg/resources/otel_conf_gen/pipeline/components/extension]: authentication,
    health-check and file-storage extensions, and the environment variables and
    secret keys that carry an output's credentials into the collector. *)
From S2P Require Import Prelude Strs Json Errors ApiOtlp ApiOutput ApiTypes Kube Relations.
From Stdlib Require Import Ascii.

(** * Sanitising a name *)
Definition upper_alnum (a : ascii) : bool := between "A"%char "Z"%char a || between "0"%char "9"%char a.
Definition lower_alnum (a : ascii) : bool := between "a"%char "z"%char a || between "0"%char "9"%char a.

(** Resource names are ASCII, so a byte is a rune. *)
Definition sanitizeEnvVarSegment (s : string) : string :=
  map_bytes (λ a, if upper_alnum a then a else "_"%char) (ToUpper s).

Definition sanitizeSecretKeySegment (s : string) : string :=
  map_bytes (λ a, if lower_alnum a then a else "_"%char) (ToLower s).

(** * Basic authentication: [basic_auth_extension.go] *)
Definition defaultBasicAuthUsernameField : string := "username".
Definition defaultBasicAuthPasswordField : string := "password".

Record BasicClientAuthConfig := mkBasicClientAuth { ClientAuth_Username : string; ClientAuth_Password : string }.
Record BasicAuthExtensionConfig := mkBasicAuthExtension { BasicAuthExtension_ClientAuth : BasicClientAuthConfig }.

Definition BasicAuthEnvVarNames (n : NamespacedName) : string * string :=
  let base := "TC_BASICAUTH_" +:+ sanitizeEnvVarSegment (NamespacedName_Namespace n)
              +:+ "_" +:+ sanitizeEnvVarSegment (NamespacedName_Name n) in
  (base +:+ "_USERNAME", base +:+ "_PASSWORD").

Definition BasicAuthSecretKeys (n : NamespacedName) : string * string :=
  let base := "basicauth_" +:+ sanitizeSecretKeySegment (NamespacedName_Namespace n)
              +:+ "_" +:+ sanitizeSecretKeySegment (NamespacedName_Name n) in
  (base +:+ "_username", base +:+ "_password").

(** The text [${v}] that the collector expands *)
Definition env_ref (v : string) : string := "${" +:+ v +:+ "}".

(** * Bearer tokens: [bearer_token_auth_extension.go] *)
Definition defaultBearerAuthTokenField : string := "token".

Record BearerTokenAuthExtensionConfig := mkBearerExtension { BearerExtension_BearerToken : string }.

Definition BearerAuthEnvVarName (n : NamespacedName) : string :=
  "TC_BEARERAUTH_" +:+ sanitizeEnvVarSegment (NamespacedName_Namespace n)
  +:+ "_" +:+ sanitizeEnvVarSegment (NamespacedName_Name n) +:+ "_TOKEN".

Definition BearerAuthSecretKey (n : NamespacedName) : string :=
  "bearerauth_" +:+ sanitizeSecretKeySegment (NamespacedName_Namespace n)
  +:+ "_" +:+ sanitizeSecretKeySegment (NamespacedName_Name n) +:+ "_token".

Inductive extension_config :=
| ExtMap (m : gmap string any)
| ExtBasicAuth (c : BasicAuthExtensionConfig)
| ExtBearerAuth (c : BearerTokenAuthExtensionConfig).

(** * Health check: [health_check_extension.go] *)
Definition HealthCheckExtensionName : string := "health_check".
Definition HealthCheckEndpoint : string := "0.0.0.0:13133".
Definition GenerateHealthCheckExtension : gmap string any :=
  {[ "endpoint" := any_string HealthCheckEndpoint ]}.

Section Extensions.
Context `{Platform}.

Definition GenerateBasicAuthExtensionsForOutput (output : OutputWithSecretData) : BasicAuthExtensionConfig :=
  let '(userVar, passVar) := BasicAuthEnvVarNames (Output_NamespacedName (OWS_Output output)) in
  mkBasicAuthExtension (mkBasicClientAuth (env_ref userVar) (env_ref passVar)).

Definition GenerateBearerAuthExtensionsForOutput (output : OutputWithSecretData) : BearerTokenAuthExtensionConfig :=
  mkBearerExtension (env_ref (BearerAuthEnvVarName (Output_NamespacedName (OWS_Output output)))).

(** [field] unless it is empty, else the default *)
Definition field_or (field dflt : string) : string :=
  if bool_decide (field = "") then dflt else field.

(** [if v, ok := data[field]; ok { result[key] = v }] *)
Definition copy_key (data : gomap string string) (field key : string) (m : gmap string string) : gmap string string :=
  match melems data !! field with Some v => <[key := v]> m | None => m end.

(** [BasicAuthSecretData], for an output with basic authentication [auth] *)
Definition BasicAuthSecretData (output : OutputWithSecretData) (auth : BasicAuthConfig) : gmap string string :=
  let userField := field_or (BasicAuthConfig_UsernameField auth) defaultBasicAuthUsernameField in
  let passField := field_or (BasicAuthConfig_PasswordField auth) defaultBasicAuthPasswordField in
  let '(userKey, passKey) := BasicAuthSecretKeys (Output_NamespacedName (OWS_Output output)) in
  copy_key (Secret_Data (OWS_Secret output)) passField passKey
    (copy_key (Secret_Data (OWS_Secret output)) userField userKey ∅).

(** [BearerAuthSecretData], for an output with bearer authentication [auth] *)
Definition BearerAuthSecretData (output : OutputWithSecretData) (auth : BearerAuthConfig) : gmap string string :=
  let tokenField := field_or (BearerAuthConfig_TokenField auth) defaultBearerAuthTokenField in
  copy_key (Secret_Data (OWS_Secret output)) tokenField
    (BearerAuthSecretKey (Output_NamespacedName (OWS_Output output))) ∅.

(** * File storage: [storage/filestorage.go] *)
Definition defaultFileStorageDirectory : string := "/var/lib/otelcol/file_storage".

Definition DetermineFileStorageDirectory (persistDirPath tenantName : string) : string :=
  if negb (bool_decide (persistDirPath = "")) then persistDirPath
  else if bool_decide (GOOS = "windows") then file_storage_directory_windows +:+ "/" +:+ tenantName
  else defaultFileStorageDirectory +:+ "/" +:+ tenantName.

Definition GenerateFileStorageExtensionForTenant (persistDirPath tenantName : string) : gmap string any :=
  {[ "create_directory" := any_bool true;
     "directory" := any_string (DetermineFileStorageDirectory persistDirPath tenantName) ]}.
End Extensions.
