(* ===== verification/Connectors.v ===== *)
(** [pkg/resources/otel_conf_gen/pipeline/pipeline.go] and
    [.../components/connector]: the pipelines of the collector's service and the
    connectors that join them. *)
From S2P Require Import Prelude Strs Json Errors ApiOtlp ApiOutput ApiTypes Kube Relations Exporters Processors.

(** * The names the generators share

    The Go code prints them with [fmt.Sprintf] wherever it needs them. *)
Definition tenant_pipeline (tenant : string) : string := "logs/tenant_" +:+ tenant.
Definition subscription_pipeline (tenant : string) (s : NamespacedName) : string :=
  tenant_pipeline tenant +:+ "_subscription_" +:+ ns_name s.
Definition output_pipeline (s o : NamespacedName) : string :=
  "logs/output_" +:+ ns_name s +:+ "_" +:+ ns_name o.
Definition routing_tenant (tenant : string) : string := "routing/tenant_" +:+ tenant +:+ "_subscriptions".
Definition routing_subscription (s : NamespacedName) : string := "routing/subscription_" +:+ ns_name s +:+ "_outputs".
Definition routing_bridge (bridge : string) : string := "routing/bridge_" +:+ bridge.
Definition tenantCountConnectorName : string := "count/tenant_metrics".
Definition outputCountConnectorName : string := "count/output_metrics".
Definition outputBytesConnectorName : string := "bytes/exporter".

(** * Count and bytes connectors: [count_connector.go], [bytes_connector.go] *)
Record CountConnectorAttributeConfig := mkCountAttribute {
  CountAttribute_Key : option string;
  CountAttribute_DefaultValue : option string
}.

Record CountConnectorMetricInfo := mkCountMetric {
  CountMetric_Description : option string;
  CountMetric_Conditions : golist string;
  CountMetric_Attributes : list CountConnectorAttributeConfig
}.

Record BytesConnectorAttributes := mkBytesAttribute {
  BytesAttribute_Key : option string;
  BytesAttribute_DefaultValue : option string
}.

Record BytesConnector := mkBytesConnector {
  BytesConnector_Description : string;
  BytesConnector_Attributes : list BytesConnectorAttributes
}.

(** * Routing connectors: [routing_connector.go] *)
Record RoutingConnectorTableItem := mkTableItem {
  TableItem_Condition : string;
  TableItem_Pipelines : list string
}.

Record RoutingConnector := mkRoutingConnector {
  RoutingConnector_Name : string;
  RoutingConnector_DefaultPipelines : golist string;
  RoutingConnector_ErrorMode : ErrorMode;
  RoutingConnector_Table : list RoutingConnectorTableItem
}.

Inductive connector_config :=
| ConnCount (logs : gmap string CountConnectorMetricInfo)
| ConnBytes (logs : gmap string BytesConnector)
| ConnRouting (rc : RoutingConnector).

Definition count_attribute (k : string) : CountConnectorAttributeConfig := mkCountAttribute (Some k) None.

Definition GenerateCountConnectors : gmap string connector_config :=
  insert_all
    [ (tenantCountConnectorName, ConnCount {[ "telemetry_controller_tenant_log_count" :=
        mkCountMetric (Some "The number of logs from each tenant pipeline.") None
          (count_attribute <$>
            ["tenant"; "k8s.namespace.name"; "k8s.node.name"; "k8s.container.name";
             "k8s.pod.name"; "k8s.pod.labels.app.kubernetes.io/name"; "k8s.pod.labels.app"]) ]});
      (outputCountConnectorName, ConnCount {[ "telemetry_controller_output_log_count" :=
        mkCountMetric (Some "The number of logs sent out from each exporter.") None
          (count_attribute <$>
            ["tenant"; "subscription"; "exporter"; "k8s.namespace.name"; "k8s.node.name";
             "k8s.container.name"; "k8s.pod.name"; "k8s.pod.labels.app.kubernetes.io/name";
             "k8s.pod.labels.app"]) ]}) ] ∅.

Definition GenerateBytesConnectors : gmap string connector_config :=
  {[ outputBytesConnectorName := ConnBytes {[ "otelcol_exporter_sent_log_records_bytes" :=
       mkBytesConnector "Bytes of log records successfully sent to destination"
         [ mkBytesAttribute (Some "exporter") None ] ]} ]}.

Definition newRoutingConnector (name : string) (c : RouteConfig) : RoutingConnector :=
  mkRoutingConnector name (RouteConfig_DefaultPipelines c) (RouteConfig_ErrorMode c) [].

Definition RouteConfig_zero : RouteConfig := mkRouteConfig None "".

(** [rc.Table = append(rc.Table, items...)] *)
Definition add_items (rc : RoutingConnector) (items : list RoutingConnectorTableItem) : RoutingConnector :=
  mkRoutingConnector (RoutingConnector_Name rc) (RoutingConnector_DefaultPipelines rc)
    (RoutingConnector_ErrorMode rc) (RoutingConnector_Table rc ++ items).

Section Connectors.
Context `{Platform} `{MapRange}.

Definition site_populateRoutingConnectorTable : nat := 2.

(** The table has an item per condition, in the order of the map. *)
Definition populateRoutingConnectorTable (seen : gmap string (list string)) (rc : RoutingConnector) : RoutingConnector :=
  add_items rc ((λ kv, mkTableItem kv.1 kv.2) <$> range_map site_populateRoutingConnectorTable seen).

(** One turn of the loop over the sorted subscription names *)
Definition see_subscription (tenantName : string) (subscriptions : gmap NamespacedName Subscription)
    (seen : gmap string (list string)) (ref : NamespacedName) : gmap string (list string) :=
  match subscriptions !! ref with
  | None => seen
  | Some s =>
      let name := subscription_pipeline tenantName (Subscription_NamespacedName s) in
      let cond := SubscriptionSpec_Condition (Subscription_Spec s) in
      <[cond := default [] (seen !! cond) ++ [name]]> seen
  end.

(** The argument slice is sorted in place, so the sorted names are returned with
    the connector. *)
Definition GenerateRoutingConnectorForTenantsSubscriptions (tenantName : string) (cfg : RouteConfig)
    (subscriptionNames : list NamespacedName) (subscriptions : gmap NamespacedName Subscription)
    : RoutingConnector * list NamespacedName :=
  let rc := newRoutingConnector (routing_tenant tenantName) cfg in
  let names := SortNamespacedNames subscriptionNames in
  let seen := foldl (see_subscription tenantName subscriptions) ∅ names in
  (populateRoutingConnectorTable seen rc, names).

Definition GenerateRoutingConnectorForSubscriptionsOutputs (subscriptionRef : NamespacedName)
    (outputNames : list NamespacedName) : RoutingConnector * list NamespacedName :=
  let rc := newRoutingConnector (routing_subscription subscriptionRef) RouteConfig_zero in
  let names := SortNamespacedNames outputNames in
  (add_items rc [mkTableItem "true" (output_pipeline subscriptionRef <$> names)], names).

Definition GenerateRoutingConnectorForBridge (bridge : Bridge) : RoutingConnector :=
  add_items (newRoutingConnector (routing_bridge (Bridge_Name bridge)) RouteConfig_zero)
    [ mkTableItem (BridgeSpec_Condition (Bridge_Spec bridge))
        [tenant_pipeline (BridgeSpec_TargetTenant (Bridge_Spec bridge))] ].

(** * Pipelines: [pipeline.go] *)
Record Pipeline := mkPipeline {
  Pipeline_Receivers : list string;
  Pipeline_Processors : list string;
  Pipeline_Exporters : list string
}.

Definition filterEmptyPipelines (items : list string) : list string := filter (λ i, i ≠ "") items.

Definition GeneratePipeline (receivers processors exporters : list string) : Pipeline :=
  mkPipeline (filterEmptyPipelines receivers) (filterEmptyPipelines processors) (filterEmptyPipelines exporters).

(** What the loop over the tenants has collected: receivers and the exporter *)
Definition root_step (tenantName : string) (eventsToLogsEnabled : bool)
    (acc : list string * string) (tenant : Tenant) : list string * string :=
  if negb (bool_decide (Tenant_Name tenant = tenantName)) then acc
  else
    let '(receivers, exporter) := acc in
    let receivers :=
      if negb (is_nil (TenantStatus_LogSourceNamespaces (Tenant_Status tenant)))
         || TenantSpec_SelectFromAllNamespaces (Tenant_Spec tenant)
      then receivers ++ ["file_log/" +:+ tenantName]
           ++ (if eventsToLogsEnabled then ["k8s_events/" +:+ tenantName] else [])
      else receivers in
    let exporter :=
      if negb (is_nil (TenantStatus_Subscriptions (Tenant_Status tenant)))
      then routing_tenant tenantName else exporter in
    (receivers, exporter).

Definition GenerateRootPipeline (tenants : list Tenant) (tenantName : string)
    (dryRunMode eventsToLogsEnabled : bool) : Pipeline :=
  let '(receivers, exporter) := foldl (root_step tenantName eventsToLogsEnabled) ([], "") tenants in
  let processors := ["k8s_attributes"; "attributes/tenant_" +:+ tenantName; "filter/exclude"] in
  if dryRunMode then GeneratePipeline receivers processors [exporter]
  else GeneratePipeline receivers processors [exporter; tenantCountConnectorName].

Definition metrics_pipeline (receiver : string) : Pipeline :=
  mkPipeline [receiver] [DefaultDeltaToCumulativeProcessorID; "attributes/metricattributes"]
    [DefaultPrometheusExporterID].

Definition GenerateMetricsPipelines (includeOutputBytes : bool) : gmap string Pipeline :=
  insert_all
    ([ ("metrics/tenant", metrics_pipeline "count/tenant_metrics");
       ("metrics/output", metrics_pipeline "count/output_metrics") ]
     ++ if includeOutputBytes then [("metrics/output_bytes", metrics_pipeline "bytes/exporter")] else []) ∅.

(** * Bridges in a tenant's root pipeline *)
Definition hasPipelineReceiverOrExporter (p : Pipeline) (name : string) : bool :=
  bool_decide (name ∈ Pipeline_Receivers p) || bool_decide (name ∈ Pipeline_Exporters p).

Definition addConnectorToPipeline (p : Pipeline) (connectorName : string) (needsReceiver needsExporter : bool) : Pipeline :=
  if hasPipelineReceiverOrExporter p connectorName then p
  else mkPipeline
    (Pipeline_Receivers p ++ if needsReceiver then [connectorName] else [])
    (Pipeline_Processors p)
    (Pipeline_Exporters p ++ if needsExporter then [connectorName] else []).

Definition checkBridgeConnectorForTenant (tenantName : string) (bridge : Bridge) : bool * bool * string :=
  (bool_decide (BridgeSpec_TargetTenant (Bridge_Spec bridge) = tenantName),
   bool_decide (BridgeSpec_SourceTenant (Bridge_Spec bridge) = tenantName),
   Bridge_Name bridge).

Definition add_bridge (tenantName : string) (p : Pipeline) (bridge : Bridge) : Pipeline :=
  let '(needsReceiver, needsExporter, bridgeName) := checkBridgeConnectorForTenant tenantName bridge in
  addConnectorToPipeline p (routing_bridge bridgeName) needsReceiver needsExporter.

Definition GenerateRoutingConnectorForBridgesTenantPipeline (tenantName : string) (p : Pipeline)
    (bridges : list Bridge) : Pipeline :=
  foldl (add_bridge tenantName) p bridges.
End Connectors.

#[global] Arguments filterEmptyPipelines : simpl never.
