(* ===== verification/ConfGen.v ===== *)
(** [pkg/resources/otel_conf_gen/otel_conf_gen.go]: the collector configuration
    assembled from the relations between tenants, subscriptions and outputs. *)
From S2P Require Import Prelude Strs Json Errors ApiOtlp ApiOutput ApiTypes Kube Relations.
From S2P Require Import Exporters Processors Receivers Extensions Connectors.

Section ConfGen.
Context `{Platform} `{MapRange}.

Record OtelColConfigInput := mkInput {
  Input_Relations : ResourceRelations;
  Input_MemoryLimiter : MemoryLimiter;
  Input_EventsToLogs : option EventsToLogs;
  Input_Debug : bool;
  Input_DryRunMode : bool;
  Input_IsAxoflowDistribution : bool
}.
Implicit Types (c : OtelColConfigInput).

(** The embedded fields *)
Definition in_Tenants c : list Tenant := elems (Tenants (Input_Relations c)).
Definition in_Subscriptions c : gmap NamespacedName Subscription := melems (Subscriptions (Input_Relations c)).
Definition in_Bridges c : list Bridge := elems (Bridges (Input_Relations c)).
Definition in_Outputs c : list OutputWithSecretData := elems (OutputsWithSecretData (Input_Relations c)).
Definition in_TenantSubscriptions c : gmap string (golist NamespacedName) :=
  melems (TenantSubscriptionMap (Input_Relations c)).
Definition in_SubscriptionOutputs c : gmap NamespacedName (golist NamespacedName) :=
  melems (SubscriptionOutputMap (Input_Relations c)).

(** [reflect.DeepEqual] of the relations with their zero value: every field nil *)
Definition ResourceRelations_is_zero (r : ResourceRelations) : bool :=
  is_nil (Tenants r) && is_nil (Subscriptions r) && is_nil (Bridges r)
  && is_nil (OutputsWithSecretData r) && is_nil (TenantSubscriptionMap r)
  && is_nil (SubscriptionOutputMap r).

(** The fields of kind struct are the relations and the memory limiter; [None]
    is the nil receiver. *)
Definition IsEmpty (cfgInput : option OtelColConfigInput) : bool :=
  match cfgInput with
  | None => true
  | Some c => ResourceRelations_is_zero (Input_Relations c)
              && bool_decide (Input_MemoryLimiter c = MemoryLimiter_zero)
  end.

(** * Exporters *)
Definition generateExporters c : gmap string exporter_config :=
  let r := Input_Relations c in
  if Input_DryRunMode c then GenerateDebugExporters
  else
    let exporters := ∅ in
    let exporters := if Input_Debug c then maps_copy exporters GenerateDebugExporters else exporters in
    let exporters := maps_copy exporters GenerateMetricsExporters in
    let exporters := maps_copy exporters (GenerateOTLPGRPCExporters r) in
    let exporters := maps_copy exporters (GenerateOTLPHTTPExporters r) in
    let exporters := maps_copy exporters (GenerateFluentforwardExporters r (Input_IsAxoflowDistribution c)) in
    let exporters := maps_copy exporters (GenerateFileExporter r) in
    let exporters := maps_copy exporters (GenerateElasticsearchExporters r) in
    maps_copy exporters (GenerateAWSS3Exporters r).

(** * Processors *)
Definition tenant_attributes (tenant : string) : string := "attributes/tenant_" +:+ tenant.
Definition subscription_attributes (subscription : string) : string := "attributes/subscription_" +:+ subscription.
Definition exporter_attributes (output : string) : string := "attributes/exporter_name_" +:+ output.
Definition batch_processor (output : string) : string := "batch/" +:+ output.

(** What a turn of each loop writes *)
Definition tenant_processors (tenant : Tenant) : list (string * processor_config) :=
  (tenant_attributes (Tenant_Name tenant), ProcAttributes (GenerateTenantAttributeProcessor (Tenant_Name tenant)))
  :: (if negb (bool_decide (transform_name tenant = ""))
      then [("transform/" +:+ transform_name tenant, ProcTransform (GenerateTransformProcessorForTenant tenant))]
      else []).

Definition subscription_processors (s : Subscription) : list (string * processor_config) :=
  [(subscription_attributes (Subscription_Name s),
    ProcAttributes (GenerateSubscriptionAttributeProcessor (Subscription_Name s)))].

Definition output_processors (output : OutputWithSecretData) : list (string * processor_config) :=
  let o := OWS_Output output in
  (exporter_attributes (Output_Name o),
   ProcAttributes (GenerateOutputExporterNameProcessor (GetExporterNameForOutput o)))
  :: match OutputSpec_Batch (Output_Spec o) with
     | Some b => [(batch_processor (Output_Name o), ProcMap (GenerateBatchProcessorForOutput b))]
     | None => []
     end.

Definition site_processors_subscriptions : nat := 3.

Definition generateProcessors c : gmap string processor_config :=
  let processors := insert_all
    [ ("k8s_attributes", ProcMap GenerateDefaultKubernetesProcessor);
      ("memory_limiter", ProcMap (GenerateProcessorMemoryLimiter (Input_MemoryLimiter c)));
      ("filter/exclude", ProcMap GenerateFilterProcessor) ] ∅ in
  let processors := maps_copy processors GenerateMetricsProcessors in
  let processors := insert_all (in_Tenants c ≫= tenant_processors) processors in
  let processors := insert_all
    ((range_map site_processors_subscriptions (in_Subscriptions c)).*2 ≫= subscription_processors) processors in
  insert_all (in_Outputs c ≫= output_processors) processors.

(** * Extensions *)
Definition output_extensions (output : OutputWithSecretData) : list (string * extension_config) :=
  let o := OWS_Output output in
  let suffix := ns_name (Output_NamespacedName o) in
  match OutputSpec_Authentication (Output_Spec o) with
  | None => []
  | Some a =>
      (if negb (is_nil (OutputAuth_BasicAuth a))
       then [("basicauth/" +:+ suffix, ExtBasicAuth (GenerateBasicAuthExtensionsForOutput output))] else [])
      ++ (if negb (is_nil (OutputAuth_BearerAuth a))
          then [("bearertokenauth/" +:+ suffix, ExtBearerAuth (GenerateBearerAuthExtensionsForOutput output))] else [])
  end.

Definition tenant_extensions c (tenant : Tenant) : list (string * extension_config) :=
  let p := TenantSpec_PersistenceConfig (Tenant_Spec tenant) in
  if negb (Input_DryRunMode c) && PersistenceConfig_EnableFileStorage p
  then [(file_storage_name (Tenant_Name tenant),
         ExtMap (GenerateFileStorageExtensionForTenant (PersistenceConfig_Directory p) (Tenant_Name tenant)))]
  else [].

Definition site_extension_names : nat := 4.

Definition generateExtensions c : gmap string extension_config * golist string :=
  let extensions := if negb (Input_DryRunMode c)
    then {[ HealthCheckExtensionName := ExtMap GenerateHealthCheckExtension ]} else ∅ in
  let extensions := insert_all (in_Outputs c ≫= output_extensions) extensions in
  let extensions := insert_all (in_Tenants c ≫= tenant_extensions c) extensions in
  let extensionNames :=
    if (0 <? size extensions)%nat
    then Some ((range_map site_extension_names extensions).*1) else None in
  (extensions, sort_strings <$> extensionNames).

(** * Receivers *)
Definition file_log (tenant : string) : string := "file_log/" +:+ tenant.
Definition k8s_events (tenant : string) : string := "k8s_events/" +:+ tenant.

Definition tenant_receivers c (tenantName : string) : list (string * gmap string any) :=
  match find_first (λ t, bool_decide (tenantName = Tenant_Name t)) (in_Tenants c) with
  | None => []
  | Some tenant =>
      let namespaces := elems (TenantStatus_LogSourceNamespaces (Tenant_Status tenant)) in
      if (0 <? length namespaces)%nat || TenantSpec_SelectFromAllNamespaces (Tenant_Spec tenant) then
        (file_log tenantName, GenerateDefaultKubernetesReceiver namespaces (Input_DryRunMode c) tenant)
        :: match Input_EventsToLogs c with
           | Some e => [(k8s_events tenantName,
                         GenerateKubernetesEventsReceiver namespaces (Input_DryRunMode c) tenant e)]
           | None => []
           end
      else []
  end.

Definition site_receivers : nat := 5.

Definition generateReceivers c : gmap string (gmap string any) :=
  insert_all ((range_map site_receivers (in_TenantSubscriptions c)).*1 ≫= tenant_receivers c) ∅.

(** * Connectors

    The generators sort the slices of the two maps in place, so the loops carry
    the maps along and the sorted ones are in the input afterwards. *)
Definition name_of (rc : RoutingConnector) : string := RoutingConnector_Name rc.

(** A loop's state: the connectors and the map whose slices it sorts *)
Definition tenant_connector (subscriptions : gmap NamespacedName Subscription)
    (acc : gmap string connector_config * gomap string (golist NamespacedName)) (tenant : Tenant)
    : gmap string connector_config * gomap string (golist NamespacedName) :=
  let '(connectors, tsm) := acc in
  let names := elems (slice_at tsm (Tenant_Name tenant)) in
  if (0 <? length names)%nat then
    let '(rc, sorted) := GenerateRoutingConnectorForTenantsSubscriptions (Tenant_Name tenant)
                           (TenantSpec_RouteConfig (Tenant_Spec tenant)) names subscriptions in
    (<[name_of rc := ConnRouting rc]> connectors, Some (<[Tenant_Name tenant := Some sorted]> (melems tsm)))
  else acc.

Definition subscription_connector
    (acc : gmap string connector_config * gomap NamespacedName (golist NamespacedName)) (s : Subscription)
    : gmap string connector_config * gomap NamespacedName (golist NamespacedName) :=
  let '(connectors, som) := acc in
  let ref := Subscription_NamespacedName s in
  let names := elems (slice_at som ref) in
  if (0 <? length names)%nat then
    let '(rc, sorted) := GenerateRoutingConnectorForSubscriptionsOutputs ref names in
    (<[name_of rc := ConnRouting rc]> connectors, Some (<[ref := Some sorted]> (melems som)))
  else acc.

Definition bridge_connector (b : Bridge) : string * connector_config :=
  let rc := GenerateRoutingConnectorForBridge b in (name_of rc, ConnRouting rc).

Definition site_connectors : nat := 6.

(** [cfgInput] with the two maps after the sorts *)
Definition set_maps c (tsm : gomap string (golist NamespacedName))
    (som : gomap NamespacedName (golist NamespacedName)) : OtelColConfigInput :=
  let r := Input_Relations c in
  mkInput (mkRelations (Tenants r) (Subscriptions r) (Bridges r) (OutputsWithSecretData r) tsm som)
    (Input_MemoryLimiter c) (Input_EventsToLogs c) (Input_Debug c) (Input_DryRunMode c)
    (Input_IsAxoflowDistribution c).

Definition generateConnectors c : gmap string connector_config * OtelColConfigInput :=
  let r := Input_Relations c in
  let connectors := if negb (Input_DryRunMode c) then
      let connectors := maps_copy ∅ GenerateCountConnectors in
      if Input_IsAxoflowDistribution c then maps_copy connectors GenerateBytesConnectors else connectors
    else ∅ in
  let '(connectors, tsm) :=
    foldl (tenant_connector (in_Subscriptions c)) (connectors, TenantSubscriptionMap r) (in_Tenants c) in
  let '(connectors, som) :=
    foldl subscription_connector (connectors, SubscriptionOutputMap r)
      ((range_map site_connectors (in_Subscriptions c)).*2) in
  (insert_all (bridge_connector <$> in_Bridges c) connectors, set_maps c tsm som).

(** * Pipelines *)
Definition root_pipeline c (tenant : string) : Pipeline :=
  GenerateRootPipeline (in_Tenants c) tenant (Input_DryRunMode c) (negb (is_nil (Input_EventsToLogs c))).

(** The tenant's root pipeline once its bridges and its transform are added *)
Definition tenant_root_pipeline c (tenant : string) : Pipeline :=
  let p := GenerateRoutingConnectorForBridgesTenantPipeline tenant (root_pipeline c tenant) (in_Bridges c) in
  mkPipeline (Pipeline_Receivers p)
    (GenerateTransformProcessorForTenantPipeline tenant (Pipeline_Processors p) (in_Tenants c))
    (Pipeline_Exporters p).

Definition output_pipeline_processors (o : Output) : list string :=
  exporter_attributes (Output_Name o)
  :: match OutputSpec_Batch (Output_Spec o) with
     | Some _ => [batch_processor (Output_Name o)]
     | None => []
     end.

Definition output_pipeline_exporters c (o : Output) : list string :=
  if Input_DryRunMode c then [DebugExporterID]
  else
    (if Input_Debug c then [DebugExporterID] else [])
    ++ (let exporterName := GetExporterNameForOutput o in
        if negb (bool_decide (exporterName = ""))
        then [exporterName; outputCountConnectorName]
             ++ (if Input_IsAxoflowDistribution c then [outputBytesConnectorName] else [])
        else []).

Definition output_pipelines c (subscription outputRef : NamespacedName) : list (string * Pipeline) :=
  match find_first (λ elem, bool_decide (outputRef = Output_NamespacedName (OWS_Output elem))) (in_Outputs c) with
  | None => []
  | Some output =>
      let o := OWS_Output output in
      [(output_pipeline subscription outputRef,
        GeneratePipeline [routing_subscription subscription] (output_pipeline_processors o)
          (output_pipeline_exporters c o))]
  end.

Definition subscription_pipelines c (tenant : string) (subscription : NamespacedName) : list (string * Pipeline) :=
  (subscription_pipeline tenant subscription,
   GeneratePipeline [routing_tenant tenant] [subscription_attributes (NamespacedName_Name subscription)]
     [routing_subscription subscription])
  :: (elems (slice_at (SubscriptionOutputMap (Input_Relations c)) subscription) ≫= output_pipelines c subscription).

Definition tenant_pipelines c (tenant : string) : list (string * Pipeline) :=
  (tenant_pipeline tenant, tenant_root_pipeline c tenant)
  :: (elems (slice_at (TenantSubscriptionMap (Input_Relations c)) tenant) ≫= subscription_pipelines c tenant).

Definition site_pipelines : nat := 7.

Definition generateNamedPipelines c : gmap string Pipeline :=
  let tenants := (range_map site_pipelines (in_TenantSubscriptions c)).*1 in
  let namedPipelines := insert_all ((λ t, (tenant_pipeline t, root_pipeline c t)) <$> tenants) ∅ in
  let namedPipelines := if negb (Input_DryRunMode c)
    then maps_copy namedPipelines (GenerateMetricsPipelines (Input_IsAxoflowDistribution c))
    else namedPipelines in
  insert_all (tenants ≫= tenant_pipelines c) namedPipelines.

(** * Telemetry *)
Definition generateTelemetry c : gmap string any :=
  let telemetry := {[ "metrics" := any_map (insert_all
    [ ("level", any_string "detailed");
      ("readers", any_slice [ any_map {[ "pull" := any_map {[ "exporter" := any_map {[ "prometheus" :=
          any_map (insert_all [("host", any_string ""); ("port", any_int 8888)] ∅) ]} ]} ]} ]) ] ∅) ]} in
  if Input_Debug c then <["logs" := any_map {[ "level" := any_string "debug" ]}]> telemetry else telemetry.

(** * The whole configuration *)
Record Config := mkConfig {
  Config_Receivers : gmap string (gmap string any);
  Config_Exporters : gmap string exporter_config;
  Config_Processors : gmap string processor_config;
  Config_Connectors : gmap string connector_config;
  Config_Extensions : gmap string extension_config;
  Service_Extensions : golist string;
  Service_Telemetry : gmap string any;
  Service_Pipelines : gmap string Pipeline
}.

Definition site_additional_args : nat := 8.

(** [isFeatureGateEnabled]: [None] is the panic of the type assertion. *)
Fixpoint flatten_enabled (processors : list (string * processor_config)) : option bool :=
  match processors with
  | [] => Some false
  | (processorName, processorConfig) :: rest =>
      if Contains processorName "transform" then
        match processorConfig with
        | ProcTransform t => if TransformProcessor_FlattenData t then Some true else flatten_enabled rest
        | _ => None
        end
      else flatten_enabled rest
  end.

Definition assembleAdditionalArgs (otelConfig : Config) : option (gmap string string) :=
  enabled ← flatten_enabled (range_map site_additional_args (Config_Processors otelConfig));
  Some (if enabled : bool then {[ "feature-gates" := Join ["transform.flatten.logs"] "," ]} else ∅).

Definition with_memory_limiter (p : Pipeline) : Pipeline :=
  mkPipeline (Pipeline_Receivers p) ("memory_limiter" :: Pipeline_Processors p) (Pipeline_Exporters p).

(** The configuration before the additional arguments are derived from it *)
Definition assemble c : Config :=
  let exporters := generateExporters c in
  let processors := generateProcessors c in
  let '(extensions, extensionNames) := generateExtensions c in
  let receivers := generateReceivers c in
  let '(connectors, c) := generateConnectors c in
  let pipelines := generateNamedPipelines c in
  let telemetry := generateTelemetry c in
  let pipelines := match processors !! "memory_limiter" with
    | Some _ => with_memory_limiter <$> pipelines
    | None => pipelines
    end in
  mkConfig receivers exporters processors connectors extensions extensionNames telemetry pipelines.

Definition AssembleConfig c : option (Config * gmap string string) :=
  let otelConfig := assemble c in
  args ← assembleAdditionalArgs otelConfig;
  Some (otelConfig, args).
End ConfGen.

#[global] Arguments assemble : simpl never.
#[global] Arguments generateProcessors : simpl never.
#[global] Arguments generateExporters : simpl never.
#[global] Arguments generateReceivers : simpl never.
#[global] Arguments generateExtensions : simpl never.
#[global] Arguments generateConnectors : simpl never.
#[global] Arguments generateNamedPipelines : simpl never.
