(* ===== verification/Names.v ===== *)
(** The names of the generated components are different for different
    resources: Kubernetes names hold neither an underscore nor a slash, and the
    generators join them with underscores behind a slash. *)
From S2P Require Import Prelude Strs Json Errors ApiOtlp ApiOutput ApiTypes Kube Relations.
From S2P Require Import Exporters Processors Receivers Extensions Connectors ConfGen.
From Stdlib Require Import Ascii.

(** What a DNS-1123 label or subdomain guarantees *)
Definition dns (s : string) : bool := free_of "_"%char s && free_of "/"%char s.
Definition dns_ref (n : NamespacedName) : bool :=
  dns (NamespacedName_Namespace n) && dns (NamespacedName_Name n).

Lemma dns_free s : dns s = true → free_of "_"%char s = true.
Proof. unfold dns. rewrite andb_true_iff. tauto. Qed.

Lemma dns_ref_namespace n : dns_ref n = true → free_of "_"%char (NamespacedName_Namespace n) = true.
Proof. unfold dns_ref. rewrite andb_true_iff. intros [? _]. by apply dns_free. Qed.

Lemma dns_ref_name n : dns_ref n = true → free_of "_"%char (NamespacedName_Name n) = true.
Proof. unfold dns_ref. rewrite andb_true_iff. intros [_ ?]. by apply dns_free. Qed.

#[export] Hint Resolve dns_free dns_ref_namespace dns_ref_name : go.

(** The underscore that starts a constant *)
Lemma under_sep (s t : string) : s +:+ "_" +:+ t = s +:+ String "_" t.
Proof. done. Qed.

(** Two texts split at their first underscore *)
Lemma under_inj (s1 s2 t1 t2 : string) :
  free_of "_"%char s1 = true → free_of "_"%char s2 = true →
  s1 +:+ "_" +:+ t1 = s2 +:+ "_" +:+ t2 → s1 = s2 ∧ t1 = t2.
Proof. rewrite !under_sep. apply sep_inj. Qed.

Lemma ns_name_inj n1 n2 : dns_ref n1 = true → dns_ref n2 = true → ns_name n1 = ns_name n2 → n1 = n2.
Proof.
  intros H1 H2 E. apply under_inj in E as [E1 E2]; auto with go.
  destruct n1, n2; cbn in *; congruence.
Qed.

(** An underscore-free text in front: two names [a_b] with [a] free *)
Lemma ns_name_app_inj n1 n2 (t1 t2 : string) :
  dns_ref n1 = true → dns_ref n2 = true →
  ns_name n1 +:+ "_" +:+ t1 = ns_name n2 +:+ "_" +:+ t2 → n1 = n2 ∧ t1 = t2.
Proof.
  unfold ns_name. intros H1 H2. rewrite !app_assoc_str. intros E.
  apply under_inj in E as [E1 E]; auto with go.
  apply under_inj in E as [E2 E]; auto with go.
  destruct n1, n2; cbn in *; split; congruence.
Qed.

Lemma routing_tenant_inj t1 t2 : dns t1 = true → dns t2 = true → routing_tenant t1 = routing_tenant t2 → t1 = t2.
Proof.
  unfold routing_tenant. intros H1 H2 E%(inj _).
  by apply (under_inj t1 t2 "subscriptions" "subscriptions") in E as [? _]; auto with go.
Qed.

Lemma routing_subscription_inj n1 n2 :
  dns_ref n1 = true → dns_ref n2 = true → routing_subscription n1 = routing_subscription n2 → n1 = n2.
Proof.
  unfold routing_subscription. intros H1 H2 E%(inj _).
  by apply (ns_name_app_inj n1 n2 "outputs" "outputs") in E as [? _]; auto with go.
Qed.

Lemma routing_bridge_inj b1 b2 : routing_bridge b1 = routing_bridge b2 → b1 = b2.
Proof. by intros E%(inj _). Qed.

Lemma tenant_pipeline_inj t1 t2 : tenant_pipeline t1 = tenant_pipeline t2 → t1 = t2.
Proof. by intros E%(inj _). Qed.

Lemma subscription_pipeline_unfold t n :
  subscription_pipeline t n = tenant_pipeline (t +:+ "_" +:+ "subscription_" +:+ ns_name n).
Proof. unfold subscription_pipeline, tenant_pipeline. by rewrite app_assoc_str. Qed.

Lemma tenant_subscription_ne t1 t2 n : dns t1 = true → tenant_pipeline t1 ≠ subscription_pipeline t2 n.
Proof.
  rewrite subscription_pipeline_unfold. intros H1 E%tenant_pipeline_inj. rewrite under_sep in E.
  by eapply (sep_ne "_"%char); [apply dns_free|].
Qed.

Lemma subscription_pipeline_inj t1 t2 n1 n2 :
  dns t1 = true → dns t2 = true → dns_ref n1 = true → dns_ref n2 = true →
  subscription_pipeline t1 n1 = subscription_pipeline t2 n2 → t1 = t2 ∧ n1 = n2.
Proof.
  rewrite !subscription_pipeline_unfold. intros H1 H2 H3 H4 E%tenant_pipeline_inj.
  apply under_inj in E as [-> E%(inj _)]; auto with go. split; [done|]. by apply ns_name_inj.
Qed.

Lemma output_pipeline_inj s1 s2 o1 o2 :
  dns_ref s1 = true → dns_ref s2 = true → dns_ref o1 = true → dns_ref o2 = true →
  output_pipeline s1 o1 = output_pipeline s2 o2 → s1 = s2 ∧ o1 = o2.
Proof.
  unfold output_pipeline. intros H1 H2 H3 H4 E%(inj _).
  apply ns_name_app_inj in E as [-> E]; auto. split; [done|]. by apply ns_name_inj.
Qed.

(** Different kinds of pipeline have different names. *)
Lemma tenant_output_ne t s o : tenant_pipeline t ≠ output_pipeline s o.
Proof. unfold tenant_pipeline, output_pipeline. discriminate. Qed.

Lemma subscription_output_ne t n s o : subscription_pipeline t n ≠ output_pipeline s o.
Proof. rewrite subscription_pipeline_unfold. apply tenant_output_ne. Qed.
