(* ===== verification/ConfGenFacts.v ===== *)
(** What each generated section of the configuration holds: the lemmas the
    theorems about the whole configuration are built from. *)
From S2P Require Import Prelude Strs Json Errors ApiOtlp ApiOutput ApiTypes Kube Relations.
From S2P Require Import Exporters Processors Receivers Extensions Connectors ConfGen.

(** * Maps of slices up to the order of each slice *)
Definition same_slices {K} `{Countable K} {A} (m m' : gomap K (golist A)) : Prop :=
  ∀ k, option_Forall2 (λ a b, elems a ≡ₚ elems b) (melems m !! k) (melems m' !! k).

Section SameSlices.
Context {K : Type} `{Countable K} {A : Type}.
Implicit Types m : gomap K (golist A).

#[export] Instance same_slices_equiv : Equivalence (same_slices (K := K) (A := A)).
Proof.
  split.
  - intros m k. destruct (_ !! k); by constructor.
  - intros m m' Hm k. destruct (Hm k); by constructor.
  - intros m1 m2 m3 H1 H2 k. specialize (H1 k). specialize (H2 k).
    destruct H1; inversion H2; subst; constructor. by etrans.
Qed.

#[export] Instance slice_at_proper :
  Proper (same_slices ==> eq ==> (≡ₚ)) (λ m (k : K), elems (A := A) (slice_at m k)).
Proof.
  intros m m' Hm k ? <-. unfold slice_at. by destruct (Hm k).
Qed.

Lemma same_slices_at m m' k : same_slices m m' → elems (slice_at m k) ≡ₚ elems (slice_at m' k).
Proof. intros Hm. by apply slice_at_proper. Qed.

Lemma same_slices_dom m m' k : same_slices m m' → is_Some (melems m !! k) ↔ is_Some (melems m' !! k).
Proof. intros Hm. destruct (Hm k); [|done]. split; eauto. Qed.

(** Sorting one slice in place *)
Lemma same_slices_sort m k l :
  elems (slice_at m k) ≠ [] → l ≡ₚ elems (slice_at m k) →
  same_slices m (Some (<[k := Some l]> (melems m))).
Proof.
  unfold slice_at. intros Hne Hp k'. cbn. destruct (decide (k = k')) as [<-|?].
  - rewrite lookup_insert_eq. destruct (melems m !! k) as [a|]; cbn in *; [|done].
    by constructor.
  - rewrite lookup_insert_ne by done. destruct (_ !! k'); by constructor.
Qed.
End SameSlices.

Lemma length_pos_ne {A} (l : list A) : (0 <? length l)%nat = true ↔ l ≠ [].
Proof. by destruct l. Qed.

(** A printed name: a constant, a slash and the rest. *)
Ltac names := solve [ by intros [=] | by cbn; congruence | set_solver ].

Section Facts.
Context `{Platform} `{MapRange}.
Implicit Types (c : OtelColConfigInput) (t : Tenant).

(** * Processors *)
Lemma generateProcessors_keys c k :
  is_Some (generateProcessors c !! k) ↔
  k ∈ ["k8s_attributes"; "memory_limiter"; "filter/exclude"; "deltatocumulative"; "attributes/metricattributes"]
  ∨ (∃ t, t ∈ in_Tenants c ∧ k ∈ (tenant_processors t).*1)
  ∨ (∃ ref s, in_Subscriptions c !! ref = Some s ∧ k = subscription_attributes (Subscription_Name s))
  ∨ (∃ o, o ∈ in_Outputs c ∧ k ∈ (output_processors o).*1).
Proof.
  unfold generateProcessors.
  rewrite !insert_all_is_Some, maps_copy_is_Some, insert_all_is_Some, !elem_of_bind_fst.
  unfold GenerateMetricsProcessors. rewrite insert_all_is_Some, lookup_empty_is_Some.
  setoid_rewrite elem_of_range_map_values.
  unfold subscription_processors, DefaultDeltaToCumulativeProcessorID. cbn [fmap list_fmap fst].
  set_solver.
Qed.

Lemma elem_of_tenant_processors t k :
  k ∈ (tenant_processors t).*1 ↔
  k = tenant_attributes (Tenant_Name t) ∨ (transform_name t ≠ "" ∧ k = "transform/" +:+ transform_name t).
Proof. unfold tenant_processors. case_bool_decide; cbn; set_solver. Qed.

Lemma elem_of_output_processors o k :
  k ∈ (output_processors o).*1 ↔ k ∈ output_pipeline_processors (OWS_Output o).
Proof. unfold output_processors, output_pipeline_processors. by destruct (OutputSpec_Batch _). Qed.

(** * Exporters *)
Lemma generate_key entry r o k e :
  o ∈ elems (OutputsWithSecretData r) → entry o = Some (k, e) → is_Some (generate entry r !! k).
Proof.
  intros Ho He. apply insert_all_is_Some. left. apply list_elem_of_fmap. exists (k, e).
  split; [done|]. apply list_elem_of_omap. eauto.
Qed.

Lemma generate_inv entry r k e :
  generate entry r !! k = Some e → ∃ o, o ∈ elems (OutputsWithSecretData r) ∧ entry o = Some (k, e).
Proof.
  intros E. apply insert_all_inv in E as [E|[E _]]; [|by rewrite lookup_empty in E].
  by apply list_elem_of_omap in E.
Qed.

(** The exporter of an output can be written out: the component IDs of its
    encoding marshal. *)
Definition encodable (o : Output) : Prop :=
  (∀ f, OutputSpec_File (Output_Spec o) = Some f → is_Some (File_fields f)) ∧
  (∀ a, OutputSpec_AWSS3 (Output_Spec o) = Some a → is_Some (AWSS3_fields a)).

Lemma generateExporters_cases c k :
  Input_DryRunMode c = false →
  is_Some (generateExporters c !! k) ↔
  (Input_Debug c = true ∧ is_Some (GenerateDebugExporters !! k))
  ∨ is_Some (GenerateMetricsExporters !! k)
  ∨ is_Some (GenerateOTLPGRPCExporters (Input_Relations c) !! k)
  ∨ is_Some (GenerateOTLPHTTPExporters (Input_Relations c) !! k)
  ∨ is_Some (GenerateFluentforwardExporters (Input_Relations c) (Input_IsAxoflowDistribution c) !! k)
  ∨ is_Some (GenerateFileExporter (Input_Relations c) !! k)
  ∨ is_Some (GenerateElasticsearchExporters (Input_Relations c) !! k)
  ∨ is_Some (GenerateAWSS3Exporters (Input_Relations c) !! k).
Proof.
  intros Hd. unfold generateExporters. rewrite Hd, !maps_copy_is_Some.
  destruct (Input_Debug c).
  - rewrite maps_copy_is_Some, lookup_empty_is_Some. intuition congruence.
  - rewrite lookup_empty_is_Some. intuition congruence.
Qed.

Lemma generateExporters_output c o t :
  Input_DryRunMode c = false → o ∈ in_Outputs c → encodable (OWS_Output o) →
  tenant_of (Input_Relations c) (OWS_Output o) = Some t →
  GetExporterNameForOutput (OWS_Output o) ≠ "" →
  is_Some (generateExporters c !! GetExporterNameForOutput (OWS_Output o)).
Proof.
  intros Hd Ho [Hfile Haws] Ht Hn. apply generateExporters_cases; [done|].
  assert (∀ entry e, entry o = Some (GetExporterNameForOutput (OWS_Output o), e) →
    is_Some (generate entry (Input_Relations c) !! GetExporterNameForOutput (OWS_Output o))) as Hgen.
  { intros entry e He. by apply (generate_key entry _ o _ e). }
  unfold GetExporterNameForOutput in *.
  destruct (OutputSpec_OTLPGRPC _) as [api|] eqn:E1.
  { do 2 right. left. eapply Hgen. unfold otlp_grpc_entry, GetExporterNameForOutput.
    rewrite E1, Ht. reflexivity. }
  destruct (OutputSpec_OTLPHTTP _) as [api|] eqn:E2.
  { do 3 right. left. eapply Hgen. unfold otlp_http_entry, GetExporterNameForOutput.
    rewrite E1, E2, Ht. reflexivity. }
  destruct (OutputSpec_Fluentforward _) as [api|] eqn:E3.
  { do 4 right. left. eapply Hgen. unfold fluentforward_entry. rewrite E3, Ht. reflexivity. }
  destruct (OutputSpec_File _) as [api|] eqn:E4.
  { do 5 right. left. destruct (Hfile _ eq_refl) as [v Hv]. eapply Hgen. unfold file_entry.
    rewrite E4. cbn. rewrite Hv. reflexivity. }
  destruct (OutputSpec_Elasticsearch _) as [api|] eqn:E5.
  { do 6 right. left. eapply Hgen. unfold elasticsearch_entry, GetExporterNameForOutput.
    rewrite E1, E2, E3, E4, E5, Ht. reflexivity. }
  destruct (OutputSpec_AWSS3 _) as [api|] eqn:E6; [|done].
  do 7 right. destruct (Haws _ eq_refl) as [v Hv]. eapply Hgen.
  unfold awss3_entry, AWSS3Wrapper_fields, GetExporterNameForOutput.
  rewrite E1, E2, E3, E4, E5, E6, Ht. cbn. rewrite Hv. reflexivity.
Qed.

(** * Connectors *)
Lemma tenant_connector_step subs conns tsm t :
  tenant_connector subs (conns, tsm) t =
    if (0 <? length (elems (slice_at tsm (Tenant_Name t))))%nat then
      (<[routing_tenant (Tenant_Name t) :=
         ConnRouting (GenerateRoutingConnectorForTenantsSubscriptions (Tenant_Name t)
           (TenantSpec_RouteConfig (Tenant_Spec t)) (elems (slice_at tsm (Tenant_Name t))) subs).1]> conns,
       Some (<[Tenant_Name t := Some (SortNamespacedNames (elems (slice_at tsm (Tenant_Name t))))]> (melems tsm)))
    else (conns, tsm).
Proof. reflexivity. Qed.

Lemma subscription_connector_step conns som s :
  let ref := Subscription_NamespacedName s in
  subscription_connector (conns, som) s =
    if (0 <? length (elems (slice_at som ref)))%nat then
      (<[routing_subscription ref :=
         ConnRouting (GenerateRoutingConnectorForSubscriptionsOutputs ref (elems (slice_at som ref))).1]> conns,
       Some (<[ref := Some (SortNamespacedNames (elems (slice_at som ref)))]> (melems som)))
    else (conns, som).
Proof. reflexivity. Qed.

(** One turn of a loop that sorts a slice and writes a connector, or does neither *)
Lemma sort_step {K} `{Countable K} (m : gomap K (golist NamespacedName)) k :
  elems (slice_at m k) ≠ [] →
  same_slices m (Some (<[k := Some (SortNamespacedNames (elems (slice_at m k)))]> (melems m))).
Proof. intros Hne. apply same_slices_sort; [done|]. apply SortNamespacedNames_perm. Qed.

Lemma tenant_connectors_same subs l conns tsm :
  same_slices tsm (foldl (tenant_connector subs) (conns, tsm) l).2.
Proof.
  revert conns tsm. induction l as [|t l IH]; intros conns tsm; [done|].
  cbn [foldl]. rewrite tenant_connector_step. case_match eqn:E; [|apply IH].
  etrans; [|apply IH]. apply sort_step. by apply length_pos_ne.
Qed.

Lemma subscription_connectors_same l conns som :
  same_slices som (foldl subscription_connector (conns, som) l).2.
Proof.
  revert conns som. induction l as [|s l IH]; intros conns som; [done|].
  cbn [foldl]. rewrite subscription_connector_step. case_match eqn:E; [|apply IH].
  etrans; [|apply IH]. apply sort_step. by apply length_pos_ne.
Qed.

Lemma same_slices_ne_nil {K} `{Countable K} {A} (m m' : gomap K (golist A)) k :
  same_slices m m' → elems (slice_at m k) ≠ [] ↔ elems (slice_at m' k) ≠ [].
Proof.
  intros Hm. pose proof (same_slices_at _ _ k Hm) as Hp.
  split; intros Hne E; apply Hne; rewrite E in Hp; by apply Permutation_nil_r.
Qed.

Lemma tenant_connectors_keys subs l conns tsm k :
  is_Some ((foldl (tenant_connector subs) (conns, tsm) l).1 !! k) ↔
  is_Some (conns !! k) ∨
  ∃ t, t ∈ l ∧ k = routing_tenant (Tenant_Name t) ∧ elems (slice_at tsm (Tenant_Name t)) ≠ [].
Proof.
  revert conns tsm. induction l as [|t l IH]; intros conns tsm; cbn [foldl]; [set_solver|].
  rewrite tenant_connector_step. case_match eqn:E; rewrite IH; clear IH.
  - apply length_pos_ne in E.
    setoid_rewrite <- (λ k, same_slices_ne_nil _ _ k (sort_step tsm _ E)).
    rewrite lookup_insert_is_Some'. setoid_rewrite elem_of_cons. naive_solver.
  - apply not_true_iff_false in E. rewrite length_pos_ne in E.
    setoid_rewrite elem_of_cons. naive_solver.
Qed.

Lemma subscription_connectors_keys l conns som k :
  is_Some ((foldl subscription_connector (conns, som) l).1 !! k) ↔
  is_Some (conns !! k) ∨
  ∃ s, s ∈ l ∧ k = routing_subscription (Subscription_NamespacedName s) ∧
    elems (slice_at som (Subscription_NamespacedName s)) ≠ [].
Proof.
  revert conns som. induction l as [|s l IH]; intros conns som; cbn [foldl]; [set_solver|].
  rewrite subscription_connector_step. case_match eqn:E; rewrite IH; clear IH.
  - apply length_pos_ne in E.
    setoid_rewrite <- (λ k, same_slices_ne_nil _ _ k (sort_step som _ E)).
    rewrite lookup_insert_is_Some'. setoid_rewrite elem_of_cons. naive_solver.
  - apply not_true_iff_false in E. rewrite length_pos_ne in E.
    setoid_rewrite elem_of_cons. naive_solver.
Qed.

(** The connectors that do not depend on the resources *)
Definition base_connectors c : gmap string connector_config :=
  if negb (Input_DryRunMode c) then
    let connectors := maps_copy ∅ GenerateCountConnectors in
    if Input_IsAxoflowDistribution c then maps_copy connectors GenerateBytesConnectors else connectors
  else ∅.

Lemma generateConnectors_keys c k :
  is_Some ((generateConnectors c).1 !! k) ↔
  is_Some (base_connectors c !! k)
  ∨ (∃ t, t ∈ in_Tenants c ∧ k = routing_tenant (Tenant_Name t) ∧
       elems (slice_at (TenantSubscriptionMap (Input_Relations c)) (Tenant_Name t)) ≠ [])
  ∨ (∃ ref s, in_Subscriptions c !! ref = Some s ∧ k = routing_subscription (Subscription_NamespacedName s) ∧
       elems (slice_at (SubscriptionOutputMap (Input_Relations c)) (Subscription_NamespacedName s)) ≠ [])
  ∨ (∃ b, b ∈ in_Bridges c ∧ k = routing_bridge (Bridge_Name b)).
Proof.
  unfold generateConnectors. fold (base_connectors c).
  destruct (foldl (tenant_connector _) _ _) as [conns1 tsm] eqn:E1.
  destruct (foldl subscription_connector _ _) as [conns2 som] eqn:E2. cbn [fst].
  rewrite insert_all_is_Some.
  replace conns2 with (conns2, som).1 by done. rewrite <- E2, subscription_connectors_keys.
  replace conns1 with (conns1, tsm).1 by done. rewrite <- E1, tenant_connectors_keys.
  setoid_rewrite elem_of_range_map_values.
  assert (k ∈ (bridge_connector <$> in_Bridges c).*1 ↔ ∃ b, b ∈ in_Bridges c ∧ k = routing_bridge (Bridge_Name b)) as ->.
  { rewrite <- list_fmap_compose, list_elem_of_fmap. set_solver. }
  naive_solver.
Qed.

(** The loops only reorder the slices of the input. *)
Lemma generateConnectors_input c :
  ∃ tsm som, (generateConnectors c).2 = set_maps c tsm som ∧
    same_slices (TenantSubscriptionMap (Input_Relations c)) tsm ∧
    same_slices (SubscriptionOutputMap (Input_Relations c)) som.
Proof.
  unfold generateConnectors. fold (base_connectors c).
  destruct (foldl (tenant_connector _) _ _) as [conns1 tsm] eqn:E1.
  destruct (foldl subscription_connector _ _) as [conns2 som] eqn:E2.
  exists tsm, som. split; [done|]. split.
  - replace tsm with (conns1, tsm).2 by done. rewrite <- E1. apply tenant_connectors_same.
  - replace som with (conns2, som).2 by done. rewrite <- E2. apply subscription_connectors_same.
Qed.
End Facts.
