(* ===== verification/PipelineFacts.v ===== *)
(** What each generated pipeline holds: closed forms of the loops of
    [pipeline.go], the bridges and transforms added to a root pipeline, and the
    origin of every entry of the pipeline map. *)
From S2P Require Import Prelude Strs Json Errors ApiOtlp ApiOutput ApiTypes Kube Relations.
From S2P Require Import Exporters Processors Receivers Extensions Connectors ConfGen ConfGenFacts.

Section PipelineFacts.
Context `{Platform} `{MapRange}.
Implicit Types (c : OtelColConfigInput) (t : Tenant) (p : Pipeline).

Lemma elem_of_filterEmpty l x : x ∈ filterEmptyPipelines l ↔ x ∈ l ∧ x ≠ "".
Proof. unfold filterEmptyPipelines. rewrite list_elem_of_filter. tauto. Qed.

(** * Root pipelines *)
Lemma foldl_root_notin name ev l acc :
  name ∉ Tenant_Name <$> l → foldl (root_step name ev) acc l = acc.
Proof.
  induction l as [|t l IH]; cbn; [done|]. rewrite not_elem_of_cons. intros [Hne Hl].
  unfold root_step at 2. rewrite bool_decide_false by done. by apply IH.
Qed.

(** Whether a tenant reads logs at all *)
Definition reads_logs t : bool :=
  negb (is_nil (TenantStatus_LogSourceNamespaces (Tenant_Status t)))
  || TenantSpec_SelectFromAllNamespaces (Tenant_Spec t).

Lemma foldl_root_unique tenants t ev :
  NoDup (Tenant_Name <$> tenants) → t ∈ tenants →
  foldl (root_step (Tenant_Name t) ev) ([], "") tenants =
    (if reads_logs t
     then file_log (Tenant_Name t) :: (if ev then [k8s_events (Tenant_Name t)] else []) else [],
     if is_nil (TenantStatus_Subscriptions (Tenant_Status t)) then "" else routing_tenant (Tenant_Name t)).
Proof.
  intros Hnd (l1 & l2 & ->)%list_elem_of_split. rewrite fmap_app, NoDup_app in Hnd.
  destruct Hnd as (_ & Hd & Hnd). cbn in Hnd. apply NoDup_cons in Hnd as [Hn2 _].
  rewrite foldl_app, (foldl_root_notin _ _ l1).
  2: { intros Hin. apply (Hd _ Hin), list_elem_of_here. }
  cbn [foldl]. rewrite foldl_root_notin by done.
  unfold root_step. rewrite bool_decide_true by done. cbn [negb]. unfold reads_logs, file_log, k8s_events.
  destruct (_ || _), (is_nil (TenantStatus_Subscriptions _)); done.
Qed.

Lemma root_pipeline_eq c t :
  NoDup (Tenant_Name <$> in_Tenants c) → t ∈ in_Tenants c →
  root_pipeline c (Tenant_Name t) =
    GeneratePipeline
      (if reads_logs t then file_log (Tenant_Name t)
         :: (if negb (is_nil (Input_EventsToLogs c)) then [k8s_events (Tenant_Name t)] else []) else [])
      ["k8s_attributes"; tenant_attributes (Tenant_Name t); "filter/exclude"]
      ((if is_nil (TenantStatus_Subscriptions (Tenant_Status t)) then "" else routing_tenant (Tenant_Name t))
       :: if Input_DryRunMode c then [] else [tenantCountConnectorName]).
Proof.
  intros Hnd Ht. unfold root_pipeline, GenerateRootPipeline. rewrite foldl_root_unique by done.
  by destruct (Input_DryRunMode c).
Qed.

(** * Bridges *)
Lemma add_bridge_pipeline name p b :
  Pipeline_Processors (add_bridge name p b) = Pipeline_Processors p ∧
  (∀ x, x ∈ Pipeline_Receivers (add_bridge name p b) →
     x ∈ Pipeline_Receivers p ∨ (x = routing_bridge (Bridge_Name b) ∧ BridgeSpec_TargetTenant (Bridge_Spec b) = name)) ∧
  (∀ x, x ∈ Pipeline_Exporters (add_bridge name p b) →
     x ∈ Pipeline_Exporters p ∨ (x = routing_bridge (Bridge_Name b) ∧ BridgeSpec_SourceTenant (Bridge_Spec b) = name)).
Proof.
  unfold add_bridge, checkBridgeConnectorForTenant, addConnectorToPipeline.
  destruct (hasPipelineReceiverOrExporter _ _); [auto|].
  cbn [Pipeline_Processors Pipeline_Receivers Pipeline_Exporters]. split; [done|].
  split; intros x; rewrite elem_of_app; case_bool_decide; set_solver.
Qed.

Lemma add_bridge_keeps name p b :
  Pipeline_Receivers p ⊆ Pipeline_Receivers (add_bridge name p b) ∧
  Pipeline_Exporters p ⊆ Pipeline_Exporters (add_bridge name p b).
Proof.
  unfold add_bridge, checkBridgeConnectorForTenant, addConnectorToPipeline.
  destruct (hasPipelineReceiverOrExporter _ _); [done|]. cbn. set_solver.
Qed.

Lemma bridges_pipeline name p bs :
  let p' := GenerateRoutingConnectorForBridgesTenantPipeline name p bs in
  Pipeline_Processors p' = Pipeline_Processors p ∧
  (∀ x, x ∈ Pipeline_Receivers p' → x ∈ Pipeline_Receivers p ∨
     ∃ b, b ∈ bs ∧ x = routing_bridge (Bridge_Name b) ∧ BridgeSpec_TargetTenant (Bridge_Spec b) = name) ∧
  (∀ x, x ∈ Pipeline_Exporters p' → x ∈ Pipeline_Exporters p ∨
     ∃ b, b ∈ bs ∧ x = routing_bridge (Bridge_Name b) ∧ BridgeSpec_SourceTenant (Bridge_Spec b) = name).
Proof.
  unfold GenerateRoutingConnectorForBridgesTenantPipeline. revert p.
  induction bs as [|b bs IH]; intros p; cbn [foldl]; cbv zeta; [set_solver|].
  destruct (IH (add_bridge name p b)) as (E & Hr & He).
  destruct (add_bridge_pipeline name p b) as (E' & Hr' & He').
  split; [congruence|]. split; intros x Hx.
  - apply Hr in Hx as [[Hx|Hx]%Hr'|Hx]; set_solver.
  - apply He in Hx as [[Hx|Hx]%He'|Hx]; set_solver.
Qed.

(** * Transforms *)
Lemma transform_processors_spec name ps tenants x :
  x ∈ GenerateTransformProcessorForTenantPipeline name ps tenants ↔
  x ∈ ps ∨ ∃ t, t ∈ tenants ∧ Tenant_Name t = name ∧ transform_name t ≠ "" ∧
    x = "transform/" +:+ transform_name t.
Proof.
  unfold GenerateTransformProcessorForTenantPipeline. revert ps.
  induction tenants as [|t l IH]; intros ps; cbn [foldl]; [set_solver|].
  rewrite IH. setoid_rewrite elem_of_cons.
  case_bool_decide; case_bool_decide; cbn [andb negb]; rewrite ?elem_of_app, ?list_elem_of_singleton; naive_solver.
Qed.

(** * Where a pipeline comes from *)
Inductive pipeline_origin c : string → Pipeline → Prop :=
| origin_root name : is_Some (in_TenantSubscriptions c !! name) →
    pipeline_origin c (tenant_pipeline name) (root_pipeline c name)
| origin_metrics k p : Input_DryRunMode c = false →
    GenerateMetricsPipelines (Input_IsAxoflowDistribution c) !! k = Some p → pipeline_origin c k p
| origin_tenant name : is_Some (in_TenantSubscriptions c !! name) →
    pipeline_origin c (tenant_pipeline name) (tenant_root_pipeline c name)
| origin_subscription name s : is_Some (in_TenantSubscriptions c !! name) →
    s ∈ elems (slice_at (TenantSubscriptionMap (Input_Relations c)) name) →
    pipeline_origin c (subscription_pipeline name s)
      (GeneratePipeline [routing_tenant name] [subscription_attributes (NamespacedName_Name s)]
         [routing_subscription s])
| origin_output name s ref o : is_Some (in_TenantSubscriptions c !! name) →
    s ∈ elems (slice_at (TenantSubscriptionMap (Input_Relations c)) name) →
    ref ∈ elems (slice_at (SubscriptionOutputMap (Input_Relations c)) s) →
    find_first (λ e, bool_decide (ref = Output_NamespacedName (OWS_Output e))) (in_Outputs c) = Some o →
    pipeline_origin c (output_pipeline s ref)
      (GeneratePipeline [routing_subscription s] (output_pipeline_processors (OWS_Output o))
         (output_pipeline_exporters c (OWS_Output o))).

Lemma elem_of_tenant_pipelines c name k p :
  (k, p) ∈ tenant_pipelines c name → is_Some (in_TenantSubscriptions c !! name) → pipeline_origin c k p.
Proof.
  intros Hin Hname. unfold tenant_pipelines in Hin. apply elem_of_cons in Hin as [[= -> ->]|Hin].
  { by constructor. }
  apply list_elem_of_bind in Hin as (s & Hin & Hs). unfold subscription_pipelines in Hin.
  apply elem_of_cons in Hin as [[= -> ->]|Hin]; [by constructor|].
  apply list_elem_of_bind in Hin as (ref & Hin & Hr). unfold output_pipelines in Hin.
  destruct (find_first _ _) as [o|] eqn:Ef; [|set_solver].
  apply list_elem_of_singleton in Hin as [= -> ->]. by eapply origin_output.
Qed.

Lemma generateNamedPipelines_origin c k p :
  generateNamedPipelines c !! k = Some p → pipeline_origin c k p.
Proof.
  unfold generateNamedPipelines. intros E. apply insert_all_inv in E as [E|[E _]].
  { apply list_elem_of_bind in E as (name & Hin & Hn). apply elem_of_range_map_keys in Hn.
    by eapply elem_of_tenant_pipelines. }
  assert (insert_all ((λ name, (tenant_pipeline name, root_pipeline c name)) <$>
      (range_map site_pipelines (in_TenantSubscriptions c)).*1) ∅ !! k = Some p → pipeline_origin c k p) as Hroot.
  { intros E'. apply insert_all_inv in E' as [E'|[E' _]]; [|by rewrite lookup_empty in E'].
    apply list_elem_of_fmap in E' as (name & [= -> ->] & Hn).
    constructor. by apply elem_of_range_map_keys in Hn. }
  destruct (Input_DryRunMode c) eqn:Hd; cbn [negb] in E; [by apply Hroot|].
  unfold maps_copy in E. apply lookup_union_Some_raw in E as [E|[_ E]]; [|by apply Hroot].
  by apply origin_metrics.
Qed.

Lemma tenant_pipelines_keys c name k :
  is_Some (in_TenantSubscriptions c !! name) → k ∈ (tenant_pipelines c name).*1 →
  is_Some (generateNamedPipelines c !! k).
Proof.
  intros Hname Hk. unfold generateNamedPipelines. apply insert_all_is_Some. left.
  apply elem_of_bind_fst. exists name. split; [|done]. by apply elem_of_range_map_keys.
Qed.

(** A key whose writes all hold the same pipeline holds that pipeline. *)
Lemma generateNamedPipelines_lookup c name k p :
  is_Some (in_TenantSubscriptions c !! name) → (k, p) ∈ tenant_pipelines c name →
  (∀ name' p', is_Some (in_TenantSubscriptions c !! name') → (k, p') ∈ tenant_pipelines c name' → p' = p) →
  generateNamedPipelines c !! k = Some p.
Proof.
  intros Hname Hin Huniq. unfold generateNamedPipelines. apply insert_all_lookup.
  - apply list_elem_of_bind. exists name. split; [done|]. by apply elem_of_range_map_keys.
  - intros p' (name' & Hin' & Hn')%list_elem_of_bind.
    apply elem_of_range_map_keys in Hn'. by eapply Huniq.
Qed.
End PipelineFacts.
