(* ===== verification/WfInput.v ===== *)
(** The well-formed inputs of the configuration generator: what the collector
    manager promises when it builds one ([BuildConfigInputForCollector]) and
    what the theorems about the assembled configuration rely on. *)
From S2P Require Import Prelude Strs Json Errors ApiOtlp ApiOutput ApiTypes Kube Relations.
From S2P Require Import Exporters Processors Receivers Extensions Connectors ConfGen ConfGenFacts PipelineFacts.

Section Wf.
Context `{Platform} `{MapRange}.
Implicit Types (c : OtelColConfigInput) (t : Tenant).

Definition output_ref (o : OutputWithSecretData) : NamespacedName := Output_NamespacedName (OWS_Output o).

Record wf_input c : Prop := {
  (** tenants have distinct names, and statuses as the API server returns them *)
  wf_tenants : NoDup (Tenant_Name <$> in_Tenants c);
  wf_status t : t ∈ in_Tenants c →
    decoded (TenantStatus_LogSourceNamespaces (Tenant_Status t)) ∧
    decoded (TenantStatus_Subscriptions (Tenant_Status t));
  (** the maps of the relations say what the statuses say *)
  wf_tenant_map name subs :
    in_TenantSubscriptions c !! name = Some subs ↔
    ∃ t, t ∈ in_Tenants c ∧ Tenant_Name t = name ∧ TenantStatus_Subscriptions (Tenant_Status t) = subs;
  wf_subscriptions ref : is_Some (in_Subscriptions c !! ref) ↔
    ∃ name subs, in_TenantSubscriptions c !! name = Some subs ∧ ref ∈ elems subs;
  wf_subscription_name ref s : in_Subscriptions c !! ref = Some s → Subscription_NamespacedName s = ref;
  wf_subscription_map ref outs :
    in_SubscriptionOutputs c !! ref = Some outs ↔
    ∃ s, in_Subscriptions c !! ref = Some s ∧ SubscriptionStatus_Outputs (Subscription_Status s) = outs;
  wf_outputs ref : (∃ o, o ∈ in_Outputs c ∧ output_ref o = ref) ↔
    ∃ s outs, in_SubscriptionOutputs c !! s = Some outs ∧ ref ∈ elems outs;
  wf_outputs_agree o o' : o ∈ in_Outputs c → o' ∈ in_Outputs c → output_ref o = output_ref o' → o = o'
}.

(** Every subscription has an output to route to, and every output an exporter
    configuration that can be written out. *)
Record routable c : Prop := {
  routable_outputs ref s : in_Subscriptions c !! ref = Some s →
    elems (SubscriptionStatus_Outputs (Subscription_Status s)) ≠ [];
  routable_encodable o : o ∈ in_Outputs c → encodable (OWS_Output o)
}.

Context {c : OtelColConfigInput} (Hwf : wf_input c).

Lemma slice_at_Some {K} `{Countable K} {A} (m : gomap K (golist A)) k l :
  melems m !! k = Some l → slice_at m k = l.
Proof. unfold slice_at. by intros ->. Qed.

Lemma elem_of_slice_at {K} `{Countable K} {A} (m : gomap K (golist A)) k x :
  x ∈ elems (slice_at m k) ↔ ∃ l, melems m !! k = Some l ∧ x ∈ elems l.
Proof.
  unfold slice_at. destruct (melems m !! k) as [l|]; cbn; [naive_solver|].
  split; [by intros ?%not_elem_of_nil|by intros (? & ? & ?)].
Qed.

Lemma wf_tenant_slice t :
  t ∈ in_Tenants c →
  slice_at (TenantSubscriptionMap (Input_Relations c)) (Tenant_Name t) = TenantStatus_Subscriptions (Tenant_Status t).
Proof using Hwf. intros Ht. apply slice_at_Some, (wf_tenant_map c Hwf). eauto. Qed.

Lemma wf_tenant_of_name name :
  is_Some (in_TenantSubscriptions c !! name) → ∃ t, t ∈ in_Tenants c ∧ Tenant_Name t = name.
Proof using Hwf. intros [subs E]. apply (wf_tenant_map c Hwf) in E. naive_solver. Qed.

Lemma wf_subscription_slice ref s :
  in_Subscriptions c !! ref = Some s →
  slice_at (SubscriptionOutputMap (Input_Relations c)) ref = SubscriptionStatus_Outputs (Subscription_Status s).
Proof using Hwf. intros Hs. apply slice_at_Some, (wf_subscription_map c Hwf). eauto. Qed.

Lemma wf_subscription_of_tenant name ref :
  ref ∈ elems (slice_at (TenantSubscriptionMap (Input_Relations c)) name) →
  ∃ s, in_Subscriptions c !! ref = Some s ∧ Subscription_NamespacedName s = ref.
Proof using Hwf.
  intros (subs & E & Hin)%elem_of_slice_at.
  destruct (proj2 (wf_subscriptions c Hwf ref)) as [s Hs]; [eauto|].
  exists s. split; [done|]. by eapply wf_subscription_name.
Qed.

(** The tenants of an output: those with a subscription that holds it *)
Lemma wf_tenant_of_output o : o ∈ in_Outputs c → ∃ t, tenant_of (Input_Relations c) (OWS_Output o) = Some t.
Proof using Hwf.
  intros Ho. unfold tenant_of.
  destruct (proj1 (wf_outputs c Hwf (output_ref o))) as (ref & outs & Hs & Hin); [eauto|].
  assert (is_Some (in_Subscriptions c !! ref)) as (name & subs & Hn & Hr)%(wf_subscriptions c Hwf).
  { apply (wf_subscription_map c Hwf) in Hs as (s & Hs & _). eauto. }
  destruct (FindTenantForOutput_complete (Input_Relations c) name (output_ref o)) as [t Et].
  - exists subs, ref, outs. done.
  - intros n subs' E. apply wf_tenant_of_name. eauto.
  - unfold output_ref in Et. rewrite Et. eauto.
Qed.

Lemma wf_find_tenant t :
  t ∈ in_Tenants c → find_first (λ t', bool_decide (Tenant_Name t = Tenant_Name t')) (in_Tenants c) = Some t.
Proof using Hwf. intros Ht. by apply find_first_unique; [apply (wf_tenants c Hwf)|]. Qed.

(** A slice that came from the API is nil when it is empty. *)
Lemma decoded_nil {A} (s : golist A) : decoded s → is_nil s = true ↔ elems s = [].
Proof.
  unfold decoded. destruct s as [[|x l]|]; cbn.
  - intros Hd. by destruct (Hd eq_refl).
  - done.
  - done.
Qed.

(** A tenant reads logs exactly when it has a receiver. *)
Lemma wf_receivers t k :
  t ∈ in_Tenants c →
  k ∈ (tenant_receivers c (Tenant_Name t)).*1 ↔
  reads_logs t = true ∧
  (k = file_log (Tenant_Name t) ∨ (k = k8s_events (Tenant_Name t) ∧ is_Some (Input_EventsToLogs c))).
Proof using Hwf.
  intros Ht. unfold tenant_receivers. rewrite wf_find_tenant by done.
  destruct (wf_status c Hwf t Ht) as [Hd _]. unfold reads_logs.
  assert (0 <? length (elems (TenantStatus_LogSourceNamespaces (Tenant_Status t))) =
          negb (is_nil (TenantStatus_LogSourceNamespaces (Tenant_Status t))))%nat as ->.
  { unfold decoded in Hd. by destruct (TenantStatus_LogSourceNamespaces _) as [[|]|]. }
  case_match; [|cbn; set_solver].
  destruct (Input_EventsToLogs c) as [e|]; cbn; [|rewrite (is_Some_alt None)]; set_solver.
Qed.
End Wf.
