(* ===== verification/Samples.v ===== *)
(** Concrete inputs the theorems are applied to: a platform whose third-party
    functions are computable, and a small set of resources. *)
From S2P Require Import Prelude Strs Json Errors ApiOtlp ApiOutput ApiTypes Kube Cluster Relations.
From S2P Require Import Exporters Processors Receivers Extensions Connectors ConfGen ConfGenFacts WfInput.

Definition sample_platform : Platform := {|
  component_ID := string;
  component_ID_text := λ s, if bool_decide (s = "") then None else Some s;
  opaque_text := λ _, "[REDACTED]";
  label_selector := string;
  selector := string;
  LabelSelectorAsSelector := λ s, if bool_decide (s = "!") then Err (ErrText "invalid selector") else Ok s;
  multierror_text := λ l, Join l "; ";
  combine_text := λ l, Join l "; ";
  GOOS := "linux";
  file_storage_directory_windows := "C:/ProgramData/Otelcol/FileStorage";
  configauth_Config := unit;
  quantity_text := λ _, "0"
|}.

#[local] Existing Instance sample_platform.

Definition sample_transform (name : string) (flatten : bool) : Transform :=
  mkTransform name flatten "ignore" None None None.

Definition sample_tenant (name : string) (transform : Transform) (persist : bool)
    (namespaces : golist string) (subs : golist NamespacedName) (bridges : golist string) : Tenant :=
  mkTenant name
    (mkTenantSpec ["team"] ["logs"] false transform (mkRouteConfig None "") (mkPersistenceConfig persist ""))
    (mkTenantStatus subs namespaces bridges StateReady None 0).

Definition sample_subscription (ns name tenant condition : string) (outs : list NamespacedName) : Subscription :=
  mkSubscription ns name (mkSubscriptionSpec condition (Some outs))
    (mkSubscriptionStatus tenant (Some outs) StateReady None 0).

Definition sample_grpc : OTLPGRPC :=
  mkOTLPGRPC None None (mkTimeoutSettings None)
    (mkGRPCClientConfig (Some "backend:4317") None None None None None None None None None None).

Definition sample_fluentforward : Fluentforward :=
  mkFluentforward (mkTCPClientSettings (Some (mkEndpoint (Some "backend:24224") false)) None None None)
    None None None None None None None.

Definition sample_auth : OutputAuth :=
  mkOutputAuth (Some (mkBasicAuthConfig (Some (mkSecretReference "team" "creds")) "" "")) None.

Definition sample_output (ns name tenant : string) (auth : option OutputAuth) : Output :=
  mkOutput ns name (mkOutputSpec (Some sample_grpc) None None None None None auth None)
    (mkOutputStatus tenant StateReady None 0).

Definition sample_secret : Secret :=
  mkSecret "team" "creds" (Some {[ "username" := "alice"; "password" := "secret" ]}).

Definition sub_ref : NamespacedName := mkNamespacedName "team" "errors".
Definition out_ref : NamespacedName := mkNamespacedName "team" "sink".

Definition sample_relations : ResourceRelations :=
  mkRelations
    (Some [sample_tenant "red" (sample_transform "flat" true) true (Some ["apps"]) (Some [sub_ref]) None])
    (Some {[ sub_ref := sample_subscription "team" "errors" "red" "true" [out_ref] ]})
    None
    (Some [mkOutputWithSecretData (sample_output "team" "sink" "red" (Some sample_auth)) sample_secret])
    (Some {[ "red" := Some [sub_ref] ]})
    (Some {[ sub_ref := Some [out_ref] ]}).

Definition sample_input : OtelColConfigInput :=
  mkInput sample_relations MemoryLimiter_default None false false true.

Definition sample_dry_input : OtelColConfigInput :=
  mkInput sample_relations MemoryLimiter_default None true true true.

Example sample_pipelines :
  (map_to_list (Service_Pipelines (assemble sample_input))).*1 ≡ₚ
    ["logs/tenant_red"; "logs/tenant_red_subscription_team_errors";
     "logs/output_team_errors_team_sink"; "metrics/tenant"; "metrics/output"; "metrics/output_bytes"].
Proof. apply (bool_decide_unpack _). vm_compute. exact I. Qed.

Example sample_args :
  snd <$> AssembleConfig sample_input = Some {[ "feature-gates" := "transform.flatten.logs" ]}.
Proof. reflexivity. Qed.

Lemma sample_tsm : in_TenantSubscriptions sample_input = {[ "red" := Some [sub_ref] ]}.
Proof. reflexivity. Qed.
Lemma sample_som : in_SubscriptionOutputs sample_input = {[ sub_ref := Some [out_ref] ]}.
Proof. reflexivity. Qed.
Lemma sample_subs : in_Subscriptions sample_input =
  {[ sub_ref := sample_subscription "team" "errors" "red" "true" [out_ref] ]}.
Proof. reflexivity. Qed.

(** The sample input is what the collector manager would have built. *)
Lemma sample_wf : wf_input sample_input.
Proof.
  split.
  - apply (bool_decide_unpack _). by vm_compute.
  - by intros t ->%list_elem_of_singleton.
  - intros name subs. rewrite sample_tsm.
    rewrite lookup_singleton_Some. split.
    + intros [<- <-]. eexists. split; [apply list_elem_of_here|done].
    + by intros (t & ->%list_elem_of_singleton & <- & <-).
  - intros ref. rewrite sample_tsm, sample_subs. unfold is_Some. setoid_rewrite lookup_singleton_Some. split.
    + intros [s [<- _]]. exists "red", (Some [sub_ref]). split; [auto|apply list_elem_of_here].
    + intros (name & subs & [_ <-] & ->%list_elem_of_singleton). eauto.
  - intros ref s. rewrite sample_subs. by intros [<- <-]%lookup_singleton_Some.
  - intros ref outs. rewrite sample_som, sample_subs.
    rewrite lookup_singleton_Some. split.
    + intros [<- <-]. eexists. split; [apply lookup_singleton_eq|done].
    + by intros (s & [<- <-]%lookup_singleton_Some & <-).
  - intros ref. rewrite sample_som.
    split.
    + intros (o & ->%list_elem_of_singleton & <-). exists sub_ref, (Some [out_ref]).
      split; [apply lookup_singleton_eq|apply list_elem_of_here].
    + intros (s & outs & [_ <-]%lookup_singleton_Some & ->%list_elem_of_singleton).
      eexists. split; [apply list_elem_of_here|done].
  - by intros o o' ->%list_elem_of_singleton ->%list_elem_of_singleton.
Qed.

Lemma sample_routable : routable sample_input.
Proof.
  split.
  - intros ref s. rewrite sample_subs. by intros [<- <-]%lookup_singleton_Some.
  - intros o ->%list_elem_of_singleton. by split.
Qed.

(** * A cluster

    The tenant [red] selects the namespace [team], where it finds an output and
    a subscription that nobody owns and an output that [blue] owns. *)
Definition sample_matches (sel ns : string) : bool :=
  bool_decide (sel = "team" ∧ ns = "team") || bool_decide (sel = "logs" ∧ ns = "apps").

#[export] Instance sample_client : Client (H := sample_platform) cluster := cluster_client sample_matches.

Definition sample_resources : list Resource :=
  [ ResOutput (sample_output "team" "sink" "" (Some sample_auth));
    ResOutput (sample_output "team" "other" "blue" None);
    ResSubscription (sample_subscription "team" "errors" "" "true" [out_ref]) ].

Definition sample_collector : Collector :=
  mkCollector "main" (mkCollectorSpec "all" "otel" None None None None None)
    (mkCollectorStatus None StateReady None 0).

Definition fresh_tenant (name : string) : Tenant :=
  sample_tenant name (sample_transform "" false) true None None None.

Definition sample_cluster (resources : list Resource) (refuses : bool) : cluster :=
  mkCluster ["team"; "apps"; "kube-system"] [fresh_tenant "red"] [] [sample_collector]
    resources [sample_secret] refuses.
