(* ===== verification/ExporterSpec.v ===== *)
(** What the exporter configurations hold: the sending queue of every queued
    exporter, and the authenticator of the exporters that authenticate. *)
From S2P Require Import Prelude Strs Json Errors ApiOtlp ApiOutput ApiTypes Kube Relations.
From S2P Require Import Exporters Processors Receivers Extensions Connectors ConfGen Names.
From S2P Require Import ConfGenFacts PipelineFacts WfInput Samples.

(** * Lookups in encoded structs *)

(** A field of the outer struct, whatever is embedded *)
Lemma lookup_outer outer inner k v :
  NoDup (outer.*1) → (k, v) ∈ outer → object (embed outer inner) !! k = v.
Proof.
  intros Hnd Hin. rewrite embed_shadows; [|done|by apply (list_elem_of_fmap_2 fst _ _ Hin)].
  destruct v as [v|]; [by apply object_lookup|]. apply object_lookup_None.
  intros v' Hv. by pose proof (nodup_fst_fun _ _ _ _ Hnd Hin Hv).
Qed.

(** A field of the embedded struct that the outer one does not declare *)
Lemma lookup_inner outer inner k v :
  NoDup (outer.*1) → NoDup (inner.*1) → k ∉ outer.*1 → (k, Some v) ∈ inner →
  object (embed outer inner) !! k = Some v.
Proof.
  intros Ho Hi Hk Hin. apply object_lookup; [by apply embed_nodup|].
  unfold embed. apply elem_of_app. right. by apply list_elem_of_filter.
Qed.

Lemma lookup_plain fs k v : NoDup (fs.*1) → (k, v) ∈ fs → object fs !! k = v.
Proof.
  intros Hnd Hin. destruct v as [v|]; [by apply object_lookup|]. apply object_lookup_None.
  intros v' Hv. by pose proof (nodup_fst_fun _ _ _ _ Hnd Hin Hv).
Qed.

(** Closes a goal on distinct field names and one on the position of a field. *)
Ltac field_names := apply (bool_decide_unpack _); vm_compute; exact I.
Ltac field_here := repeat first [ apply list_elem_of_here | apply list_elem_of_further ].

Section Queue.
Context `{Platform}.

(** The queue of an output: always on, 1000 entries unless the output says
    otherwise, stored when its tenant persists its logs. *)
Definition queue_spec (api : option QueueSettings) (t : Tenant) (queue : gmap string any) : Prop :=
  queue !! "enabled" = Some (any_bool true) ∧
  queue !! "queue_size" = Some (enc_int (default 1000%Z (api ≫= QueueSettings_QueueSize))) ∧
  queue !! "num_consumers" = enc_int <$> (api ≫= QueueSettings_NumConsumers) ∧
  queue !! "storage" =
    (if PersistenceConfig_EnableFileStorage (TenantSpec_PersistenceConfig (Tenant_Spec t))
     then Some (any_string (file_storage_name (Tenant_Name t))) else None).

Lemma queue_fields_spec api t : queue_spec api t (object (queueWrapper_fields (with_storage t (queue_of api)))).
Proof.
  unfold queue_spec. split_and!; apply lookup_plain; try field_names; unfold with_storage;
    destruct (PersistenceConfig_EnableFileStorage _), api as [[[?|] [?|] ? ? ? ?]|]; field_here.
Qed.
End Queue.

Section Exporters.
Context `{Platform} `{MapRange}.
Implicit Types (r : ResourceRelations) (o : OutputWithSecretData).

(** The exporters with a queue, and where an output configures it *)
Definition queued_exporters r (axoflow : bool)
    : list ((OutputWithSecretData → option (string * exporter_config)) * (OutputSpec → option (option QueueSettings))) :=
  [ (otlp_grpc_entry r, λ s, OTLPGRPC_QueueConfig <$> OutputSpec_OTLPGRPC s);
    (otlp_http_entry r, λ s, OTLPHTTP_QueueConfig <$> OutputSpec_OTLPHTTP s);
    (fluentforward_entry r axoflow, λ s, Fluentforward_QueueConfig <$> OutputSpec_Fluentforward s);
    (elasticsearch_entry r, λ s, Elasticsearch_QueueConfig <$> OutputSpec_Elasticsearch s);
    (awss3_entry r, λ s, AWSS3_QueueConfig <$> OutputSpec_AWSS3 s) ].

(** The entries that the generators of queued exporters write *)
Lemma entry_queue r axoflow entry settings o k e :
  (entry, settings) ∈ queued_exporters r axoflow → entry o = Some (k, e) →
  ∃ api t m queue, settings (Output_Spec (OWS_Output o)) = Some api ∧
    tenant_of r (OWS_Output o) = Some t ∧ e = ExpMap m ∧
    m !! "sending_queue" = Some (any_map queue) ∧ queue_spec api t queue.
Proof.
  unfold queued_exporters. rewrite !elem_of_cons, elem_of_nil.
  intros [[= -> ->]|[[= -> ->]|[[= -> ->]|[[= -> ->]|[[= -> ->]|[]]]]]] E;
    apply bind_Some in E as (api & Eapi & E); apply bind_Some in E as (t & Et & E).
  5: apply bind_Some in E as (values & Ev & E); apply bind_Some in Ev as (inner & _ & [= <-]).
  all: injection E as _ <-; rewrite Eapi; eexists _, t, _, _;
    repeat split; [done|apply lookup_outer; [field_names|field_here]|apply queue_fields_spec..].
Qed.

End Exporters.

(** * Where an exporter comes from *)
Section Origin.
Context `{Platform} `{MapRange}.

Inductive exporter_origin (c : OtelColConfigInput) (k : string) : exporter_config → Prop :=
| exporter_debug e : GenerateDebugExporters !! k = Some e → exporter_origin c k e
| exporter_metrics e : GenerateMetricsExporters !! k = Some e → exporter_origin c k e
| exporter_queued entry settings o e : o ∈ in_Outputs c →
    (entry, settings) ∈ queued_exporters (Input_Relations c) (Input_IsAxoflowDistribution c) →
    entry o = Some (k, e) → exporter_origin c k e
| exporter_file o e : o ∈ in_Outputs c → file_entry o = Some (k, e) → exporter_origin c k e.

Lemma generateExporters_origin c k e : generateExporters c !! k = Some e → exporter_origin c k e.
Proof.
  assert (∀ entry settings, generate entry (Input_Relations c) !! k = Some e →
    (entry, settings) ∈ queued_exporters (Input_Relations c) (Input_IsAxoflowDistribution c) →
    exporter_origin c k e) as Hq.
  { intros entry settings (o & Ho & Ee)%generate_inv Hin. by eapply exporter_queued. }
  unfold generateExporters. destruct (Input_DryRunMode c); [by apply exporter_debug|].
  intros [E|E]%maps_copy_inv; [eapply Hq; [exact E|unfold queued_exporters; field_here]|revert E].
  intros [E|E]%maps_copy_inv; [eapply Hq; [exact E|unfold queued_exporters; field_here]|revert E].
  intros [E|E]%maps_copy_inv; [apply generate_inv in E as (o & Ho & Ee); by eapply exporter_file|revert E].
  intros [E|E]%maps_copy_inv; [eapply Hq; [exact E|unfold queued_exporters; field_here]|revert E].
  intros [E|E]%maps_copy_inv; [eapply Hq; [exact E|unfold queued_exporters; field_here]|revert E].
  intros [E|E]%maps_copy_inv; [eapply Hq; [exact E|unfold queued_exporters; field_here]|revert E].
  intros [E|E]%maps_copy_inv; [by apply exporter_metrics|revert E].
  destruct (Input_Debug c); [|by rewrite lookup_empty].
  intros [E|E]%maps_copy_inv; [by apply exporter_debug|by rewrite lookup_empty in E].
Qed.

Lemma file_no_queue o k m : file_entry o = Some (k, ExpMap m) → m !! "sending_queue" = None.
Proof.
  unfold file_entry. intros E. apply bind_Some in E as (api & _ & E).
  apply bind_Some in E as (values & Ev & [= _ <-]). unfold File_fields in Ev.
  apply bind_Some in Ev as (enc & He & [= <-]). apply object_lookup_None. intros v.
  assert (enc.1 = "encoding") as Hn.
  { destruct (File_Encoding api); cbn in He; [|by injection He as <-].
    by apply bind_Some in He as (? & _ & [= <-]). }
  intros Hin%(list_elem_of_fmap_2 fst). cbn in Hin. rewrite Hn in Hin. revert Hin.
  apply (bool_decide_unpack _). vm_compute. exact I.
Qed.

(** An exporter with a storage belongs to an output of a tenant that persists. *)
Lemma exporter_storage c k m queue x :
  generateExporters c !! k = Some (ExpMap m) → m !! "sending_queue" = Some (any_map queue) →
  queue !! "storage" = Some (any_string x) →
  ∃ t, t ∈ in_Tenants c ∧ x = file_storage_name (Tenant_Name t) ∧
    PersistenceConfig_EnableFileStorage (TenantSpec_PersistenceConfig (Tenant_Spec t)) = true.
Proof.
  intros E Hm Hx. apply generateExporters_origin in E.
  inversion_clear E as [? Ed|? Em|entry settings o ? Ho Hin Ee|o ? Ho Ee].
  - unfold GenerateDebugExporters in Ed. apply lookup_singleton_Some in Ed as [_ [= <-]]. by apply lookup_singleton_Some in Hm as [? _].
  - unfold GenerateMetricsExporters in Em. by apply lookup_singleton_Some in Em as [_ ?].
  - destruct (entry_queue _ _ _ _ _ _ _ Hin Ee) as (api & t & m' & queue' & _ & Ht & [= <-] & Eq & _ & _ & _ & Hs).
    rewrite Hm in Eq. injection Eq as <-. rewrite Hs in Hx.
    exists t. destruct (PersistenceConfig_EnableFileStorage _) eqn:Ep; [|done]. injection Hx as <-.
    split; [|done]. unfold tenant_of in Ht. destruct (FindTenantForOutput _ _) as [t'|] eqn:Ef; [|done].
    injection Ht as ->. by apply FindTenantForOutput_sound in Ef as [? _].
  - apply file_no_queue in Ee. congruence.
Qed.
End Origin.
