(* ===== verification/ConfGenSpec.v ===== *)
(** Theorems about the assembled configuration: the memory limiter of every
    pipeline, and the references of the service section. *)
From S2P Require Import Prelude Strs Json Errors ApiOtlp ApiOutput ApiTypes Kube Relations.
From S2P Require Import Exporters Processors Receivers Extensions Connectors ConfGen.
From S2P Require Import ConfGenFacts PipelineFacts WfInput Samples.

Section Assembled.
Context `{Platform} `{MapRange}.
Implicit Types (c : OtelColConfigInput) (t : Tenant) (p : Pipeline).

(** The input the pipelines are generated from, its slices sorted *)
Definition sorted_input c : OtelColConfigInput := (generateConnectors c).2.

Lemma generateProcessors_memory_limiter c : is_Some (generateProcessors c !! "memory_limiter").
Proof. apply generateProcessors_keys. set_solver. Qed.

Lemma assemble_eq c :
  assemble c = mkConfig (generateReceivers c) (generateExporters c) (generateProcessors c)
    (generateConnectors c).1 (generateExtensions c).1 (generateExtensions c).2
    (generateTelemetry (sorted_input c)) (with_memory_limiter <$> generateNamedPipelines (sorted_input c)).
Proof.
  unfold assemble, sorted_input. destruct (generateExtensions c), (generateConnectors c) as [? c'].
  cbn. by destruct (generateProcessors_memory_limiter c) as [m ->].
Qed.

Lemma assemble_pipeline c k p :
  Service_Pipelines (assemble c) !! k = Some p ↔
  ∃ p0, generateNamedPipelines (sorted_input c) !! k = Some p0 ∧ p = with_memory_limiter p0.
Proof. rewrite assemble_eq. cbn. rewrite lookup_fmap_Some. naive_solver. Qed.

(** C16. Every pipeline of the assembled configuration starts with the memory
    limiter, as its first processor. *)
Theorem memory_limiter_first c name p :
  Service_Pipelines (assemble c) !! name = Some p →
  head (Pipeline_Processors p) = Some "memory_limiter".
Proof. by intros (p0 & _ & ->)%assemble_pipeline. Qed.

(** The pipelines are those of the input itself: the sorts change no set. *)
Lemma sorted_slices c :
  same_slices (TenantSubscriptionMap (Input_Relations c)) (TenantSubscriptionMap (Input_Relations (sorted_input c))) ∧
  same_slices (SubscriptionOutputMap (Input_Relations c)) (SubscriptionOutputMap (Input_Relations (sorted_input c))).
Proof. unfold sorted_input. by destruct (generateConnectors_input c) as (tsm & som & -> & ? & ?). Qed.

Lemma sorted_fields c :
  ∃ tsm som, sorted_input c = set_maps c tsm som.
Proof. unfold sorted_input. destruct (generateConnectors_input c) as (tsm & som & -> & _). eauto. Qed.

Lemma origin_sorted c k p : pipeline_origin (sorted_input c) k p ↔ pipeline_origin c k p.
Proof.
  destruct (sorted_slices c) as [Ht Hs]. destruct (sorted_fields c) as (tsm & som & E).
  rewrite E in *. split; intros Ho; destruct Ho as [name Hn|k p Hd Hk|name Hn|name s Hn Hin|name s ref o Hn Hin Hre Hf].
  all: try (apply (same_slices_dom _ _ name Ht) in Hn).
  all: try (rewrite (same_slices_at _ _ name Ht) in Hin || rewrite <- (same_slices_at _ _ name Ht) in Hin).
  all: try (rewrite (same_slices_at _ _ s Hs) in Hre || rewrite <- (same_slices_at _ _ s Hs) in Hre).
  - exact (origin_root c name Hn).
  - exact (origin_metrics c k p Hd Hk).
  - exact (origin_tenant c name Hn).
  - exact (origin_subscription c name s Hn Hin).
  - exact (origin_output c name s ref o Hn Hin Hre Hf).
  - exact (origin_root (set_maps c tsm som) name Hn).
  - exact (origin_metrics (set_maps c tsm som) k p Hd Hk).
  - exact (origin_tenant (set_maps c tsm som) name Hn).
  - exact (origin_subscription (set_maps c tsm som) name s Hn Hin).
  - exact (origin_output (set_maps c tsm som) name s ref o Hn Hin Hre Hf).
Qed.

Lemma assemble_pipeline_origin c k p :
  Service_Pipelines (assemble c) !! k = Some p →
  ∃ p0, pipeline_origin c k p0 ∧ p = with_memory_limiter p0.
Proof.
  intros (p0 & E & ->)%assemble_pipeline. exists p0. split; [|done].
  by apply origin_sorted, generateNamedPipelines_origin.
Qed.

(** * The names the service section uses *)
Definition source_known (cfg : Config) (x : string) : Prop :=
  is_Some (Config_Receivers cfg !! x) ∨ is_Some (Config_Connectors cfg !! x).
Definition sink_known (cfg : Config) (x : string) : Prop :=
  is_Some (Config_Exporters cfg !! x) ∨ is_Some (Config_Connectors cfg !! x).

Record closed_pipeline (cfg : Config) p : Prop := {
  closed_receivers : Forall (source_known cfg) (Pipeline_Receivers p);
  closed_processors : Forall (λ x, is_Some (Config_Processors cfg !! x)) (Pipeline_Processors p);
  closed_exporters : Forall (sink_known cfg) (Pipeline_Exporters p)
}.

Lemma connector_source c x : is_Some ((generateConnectors c).1 !! x) → source_known (assemble c) x.
Proof. rewrite assemble_eq. by right. Qed.
Lemma connector_sink c x : is_Some ((generateConnectors c).1 !! x) → sink_known (assemble c) x.
Proof. rewrite assemble_eq. by right. Qed.

Lemma base_connector_known c x :
  Input_DryRunMode c = false →
  x ∈ [tenantCountConnectorName; outputCountConnectorName]
    ∨ (x = outputBytesConnectorName ∧ Input_IsAxoflowDistribution c = true) →
  is_Some ((generateConnectors c).1 !! x).
Proof.
  intros Hd Hx. apply generateConnectors_keys. left. unfold base_connectors. rewrite Hd. cbn [negb].
  assert (∀ m, x ∈ [tenantCountConnectorName; outputCountConnectorName] →
    is_Some (maps_copy m GenerateCountConnectors !! x)) as Hcount.
  { intros m Hc. apply maps_copy_is_Some. right. apply insert_all_is_Some. left. set_solver. }
  destruct Hx as [Hx|[-> Ha]].
  - destruct (Input_IsAxoflowDistribution c); [|by apply Hcount].
    apply maps_copy_is_Some. left. by apply Hcount.
  - rewrite Ha. apply maps_copy_is_Some. right. unfold GenerateBytesConnectors.
    rewrite lookup_singleton_eq. eauto.
Qed.

Lemma metrics_pipelines_inv b k p :
  GenerateMetricsPipelines b !! k = Some p →
  ∃ x, p = metrics_pipeline x ∧
    (x ∈ [tenantCountConnectorName; outputCountConnectorName] ∨ (x = outputBytesConnectorName ∧ b = true)).
Proof.
  intros E. apply insert_all_inv in E as [E|[E _]]; [|by rewrite lookup_empty in E].
  destruct b; unfold tenantCountConnectorName, outputCountConnectorName, outputBytesConnectorName; set_solver.
Qed.

Lemma output_pipeline_exporters_spec c o x :
  x ∈ output_pipeline_exporters c o →
  (x = DebugExporterID ∧ (Input_DryRunMode c = true ∨ Input_Debug c = true))
  ∨ (Input_DryRunMode c = false ∧
      ((x = GetExporterNameForOutput o ∧ GetExporterNameForOutput o ≠ "")
       ∨ x ∈ [tenantCountConnectorName; outputCountConnectorName]
       ∨ (x = outputBytesConnectorName ∧ Input_IsAxoflowDistribution c = true))).
Proof.
  unfold output_pipeline_exporters. destruct (Input_DryRunMode c); [set_solver|].
  rewrite elem_of_app. case_bool_decide; cbn [negb]; destruct (Input_Debug c), (Input_IsAxoflowDistribution c);
    set_solver.
Qed.
End Assembled.

(** * Every reference is defined *)
Section Closed.
Context `{Platform} `{MapRange}.
Context {c : OtelColConfigInput} (Hwf : wf_input c).
Implicit Types (t : Tenant) (p : Pipeline).

Lemma debug_known : Input_DryRunMode c = true ∨ Input_Debug c = true → is_Some (generateExporters c !! DebugExporterID).
Proof using Type.
  intros Hd. destruct (Input_DryRunMode c) eqn:E.
  - unfold generateExporters. rewrite E. eauto.
  - apply generateExporters_cases; [done|]. left. split; [naive_solver|eauto].
Qed.

Lemma root_receivers_known t x :
  t ∈ in_Tenants c → x ∈ Pipeline_Receivers (root_pipeline c (Tenant_Name t)) → source_known (assemble c) x.
Proof using Hwf.
  intros Ht. rewrite (root_pipeline_eq c t (wf_tenants c Hwf) Ht). intros [Hx _]%elem_of_filterEmpty.
  left. rewrite assemble_eq. cbn. apply insert_all_is_Some. left.
  apply elem_of_bind_fst. exists (Tenant_Name t). split.
  - apply elem_of_range_map_keys. eexists. apply (wf_tenant_map c Hwf). eauto.
  - apply (wf_receivers Hwf); [done|]. destruct (reads_logs t); [|set_solver]. split; [done|].
    destruct (Input_EventsToLogs c); set_solver.
Qed.

Lemma root_exporters_known t x :
  t ∈ in_Tenants c → x ∈ Pipeline_Exporters (root_pipeline c (Tenant_Name t)) → sink_known (assemble c) x.
Proof using Hwf.
  intros Ht. rewrite (root_pipeline_eq c t (wf_tenants c Hwf) Ht). intros [Hx Hne]%elem_of_filterEmpty.
  apply connector_sink. apply elem_of_cons in Hx as [->|Hx].
  - apply generateConnectors_keys. right; left. exists t. split; [done|]. revert Hne.
    destruct (is_nil _) eqn:En; [done|]. intros _. split; [done|]. rewrite (wf_tenant_slice Hwf) by done.
    intros E. destruct (wf_status c Hwf t Ht) as [_ Hd]. apply (decoded_nil _ Hd) in E. congruence.
  - destruct (Input_DryRunMode c) eqn:Hd; [set_solver|]. apply base_connector_known; [done|]. set_solver.
Qed.

Lemma root_processors_known t x :
  t ∈ in_Tenants c → x ∈ Pipeline_Processors (root_pipeline c (Tenant_Name t)) → is_Some (generateProcessors c !! x).
Proof using Hwf.
  intros Ht. rewrite (root_pipeline_eq c t (wf_tenants c Hwf) Ht). intros [Hx _]%elem_of_filterEmpty.
  apply generateProcessors_keys.
  assert (x = tenant_attributes (Tenant_Name t) ∨ x ∈ ["k8s_attributes"; "filter/exclude"]) as [->|Hx'] by set_solver.
  - right; left. exists t. split; [done|]. apply elem_of_tenant_processors. by left.
  - left. set_solver.
Qed.

Lemma bridge_connector_known b :
  b ∈ in_Bridges c → is_Some ((generateConnectors c).1 !! routing_bridge (Bridge_Name b)).
Proof using Type. intros Hb. apply generateConnectors_keys. do 3 right. eauto. Qed.

Lemma closed_intro p :
  (∀ x, x ∈ Pipeline_Receivers p → source_known (assemble c) x) →
  (∀ x, x ∈ Pipeline_Processors p → is_Some (generateProcessors c !! x)) →
  (∀ x, x ∈ Pipeline_Exporters p → sink_known (assemble c) x) →
  closed_pipeline (assemble c) (with_memory_limiter p).
Proof using Type.
  intros Hre Hpr Hex. split; apply Forall_forall; cbn; [done| |done].
  intros x [->|Hx]%elem_of_cons; rewrite assemble_eq; cbn;
    [apply generateProcessors_memory_limiter|by apply Hpr].
Qed.

Lemma root_closed t : t ∈ in_Tenants c → closed_pipeline (assemble c) (with_memory_limiter (root_pipeline c (Tenant_Name t))).
Proof using Hwf.
  intros Ht. apply closed_intro; intros x;
    eauto using root_receivers_known, root_processors_known, root_exporters_known.
Qed.

Lemma tenant_root_closed t :
  t ∈ in_Tenants c → closed_pipeline (assemble c) (with_memory_limiter (tenant_root_pipeline c (Tenant_Name t))).
Proof using Hwf.
  intros Ht.
  destruct (bridges_pipeline (Tenant_Name t) (root_pipeline c (Tenant_Name t)) (in_Bridges c)) as (Ep & Hbr & Hbe).
  apply closed_intro; cbn; intros x.
  - intros [Hx|(b & Hin & -> & _)]%Hbr; [by eapply root_receivers_known|].
    by apply connector_source, bridge_connector_known.
  - intros [Hx|(t' & Ht' & _ & Hn & ->)]%transform_processors_spec.
    + rewrite Ep in Hx. by eapply root_processors_known.
    + apply generateProcessors_keys. right; left. exists t'. split; [done|].
      apply elem_of_tenant_processors. by right.
  - intros [Hx|(b & Hin & -> & _)]%Hbe; [by eapply root_exporters_known|].
    by apply connector_sink, bridge_connector_known.
Qed.

Lemma routing_tenant_known name s :
  s ∈ elems (slice_at (TenantSubscriptionMap (Input_Relations c)) name) →
  is_Some ((generateConnectors c).1 !! routing_tenant name).
Proof using Hwf.
  intros Hs. pose proof Hs as (l & El & _)%elem_of_slice_at.
  destruct (wf_tenant_of_name Hwf name) as (t & Ht & <-); [eauto|].
  apply generateConnectors_keys. right; left. exists t. split; [done|]. split; [done|].
  intros E. rewrite E in Hs. set_solver.
Qed.

Lemma metrics_closed x :
  Input_DryRunMode c = false →
  x ∈ [tenantCountConnectorName; outputCountConnectorName]
    ∨ (x = outputBytesConnectorName ∧ Input_IsAxoflowDistribution c = true) →
  closed_pipeline (assemble c) (with_memory_limiter (metrics_pipeline x)).
Proof using Hwf.
  intros Hd Hx. apply closed_intro; cbn; intros y Hy.
  - apply list_elem_of_singleton in Hy as ->. by apply connector_source, base_connector_known.
  - apply generateProcessors_keys. left. unfold DefaultDeltaToCumulativeProcessorID in Hy. set_solver.
  - apply list_elem_of_singleton in Hy as ->. left. rewrite assemble_eq. cbn.
    apply generateExporters_cases; [done|]. right; left. unfold GenerateMetricsExporters.
    rewrite lookup_singleton_eq. eauto.
Qed.
Context (Hr : routable c).

Lemma routing_subscription_known name ref :
  ref ∈ elems (slice_at (TenantSubscriptionMap (Input_Relations c)) name) →
  is_Some ((generateConnectors c).1 !! routing_subscription ref).
Proof using Hwf Hr.
  intros Hs. destruct (wf_subscription_of_tenant Hwf _ _ Hs) as (s & Es & En).
  apply generateConnectors_keys. do 2 right; left. exists ref, s. rewrite En. split; [done|]. split; [done|].
  rewrite (wf_subscription_slice Hwf _ _ Es). by eapply routable_outputs.
Qed.

Lemma subscription_closed name ref :
  ref ∈ elems (slice_at (TenantSubscriptionMap (Input_Relations c)) name) →
  closed_pipeline (assemble c) (with_memory_limiter
    (GeneratePipeline [routing_tenant name] [subscription_attributes (NamespacedName_Name ref)] [routing_subscription ref])).
Proof using Hwf Hr.
  intros Hs. apply closed_intro; cbn; intros x [->%list_elem_of_singleton _]%elem_of_filterEmpty.
  - by eapply connector_source, routing_tenant_known.
  - destruct (wf_subscription_of_tenant Hwf _ _ Hs) as (s & Es & <-).
    apply generateProcessors_keys. do 2 right; left. eauto.
  - by eapply connector_sink, routing_subscription_known.
Qed.

Lemma output_closed name ref o :
  ref ∈ elems (slice_at (TenantSubscriptionMap (Input_Relations c)) name) → o ∈ in_Outputs c →
  closed_pipeline (assemble c) (with_memory_limiter
    (GeneratePipeline [routing_subscription ref] (output_pipeline_processors (OWS_Output o))
       (output_pipeline_exporters c (OWS_Output o)))).
Proof using Hwf Hr.
  intros Hs Ho. apply closed_intro; cbn; intros x [Hx _]%elem_of_filterEmpty.
  - apply list_elem_of_singleton in Hx as ->. by eapply connector_source, routing_subscription_known.
  - apply generateProcessors_keys. do 3 right. exists o. by rewrite elem_of_output_processors.
  - apply output_pipeline_exporters_spec in Hx as [[-> Hd]|(Hd & [[-> Hn]|Hx])].
    + left. rewrite assemble_eq. by apply debug_known.
    + left. rewrite assemble_eq. destruct (wf_tenant_of_output Hwf _ Ho) as [t Ht].
      eapply generateExporters_output; eauto using routable_encodable.
    + by apply connector_sink, base_connector_known.
Qed.

End Closed.

Lemma service_closed `{Platform} `{MapRange} c name p :
  wf_input c → routable c →
  Service_Pipelines (assemble c) !! name = Some p → closed_pipeline (assemble c) p.
Proof.
  intros Hwf Hr (p0 & Ho & ->)%assemble_pipeline_origin.
  destruct Ho as [t Ht|k p Hd Hk|t Ht|t s Ht Hs|t s ref o Ht Hs Hre Hf].
  - destruct (wf_tenant_of_name Hwf t Ht) as (tn & Hin & <-). by apply (root_closed Hwf).
  - apply metrics_pipelines_inv in Hk as (x & -> & Hx). by apply (metrics_closed Hwf).
  - destruct (wf_tenant_of_name Hwf t Ht) as (tn & Hin & <-). by apply (tenant_root_closed Hwf).
  - by apply (subscription_closed Hwf Hr).
  - apply find_first_Some in Hf as [Ho _]. by eapply (output_closed Hwf Hr).
Qed.

(** C3. The service section refers only to what the configuration defines: in
    every pipeline, each receiver is a receiver or a connector, each processor a
    processor, and each exporter an exporter or a connector of the
    configuration, for every well-formed input whose subscriptions have outputs. *)
Theorem service_references_defined `{Platform} `{MapRange} c name p :
  wf_input c → routable c →
  Service_Pipelines (assemble c) !! name = Some p → closed_pipeline (assemble c) p.
Proof.
  apply service_closed.
Qed.

#[local] Existing Instance sample_platform.

Lemma memory_limiter_first_witness :
  ∃ p, Service_Pipelines (assemble sample_input) !! "metrics/tenant" = Some p ∧
    head (Pipeline_Processors p) = Some "memory_limiter".
Proof.
  eexists. split; [reflexivity|].
  apply (memory_limiter_first sample_input "metrics/tenant"). reflexivity.
Defined.

Lemma service_references_defined_witness :
  ∃ p, Service_Pipelines (assemble sample_input) !! "logs/tenant_red" = Some p ∧
    closed_pipeline (assemble sample_input) p.
Proof.
  eexists. split; [reflexivity|].
  apply (service_references_defined sample_input "logs/tenant_red");
    [apply sample_wf|apply sample_routable|reflexivity].
Defined.
