(* ===== verification/PipelineSpec.v ===== *)
(** The pipelines of the service section, exactly: one per tenant, one per
    subscription of a tenant, one per output of such a subscription and the
    metrics pipelines, whatever the order in which the maps are ranged over. *)
From S2P Require Import Prelude Strs Json Errors ApiOtlp ApiOutput ApiTypes Kube Relations.
From S2P Require Import Exporters Processors Receivers Extensions Connectors ConfGen Names.
From S2P Require Import ConfGenFacts PipelineFacts WfInput Samples ConfGenSpec.

Lemma metrics_name b k p :
  GenerateMetricsPipelines b !! k = Some p → k ∈ ["metrics/tenant"; "metrics/output"; "metrics/output_bytes"].
Proof.
  intros E. apply insert_all_inv in E as [E|[E _]]; [|by rewrite lookup_empty in E].
  destruct b; set_solver.
Qed.

(** Metrics pipelines and log pipelines do not share a name. *)
Lemma metrics_logs_ne b k p x : GenerateMetricsPipelines b !! k = Some p → k ≠ tenant_pipeline x ∧ ∀ s o, k ≠ output_pipeline s o.
Proof.
  intros Hk%metrics_name. unfold tenant_pipeline, output_pipeline.
  split; intros; intros ->; rewrite !elem_of_cons, elem_of_nil in Hk;
    destruct Hk as [Hk|[Hk|[Hk|[]]]]; discriminate.
Qed.

Section Exact.
Context `{Platform}.

(** The specification reads the resources' own statuses, not the maps built
    from them. *)
Inductive log_pipeline (c : OtelColConfigInput) : string → Pipeline → Prop :=
| log_tenant t : t ∈ in_Tenants c →
    log_pipeline c (tenant_pipeline (Tenant_Name t)) (tenant_root_pipeline c (Tenant_Name t))
| log_subscription t ref : t ∈ in_Tenants c → ref ∈ elems (TenantStatus_Subscriptions (Tenant_Status t)) →
    log_pipeline c (subscription_pipeline (Tenant_Name t) ref)
      (GeneratePipeline [routing_tenant (Tenant_Name t)] [subscription_attributes (NamespacedName_Name ref)]
         [routing_subscription ref])
| log_output t ref s o : t ∈ in_Tenants c → ref ∈ elems (TenantStatus_Subscriptions (Tenant_Status t)) →
    in_Subscriptions c !! ref = Some s → o ∈ in_Outputs c →
    output_ref o ∈ elems (SubscriptionStatus_Outputs (Subscription_Status s)) →
    log_pipeline c (output_pipeline ref (output_ref o))
      (GeneratePipeline [routing_subscription ref] (output_pipeline_processors (OWS_Output o))
         (output_pipeline_exporters c (OWS_Output o))).

Definition spec_pipeline (c : OtelColConfigInput) (k : string) (p : Pipeline) : Prop :=
  log_pipeline c k p
  ∨ (Input_DryRunMode c = false ∧ GenerateMetricsPipelines (Input_IsAxoflowDistribution c) !! k = Some p).

(** The names of the resources are Kubernetes names. *)
Record dns_input (c : OtelColConfigInput) : Prop := {
  dns_tenants t : t ∈ in_Tenants c → dns (Tenant_Name t) = true;
  dns_subscriptions ref : is_Some (in_Subscriptions c !! ref) → dns_ref ref = true;
  dns_outputs o : o ∈ in_Outputs c → dns_ref (output_ref o) = true
}.

Context `{MapRange} {c : OtelColConfigInput} (Hwf : wf_input c).

Lemma log_write k p name :
  is_Some (in_TenantSubscriptions c !! name) → (k, p) ∈ tenant_pipelines c name → log_pipeline c k p.
Proof.
  intros Hname Hin. destruct (wf_tenant_of_name Hwf _ Hname) as (t & Ht & <-).
  unfold tenant_pipelines in Hin. apply elem_of_cons in Hin as [[= -> ->]|Hin]; [by constructor|].
  rewrite (wf_tenant_slice Hwf) in Hin by done.
  apply list_elem_of_bind in Hin as (ref & Hin & Hs). unfold subscription_pipelines in Hin.
  apply elem_of_cons in Hin as [[= -> ->]|Hin]; [by constructor|].
  apply list_elem_of_bind in Hin as (oref & Hin & Ho). unfold output_pipelines in Hin.
  destruct (find_first _ _) as [o|] eqn:Ef; [|set_solver].
  apply list_elem_of_singleton in Hin as [= -> ->].
  apply find_first_Some in Ef as [Hoin ->%bool_decide_eq_true].
  rewrite <- (wf_tenant_slice Hwf) in Hs by done.
  destruct (wf_subscription_of_tenant Hwf _ _ Hs) as (s & Es & _).
  rewrite (wf_tenant_slice Hwf) in Hs by done.
  rewrite (wf_subscription_slice Hwf _ _ Es) in Ho. by eapply (log_output c t ref s o).
Qed.

Lemma log_written k p :
  log_pipeline c k p → ∃ name, is_Some (in_TenantSubscriptions c !! name) ∧ (k, p) ∈ tenant_pipelines c name.
Proof.
  assert (∀ t, t ∈ in_Tenants c → is_Some (in_TenantSubscriptions c !! Tenant_Name t)) as Htsm.
  { intros t Ht. eexists. apply (wf_tenant_map c Hwf). eauto. }
  intros [t Ht|t ref Ht Hs|t ref s o Ht Hs Es Ho Hin];
    exists (Tenant_Name t); (split; [by apply Htsm|]); unfold tenant_pipelines; rewrite elem_of_cons; [by left|right..];
    rewrite (wf_tenant_slice Hwf) by done; apply list_elem_of_bind; exists ref; (split; [|done]);
    unfold subscription_pipelines; rewrite elem_of_cons; [by left|right].
  apply list_elem_of_bind. exists (output_ref o). rewrite (wf_subscription_slice Hwf _ _ Es). split; [|done].
  unfold output_pipelines.
  destruct (find_first_is_Some (λ e, bool_decide (output_ref o = Output_NamespacedName (OWS_Output e))) _ o Ho)
    as [o' Ef]; [by apply bool_decide_eq_true|]. rewrite Ef.
  apply find_first_Some in Ef as [Ho' E%bool_decide_eq_true].
  rewrite (wf_outputs_agree c Hwf o o' Ho Ho' E). apply list_elem_of_here.
Qed.

(** The pipelines are written from the sorted slices: the same pairs. *)
Lemma tenant_pipelines_sorted name kp :
  kp ∈ tenant_pipelines (sorted_input c) name ↔ kp ∈ tenant_pipelines c name.
Proof using Type.
  destruct (sorted_slices c) as [Ht Hs]. destruct (sorted_fields c) as (tsm & som & E). rewrite E in *.
  unfold tenant_pipelines. rewrite !elem_of_cons, !list_elem_of_bind.
  setoid_rewrite <- (same_slices_at _ _ name Ht).
  assert (∀ s, kp ∈ subscription_pipelines (set_maps c tsm som) name s ↔ kp ∈ subscription_pipelines c name s) as Heq.
  { intros s. unfold subscription_pipelines. rewrite !elem_of_cons, !list_elem_of_bind.
    setoid_rewrite <- (same_slices_at _ _ s Hs). done. }
  setoid_rewrite Heq. done.
Qed.

Lemma tsm_sorted name : is_Some (in_TenantSubscriptions (sorted_input c) !! name) ↔ is_Some (in_TenantSubscriptions c !! name).
Proof using Type. destruct (sorted_slices c) as [Ht _]. symmetry. apply (same_slices_dom _ _ name Ht). Qed.

Context (Hdns : dns_input c).

Lemma dns_of_tenant_subscription t ref :
  t ∈ in_Tenants c → ref ∈ elems (TenantStatus_Subscriptions (Tenant_Status t)) → dns_ref ref = true.
Proof using Hwf Hdns.
  intros Ht Hs. rewrite <- (wf_tenant_slice Hwf) in Hs by done.
  destruct (wf_subscription_of_tenant Hwf _ _ Hs) as (s & Es & _).
  apply (dns_subscriptions c Hdns). eauto.
Qed.

Lemma log_pipeline_fun k1 k2 p1 p2 : log_pipeline c k1 p1 → log_pipeline c k2 p2 → k1 = k2 → p1 = p2.
Proof.
  pose proof (dns_tenants c Hdns) as Dt. pose proof dns_of_tenant_subscription as Ds.
  pose proof (dns_outputs c Hdns) as Do.
  intros [t Ht|t ref Ht Hs|t ref s o Ht Hs Es Ho Hin]
    [t' Ht'|t' ref' Ht' Hs'|t' ref' s' o' Ht' Hs' Es' Ho' Hin'] E.
  all: try (exfalso; rewrite ?subscription_pipeline_unfold in E;
            naive_solver eauto using tenant_output_ne; fail).
  - by apply tenant_pipeline_inj in E as ->.
  - exfalso. by apply (tenant_subscription_ne _ _ _ (Dt _ Ht)) in E.
  - exfalso. symmetry in E. by apply (tenant_subscription_ne _ _ _ (Dt _ Ht')) in E.
  - apply subscription_pipeline_inj in E as [-> ->]; eauto.
  - apply output_pipeline_inj in E as [-> E]; eauto. by rewrite (wf_outputs_agree c Hwf o o' Ho Ho' E).
Qed.

Lemma log_metrics_ne b k p q : log_pipeline c k p → GenerateMetricsPipelines b !! k = Some q → False.
Proof.
  intros [t Ht|t ref Ht Hs|t ref s o Ht Hs Es Ho Hin] Hk; rewrite ?subscription_pipeline_unfold in Hk.
  - by eapply (λ x, proj1 (metrics_logs_ne _ _ _ x Hk)).
  - by eapply (λ x, proj1 (metrics_logs_ne _ _ _ x Hk)).
  - by apply (proj2 (metrics_logs_ne _ _ _ "" Hk) ref (output_ref o)).
Qed.

Lemma log_generated k p : log_pipeline c k p → generateNamedPipelines (sorted_input c) !! k = Some p.
Proof.
  intros Hs. pose proof Hs as (name & Hname & Hin)%log_written.
  apply (generateNamedPipelines_lookup _ name).
  - by apply tsm_sorted.
  - by apply tenant_pipelines_sorted.
  - intros name' p' Hn' Hin'. apply tsm_sorted in Hn'. apply tenant_pipelines_sorted in Hin'.
    by eapply log_pipeline_fun; [eapply log_write| |].
Qed.

Lemma metrics_generated k p :
  Input_DryRunMode c = false → GenerateMetricsPipelines (Input_IsAxoflowDistribution c) !! k = Some p →
  generateNamedPipelines (sorted_input c) !! k = Some p.
Proof.
  intros Hd Hk. unfold generateNamedPipelines. rewrite insert_all_notin.
  - destruct (sorted_fields c) as (tsm & som & ->). cbn [Input_DryRunMode Input_IsAxoflowDistribution set_maps].
    rewrite Hd. by apply maps_copy_lookup_r.
  - intros (name & Hn & ([k' p'] & -> & Hin)%list_elem_of_fmap)%elem_of_bind_fst.
    apply elem_of_range_map_keys, tsm_sorted in Hn. apply tenant_pipelines_sorted in Hin.
    eapply log_metrics_ne; [by eapply log_write|done].
Qed.

Lemma generated_spec k p : generateNamedPipelines (sorted_input c) !! k = Some p ↔ spec_pipeline c k p.
Proof.
  split; [|intros [Hl|[Hd Hk]]; [by apply log_generated|by apply metrics_generated]].
  intros E. pose proof (proj1 (origin_sorted c k p) (generateNamedPipelines_origin _ _ _ E)) as Ho.
  assert (∀ p', log_pipeline c k p' → spec_pipeline c k p) as Hlog.
  { intros p' Hl. left. pose proof (log_generated _ _ Hl). congruence. }
  destruct Ho as [name Hn|k p Hd Hk|name Hn|name s Hn Hs|name s ref o Hn Hs Hre Hf]; [|right; exact (conj Hd Hk)|..].
  all: destruct (wf_tenant_of_name Hwf _ Hn) as (t & Ht & <-).
  - by eapply Hlog, (log_tenant c t).
  - by eapply Hlog, (log_tenant c t).
  - rewrite (wf_tenant_slice Hwf) in Hs by done. by eapply Hlog, (log_subscription c t).
  - destruct (wf_subscription_of_tenant Hwf _ _ Hs) as (s' & Es & _).
    rewrite (wf_subscription_slice Hwf _ _ Es) in Hre. rewrite (wf_tenant_slice Hwf) in Hs by done.
    apply find_first_Some in Hf as [Ho ->%bool_decide_eq_true].
    by eapply Hlog, (log_output c t s s' o).
Qed.
End Exact.

(** C7. The pipelines of the assembled configuration are exactly: one for every
    tenant, one for every subscription in a tenant's status, one for every
    output in such a subscription's status and, unless in dry-run mode, the
    metrics pipelines, each with the memory limiter in front. *)
Theorem service_pipelines_exact `{Platform} `{MapRange} c k p :
  wf_input c → dns_input c →
  Service_Pipelines (assemble c) !! k = Some p ↔
  ∃ p0, spec_pipeline c k p0 ∧ p = with_memory_limiter p0.
Proof. intros Hwf Hdns. rewrite assemble_pipeline. by setoid_rewrite (generated_spec Hwf Hdns). Qed.

(** C33. The order in which Go ranges over the maps does not show in the
    pipelines: two runs assemble the same ones. *)
Theorem service_pipelines_deterministic `{Platform} (M1 M2 : MapRange) c :
  wf_input c → dns_input c →
  Service_Pipelines (@assemble _ M1 c) = Service_Pipelines (@assemble _ M2 c).
Proof.
  intros Hwf Hdns. apply map_eq. intros k. apply option_eq. intros p.
  rewrite !assemble_pipeline. by setoid_rewrite (generated_spec Hwf Hdns).
Qed.

#[local] Existing Instance sample_platform.

Lemma sample_dns : dns_input sample_input.
Proof.
  split.
  - by intros t ->%list_elem_of_singleton.
  - intros ref. rewrite sample_subs. intros [s [<- _]%lookup_singleton_Some]. reflexivity.
  - intros o ->%list_elem_of_singleton. reflexivity.
Qed.

Lemma service_pipelines_exact_witness :
  ∃ p, Service_Pipelines (assemble sample_input) !! "logs/output_team_errors_team_sink" = Some p ∧
    ∃ p0, spec_pipeline sample_input "logs/output_team_errors_team_sink" p0 ∧ p = with_memory_limiter p0.
Proof.
  eexists. split; [reflexivity|].
  apply (service_pipelines_exact sample_input); [apply sample_wf|apply sample_dns|reflexivity].
Defined.

Lemma service_pipelines_deterministic_witness :
  Service_Pipelines (@assemble _ forward_range sample_input) =
  Service_Pipelines (@assemble _ backward_range sample_input).
Proof. apply service_pipelines_deterministic; [apply sample_wf|apply sample_dns]. Defined.
