(* ===== verification/RoutingSpec.v ===== *)
(** The routing connectors: the table of a tenant's connector partitions the
    tenant's subscriptions by their condition, and every pipeline a table names
    exists. *)
From S2P Require Import Prelude Strs Json Errors ApiOtlp ApiOutput ApiTypes Kube Relations.
From S2P Require Import Exporters Processors Receivers Extensions Connectors ConfGen Names.
From S2P Require Import ConfGenFacts PipelineFacts WfInput Samples ConfGenSpec.

Section Routing.
Context `{Platform} `{MapRange}.
Implicit Types (subs : gmap NamespacedName Subscription) (cond : string).

(** The pipelines of the subscriptions among [names] that have the condition *)
Definition routed (tenant : string) subs (cond : string) (names : list NamespacedName) : list string :=
  omap (λ ref, s ← subs !! ref;
    if bool_decide (SubscriptionSpec_Condition (Subscription_Spec s) = cond)
    then Some (subscription_pipeline tenant (Subscription_NamespacedName s)) else None) names.

Lemma elem_of_routed tenant subs cond names x :
  x ∈ routed tenant subs cond names ↔
  ∃ ref s, ref ∈ names ∧ subs !! ref = Some s ∧ SubscriptionSpec_Condition (Subscription_Spec s) = cond ∧
    x = subscription_pipeline tenant (Subscription_NamespacedName s).
Proof.
  unfold routed. rewrite list_elem_of_omap. split.
  - intros (ref & Hin & E). apply bind_Some in E as (s & Es & E). case_bool_decide; naive_solver.
  - intros (ref & s & Hin & Es & Ec & ->). exists ref. split; [done|]. rewrite Es. cbn.
    by rewrite bool_decide_true.
Qed.

(** The entry of a condition after pipelines [l] have been appended to it *)
Definition grow (o : option (list string)) (l : list string) : option (list string) :=
  match o, l with None, [] => None | _, _ => Some (default [] o ++ l) end.

Lemma grow_app o l1 l2 : grow (grow o l1) l2 = grow o (l1 ++ l2).
Proof. destruct o, l1, l2; cbn; rewrite ?app_nil_r, <- ?app_assoc; done. Qed.

Lemma see_subscription_lookup tenant subs seen ref cond :
  see_subscription tenant subs seen ref !! cond = grow (seen !! cond) (routed tenant subs cond [ref]).
Proof.
  unfold see_subscription, routed. cbn. destruct (subs !! ref) as [s|]; cbn.
  - case_bool_decide as E; cbn.
    + subst cond. rewrite lookup_insert_eq. by destruct (seen !! _).
    + rewrite lookup_insert_ne by done. destruct (seen !! cond); cbn; by rewrite ?app_nil_r.
  - destruct (seen !! cond); cbn; by rewrite ?app_nil_r.
Qed.

Lemma see_all_lookup tenant subs names seen cond :
  foldl (see_subscription tenant subs) seen names !! cond = grow (seen !! cond) (routed tenant subs cond names).
Proof.
  revert seen. induction names as [|ref names IH]; intros seen; cbn [foldl].
  - destruct (seen !! cond); cbn; by rewrite ?app_nil_r.
  - rewrite IH, see_subscription_lookup, grow_app. f_equal. unfold routed. cbn. by destruct (subs !! ref); cbn; [case_bool_decide|].
Qed.

(** C14. The table of a tenant's routing connector partitions the tenant's
    subscriptions by condition: no condition has two rows, and the row of a
    condition names exactly the pipelines of the subscriptions that have it, in
    the order of their printed names; a condition without subscriptions has no
    row. *)
Theorem tenant_routing_table tenant cfg names subs :
  let rc := (GenerateRoutingConnectorForTenantsSubscriptions tenant cfg names subs).1 in
  RoutingConnector_Name rc = routing_tenant tenant ∧
  NoDup (TableItem_Condition <$> RoutingConnector_Table rc) ∧
  ∀ cond pipelines,
    mkTableItem cond pipelines ∈ RoutingConnector_Table rc ↔
    pipelines = routed tenant subs cond (SortNamespacedNames names) ∧ pipelines ≠ [].
Proof.
  cbn. split; [done|]. split.
  - rewrite <- list_fmap_compose. apply range_map_keys_nodup.
  - intros cond pipelines. rewrite list_elem_of_fmap. split.
    + intros ([k v] & [= -> ->] & E%elem_of_range_map). rewrite see_all_lookup, lookup_empty in E.
      cbn in E. destruct (routed _ _ _ _); [done|]. by injection E as <-.
    + intros [-> Hne]. exists (cond, routed tenant subs cond (SortNamespacedNames names)). split; [done|].
      apply elem_of_range_map. rewrite see_all_lookup, lookup_empty. cbn. by destruct (routed _ _ _ _).
Qed.

(** * The tables of the assembled configuration *)
Inductive routing_origin (c : OtelColConfigInput) : RoutingConnector → Prop :=
| routing_of_tenant t names : t ∈ in_Tenants c →
    names ≡ₚ elems (slice_at (TenantSubscriptionMap (Input_Relations c)) (Tenant_Name t)) →
    routing_origin c (GenerateRoutingConnectorForTenantsSubscriptions (Tenant_Name t)
      (TenantSpec_RouteConfig (Tenant_Spec t)) names (in_Subscriptions c)).1
| routing_of_subscription ref s names : in_Subscriptions c !! ref = Some s →
    names ≡ₚ elems (slice_at (SubscriptionOutputMap (Input_Relations c)) (Subscription_NamespacedName s)) →
    routing_origin c (GenerateRoutingConnectorForSubscriptionsOutputs (Subscription_NamespacedName s) names).1
| routing_of_bridge b : b ∈ in_Bridges c → routing_origin c (GenerateRoutingConnectorForBridge b).

Lemma tenant_connectors_inv subs l conns tsm k rc :
  (foldl (tenant_connector subs) (conns, tsm) l).1 !! k = Some (ConnRouting rc) →
  conns !! k = Some (ConnRouting rc) ∨
  ∃ t names, t ∈ l ∧ names ≡ₚ elems (slice_at tsm (Tenant_Name t)) ∧
    rc = (GenerateRoutingConnectorForTenantsSubscriptions (Tenant_Name t)
           (TenantSpec_RouteConfig (Tenant_Spec t)) names subs).1.
Proof.
  revert conns tsm. induction l as [|t l IH]; intros conns tsm; cbn [foldl]; [by left|].
  rewrite tenant_connector_step. case_match eqn:E; intros Hk.
  - apply length_pos_ne in E. pose proof (sort_step tsm _ E) as Hs.
    apply IH in Hk as [Hk|(t' & names & Ht & Hp & ->)].
    + apply lookup_insert_Some in Hk as [[_ [= <-]]|[_ Hk]]; [|by left].
      right. exists t, (elems (slice_at tsm (Tenant_Name t))). split; [apply list_elem_of_here|done].
    + right. exists t', names. split; [by apply list_elem_of_further|]. split; [|done].
      etrans; [exact Hp|]. symmetry. by apply same_slices_at.
  - apply IH in Hk as [Hk|(t' & names & Ht & Hp & ->)]; [by left|]. right. exists t', names.
    split; [by apply list_elem_of_further|done].
Qed.

Lemma subscription_connectors_inv l conns som k rc :
  (foldl subscription_connector (conns, som) l).1 !! k = Some (ConnRouting rc) →
  conns !! k = Some (ConnRouting rc) ∨
  ∃ s names, s ∈ l ∧ names ≡ₚ elems (slice_at som (Subscription_NamespacedName s)) ∧
    rc = (GenerateRoutingConnectorForSubscriptionsOutputs (Subscription_NamespacedName s) names).1.
Proof.
  revert conns som. induction l as [|s l IH]; intros conns som; cbn [foldl]; [by left|].
  rewrite subscription_connector_step. case_match eqn:E; intros Hk.
  - apply length_pos_ne in E. pose proof (sort_step som _ E) as Hs.
    apply IH in Hk as [Hk|(s' & names & Ht & Hp & ->)].
    + apply lookup_insert_Some in Hk as [[_ [= <-]]|[_ Hk]]; [|by left].
      right. exists s, (elems (slice_at som (Subscription_NamespacedName s))). split; [apply list_elem_of_here|done].
    + right. exists s', names. split; [by apply list_elem_of_further|]. split; [|done].
      etrans; [exact Hp|]. symmetry. by apply same_slices_at.
  - apply IH in Hk as [Hk|(s' & names & Ht & Hp & ->)]; [by left|]. right. exists s', names.
    split; [by apply list_elem_of_further|done].
Qed.

Lemma base_connectors_not_routing c k rc : base_connectors c !! k ≠ Some (ConnRouting rc).
Proof.
  assert (∀ x, GenerateCountConnectors !! k = Some x → x ≠ ConnRouting rc) as Hc.
  { intros x E. apply insert_all_inv in E as [E|[E _]]; [set_solver|by rewrite lookup_empty in E]. }
  unfold base_connectors, maps_copy. destruct (Input_DryRunMode c); cbn; [by rewrite lookup_empty|].
  rewrite (right_id_L ∅ (∪)). destruct (Input_IsAxoflowDistribution c); [|naive_solver].
  intros [E|[_ E]]%lookup_union_Some_raw; [|naive_solver].
  by apply lookup_singleton_Some in E as [_ E].
Qed.

Lemma generateConnectors_routing c k rc :
  (generateConnectors c).1 !! k = Some (ConnRouting rc) → routing_origin c rc.
Proof.
  unfold generateConnectors. fold (base_connectors c).
  destruct (foldl (tenant_connector _) _ _) as [conns1 tsm] eqn:E1.
  destruct (foldl subscription_connector _ _) as [conns2 som] eqn:E2. cbn [fst].
  intros [E|[E _]]%insert_all_inv.
  { apply list_elem_of_fmap in E as (b & [= -> ->] & Hb). by constructor. }
  replace conns2 with (conns2, som).1 in E by done. rewrite <- E2 in E.
  apply subscription_connectors_inv in E as [E|(s & names & Hs & Hp & ->)].
  2: { apply elem_of_range_map_values in Hs as [ref Hs]. by eapply routing_of_subscription. }
  replace conns1 with (conns1, tsm).1 in E by done. rewrite <- E1 in E.
  apply tenant_connectors_inv in E as [E|(t & names & Ht & Hp & ->)]; [|by constructor].
  by apply base_connectors_not_routing in E.
Qed.
End Routing.

(** Every bridge joins two tenants of the input: what [ValidateConfigInput]
    checks. *)
Definition bridges_joined `{Platform} (c : OtelColConfigInput) : Prop :=
  ∀ b, b ∈ in_Bridges c → ∃ t, t ∈ in_Tenants c ∧ Tenant_Name t = BridgeSpec_TargetTenant (Bridge_Spec b).

Section Targets.
Context `{Platform} `{MapRange} {c : OtelColConfigInput} (Hwf : wf_input c).

Lemma pipeline_exists name k :
  is_Some (in_TenantSubscriptions c !! name) → k ∈ (tenant_pipelines c name).*1 →
  is_Some (Service_Pipelines (assemble c) !! k).
Proof.
  intros [subs Hn] Hk. rewrite assemble_eq. cbn [Service_Pipelines]. rewrite lookup_fmap.
  apply fmap_is_Some, (tenant_pipelines_keys _ name).
  - apply (same_slices_dom _ _ name (proj1 (sorted_slices c))). eauto.
  - destruct (sorted_slices c) as [Ht Hs]. destruct (sorted_fields c) as (tsm & som & E). rewrite E in *.
    unfold tenant_pipelines in *. cbn [fmap list_fmap fst] in *. rewrite elem_of_cons in *.
    rewrite elem_of_bind_fst in *. setoid_rewrite <- (same_slices_at _ _ name Ht).
    destruct Hk as [->|(s & Hin & Hk)]; [by left|]. right. exists s. split; [done|].
    unfold subscription_pipelines in *. cbn [fmap list_fmap fst] in *. rewrite elem_of_cons in *.
    rewrite elem_of_bind_fst in *. setoid_rewrite <- (same_slices_at _ _ s Hs). done.
Qed.

Lemma tenant_tsm t : t ∈ in_Tenants c → is_Some (in_TenantSubscriptions c !! Tenant_Name t).
Proof. intros Ht. eexists. apply (wf_tenant_map c Hwf). eauto. Qed.

Lemma tenant_pipeline_exists t :
  t ∈ in_Tenants c → is_Some (Service_Pipelines (assemble c) !! tenant_pipeline (Tenant_Name t)).
Proof. intros Ht. eapply pipeline_exists; [by apply tenant_tsm|]. apply list_elem_of_here. Qed.

Lemma subscription_pipeline_exists name ref :
  is_Some (in_TenantSubscriptions c !! name) →
  ref ∈ elems (slice_at (TenantSubscriptionMap (Input_Relations c)) name) →
  is_Some (Service_Pipelines (assemble c) !! subscription_pipeline name ref).
Proof.
  intros Hn Hs. apply (pipeline_exists name); [done|]. unfold tenant_pipelines. cbn [fmap list_fmap fst].
  apply list_elem_of_further, elem_of_bind_fst. exists ref. split; [done|]. apply list_elem_of_here.
Qed.

Lemma output_pipeline_exists name ref oref :
  is_Some (in_TenantSubscriptions c !! name) →
  ref ∈ elems (slice_at (TenantSubscriptionMap (Input_Relations c)) name) →
  oref ∈ elems (slice_at (SubscriptionOutputMap (Input_Relations c)) ref) →
  is_Some (Service_Pipelines (assemble c) !! output_pipeline ref oref).
Proof.
  intros Hn Hs Ho. apply (pipeline_exists name); [done|]. unfold tenant_pipelines. cbn [fmap list_fmap fst].
  apply list_elem_of_further, elem_of_bind_fst. exists ref. split; [done|].
  unfold subscription_pipelines. cbn [fmap list_fmap fst].
  apply list_elem_of_further, elem_of_bind_fst. exists oref. split; [done|]. unfold output_pipelines.
  apply elem_of_slice_at in Ho as (outs & Eo & Ho).
  destruct (proj2 (wf_outputs c Hwf oref)) as (o & Hin & Er); [eauto|].
  destruct (find_first_is_Some (λ e, bool_decide (oref = Output_NamespacedName (OWS_Output e))) _ o Hin)
    as [o' ->]; [by apply bool_decide_eq_true|]. apply list_elem_of_here.
Qed.
End Targets.

(** C15. A record that a routing connector sends on arrives: every pipeline in
    the table of a routing connector of the configuration is a pipeline of its
    service, for every well-formed input whose bridges end at its tenants. *)
Theorem routing_targets_exist `{Platform} `{MapRange} c k rc item x :
  wf_input c → bridges_joined c →
  Config_Connectors (assemble c) !! k = Some (ConnRouting rc) →
  item ∈ RoutingConnector_Table rc → x ∈ TableItem_Pipelines item →
  is_Some (Service_Pipelines (assemble c) !! x).
Proof.
  intros Hwf Hb Hk Hitem Hx. rewrite assemble_eq in Hk. cbn [Config_Connectors] in Hk.
  destruct (generateConnectors_routing _ _ _ Hk) as [t names Ht Hp|ref s names Hs Hp|b Hbin].
  - apply list_elem_of_fmap in Hitem as ([cond ps] & -> & E%elem_of_range_map). cbn in Hx.
    rewrite see_all_lookup, lookup_empty in E. cbn in E.
    assert (x ∈ routed (Tenant_Name t) (in_Subscriptions c) cond (SortNamespacedNames names)) as Hr.
    { destruct (routed _ _ _ _); [done|]. by injection E as <-. }
    apply elem_of_routed in Hr as (ref & s & Hin & Es & _ & ->).
    rewrite SortNamespacedNames_perm, Hp in Hin. rewrite (wf_subscription_name c Hwf _ _ Es).
    apply subscription_pipeline_exists; [by apply (tenant_tsm Hwf)|done].
  - apply list_elem_of_singleton in Hitem as ->. cbn in Hx.
    apply list_elem_of_fmap in Hx as (oref & -> & Hin). rewrite SortNamespacedNames_perm, Hp in Hin.
    rewrite (wf_subscription_name c Hwf _ _ Hs) in *.
    destruct (proj1 (wf_subscriptions c Hwf ref)) as (name & subs & Hn & Href); [eauto|].
    apply (output_pipeline_exists Hwf name); [eauto| |done]. apply elem_of_slice_at. eauto.
  - apply list_elem_of_singleton in Hitem as ->. cbn in Hx. apply list_elem_of_singleton in Hx as ->.
    destruct (Hb b Hbin) as (t & Ht & <-). by apply (tenant_pipeline_exists Hwf).
Qed.

#[local] Existing Instance sample_platform.

Lemma sample_bridges : bridges_joined sample_input.
Proof. intros b Hb. by apply not_elem_of_nil in Hb. Qed.

Definition sample_item : RoutingConnectorTableItem :=
  mkTableItem "true" ["logs/tenant_red_subscription_team_errors"].

Lemma routing_targets_exist_witness :
  Config_Connectors (assemble sample_input) !! "routing/tenant_red_subscriptions"
    = Some (ConnRouting (mkRoutingConnector "routing/tenant_red_subscriptions" None "" [sample_item])) ∧
  is_Some (Service_Pipelines (assemble sample_input) !! "logs/tenant_red_subscription_team_errors").
Proof.
  split; [vm_compute; reflexivity|].
  apply (routing_targets_exist sample_input "routing/tenant_red_subscriptions"
    (mkRoutingConnector "routing/tenant_red_subscriptions" None "" [sample_item]) sample_item _
    sample_wf sample_bridges).
  - vm_compute; reflexivity.
  - apply list_elem_of_here.
  - apply list_elem_of_here.
Defined.
