(* ===== verification/ExtensionSpec.v ===== *)
(** The extensions of the assembled configuration: the service lists exactly
    the defined ones, and the authenticators and storages that exporters and
    receivers refer to are among them. *)
From S2P Require Import Prelude Strs Json Errors ApiOtlp ApiOutput ApiTypes Kube Relations.
From S2P Require Import Exporters Processors Receivers Extensions Connectors ConfGen Names.
From S2P Require Import ConfGenFacts PipelineFacts WfInput Samples ExporterSpec ConfGenSpec PipelineSpec.

Section Extensions.
Context `{Platform} `{MapRange}.
Implicit Types (c : OtelColConfigInput) (o : OutputWithSecretData).

(** The names the service starts, sorted *)
Lemma service_extensions_eq c : elems (Service_Extensions (assemble c)) =
  sort_strings ((range_map site_extension_names (Config_Extensions (assemble c))).*1).
Proof.
  rewrite assemble_eq. cbn [Service_Extensions Config_Extensions]. unfold generateExtensions. cbn [fst snd].
  set (m := insert_all (in_Tenants c ≫= tenant_extensions c) _).
  destruct (Nat.ltb_spec 0 (size m)) as [|Hs]; [done|].
  assert (m = ∅) as -> by (apply map_size_empty_inv; lia).
  by rewrite (proj2 (range_map_nil site_extension_names ∅) eq_refl).
Qed.

Lemma elem_of_service_extensions c x :
  x ∈ elems (Service_Extensions (assemble c)) ↔ is_Some (Config_Extensions (assemble c) !! x).
Proof. rewrite service_extensions_eq, sort_strings_perm. apply elem_of_range_map_keys. Qed.

(** The service starts exactly the extensions that are defined, each once,
    in the order of their names. *)
Theorem service_extensions_exact c :
  let names := elems (Service_Extensions (assemble c)) in
  (∀ x, x ∈ names ↔ is_Some (Config_Extensions (assemble c) !! x)) ∧
  StronglySorted String.le names ∧ NoDup names.
Proof.
  cbn zeta. split; [apply elem_of_service_extensions|]. rewrite service_extensions_eq.
  split; [apply sort_strings_sorted|]. rewrite sort_strings_perm. apply range_map_keys_nodup.
Qed.

(** The authenticator an output uses: basic authentication before bearer *)
Definition authenticator o : option (string * extension_config) :=
  a ← OutputSpec_Authentication (Output_Spec (OWS_Output o));
  if negb (is_nil (OutputAuth_BasicAuth a)) then
    Some ("basicauth/" +:+ ns_name (output_ref o), ExtBasicAuth (GenerateBasicAuthExtensionsForOutput o))
  else if negb (is_nil (OutputAuth_BearerAuth a)) then
    Some ("bearertokenauth/" +:+ ns_name (output_ref o), ExtBearerAuth (GenerateBearerAuthExtensionsForOutput o))
  else None.

Lemma authenticator_output o kx : authenticator o = Some kx → kx ∈ output_extensions o.
Proof.
  unfold authenticator, output_extensions. intros E. apply bind_Some in E as (a & -> & E).
  destruct (OutputAuth_BasicAuth a), (OutputAuth_BearerAuth a); cbn in *; try done;
    injection E as <-; field_here.
Qed.

(** Equal outputs write equal extensions, so the last write changes nothing. *)
Lemma output_extensions_agree o1 o2 k e1 e2 :
  dns_ref (output_ref o1) = true → dns_ref (output_ref o2) = true →
  (k, e1) ∈ output_extensions o1 → (k, e2) ∈ output_extensions o2 → e1 = e2.
Proof.
  intros D1 D2 H1 H2.
  assert (∀ o e, (k, e) ∈ output_extensions o →
    (k = "basicauth/" +:+ ns_name (output_ref o) ∧ e = ExtBasicAuth (GenerateBasicAuthExtensionsForOutput o)) ∨
    (k = "bearertokenauth/" +:+ ns_name (output_ref o) ∧ e = ExtBearerAuth (GenerateBearerAuthExtensionsForOutput o))) as Hinv.
  { intros o e Hin. unfold output_extensions in Hin. destruct (OutputSpec_Authentication _) as [a|]; [|set_solver].
    apply elem_of_app in Hin as [Hin|Hin]; destruct (is_nil _); cbn in Hin; set_solver. }
  apply Hinv in H1, H2. destruct H1 as [[-> ->]|[-> ->]], H2 as [[E ->]|[E ->]]; try discriminate E;
    apply (inj _) in E; apply ns_name_inj in E; try done.
  - unfold output_ref in E. unfold GenerateBasicAuthExtensionsForOutput. by rewrite E.
  - unfold output_ref in E. unfold GenerateBearerAuthExtensionsForOutput. by rewrite E.
Qed.

Lemma tenant_extensions_storage c k : k ∈ (in_Tenants c ≫= tenant_extensions c).*1 → ∃ t, k = file_storage_name t.
Proof.
  intros (t & _ & Hk)%elem_of_bind_fst. unfold tenant_extensions in Hk.
  destruct (_ && _); cbn in Hk; [|set_solver]. apply list_elem_of_singleton in Hk as ->. eauto.
Qed.

Lemma output_extension_lookup c o k e :
  dns_input c → o ∈ in_Outputs c → (k, e) ∈ output_extensions o → (generateExtensions c).1 !! k = Some e.
Proof.
  intros Hdns Ho Hin. unfold generateExtensions. cbn [fst].
  assert (k ∉ (in_Tenants c ≫= tenant_extensions c).*1) as Hk.
  { intros (t & ->)%tenant_extensions_storage. unfold output_extensions in Hin.
    destruct (OutputSpec_Authentication _); [|set_solver].
    apply elem_of_app in Hin as [Hin|Hin]; destruct (is_nil _); cbn in Hin; [set_solver| |set_solver|];
      apply list_elem_of_singleton in Hin as [= ]. }
  rewrite insert_all_notin by done. apply insert_all_lookup.
  - apply list_elem_of_bind. eauto.
  - intros e' (o' & Hin' & Ho')%list_elem_of_bind.
    eapply output_extensions_agree; [..|exact Hin'|exact Hin]; by apply (dns_outputs c Hdns).
Qed.

(** The exporters that authenticate *)
Definition authenticated_exporters (r : ResourceRelations)
    : list (OutputWithSecretData → option (string * exporter_config)) :=
  [ otlp_grpc_entry r; otlp_http_entry r; elasticsearch_entry r ].

Lemma authenticator_reference o x ext :
  authenticator o = Some (x, ext) → auth_reference (OWS_Output o) = Some (mkAuthentication (Some x)).
Proof.
  unfold authenticator, auth_reference. intros E. apply bind_Some in E as (a & -> & E).
  destruct (is_nil (OutputAuth_BasicAuth a)), (is_nil (OutputAuth_BearerAuth a)); cbn in *; try done; by injection E as <- <-.
Qed.

Lemma authenticator_written r entry o k e x ext :
  entry ∈ authenticated_exporters r → entry o = Some (k, e) → authenticator o = Some (x, ext) →
  ∃ m, e = ExpMap m ∧ m !! "auth" = Some (any_map {[ "authenticator" := any_string x ]}).
Proof.
  intros Hin E Ha%authenticator_reference.
  unfold authenticated_exporters in Hin. rewrite !elem_of_cons, elem_of_nil in Hin.
  destruct Hin as [-> |[-> |[-> |[]]]]; apply bind_Some in E as (api & Eapi & E);
    apply bind_Some in E as (t & Et & E); rewrite Ha in E; injection E as _ <-; eexists; (split; [done|]).
  - apply lookup_inner; [field_names|field_names|field_names|field_here].
  - apply lookup_inner; [field_names|field_names|field_names|field_here].
  - apply lookup_outer; [field_names|field_here].
Qed.

(** C27. Authentication is wired through: an exporter that can authenticate, of
    an output that is configured to, names an authenticator extension that is
    defined with the credentials of that output and started by the service. *)
Theorem authenticator_extension c entry o k e x ext :
  dns_input c → o ∈ in_Outputs c →
  entry ∈ authenticated_exporters (Input_Relations c) → entry o = Some (k, e) →
  authenticator o = Some (x, ext) →
  (∃ m, e = ExpMap m ∧ m !! "auth" = Some (any_map {[ "authenticator" := any_string x ]})) ∧
  Config_Extensions (assemble c) !! x = Some ext ∧ x ∈ elems (Service_Extensions (assemble c)).
Proof.
  intros Hdns Ho Hentry He Ha. split; [by eapply authenticator_written|].
  assert (Config_Extensions (assemble c) !! x = Some ext) as E.
  { rewrite assemble_eq. cbn [Config_Extensions].
    eapply output_extension_lookup; eauto using authenticator_output. }
  split; [done|]. apply elem_of_service_extensions. eauto.
Qed.

Lemma storage_extension_known c t :
  Input_DryRunMode c = false → t ∈ in_Tenants c →
  PersistenceConfig_EnableFileStorage (TenantSpec_PersistenceConfig (Tenant_Spec t)) = true →
  is_Some ((generateExtensions c).1 !! file_storage_name (Tenant_Name t)).
Proof.
  intros Hd Ht Hp. unfold generateExtensions. cbn [fst]. apply insert_all_is_Some. left.
  apply elem_of_bind_fst. exists t. split; [done|]. unfold tenant_extensions. rewrite Hd, Hp. cbn. set_solver.
Qed.

Lemma set_if_lookup_ne b k v (m : gmap string any) k' : k ≠ k' → set_if b k v m !! k' = m !! k'.
Proof. intros Hne. destruct b; cbn; [by apply lookup_insert_ne|done]. Qed.

Lemma set_if_storage b v m x :
  m !! "storage" = None → set_if b "storage" (any_string v) m !! "storage" = Some (any_string x) → b = true ∧ x = v.
Proof. intros Hm. destruct b; cbn; [rewrite lookup_insert_eq; naive_solver|congruence]. Qed.

Lemma events_no_storage ns sel e :
  set_ptr any_string "dedup_interval" (EventsToLogs_DedupInterval e)
    (set_ptr any_int "kube_api_burst" (EventsToLogs_KubeAPIBurst e)
       (set_ptr any_int "kube_api_qps" (EventsToLogs_KubeAPIQPS e)
          (set_if sel "namespaces" (any_strings ns) ∅))) !! "storage" = None.
Proof.
  unfold set_ptr. destruct (EventsToLogs_DedupInterval e), (EventsToLogs_KubeAPIBurst e), (EventsToLogs_KubeAPIQPS e);
    rewrite ?lookup_insert_ne by done; rewrite set_if_lookup_ne by done; apply lookup_empty.
Qed.

Lemma receiver_storage_spec c k rc x :
  generateReceivers c !! k = Some rc → rc !! "storage" = Some (any_string x) →
  Input_DryRunMode c = false ∧ ∃ t, t ∈ in_Tenants c ∧ x = file_storage_name (Tenant_Name t) ∧
    PersistenceConfig_EnableFileStorage (TenantSpec_PersistenceConfig (Tenant_Spec t)) = true.
Proof.
  intros E Hx. apply insert_all_inv in E as [E|[E _]]; [|by rewrite lookup_empty in E].
  apply list_elem_of_bind in E as (name & E & _). unfold tenant_receivers in E.
  destruct (find_first _ _) as [t|] eqn:Ef; [|set_solver]. apply find_first_Some in Ef as [Ht _].
  destruct (_ || _); [|set_solver].
  assert (receiver_storage (Input_DryRunMode c) t = true ∧ x = file_storage_name (Tenant_Name t)) as [Hs ->].
  { apply elem_of_cons in E as [[= -> ->]|E].
    - unfold GenerateDefaultKubernetesReceiver in Hx. by apply set_if_storage in Hx.
    - destruct (Input_EventsToLogs c) as [e|]; [|set_solver]. apply list_elem_of_singleton in E as [= -> ->].
      unfold GenerateKubernetesEventsReceiver in Hx.
      apply set_if_storage in Hx; [done|apply events_no_storage]. }
  apply andb_true_iff in Hs as [Hd Hp]. apply negb_true_iff in Hd. eauto.
Qed.

(** C28. Persistence is wired through: a storage that a receiver, or the sending
    queue of an exporter, refers to is defined as an extension and started by
    the service. *)
Theorem storage_extension c x :
  (∃ k rc, Config_Receivers (assemble c) !! k = Some rc ∧ rc !! "storage" = Some (any_string x)) ∨
  (∃ k m queue, Config_Exporters (assemble c) !! k = Some (ExpMap m) ∧
     m !! "sending_queue" = Some (any_map queue) ∧ queue !! "storage" = Some (any_string x)) →
  is_Some (Config_Extensions (assemble c) !! x) ∧ x ∈ elems (Service_Extensions (assemble c)).
Proof.
  intros Hx. assert (is_Some (Config_Extensions (assemble c) !! x)) as Hsome.
  { rewrite assemble_eq in *. cbn [Config_Receivers Config_Exporters Config_Extensions] in *.
    destruct Hx as [(k & rc & E & Hx)|(k & m & queue & E & Hm & Hx)].
    - destruct (receiver_storage_spec _ _ _ _ E Hx) as (Hd & t & Ht & -> & Hp).
      by apply storage_extension_known.
    - destruct (exporter_storage _ _ _ _ _ E Hm Hx) as (t & Ht & -> & Hp).
      apply storage_extension_known; [|done..]. destruct (Input_DryRunMode c) eqn:Hd; [|done].
      unfold generateExporters, GenerateDebugExporters in E. rewrite Hd in E. apply lookup_singleton_Some in E as [_ [= <-]].
      by apply lookup_singleton_Some in Hm as [? _]. }
  split; [done|]. by apply elem_of_service_extensions.
Qed.
End Extensions.

#[local] Existing Instance sample_platform.

Definition sample_ows : OutputWithSecretData :=
  mkOutputWithSecretData (sample_output "team" "sink" "red" (Some sample_auth)) sample_secret.

Lemma authenticator_extension_witness :
  Config_Extensions (assemble sample_input) !! "basicauth/team_sink" =
    Some (ExtBasicAuth (GenerateBasicAuthExtensionsForOutput sample_ows)).
Proof.
  edestruct (authenticator_extension sample_input (otlp_grpc_entry (Input_Relations sample_input)) sample_ows)
    as (_ & E & _).
  - apply sample_dns.
  - apply list_elem_of_here.
  - apply list_elem_of_here.
  - reflexivity.
  - reflexivity.
  - exact E.
Defined.

Lemma storage_extension_witness :
  ∃ rc, Config_Receivers (assemble sample_input) !! "file_log/red" = Some rc ∧
    rc !! "storage" = Some (any_string "file_storage/red") ∧
    "file_storage/red" ∈ elems (Service_Extensions (assemble sample_input)).
Proof.
  eexists. split; [reflexivity|]. split; [reflexivity|].
  apply (storage_extension sample_input). left. exists "file_log/red". eexists. split; reflexivity.
Defined.

