(* ===== verification/ModeSpec.v ===== *)
(** The dry-run mode and the additional arguments of the collector. *)
From S2P Require Import Prelude Strs Json Errors ApiOtlp ApiOutput ApiTypes Kube Relations.
From S2P Require Import Exporters Processors Receivers Extensions Connectors ConfGen Names.
From S2P Require Import ConfGenFacts PipelineFacts WfInput Samples ExporterSpec ConfGenSpec PipelineSpec ExtensionSpec.
From Stdlib Require Import Ascii.

(** * Dry run *)
Section DryRun.
Context `{Platform} `{MapRange}.
Implicit Types (c : OtelColConfigInput).

Lemma is_routing_tenant t : HasPrefix (routing_tenant t) "routing/" = true.
Proof. apply HasPrefix_spec. unfold routing_tenant. by exists ("tenant_" +:+ t +:+ "_subscriptions"). Qed.
Lemma is_routing_subscription n : HasPrefix (routing_subscription n) "routing/" = true.
Proof. apply HasPrefix_spec. by exists ("subscription_" +:+ ns_name n +:+ "_outputs"). Qed.
Lemma is_routing_bridge b : HasPrefix (routing_bridge b) "routing/" = true.
Proof. apply HasPrefix_spec. by exists ("bridge_" +:+ b). Qed.
Hint Resolve is_routing_tenant is_routing_subscription is_routing_bridge : core.

Lemma dry_root c name x :
  Input_DryRunMode c = true → x ∈ Pipeline_Exporters (root_pipeline c name) → HasPrefix x "routing/" = true.
Proof.
  intros Hd. unfold root_pipeline, GenerateRootPipeline.
  assert (∀ ev l acc, acc.2 = "" ∨ HasPrefix acc.2 "routing/" = true →
    let r := foldl (root_step name ev) acc l in r.2 = "" ∨ HasPrefix r.2 "routing/" = true) as Hinv.
  { intros ev l. induction l as [|t l IH]; intros acc Hacc; cbn [foldl]; [done|]. apply IH.
    unfold root_step. destruct (negb _); [done|]. destruct acc as [rs e]. cbn in *.
    destruct (negb _); [|done]. right. auto. }
  specialize (Hinv (negb (is_nil (Input_EventsToLogs c))) (in_Tenants c) ([], "") (or_introl eq_refl)).
  destruct (foldl _ _ _) as [rs e]. rewrite Hd. cbn in *.
  intros [->%list_elem_of_singleton Hne]%elem_of_filterEmpty. by destruct Hinv.
Qed.

End DryRun.

(** * Additional arguments *)

(** A text without [c] is not found across an occurrence of [c]. *)
Lemma HasPrefix_sep c (s n sub : string) :
  free_of c sub = true → HasPrefix (s +:+ String c n) sub = HasPrefix s sub.
Proof.
  revert s. induction sub as [|b sub IH]; intros s Hf.
  - by destruct s.
  - cbn in Hf. apply andb_true_iff in Hf as [Hb Hf]. destruct s as [|a s].
    + cbn. rewrite app_nil_l_str. cbn. rewrite negb_true_iff in Hb. apply bool_decide_eq_false in Hb.
      by rewrite bool_decide_false.
    + rewrite app_cons_str. cbn. by rewrite IH.
Qed.

Lemma Contains_sep c (s n sub : string) :
  free_of c sub = true → sub ≠ "" →
  Contains (s +:+ String c n) sub = Contains s sub || Contains n sub.
Proof.
  intros Hf Hne. induction s as [|a s IH].
  - rewrite app_nil_l_str, Contains_unfold. destruct sub as [|b sub]; [done|]. cbn in Hf |- *.
    apply andb_true_iff in Hf as [Hb _]. rewrite negb_true_iff, bool_decide_eq_false in Hb.
    by rewrite bool_decide_false.
  - rewrite (Contains_unfold (String a s)), <- orb_assoc, <- IH.
    rewrite <- (HasPrefix_sep c (String a s) n sub Hf). by rewrite app_cons_str, Contains_unfold.
Qed.

Section Arguments.
Context `{Platform} `{MapRange}.
Implicit Types (c : OtelColConfigInput) (t : Tenant).

Lemma tenant_attributes_transform n : Contains (tenant_attributes n) "transform" = Contains n "transform".
Proof. exact (Contains_sep "_"%char "attributes/tenant" n "transform" eq_refl ltac:(done)). Qed.
Lemma subscription_attributes_transform n : Contains (subscription_attributes n) "transform" = Contains n "transform".
Proof. exact (Contains_sep "_"%char "attributes/subscription" n "transform" eq_refl ltac:(done)). Qed.
Lemma exporter_attributes_transform n : Contains (exporter_attributes n) "transform" = Contains n "transform".
Proof. exact (Contains_sep "_"%char "attributes/exporter_name" n "transform" eq_refl ltac:(done)). Qed.
Lemma batch_transform n : Contains (batch_processor n) "transform" = Contains n "transform".
Proof. exact (Contains_sep "/"%char "batch" n "transform" eq_refl ltac:(done)). Qed.
Lemma transform_transform n : Contains ("transform/" +:+ n) "transform" = true.
Proof. apply Contains_spec. by exists "", ("/" +:+ n). Qed.

(** No resource has a name that contains the word the arguments look for. *)
Record plain_names c : Prop := {
  plain_tenants t : t ∈ in_Tenants c → Contains (Tenant_Name t) "transform" = false;
  plain_subscriptions ref s : in_Subscriptions c !! ref = Some s → Contains (Subscription_Name s) "transform" = false;
  plain_outputs o : o ∈ in_Outputs c → Contains (Output_Name (OWS_Output o)) "transform" = false
}.

Definition is_transform (p : processor_config) : bool :=
  match p with ProcTransform _ => true | _ => false end.

Lemma generateProcessors_inv c k p :
  generateProcessors c !! k = Some p →
  (is_transform p = false ∧
     k ∈ ["k8s_attributes"; "memory_limiter"; "filter/exclude"; "deltatocumulative"; "attributes/metricattributes"])
  ∨ (∃ t, t ∈ in_Tenants c ∧ (k, p) ∈ tenant_processors t)
  ∨ (∃ ref s, in_Subscriptions c !! ref = Some s ∧ (k, p) ∈ subscription_processors s)
  ∨ (∃ o, o ∈ in_Outputs c ∧ (k, p) ∈ output_processors o).
Proof.
  unfold generateProcessors. intros [E|[E _]]%insert_all_inv.
  { apply list_elem_of_bind in E as (o & ? & ?). eauto 10. }
  apply insert_all_inv in E as [E|[E _]].
  { apply list_elem_of_bind in E as (s & ? & [ref ?]%elem_of_range_map_values). eauto 10. }
  apply insert_all_inv in E as [E|[E _]].
  { apply list_elem_of_bind in E as (t & ? & ?). eauto 10. }
  left. apply maps_copy_inv in E as [E|E];
    (apply insert_all_inv in E as [E|[E _]]; [|by rewrite lookup_empty in E]);
    rewrite !elem_of_cons, elem_of_nil in E; unfold DefaultDeltaToCumulativeProcessorID in E;
    (repeat destruct E as [[= -> ->]|E]); try done; split; try done; field_here.
Qed.

(** Under plain names, transform processors are the ones named so. *)
Lemma transform_named c k p :
  plain_names c → generateProcessors c !! k = Some p → Contains k "transform" = is_transform p.
Proof.
  intros Hp [[-> Hk]|[(t & Ht & Hk)|[(ref & s & Hs & Hk)|(o & Ho & Hk)]]]%generateProcessors_inv.
  - rewrite !elem_of_cons, elem_of_nil in Hk. by repeat destruct Hk as [->|Hk].
  - unfold tenant_processors in Hk. apply elem_of_cons in Hk as [[= -> ->]|Hk].
    + rewrite tenant_attributes_transform. by apply (plain_tenants c).
    + case_bool_decide; cbn in Hk; [set_solver|]. apply list_elem_of_singleton in Hk as [= -> ->].
      by rewrite transform_transform.
  - apply list_elem_of_singleton in Hk as [= -> ->]. rewrite subscription_attributes_transform.
    by apply (plain_subscriptions c Hp ref).
  - unfold output_processors in Hk. apply elem_of_cons in Hk as [[= -> ->]|Hk].
    + rewrite exporter_attributes_transform. by apply (plain_outputs c).
    + destruct (OutputSpec_Batch _); [|set_solver]. apply list_elem_of_singleton in Hk as [= -> ->].
      rewrite batch_transform. by apply (plain_outputs c).
Qed.

Definition flattens (p : processor_config) : bool :=
  match p with ProcTransform tp => TransformProcessor_FlattenData tp | _ => false end.

Lemma flatten_enabled_plain l :
  (∀ k p, (k, p) ∈ l → Contains k "transform" = is_transform p) →
  flatten_enabled l = Some (existsb (λ kp, flattens kp.2) l).
Proof.
  induction l as [|[k p] l IH]; intros Hl; [done|]. cbn.
  rewrite (Hl k p) by apply list_elem_of_here. rewrite IH by (intros; by apply Hl, list_elem_of_further).
  destruct p; try done. cbn. by destruct (TransformProcessor_FlattenData p).
Qed.

Lemma flatten_enabled_panics l :
  (∃ k p, (k, p) ∈ l ∧ Contains k "transform" = true ∧ is_transform p = false) →
  (∀ k p, (k, p) ∈ l → flattens p = false) → flatten_enabled l = None.
Proof.
  induction l as [|[k p] l IH]; intros (k' & p' & Hin & Hc & Hp) Hl; [set_solver|]. cbn.
  assert (flattens p = false) as Hf by (apply (Hl k p), list_elem_of_here).
  apply elem_of_cons in Hin as [[= -> ->]|Hin].
  - rewrite Hc. by destruct p.
  - assert (flatten_enabled l = None) as ->.
    { apply IH; [eauto|]. intros. by eapply Hl, list_elem_of_further. }
    destruct (Contains k "transform"); [|done]. destruct p; try done. cbn in Hf. by rewrite Hf.
Qed.

(** The tenants that ask for flattened data *)
Definition tenant_flattens t : bool :=
  negb (bool_decide (transform_name t = "")) && Transform_FlattenData (TenantSpec_Transform (Tenant_Spec t)).

Lemma transform_lookup c t :
  t ∈ in_Tenants c → transform_name t ≠ "" →
  ∃ t', t' ∈ in_Tenants c ∧ transform_name t' = transform_name t ∧
    generateProcessors c !! ("transform/" +:+ transform_name t) = Some (ProcTransform (GenerateTransformProcessorForTenant t')).
Proof.
  intros Ht Hn.
  destruct (proj2 (generateProcessors_keys c ("transform/" +:+ transform_name t))) as [p E].
  { right; left. exists t. split; [done|]. apply elem_of_tenant_processors. by right. }
  pose proof E as [[_ Hk]|[(t' & Ht' & Hk)|[(ref & s & Hs & Hk)|(o & Ho & Hk)]]]%generateProcessors_inv.
  - rewrite !elem_of_cons, elem_of_nil in Hk. by repeat destruct Hk as [Hk|Hk].
  - unfold tenant_processors in Hk. apply elem_of_cons in Hk as [[= ]|Hk].
    case_bool_decide; cbn in Hk; [set_solver|]. apply list_elem_of_singleton in Hk as Hk.
    injection Hk as Hk Hp. exists t'. rewrite E, Hp. split; [done|]. split; [|done]. by symmetry.
  - by apply list_elem_of_singleton in Hk.
  - unfold output_processors in Hk. apply elem_of_cons in Hk as [[= ]|Hk].
    destruct (OutputSpec_Batch _); [|set_solver]. by apply list_elem_of_singleton in Hk.
Qed.

Lemma flattening_processor_tenant c k p :
  generateProcessors c !! k = Some p → flattens p = true → ∃ t, t ∈ in_Tenants c ∧ tenant_flattens t = true.
Proof.
  intros [[Hp _]|[(t & Ht & Hk)|[(ref & s & Hs & Hk)|(o & Ho & Hk)]]]%generateProcessors_inv Hf.
  - by destruct p.
  - exists t. split; [done|]. unfold tenant_processors in Hk. apply elem_of_cons in Hk as [[= -> ->]|Hk]; [done|].
    unfold tenant_flattens. case_bool_decide; cbn in Hk; [set_solver|].
    by apply list_elem_of_singleton in Hk as [= -> ->].
  - by apply list_elem_of_singleton in Hk as [= -> ->].
  - unfold output_processors in Hk. apply elem_of_cons in Hk as [[= -> ->]|Hk]; [done|].
    destruct (OutputSpec_Batch _); [|set_solver]. by apply list_elem_of_singleton in Hk as [= -> ->].
Qed.

Lemma existsb_false_of {A} (f : A → bool) l : (∀ x, x ∈ l → f x = false) → existsb f l = false.
Proof.
  intros Hl. apply not_true_iff_false. rewrite existsb_exists. intros (x & Hx%list_elem_of_In & Hf).
  rewrite Hl in Hf; done.
Qed.
End Arguments.

(** The additional arguments turn on the flattening of logs exactly when a
    tenant's transform asks for it, provided no resource name contains the word
    "transform" and tenants that share a transform name agree on flattening. *)
Theorem additional_args_flatten `{Platform} `{MapRange} c :
  plain_names c →
  (∀ t t', t ∈ in_Tenants c → t' ∈ in_Tenants c → transform_name t = transform_name t' →
     tenant_flattens t = tenant_flattens t') →
  AssembleConfig c = Some (assemble c,
    if existsb tenant_flattens (in_Tenants c) then {[ "feature-gates" := "transform.flatten.logs" ]} else ∅).
Proof.
  intros Hp Hagree. unfold AssembleConfig, assembleAdditionalArgs. rewrite assemble_eq at 1.
  cbn [Config_Processors]. rewrite flatten_enabled_plain.
  2: { intros k p Hk%elem_of_range_map. by eapply transform_named. }
  cbn [mbind option_bind]. do 2 f_equal.
  assert (existsb (λ kp, flattens kp.2) (range_map site_additional_args (generateProcessors c))
          = existsb tenant_flattens (in_Tenants c)) as ->; [|done].
  destruct (existsb tenant_flattens (in_Tenants c)) eqn:E.
  - apply existsb_exists in E as (t & Ht%list_elem_of_In & Hf).
    destruct (transform_lookup c t Ht) as (t' & Ht' & Hn & Hk).
    { intros Hn. unfold tenant_flattens in Hf. by rewrite bool_decide_true in Hf. }
    apply existsb_exists. eexists. split; [apply list_elem_of_In, elem_of_range_map, Hk|]. cbn.
    rewrite (Hagree t t') in Hf by done. unfold tenant_flattens in Hf. by apply andb_true_iff in Hf as [_ ?].
  - apply existsb_false_of. intros [k p] Hk%elem_of_range_map. cbn. apply not_true_iff_false. intros Hf.
    destruct (flattening_processor_tenant _ _ _ Hk Hf) as (t & Ht & Htf).
    assert (existsb tenant_flattens (in_Tenants c) = true); [|congruence].
    apply existsb_exists. exists t. by rewrite <- list_elem_of_In.
Qed.

(** A tenant whose name contains the word "transform" breaks the
    collector: the attributes processor that carries its name is taken for a
    transform processor, and the type assertion panics unless a flattening
    transform is met first. *)
Theorem transform_in_name_panics `{Platform} `{MapRange} c t :
  t ∈ in_Tenants c → Contains (Tenant_Name t) "transform" = true →
  (∀ t', t' ∈ in_Tenants c → tenant_flattens t' = false) → AssembleConfig c = None.
Proof.
  intros Ht Hn Hf. unfold AssembleConfig, assembleAdditionalArgs. rewrite assemble_eq at 1.
  cbn [Config_Processors]. rewrite flatten_enabled_panics; [done| |].
  - destruct (proj2 (generateProcessors_keys c (tenant_attributes (Tenant_Name t)))) as [p E].
    { right; left. exists t. split; [done|]. apply elem_of_tenant_processors. by left. }
    exists (tenant_attributes (Tenant_Name t)), p. rewrite elem_of_range_map, tenant_attributes_transform.
    split; [done|]. split; [done|].
    apply generateProcessors_inv in E as [[? _]|[(t' & _ & Hk)|[(ref & s & _ & Hk)|(o & _ & Hk)]]]; [done|..].
    + unfold tenant_processors in Hk. apply elem_of_cons in Hk as [[= _ ->]|Hk]; [done|].
      case_bool_decide; cbn in Hk; [set_solver|]. by apply list_elem_of_singleton in Hk.
    + by apply list_elem_of_singleton in Hk as [= _ ->].
    + unfold output_processors in Hk. apply elem_of_cons in Hk as [[= ]|Hk].
      destruct (OutputSpec_Batch _); [|set_solver]. by apply list_elem_of_singleton in Hk.
  - intros k p Hk%elem_of_range_map. apply not_true_iff_false. intros Hfl.
    destruct (flattening_processor_tenant _ _ _ Hk Hfl) as (t' & Ht' & Htf). rewrite Hf in Htf; done.
Qed.

#[local] Existing Instance sample_platform.


Lemma sample_plain : plain_names sample_input.
Proof.
  split.
  - intros t ->%list_elem_of_singleton. reflexivity.
  - intros ref s. rewrite sample_subs. intros [<- <-]%lookup_singleton_Some. reflexivity.
  - intros o ->%list_elem_of_singleton. reflexivity.
Qed.

Lemma additional_args_flatten_witness :
  AssembleConfig sample_input = Some (assemble sample_input, {[ "feature-gates" := "transform.flatten.logs" ]}).
Proof.
  apply (additional_args_flatten sample_input).
  - apply sample_plain.
  - by intros t t' ->%list_elem_of_singleton ->%list_elem_of_singleton.
Defined.

(** A tenant called [transformers] without a transform of its own *)
Definition panic_tenant : Tenant :=
  sample_tenant "transformers" (sample_transform "" false) false (Some ["apps"]) None None.
Definition panic_input : OtelColConfigInput :=
  mkInput (mkRelations (Some [panic_tenant]) (Some ∅) None (Some []) (Some {[ "transformers" := None ]}) (Some ∅))
    MemoryLimiter_default None false false true.

Lemma transform_in_name_panics_witness : AssembleConfig panic_input = None.
Proof.
  apply (transform_in_name_panics panic_input panic_tenant).
  - apply list_elem_of_here.
  - reflexivity.
  - intros t ->%list_elem_of_singleton. reflexivity.
Defined.
