(* ===== verification/TenantManager.v ===== *)
(** [pkg/resources/manager/tenant_resource_manager.go] and [bridge_manager.go]:
    which namespaces, subscriptions, outputs and bridges belong to a tenant, and
    the status updates that say so.

    A call to the API server takes the world and gives it back. Objects are
    values: after a status update the object is what was sent. Log lines are not
    modelled. *)
From S2P Require Import Prelude Strs Json Errors ApiOtlp ApiOutput ApiTypes Kube Utils Relations.

(** The cache of a tenant's outputs *)
Abbreviation output_cache := (gmap NamespacedName Output).

Section Managers.
Context `{Platform} {W : Type} `{!Client W}.
Open Scope world_scope.

(** * Namespaces *)

(** [normalizeNamespaceSlice]; a namespace is its name *)
Definition normalizeNamespaceSlice (inputList : list string) : list string :=
  sort_strings (dedup_by id [] inputList).

Definition namespaces_of_selector (ls : label_selector) (namespaces : list string) : M W (result (list string)) :=
  match LabelSelectorAsSelector ls with
  | Err e => ret (Err e)
  | Ok sel => found <! list_or_empty (List_Namespaces sel); ret (Ok (namespaces ++ found))
  end.

Definition getNamespacesForSelectorSlice (labelSelectors : list label_selector) : M W (result (list string)) :=
  namespaces <! loop namespaces_of_selector labelSelectors [];
  ret (Ok (normalizeNamespaceSlice namespaces)).

(** The slice of names is made with the length of the namespaces: never nil. *)
Definition GetLogsourceNamespaceNamesForTenant (tenant : Tenant) : M W (result (list string)) :=
  getNamespacesForSelectorSlice (TenantSpec_LogSourceNamespaceSelectors (Tenant_Spec tenant)).

(** * Ownership *)

(** The kinds a list type exists for *)
Definition supported (resource : ResourceKind) : bool :=
  match resource with KOther _ => false | _ => true end.

Definition unsupported {A} (resource : ResourceKind) : M W (result A) :=
  ret (Err (ErrText ("unsupported resource type: " +:+ kind_text resource))).

Definition list_in_namespace (resource : ResourceKind) (ns : string) (all : list Resource) : M W (result (list Resource)) :=
  r <~ List_Resources_in resource ns;
  ret match r with
      | Ok items => Ok (all ++ items)
      | Err e => if IsNotFound e then Ok all
                 else Err (ErrWrap ("failed to list resources in namespace " +:+ ns) e)
      end.

(** The status a resource gets when another tenant owns it *)
Definition ownership_conflict (res : Resource) : Resource :=
  SetState StateFailed
    (SetProblems (Some ["resource " +:+ resource_ref res +:+ " is already owned by tenant " +:+ GetTenant res]) res).

(** One turn of the loop over the selected resources: the owned ones, the ones
    to adopt *)
Definition classify (tenantName : string) (res : Resource) (acc : list Resource * list Resource)
    : M W (list Resource * list Resource) :=
  let '(ownedList, updateList) := acc in
  let currentTenant := GetTenant res in
  if negb (bool_decide (currentTenant = "")) && negb (bool_decide (currentTenant = tenantName)) then
    _ <~ Update_Resource_status (ownership_conflict res); ret (ownedList, updateList)
  else if bool_decide (currentTenant = "") then ret (ownedList, updateList ++ [res])
  else ret (ownedList ++ [res], updateList).

Definition GetResourceOwnedByTenant (resource : option ResourceKind) (tenant : Tenant)
    : M W (result (list Resource * list Resource)) :=
  match resource with
  | None => ret (Err (ErrText "resource cannot be nil"))
  | Some resource =>
      namespaces <! wrapM "failed to get namespaces"
        (getNamespacesForSelectorSlice (TenantSpec_SubscriptionNamespaceSelectors (Tenant_Spec tenant)));
      if negb (supported resource) then unsupported resource
      else
        allResources <! loop (list_in_namespace resource) namespaces [];
        lists <~ foreach (classify (Tenant_Name tenant)) allResources ([], []);
        ret (Ok lists)
  end.

(** A resource whose update fails is left out. *)
Definition adopt (tenantName : string) (res : Resource) (updatedResources : list Resource) : M W (list Resource) :=
  let res := SetTenant tenantName res in
  updateErr <~ Update_Resource_status res;
  ret match updateErr with None => updatedResources ++ [res] | Some _ => updatedResources end.

Definition UpdateResourcesForTenant (tenantName : string) (resources : list Resource) : M W (list Resource) :=
  foreach (adopt tenantName) resources [].

Definition same_resource (a b : Resource) : bool :=
  bool_decide (GetName a = GetName b) && bool_decide (GetNamespace a = GetNamespace b).

Definition GetResourcesReferencingTenantButNotSelected (tenant : Tenant) (resource : ResourceKind)
    (selectedResources : list Resource) : M W (result (list Resource)) :=
  if negb (supported resource) then unsupported resource
  else
    referencing <! wrapM "failed to list resources that need to be detached from tenant"
      (list_or_empty (List_Resources_by_tenant resource (Tenant_Name tenant)));
    ret (Ok (filter (λ r, existsb (same_resource r) selectedResources = false) referencing)).

Definition disown (res : Resource) (_ : unit) : M W unit :=
  _ <~ Update_Resource_status (SetTenant "" res); ret tt.

Definition DisownResources (resourceToDisown : list Resource) : M W unit :=
  foreach disown resourceToDisown tt.

(** * The outputs a subscription refers to

    The cache holds pointers: what a check does to an output is seen by the
    next one, so the cache is threaded through. *)

Definition tenant_mismatch_text (subscription : Subscription) (outputRef : NamespacedName) : string :=
  "output " +:+ NamespacedName_String outputRef +:+ " does not belong to the same tenant as subscription "
  +:+ NamespacedName_String (Subscription_NamespacedName subscription).

Definition query_secret_error (o : Output) : M W (option error) :=
  match OutputSpec_Authentication (Output_Spec o), QueryOutputSecret o with
  | Some _, Some q => q
  | _, _ => ret None
  end.

(** The outcome of one reference: the cache, the valid and the invalid ones *)
Definition validate_output (subscription : Subscription) (outputRef : NamespacedName)
    (acc : output_cache * golist NamespacedName * list string)
    : M W (output_cache * golist NamespacedName * list string) :=
  let '(outputMap, validOutputs, invalidOutputs) := acc in
  match outputMap !! outputRef with
  | None => ret (outputMap, validOutputs, invalidOutputs ++ [NamespacedName_String outputRef])
  | Some checkedOutput =>
      let mismatch := negb (bool_decide (OutputStatus_Tenant (Output_Status checkedOutput)
                                         = SubscriptionStatus_Tenant (Subscription_Status subscription))) in
      let checkedOutput := if mismatch
        then Add checkedOutput [tenant_mismatch_text subscription outputRef] else checkedOutput in
      secretErr <~ query_secret_error checkedOutput;
      let checkedOutput := match secretErr with
        | Some e => Add checkedOutput ["output " +:+ NamespacedName_String outputRef
                                       +:+ " secret could not be queried: " +:+ error_text e]
        | None => checkedOutput
        end in
      if mismatch || negb (is_nil secretErr) then
        let checkedOutput := Output_SetState StateFailed checkedOutput in
        _ <~ Update_Resource_status (ResOutput checkedOutput);
        ret (<[outputRef := checkedOutput]> outputMap, validOutputs,
             invalidOutputs ++ [NamespacedName_String (Output_NamespacedName checkedOutput)])
      else
        let checkedOutput := Output_SetState StateReady (ClearProblems checkedOutput) in
        updateErr <~ Update_Resource_status (ResOutput checkedOutput);
        let checkedOutput := match updateErr with
          | Some _ => Output_SetState StateFailed checkedOutput
          | None => checkedOutput
          end in
        ret (<[outputRef := checkedOutput]> outputMap, append validOutputs [outputRef], invalidOutputs)
  end.

Definition ValidateSubscriptionReferencedOutputsWithCache (subscription : Subscription) (outputMap : output_cache)
    : M W (output_cache * golist NamespacedName * list string) :=
  foreach (validate_output subscription) (elems (SubscriptionSpec_Outputs (Subscription_Spec subscription)))
    (outputMap, None, []).

Definition GetResourceNamesFromResource (resources : list Resource) : list NamespacedName :=
  (λ r, mkNamespacedName (GetNamespace r) (GetName r)) <$> resources.

(** * Bridges: [bridge_manager.go] *)
Definition touches (tenantName : string) (b : Bridge) : bool :=
  bool_decide (BridgeSpec_SourceTenant (Bridge_Spec b) = tenantName)
  || bool_decide (BridgeSpec_TargetTenant (Bridge_Spec b) = tenantName).

Definition getBridges (l : M W (result (list Bridge))) : M W (result (list Bridge)) := list_or_empty l.

Definition getTenants (l : M W (result (list Tenant))) : M W (result (list Tenant)) := list_or_empty l.

Definition GetBridgesForTenant (tenantName : string) : M W (result (list Bridge)) :=
  sourceBridge <! getBridges (List_Bridges_by_source tenantName);
  targetBridge <! getBridges (List_Bridges_by_target tenantName);
  ret (Ok (filter (λ b, touches tenantName b = true) (sourceBridge ++ targetBridge))).

Definition check_tenant_reference (tenantName : string) (bridge : Bridge) (tenantReference : string) (_ : unit)
    : M W (result unit) :=
  if negb (bool_decide (tenantReference = tenantName)) then
    tenant <! wrapM ("failed to get tenant " +:+ tenantReference +:+ " for bridge " +:+ Bridge_Name bridge)
      (getTenants (List_Tenants_by_name tenantReference));
    if (length tenant =? 0)%nat
    then ret (Err (ErrText ("bridge " +:+ Bridge_Name bridge +:+ " has a dangling tenant reference " +:+ tenantReference)))
    else ret (Ok tt)
  else ret (Ok tt).

Definition ValidateBridgeConnection (tenantName : string) (bridge : Bridge) : M W (result unit) :=
  loop (check_tenant_reference tenantName bridge)
    [BridgeSpec_SourceTenant (Bridge_Spec bridge); BridgeSpec_TargetTenant (Bridge_Spec bridge)] tt.

Definition GetBridgeNamesFromBridges (bridges : list Bridge) : list string := Bridge_Name <$> bridges.
End Managers.
