(* ===== verification/RouteController.v ===== *)
(** [controllers/telemetry/route_controller.go]: the reconciliation of a tenant.

    The steps change the tenant in place, also when they fail, so a step gives
    back the tenant with its error. *)
From S2P Require Import Prelude Strs Json Errors ApiOtlp ApiOutput ApiTypes Kube Utils Relations TenantManager.

Section RouteController.
Context `{Platform} {W : Type} `{!Client W}.
Open Scope world_scope.

(** A step's outcome: the tenant, and the error it returned *)
Definition step : Type := Tenant → M W (Tenant * option error).

Definition handleLogSourceNamespaces : step := λ tenant,
  r <~ GetLogsourceNamespaceNamesForTenant tenant;
  ret match r with
      | Err e => (tenant, Some (ErrWrap ("failed to get logsource namespaces for tenant " +:+ Tenant_Name tenant) e))
      | Ok names => (Tenant_set_LogSourceNamespaces (Some (sort_strings names)) tenant, None)
      end.

(** * Owned resources *)

(** The selected resources of a kind, adopted and disowned *)
Definition own_resources (resource : ResourceKind) (tenant : Tenant) : M W (result (list Resource)) :=
  lists <! wrapM ("failed to get " +:+ kind_text resource +:+ " for tenant " +:+ Tenant_Name tenant)
    (GetResourceOwnedByTenant (Some resource) tenant);
  updated <~ UpdateResourcesForTenant (Tenant_Name tenant) lists.2;
  let resourcesForTenant := lists.1 ++ updated in
  resourcesToDisown <! wrapM ("failed to get resources:  to disown for tenant: " +:+ Tenant_Name tenant)
    (GetResourcesReferencingTenantButNotSelected tenant resource resourcesForTenant);
  _ <~ DisownResources resourcesToDisown;
  ret (Ok resourcesForTenant).

(** The first failed resource is the error of the step. *)
Definition failed_resource (resources : list Resource) : option error :=
  match find_first (λ r, bool_decide (GetState r = StateFailed)) resources with
  | Some r => Some (ErrText ("resource " +:+ GetName r +:+ " is in a failed state"))
  | None => None
  end.

Definition invalid_outputs_text (subscription : Subscription) (invalidOutputs : list string) : string :=
  "invalid outputs referenced by subscription " +:+ Subscription_Name subscription +:+ ": " +:+ Join invalidOutputs ", ".

(** The subscription after its outputs were validated *)
Definition judged (subscription : Subscription) (validOutputs : golist NamespacedName) (invalidOutputs : list string)
    : Subscription :=
  let subscription := match invalidOutputs with
    | [] => ClearProblems (Subscription_SetState StateReady subscription)
    | _ => Add (Subscription_SetState StateFailed subscription) [invalid_outputs_text subscription invalidOutputs]
    end in
  Subscription_set_Outputs (SortNamespacedNames <$> validOutputs) subscription.

(** One turn of the loop over the subscriptions: the output cache and the
    subscriptions judged so far. The comparison that guards the update holds a
    pointer against a value, which [reflect.DeepEqual] finds different, so the
    update is always sent. *)
Definition judge (subscription : Subscription) (acc : output_cache * list Subscription)
    : M W (result (output_cache * list Subscription)) :=
  let '(outputMap, done) := acc in
  checked <~ ValidateSubscriptionReferencedOutputsWithCache subscription outputMap;
  let '(outputMap, validOutputs, invalidOutputs) := checked in
  let subscription := judged subscription validOutputs invalidOutputs in
  updateErr <~ Update_Resource_status (ResSubscription subscription);
  ret match updateErr with
      | Some e => Err (ErrWrap ("failed updating subscription status for "
                         +:+ NamespacedName_String (Subscription_NamespacedName subscription)) e)
      | None => Ok (outputMap, done ++ [subscription])
      end.

Definition cache_of (outputs : list Output) : output_cache :=
  insert_all ((λ o, (Output_NamespacedName o, o)) <$> outputs) ∅.

Definition validateSubscriptionOutputs (tenant : Tenant) (subscriptionsForTenant outputsForTenant : list Resource)
    : M W (result (list Subscription)) :=
  subscriptions <! ret (wrap ("failed to get concrete type from list for subscriptions for tenant " +:+ Tenant_Name tenant)
    (GetConcreteTypeFromList as_Subscription "*v1alpha1.Subscription" (ToObject id subscriptionsForTenant)));
  outputs <! ret (wrap ("failed to get concrete type from list for outputs for tenant " +:+ Tenant_Name tenant)
    (GetConcreteTypeFromList as_Output "*v1alpha1.Output" (ToObject id outputsForTenant)));
  st <! loop judge subscriptions (cache_of outputs, []);
  ret (Ok st.2).

(** The two turns of the loop over the kinds: outputs, then subscriptions *)
Definition handleOwnedResources : step := λ tenant,
  outs <~ own_resources KOutput tenant;
  match outs with
  | Err e => ret (tenant, Some e)
  | Ok allOutputsForTenant =>
      match failed_resource allOutputsForTenant with
      | Some e => ret (tenant, Some e)
      | None =>
          subs <~ own_resources KSubscription tenant;
          match subs with
          | Err e => ret (tenant, Some e)
          | Ok resourcesForTenant =>
              let tenant := Tenant_set_Subscriptions
                (Some (SortNamespacedNames (GetResourceNamesFromResource resourcesForTenant))) tenant in
              validated <~ validateSubscriptionOutputs tenant resourcesForTenant allOutputsForTenant;
              match validated with
              | Err e => ret (tenant, Some (ErrWrap ("failed to validate subscription outputs for tenant "
                                              +:+ Tenant_Name tenant) e))
              | Ok subscriptions => ret (tenant, failed_resource (ResSubscription <$> subscriptions))
              end
          end
      end
  end.

(** * Bridges *)
Definition bridge_failed (bridge : Bridge) (e : error) : Bridge :=
  Bridge_set_State StateFailed
    (Add bridge [error_text (ErrWrap ("bridge " +:+ Bridge_Name bridge +:+ " validation failed") e)]).

Definition handle_bridge (tenant : Tenant) (bridge : Bridge) (_ : unit) : M W (result unit) :=
  valid <~ ValidateBridgeConnection (Tenant_Name tenant) bridge;
  match valid with
  | Err e =>
      updateErr <~ Update_Bridge_status (bridge_failed bridge e);
      ret match updateErr with
          | Some u => Err (ErrCombine [e; ErrWrap "failed updating bridge status" u])
          | None => Err (ErrWrap ("failed to validate bridge " +:+ Bridge_Name bridge
                           +:+ " for tenant " +:+ Tenant_Name tenant) e)
          end
  | Ok _ =>
      let ready := ClearProblems (Bridge_set_State StateReady bridge) in
      if negb (bool_decide (Bridge_Status bridge = Bridge_Status ready)) then
        updateErr <~ Update_Bridge_status ready;
        ret match updateErr with
            | Some u => Err (ErrWrap ("failed updating bridge " +:+ Bridge_Name bridge +:+ " status") u)
            | None => Ok tt
            end
      else ret (Ok tt)
  end.

Definition handleBridgeResources : step := λ tenant,
  bridges <~ GetBridgesForTenant (Tenant_Name tenant);
  match bridges with
  | Err e => ret (tenant, Some (ErrWrap ("failed to get bridges for tenant " +:+ Tenant_Name tenant) e))
  | Ok bridgesForTenant =>
      let tenant := Tenant_set_ConnectedBridges
        (Some (sort_strings (GetBridgeNamesFromBridges bridgesForTenant))) tenant in
      r <~ loop (handle_bridge tenant) bridgesForTenant tt;
      ret (tenant, match r with Ok _ => None | Err e => Some e end)
  end.

(** * The reconciler *)
Definition tenant_steps : list (string * step) :=
  [ ("handle log source namespaces", handleLogSourceNamespaces);
    ("handle owned resources", handleOwnedResources);
    ("handle bridge resources", handleBridgeResources) ].

Definition handleTenantReconcileError (tenant : Tenant) (stepName : string) (err : error) : M W (option error) :=
  let wrappedErr := ErrWrap ("failed to " +:+ stepName +:+ " for tenant " +:+ Tenant_Name tenant) err in
  let tenant := Tenant_set_State StateFailed (Add tenant [error_text wrappedErr]) in
  updateErr <~ Update_Tenant_status tenant;
  ret (Some match updateErr with
            | Some u => ErrCombine [wrappedErr; ErrWrap "failed updating tenant status" u]
            | None => wrappedErr
            end).

Definition finish (original : TenantStatus) (tenant : Tenant) : M W (option error) :=
  let tenant := ClearProblems (Tenant_set_State StateReady tenant) in
  if negb (bool_decide (original = Tenant_Status tenant)) then
    updateErr <~ Update_Tenant_status tenant;
    ret match updateErr with
        | Some u => Some (ErrWrap "failed updating tenant status" u)
        | None => None
        end
  else ret None.

(** The steps in order; the first that fails ends the reconciliation. *)
Fixpoint run_steps (steps : list (string * step)) (original : TenantStatus) (tenant : Tenant) : M W (option error) :=
  match steps with
  | [] => finish original tenant
  | (name, fn) :: steps =>
      out <~ fn tenant;
      match out.2 with
      | Some err => handleTenantReconcileError out.1 name err
      | None => run_steps steps original out.1
      end
  end.

(** [Reconcile]; the result is always the empty one, so the error is all. *)
Definition Reconcile_Tenant (name : string) : M W (option error) :=
  got <~ Get_Tenant name;
  match got with
  | Err e => ret (is_real_error (Some e))
  | Ok tenant => run_steps tenant_steps (Tenant_Status tenant) tenant
  end.
End RouteController.
