(* ===== verification/TenantSpec.v ===== *)
(** The reconciliation of a tenant: what it may write, whatever the API server
    answers. *)
From S2P Require Import Prelude Strs Json Errors ApiOtlp ApiOutput ApiTypes Kube Trace Utils Relations.
From S2P Require Import Cluster Samples TenantManager RouteController ProblemSpec.

Section Isolation.
Context `{Platform} {W : Type} `{!Client W}.

(** What the field index on [status.tenant] and a get by name promise *)
Definition index_sound : Prop := ∀ kind name w w' l r,
  List_Resources_by_tenant (W := W) kind name w = (w', Ok l) → r ∈ l → GetTenant r = name.
Definition get_tenant_sound : Prop := ∀ name w w' t,
  Get_Tenant (W := W) name w = (w', Ok t) → Tenant_Name t = name.

(** The kinds that the reconciliation of a tenant reads *)
Definition tenant_reads : list Kind :=
  [TenantKind; NamespaceKind; SubscriptionKind; OutputKind; BridgeKind; SecretKind].

(** The calls that the reconciliation of [name] may make: it reads objects of
    these kinds, and it sends updates to the tenant
    itself, to a resource that [name] owns afterwards or has just given up, to a
    resource of another tenant only the mark of the conflict, and to a bridge
    that ends at the tenant. *)
Definition allowed (name : string) (x : access) : Prop :=
  match x with
  | Read k => k ∈ tenant_reads
  | WTenant t => Tenant_Name t = name
  | WCollector _ => False
  | WBridge b => touches name b = true
  | WResource r =>
      GetTenant r = name
      ∨ (∃ r0, GetTenant r0 = name ∧ r = SetTenant "" r0)
      ∨ (∃ r0, GetTenant r0 ≠ "" ∧ GetTenant r0 ≠ name ∧ r = ownership_conflict r0)
  end.

Definition owned_by (name : string) (rs : list Resource) : Prop := Forall (λ r, GetTenant r = name) rs.

Lemma GetTenant_SetTenant t r : GetTenant (SetTenant t r) = t.
Proof. by destruct r. Qed.

Lemma Output_Add_tenant (o : Output) ps : OutputStatus_Tenant (Output_Status (Add o ps)) = OutputStatus_Tenant (Output_Status o).
Proof. by destruct (Add_frame o ps) as [->|[l ->]]. Qed.

Lemma Subscription_Add_tenant (s : Subscription) ps :
  SubscriptionStatus_Tenant (Subscription_Status (Add s ps)) = SubscriptionStatus_Tenant (Subscription_Status s).
Proof. by destruct (Add_frame s ps) as [->|[l ->]]. Qed.

Lemma Bridge_Add_spec (b : Bridge) ps : Bridge_Spec (Add b ps) = Bridge_Spec b.
Proof. by destruct (Add_frame b ps) as [->|[l ->]]. Qed.

Lemma Tenant_Add_name (t : Tenant) ps : Tenant_Name (Add t ps) = Tenant_Name t.
Proof. by destruct (Add_frame t ps) as [->|[l ->]]. Qed.

Context (Hindex : index_sound) (name : string).

Lemma supported_read kind : supported kind = true → resource_kind kind ∈ tenant_reads.
Proof. destruct kind; [..|done]; intros _; by apply (bool_decide_unpack _). Qed.

Lemma runs_namespaces ls : runs (allowed name) (on_Ok anything) (getNamespacesForSelectorSlice (W := traced W) ls).
Proof.
  apply (runs_try _ anything); [|intros; by apply runs_ret]. apply runs_loop; [|done].
  intros l acc _ _. unfold namespaces_of_selector. destruct (LabelSelectorAsSelector l); [|by apply runs_ret].
  apply (runs_try _ anything); [apply runs_list_or_empty; [done|apply runs_read; by_decision]|]. intros. by apply runs_ret.
Qed.

Lemma runs_classify r acc :
  owned_by name acc.1 → runs (allowed name) (λ acc', owned_by name acc'.1) (classify (W := traced W) name r acc).
Proof.
  destruct acc as [owned upd]. intros Ho. unfold classify.
  destruct (decide (GetTenant r = "")) as [E|E].
  - rewrite (bool_decide_true (GetTenant r = "")) by done. cbn [negb andb]. by apply runs_ret.
  - rewrite (bool_decide_false (GetTenant r = "")) by done. cbn [negb andb].
    destruct (decide (GetTenant r = name)) as [En|En].
    + rewrite bool_decide_true by done. cbn [negb]. apply runs_ret. apply Forall_app. split; [done|by constructor].
    + rewrite bool_decide_false by done. cbn [negb].
      eapply runs_bind; [apply runs_logging|intros ? _; by apply runs_ret].
      right; right. eauto.
Qed.

Lemma runs_selected kind tenant :
  Tenant_Name tenant = name →
  runs (allowed name) (on_Ok (λ l, owned_by name l.1)) (GetResourceOwnedByTenant (W := traced W) (Some kind) tenant).
Proof.
  intros Hn. unfold GetResourceOwnedByTenant. apply (runs_try _ anything); [apply runs_wrapM, runs_namespaces|].
  intros namespaces _. destruct (supported kind) eqn:Hk; [|by apply runs_ret]. cbn [negb].
  apply (runs_try _ anything).
  - apply runs_loop; [|done]. intros ns acc _ _. unfold list_in_namespace.
    eapply runs_bind; [by apply runs_reading, supported_read|].
    intros [l|e] _; apply runs_ret; [done|]. by destruct (IsNotFound e).
  - intros all _. rewrite Hn. eapply (runs_bind _ (λ acc, owned_by name acc.1)).
    + apply runs_foreach; [|by constructor]. intros r acc _ Ho. by apply runs_classify.
    + intros acc Ho. by apply runs_ret.
Qed.

Lemma runs_adopt rs : runs (allowed name) (owned_by name) (UpdateResourcesForTenant (W := traced W) name rs).
Proof.
  apply runs_foreach; [|by constructor]. intros r acc _ Ha. unfold adopt.
  eapply runs_bind; [apply runs_logging; left; apply GetTenant_SetTenant|].
  intros [e|] _; apply runs_ret; [done|]. apply Forall_app. split; [done|].
  constructor; [apply GetTenant_SetTenant|done].
Qed.

Lemma runs_disown rs : owned_by name rs → runs (allowed name) anything (DisownResources (W := traced W) rs).
Proof.
  intros Hrs. apply runs_foreach; [|done]. intros r u Hin _. unfold disown.
  eapply runs_bind; [apply runs_logging|intros; by apply runs_ret].
  right; left. exists r. split; [|done]. by eapply Forall_forall in Hrs.
Qed.

Lemma runs_referencing kind tenant sel :
  Tenant_Name tenant = name →
  runs (allowed name) (on_Ok (owned_by name))
    (GetResourcesReferencingTenantButNotSelected (W := traced W) tenant kind sel).
Proof.
  intros Hn. unfold GetResourcesReferencingTenantButNotSelected. destruct (supported kind) eqn:Hk; [|by apply runs_ret].
  cbn [negb]. apply (runs_try _ (owned_by name)).
  - apply runs_wrapM, runs_list_or_empty; [by constructor|].
    intros s s' r. cbn. unfold reading. destruct (List_Resources_by_tenant kind _ s.1) as [w l] eqn:E.
    intros [= <- <-]. split; [|eexists; split; [done|]; constructor; [by apply supported_read|done]].
    destruct l as [l|e]; [|done]. apply Forall_forall. intros x Hx. rewrite <- Hn. by eapply Hindex.
  - intros l Hl. apply runs_ret. cbn. apply Forall_forall. intros x Hx.
    apply list_elem_of_filter in Hx as [_ Hx]. by eapply Forall_forall in Hl.
Qed.

Lemma runs_own kind tenant :
  Tenant_Name tenant = name →
  runs (allowed name) (on_Ok (owned_by name)) (own_resources (W := traced W) kind tenant).
Proof.
  intros Hn. unfold own_resources.
  eapply runs_try; [by apply runs_wrapM, runs_selected|]. intros [owned upd] Ho. cbn in Ho |- *.
  rewrite Hn. eapply runs_bind; [apply runs_adopt|]. intros updated Hu.
  eapply runs_try; [by apply runs_wrapM, runs_referencing|]. intros dis Hd.
  eapply runs_bind; [by apply runs_disown|]. intros ? _. apply runs_ret. by apply Forall_app.
Qed.

(** * Subscriptions and their outputs *)
Definition cache_owned (m : output_cache) : Prop :=
  ∀ ref o, m !! ref = Some o → OutputStatus_Tenant (Output_Status o) = name.

Lemma cache_owned_insert m ref o :
  cache_owned m → OutputStatus_Tenant (Output_Status o) = name → cache_owned (<[ref := o]> m).
Proof. intros Hm Ho ref' o'. rewrite lookup_insert_Some. naive_solver. Qed.

Lemma runs_secret o : runs (allowed name) anything (query_secret_error (W := traced W) o).
Proof.
  unfold query_secret_error, QueryOutputSecret, QueryOutputSecretWithData.
  destruct (OutputSpec_Authentication (Output_Spec o)) as [a|]; [|by apply runs_ret]. cbn.
  eapply (runs_bind _ anything); [|intros; by apply runs_ret].
  destruct (auth_refs a) as [|[ref n] [|]]; [by apply runs_ret| |by apply runs_ret].
  eapply runs_any, runs_wrapM, runs_read. by_decision.
Qed.

Lemma runs_validate s ref acc :
  cache_owned acc.1.1 →
  runs (allowed name) (λ acc', cache_owned acc'.1.1) (validate_output (W := traced W) s ref acc).
Proof.
  destruct acc as [[m valid] invalid]. intros Hm. unfold validate_output.
  destruct (m !! ref) as [o|] eqn:Eo; [|by apply runs_ret]. pose proof (Hm _ _ Eo) as Ho.
  set (o1 := if negb _ then _ else _).
  assert (OutputStatus_Tenant (Output_Status o1) = name) as Ho1.
  { unfold o1. destruct (negb _); [by rewrite Output_Add_tenant|done]. }
  eapply runs_bind; [apply runs_secret|]. intros e _.
  set (o2 := match e with Some _ => _ | None => _ end).
  assert (OutputStatus_Tenant (Output_Status o2) = name) as Ho2.
  { unfold o2. destruct e; [by rewrite Output_Add_tenant|done]. }
  destruct (_ || _).
  - eapply runs_bind; [apply runs_logging; left; exact Ho2|]. intros _ _. apply runs_ret.
    by apply cache_owned_insert.
  - eapply runs_bind; [apply runs_logging; left; exact Ho2|]. intros u _. apply runs_ret.
    apply cache_owned_insert; [done|]. by destruct u.
Qed.

Lemma judged_tenant s valid invalid :
  SubscriptionStatus_Tenant (Subscription_Status (judged s valid invalid)) = SubscriptionStatus_Tenant (Subscription_Status s).
Proof. unfold judged. destruct invalid; cbn; [done|]. by rewrite Subscription_Add_tenant. Qed.

Lemma runs_judge s acc :
  SubscriptionStatus_Tenant (Subscription_Status s) = name → cache_owned acc.1 →
  runs (allowed name) (on_Ok (λ acc', cache_owned acc'.1)) (judge (W := traced W) s acc).
Proof.
  destruct acc as [m done]. intros Hs Hm. unfold judge.
  eapply (runs_bind _ (λ acc', cache_owned acc'.1.1)).
  - unfold ValidateSubscriptionReferencedOutputsWithCache. apply runs_foreach; [|exact Hm].
    intros ref acc _ Hacc. by apply runs_validate.
  - intros [[m' valid] invalid] Hm'.
    eapply runs_bind; [apply runs_logging; left; etrans; [apply judged_tenant|exact Hs]|].
    intros [u|] _; by apply runs_ret.
Qed.

Lemma mapM_owned {A} (as_T : Resource → option A) (tenant_of : A → string) rs l :
  (∀ r a, as_T r = Some a → tenant_of a = GetTenant r) →
  owned_by name rs → mapM as_T rs = Some l → Forall (λ a, tenant_of a = name) l.
Proof.
  intros Ht Hrs E%mapM_Some_1. revert Hrs. induction E as [|r a rs l Ea E IH]; intros Hrs; [constructor|].
  inversion_clear Hrs as [|?? Hr Hrs']. constructor; [by rewrite (Ht _ _ Ea)|by apply IH].
Qed.

Lemma cache_of_owned outs : Forall (λ o, OutputStatus_Tenant (Output_Status o) = name) outs → cache_owned (cache_of outs).
Proof.
  intros Ho ref o E. unfold cache_of in E. apply insert_all_inv in E as [E|[E _]]; [|by rewrite lookup_empty in E].
  apply list_elem_of_fmap in E as (o' & [= -> ->] & Hin). by eapply Forall_forall in Ho.
Qed.

Lemma runs_validateSubscriptionOutputs tenant subs outs :
  owned_by name subs → owned_by name outs →
  runs (allowed name) (on_Ok anything) (validateSubscriptionOutputs (W := traced W) tenant subs outs).
Proof.
  intros Hs Ho. unfold validateSubscriptionOutputs. rewrite !ToObject_id.
  eapply (runs_try _ (λ l, Forall (λ s, SubscriptionStatus_Tenant (Subscription_Status s) = name) l)).
  { apply runs_ret. unfold GetConcreteTypeFromList. destruct (concrete_from as_Subscription _ 0 subs) as [l|] eqn:E; [|done].
    apply concrete_from_Ok in E. cbn. eapply (mapM_owned as_Subscription); [|exact Hs|exact E]. by intros [] ? [= <-]. }
  intros rsubs Hrs.
  eapply (runs_try _ (λ l, Forall (λ o, OutputStatus_Tenant (Output_Status o) = name) l)).
  { apply runs_ret. unfold GetConcreteTypeFromList. destruct (concrete_from as_Output _ 0 outs) as [l|] eqn:E; [|done].
    apply concrete_from_Ok in E. cbn. eapply (mapM_owned as_Output); [|exact Ho|exact E]. by intros [] ? [= <-]. }
  intros routs Hro. eapply (runs_try _ (λ acc, cache_owned acc.1)); [|intros; by apply runs_ret].
  apply runs_loop; [|by apply cache_of_owned]. intros s acc Hin Hacc. apply runs_judge; [|done].
  by eapply Forall_forall in Hrs.
Qed.

(** * The steps *)
Definition keeps_name (out : Tenant * option error) : Prop := Tenant_Name out.1 = name.

Lemma runs_log_sources tenant :
  Tenant_Name tenant = name → runs (allowed name) keeps_name (handleLogSourceNamespaces (W := traced W) tenant).
Proof.
  intros Hn. eapply runs_bind; [apply runs_namespaces|]. intros [l|e] _; by apply runs_ret.
Qed.

Lemma runs_owned tenant :
  Tenant_Name tenant = name → runs (allowed name) keeps_name (handleOwnedResources (W := traced W) tenant).
Proof.
  intros Hn. unfold handleOwnedResources. eapply runs_bind; [by apply runs_own|].
  intros [outs|e] Ho; [|by apply runs_ret]. destruct (failed_resource outs); [by apply runs_ret|].
  eapply runs_bind; [by apply runs_own|]. intros [subs|e] Hs; [|by apply runs_ret].
  eapply runs_bind; [by apply runs_validateSubscriptionOutputs|]. intros [l|e] _; by apply runs_ret.
Qed.

Lemma runs_handle_bridge tenant b :
  Tenant_Name tenant = name → touches name b = true →
  runs (allowed name) (on_Ok anything) (handle_bridge (W := traced W) tenant b tt).
Proof.
  intros Hn Hb. unfold handle_bridge. eapply (runs_bind _ anything).
  - unfold ValidateBridgeConnection. eapply runs_any, (runs_loop _ anything); [|done].
    intros ref u _ _. unfold check_tenant_reference. destruct (negb _); [|by apply runs_ret].
    apply (runs_try _ anything); [apply runs_wrapM, runs_list_or_empty; [done|apply runs_read; by_decision]|].
    intros l _. destruct (_ =? _)%nat; by apply runs_ret.
  - intros [u|e] _.
    + destruct (negb _); [|by apply runs_ret].
      eapply runs_bind; [apply runs_logging; exact Hb|]. intros [?|] _; by apply runs_ret.
    + eapply runs_bind; [apply runs_logging|intros [?|] _; by apply runs_ret].
      unfold allowed, touches, bridge_failed, Bridge_set_State in *. cbn [Bridge_Spec]. by rewrite Bridge_Add_spec.
Qed.

Lemma runs_bridges tenant :
  Tenant_Name tenant = name → runs (allowed name) keeps_name (handleBridgeResources (W := traced W) tenant).
Proof.
  intros Hn. unfold handleBridgeResources.
  eapply (runs_bind _ (on_Ok (λ l, Forall (λ b, touches name b = true) l))).
  - unfold GetBridgesForTenant. apply (runs_try _ anything); [apply runs_list_or_empty; [done|apply runs_read; by_decision]|]. intros l1 _.
    apply (runs_try _ anything); [apply runs_list_or_empty; [done|apply runs_read; by_decision]|]. intros l2 _. apply runs_ret. cbn.
    apply Forall_forall. intros b [Hb _]%list_elem_of_filter. by rewrite Hn in Hb.
  - intros [bs|e] Hbs; [|by apply runs_ret].
    eapply (runs_bind _ (on_Ok anything)); [|intros; by apply runs_ret].
    apply (runs_loop _ anything); [|done]. intros b [] Hin _. apply runs_handle_bridge; [done|].
    by eapply Forall_forall in Hbs.
Qed.

Lemma runs_run_steps steps original tenant :
  Forall (λ st : string * step, ∀ t, Tenant_Name t = name → runs (allowed name) keeps_name (st.2 t)) steps →
  Tenant_Name tenant = name → runs (allowed name) anything (run_steps (W := traced W) steps original tenant).
Proof.
  intros Hsteps. revert tenant. induction Hsteps as [|[n fn] steps Hfn Hsteps IH]; intros tenant Hn; cbn [run_steps].
  - unfold finish. destruct (negb _); [|by apply runs_ret].
    eapply runs_bind; [apply runs_logging; exact Hn|]. intros [?|] _; by apply runs_ret.
  - eapply runs_bind; [by apply Hfn|]. intros [t [e|]] Ht; cbn; [|by apply IH].
    unfold handleTenantReconcileError. eapply runs_bind; [apply runs_logging|intros; by apply runs_ret].
    cbn. by rewrite Tenant_Add_name.
Qed.
End Isolation.

Lemma reconcile_allowed `{Platform} {W} `{!Client W} name (w w' : W) log res :
  index_sound (W := W) → get_tenant_sound (W := W) →
  Reconcile_Tenant (W := traced W) name (w, []) = ((w', log), res) → Forall (allowed name) log.
Proof.
  intros Hindex Hget. unfold Reconcile_Tenant, bind at 1. cbn [Get_Tenant traced_client client_over]. unfold reading. cbn [fst snd].
  destruct (Get_Tenant name w) as [w1 [t|e]] eqn:E; [|intros [= _ <- _]; constructor; [by_decision|done]].
  intros Hr. destruct (runs_run_steps name tenant_steps (Tenant_Status t) t) with (3 := Hr) as (_ & new & En & F).
  - apply Forall_forall. intros st Hst t' Ht'. unfold tenant_steps in Hst.
    rewrite !elem_of_cons, elem_of_nil in Hst. destruct Hst as [-> |[-> |[-> |[]]]]; cbn [snd].
    + by apply runs_log_sources.
    + by apply runs_owned.
    + by apply runs_bridges.
  - by eapply Hget.
  - cbn in En. subst. constructor; [by_decision|done].
Qed.


#[local] Existing Instance sample_platform.

Definition sample_run : (cluster * list access) * option error :=
  Reconcile_Tenant (W := traced cluster) "red" (sample_cluster sample_resources false, []).

Example sample_run_log :
  sample_run.2 = None ∧
  omap (λ x, match x with WResource r => Some (GetName r, GetTenant r) | WTenant t => Some (Tenant_Name t, "") | _ => None end)
    sample_run.1.2 =
  [("other", "blue"); ("sink", "red"); ("errors", "red"); ("sink", "red"); ("errors", "red"); ("red", "")].
Proof. split; vm_compute; reflexivity. Qed.

