(* ===== verification/TenantBehaviour.v ===== *)
(** What the steps of a tenant's reconciliation compute, and what its status
    says afterwards. *)
From S2P Require Import Prelude Strs Json Errors ApiOtlp ApiOutput ApiTypes ProblemSpec Kube Watches Trace Cluster Utils Relations.
From S2P Require Import Samples TenantManager RouteController TenantSpec.

(** * Which resources are owned and which are adopted *)
Section Selection.
Context `{Platform} {W : Type} `{!Client W}.

Lemma resources_split all (w w' : W) owned upd name :
  foreach (classify name) all ([], []) w = (w', (owned, upd)) →
  owned = filter (λ r, GetTenant r = name ∧ GetTenant r ≠ "") all ∧
  upd = filter (λ r, GetTenant r = "") all.
Proof.
  intros E.
  apply (foreach_inv (λ done acc,
    acc.1 = filter (λ r, GetTenant r = name ∧ GetTenant r ≠ "") done ∧
    acc.2 = filter (λ r, GetTenant r = "") done) (classify name) all [] _ _ _ _ (conj eq_refl eq_refl)) in E.
  - exact E.
  - intros done r [o u] w1 w2 [o' u'] [Ho Hu] _ Er. cbn in Ho, Hu |- *. subst o u. rewrite !filter_app. unfold classify in Er.
    rewrite !filter_cons, !filter_nil.
    destruct (decide (GetTenant r = "")) as [E1|E1].
    + rewrite (bool_decide_true (GetTenant r = "")) in Er by done. cbn in Er. injection Er as _ <- <-.
      rewrite decide_False by tauto. by rewrite app_nil_r.
    + rewrite (bool_decide_false (GetTenant r = "")) in Er by done. cbn in Er.
      destruct (decide (GetTenant r = name)) as [E2|E2].
      * rewrite bool_decide_true in Er by done. cbn in Er. injection Er as _ <- <-.
        rewrite decide_True by tauto. by rewrite app_nil_r.
      * rewrite bool_decide_false in Er by done. unfold bind in Er. cbn in Er.
        destruct (Update_Resource_status _ _). injection Er as _ <- <-.
        rewrite decide_False by tauto. by rewrite !app_nil_r.
Qed.

(** The resources found in a tenant's namespaces are split by their owner:
    those of the tenant are owned, those of nobody are to be adopted, those of
    another tenant are neither, in the order found, whatever the server answers
    to the marking of conflicts. *)
Theorem resources_split_by_owner name all (w w' : W) owned upd :
  foreach (classify name) all ([], []) w = (w', (owned, upd)) →
  owned = filter (λ r, GetTenant r = name ∧ GetTenant r ≠ "") all ∧
  upd = filter (λ r, GetTenant r = "") all.
Proof. apply resources_split. Qed.

(** Adoption keeps exactly the resources whose update the server accepted,
    each with the tenant as its owner, and one refusal does not stop the others. *)
Theorem adoption_keeps_accepted name rs (verdict : Resource → option error) (w w' : W) updated :
  (∀ r w, (Update_Resource_status r w).2 = verdict r) →
  UpdateResourcesForTenant name rs w = (w', updated) →
  updated = filter (λ r, verdict r = None) (SetTenant name <$> rs).
Proof.
  intros Hv E.
  apply (foreach_inv (λ done acc, acc = filter (λ r, verdict r = None) (SetTenant name <$> done))
    (adopt name) rs [] [] w w' updated eq_refl) in E; [exact E|].
  intros done r acc w1 w2 acc' -> _ Er. unfold adopt, bind, ret in Er.
  specialize (Hv (SetTenant name r) w1). destruct (Update_Resource_status _ w1) as [w3 u]. cbn in Hv. subst u.
  rewrite fmap_app, filter_app. cbn [fmap list_fmap]. rewrite filter_cons, filter_nil. injection Er as _ <-.
  destruct (verdict _); [rewrite decide_False by done; by rewrite app_nil_r|by rewrite decide_True].
Qed.

(** * Validation of a subscription's outputs *)
(** Validation splits a subscription's output references: each is valid or
    is reported as invalid, the valid ones keep their order, and a valid one
    names an output of the tenant's cache that has the subscription's owner;
    without a valid one the list is nil. *)
Theorem validation_splits_references s m (w w' : W) m' valid invalid :
  ValidateSubscriptionReferencedOutputsWithCache s m w = (w', (m', valid, invalid)) →
  let refs := elems (SubscriptionSpec_Outputs (Subscription_Spec s)) in
  length (elems valid) + length invalid = length refs ∧
  sublist (elems valid) refs ∧ decoded valid ∧
  (∀ ref, ref ∈ elems valid → ∃ o, m !! ref = Some o ∧
     OutputStatus_Tenant (Output_Status o) = SubscriptionStatus_Tenant (Subscription_Status s)).
Proof.
  intros E. cbn zeta.
  pose (owner := λ (c : output_cache) ref, OutputStatus_Tenant ∘ Output_Status <$> c !! ref).
  apply (foreach_inv (λ done acc,
    length (elems acc.1.2) + length acc.2 = length done ∧ sublist (elems acc.1.2) done ∧ decoded acc.1.2 ∧
    (∀ ref, owner acc.1.1 ref = owner m ref) ∧
    (∀ ref, ref ∈ elems acc.1.2 → owner m ref = Some (SubscriptionStatus_Tenant (Subscription_Status s))))
    (validate_output s) _ [] _ _ _ _) in E.
  - destruct E as (Hl & Hs & Hd & _ & Ho). split_and!; [done..|]. intros ref Hin.
    apply Ho, fmap_Some in Hin as (o & Eo & Et). eauto.
  - split_and!; [done|constructor|by unfold decoded|done|by intros ? ?%not_elem_of_nil].
  - clear E. intros done ref [[c v] i] w1 w2 [[c' v'] i'] (Hl & Hs & Hd & Hc & Ho) _ Er. cbn [fst snd] in *.
    assert (∀ o o', c !! ref = Some o → OutputStatus_Tenant (Output_Status o') = OutputStatus_Tenant (Output_Status o) →
      ∀ ref', owner (<[ref := o']> c) ref' = owner m ref') as Hins.
    { intros o o' Eo Et ref'. rewrite <- Hc. unfold owner. destruct (decide (ref = ref')) as [<-|].
      - rewrite lookup_insert_eq, Eo. cbn. by rewrite Et.
      - by rewrite lookup_insert_ne. }
    unfold validate_output in Er. destruct (c !! ref) as [o|] eqn:Eo.
    2: { injection Er as _ <- <- <-. rewrite !length_app. cbn [length]. split_and!; [lia|by apply sublist_inserts_r|done..]. }
    destruct (decide (OutputStatus_Tenant (Output_Status o) = SubscriptionStatus_Tenant (Subscription_Status s))) as [Et|Et].
    + rewrite bool_decide_true in Er by done. cbn in Er. unfold bind in Er.
      destruct (query_secret_error o w1) as [w3 [e|]]; cbn in Er;
        destruct (Update_Resource_status _ w3) as [w4 u]; injection Er as _ <- <- <-.
      * rewrite !length_app. cbn [length]. split_and!; [lia|by apply sublist_inserts_r|done| |done].
        eapply Hins; [done|]. cbn. apply Output_Add_tenant.
      * rewrite elems_append, !length_app. cbn [length]. split_and!; [lia| | |eapply Hins; [done|by destruct u]|].
        -- by apply sublist_app.
        -- unfold decoded. destruct v as [l|]; cbn; [|done]. by destruct l.
        -- intros ref' [Hin|Hin]%elem_of_app; [auto|]. apply list_elem_of_singleton in Hin as ->.
           rewrite <- Hc. unfold owner. rewrite Eo. cbn. by rewrite Et.
    + rewrite bool_decide_false in Er by done. cbn in Er. unfold bind in Er.
      destruct (query_secret_error _ w1) as [w3 e]. cbn in Er.
      destruct (Update_Resource_status _ w3) as [w4 u]. injection Er as _ <- <- <-.
      rewrite !length_app. cbn [length]. split_and!; [lia|by apply sublist_inserts_r|done| |done].
      eapply Hins; [done|]. cbn. destruct e; rewrite ?Output_Add_tenant; done.
Qed.

(** A failed output blocks its tenant until someone else repairs it: the
    step ends before the subscriptions are looked at, so the validation that
    could set the output ready again is not reached. *)
Theorem failed_output_blocks tenant (w w1 : W) outs :
  own_resources KOutput tenant w = (w1, Ok outs) →
  (∃ r, r ∈ outs ∧ GetState r = StateFailed) →
  ∃ name, handleOwnedResources tenant w =
    (w1, (tenant, Some (ErrText ("resource " +:+ name +:+ " is in a failed state")))).
Proof.
  intros E (r & Hin & Hf). unfold handleOwnedResources, bind at 1. rewrite E. unfold failed_resource.
  destruct (find_first_is_Some (λ r, bool_decide (GetState r = StateFailed)) outs r Hin) as [r' ->].
  - by apply bool_decide_eq_true.
  - by eexists.
Qed.
End Selection.

(** * What the status says in the end *)
Section Outcome.
Context `{Platform} {W : Type} `{!Client W}.

(** The tenant as a successful reconciliation leaves it *)
Definition ready (t : Tenant) : Prop :=
  TenantStatus_State (Tenant_Status t) = StateReady ∧ GetProblems t = Some [].

(** The tenant as a step that failed with [err] leaves it *)
Definition failed_with (msg : string) (t : Tenant) : Prop :=
  TenantStatus_State (Tenant_Status t) = StateFailed ∧
  (TrimSpace msg = "" ∨ TrimSpace msg ∈ elems (GetProblems t)).

Definition last_write (log : list access) (t : Tenant) : Prop := ∃ log0, log = log0 ++ [WTenant t].

Lemma run_steps_outcome steps original tenant (s s' : traced W) res :
  decoded (TenantStatus_Problems original) →
  run_steps steps original tenant s = (s', res) →
  ∃ t, last_write s'.2 t ∧
    (ready t ∨ ∃ err e, res = Some err ∧ failed_with (error_text e) t ∧
       (err = e ∨ ∃ u, err = ErrCombine [e; ErrWrap "failed updating tenant status" u])).
Proof.
  intros Hdec. revert tenant s. induction steps as [|[n fn] steps IH]; intros tenant s.
  - cbn [run_steps]. unfold finish. intros E. rewrite bool_decide_false in E.
    2: { intros Eo. rewrite Eo in Hdec. by apply Hdec. }
    cbn in E. unfold bind, logging in E. destruct (Update_Tenant_status _ s.1) as [w u]. injection E as <- _.
    eexists. split; [eexists; reflexivity|]. by left.
  - cbn [run_steps]. unfold bind at 1. destruct (fn tenant s) as [s1 [t [e|]]]; cbn; [|by apply IH].
    unfold handleTenantReconcileError, bind. cbn. unfold logging. destruct (Update_Tenant_status _ s1.1) as [w u].
    intros [= <- <-]. eexists. split; [eexists; reflexivity|]. right.
    exists (match u with Some u => ErrCombine [ErrWrap ("failed to " +:+ n +:+ " for tenant " +:+ Tenant_Name t) e;
        ErrWrap "failed updating tenant status" u]
      | None => ErrWrap ("failed to " +:+ n +:+ " for tenant " +:+ Tenant_Name t) e end),
      (ErrWrap ("failed to " +:+ n +:+ " for tenant " +:+ Tenant_Name t) e). split; [done|]. split.
    + split; [done|]. exact (Add_listed (C := Tenant) t _).
    + destruct u; eauto.
Qed.
End Outcome.


(** * Namespaces and bridges of a tenant, when the listings are known *)
Section Listings.
Context `{Platform} {W : Type} `{!Client W}.
Context (sel_of : label_selector → selector) (ns_of : selector → list string) (w : W).
Context (Hns : ∀ sel, List_Namespaces sel w = (w, Ok (ns_of sel))).

Lemma loop_namespaces ls acc :
  (∀ l, l ∈ ls → LabelSelectorAsSelector l = Ok (sel_of l)) →
  loop namespaces_of_selector ls acc w = (w, Ok (acc ++ (ls ≫= λ l, ns_of (sel_of l)))).
Proof.
  revert acc. induction ls as [|l ls IH]; intros acc Hsel; cbn; [by rewrite app_nil_r|].
  unfold try at 1, bind at 1. unfold namespaces_of_selector at 1. rewrite Hsel by apply list_elem_of_here.
  unfold try, bind, list_or_empty, bind at 1. rewrite Hns. cbn.
  rewrite IH, <- app_assoc; [done|]. intros l' Hl. by apply Hsel, list_elem_of_further.
Qed.

Lemma namespaces_selected ls :
  (∀ l, l ∈ ls → LabelSelectorAsSelector l = Ok (sel_of l)) →
  getNamespacesForSelectorSlice ls w = (w, Ok (normalizeNamespaceSlice (ls ≫= λ l, ns_of (sel_of l)))).
Proof. intros Hsel. unfold getNamespacesForSelectorSlice, try at 1, bind at 1. by rewrite loop_namespaces. Qed.
End Listings.

(** The namespaces a tenant's logs are read from are, in order and without
    repetition, exactly those that match one of its selectors. *)
Theorem log_sources_exact `{Platform} {W} `{!Client W} sel_of ns_of tenant (w : W) :
  (∀ ls, ls ∈ TenantSpec_LogSourceNamespaceSelectors (Tenant_Spec tenant) →
     LabelSelectorAsSelector ls = Ok (sel_of ls)) →
  (∀ sel, List_Namespaces sel w = (w, Ok (ns_of sel))) →
  ∃ names t', handleLogSourceNamespaces tenant w = (w, (t', None)) ∧
    TenantStatus_LogSourceNamespaces (Tenant_Status t') = Some names ∧
    StronglySorted String.le names ∧ NoDup names ∧
    (∀ ns, ns ∈ names ↔ ∃ ls, ls ∈ TenantSpec_LogSourceNamespaceSelectors (Tenant_Spec tenant) ∧ ns ∈ ns_of (sel_of ls)).
Proof.
  intros Hsel Hns. unfold handleLogSourceNamespaces, GetLogsourceNamespaceNamesForTenant, bind.
  rewrite (namespaces_selected sel_of ns_of w Hns _ Hsel). eexists _, _. split; [reflexivity|]. cbn.
  set (all := _ ≫= _). destruct (NormalizeStringSlice_spec all) as (Hnd & _ & Hin).
  split; [done|]. split_and!.
  - apply sort_strings_sorted.
  - rewrite sort_strings_perm. exact Hnd.
  - intros ns. rewrite sort_strings_perm. etrans; [apply Hin|]. unfold all. rewrite list_elem_of_bind. naive_solver.
Qed.

(** A tenant is connected to exactly the bridges that start or end at it;
    a bridge that does both is listed twice. *)
Theorem bridges_of_tenant `{Platform} {W} `{!Client W} name bridges (w : W) :
  name ≠ "" →
  List_Bridges_by_source name w = (w, Ok (filter (λ b, indexed bridge_source name (ObjBridge b)) bridges)) →
  List_Bridges_by_target name w = (w, Ok (filter (λ b, indexed bridge_target name (ObjBridge b)) bridges)) →
  ∃ l, GetBridgesForTenant name w = (w, Ok l) ∧
    (∀ b, b ∈ l ↔ b ∈ bridges ∧ touches name b = true) ∧
    (∀ b, b ∈ bridges → BridgeSpec_SourceTenant (Bridge_Spec b) = name →
       BridgeSpec_TargetTenant (Bridge_Spec b) = name → ¬ NoDup l).
Proof.
  intros Hname Hs Ht. unfold GetBridgesForTenant, getBridges, try, list_or_empty, bind. rewrite Hs. cbn. rewrite Ht. cbn.
  eexists. split; [reflexivity|]. split.
  - intros b. rewrite list_elem_of_filter, elem_of_app, !list_elem_of_filter, indexed_source, indexed_target.
    unfold touches. rewrite orb_true_iff, !bool_decide_eq_true. tauto.
  - intros b Hb Es Et. rewrite filter_app. intros (_ & Hd & _)%NoDup_app.
    assert (touches name b = true) as Htouch by (unfold touches; by rewrite Es, bool_decide_true).
    apply (Hd b); rewrite !list_elem_of_filter, ?indexed_source, ?indexed_target; done.
Qed.

(** A bridge is valid for one of its tenants exactly when the tenant at its
    other end exists. *)
Theorem bridge_validation_exact `{Platform} {W} `{!Client W} name bridge tenants (w : W) :
  (∀ n, List_Tenants_by_name n w = (w, Ok (filter (λ t, indexed tenant_name n (ObjTenant t)) tenants))) →
  (∃ r, ValidateBridgeConnection name bridge w = (w, r) ∧
    (r = Ok tt ↔ ∀ ref, ref ∈ [BridgeSpec_SourceTenant (Bridge_Spec bridge); BridgeSpec_TargetTenant (Bridge_Spec bridge)] →
       ref ≠ name → ∃ t, t ∈ tenants ∧ Tenant_Name t = ref)).
Proof.
  intros Hl. unfold ValidateBridgeConnection. generalize [BridgeSpec_SourceTenant (Bridge_Spec bridge); BridgeSpec_TargetTenant (Bridge_Spec bridge)].
  intros refs. induction refs as [|ref refs (r & Er & IH)]; [eexists; split; [reflexivity|]; set_solver|].
  cbn [loop]. unfold try at 1, bind at 1. unfold check_tenant_reference at 1.
  destruct (decide (ref = name)) as [->|Hne].
  - rewrite bool_decide_true by done. cbn. rewrite Er. eexists. split; [reflexivity|]. rewrite IH. set_solver.
  - rewrite bool_decide_false by done. cbn [negb]. unfold wrapM, getTenants, list_or_empty, try, bind. rewrite Hl. cbn.
    destruct (filter (λ t, indexed tenant_name ref (ObjTenant t)) tenants) as [|t ts] eqn:Ef; cbn.
    + eexists. split; [reflexivity|]. split; [done|]. intros Hall.
      destruct (Hall ref (list_elem_of_here _ _) Hne) as (t & Ht & En).
      assert (t ∈ filter (λ t, indexed tenant_name ref (ObjTenant t)) tenants) as Hin
        by (by apply list_elem_of_filter; rewrite indexed_name).
      rewrite Ef in Hin. by apply not_elem_of_nil in Hin.
    + rewrite Er. eexists. split; [reflexivity|]. rewrite IH.
      assert (t ∈ filter (λ t, indexed tenant_name ref (ObjTenant t)) tenants) as [En%indexed_name Ht]%list_elem_of_filter
        by (rewrite Ef; apply list_elem_of_here).
      split; [|intros Hall ref' Hin; by apply Hall, list_elem_of_further].
      intros Hall ref' [-> |Hin]%elem_of_cons Hne'; [eauto|by apply Hall].
Qed.

#[local] Existing Instance sample_platform.

Lemma resources_split_by_owner_witness :
  let r := foreach (classify "red") sample_resources ([], []) (sample_cluster sample_resources false) in
  r.2.1 = filter (λ r, GetTenant r = "red" ∧ GetTenant r ≠ "") sample_resources ∧
  r.2.2 = filter (λ r, GetTenant r = "") sample_resources.
Proof.
  intros r. apply (resources_split_by_owner "red" sample_resources (sample_cluster sample_resources false) r.1).
  unfold r. by destruct (foreach _ _ _ _) as [? [? ?]].
Defined.

(** A server that refuses to adopt what is called [stale] *)
Definition picky : Resource → option error :=
  λ r, if bool_decide (GetName r = "stale") then Some (ErrApi Conflict "stale") else None.

Definition picky_client : Client cluster := {|
  Get_Tenant := Get_Tenant; Get_Collector := Get_Collector; Get_Bridge := Get_Bridge;
  Get_Subscription := Get_Subscription; Get_Output := Get_Output; Get_Secret := Get_Secret;
  List_all_Tenants := List_all_Tenants; List_all_Collectors := List_all_Collectors; List_Namespaces := List_Namespaces; List_Tenants := List_Tenants; List_Tenants_by_name := List_Tenants_by_name;
  List_Bridges_by_source := List_Bridges_by_source; List_Bridges_by_target := List_Bridges_by_target;
  List_Resources_by_tenant := List_Resources_by_tenant; List_Resources_in := List_Resources_in;
  Update_Tenant_status := Update_Tenant_status; Update_Collector_status := Update_Collector_status;
  Update_Bridge_status := Update_Bridge_status; Update_Resource_status r := λ w, (w, picky r)
|}.

Definition stale : Resource := ResOutput (sample_output "team" "stale" "" None).

Lemma adoption_keeps_accepted_witness :
  (UpdateResourcesForTenant (Client0 := picky_client) "red" (stale :: sample_resources)
     (sample_cluster sample_resources false)).2 =
  filter (λ r, picky r = None) (SetTenant "red" <$> (stale :: sample_resources)).
Proof.
  eapply (adoption_keeps_accepted (Client0 := picky_client) "red" (stale :: sample_resources) picky).
  - by intros r w.
  - apply surjective_pairing.
Defined.

Definition sample_cache : output_cache :=
  {[ out_ref := sample_output "team" "sink" "red" (Some sample_auth);
     mkNamespacedName "team" "other" := sample_output "team" "other" "blue" None ]}.

Definition sample_judgement :=
  ValidateSubscriptionReferencedOutputsWithCache
    (sample_subscription "team" "errors" "red" "true" [mkNamespacedName "team" "other"; out_ref; sub_ref])
    sample_cache (sample_cluster sample_resources false).

Lemma validation_splits_references_witness :
  sample_judgement.2.1.2 = Some [out_ref] ∧ sample_judgement.2.2 = ["team/other"; "team/errors"] ∧
  length (elems sample_judgement.2.1.2) + length sample_judgement.2.2 = 3 ∧ decoded sample_judgement.2.1.2.
Proof.
  split; [vm_compute; reflexivity|]. split; [vm_compute; reflexivity|].
  assert (sample_judgement = (sample_judgement.1, (sample_judgement.2.1.1, sample_judgement.2.1.2, sample_judgement.2.2)))
    as E by (by destruct sample_judgement as [? [[? ?] ?]]).
  destruct (validation_splits_references _ _ _ _ _ _ _ E) as (Hl & _ & Hd & _).
  split; [exact Hl|exact Hd].
Defined.

(** A cluster whose tenant owns an output that has failed before *)
Definition failed_output : Resource :=
  SetState StateFailed (ResOutput (sample_output "team" "sink" "red" (Some sample_auth))).
Definition failed_cluster : cluster := sample_cluster [failed_output] false.

Lemma failed_output_blocks_witness :
  ∃ name, handleOwnedResources (fresh_tenant "red") failed_cluster =
    (failed_cluster, (fresh_tenant "red", Some (ErrText ("resource " +:+ name +:+ " is in a failed state")))).
Proof.
  apply (failed_output_blocks (fresh_tenant "red") failed_cluster failed_cluster [failed_output]).
  - vm_compute; reflexivity.
  - exists failed_output. split; [apply list_elem_of_here|reflexivity].
Defined.


Lemma log_sources_exact_witness :
  ∃ names t', handleLogSourceNamespaces (fresh_tenant "red") (sample_cluster [] false) = (sample_cluster [] false, (t', None)) ∧
    TenantStatus_LogSourceNamespaces (Tenant_Status t') = Some names ∧
    (∀ ns, ns ∈ names ↔ ∃ ls, ls ∈ ["logs"] ∧ ns ∈ filter (λ n, sample_matches ls n = true) ["team"; "apps"; "kube-system"]).
Proof.
  destruct (@log_sources_exact sample_platform cluster sample_client (λ ls : string, ls) (λ s : string, filter (λ n, sample_matches s n = true) ["team"; "apps"; "kube-system"])
    (fresh_tenant "red") (sample_cluster [] false)) as (names & t' & E & En & _ & _ & Hin).
  - by intros ls ->%list_elem_of_singleton.
  - reflexivity.
  - exists names, t'. split; [exact E|]. split; [exact En|exact Hin].
Defined.

Definition loop_bridge : Bridge :=
  mkBridge "loop" (mkBridgeSpec "red" "red" "true") (mkBridgeStatus StateReady None 0).
Definition dangling_bridge : Bridge :=
  mkBridge "dangling" (mkBridgeSpec "red" "green" "true") (mkBridgeStatus StateReady None 0).
Definition bridge_cluster : cluster :=
  mkCluster [] [fresh_tenant "red"] [loop_bridge; dangling_bridge] [] [] [] false.

Lemma bridges_of_tenant_witness :
  ∃ l, GetBridgesForTenant "red" bridge_cluster = (bridge_cluster, Ok l) ∧ ¬ NoDup l.
Proof.
  destruct (bridges_of_tenant "red" [loop_bridge; dangling_bridge] bridge_cluster) as (l & E & _ & Hd).
  - done.
  - reflexivity.
  - reflexivity.
  - exists l. split; [exact E|]. apply (Hd loop_bridge); [apply list_elem_of_here|reflexivity|reflexivity].
Defined.

Lemma bridge_validation_exact_witness :
  ∃ r, ValidateBridgeConnection "red" dangling_bridge bridge_cluster = (bridge_cluster, r) ∧
    (r = Ok tt ↔ ∀ ref, ref ∈ ["red"; "green"] → ref ≠ "red" → ∃ t, t ∈ [fresh_tenant "red"] ∧ Tenant_Name t = ref).
Proof. apply (bridge_validation_exact "red" dangling_bridge [fresh_tenant "red"] bridge_cluster). reflexivity. Defined.
