(* ===== verification/CollectorManager.v ===== *)
(** [pkg/resources/manager/collector_manager.go]: the input of the configuration
    generator read from the cluster, its validation, and the objects a
    collector is made of. *)
From S2P Require Import Prelude Strs Json Errors ApiOtlp ApiOutput ApiTypes Kube Utils Relations.
From S2P Require Import Exporters Processors Extensions Connectors ConfGen.
From Stdlib Require Import Ascii.

Definition otelCollectorKind : string := "OpenTelemetryCollector".
Definition axoflowOtelCollectorImageRepo : string := "ghcr.io/axoflow/axoflow-otel-collector".
Definition axoflowOtelCollectorImageRef : string :=
  axoflowOtelCollectorImageRepo +:+ "/axoflow-otel-collector:0.156.0-axoflow.5".

Definition isAxoflowDistribution (image : string) : bool :=
  bool_decide (image = "")
  || HasPrefix image (axoflowOtelCollectorImageRepo +:+ "/")
  || HasPrefix image (axoflowOtelCollectorImageRepo +:+ ":").

Definition authSecretName (collectorName : string) : string := "otelcollector-" +:+ collectorName +:+ "-auth".

(** * The input of the generator *)
Section Build.
Context `{Platform} `{MapRange} {W : Type} `{!Client W}.
Open Scope world_scope.

(** The items of the list: nil when the server found nothing *)
Definition getTenantsMatchingSelectors (labelSelector : label_selector) : M W (result (golist Tenant)) :=
  match LabelSelectorAsSelector labelSelector with
  | Err e => ret (Err e)
  | Ok sel =>
      r <~ List_Tenants sel;
      ret match r with
          | Ok l => Ok (Some l)
          | Err e => if IsNotFound e then Ok None else Err e
          end
  end.

(** What the loop over the tenants has gathered *)
Record gathered := mkGathered {
  g_tenantSubscriptions : gmap string (golist NamespacedName);
  g_subscriptions : gmap NamespacedName Subscription;
  g_bridges : golist Bridge
}.

Definition gather_subscription (tenant : Tenant) (subsName : NamespacedName) (subscriptions : gmap NamespacedName Subscription)
    : M W (result (gmap NamespacedName Subscription)) :=
  queriedSubs <! wrapM ("failed getting subscriptions for tenant " +:+ Tenant_Name tenant) (Get_Subscription subsName);
  ret (Ok (<[subsName := queriedSubs]> subscriptions)).

Definition gather_bridge (tenant : Tenant) (bridgeName : string) (bridges : golist Bridge) : M W (result (golist Bridge)) :=
  queriedBridge <! wrapM ("failed getting bridges for tenant " +:+ Tenant_Name tenant) (Get_Bridge bridgeName);
  ret (Ok (append bridges [queriedBridge])).

Definition gather_tenant (tenant : Tenant) (g : gathered) : M W (result gathered) :=
  let status := Tenant_Status tenant in
  if bool_decide (TenantStatus_State status = StateFailed) then ret (Err (ErrSentinel ErrTenantFailed))
  else
    let subscriptionNames := TenantStatus_Subscriptions status in
    subscriptions <! loop (gather_subscription tenant) (elems subscriptionNames) (g_subscriptions g);
    bridges <! loop (gather_bridge tenant) (elems (TenantStatus_ConnectedBridges status)) (g_bridges g);
    ret (Ok (mkGathered (<[Tenant_Name tenant := subscriptionNames]> (g_tenantSubscriptions g)) subscriptions bridges)).

Definition gather_output (subscription : Subscription) (outputName : NamespacedName) (outputs : list OutputWithSecretData)
    : M W (result (list OutputWithSecretData)) :=
  queriedOutput <! wrapM ("failed getting outputs for subscription " +:+ NamespacedName_String (Subscription_NamespacedName subscription))
    (Get_Output outputName);
  match QueryOutputSecretWithData queriedOutput with
  | None => ret (Ok (outputs ++ [mkOutputWithSecretData queriedOutput Secret_zero]))
  | Some query =>
      outputSecret <! wrapM ("failed querying output secret for output " +:+ NamespacedName_String (Output_NamespacedName queriedOutput))
        query;
      ret (Ok (outputs ++ [mkOutputWithSecretData queriedOutput outputSecret]))
  end.

Definition gather_subscription_outputs (subscription : Subscription)
    (acc : gmap NamespacedName (golist NamespacedName) * list OutputWithSecretData)
    : M W (result (gmap NamespacedName (golist NamespacedName) * list OutputWithSecretData)) :=
  let '(subscriptionOutputMap, outputs) := acc in
  let outputNames := SubscriptionStatus_Outputs (Subscription_Status subscription) in
  outputs <! loop (gather_output subscription) (elems outputNames) outputs;
  ret (Ok (<[Subscription_NamespacedName subscription := outputNames]> subscriptionOutputMap, outputs)).

Definition site_build_subscriptions : nat := 9.

Definition gather_relations (collector : Collector) : M W (result ResourceRelations) :=
  tenants <! wrapM "failed listing tenants"
    (getTenantsMatchingSelectors (CollectorSpec_TenantSelector (Collector_Spec collector)));
  g <! loop gather_tenant (elems tenants) (mkGathered ∅ ∅ None);
  outs <! loop gather_subscription_outputs
    ((range_map site_build_subscriptions (g_subscriptions g)).*2) (∅, []);
  ret (Ok (mkRelations tenants (Some (g_subscriptions g)) (g_bridges g) (Some outs.2)
             (Some (g_tenantSubscriptions g)) (Some outs.1))).

(** [None] is the panic on a collector without a memory limiter; [SetDefaults]
    gives every collector one. *)
Definition BuildConfigInputForCollector (collector : Collector) : M W (option (result OtelColConfigInput)) :=
  r <~ gather_relations collector;
  let spec := Collector_Spec collector in
  let collectorImage := match CollectorSpec_OtelCommonFields spec with
    | Some f => Common_Image f
    | None => ""
    end in
  ret match r with
      | Err e => Some (Err e)
      | Ok relations =>
          limiter ← CollectorSpec_MemoryLimiter spec;
          Some (Ok (mkInput relations limiter (CollectorSpec_EventsToLogs spec)
            (DerefOrZero (CollectorSpec_Debug spec)) (DerefOrZero (CollectorSpec_DryRunMode spec))
            (isAxoflowDistribution collectorImage)))
      end.
End Build.

(** * Validation of the input *)
Section Validate.
Context `{Platform} `{MapRange}.

Definition tenant_errors (tenant : Tenant) : list error :=
  if negb (is_nil (TenantStatus_LogSourceNamespaces (Tenant_Status tenant)))
     && TenantSpec_SelectFromAllNamespaces (Tenant_Spec tenant)
  then [ErrText ("tenant " +:+ Tenant_Name tenant
          +:+ " has both log source namespace selectors and select from all namespaces enabled")]
  else [].

Definition validateTenants (tenants : golist Tenant) : option error :=
  if (length (elems tenants) =? 0)%nat
  then Some (ErrText "no tenants provided, at least one tenant must be provided")
  else MultiError (elems tenants ≫= tenant_errors).

Definition subscription_errors (subscription : Subscription) : list error :=
  if (length (elems (SubscriptionSpec_Outputs (Subscription_Spec subscription))) =? 0)%nat
  then [ErrText ("subscription " +:+ Subscription_Name subscription +:+ " has no outputs")] else [].

Definition bridge_errors (tenantNames : list string) (bridge : Bridge) : list error :=
  let spec := Bridge_Spec bridge in
  (if bool_decide (BridgeSpec_SourceTenant spec ∈ tenantNames) then [] else
     [ErrText ("bridge: " +:+ Bridge_Name bridge +:+ " has a source tenant: "
        +:+ BridgeSpec_SourceTenant spec +:+ " that does not exist")])
  ++ (if bool_decide (BridgeSpec_TargetTenant spec ∈ tenantNames) then [] else
     [ErrText ("bridge: " +:+ Bridge_Name bridge +:+ " has a target tenant: "
        +:+ BridgeSpec_TargetTenant spec +:+ " that does not exist")]).

Definition site_validate_subscriptions : nat := 10.

Definition validateSubscriptionsAndBridges (tenants : golist Tenant)
    (subscriptions : gomap NamespacedName Subscription) (bridges : golist Bridge) : option error :=
  let hasSubs := (0 <? size (melems subscriptions))%nat in
  let hasBridges := (0 <? length (elems bridges))%nat in
  if negb hasSubs && negb hasBridges
  then Some (ErrText "no subscriptions or bridges provided, at least one subscription or bridge must be provided")
  else MultiError
    ((if hasSubs then (range_map site_validate_subscriptions (melems subscriptions)).*2 ≫= subscription_errors else [])
     ++ (if hasBridges then elems bridges ≫= bridge_errors (Tenant_Name <$> elems tenants) else [])).

(** [multierror.Append] takes the errors out of a multierror it is given. *)
Definition flatten (e : error) : list error := match e with ErrMulti es => es | _ => [e] end.

Definition ValidateConfigInput (cfgInput : OtelColConfigInput) : option error :=
  if IsEmpty (Some cfgInput) then Some (ErrSentinel ErrNoResources)
  else
    let r := Input_Relations cfgInput in
    MultiError (omap id
      [ validateTenants (Tenants r); validateSubscriptionsAndBridges (Tenants r) (Subscriptions r) (Bridges r) ] ≫= flatten).
End Validate.

(** * The collector's pod template *)
Definition volumeExists (volumes : golist Volume) (name : string) : bool :=
  existsb (λ v, bool_decide (Volume_Name v = name)) (elems volumes).

Definition sanitizePathForVolumeName (path : string) : string :=
  ToLower (ReplaceAll "/"%char "-"%char (TrimSlashes path)).

Definition HostPathDirectoryOrCreate : string := "DirectoryOrCreate".

(** [f.Volumes = ...; f.VolumeMounts = ...] *)
Definition add_volume (v : Volume) (m : VolumeMount) (f : OpenTelemetryCommonFields) : OpenTelemetryCommonFields :=
  mkCommonFields (Common_Image f) (Common_ServiceAccount f) (Common_Args f)
    (append (Common_Volumes f) [v]) (append (Common_VolumeMounts f) [m])
    (Common_InitContainers f) (Common_Env f) (Common_Resources f).

Definition add_env (e : list EnvVar) (f : OpenTelemetryCommonFields) : OpenTelemetryCommonFields :=
  mkCommonFields (Common_Image f) (Common_ServiceAccount f) (Common_Args f)
    (Common_Volumes f) (Common_VolumeMounts f) (Common_InitContainers f)
    (append (Common_Env f) e) (Common_Resources f).

Definition add_init_container (c : Container) (f : OpenTelemetryCommonFields) : OpenTelemetryCommonFields :=
  mkCommonFields (Common_Image f) (Common_ServiceAccount f) (Common_Args f)
    (Common_Volumes f) (Common_VolumeMounts f) (append (Common_InitContainers f) [c])
    (Common_Env f) (Common_Resources f).

Definition writable_volume (name path : string) : Volume :=
  mkVolume name (Some (mkHostPath path (Some HostPathDirectoryOrCreate))).
Definition writable_mount (name path : string) : VolumeMount := mkVolumeMount name false path.
Definition chmod_command (path : string) : string := "chmod -R 777 " +:+ path.

(** The pod template and what the init container needs *)
Record volumes_state := mkVolumes {
  vs_fields : OpenTelemetryCommonFields;
  vs_mounts : golist VolumeMount;
  vs_commands : list string
}.

Definition mount_writable (name path : string) (s : volumes_state) : volumes_state :=
  mkVolumes (add_volume (writable_volume name path) (writable_mount name path) (vs_fields s))
    (append (vs_mounts s) [writable_mount name path]) (vs_commands s ++ [chmod_command path]).

Section Pod.
Context `{Platform}.

Definition buffer_volume (tenant : string) : string := "buffervolume-" +:+ tenant.

Definition tenant_volume (s : volumes_state) (tenant : Tenant) : volumes_state :=
  let p := TenantSpec_PersistenceConfig (Tenant_Spec tenant) in
  if negb (PersistenceConfig_EnableFileStorage p) then s
  else if volumeExists (Common_Volumes (vs_fields s)) (buffer_volume (Tenant_Name tenant)) then s
  else mount_writable (buffer_volume (Tenant_Name tenant))
         (DetermineFileStorageDirectory (PersistenceConfig_Directory p) (Tenant_Name tenant)) s.

Definition appendAdditionalVolumesForTenantsFileStorage (f : OpenTelemetryCommonFields) (tenants : list Tenant) : volumes_state :=
  foldl tenant_volume (mkVolumes f None []) tenants.

Definition file_volume (path : string) : string := "file-exporter-" +:+ sanitizePathForVolumeName path.

(** The loop also carries the mount paths it has processed. *)
Definition output_volume (acc : volumes_state * list string) (output : OutputWithSecretData) : volumes_state * list string :=
  let '(s, processedMountPaths) := acc in
  match OutputSpec_File (Output_Spec (OWS_Output output)) with
  | None => acc
  | Some file =>
      let mountPath := Dir (File_Path file) in
      if bool_decide (mountPath ∈ processedMountPaths) then acc
      else if volumeExists (Common_Volumes (vs_fields s)) (file_volume mountPath)
      then (s, mountPath :: processedMountPaths)
      else (mount_writable (file_volume mountPath) mountPath s, mountPath :: processedMountPaths)
  end.

Definition appendFileExporterVolume (f : OpenTelemetryCommonFields) (outputs : list OutputWithSecretData) : volumes_state :=
  (foldl output_volume (mkVolumes f None [], []) outputs).1.

Definition handleVolumes (f : OpenTelemetryCommonFields) (tenants : list Tenant) (outputs : list OutputWithSecretData)
    : OpenTelemetryCommonFields :=
  let s := appendAdditionalVolumesForTenantsFileStorage f tenants in
  let s2 := appendFileExporterVolume (vs_fields s) outputs in
  let mounts := append (vs_mounts s) (elems (vs_mounts s2)) in
  let chmodCommands := vs_commands s ++ vs_commands s2 in
  if (0 <? length chmodCommands)%nat
  then add_init_container
    (mkContainer "init-chmod" "busybox" ["sh"; "-c"] [Join chmodCommands " && "] mounts) (vs_fields s2)
  else vs_fields s2.

(** [setOtelCommonFieldsDefaults]; the pointer is never nil where it is called. *)
Definition default_volume (f : OpenTelemetryCommonFields) (config : string * string) : OpenTelemetryCommonFields :=
  let '(name, path) := config in
  if negb (volumeExists (Common_Volumes f) name)
  then add_volume (mkVolume name (Some (mkHostPath path None))) (mkVolumeMount name true path) f
  else f.

Definition volumeConfigs : list (string * string) :=
  [ ("varlog", "/var/log"); ("varlibdockercontainers", "/var/lib/docker/containers") ].

Definition setOtelCommonFieldsDefaults (f : OpenTelemetryCommonFields) (additionalArgs : gmap string string)
    (saName : string) : OpenTelemetryCommonFields :=
  let f := mkCommonFields
    (if bool_decide (Common_Image f = "") then axoflowOtelCollectorImageRef else Common_Image f) saName
    (Some (maps_copy (melems (Common_Args f)) additionalArgs))
    (Common_Volumes f) (Common_VolumeMounts f) (Common_InitContainers f) (Common_Env f) (Common_Resources f) in
  foldl default_volume f volumeConfigs.

(** * The memory limit of the Go runtime

    [int64(math.Round(float64(v) * 0.8))]: the float64 nearest to 0.8 is
    3602879701896397 / 2^52, the product is rounded to 53 significant bits, and
    [math.Round] rounds halves away from zero. *)
Definition goMemLimitNumerator : Z := 3602879701896397.

Definition goMemLimitValue (v : Z) : Z :=
  let p := float64_of_int (float64_of_int v * goMemLimitNumerator) in
  (Z.sgn p * ((2 * Z.abs p + 2 ^ 52) / 2 ^ 53))%Z.

(** * Credentials in the environment *)
Definition auth_env (secretName : string) (output : OutputWithSecretData) : list EnvVar :=
  let n := Output_NamespacedName (OWS_Output output) in
  match OutputSpec_Authentication (Output_Spec (OWS_Output output)) with
  | None => []
  | Some a =>
      (if negb (is_nil (OutputAuth_BasicAuth a)) then
         let '(userVar, passVar) := BasicAuthEnvVarNames n in
         let '(userKey, passKey) := BasicAuthSecretKeys n in
         [ mkEnvVar userVar "" (Some (SecretKeyRef secretName userKey));
           mkEnvVar passVar "" (Some (SecretKeyRef secretName passKey)) ]
       else [])
      ++ (if negb (is_nil (OutputAuth_BearerAuth a)) then
            [ mkEnvVar (BearerAuthEnvVarName n) "" (Some (SecretKeyRef secretName (BearerAuthSecretKey n))) ]
          else [])
  end.

(** [AuthSecret]: the secret whose keys the environment refers to *)
Definition auth_secret_data (data : gmap string string) (output : OutputWithSecretData) : gmap string string :=
  match OutputSpec_Authentication (Output_Spec (OWS_Output output)) with
  | None => data
  | Some a =>
      let data := match OutputAuth_BasicAuth a with
        | Some b => maps_copy data (BasicAuthSecretData output b)
        | None => data
        end in
      match OutputAuth_BearerAuth a with
      | Some b => maps_copy data (BearerAuthSecretData output b)
      | None => data
      end
  end.

Definition AuthSecret (collector : Collector) (outputs : list OutputWithSecretData) : Secret :=
  mkSecret (CollectorSpec_ControlNamespace (Collector_Spec collector)) (authSecretName (Collector_Name collector))
    (Some (foldl auth_secret_data ∅ outputs)).

(** * The collector object *)
Record OpenTelemetryCollector := mkOtelCollector {
  Otel_Kind : string;
  Otel_Name : string;
  Otel_Namespace : string;
  Otel_UpgradeStrategy : string;
  Otel_Config : Config;
  Otel_Mode : string;
  Otel_CommonFields : OpenTelemetryCommonFields
}.

Definition node_name_env : EnvVar := mkEnvVar NodeNameEnvVar "" (Some (FieldRef "spec.nodeName")).

(** [None] is the panic on a collector without common fields; [SetDefaults]
    gives every collector some. The hook that keeps the finalizers of the
    current object belongs to the reconciler. *)
Definition OtelCollector (collector : Collector) (otelConfig : Config) (additionalArgs : gmap string string)
    (tenants : list Tenant) (outputs : list OutputWithSecretData) (saName : string) : option OpenTelemetryCollector :=
  let spec := Collector_Spec collector in
  f ← CollectorSpec_OtelCommonFields spec;
  let f := if negb (DerefOrZero (CollectorSpec_DryRunMode spec))
    then add_env [node_name_env] (handleVolumes f tenants outputs) else f in
  let f := setOtelCommonFieldsDefaults f additionalArgs saName in
  memoryLimit ← CollectorSpec_GetMemoryLimit spec;
  let f := match memoryLimit with
    | Some v => add_env [mkEnvVar "GOMEMLIMIT" (quantity_text (goMemLimitValue v)) None] f
    | None => f
    end in
  let f := foldl (λ f o, add_env (auth_env (authSecretName (Collector_Name collector)) o) f) f outputs in
  Some (mkOtelCollector otelCollectorKind ("otelcollector-" +:+ Collector_Name collector)
    (CollectorSpec_ControlNamespace spec) "none" otelConfig "daemonset" f).

(** * RBAC *)
Record PolicyRule := mkPolicyRule {
  Rule_Verbs : list string; Rule_APIGroups : list string; Rule_Resources : list string }.
Record ServiceAccount := mkServiceAccount { SA_Name : string; SA_Namespace : string }.
Record ClusterRole := mkClusterRole { CR_Name : string; CR_Rules : list PolicyRule }.
Record ClusterRoleBinding := mkClusterRoleBinding {
  CRB_Name : string; CRB_SubjectName : string; CRB_SubjectNamespace : string; CRB_RoleName : string }.

(** The objects the controller owns *)
Inductive owned_object :=
| OwnedServiceAccount (o : ServiceAccount)
| OwnedClusterRole (o : ClusterRole)
| OwnedClusterRoleBinding (o : ClusterRoleBinding)
| OwnedSecret (o : Secret)
| OwnedCollector (o : OpenTelemetryCollector).

(** [ctrl.SetControllerReference] and the resource reconciler of the operator
    tools, neither of them in the repository *)
Class ResourceReconciler (W : Type) : Type := {
  SetControllerReference : Collector → owned_object → option error;
  ReconcileResource : owned_object → M W (option error)
}.

Definition service_account (collector : Collector) : ServiceAccount :=
  mkServiceAccount (Collector_Name collector +:+ "-sa") (CollectorSpec_ControlNamespace (Collector_Spec collector)).

Definition role_name (collector : Collector) : string := Collector_Name collector +:+ "-pod-association-reader".

Definition cluster_role_binding (collector : Collector) : ClusterRoleBinding :=
  mkClusterRoleBinding (Collector_Name collector +:+ "-crb") (Collector_Name collector +:+ "-sa")
    (CollectorSpec_ControlNamespace (Collector_Spec collector)) (role_name collector).

Definition cluster_role (collector : Collector) : ClusterRole :=
  mkClusterRole (role_name collector)
    [ mkPolicyRule ["get"; "watch"; "list"] [""] ["pods"; "namespaces"; "nodes"; "events"];
      mkPolicyRule ["get"; "watch"; "list"] ["apps"] ["replicasets"] ].
End Pod.

Section RBAC.
Context `{Platform} {W : Type} `{!ResourceReconciler W}.
Open Scope world_scope.

Definition reconcileServiceAccount (collector : Collector) : M W (result NamespacedName) :=
  let sa := service_account collector in
  match SetControllerReference collector (OwnedServiceAccount sa) with
  | Some e => ret (Err e)
  | None =>
      err <~ ReconcileResource (OwnedServiceAccount sa);
      ret match err with
          | Some e => Err e
          | None => Ok (mkNamespacedName (SA_Namespace sa) (SA_Name sa))
          end
  end.

(** [errors.Wrapf] of a nil error is nil. *)
Definition wrap_err (msg : string) (e : option error) : option error := ErrWrap msg <$> e.

Definition reconcileClusterRoleBinding (collector : Collector) : M W (option error) :=
  let o := OwnedClusterRoleBinding (cluster_role_binding collector) in
  match SetControllerReference collector o with
  | Some e => ret (Some (ErrWrap ("failed to set controller reference for cluster role binding for collector "
                            +:+ Collector_Name collector) e))
  | None => err <~ ReconcileResource o;
      ret (wrap_err ("failed to reconcile cluster role binding for collector " +:+ Collector_Name collector) err)
  end.

Definition reconcileClusterRole (collector : Collector) : M W (option error) :=
  let o := OwnedClusterRole (cluster_role collector) in
  match SetControllerReference collector o with
  | Some e => ret (Some (ErrWrap ("failed to set controller reference for cluster role for collector "
                            +:+ Collector_Name collector) e))
  | None => err <~ ReconcileResource o;
      ret (wrap_err ("failed to reconcile cluster role for collector " +:+ Collector_Name collector) err)
  end.

(** All three are attempted; their errors are combined. *)
Definition ReconcileRBAC (collector : Collector) : M W (result NamespacedName) :=
  errCR <~ reconcileClusterRole collector;
  sa <~ reconcileServiceAccount collector;
  errCRB <~ reconcileClusterRoleBinding collector;
  ret match sa, Combine [errCR; match sa with Err e => Some e | Ok _ => None end; errCRB] with
      | Ok n, None => Ok n
      | _, Some e => Err e
      | Err e, None => Err e
      end.
End RBAC.
