(* ===== verification/Validator.v ===== *)
(** [pkg/resources/otel_conf_gen/validator]: the assembled configuration is
    decoded into the collector's own types and validated by it. The decoding
    hooks are the repository's; [mapstructure], the component types and the
    validation are not. *)
From S2P Require Import Prelude Strs Json Errors ApiOtlp ApiOutput ApiTypes Kube Relations.
From S2P Require Import Exporters Processors Extensions Connectors ConfGen.
From Stdlib Require Import Ascii.

(** What the collector's packages are asked for *)
Class Otel : Type := {
  (** [component.NewType] accepts the text; [MustNewType] panics otherwise *)
  is_type : string → bool;
  (** [pipeline.Signal.UnmarshalText] accepts the text *)
  is_signal : string → bool;
  (** [zapcore.ParseLevel] and [configtelemetry.Level.UnmarshalText] *)
  parse_level : string → option Z;
  parse_zap_level : string → option Z
}.

(** A call returns a value or an error, or panics. *)
Inductive outcome (A : Type) :=
| Returns (a : A)
| Fails (e : error)
| Panics.
Arguments Returns {A} a.
Arguments Fails {A} e.
Arguments Panics {A}.

#[export] Instance outcome_ret : MRet outcome := @Returns.
#[export] Instance outcome_bind : MBind outcome := λ A B f m,
  match m with Returns a => f a | Fails e => Fails e | Panics => Panics end.

(** [errors.Wrap] of the error of a call *)
Definition wrapping {A} (msg : string) (m : outcome A) : outcome A :=
  match m with Fails e => Fails (ErrWrap msg e) | _ => m end.

(** A call that only returns an error *)
Definition failing (e : option error) : outcome unit := match e with Some e => Fails e | None => Returns tt end.

(** The types a text can be decoded to, and the values the hooks return *)
Inductive target := ToComponentID | ToPipelineID | ToTelemetryLevel | ToZapLevel | ToOther.

(** [component.ID] and [pipeline.ID]: the type or signal, and the name *)
Abbreviation component_ID := (string * string)%type.
Abbreviation pipeline_ID := (string * string)%type.

Inductive hooked :=
| AsComponent (type name : string)
| AsPipeline (signal name : string)
| AsLevel (level : Z)
| Untouched (data : string).

Section Hooks.
Context `{Otel}.

Definition exceptionComponents : list string :=
  [ "debug"; "deltatocumulative"; "memory_limiter"; "k8s_attributes"; "health_check" ].

Definition MustNewIDWithName (type name : string) : outcome hooked :=
  if is_type type then Returns (AsComponent type name) else Panics.

(** [decodeID] on a text *)
Definition decodeID (to : target) (data : string) : outcome hooked :=
  match to, SplitN2 "/"%char data with
  | ToComponentID, [part] =>
      if bool_decide (part ∈ exceptionComponents) then MustNewIDWithName part ""
      else Fails (ErrText ("invalid component ID format: " +:+ data))
  | ToComponentID, part0 :: part1 :: _ => MustNewIDWithName part0 part1
  | ToPipelineID, [_] => Fails (ErrText ("invalid pipeline ID format: " +:+ data))
  | ToPipelineID, part0 :: part1 :: _ =>
      if is_signal part0 then Returns (AsPipeline part0 part1)
      else Fails (ErrText ("invalid pipeline signal: " +:+ part0))
  | _, _ => Returns (Untouched data)
  end.

(** [decodeLevel] on a text *)
Definition decodeLevel (to : target) (data : string) : outcome hooked :=
  match to with
  | ToTelemetryLevel =>
      match parse_level data with Some l => Returns (AsLevel l) | None => Fails (ErrText ("invalid telemetry level: " +:+ data)) end
  | ToZapLevel =>
      match parse_zap_level data with Some l => Returns (AsLevel l) | None => Fails (ErrText ("invalid zapcore level: " +:+ data)) end
  | _ => Returns (Untouched data)
  end.

(** One turn of the loop of [decodeExtensionsConfig] *)
Definition decode_extension (extName : string) : outcome component_ID :=
  match Split "/"%char extName with
  | [part0; part1] => if is_type part0 then Returns (part0, part1) else Panics
  | _ => if is_type extName then Returns (extName, "") else Panics
  end.

Fixpoint decodeExtensionsConfig (extensionsConfig : list string) : outcome (list component_ID) :=
  match extensionsConfig with
  | [] => Returns []
  | extName :: rest =>
      id ← decode_extension extName;
      result ← decodeExtensionsConfig rest;
      Returns (id :: result)
  end.
End Hooks.

(** * Decoders *)

(** [DecodeHookFunc]: the hooks of the repository, and those of the library *)
Inductive hook :=
| DecodeID
| DecodeLevel
| StringToTimeDurationHookFunc
| StringToSliceHookFunc (sep : string).

(** [mapstructure.DecoderConfig], without the place for the result *)
Record decoder_config := mkDecoderConfig {
  DecodeHook : list hook;
  WeaklyTypedInput : bool
}.

Definition createDecoderConfig (hooks : list hook) : decoder_config := mkDecoderConfig hooks true.

(** [pipelines.PipelineConfig] *)
Record pipeline_Config := mkPipelineConfig {
  PipelineConfig_Receivers : list component_ID;
  PipelineConfig_Processors : list component_ID;
  PipelineConfig_Exporters : list component_ID
}.

Section Converted.
Context `{Platform}.

(** [service.Config] and [otelcol.Config]; a component's configuration is any
    value, so it stays what it was. *)
Record service_Config (telemetry : Type) := mkServiceConfig {
  ServiceConfig_Telemetry : telemetry;
  ServiceConfig_Extensions : list component_ID;
  ServiceConfig_Pipelines : gmap pipeline_ID pipeline_Config
}.

Record otelcol_Config (telemetry : Type) := mkOtelcolConfig {
  Otelcol_Receivers : gmap component_ID (gmap string any);
  Otelcol_Exporters : gmap component_ID exporter_config;
  Otelcol_Processors : gmap component_ID processor_config;
  Otelcol_Connectors : gmap component_ID connector_config;
  Otelcol_Extensions : gmap component_ID extension_config;
  Otelcol_Service : service_Config telemetry
}.
End Converted.

Arguments mkServiceConfig {telemetry}.
Arguments ServiceConfig_Telemetry {telemetry}.
Arguments ServiceConfig_Extensions {telemetry}.
Arguments ServiceConfig_Pipelines {telemetry}.
Arguments mkOtelcolConfig {_ telemetry}.
Arguments Otelcol_Receivers {_ telemetry}.
Arguments Otelcol_Exporters {_ telemetry}.
Arguments Otelcol_Processors {_ telemetry}.
Arguments Otelcol_Connectors {_ telemetry}.
Arguments Otelcol_Extensions {_ telemetry}.
Arguments Otelcol_Service {_ telemetry}.

(** [mapstructure], and the collector's own validation: [None] is success. *)
Class Mapstructure `{Platform} : Type := {
  telemetry_Config : Type;
  NewDecoder : decoder_config → option error;
  Decode_components {A} : decoder_config → gmap string A → outcome (gmap component_ID A);
  Decode_telemetry : decoder_config → gmap string any → outcome telemetry_Config;
  Decode_pipelines : decoder_config → gmap string Pipeline → outcome (gmap pipeline_ID pipeline_Config);
  otelcol_Validate : otelcol_Config telemetry_Config → option error
}.

Section Validate.
Context `{Platform} `{!Mapstructure} `{Otel}.

Definition decodeAnyConfig {A} (anyConfig : gmap string A) : outcome (gmap component_ID A) :=
  let config := createDecoderConfig [DecodeID; StringToTimeDurationHookFunc; StringToSliceHookFunc ","] in
  _ ← wrapping "failed to create decoder" (failing (NewDecoder config));
  wrapping "failed to decode AnyConfig" (Decode_components config anyConfig).

Definition decodeTelemetryConfig (anyConfig : gmap string any) : outcome telemetry_Config :=
  let config := createDecoderConfig [DecodeID; DecodeLevel; StringToTimeDurationHookFunc; StringToSliceHookFunc ","] in
  _ ← wrapping "failed to create telemetry decoder" (failing (NewDecoder config));
  wrapping "failed to decode telemetry config" (Decode_telemetry config anyConfig).

Definition decodePipelinesConfig (pipelinesConfig : gmap string Pipeline) : outcome (gmap pipeline_ID pipeline_Config) :=
  let config := createDecoderConfig [DecodeID; StringToSliceHookFunc ","; StringToTimeDurationHookFunc] in
  _ ← wrapping "failed to create decoder" (failing (NewDecoder config));
  wrapping "failed to decode pipelines" (Decode_pipelines config pipelinesConfig).

(** The assembled configuration always has a telemetry section, pipelines,
    processors, connectors and extensions. *)
Definition decodeServiceConfig (c : Config) : outcome (service_Config telemetry_Config) :=
  telemetry ← wrapping "failed to decode telemetry config" (decodeTelemetryConfig (Service_Telemetry c));
  extensions ← decodeExtensionsConfig (elems (Service_Extensions c));
  pipelines ← wrapping "failed to decode pipelines config" (decodePipelinesConfig (Service_Pipelines c));
  Returns (mkServiceConfig telemetry extensions pipelines).

(** The first part of [ValidateAssembledConfig]: the configuration in the types
    of the collector *)
Definition convert (otelConfig : Config) : outcome (otelcol_Config telemetry_Config) :=
  receivers ← wrapping "decoding receivers" (decodeAnyConfig (Config_Receivers otelConfig));
  exporters ← wrapping "decoding exporters" (decodeAnyConfig (Config_Exporters otelConfig));
  processors ← wrapping "decoding processors" (decodeAnyConfig (Config_Processors otelConfig));
  connectors ← wrapping "decoding connectors" (decodeAnyConfig (Config_Connectors otelConfig));
  extensions ← wrapping "decoding extensions" (decodeAnyConfig (Config_Extensions otelConfig));
  service ← wrapping "decoding service configuration" (decodeServiceConfig otelConfig);
  Returns (mkOtelcolConfig receivers exporters processors connectors extensions service).

(** [None] is a panic. *)
Definition ValidateAssembledConfig (otelConfig : Config) : option (option error) :=
  match
    cfg ← convert otelConfig;
    wrapping "invalid OpenTelemetry Collector configuration" (failing (otelcol_Validate cfg))
  with
  | Returns _ => Some None
  | Fails e => Some (Some e)
  | Panics => None
  end.
End Validate.
