(* ===== verification/CollectorController.v ===== *)
(** [controllers/telemetry/collector_controller.go]: the reconciliation of a
    collector. *)
From S2P Require Import Prelude Strs Json Errors ApiOtlp ApiOutput ApiTypes Kube Utils Relations.
From S2P Require Import Exporters Processors Extensions Connectors ConfGen CollectorManager Validator.

(** [time.Duration], in seconds *)
Definition requeueDelayOnFailedTenant : nat := 20.
Definition requeueDelayOnConflict : nat := 1.

(** [ctrl.Result] with the error: the seconds after which the request is put
    back in the queue, none by default *)
Record reconcile_result := mkReconcileResult {
  RequeueAfter : option nat;
  Result_error : option error
}.

(** A function that may panic ([None]) or return an error *)
Definition MP (W A : Type) : Type := M W (option (result A)).

Definition tryP {W A B} (m : M W (option (result A))) (f : A → MP W B) : MP W B :=
  bind m (λ r, match r with
               | None => ret None
               | Some (Err e) => ret (Some (Err e))
               | Some (Ok a) => f a
               end).

(** [if err != nil { return errors.Wrapf(err, msg) }] on the result of a call *)
Definition wrapP {W A} (msg : string) (m : M W (option (result A))) : MP W A :=
  bind m (λ r, ret (wrap msg <$> r)).

Definition lift {W A} (m : M W (result A)) : MP W A := bind m (λ r, ret (Some r)).
Definition pureP {W A} (r : option (result A)) : MP W A := ret r.
Definition of_error (e : option error) : result unit := match e with None => Ok tt | Some e => Err e end.

Notation "x <~! m ; f" := (tryP m (λ x, f))
  (at level 100, m at next level, right associativity) : world_scope.

Section CollectorController.
Context `{Platform} `{MapRange} `{!Mapstructure} `{Otel} {W : Type} `{!Client W} `{!ResourceReconciler W}.
Open Scope world_scope.

(** [ctrl.SetControllerReference] and then [ReconcileResource] *)
Definition apply_owned (collector : Collector) (o : owned_object) (referring reconciling : string) : MP W unit :=
  _ <~! pureP (Some (wrap referring (of_error (SetControllerReference collector o))));
  lift (wrapM reconciling (bind (ReconcileResource o) (λ e, ret (of_error e)))).

(** The validation of the input: the sentinel is passed on as it is. *)
Definition validate_input (collector : Collector) (cfgInput : OtelColConfigInput) : result unit :=
  match ValidateConfigInput cfgInput with
  | None => Ok tt
  | Some e =>
      if Is e ErrNoResources then Err e
      else Err (ErrWrap ("failed to validate OpenTelemetry Collector configuration input for collector "
                  +:+ Collector_Name collector) e)
  end.

Definition handleCollectorCreation (collector : Collector) : MP W Collector :=
  let name := Collector_Name collector in
  collectorConfigInput <~! wrapP ("failed to build config input for collector " +:+ name)
    (BuildConfigInputForCollector collector);
  _ <~! pureP (Some (validate_input collector collectorConfigInput));
  assembled <~! pureP (Ok <$> AssembleConfig collectorConfigInput);
  let '(otelConfig, additionalArgs) := assembled in
  _ <~! wrapP ("failed to validate assembled OpenTelemetry Collector configuration for collector " +:+ name)
    (pureP (of_error <$> ValidateAssembledConfig otelConfig));
  saName <~! lift (wrapM ("failed to reconcile RBAC for collector " +:+ name) (ReconcileRBAC collector));
  let outputs := in_Outputs collectorConfigInput in
  _ <~! apply_owned collector (OwnedSecret (AuthSecret collector outputs))
    ("failed to set controller reference for auth secret for collector " +:+ name)
    ("failed reconciling auth secret for collector " +:+ name);
  otelCollector <~! pureP (Ok <$> OtelCollector collector otelConfig additionalArgs
    (in_Tenants collectorConfigInput) outputs (NamespacedName_Name saName));
  _ <~! apply_owned collector (OwnedCollector otelCollector)
    ("failed to set controller reference for OpenTelemetryCollector for collector " +:+ name)
    ("failed reconciling OpenTelemetryCollector for collector " +:+ name);
  let tenantNames := Tenant_Name <$> in_Tenants collectorConfigInput in
  pureP (Some (Ok (Collector_set_Tenants (Some (NormalizeStringSlice tenantNames)) collector))).

Definition handleCollectorReconcileError (collector : Collector) (err : error) : M W reconcile_result :=
  if IsConflict err then ret (mkReconcileResult (Some requeueDelayOnConflict) None)
  else if Is err ErrTenantFailed then ret (mkReconcileResult (Some requeueDelayOnFailedTenant) None)
  else if Is err ErrNoResources then ret (mkReconcileResult None None)
  else
    let collector := Collector_set_State StateFailed (Add collector [error_text err]) in
    updateErr <~ Update_Collector_status collector;
    ret (mkReconcileResult None (match updateErr with
      | Some u => Combine [Some err; Some (ErrWrap "failed updating collector status" u)]
      | None => Some err
      end)).

Definition Collector_SetDefaults (collector : Collector) : Collector :=
  mkCollector (Collector_Name collector) (CollectorSpec_SetDefaults (Collector_Spec collector))
    (Collector_Status collector).

(** The end of a reconciliation that went through *)
Definition finish_collector (original : CollectorStatus) (collector : Collector) : M W reconcile_result :=
  let collector := ClearProblems (Collector_set_State StateReady collector) in
  if negb (bool_decide (original = Collector_Status collector)) then
    updateErr <~ Update_Collector_status collector;
    ret (mkReconcileResult None (ErrWrap "failed updating collector status" <$> updateErr))
  else ret (mkReconcileResult None None).

(** [Reconcile]: [None] is a panic. *)
Definition Reconcile_Collector (name : string) : M W (option reconcile_result) :=
  got <~ Get_Collector name;
  match got with
  | Err e => ret (Some (mkReconcileResult None (is_real_error (Some e))))
  | Ok collector =>
      let collector := Collector_SetDefaults collector in
      created <~ handleCollectorCreation collector;
      match created with
      | None => ret None
      | Some (Err e) => bind (handleCollectorReconcileError collector e) (λ r, ret (Some r))
      | Some (Ok collector') =>
          bind (finish_collector (Collector_Status collector) collector') (λ r, ret (Some r))
      end
  end.
End CollectorController.
