(* ===== verification/CollectorInput.v ===== *)
(** The input that the collector manager builds is a well-formed input of the
    configuration generator, when the objects do not change while it is read.
    This is the contract between [BuildConfigInputForCollector] and the theorems
    on the assembled configuration, which all take a [wf_input]. *)
From S2P Require Import Prelude Strs Json Errors ApiOtlp ApiOutput ApiTypes Kube Trace Cluster Utils Relations.
From S2P Require Import Exporters Processors Receivers Extensions Connectors ConfGen ConfGenFacts PipelineFacts WfInput.
From S2P Require Import Samples CollectorManager.

Section Snapshot.
Context `{Platform} {W : Type} `{!Client W} (w : W).

(** What the API server promises of the objects at [w]: reading changes nothing,
    an object is found under its own name, and the tenants it lists have
    distinct names and statuses as they are decoded. *)
Record snapshot : Prop := {
  snap_bridge n : (Get_Bridge n w).1 = w;
  snap_subscription n : (Get_Subscription n w).1 = w;
  snap_output n : (Get_Output n w).1 = w;
  snap_secret n : (Get_Secret n w).1 = w;
  snap_list sel : (List_Tenants sel w).1 = w;
  snap_subscription_name n s : (Get_Subscription n w).2 = Ok s → Subscription_NamespacedName s = n;
  snap_output_name n o : (Get_Output n w).2 = Ok o → Output_NamespacedName o = n;
  snap_tenant_names sel ts : (List_Tenants sel w).2 = Ok ts → NoDup (Tenant_Name <$> ts);
  snap_status sel ts t : (List_Tenants sel w).2 = Ok ts → t ∈ ts →
    decoded (TenantStatus_LogSourceNamespaces (Tenant_Status t)) ∧ decoded (TenantStatus_Subscriptions (Tenant_Status t))
}.

(** [reads Q m]: from [w], [m] changes nothing and gives a result in [Q]. *)
Definition reads {A} (Q : A → Prop) (m : M W A) : Prop := (m w).1 = w ∧ Q (m w).2.

Lemma reads_ret {A} (Q : A → Prop) a : Q a → reads Q (ret a).
Proof. done. Qed.

Lemma reads_bind {A B} (Q : A → Prop) (R : B → Prop) m f :
  reads Q m → (∀ a, Q a → reads R (f a)) → reads R (bind m f).
Proof.
  unfold reads, bind. intros [Hw HQ] Hf. destruct (m w) as [w1 a]. cbn in *. subst w1. by apply Hf.
Qed.

Lemma reads_try {A B} (Q : A → Prop) (R : B → Prop) m (f : A → M W (result B)) :
  reads (on_Ok Q) m → (∀ a, Q a → reads (on_Ok R) (f a)) → reads (on_Ok R) (try m f).
Proof.
  intros Hm Hf. unfold try. eapply reads_bind; [exact Hm|]. intros [a|e] Ha; [by apply Hf|by apply reads_ret].
Qed.

Lemma reads_wrapM {A} (Q : A → Prop) msg m : reads (on_Ok Q) m → reads (on_Ok Q) (wrapM msg m).
Proof. intros Hm. unfold wrapM. eapply reads_bind; [exact Hm|]. intros [a|e] Ha; by apply reads_ret. Qed.

(** The invariant of a loop speaks of the elements that are done. *)
Lemma reads_loop {A S} (I : list A → S → Prop) (f : A → S → M W (result S)) xs :
  (∀ pre x s, x ∈ xs → I pre s → reads (on_Ok (I (pre ++ [x]))) (f x s)) →
  ∀ pre s, I pre s → reads (on_Ok (I (pre ++ xs))) (loop f xs s).
Proof.
  induction xs as [|x xs IH]; intros Hf pre s Hs; cbn; [rewrite app_nil_r; by apply reads_ret|].
  eapply reads_try; [apply Hf; [apply list_elem_of_here|exact Hs]|].
  intros s' Hs'. rewrite cons_middle, app_assoc. apply IH; [|done].
  intros p y s2 Hy. by apply Hf, list_elem_of_further.
Qed.

Lemma reads_call {A} (Q : A → Prop) (m : M W (result A)) :
  (m w).1 = w → (∀ a, (m w).2 = Ok a → Q a) → reads (on_Ok Q) m.
Proof. intros Hw HQ. split; [done|]. destruct (m w).2 eqn:E; [by apply HQ|done]. Qed.

(** The objects at [w] *)
Definition subscription_at (n : NamespacedName) (s : Subscription) : Prop := (Get_Subscription n w).2 = Ok s.
Definition bridge_at (n : string) (b : Bridge) : Prop := (Get_Bridge n w).2 = Ok b.
Definition secret_at (o : Output) (s : Secret) : Prop :=
  match QueryOutputSecretWithData o with None => s = Secret_zero | Some query => (query w).2 = Ok s end.
Definition output_at (n : NamespacedName) (o : OutputWithSecretData) : Prop :=
  (Get_Output n w).2 = Ok (OWS_Output o) ∧ secret_at (OWS_Output o) (OWS_Secret o).

Lemma output_at_fun n o o' : output_at n o → output_at n o' → o = o'.
Proof.
  unfold output_at, secret_at. destruct o as [o s], o' as [o' s']; cbn. intros [E1 S1] [E2 S2].
  rewrite E1 in E2. injection E2 as <-.
  destruct (QueryOutputSecretWithData o); [rewrite S1 in S2; by injection S2 as ->|by subst].
Qed.

Definition subscriptions_read (refs : list NamespacedName) (m : gmap NamespacedName Subscription) : Prop :=
  (∀ ref s, m !! ref = Some s → subscription_at ref s) ∧ ∀ ref, is_Some (m !! ref) ↔ ref ∈ refs.

Definition bridges_read (names : list string) (bs : golist Bridge) : Prop := Forall2 bridge_at names (elems bs).

Definition status_subscriptions (t : Tenant) : list NamespacedName := elems (TenantStatus_Subscriptions (Tenant_Status t)).
Definition status_bridges (t : Tenant) : list string := elems (TenantStatus_ConnectedBridges (Tenant_Status t)).
Definition status_outputs (s : Subscription) : list NamespacedName := elems (SubscriptionStatus_Outputs (Subscription_Status s)).

Definition tenants_read (ts : list Tenant) (g : gathered) : Prop :=
  g_tenantSubscriptions g
    = insert_all ((λ t, (Tenant_Name t, TenantStatus_Subscriptions (Tenant_Status t))) <$> ts) ∅ ∧
  subscriptions_read (ts ≫= status_subscriptions) (g_subscriptions g) ∧
  bridges_read (ts ≫= status_bridges) (g_bridges g) ∧
  Forall (λ t, TenantStatus_State (Tenant_Status t) ≠ StateFailed) ts.

Definition outputs_read (ss : list Subscription)
    (acc : gmap NamespacedName (golist NamespacedName) * list OutputWithSecretData) : Prop :=
  acc.1 = insert_all ((λ s, (Subscription_NamespacedName s, SubscriptionStatus_Outputs (Subscription_Status s))) <$> ss) ∅ ∧
  Forall2 output_at (ss ≫= status_outputs) acc.2.

Context (Hsnap : snapshot).

Lemma reads_subscription t ref refs m :
  subscriptions_read refs m → reads (on_Ok (subscriptions_read (refs ++ [ref]))) (gather_subscription t ref m).
Proof using Hsnap.
  intros [Hat Hdom]. unfold gather_subscription. eapply (reads_try (subscription_at ref)).
  - apply reads_wrapM, reads_call; [apply snap_subscription, Hsnap|done].
  - intros s Hs. apply reads_ret. split.
    + intros ref' s'. rewrite lookup_insert_Some. intros [[<- <-]|[_ ?]]; auto.
    + intros ref'. rewrite lookup_insert_is_Some', Hdom, elem_of_app, list_elem_of_singleton. naive_solver.
Qed.

Lemma reads_bridge t n names bs :
  bridges_read names bs → reads (on_Ok (bridges_read (names ++ [n]))) (gather_bridge t n bs).
Proof using Hsnap.
  intros Hbs. unfold gather_bridge. eapply (reads_try (bridge_at n)).
  - apply reads_wrapM, reads_call; [apply snap_bridge, Hsnap|done].
  - intros b Hb. apply reads_ret. unfold bridges_read. cbn. rewrite elems_append. apply Forall2_app; auto.
Qed.

Lemma reads_tenant ts t g :
  tenants_read ts g → reads (on_Ok (tenants_read (ts ++ [t]))) (gather_tenant t g).
Proof using Hsnap.
  intros (Hts & Hsubs & Hbs & Hst). unfold gather_tenant. case_bool_decide as Hf; [by apply reads_ret|].
  eapply (reads_try (subscriptions_read ((ts ≫= status_subscriptions) ++ status_subscriptions t))).
  { apply (reads_loop subscriptions_read); [|done]. intros pre x m _. apply reads_subscription. }
  intros subs Hsubs'.
  eapply (reads_try (bridges_read ((ts ≫= status_bridges) ++ status_bridges t))).
  { apply (reads_loop bridges_read); [|done]. intros pre x m _. apply reads_bridge. }
  intros bs Hbs'. apply reads_ret. split_and!; cbn.
  - by rewrite fmap_app, insert_all_app, Hts.
  - by rewrite bind_app, bind_singleton.
  - by rewrite bind_app, bind_singleton.
  - apply Forall_app. auto.
Qed.

Lemma reads_tenants ts : reads (on_Ok (tenants_read ts)) (loop gather_tenant ts (mkGathered ∅ ∅ None)).
Proof using Hsnap.
  apply (reads_loop tenants_read gather_tenant ts) with (pre := []).
  - intros pre t g _. by apply reads_tenant.
  - split_and!; [done| |constructor|constructor]. split; cbn; [intros ?? E; by rewrite lookup_empty in E|].
    intros ref. rewrite lookup_empty_is_Some. set_solver.
Qed.

Lemma reads_secret o : ∀ q, QueryOutputSecretWithData o = Some q → (q w).1 = w.
Proof using Hsnap.
  unfold QueryOutputSecretWithData. intros q. destruct (OutputSpec_Authentication (Output_Spec o)) as [a|]; cbn; [|done].
  intros [= <-]. destruct (auth_refs a) as [|[ref n] [|]]; try done.
  unfold wrapM, bind, ret. pose proof (snap_secret Hsnap (mkNamespacedName (SecretReference_Namespace ref)
    (SecretReference_Name ref))) as Hw. by destruct (Get_Secret _ w).
Qed.

Lemma reads_output s ref refs outs :
  Forall2 output_at refs outs → reads (on_Ok (Forall2 output_at (refs ++ [ref]))) (gather_output s ref outs).
Proof using Hsnap.
  intros Houts. unfold gather_output. eapply (reads_try (λ o, (Get_Output ref w).2 = Ok o)).
  - apply reads_wrapM, reads_call; [apply snap_output, Hsnap|done].
  - intros o Ho. destruct (QueryOutputSecretWithData o) as [q|] eqn:Eq.
    + eapply (reads_try (λ x, (q w).2 = Ok x)).
      * apply reads_wrapM, reads_call; [by eapply reads_secret|done].
      * intros x Hx. apply reads_ret, Forall2_app; [done|]. constructor; [|done].
        split; [done|]. unfold secret_at. cbn. by rewrite Eq.
    + apply reads_ret, Forall2_app; [done|]. constructor; [|done].
      split; [done|]. unfold secret_at. cbn. by rewrite Eq.
Qed.

Lemma reads_subscription_outputs ss s acc :
  outputs_read ss acc → reads (on_Ok (outputs_read (ss ++ [s]))) (gather_subscription_outputs s acc).
Proof using Hsnap.
  destruct acc as [m outs]. intros [Hm Houts]. unfold gather_subscription_outputs.
  eapply (reads_try (Forall2 output_at ((ss ≫= status_outputs) ++ status_outputs s))).
  { apply (reads_loop (Forall2 output_at)); [|done]. intros pre x m' _. apply reads_output. }
  intros outs' Houts'. apply reads_ret. split; cbn in *.
  - by rewrite fmap_app, insert_all_app, Hm.
  - by rewrite bind_app, bind_singleton.
Qed.
End Snapshot.

Lemma Forall2_in_l {A B} (P : A → B → Prop) l k x : Forall2 P l k → x ∈ l → ∃ y, y ∈ k ∧ P x y.
Proof. induction 1; set_solver. Qed.

Lemma Forall2_in_r {A B} (P : A → B → Prop) l k y : Forall2 P l k → y ∈ k → ∃ x, x ∈ l ∧ P x y.
Proof. induction 1; set_solver. Qed.

(** A map filled from a list by a key that determines the value *)
Lemma insert_all_keyed {A K V} `{Countable K} (key : A → K) (val : A → V) (l : list A) k v :
  (∀ x y, x ∈ l → y ∈ l → key x = key y → val x = val y) →
  insert_all ((λ x, (key x, val x)) <$> l) (∅ : gmap K V) !! k = Some v ↔ ∃ x, x ∈ l ∧ key x = k ∧ val x = v.
Proof.
  intros Hfun. split.
  - intros [(x & [= -> ->] & Hx)%list_elem_of_fmap|[? _]]%insert_all_inv; [eauto|done].
  - intros (x & Hx & <- & <-). apply insert_all_lookup.
    + apply list_elem_of_fmap. eauto.
    + intros v' (y & [= E ->] & Hy)%list_elem_of_fmap. by apply Hfun.
Qed.

Section Build.
Context `{Platform} `{MapRange} {W : Type} `{!Client W} (w : W).

(** The tenants of the collector: those its selector lists, none when the
    server answers that there is nothing *)
Definition tenants_listed (collector : Collector) (ts : golist Tenant) : Prop :=
  ∃ sel, LabelSelectorAsSelector (CollectorSpec_TenantSelector (Collector_Spec collector)) = Ok sel ∧
    match (List_Tenants sel w).2 with
    | Ok l => ts = Some l
    | Err e => ts = None ∧ IsNotFound e = true
    end.

Definition relations_read (collector : Collector) (r : ResourceRelations) : Prop :=
  ∃ ts g outs, tenants_listed collector ts ∧ tenants_read w (elems ts) g ∧
    outputs_read w (range_map site_build_subscriptions (g_subscriptions g)).*2 outs ∧
    r = mkRelations ts (Some (g_subscriptions g)) (g_bridges g) (Some outs.2) (Some (g_tenantSubscriptions g)) (Some outs.1).

Context (Hsnap : snapshot w).

Lemma reads_relations collector : reads w (on_Ok (relations_read collector)) (gather_relations collector).
Proof using Hsnap.
  unfold gather_relations. eapply (reads_try w (tenants_listed collector)).
  { apply reads_wrapM. unfold getTenantsMatchingSelectors, tenants_listed.
    destruct (LabelSelectorAsSelector _) as [sel|e]; [|by apply reads_ret].
    split; unfold bind, ret.
    - pose proof (snap_list w Hsnap sel). by destruct (List_Tenants sel w).
    - destruct (List_Tenants sel w) as [w' [l|e]] eqn:E; cbn.
      + exists sel. by rewrite E.
      + destruct (IsNotFound e) eqn:Ee; cbn; [|done]. exists sel. by rewrite E. }
  intros ts Hts. eapply (reads_try w (tenants_read w (elems ts))).
  { by apply reads_tenants. }
  intros g Hg. eapply (reads_try w (outputs_read w (range_map site_build_subscriptions (g_subscriptions g)).*2)).
  { apply (reads_loop w (outputs_read w) gather_subscription_outputs) with (pre := []).
    - intros pre s acc _. by apply reads_subscription_outputs.
    - split; [done|constructor]. }
  intros outs Houts. apply reads_ret. by exists ts, g, outs.
Qed.

Lemma listed_names collector ts : tenants_listed collector ts → NoDup (Tenant_Name <$> elems ts).
Proof using Hsnap.
  intros (sel & _ & Hl). destruct (List_Tenants sel w).2 as [l|e] eqn:E.
  - subst ts. by eapply snap_tenant_names.
  - destruct Hl as [-> _]. constructor.
Qed.

Lemma listed_decoded collector ts t : tenants_listed collector ts → t ∈ elems ts →
  decoded (TenantStatus_LogSourceNamespaces (Tenant_Status t)) ∧ decoded (TenantStatus_Subscriptions (Tenant_Status t)).
Proof using Hsnap.
  intros (sel & _ & Hl). destruct (List_Tenants sel w).2 as [l|e] eqn:E.
  - subst ts. by eapply snap_status.
  - destruct Hl as [-> _]. by intros ?%not_elem_of_nil.
Qed.

Lemma read_wf collector r limiter events debug dry axo :
  relations_read collector r → wf_input (mkInput r limiter events debug dry axo).
Proof using Hsnap.
  intros (ts & g & outs & Hl & (Egt & [Hsat Hsdom] & _ & _) & [Eo Ho] & ->).
  pose proof (listed_names _ _ Hl) as Hnd.
  assert (∀ t t', t ∈ elems ts → t' ∈ elems ts → Tenant_Name t = Tenant_Name t' → t = t') as Hinj.
  { intros t t'. by apply NoDup_key. }
  assert (∀ ref s, g_subscriptions g !! ref = Some s → Subscription_NamespacedName s = ref) as Hname.
  { intros ref s Hs. eapply snap_subscription_name; [done|]. by apply Hsat. }
  assert (∀ name subs, g_tenantSubscriptions g !! name = Some subs ↔
    ∃ t, t ∈ elems ts ∧ Tenant_Name t = name ∧ TenantStatus_Subscriptions (Tenant_Status t) = subs) as Htm.
  { intros name subs. rewrite Egt. apply insert_all_keyed. intros t t' Ht Ht' E. by rewrite (Hinj t t'). }
  assert (∀ s, s ∈ (range_map site_build_subscriptions (g_subscriptions g)).*2 ↔
    ∃ ref, g_subscriptions g !! ref = Some s) as Hvals by apply elem_of_range_map_values.
  assert (∀ ref o, outs.1 !! ref = Some o ↔
    ∃ s, g_subscriptions g !! ref = Some s ∧ SubscriptionStatus_Outputs (Subscription_Status s) = o) as Hom.
  { intros ref o. rewrite Eo, insert_all_keyed.
    - setoid_rewrite Hvals. split.
      + intros (s & [ref' Hs] & <- & <-). exists s. by rewrite (Hname _ _ Hs).
      + intros (s & Hs & <-). exists s. rewrite (Hname _ _ Hs). eauto.
    - intros s s' [r1 H1]%Hvals [r2 H2]%Hvals E. apply Hname in H1 as E1, H2 as E2. congruence. }
  pose proof (Forall2_length _ _ _ Ho) as Hlen.
  assert (∀ o, o ∈ outs.2 → output_at w (output_ref o) o) as Hoat.
  { intros o (ref & _ & Hat)%(Forall2_in_r _ _ _ _ Ho).
    destruct Hat as [Hat Hsec]. unfold output_ref. by rewrite (snap_output_name w Hsnap _ _ Hat). }
  split; unfold in_Tenants, in_TenantSubscriptions, in_Subscriptions, in_SubscriptionOutputs, in_Outputs; cbn.
  - done.
  - intros t. by apply (listed_decoded collector).
  - done.
  - intros ref. rewrite Hsdom, list_elem_of_bind. setoid_rewrite Htm. unfold status_subscriptions. split.
    + intros (t & Hr & Ht). eauto 10.
    + intros (name & subs & (t & Ht & _ & <-) & Hr). eauto.
  - done.
  - done.
  - intros ref. setoid_rewrite Hom. split.
    + intros (o & Hin & <-). apply (Forall2_in_r _ _ _ _ Ho) in Hin as (ref & Hin & Hat & _).
      rewrite <- (snap_output_name w Hsnap _ _ Hat) in Hin.
      apply list_elem_of_bind in Hin as (s & Hin & [r Hs]%Hvals). unfold status_outputs in Hin. eauto 10.
    + intros (r & o & (s & Hs & <-) & Hin).
      assert (ref ∈ (range_map site_build_subscriptions (g_subscriptions g)).*2 ≫= status_outputs) as Hb.
      { apply list_elem_of_bind. exists s. split; [done|]. apply Hvals. eauto. }
      apply (Forall2_in_l _ _ _ _ Ho) in Hb as (o & Ho' & Hat & _).
      exists o. split; [done|]. apply (snap_output_name w Hsnap _ _ Hat).
  - intros o o' Hin Hin' E. apply Hoat in Hin, Hin'. rewrite E in Hin. by eapply output_at_fun.
Qed.
End Build.

Section Built.
Context `{Platform} `{MapRange} {W : Type} `{!Client W}.

Lemma built_input (w : W) collector w' c : snapshot w →
  BuildConfigInputForCollector collector w = (w', Some (Ok c)) →
  w' = w ∧ ∃ r limiter, relations_read w collector r ∧ CollectorSpec_MemoryLimiter (Collector_Spec collector) = Some limiter ∧
    c = mkInput r limiter (CollectorSpec_EventsToLogs (Collector_Spec collector))
          (DerefOrZero (CollectorSpec_Debug (Collector_Spec collector)))
          (DerefOrZero (CollectorSpec_DryRunMode (Collector_Spec collector)))
          (isAxoflowDistribution (match CollectorSpec_OtelCommonFields (Collector_Spec collector) with
            Some f => Common_Image f | None => "" end)).
Proof.
  intros Hs. unfold BuildConfigInputForCollector, bind, ret.
  destruct (reads_relations w Hs collector) as [Hw Hr]. destruct (gather_relations collector w) as [w1 [r|e]]; [|done].
  cbn in Hw, Hr. subst w1. destruct (CollectorSpec_MemoryLimiter _) as [l|]; [|done]. cbn. intros [= <- <-]. eauto 10.
Qed.

(** C19. Reading the input of a collector changes no object, and an input that
    is built is well formed: the maps of the relations say what the statuses
    say, every subscription and output that a status refers to is there under
    its own name, and an output that several subscriptions share is read
    consistently. The theorems on the assembled configuration apply to it. *)
Theorem build_config_input_wf (w : W) collector w' c :
  snapshot w →
  BuildConfigInputForCollector collector w = (w', Some (Ok c)) →
  w' = w ∧ wf_input c.
Proof.
  intros Hs Hb. destruct (built_input w collector w' c Hs Hb) as (-> & r & l & Hr & _ & ->).
  split; [done|]. by eapply read_wf.
Qed.

(** C20. The input holds the tenants that the collector's selector lists, none
    of them failed, the subscriptions, bridges and outputs as they are in the
    cluster, each output with the secret that its authentication names, one
    bridge for each reference of a tenant; and its flags are those of the
    collector's specification. *)
Theorem build_config_input_exact (w : W) collector w' c :
  snapshot w →
  BuildConfigInputForCollector collector w = (w', Some (Ok c)) →
  tenants_listed w collector (Tenants (Input_Relations c)) ∧
  (∀ t, t ∈ in_Tenants c → TenantStatus_State (Tenant_Status t) ≠ StateFailed) ∧
  (∀ ref s, in_Subscriptions c !! ref = Some s → subscription_at w ref s) ∧
  (∀ o, o ∈ in_Outputs c → output_at w (output_ref o) o) ∧
  Forall2 (bridge_at w) (in_Tenants c ≫= status_bridges) (in_Bridges c) ∧
  Input_DryRunMode c = DerefOrZero (CollectorSpec_DryRunMode (Collector_Spec collector)) ∧
  Input_Debug c = DerefOrZero (CollectorSpec_Debug (Collector_Spec collector)) ∧
  Some (Input_MemoryLimiter c) = CollectorSpec_MemoryLimiter (Collector_Spec collector).
Proof.
  intros Hs Hb. destruct (built_input w collector w' c Hs Hb) as (-> & r & l & Hr & Hl & ->).
  destruct Hr as (ts & g & outs & Hts & (_ & [Hat _] & Hbs & Hst) & [_ Ho] & ->).
  split_and!; cbn; try done.
  - intros t Ht. rewrite Forall_forall in Hst. by apply Hst.
  - intros o Hin. apply (Forall2_in_r _ _ _ _ Ho) in Hin as (ref & _ & Hat' & Hsec).
    unfold output_ref. rewrite (snap_output_name w Hs _ _ Hat'). done.
Qed.
End Built.

(** * The sample cluster is a snapshot *)
Section Cluster.
Context `{Platform} (matches : selector → string → bool).
#[local] Existing Instance cluster_client.

Lemma find_or_inv {A B} (f : A → bool) (g : A → option B) l b :
  find_or f g l = Ok b → ∃ a, f a = true ∧ g a = Some b.
Proof.
  unfold find_or. destruct (find_first f l) as [a|] eqn:E; cbn; [|done].
  destruct (g a) eqn:Eg; [|done]. intros [= ->]. apply find_first_Some in E as [_ ?]. eauto.
Qed.

Lemma cluster_snapshot (cl : cluster) :
  NoDup (Tenant_Name <$> cl_tenants cl) →
  Forall (λ t, decoded (TenantStatus_LogSourceNamespaces (Tenant_Status t)) ∧
               decoded (TenantStatus_Subscriptions (Tenant_Status t))) (cl_tenants cl) →
  snapshot (Client0 := cluster_client matches) cl.
Proof.
  intros Hnd Hdec. split; try done.
  - intros n s ([s'|o] & Hf & [= ->])%find_or_inv.
    unfold at_ref in Hf. apply andb_prop in Hf as [[_ H1]%andb_prop H2].
    apply bool_decide_eq_true in H1, H2. destruct n; cbn in *; subst. done.
  - intros n o ([s'|o'] & Hf & [= ->])%find_or_inv.
    unfold at_ref in Hf. apply andb_prop in Hf as [[_ H1]%andb_prop H2].
    apply bool_decide_eq_true in H1, H2. destruct n; cbn in *; subst. done.
  - by intros sel ts [= <-].
  - intros sel ts t [= <-] Ht. rewrite Forall_forall in Hdec. by apply Hdec.
Qed.
End Cluster.

#[local] Existing Instance sample_platform.

(** A cluster whose tenant was reconciled, and the collector as the controller
    holds it *)
Definition settled_tenant : Tenant :=
  sample_tenant "red" (sample_transform "flat" true) true (Some ["apps"]) (Some [sub_ref]) None.
Definition settled_cluster : cluster :=
  mkCluster ["team"; "apps"] [settled_tenant] [] [sample_collector]
    [ ResOutput (sample_output "team" "sink" "red" (Some sample_auth));
      ResSubscription (sample_subscription "team" "errors" "red" "true" [out_ref]) ] [sample_secret] false.
Definition settled_collector : Collector :=
  mkCollector "main" (CollectorSpec_SetDefaults (Collector_Spec sample_collector)) (Collector_Status sample_collector).
Definition built_input_sample : OtelColConfigInput :=
  match (BuildConfigInputForCollector settled_collector settled_cluster).2 with
  | Some (Ok c) => c
  | _ => sample_input
  end.

Lemma settled_snapshot : snapshot settled_cluster.
Proof.
  apply (cluster_snapshot (H := sample_platform) sample_matches).
  - apply (bool_decide_unpack _). by vm_compute.
  - by constructor.
Qed.

Example built_input_sample_is : built_input_sample = sample_input.
Proof. by vm_compute. Qed.

Lemma build_config_input_wf_witness : settled_cluster = settled_cluster ∧ wf_input built_input_sample.
Proof.
  apply (build_config_input_wf settled_cluster settled_collector); [apply settled_snapshot|].
  vm_compute. reflexivity.
Defined.

Lemma build_config_input_exact_witness :
  Forall2 (bridge_at settled_cluster) (in_Tenants built_input_sample ≫= status_bridges) (in_Bridges built_input_sample).
Proof.
  apply (build_config_input_exact settled_cluster settled_collector settled_cluster); [apply settled_snapshot|].
  vm_compute. reflexivity.
Defined.
