(* ===== verification/CollectorTrace.v ===== *)
(** Every API server and every resource reconciler, with the objects that are
    applied and the status updates that are sent written to one log. *)
From S2P Require Import Prelude Strs Json Errors ApiOtlp ApiOutput ApiTypes Kube Trace Utils Relations.
From S2P Require Import Exporters Processors Extensions Connectors ConfGen CollectorManager.

(** * The same reads on two servers

    Two servers in related states that answer the collector's reads alike build
    the same input and stay related. *)
Section Lockstep.
Context `{Platform} `{MapRange} {V W : Type} `{!Client V} `{!Client W} (R : V → W → Prop).

Definition lockstep {A} (m : M V A) (m0 : M W A) : Prop :=
  ∀ v w, R v w → R (m v).1 (m0 w).1 ∧ (m v).2 = (m0 w).2.

Lemma lockstep_ret {A} (a : A) : lockstep (ret a) (ret a).
Proof. done. Qed.

Lemma lockstep_bind {A B} (m : M V A) m0 (f : A → M V B) f0 :
  lockstep m m0 → (∀ a, lockstep (f a) (f0 a)) → lockstep (bind m f) (bind m0 f0).
Proof.
  intros Hm Hf v w HR. unfold bind. destruct (Hm v w HR) as [HR1 Ha].
  destruct (m v) as [v1 a], (m0 w) as [w1 a0]. cbn in *. subst a0. by apply Hf.
Qed.

Lemma lockstep_try {A B} (m : M V (result A)) m0 (f : A → M V (result B)) f0 :
  lockstep m m0 → (∀ a, lockstep (f a) (f0 a)) → lockstep (try m f) (try m0 f0).
Proof. intros Hm Hf. apply lockstep_bind; [done|]. intros [a|e]; [apply Hf|apply lockstep_ret]. Qed.

Lemma lockstep_wrapM {A} msg (m : M V (result A)) m0 : lockstep m m0 → lockstep (wrapM msg m) (wrapM msg m0).
Proof. intros Hm. apply lockstep_bind; [done|]. intros r. apply lockstep_ret. Qed.

Lemma lockstep_loop {A S} (f : A → S → M V (result S)) f0 xs :
  (∀ x s, lockstep (f x s) (f0 x s)) → ∀ s, lockstep (loop f xs s) (loop f0 xs s).
Proof. intros Hf. induction xs as [|x xs IH]; intros s; cbn; [apply lockstep_ret|]. by apply lockstep_try. Qed.

(** The reads of the collector's input *)
Record same_reads : Prop := {
  same_tenants sel : lockstep (List_Tenants (W := V) sel) (List_Tenants (W := W) sel);
  same_subscription ref : lockstep (Get_Subscription (W := V) ref) (Get_Subscription (W := W) ref);
  same_bridge n : lockstep (Get_Bridge (W := V) n) (Get_Bridge (W := W) n);
  same_output ref : lockstep (Get_Output (W := V) ref) (Get_Output (W := W) ref);
  same_secret ref : lockstep (Get_Secret (W := V) ref) (Get_Secret (W := W) ref)
}.

Context (Hreads : same_reads).

Lemma lockstep_secret o : match QueryOutputSecretWithData (W := V) o, QueryOutputSecretWithData (W := W) o with
  | Some q, Some q0 => lockstep q q0
  | None, None => True
  | _, _ => False
  end.
Proof using Hreads.
  unfold QueryOutputSecretWithData. destruct (OutputSpec_Authentication _) as [a|]; cbn; [|done].
  destruct (auth_refs a) as [|[ref n] [|]]; try apply lockstep_ret. apply lockstep_wrapM, Hreads.
Qed.

Lemma lockstep_build collector :
  lockstep (BuildConfigInputForCollector (W := V) collector) (BuildConfigInputForCollector (W := W) collector).
Proof using Hreads.
  apply lockstep_bind; [|intros r; apply lockstep_ret]. unfold gather_relations. apply lockstep_try.
  { apply lockstep_wrapM. unfold getTenantsMatchingSelectors. destruct (LabelSelectorAsSelector _); [|apply lockstep_ret].
    apply lockstep_bind; [apply Hreads|intros r; apply lockstep_ret]. }
  intros ts. apply lockstep_try.
  { apply lockstep_loop. intros t g. unfold gather_tenant. case_bool_decide; [apply lockstep_ret|].
    apply lockstep_try; [|intros subs; apply lockstep_try; [|intros; apply lockstep_ret]];
      apply lockstep_loop; intros x acc; (apply lockstep_try; [apply lockstep_wrapM, Hreads|intros; apply lockstep_ret]). }
  intros g. apply lockstep_try; [|intros; apply lockstep_ret].
  apply lockstep_loop. intros s [m outs]. apply lockstep_try; [|intros; apply lockstep_ret].
  apply lockstep_loop. intros ref os. apply lockstep_try; [apply lockstep_wrapM, Hreads|].
  intros o. pose proof (lockstep_secret o) as Ho.
  destruct (QueryOutputSecretWithData (W := V) o), (QueryOutputSecretWithData (W := W) o); try done.
  apply lockstep_try; [|intros; apply lockstep_ret]. by apply lockstep_wrapM.
Qed.
End Lockstep.

(** * The observed server *)
Section Observed.
Context `{Platform} {W : Type}.

Inductive event :=
| Applied (o : owned_object)
| Sent (x : access).

Definition observed : Type := W * list event.

Definition quietly (A : Type) (_ : Kind) (m : M W A) : M observed A := λ s, let '(w, a) := m s.1 in ((w, s.2), a).
Definition noting (A : Type) (x : event) (m : M W A) : M observed A := λ s, let '(w, a) := m s.1 in ((w, s.2 ++ [x]), a).

#[export] Instance observed_client `{!Client W} : Client observed :=
  client_over quietly (λ A x, noting A (Sent x)).

#[export] Instance observed_reconciler `{!ResourceReconciler W} : ResourceReconciler observed := {
  SetControllerReference := SetControllerReference;
  ReconcileResource o := noting _ (Applied o) (ReconcileResource o)
}.

(** [emits R m]: what [m] adds to the log and what it gives back are in [R]. *)
Definition emits {A} (R : list event → A → Prop) (m : M observed A) : Prop :=
  ∀ s s' a, m s = (s', a) → ∃ new, s'.2 = s.2 ++ new ∧ R new a.

(** Nothing is logged. *)
Definition silent {A} (new : list event) (_ : A) : Prop := new = [].

Lemma emits_ret {A} (R : list event → A → Prop) a : R [] a → emits R (ret a).
Proof. intros HR s s' b [= <- <-]. exists []. by rewrite app_nil_r. Qed.

Lemma emits_bind {A B} (Q : list event → A → Prop) (R : list event → B → Prop) m f :
  emits Q m → (∀ l a, Q l a → emits (λ l', R (l ++ l')) (f a)) → emits R (bind m f).
Proof.
  intros Hm Hf s s' b. unfold bind. destruct (m s) as [s1 a] eqn:E. intros Eb.
  destruct (Hm _ _ _ E) as (l1 & E1 & HQ). destruct (Hf _ _ HQ _ _ _ Eb) as (l2 & E2 & HR).
  exists (l1 ++ l2). by rewrite E2, E1, app_assoc.
Qed.

Lemma emits_weaken {A} (Q R : list event → A → Prop) m : (∀ l a, Q l a → R l a) → emits Q m → emits R m.
Proof. intros HQR Hm s s' a E. destruct (Hm _ _ _ E) as (l & ? & ?). eauto. Qed.

Lemma emits_quietly {A} k (m : M W A) : emits silent (quietly A k m).
Proof. intros s s' a. unfold quietly. destruct (m s.1). intros [= <- <-]. exists []. by rewrite app_nil_r. Qed.

Lemma emits_noting {A} x (m : M W A) : emits (λ l _, l = [x]) (noting A x m).
Proof. intros s s' a. unfold noting. destruct (m s.1). intros [= <- <-]. by exists [x]. Qed.

(** * Watching changes nothing *)
Context `{!Client W} `{MapRange}.

(** The observed server with a given log *)
Definition with_log (l : list event) (s : observed) (w : W) : Prop := s = (w, l).

Lemma quietly_lockstep {A} l k (m : M W A) : lockstep (with_log l) (quietly A k m) m.
Proof. intros s w ->. unfold quietly. cbn. by destruct (m w). Qed.

Lemma observed_reads l : same_reads (V := observed) (W := W) (with_log l).
Proof. split; intros; apply quietly_lockstep. Qed.

Lemma agrees_build collector (w : W) l : BuildConfigInputForCollector (W := observed) collector (w, l) =
  (((BuildConfigInputForCollector (W := W) collector w).1, l), (BuildConfigInputForCollector (W := W) collector w).2).
Proof.
  destruct (lockstep_build (V := observed) (W := W) (with_log l) (observed_reads l) collector (w, l) w eq_refl) as [E1 E2].
  rewrite <- E1, <- E2. apply surjective_pairing.
Qed.

(** Reading the input of a collector logs nothing. *)
Lemma silent_build collector : emits silent (BuildConfigInputForCollector (W := observed) collector).
Proof. intros [w l] s' a. rewrite agrees_build. intros [= <- _]. exists []. by rewrite app_nil_r. Qed.
End Observed.
Arguments observed {_} W.
