(* ===== verification/CollectorSpec.v ===== *)
(** The validation of the collector's input, and what its reconciliation
    applies, writes and answers. *)
From S2P Require Import Prelude Strs Json Errors ApiOtlp ApiOutput ApiTypes Kube Trace Cluster Utils Relations.
From S2P Require Import Exporters Processors Receivers Extensions Connectors ConfGen ConfGenFacts PipelineFacts WfInput.
From S2P Require Import Samples ProblemSpec CollectorManager Validator CollectorController CollectorInput CollectorTrace.

Section Validation.
Context `{Platform} `{MapRange}.
Implicit Types (c : OtelColConfigInput).

Lemma MultiError_None es : MultiError es = None ↔ es = [].
Proof. by destruct es. Qed.

Lemma if_nil {A} (b : bool) (x : A) : (if b then [] else [x]) = [] ↔ b = true.
Proof. by destruct b. Qed.

Lemma if_singleton_nil {A} (b : bool) (x : A) : (if b then [x] else []) = [] ↔ b = false.
Proof. by destruct b. Qed.

Lemma bind_nil_iff {A B} (f : A → list B) l : l ≫= f = [] ↔ ∀ x, x ∈ l → f x = [].
Proof.
  induction l as [|x l IH]; cbn; [set_solver|]. rewrite app_nil, IH. set_solver.
Qed.

Lemma length_zero {A} (l : list A) : (length l =? 0)%nat = true ↔ l = [].
Proof. rewrite Nat.eqb_eq. by destruct l. Qed.

(** An error of a part that is not an empty multierror stays visible. *)
Lemma flatten_nil e : flatten e = [] ↔ e = ErrMulti [].
Proof. destruct e; cbn; split; congruence. Qed.

Lemma parts_nil (parts : list (option error)) :
  (∀ e, Some e ∈ parts → e ≠ ErrMulti []) →
  omap id parts ≫= flatten = [] ↔ ∀ p, p ∈ parts → p = None.
Proof.
  intros Hne. rewrite bind_nil_iff. setoid_rewrite flatten_nil. setoid_rewrite list_elem_of_omap. split.
  - intros Hp [e|] Hin; [|done]. destruct (Hne e Hin). apply Hp. by exists (Some e).
  - intros Hp e (p & Hin & E). by rewrite (Hp p Hin) in E.
Qed.

Lemma MultiError_not_empty es e : MultiError es = Some e → e ≠ ErrMulti [].
Proof. destruct es; cbn; congruence. Qed.

Lemma tenant_errors_nil t : tenant_errors t = [] ↔
  ¬ (TenantStatus_LogSourceNamespaces (Tenant_Status t) ≠ None ∧ TenantSpec_SelectFromAllNamespaces (Tenant_Spec t) = true).
Proof.
  unfold tenant_errors. rewrite if_singleton_nil, andb_false_iff, negb_false_iff.
  destruct (TenantStatus_LogSourceNamespaces _), (TenantSpec_SelectFromAllNamespaces _); cbn; naive_solver.
Qed.

Lemma validateTenants_None ts : validateTenants ts = None ↔
  elems ts ≠ [] ∧ ∀ t, t ∈ elems ts → tenant_errors t = [].
Proof.
  unfold validateTenants. destruct (length _ =? 0)%nat eqn:E.
  - apply length_zero in E. rewrite E. naive_solver.
  - rewrite MultiError_None, bind_nil_iff. apply not_true_iff_false in E. rewrite length_zero in E. tauto.
Qed.

Lemma bridge_errors_nil names b : bridge_errors names b = [] ↔
  BridgeSpec_SourceTenant (Bridge_Spec b) ∈ names ∧ BridgeSpec_TargetTenant (Bridge_Spec b) ∈ names.
Proof. unfold bridge_errors. by rewrite app_nil, !if_nil, !bool_decide_eq_true. Qed.

Lemma validateSubscriptionsAndBridges_None ts subs bs : validateSubscriptionsAndBridges ts subs bs = None ↔
  (melems subs ≠ ∅ ∨ elems bs ≠ []) ∧
  (∀ ref s, melems subs !! ref = Some s → elems (SubscriptionSpec_Outputs (Subscription_Spec s)) ≠ []) ∧
  (∀ b, b ∈ elems bs → bridge_errors (Tenant_Name <$> elems ts) b = []).
Proof.
  unfold validateSubscriptionsAndBridges.
  assert ((0 <? size (melems subs))%nat = negb (bool_decide (melems subs = ∅))) as ->.
  { case_bool_decide as E; [by rewrite E|]. apply Nat.ltb_lt.
    destruct (decide (size (melems subs) = 0%nat)) as [E0|]; [|lia]. by apply map_size_empty_iff in E0. }
  assert ((0 <? length (elems bs))%nat = negb (bool_decide (elems bs = []))) as ->.
  { case_bool_decide as E; [by rewrite E|]. apply Nat.ltb_lt. destruct (elems bs); [done|cbn; lia]. }
  rewrite !negb_involutive.
  assert ((∀ ref s, melems subs !! ref = Some s → elems (SubscriptionSpec_Outputs (Subscription_Spec s)) ≠ []) ↔
    (range_map site_validate_subscriptions (melems subs)).*2 ≫= subscription_errors = []) as ->.
  { rewrite bind_nil_iff. setoid_rewrite elem_of_range_map_values. unfold subscription_errors.
    setoid_rewrite if_singleton_nil. setoid_rewrite <- not_true_iff_false. setoid_rewrite length_zero. naive_solver. }
  rewrite <- (bind_nil_iff (bridge_errors _)).
  case_bool_decide as E1; case_bool_decide as E2; cbn; rewrite ?MultiError_None, ?app_nil, ?E1, ?E2.
  - naive_solver.
  - assert ((range_map site_validate_subscriptions (∅ : gmap NamespacedName Subscription)) = []) as ->
      by by apply range_map_nil. cbn. naive_solver.
  - cbn. naive_solver.
  - naive_solver.
Qed.

Lemma ValidateConfigInput_None c :
  ValidateConfigInput c = None ↔
  in_Tenants c ≠ [] ∧
  (∀ t, t ∈ in_Tenants c → ¬ (TenantStatus_LogSourceNamespaces (Tenant_Status t) ≠ None ∧
                              TenantSpec_SelectFromAllNamespaces (Tenant_Spec t) = true)) ∧
  (in_Subscriptions c ≠ ∅ ∨ in_Bridges c ≠ []) ∧
  (∀ ref s, in_Subscriptions c !! ref = Some s → elems (SubscriptionSpec_Outputs (Subscription_Spec s)) ≠ []) ∧
  (∀ b, b ∈ in_Bridges c → BridgeSpec_SourceTenant (Bridge_Spec b) ∈ Tenant_Name <$> in_Tenants c ∧
                           BridgeSpec_TargetTenant (Bridge_Spec b) ∈ Tenant_Name <$> in_Tenants c).
Proof.
  unfold ValidateConfigInput. destruct (IsEmpty (Some c)) eqn:E.
  - cbn in E. apply andb_prop in E as [E _]. unfold ResourceRelations_is_zero in E.
    rewrite !andb_true_iff in E. destruct E as [[[[[E _] _] _] _] _].
    unfold in_Tenants at 1. destruct (Tenants _); [done|]. naive_solver.
  - rewrite MultiError_None, parts_nil.
    + setoid_rewrite <- tenant_errors_nil. setoid_rewrite <- bridge_errors_nil.
      pose proof (validateTenants_None (Tenants (Input_Relations c))) as H1.
      pose proof (validateSubscriptionsAndBridges_None (Tenants (Input_Relations c))
        (Subscriptions (Input_Relations c)) (Bridges (Input_Relations c))) as H2.
      unfold in_Tenants, in_Subscriptions, in_Bridges. set_solver.
    + intros e [He|[He|[]%not_elem_of_nil]%elem_of_cons]%elem_of_cons.
      * unfold validateTenants in He. case_match; [naive_solver|]. by eapply MultiError_not_empty.
      * unfold validateSubscriptionsAndBridges in He. case_match; [naive_solver|]. by eapply MultiError_not_empty.
Qed.

(** C21. The validation of an input accepts exactly the inputs with a tenant,
    no tenant that both has log source namespaces and selects from all of them,
    a subscription or a bridge, an output in the specification of every
    subscription, and bridges that start and end at tenants of the input. *)
Theorem validate_config_input_exact c :
  ValidateConfigInput c = None ↔
  in_Tenants c ≠ [] ∧
  (∀ t, t ∈ in_Tenants c → ¬ (TenantStatus_LogSourceNamespaces (Tenant_Status t) ≠ None ∧
                              TenantSpec_SelectFromAllNamespaces (Tenant_Spec t) = true)) ∧
  (in_Subscriptions c ≠ ∅ ∨ in_Bridges c ≠ []) ∧
  (∀ ref s, in_Subscriptions c !! ref = Some s → elems (SubscriptionSpec_Outputs (Subscription_Spec s)) ≠ []) ∧
  (∀ b, b ∈ in_Bridges c → BridgeSpec_SourceTenant (Bridge_Spec b) ∈ Tenant_Name <$> in_Tenants c ∧
                           BridgeSpec_TargetTenant (Bridge_Spec b) ∈ Tenant_Name <$> in_Tenants c).
Proof. apply ValidateConfigInput_None. Qed.
End Validation.

(** The errors of the validation are texts, under [multierror]. *)
Section Plain.
Context `{Platform} `{MapRange}.

Lemma plain_multi es : Forall (λ e, Is e ErrNoResources = false) es → Is (ErrMulti es) ErrNoResources = false.
Proof. intros Hes. cbn. induction Hes as [|e es He _ IH]; cbn; [done|]. by rewrite He. Qed.

Lemma plain_MultiError es e :
  Forall (λ e, Is e ErrNoResources = false) es → MultiError es = Some e → Is e ErrNoResources = false.
Proof. intros Hes. destruct es; [done|]. intros [= <-]. by apply plain_multi. Qed.

Lemma plain_flatten e : Is e ErrNoResources = false → Forall (λ e, Is e ErrNoResources = false) (flatten e).
Proof.
  destruct e; cbn; intros He; try by constructor.
  induction es as [|e es IH]; cbn in *; [constructor|]. apply orb_false_iff in He as [??]. auto.
Qed.

Lemma plain_bind {A} (f : A → list error) l :
  (∀ x, Forall (λ e, Is e ErrNoResources = false) (f x)) → Forall (λ e, Is e ErrNoResources = false) (l ≫= f).
Proof. intros Hf. induction l; cbn; [constructor|]. apply Forall_app. auto. Qed.

Lemma ValidateConfigInput_plain c e :
  IsEmpty (Some c) = false → ValidateConfigInput c = Some e → Is e ErrNoResources = false.
Proof.
  intros He. unfold ValidateConfigInput. rewrite He. apply plain_MultiError.
  assert (∀ p e', p = Some e' → (validateTenants (Tenants (Input_Relations c)) = p ∨ validateSubscriptionsAndBridges
    (Tenants (Input_Relations c)) (Subscriptions (Input_Relations c)) (Bridges (Input_Relations c)) = p) →
    Is e' ErrNoResources = false) as Hp.
  { intros p e' -> [E|E].
    - unfold validateTenants in E. case_match; [by injection E as <-|]. revert E. apply plain_MultiError, plain_bind.
      intros t. unfold tenant_errors. case_match; by repeat constructor.
    - unfold validateSubscriptionsAndBridges in E. case_match; [by injection E as <-|]. revert E. apply plain_MultiError.
      apply Forall_app. split; (case_match; [|constructor]); apply plain_bind; intros x.
      + unfold subscription_errors. case_match; by repeat constructor.
      + unfold bridge_errors. apply Forall_app. split; case_match; by repeat constructor. }
  cbn. destruct (validateTenants _) as [e1|]; destruct (validateSubscriptionsAndBridges _ _ _) as [e2|]; cbn;
    rewrite ?app_nil_r; repeat (apply Forall_app; split); try apply plain_flatten; eauto; constructor.
Qed.
End Plain.

Section Empty.
Context `{Platform} `{MapRange} {W : Type} `{!Client W}.

(** What a call gives back, whatever the API server answers *)
Definition gives {A} (Q : A → Prop) (m : M W A) : Prop := ∀ w, Q (m w).2.

Lemma gives_bind {A B} (Q : A → Prop) (R : B → Prop) (m : M W A) f :
  gives Q m → (∀ a, Q a → gives R (f a)) → gives R (bind m f).
Proof. intros Hm Hf w. unfold bind. specialize (Hm w). destruct (m w) as [w' a]. by apply Hf. Qed.

Lemma gives_try {A B} (R : B → Prop) (m : M W (result A)) f :
  (∀ a, gives (on_Ok R) (f a)) → gives (on_Ok R) (try m f).
Proof.
  intros Hf. unfold try. apply (gives_bind (λ _, True)); [done|]. intros [a|e] _; [apply Hf|done].
Qed.

Lemma gather_relations_not_zero collector :
  gives (on_Ok (λ r, ResourceRelations_is_zero r = false)) (gather_relations collector).
Proof.
  unfold gather_relations. do 3 (apply gives_try; intros ?). intros w. cbn.
  unfold ResourceRelations_is_zero. cbn. by rewrite andb_false_r.
Qed.

(** An input that is built is never empty: its maps are allocated before
    anything is read. So the answer that there are no resources, which would end
    the reconciliation quietly, is never given for a built input; a collector
    that selects no tenant fails its validation instead. *)
Theorem built_input_never_empty collector (w w' : W) c :
  BuildConfigInputForCollector collector w = (w', Some (Ok c)) →
  IsEmpty (Some c) = false ∧
  (∀ e, validate_input collector c = Err e → Is e ErrNoResources = false) ∧
  (in_Tenants c = [] → ∃ e, validate_input collector c = Err e).
Proof.
  intros Hb. assert (IsEmpty (Some c) = false) as He.
  { unfold BuildConfigInputForCollector, bind, ret in Hb. pose proof (gather_relations_not_zero collector w) as Hg.
    destruct (gather_relations collector w) as [w1 [r|e]]; [|done].
    destruct (CollectorSpec_MemoryLimiter _); [|done]. cbn in *. injection Hb as _ <-. cbn. by rewrite Hg. }
  split_and!; [done| |].
  - unfold validate_input. intros e. destruct (ValidateConfigInput c) as [e'|] eqn:Ev; [|done].
    destruct (Is e' ErrNoResources) eqn:Ei; [|by intros [= <-]].
    by rewrite (ValidateConfigInput_plain c e' He Ev) in Ei.
  - intros Ht. unfold validate_input. destruct (ValidateConfigInput c) as [e'|] eqn:Ev; [destruct (Is _ _); eauto|].
    by apply ValidateConfigInput_None in Ev as [].
Qed.
End Empty.

(** * What the reconciliation applies *)
Section Creation.
Context `{Platform} `{MapRange} `{!Mapstructure} `{Otel} {W : Type} `{!Client W} `{!ResourceReconciler W}.

(** [m] applies some of [objs], and all of them when its result satisfies [Q]. *)
Definition applies {A} (objs : list owned_object) (Q : A → Prop) (m : M (observed W) A) : Prop :=
  emits (λ l a, l `sublist_of` (Applied <$> objs) ∧ (Q a → l = Applied <$> objs)) m.

Lemma applies_none {A} objs (Q : A → Prop) a : ¬ Q a → applies objs Q (ret a).
Proof. intros Ha. apply emits_ret. split; [apply sublist_nil_l|done]. Qed.

Lemma applies_done {A} (Q : A → Prop) a : applies [] Q (ret a).
Proof. by apply emits_ret. Qed.

Lemma applies_bind {A B} objs1 objs2 (Q : A → Prop) (R : B → Prop) m f :
  applies objs1 Q m → (∀ a, Q a → applies objs2 R (f a)) → (∀ a, ¬ Q a → emits (λ l b, l = [] ∧ ¬ R b) (f a)) →
  (∀ a, Decision (Q a)) → applies (objs1 ++ objs2) R (bind m f).
Proof.
  intros Hm Hf Hn Hd. eapply emits_bind; [exact Hm|]. intros l a [Hl HQ].
  rewrite fmap_app. destruct (Hd a) as [Ha|Ha].
  - rewrite (HQ Ha). eapply emits_weaken; [|by apply Hf]. intros l' b [Hl' HR]. split.
    + by apply sublist_app.
    + intros Hb. by rewrite (HR Hb).
  - eapply emits_weaken; [|by apply Hn]. intros l' b [-> HR]. split; [|done].
    rewrite app_nil_r. by apply sublist_inserts_r.
Qed.

Definition succeeded {A} (r : option (result A)) : Prop := match r with Some (Ok _) => True | _ => False end.

#[export] Instance succeeded_dec {A} (r : option (result A)) : Decision (succeeded r).
Proof. destruct r as [[a|e]|]; apply _. Defined.

Lemma applies_tryP {A B} objs1 objs2 (m : MP (observed W) A) (f : A → MP (observed W) B) :
  applies objs1 succeeded m → (∀ a, applies objs2 succeeded (f a)) → applies (objs1 ++ objs2) succeeded (tryP m f).
Proof.
  intros Hm Hf. eapply applies_bind; [exact Hm| | |apply _].
  - intros [[a|e]|] []. apply Hf.
  - intros [[a|e]|] Ha; [by destruct Ha| |]; apply emits_ret; cbn; auto.
Qed.

(** An object is applied once its owner could be set. *)
Lemma applies_object collector o m1 m2 : applies [o] succeeded (apply_owned (W := observed W) collector o m1 m2).
Proof.
  intros s s' a. unfold apply_owned, tryP, pureP, lift, wrapM, bind, ret. cbn.
  destruct (SetControllerReference collector o) as [e|]; cbn.
  - intros [= <- <-]. exists []. rewrite app_nil_r. split; [done|]. split; [apply sublist_nil_l|done].
  - unfold noting. destruct (ReconcileResource o s.1) as [w e]. cbn. intros [= <- <-]. exists [Applied o]. done.
Qed.

Lemma applies_reference collector o msg1 msg2 (m : M (observed W) (option error)) :
  m = match SetControllerReference collector o with
      | Some e => ret (Some (ErrWrap msg1 e))
      | None => bind (ReconcileResource o) (λ err, ret (wrap_err msg2 err))
      end →
  applies [o] (λ e, e = None) m.
Proof.
  intros -> s s' a. destruct (SetControllerReference collector o) as [e|]; cbn.
  - intros [= <- <-]. exists []. rewrite app_nil_r. split; [done|]. split; [apply sublist_nil_l|done].
  - unfold bind, ret, noting. destruct (ReconcileResource o s.1) as [w e]. cbn. intros [= <- <-]. exists [Applied o]. done.
Qed.

Definition rbac_objects (collector : Collector) : list owned_object :=
  [ OwnedClusterRole (cluster_role collector); OwnedServiceAccount (service_account collector);
    OwnedClusterRoleBinding (cluster_role_binding collector) ].

Definition sa_ref (collector : Collector) : NamespacedName :=
  mkNamespacedName (SA_Namespace (service_account collector)) (SA_Name (service_account collector)).

Lemma applies_service_account collector :
  emits (λ l r, l `sublist_of` (Applied <$> [OwnedServiceAccount (service_account collector)]) ∧
      ∀ n, r = Ok n → n = sa_ref collector ∧ l = [Applied (OwnedServiceAccount (service_account collector))])
    (reconcileServiceAccount (W := observed W) collector).
Proof.
  intros s s' a. unfold reconcileServiceAccount. cbn [SetControllerReference ReconcileResource observed_reconciler].
  destruct (SetControllerReference collector _) as [e|].
  - intros [= <- <-]. exists []. rewrite app_nil_r. split; [done|]. split; [apply sublist_nil_l|done].
  - unfold bind, ret, noting. destruct (ReconcileResource _ s.1) as [w [e|]]; cbn; intros [= <- <-];
      (eexists; split; [done|]; split; [done|]); [done|]. by intros n [= <-].
Qed.

Lemma Combine_None os : Combine os = None ↔ ∀ o, o ∈ os → o = None.
Proof.
  unfold Combine. assert (omap id os = [] ↔ ∀ o, o ∈ os → o = None) as Ho.
  { induction os as [|[e|] os IH]; cbn; [set_solver| |rewrite IH; set_solver].
    split; [done|]. intros Hn. by specialize (Hn (Some e) (list_elem_of_here _ _)). }
  rewrite <- Ho. destruct (omap id os) as [|e [|]]; done.
Qed.

Lemma applies_RBAC collector :
  emits (λ l r, l `sublist_of` (Applied <$> rbac_objects collector) ∧
      ∀ n, r = Ok n → n = sa_ref collector ∧ l = Applied <$> rbac_objects collector)
    (ReconcileRBAC (W := observed W) collector).
Proof.
  unfold ReconcileRBAC. eapply emits_bind; [by eapply applies_reference|]. intros l1 e1 [S1 Q1].
  eapply emits_bind; [apply applies_service_account|]. intros l2 sa [S2 Q2].
  eapply emits_bind; [by eapply applies_reference|]. intros l3 e3 [S3 Q3]. apply emits_ret.
  rewrite app_nil_r. split.
  - by apply (sublist_app _ [_] _ [_;_]), (sublist_app _ [_] _ [_]).
  - intros n Hn. destruct sa as [n'|e]; destruct (Combine _) as [e'|] eqn:Ec in Hn; try discriminate Hn.
    injection Hn as <-. rewrite Combine_None in Ec. destruct (Q2 n' eq_refl) as [-> ->].
    rewrite Q1 by apply Ec, list_elem_of_here.
    rewrite Q3 by (apply Ec; do 2 apply list_elem_of_further; apply list_elem_of_here). done.
Qed.
(** The configuration that passed both validations *)
Definition accepted (collector : Collector) (s : observed W) (c : OtelColConfigInput) (cfg : Config) (args : gmap string string) : Prop :=
  (∃ s1, BuildConfigInputForCollector collector s = (s1, Some (Ok c))) ∧ ValidateConfigInput c = None ∧
  AssembleConfig c = Some (cfg, args) ∧ ValidateAssembledConfig cfg = Some None.

Definition all_objects (collector : Collector) (c : OtelColConfigInput) (oc : OpenTelemetryCollector) : list owned_object :=
  rbac_objects collector ++ [OwnedSecret (AuthSecret collector (in_Outputs c)); OwnedCollector oc].

(** Some of the objects, and the collector only with all of them *)
Definition in_order (all : list owned_object) (l : list event) : Prop :=
  l `sublist_of` (Applied <$> all) ∧ ((∃ oc, Applied (OwnedCollector oc) ∈ l) → l = Applied <$> all).

Definition names_of (c : OtelColConfigInput) : list string := Tenant_Name <$> in_Tenants c.

(** The end of the creation: the objects are applied. *)
Definition apply_all (collector : Collector) (c : OtelColConfigInput) (cfg : Config) (args : gmap string string)
    (done : Collector) (m : string) (m1 m2 m3 m4 : string) : MP (observed W) Collector :=
  tryP (lift (wrapM m (ReconcileRBAC collector))) (λ saName,
  tryP (apply_owned collector (OwnedSecret (AuthSecret collector (in_Outputs c))) m1 m2) (λ _,
  tryP (pureP (Ok <$> OtelCollector collector cfg args (in_Tenants c) (in_Outputs c) (NamespacedName_Name saName))) (λ oc,
  tryP (apply_owned collector (OwnedCollector oc) m3 m4) (λ _, pureP (Some (Ok done)))))).

Lemma emits_tryP {A B} (Q : list event → option (result A) → Prop) (R : list event → option (result B) → Prop)
    (m : MP (observed W) A) (f : A → MP (observed W) B) :
  emits Q m → (∀ l e, Q l (Some (Err e)) → R l (Some (Err e))) → (∀ l, Q l None → R l None) →
  (∀ l a, Q l (Some (Ok a)) → emits (λ l', R (l ++ l')) (f a)) → emits R (tryP m f).
Proof.
  intros Hm He Hn Hf. eapply emits_bind; [exact Hm|]. intros l [[a|e]|] HQ; [by apply Hf| |];
    apply emits_ret; rewrite app_nil_r; auto.
Qed.

Lemma emits_lift_wrap {A} (Q : list event → result A → Prop) (m : M (observed W) (result A)) msg :
  emits Q m → emits (λ l r, ∃ r', Q l r' ∧ r = Some (wrap msg r')) (lift (wrapM msg m)).
Proof.
  intros Hm s s' a. unfold lift, wrapM, bind, ret. destruct (m s) as [s1 r] eqn:E. intros [= <- <-].
  destruct (Hm _ _ _ E) as (l & El & HQ). eauto.
Qed.

Lemma not_collector (objs : list owned_object) l :
  l `sublist_of` (Applied <$> objs) → (∀ oc, OwnedCollector oc ∉ objs) → ¬ ∃ oc, Applied (OwnedCollector oc) ∈ l.
Proof.
  intros Hl Ho [oc Hin]. apply (Ho oc).
  assert (Applied (OwnedCollector oc) ∈ Applied <$> objs) as (o & [= <-] & ?)%list_elem_of_fmap; [|done].
  by eapply elem_of_sublist.
Qed.

Lemma partial_in_order objs rest l :
  l `sublist_of` (Applied <$> objs) → (∀ oc, OwnedCollector oc ∉ objs) → in_order (objs ++ rest) l.
Proof.
  intros Hl Ho. split; [rewrite fmap_app; by apply sublist_inserts_r|]. intros Hin. by destruct (not_collector _ _ Hl Ho).
Qed.

Lemma rbac_not_collector collector oc : OwnedCollector oc ∉ rbac_objects collector.
Proof. unfold rbac_objects. rewrite !elem_of_cons, elem_of_nil. naive_solver. Qed.

Lemma last_in_order objs o l :
  l `sublist_of` (Applied <$> [o]) → (∀ oc, OwnedCollector oc ∉ objs) → in_order (objs ++ [o]) ((Applied <$> objs) ++ l).
Proof.
  intros Hl Ho. cbn in Hl. apply sublist_cons_r in Hl as [Hl|(k & -> & Hk)].
  - apply sublist_nil_r in Hl as ->. rewrite app_nil_r. by apply partial_in_order.
  - apply sublist_nil_r in Hk as ->. unfold in_order. by rewrite fmap_app.
Qed.

Definition before_collector (collector : Collector) (c : OtelColConfigInput) : list owned_object :=
  rbac_objects collector ++ [OwnedSecret (AuthSecret collector (in_Outputs c))].

Lemma all_objects_split collector c oc : all_objects collector c oc = before_collector collector c ++ [OwnedCollector oc].
Proof. done. Qed.

Lemma before_not_collector collector c oc : OwnedCollector oc ∉ before_collector collector c.
Proof.
  unfold before_collector. rewrite elem_of_app, list_elem_of_singleton. intros [?%rbac_not_collector|?]; done.
Qed.

Lemma collector_in_order collector c oc l :
  l `sublist_of` (Applied <$> [OwnedCollector oc]) →
  in_order (all_objects collector c oc) ((Applied <$> before_collector collector c) ++ l).
Proof. intros Hl. rewrite all_objects_split. by apply last_in_order; [|apply before_not_collector]. Qed.

Lemma before_app collector c l :
  (Applied <$> rbac_objects collector) ++ (Applied <$> [OwnedSecret (AuthSecret collector (in_Outputs c))]) ++ [] ++ l
  = (Applied <$> before_collector collector c) ++ l.
Proof. unfold before_collector. by rewrite fmap_app, <- app_assoc. Qed.

Lemma secret_in_order collector c oc l :
  l `sublist_of` (Applied <$> [OwnedSecret (AuthSecret collector (in_Outputs c))]) →
  in_order (all_objects collector c oc) ((Applied <$> rbac_objects collector) ++ l).
Proof.
  intros Hl. rewrite all_objects_split. apply partial_in_order; [|apply before_not_collector].
  unfold before_collector. rewrite fmap_app. by apply sublist_app.
Qed.

Lemma emits_apply_all collector c cfg args oc res m m1 m2 m3 m4 :
  OtelCollector collector cfg args (in_Tenants c) (in_Outputs c) (SA_Name (service_account collector)) = Some oc →
  emits (λ l r, in_order (all_objects collector c oc) l ∧
      ∀ a, r = Some (Ok a) → l = Applied <$> all_objects collector c oc ∧ a = res)
    (apply_all collector c cfg args res m m1 m2 m3 m4).
Proof.
  intros Hoc. unfold apply_all. eapply emits_tryP; [apply emits_lift_wrap, applies_RBAC| | |].
  - intros l e (r & [Hl _] & _). split; [|done]. apply partial_in_order; [done|apply rbac_not_collector].
  - by intros l (r & _ & ?).
  - intros l n (r & [_ Hr] & E). symmetry in E. injection E as E. apply wrap_Ok in E.
    destruct (Hr n E) as [-> ->]. clear Hr E. eapply emits_tryP; [apply applies_object| | |].
    + intros l' e [Hl _]. split; [by apply secret_in_order|done].
    + intros l' [Hl _]. split; [by apply secret_in_order|done].
    + intros l' [] [_ Hl]. rewrite (Hl I). clear l' Hl. cbn [NamespacedName_Name sa_ref]. rewrite Hoc.
      eapply (emits_tryP (λ l r, l = [] ∧ r = Some (Ok oc))); [by apply emits_ret|by intros ?? []|by intros ? []|].
      intros l' oc' [-> [= <-]]. eapply emits_tryP; [apply applies_object| | |].
      * intros l' e [Hl _]. split; [|done]. rewrite before_app. by apply collector_in_order.
      * intros l' [Hl _]. split; [|done]. rewrite before_app. by apply collector_in_order.
      * intros l' [] [_ Hl]. rewrite (Hl I). apply emits_ret. rewrite app_nil_r, before_app. split.
        -- by apply collector_in_order.
        -- intros a [= <-]. split; [|done]. rewrite all_objects_split, fmap_app. done.
Qed.
Lemma OtelCollector_total collector f cfg args tenants outputs saName :
  CollectorSpec_OtelCommonFields (Collector_Spec collector) = Some f →
  ∃ oc, OtelCollector collector cfg args tenants outputs saName = Some oc ∧ Otel_Config oc = cfg.
Proof.
  intros Hf. assert (∃ m, CollectorSpec_GetMemoryLimit (Collector_Spec collector) = Some m) as [m Em].
  { unfold CollectorSpec_GetMemoryLimit. rewrite Hf. repeat case_match; eauto. }
  unfold OtelCollector. rewrite Hf, Em. cbn. eauto.
Qed.

(** What the creation logged, with its result: nothing, or the objects of an
    accepted configuration *)
Definition creation_outcome (collector : Collector) (s : observed W) (l : list event) (r : option (result Collector)) : Prop :=
  (l = [] ∧ ¬ succeeded r) ∨
  ∃ c cfg args oc, accepted collector s c cfg args ∧
    OtelCollector collector cfg args (in_Tenants c) (in_Outputs c) (SA_Name (service_account collector)) = Some oc ∧
    in_order (all_objects collector c oc) l ∧
    ∀ a, r = Some (Ok a) →
      l = Applied <$> all_objects collector c oc ∧ a = Collector_set_Tenants (Some (NormalizeStringSlice (names_of c))) collector.

Lemma creation_spec collector f s s' r :
  CollectorSpec_OtelCommonFields (Collector_Spec collector) = Some f →
  handleCollectorCreation (W := observed W) collector s = (s', r) →
  ∃ l, s'.2 = s.2 ++ l ∧ creation_outcome collector s l r.
Proof.
  intros Hf. unfold handleCollectorCreation, wrapP at 1, tryP at 1, bind at 1 2.
  destruct (BuildConfigInputForCollector collector s) as [s1 b] eqn:Eb.
  destruct (silent_build collector _ _ _ Eb) as (l0 & El & ->). rewrite app_nil_r in El. unfold ret at 1.
  assert (∀ r', ¬ succeeded r' → ret r' s1 = (s', r) → ∃ l, s'.2 = s.2 ++ l ∧ creation_outcome collector s l r) as Hstop.
  { intros r' Hr [= <- <-]. exists []. rewrite app_nil_r. split; [done|]. by left. }
  destruct b as [[c|e]|]; cbn [fmap option_fmap option_map wrap]; try (refine (Hstop _ _); exact (λ x, x)).
  unfold tryP at 1, pureP at 1, bind at 1, ret at 1.
  destruct (validate_input collector c) as [[]|e] eqn:Ev; [|refine (Hstop _ _); exact (λ x, x)].
  assert (ValidateConfigInput c = None) as Ev'.
  { revert Ev. unfold validate_input. destruct (ValidateConfigInput c) as [e|]; [by destruct (Is e _)|done]. }
  unfold tryP at 1, pureP at 1, bind at 1, ret at 1.
  destruct (AssembleConfig c) as [[cfg args]|] eqn:Ea; cbn [fmap option_fmap option_map]; [|refine (Hstop _ _); exact (λ x, x)].
  unfold tryP at 1, wrapP at 1, pureP at 1, bind at 1 2, ret at 1 2.
  destruct (ValidateAssembledConfig cfg) as [[e|]|] eqn:Ec; cbn [fmap option_fmap option_map of_error wrap]; try (refine (Hstop _ _); exact (λ x, x)).
  destruct (OtelCollector_total collector f cfg args (in_Tenants c) (in_Outputs c) (SA_Name (service_account collector)) Hf) as (oc & Hoc & _).
  intros E. eapply (emits_apply_all collector c cfg args oc) in E as (l & El' & Hl); [|done].
  exists l. rewrite El', El. split; [done|]. right. exists c, cfg, args, oc. split; [by split; [eauto|]|done].
Qed.

(** * What the reconciliation sends and answers *)
(** The reconciliation after the creation: the log and the answer *)
Definition reported (collector : Collector) (r : option (result Collector)) (sent : list event)
    (res : option reconcile_result) : Prop :=
  match r with
  | None => sent = [] ∧ res = None
  | Some (Ok done) =>
      let final := ClearProblems (Collector_set_State StateReady done) in
      sent = (if bool_decide (Collector_Status collector = Collector_Status final) then [] else [Sent (WCollector final)]) ∧
      ∃ err, res = Some (mkReconcileResult None err) ∧ (sent = [] → err = None)
  | Some (Err e) =>
      if IsConflict e then sent = [] ∧ res = Some (mkReconcileResult (Some requeueDelayOnConflict) None)
      else if Is e ErrTenantFailed then sent = [] ∧ res = Some (mkReconcileResult (Some requeueDelayOnFailedTenant) None)
      else if Is e ErrNoResources then sent = [] ∧ res = Some (mkReconcileResult None None)
      else
        sent = [Sent (WCollector (Collector_set_State StateFailed (Add collector [error_text e])))] ∧
        ∃ err, res = Some (mkReconcileResult None (Some err)) ∧
          (err = e ∨ ∃ u, err = ErrCombine [e; ErrWrap "failed updating collector status" u])
  end.

Lemma emits_finish original (final : Collector) :
  emits (λ l r, l = (if bool_decide (original = Collector_Status (ClearProblems (Collector_set_State StateReady final)))
                     then [] else [Sent (WCollector (ClearProblems (Collector_set_State StateReady final)))]) ∧
           RequeueAfter r = None ∧ (l = [] → Result_error r = None))
    (finish_collector (W := observed W) original final).
Proof.
  unfold finish_collector. case_bool_decide; cbn [negb].
  - by apply emits_ret.
  - eapply emits_bind; [apply emits_noting|]. intros l u ->. by apply emits_ret.
Qed.

Lemma reconcile_reported name (w w1 : W) collector s' res :
  Get_Collector name w = (w1, Ok collector) →
  Reconcile_Collector (W := observed W) name (w, []) = (s', res) →
  ∃ l r sent s2, handleCollectorCreation (W := observed W) (Collector_SetDefaults collector) (w1, []) = (s2, r) ∧ s2.2 = l ∧
    s'.2 = l ++ sent ∧ creation_outcome (Collector_SetDefaults collector) (w1, []) l r ∧
    reported (Collector_SetDefaults collector) r sent res.
Proof.
  intros Hg. unfold Reconcile_Collector, bind at 1. cbn [Get_Collector observed_client client_over].
  unfold quietly at 1. cbn [fst snd]. rewrite Hg. unfold bind at 1. cbn [fst snd].
  set (col := Collector_SetDefaults collector).
  destruct (handleCollectorCreation (W := observed W) col (w1, [])) as [s2 r] eqn:Ec.
  destruct (creation_spec col (default CommonFields_zero (CollectorSpec_OtelCommonFields (Collector_Spec collector))) _ _ _ eq_refl Ec)
    as (l & El & Hout). cbn in El. intros E.
  assert (∃ sent, s'.2 = l ++ sent ∧ reported col r sent res) as (sent & Es & Hr).
  2:{ exists l, r, sent, s2. done. }
  rewrite <- El. destruct r as [[final|e]|].
  - unfold bind in E. destruct (finish_collector _ final s2) as [s3 rr] eqn:Ef. injection E as <- <-.
    destruct (emits_finish _ _ _ _ _ Ef) as (sent & Es & Hs & Hn & He). exists sent. split; [done|]. split; [done|].
    exists (Result_error rr). destruct rr; cbn in *. by subst.
  - unfold bind in E. destruct (handleCollectorReconcileError col e s2) as [s3 rr] eqn:Ef. injection E as <- <-.
    unfold handleCollectorReconcileError in Ef. unfold reported.
    destruct (IsConflict e); [|destruct (Is e ErrTenantFailed); [|destruct (Is e ErrNoResources)]];
      try (injection Ef as <- <-; exists []; by rewrite app_nil_r).
    unfold bind, ret in Ef. cbn [Update_Collector_status observed_client client_over] in Ef. unfold noting in Ef.
    destruct (Update_Collector_status _ s2.1) as [w2 u]. injection Ef as <- <-. eexists. split; [done|].
    split; [done|]. destruct u as [u|]; cbn; eauto 10.
  - injection E as <- <-. exists []. by rewrite app_nil_r.
Qed.

(** The objects in a log *)
Definition applied_objects (log : list event) : list owned_object :=
  omap (λ e, match e with Applied o => Some o | Sent _ => None end) log.

Lemma applied_objects_app objs ws : applied_objects ((Applied <$> objs) ++ (Sent <$> ws)) = objs.
Proof.
  unfold applied_objects. rewrite omap_app.
  assert (omap (λ e, match e with Applied o => Some o | Sent _ => None end) (Sent <$> ws) = []) as ->
    by by induction ws.
  rewrite app_nil_r. induction objs as [|o objs IH]; cbn; [done|]. by f_equal.
Qed.

(** The object belongs to an accepted configuration of the collector; if it is
    the OpenTelemetryCollector, it carries that configuration and everything was
    applied before it. *)
Definition justified (name : string) (w : W) (log : list event) (o : owned_object) : Prop :=
  ∃ collector0 w1 c cfg args oc, Get_Collector name w = (w1, Ok collector0) ∧
    let collector := Collector_SetDefaults collector0 in
    accepted collector (w1, []) c cfg args ∧
    OtelCollector collector cfg args (in_Tenants c) (in_Outputs c) (SA_Name (service_account collector)) = Some oc ∧
    o ∈ all_objects collector c oc ∧
    ∀ oc', o = OwnedCollector oc' → oc' = oc ∧ Otel_Config oc = cfg ∧
      applied_objects log = all_objects collector c oc.

(** C5. No object is applied that was not derived from an accepted
    configuration: whatever the API server and the resource reconciler answer,
    every object that the reconciliation of a collector applies belongs to a
    configuration whose input and whose assembled form both passed their
    validation, and an OpenTelemetryCollector is applied only with exactly that
    configuration, last, after the role, the service account, the binding and
    the secret that its environment refers to. *)
Theorem collector_applies_validated name (w w' : W) log res o :
  Reconcile_Collector (W := observed W) name (w, []) = ((w', log), res) →
  Applied o ∈ log →
  justified name w log o.
Proof.
  intros Hr Ho. destruct (Get_Collector name w) as [w1 [collector0|e]] eqn:Eg.
  2:{ revert Hr. unfold Reconcile_Collector, bind at 1. cbn [Get_Collector observed_client client_over].
      unfold quietly. cbn [fst snd]. rewrite Eg. intros [= _ <- _]. by apply not_elem_of_nil in Ho. }
  destruct (reconcile_reported name w w1 collector0 _ _ Eg Hr) as (l & r & sent & s2 & _ & _ & Elog & Hc & Hrep).
  cbn in Elog. subst log.
  assert (∃ ws, sent = Sent <$> ws) as [ws ->].
  { unfold reported in Hrep. repeat case_match; destruct Hrep as [-> _]; try (by exists []); by eexists [_]. }
  assert (Applied o ∈ l) as Hol.
  { apply elem_of_app in Ho as [?|(x & ? & _)%list_elem_of_fmap]; done. }
  destruct Hc as [[-> _]|(c & cfg & args & oc & Hacc & Hoc & [Hsub Hall] & _)]; [by apply not_elem_of_nil in Hol|].
  exists collector0, w1, c, cfg, args, oc. split; [done|]. split; [done|]. split; [done|].
  assert (∀ o', Applied o' ∈ l → o' ∈ all_objects (Collector_SetDefaults collector0) c oc) as Hin.
  { intros o' Ho'. assert (Applied o' ∈ Applied <$> all_objects (Collector_SetDefaults collector0) c oc)
      as (x & [= <-] & ?)%list_elem_of_fmap by (by eapply elem_of_sublist). done. }
  split; [by apply Hin|]. intros oc' ->. split_and!.
  - assert (OwnedCollector oc' ∈ all_objects (Collector_SetDefaults collector0) c oc) as Ho' by by apply Hin.
    rewrite all_objects_split, elem_of_app, list_elem_of_singleton in Ho'.
    destruct Ho' as [?%before_not_collector|[= ->]]; done.
  - by destruct (OtelCollector_total (Collector_SetDefaults collector0) _ cfg args (in_Tenants c) (in_Outputs c)
      (SA_Name (service_account (Collector_SetDefaults collector0))) eq_refl) as (oc2 & [= <-]%(eq_trans (eq_sym Hoc)) & ?).
  - rewrite Hall by eauto. apply applied_objects_app.
Qed.
(** The status updates in a log *)
Definition sent_updates (log : list event) : list access :=
  omap (λ e, match e with Applied _ => None | Sent x => Some x end) log.

Lemma sent_updates_app objs ws : sent_updates ((Applied <$> objs) ++ (Sent <$> ws)) = ws.
Proof.
  unfold sent_updates. rewrite omap_app.
  assert (omap (λ e, match e with Applied _ => None | Sent x => Some x end) (Applied <$> objs) = []) as ->
    by by induction objs.
  induction ws as [|x ws IH]; cbn; [done|]. by f_equal.
Qed.

Lemma no_updates objs l ws : l `sublist_of` (Applied <$> objs) → sent_updates (l ++ (Sent <$> ws)) = ws.
Proof.
  intros Hl. assert (∃ objs', l = Applied <$> objs') as [objs' ->]; [|apply sent_updates_app].
  assert (Forall (λ e, ∃ o, e = Applied o) l) as Hf.
  { apply Forall_forall. intros e He. apply (elem_of_sublist _ _ _ He) in Hl as (o & -> & _)%list_elem_of_fmap || idtac.
    assert (e ∈ Applied <$> objs) as (o & -> & _)%list_elem_of_fmap by (by eapply elem_of_sublist). eauto. }
  clear Hl. induction Hf as [|e l [o ->] _ [objs' ->]]; [by exists []|by exists (o :: objs')].
Qed.

Lemma creation_outcome_log collector s l r ws :
  creation_outcome collector s l r → sent_updates (l ++ (Sent <$> ws)) = ws.
Proof.
  intros [[-> _]|(c & cfg & args & oc & _ & _ & [Hl _] & _)]; [|by eapply no_updates].
  apply (no_updates []). apply sublist_nil_l.
Qed.

(** The status update and the answer that go with the outcome of the creation *)
Definition reports (collector0 : Collector) (w1 : W) (log : list event) (res : reconcile_result) : Prop :=
  let collector := Collector_SetDefaults collector0 in
  ∃ s2 r, handleCollectorCreation (W := observed W) collector (w1, []) = (s2, r) ∧
  match r with
  | None => False
  | Some (Ok _) => ∃ c cfg args final, accepted collector (w1, []) c cfg args ∧
      sent_updates log = [WCollector final] ∧ RequeueAfter res = None ∧
      Collector_Name final = Collector_Name collector0 ∧
      Collector_Status final = mkCollectorStatus (Some (NormalizeStringSlice (names_of c))) StateReady (Some []) 0
  | Some (Err e) =>
      if IsConflict e then sent_updates log = [] ∧ res = mkReconcileResult (Some 1) None
      else if Is e ErrTenantFailed then sent_updates log = [] ∧ res = mkReconcileResult (Some 20) None
      else if Is e ErrNoResources then sent_updates log = [] ∧ res = mkReconcileResult None None
      else ∃ final, sent_updates log = [WCollector final] ∧ CollectorStatus_State (Collector_Status final) = StateFailed ∧
        (TrimSpace (error_text e) ≠ "" → TrimSpace (error_text e) ∈ elems (CollectorStatus_Problems (Collector_Status final))) ∧
        RequeueAfter res = None ∧ is_Some (Result_error res)
  end.

End Creation.

(** * A failed tenant *)
Section FailedTenant.
Context `{Platform} `{MapRange} `{!Mapstructure} `{Otel} {W : Type} `{!Client W} `{!ResourceReconciler W} (w : W).

(** A call that succeeds and changes nothing *)
Definition answers {A} (m : M W (result A)) : Prop := ∃ a, m w = (w, Ok a).

Lemma answers_try {A B} (m : M W (result A)) (f : A → M W (result B)) :
  answers m → (∀ a, answers (f a)) → answers (try m f).
Proof. intros [a E] Hf. unfold answers, try, bind. rewrite E. apply Hf. Qed.

Lemma answers_try_at {A B} (m : M W (result A)) (f : A → M W (result B)) a :
  m w = (w, Ok a) → answers (f a) → answers (try m f).
Proof. intros E Hf. unfold answers, try, bind. by rewrite E. Qed.

Lemma answers_wrapM {A} msg (m : M W (result A)) : answers m → answers (wrapM msg m).
Proof. intros [a E]. exists a. unfold wrapM, bind, ret. by rewrite E. Qed.

Lemma answers_loop {A S} (f : A → S → M W (result S)) xs :
  (∀ x s, x ∈ xs → answers (f x s)) → ∀ s, answers (loop f xs s).
Proof.
  induction xs as [|x xs IH]; intros Hf s; cbn; [by exists s|].
  apply answers_try; [apply Hf, list_elem_of_here|]. apply IH. intros y s' Hy. by apply Hf, list_elem_of_further.
Qed.

(** Everything that the status of the tenant refers to can be read. *)
Definition readable (t : Tenant) : Prop :=
  (∀ ref, ref ∈ status_subscriptions t → answers (Get_Subscription ref)) ∧
  (∀ b, b ∈ status_bridges t → answers (Get_Bridge b)).

Lemma gather_tenant_answers t g :
  readable t → TenantStatus_State (Tenant_Status t) ≠ StateFailed → answers (gather_tenant t g).
Proof.
  intros [Hs Hb] Hf. unfold gather_tenant. rewrite bool_decide_false by done.
  apply answers_try; [|intros subs; apply answers_try; [|intros bs; by eexists]].
  - apply answers_loop. intros ref m Hin. apply answers_try; [by apply answers_wrapM, Hs|]. intros s. by eexists.
  - apply answers_loop. intros b bs Hin. apply answers_try; [by apply answers_wrapM, Hb|]. intros b'. by eexists.
Qed.

Lemma failed_tenant_found ts g :
  (∀ t, t ∈ ts → readable t) → (∃ t, t ∈ ts ∧ TenantStatus_State (Tenant_Status t) = StateFailed) →
  loop gather_tenant ts g w = (w, Err (ErrSentinel ErrTenantFailed)).
Proof.
  revert g. induction ts as [|t ts IH]; intros g Hr (f & Hin & Hf); [by apply not_elem_of_nil in Hin|].
  cbn [loop]. unfold try, bind. destruct (decide (TenantStatus_State (Tenant_Status t) = StateFailed)) as [Ht|Ht].
  - unfold gather_tenant. by rewrite bool_decide_true.
  - destruct (gather_tenant_answers t g (Hr t (list_elem_of_here _ _)) Ht) as [g' ->]. apply IH.
    + intros t' Ht'. by apply Hr, list_elem_of_further.
    + apply elem_of_cons in Hin as [->|Hin]; [done|eauto].
Qed.

End FailedTenant.

(** * The sample cluster *)
#[local] Existing Instance sample_platform.

#[local] Instance sample_decoders : Mapstructure := {
  telemetry_Config := unit; NewDecoder _ := None; Decode_components _ _ _ := Returns ∅;
  Decode_telemetry _ _ := Returns tt; Decode_pipelines _ _ := Returns ∅; otelcol_Validate _ := None
}.
#[local] Instance sample_otel : Otel := {
  is_type s := negb (bool_decide (s = ""));
  is_signal s := bool_decide (s = "logs") || bool_decide (s = "metrics") || bool_decide (s = "traces");
  parse_level _ := None; parse_zap_level _ := None
}.
#[local] Instance sample_reconciler : ResourceReconciler cluster := {
  SetControllerReference _ _ := None;
  ReconcileResource _ := λ w, (w, None)
}.

Lemma built_input_never_empty_witness : IsEmpty (Some built_input_sample) = false.
Proof.
  eapply (built_input_never_empty settled_collector settled_cluster settled_cluster built_input_sample).
  vm_compute. reflexivity.
Defined.

Definition settled_run := Reconcile_Collector (W := observed cluster) "main" (settled_cluster, []).
Definition settled_log : list event := settled_run.1.2.
Lemma settled_run_eq : settled_run = ((settled_run.1.1, settled_log), settled_run.2).
Proof. unfold settled_log. by destruct settled_run as [[? ?] ?]. Qed.

Definition fifth_is_collector (log : list event) : bool :=
  match log with [_; _; _; _; Applied (OwnedCollector _); _] => true | _ => false end.

Lemma settled_collector_applied : ∃ oc, Applied (OwnedCollector oc) ∈ settled_log.
Proof.
  assert (fifth_is_collector settled_log = true) as Hl by by vm_compute.
  destruct settled_log as [|e1 [|e2 [|e3 [|e4 [|[[]|] [|e6 [|]]]]]]]; try discriminate Hl.
  eexists. do 4 apply list_elem_of_further. apply list_elem_of_here.
Qed.

Lemma collector_applies_validated_witness : ∃ oc, justified "main" settled_cluster settled_log (OwnedCollector oc).
Proof.
  destruct settled_collector_applied as [oc Hin]. exists oc.
  exact (collector_applies_validated "main" settled_cluster settled_run.1.1 settled_log settled_run.2 _ settled_run_eq Hin).
Defined.

Lemma settled_run_result : settled_run.2 = Some (mkReconcileResult None None).
Proof. by vm_compute. Qed.


(** The same cluster with the tenant failed *)
Definition failing_tenant : Tenant := Tenant_set_State StateFailed settled_tenant.
Definition failing_cluster : cluster :=
  mkCluster ["team"; "apps"] [failing_tenant] [] [sample_collector]
    (cl_resources settled_cluster) [sample_secret] false.

