(* ===== verification/PodSpec.v ===== *)
(** The pods of a collector: the credentials that reach them, the volumes they
    mount, and their memory limit. *)
From S2P Require Import Prelude Strs Json Errors ApiOtlp ApiOutput ApiTypes Kube Utils Relations.
From S2P Require Import Exporters Processors Receivers Extensions Connectors ConfGen ConfGenFacts PipelineFacts WfInput.
From S2P Require Import Samples CollectorManager.

(** * Texts with a common end *)
Lemma length_app_str (s t : string) : String.length (s +:+ t) = (String.length s + String.length t)%nat.
Proof. induction s as [|a s IH]; [done|]. rewrite app_cons_str. cbn. by rewrite IH. Qed.

Lemma app_end_inj (s1 s2 t1 t2 : string) :
  String.length t1 = String.length t2 → s1 +:+ t1 = s2 +:+ t2 → s1 = s2 ∧ t1 = t2.
Proof.
  intros Hl. revert s2. induction s1 as [|a s1 IH]; intros [|b s2]; rewrite ?app_cons_str; intros E.
  - done.
  - exfalso. apply (f_equal String.length) in E. rewrite app_nil_l_str in E. cbn in E. rewrite length_app_str in E. lia.
  - exfalso. apply (f_equal String.length) in E. rewrite app_nil_l_str in E. cbn in E. rewrite length_app_str in E. lia.
  - injection E as -> E. destruct (IH s2 E) as [-> ->]. done.
Qed.

Section Credentials.
Context `{Platform}.
Implicit Types (o : OutputWithSecretData).

(** What an output adds to the secret *)
Definition auth_data (o : OutputWithSecretData) : gmap string string := auth_secret_data ∅ o.

Lemma auth_secret_data_union m o : auth_secret_data m o = auth_data o ∪ m.
Proof.
  unfold auth_data, auth_secret_data, maps_copy. destruct (OutputSpec_Authentication _) as [a|]; [|by rewrite (left_id_L ∅ (∪))].
  destruct (OutputAuth_BasicAuth a), (OutputAuth_BearerAuth a); rewrite ?(right_id_L ∅ (∪)), ?(left_id_L ∅ (∪)); try done.
  by rewrite (assoc_L (∪)).
Qed.

(** A key that only [o] writes holds what [o] wrote. *)
Lemma foldl_auth_data outs k o :
  (∀ o', o' ∈ outs → o' = o ∨ auth_data o' !! k = None) →
  let r := foldl auth_secret_data ∅ outs !! k in (r = None ∨ r = auth_data o !! k) ∧ (o ∈ outs → r = auth_data o !! k).
Proof.
  cbn. induction outs as [|x outs IH] using rev_ind; intros Hk; [split; [by left|by intros ?%not_elem_of_nil]|].
  rewrite foldl_snoc, auth_secret_data_union, lookup_union.
  destruct IH as [IH1 IH2]; [intros o' Ho'; apply Hk, elem_of_app; by left|].
  destruct (Hk x) as [->|Hx]; [apply elem_of_app; right; apply list_elem_of_here| |].
  - destruct IH1 as [->| ->]; destruct (auth_data o !! k); cbn; auto.
  - rewrite Hx, (left_id_L None _). split; [done|]. rewrite elem_of_app, list_elem_of_singleton.
    intros [Ho| ->]; [auto|]. destruct IH1 as [E|E]; rewrite E; congruence.
Qed.

(** The part of the key that names the output *)
Definition key_base (n : NamespacedName) : string :=
  sanitizeSecretKeySegment (NamespacedName_Namespace n) +:+ "_" +:+ sanitizeSecretKeySegment (NamespacedName_Name n).

Lemma basic_keys n : BasicAuthSecretKeys n =
  ("basicauth_" +:+ (key_base n +:+ "_username"), "basicauth_" +:+ (key_base n +:+ "_password")).
Proof. unfold BasicAuthSecretKeys, key_base. by rewrite !app_assoc_str. Qed.

Lemma bearer_key n : BearerAuthSecretKey n = "bearerauth_" +:+ (key_base n +:+ "_token").
Proof. unfold BearerAuthSecretKey, key_base. by rewrite !app_assoc_str. Qed.

(** The fields of the output's secret that carry its credentials, by their keys *)
Definition credential_keys (o : OutputWithSecretData) : list (string * string) :=
  let n := output_ref o in
  match OutputSpec_Authentication (Output_Spec (OWS_Output o)) with
  | None => []
  | Some a =>
      match OutputAuth_BasicAuth a with
      | Some b => [((BasicAuthSecretKeys n).1, field_or (BasicAuthConfig_UsernameField b) defaultBasicAuthUsernameField);
                   ((BasicAuthSecretKeys n).2, field_or (BasicAuthConfig_PasswordField b) defaultBasicAuthPasswordField)]
      | None => []
      end ++
      match OutputAuth_BearerAuth a with
      | Some b => [(BearerAuthSecretKey n, field_or (BearerAuthConfig_TokenField b) defaultBearerAuthTokenField)]
      | None => []
      end
  end.

Lemma credential_keys_base o k f : (k, f) ∈ credential_keys o →
  k = "basicauth_" +:+ (key_base (output_ref o) +:+ "_username") ∨
  k = "basicauth_" +:+ (key_base (output_ref o) +:+ "_password") ∨
  k = "bearerauth_" +:+ (key_base (output_ref o) +:+ "_token").
Proof.
  unfold credential_keys. rewrite basic_keys, bearer_key. cbn [fst snd].
  destruct (OutputSpec_Authentication _) as [a|]; [|by intros ?%not_elem_of_nil].
  intros [Hin|Hin]%elem_of_app.
  - destruct (OutputAuth_BasicAuth a); [|by apply not_elem_of_nil in Hin].
    apply elem_of_cons in Hin as [E|[E|[]%not_elem_of_nil]%elem_of_cons]; injection E as -> _; auto.
  - destruct (OutputAuth_BearerAuth a); [|by apply not_elem_of_nil in Hin].
    apply list_elem_of_singleton in Hin. injection Hin as -> _. auto.
Qed.

Lemma copy_key_lookup data field key m k :
  copy_key data field key m !! k = if decide (key = k ∧ is_Some (melems data !! field)) then melems data !! field else m !! k.
Proof.
  unfold copy_key. destruct (melems data !! field) as [v|]; [|by rewrite decide_False by (intros [_ [? [=]]])].
  destruct (decide (key = k)) as [->|Hne].
  - rewrite decide_True by eauto. apply lookup_insert_eq.
  - rewrite decide_False by naive_solver. by apply lookup_insert_ne.
Qed.

Lemma user_pass_ne n1 n2 : "basicauth_" +:+ (key_base n1 +:+ "_username") ≠ "basicauth_" +:+ (key_base n2 +:+ "_password").
Proof. intros E%(inj _)%app_end_inj; [by destruct E|done]. Qed.

Lemma copy_key_union data field key m : maps_copy m (copy_key data field key ∅) = copy_key data field key m.
Proof.
  unfold maps_copy, copy_key. destruct (melems data !! field) as [v|]; [|by rewrite (left_id_L ∅ (∪))].
  by rewrite insert_empty, <- insert_union_singleton_l.
Qed.

Definition copy_fields (data : gomap string string) (kfs : list (string * string)) : gmap string string :=
  foldl (λ m kf, copy_key data kf.2 kf.1 m) ∅ kfs.

Lemma auth_data_fields o : auth_data o = copy_fields (Secret_Data (OWS_Secret o)) (credential_keys o).
Proof.
  unfold auth_data, auth_secret_data, credential_keys, copy_fields.
  destruct (OutputSpec_Authentication _) as [a|]; [|done].
  destruct (OutputAuth_BasicAuth a) as [b|], (OutputAuth_BearerAuth a) as [b'|]; cbn [app foldl fst snd]; try done;
    unfold BearerAuthSecretData; rewrite ?copy_key_union; try done;
    unfold maps_copy; rewrite (right_id_L ∅ (∪)); done.
Qed.

Lemma copy_fields_lookup data kfs k v :
  NoDup kfs.*1 → copy_fields data kfs !! k = Some v ↔ ∃ f, (k, f) ∈ kfs ∧ melems data !! f = Some v.
Proof.
  unfold copy_fields. induction kfs as [|[k' f'] kfs IH] using rev_ind; intros Hnd.
  - cbn. split; [done|]. by intros (f & []%not_elem_of_nil & _).
  - rewrite fmap_app in Hnd. apply NoDup_app in Hnd as (Hnd & Hk & _).
    rewrite foldl_snoc, copy_key_lookup. cbn [fst snd]. setoid_rewrite elem_of_app. setoid_rewrite list_elem_of_singleton.
    destruct (decide (k' = k)) as [->|Hne].
    + assert (∀ f, (k, f) ∉ kfs) as Hno.
      { intros f Hf. apply (Hk k); [|apply list_elem_of_here]. apply list_elem_of_fmap. by exists (k, f). }
      case_decide as Hd.
      * split; [eauto|]. intros (f & [?|[= ->]] & ?); [by destruct (Hno f)|done].
      * rewrite IH by done. split; intros (f & Hf & Hv).
        -- by destruct (Hno f).
        -- destruct Hf as [Hf|[= ->]]; [by destruct (Hno f)|]. destruct Hd. eauto.
    + rewrite decide_False by naive_solver. rewrite IH by done. split; intros (f & Hf & Hv); exists f; [auto|].
      destruct Hf as [?|[= ? ?]]; done.
Qed.

Lemma credential_keys_nodup o : NoDup (credential_keys o).*1.
Proof.
  unfold credential_keys. rewrite basic_keys, bearer_key. cbn [fst snd].
  destruct (OutputSpec_Authentication _) as [a|]; [|constructor].
  destruct (OutputAuth_BasicAuth a), (OutputAuth_BearerAuth a); cbn [app fmap list_fmap fst];
    repeat (apply NoDup_cons; split); try apply NoDup_nil_2; try apply NoDup_nil; try done;
    rewrite ?elem_of_cons, ?elem_of_nil;
    intros E; repeat destruct E as [E|E]; try done; by apply user_pass_ne in E.
Qed.

(** What an output writes to the secret: the fields of its own secret, under
    its own keys *)
Lemma auth_data_lookup o k v :
  auth_data o !! k = Some v ↔ ∃ f, (k, f) ∈ credential_keys o ∧ melems (Secret_Data (OWS_Secret o)) !! f = Some v.
Proof. rewrite auth_data_fields. apply copy_fields_lookup, credential_keys_nodup. Qed.

(** Outputs with different key bases share no key. *)
Lemma credential_keys_share o o' k f f' :
  (k, f) ∈ credential_keys o → (k, f') ∈ credential_keys o' → key_base (output_ref o) = key_base (output_ref o').
Proof.
  intros H1%credential_keys_base H2%credential_keys_base.
  destruct H1 as [->|[->| ->]], H2 as [E|[E|E]]; try discriminate E;
    try (by apply user_pass_ne in E); try (by symmetry in E; apply user_pass_ne in E);
    apply (inj _) in E; by apply app_end_inj in E as [? _].
Qed.

Lemma foldl_env (g : OutputWithSecretData → list EnvVar) outs f e :
  e ∈ elems (Common_Env (foldl (λ f o, add_env (g o) f) f outs)) ↔
  e ∈ elems (Common_Env f) ∨ ∃ o, o ∈ outs ∧ e ∈ g o.
Proof.
  revert f. induction outs as [|x outs IH]; intros f; cbn [foldl].
  - split; [by left|]. intros [?|(o & Ho & _)]; [done|by apply not_elem_of_nil in Ho].
  - rewrite IH. assert (elems (Common_Env (add_env (g x) f)) = elems (Common_Env f) ++ g x) as ->.
    { cbn. destruct (Common_Env f), (g x); cbn; rewrite ?app_nil_r; done. }
    rewrite elem_of_app. setoid_rewrite elem_of_cons. naive_solver.
Qed.

Lemma otel_env collector cfg args ts outs sa oc o e :
  OtelCollector collector cfg args ts outs sa = Some oc → o ∈ outs →
  e ∈ auth_env (authSecretName (Collector_Name collector)) o → e ∈ elems (Common_Env (Otel_CommonFields oc)).
Proof.
  unfold OtelCollector. intros E Ho He. apply bind_Some in E as (f & _ & E). apply bind_Some in E as (m & _ & E).
  injection E as <-. cbn [Otel_CommonFields]. apply foldl_env. eauto.
Qed.

(** The variable [var] of the pods holds the field of the output's own secret. *)
Definition resolves (oc : OpenTelemetryCollector) (secret : Secret) o (var field : string) : Prop :=
  ∃ key, mkEnvVar var "" (Some (SecretKeyRef (Secret_Name secret) key)) ∈ elems (Common_Env (Otel_CommonFields oc)) ∧
    melems (Secret_Data secret) !! key = melems (Secret_Data (OWS_Secret o)) !! field.

Lemma secret_lookup collector outs o k f :
  o ∈ outs → (∀ o', o' ∈ outs → key_base (output_ref o') = key_base (output_ref o) → o' = o) →
  (k, f) ∈ credential_keys o →
  melems (Secret_Data (AuthSecret collector outs)) !! k = melems (Secret_Data (OWS_Secret o)) !! f.
Proof.
  intros Ho Hk Hkf. unfold AuthSecret. cbn [Secret_Data melems default].
  destruct (foldl_auth_data outs k o) as [_ E].
  - intros o' Ho'. destruct (auth_data o' !! k) as [v|] eqn:Ev; [|by right]. left.
    apply auth_data_lookup in Ev as (f' & Hf' & _). apply Hk; [done|]. by eapply credential_keys_share.
  - cbv zeta in E. change (foldl auth_secret_data ∅ outs !! k = melems (Secret_Data (OWS_Secret o)) !! f).
    rewrite (E Ho). apply option_eq. intros v. rewrite auth_data_lookup. split; [|eauto].
    intros (f' & Hf' & Hv). pose proof (credential_keys_nodup o) as Hnd. by rewrite (nodup_fst_fun _ _ _ _ Hnd Hkf Hf').
Qed.

(** C26. Credentials arrive where they are used: the text of an output's
    authentication extension is the reference to an environment variable of the
    collector's pods, that variable is read from a key of the collector's
    secret, and under that key the secret holds exactly the field that the
    output's authentication names of the output's own secret; provided no other
    output has the same sanitised name. *)
Theorem credentials_resolve collector cfg args ts outs sa oc o a :
  OtelCollector collector cfg args ts outs sa = Some oc →
  o ∈ outs →
  (∀ o', o' ∈ outs → key_base (output_ref o') = key_base (output_ref o) → o' = o) →
  OutputSpec_Authentication (Output_Spec (OWS_Output o)) = Some a →
  let secret := AuthSecret collector outs in
  (∀ b, OutputAuth_BasicAuth a = Some b → ∃ userVar passVar,
     GenerateBasicAuthExtensionsForOutput o = mkBasicAuthExtension (mkBasicClientAuth (env_ref userVar) (env_ref passVar)) ∧
     resolves oc secret o userVar (field_or (BasicAuthConfig_UsernameField b) "username") ∧
     resolves oc secret o passVar (field_or (BasicAuthConfig_PasswordField b) "password")) ∧
  (∀ b, OutputAuth_BearerAuth a = Some b → ∃ tokenVar,
     GenerateBearerAuthExtensionsForOutput o = mkBearerExtension (env_ref tokenVar) ∧
     resolves oc secret o tokenVar (field_or (BearerAuthConfig_TokenField b) "token")).
Proof.
  intros Hoc Ho Hk Ha secret.
  assert (∀ k f, (k, f) ∈ credential_keys o → ∀ var,
    mkEnvVar var "" (Some (SecretKeyRef (authSecretName (Collector_Name collector)) k))
      ∈ auth_env (authSecretName (Collector_Name collector)) o → resolves oc secret o var f) as Hres.
  { intros k f Hkf var Hvar. exists k. split; [by eapply otel_env|]. by apply secret_lookup. }
  split; intros b Hb.
  - exists (BasicAuthEnvVarNames (output_ref o)).1, (BasicAuthEnvVarNames (output_ref o)).2. split; [done|].
    split; [apply (Hres (BasicAuthSecretKeys (output_ref o)).1)|apply (Hres (BasicAuthSecretKeys (output_ref o)).2)];
      unfold credential_keys, auth_env; rewrite Ha, Hb; cbn; set_solver.
  - exists (BearerAuthEnvVarName (output_ref o)). split; [done|].
    apply (Hres (BearerAuthSecretKey (output_ref o))); unfold credential_keys, auth_env; rewrite Ha, Hb; cbn;
      destruct (OutputAuth_BasicAuth a); cbn; set_solver.
Qed.
End Credentials.

(** * Volumes *)
Section Volumes.
Context `{Platform}.
Implicit Types (s : volumes_state) (l reqs : list (string * string)).

(** Volumes added one after the other *)
Definition mounted l s : volumes_state := foldl (λ s np, mount_writable np.1 np.2 s) s l.

Definition volumes_of s : list Volume := elems (Common_Volumes (vs_fields s)).
Definition volume_names s : list string := Volume_Name <$> volumes_of s.

Lemma volumeExists_spec vs n : volumeExists vs n = true ↔ n ∈ Volume_Name <$> elems vs.
Proof.
  unfold volumeExists. rewrite existsb_exists. setoid_rewrite <- list_elem_of_In. setoid_rewrite bool_decide_eq_true.
  rewrite list_elem_of_fmap. naive_solver.
Qed.

Ltac pods := cbn [vs_fields vs_mounts vs_commands Common_Volumes Common_VolumeMounts Common_InitContainers Common_Env fst snd fmap list_fmap].

Lemma mounted_spec l s :
  volumes_of (mounted l s) = volumes_of s ++ ((λ np, writable_volume np.1 np.2) <$> l) ∧
  elems (Common_VolumeMounts (vs_fields (mounted l s))) =
    elems (Common_VolumeMounts (vs_fields s)) ++ ((λ np, writable_mount np.1 np.2) <$> l) ∧
  elems (vs_mounts (mounted l s)) = elems (vs_mounts s) ++ ((λ np, writable_mount np.1 np.2) <$> l) ∧
  vs_commands (mounted l s) = vs_commands s ++ ((λ np, chmod_command np.2) <$> l) ∧
  Common_InitContainers (vs_fields (mounted l s)) = Common_InitContainers (vs_fields s).
Proof.
  unfold mounted. induction l as [|[n p] l IH] using rev_ind; [cbn; by rewrite !app_nil_r|].
  rewrite foldl_snoc. set (s1 := foldl _ s l) in *. destruct IH as (E1 & E2 & E3 & E4 & E5).
  unfold volumes_of in *. unfold mount_writable, add_volume. pods. rewrite !fmap_app, !elems_append, E1, E2, E3, E4, !app_assoc. done.
Qed.

(** A volume is added under a name that is not taken. *)
Fixpoint add_missing reqs (taken : list string) : list (string * string) :=
  match reqs with
  | [] => []
  | (n, p) :: reqs => if bool_decide (n ∈ taken) then add_missing reqs taken else (n, p) :: add_missing reqs (n :: taken)
  end.

Lemma add_missing_in reqs taken np : np ∈ add_missing reqs taken → np ∈ reqs.
Proof.
  revert taken. induction reqs as [|[n p] reqs IH]; intros taken; cbn; [done|].
  case_bool_decide; [intros ?; apply list_elem_of_further; eauto|].
  rewrite !elem_of_cons. intros [->|?]; eauto.
Qed.

Lemma add_missing_nodup reqs taken :
  NoDup (add_missing reqs taken).*1 ∧ ∀ n, n ∈ (add_missing reqs taken).*1 → n ∉ taken.
Proof.
  revert taken. induction reqs as [|[n p] reqs IH]; intros taken; cbn; [split; [constructor|set_solver]|].
  case_bool_decide as Hn; [apply IH|]. destruct (IH (n :: taken)) as [H1 H2]. cbn. split.
  - apply NoDup_cons. split; [|done]. intros Hin. apply (H2 _ Hin), list_elem_of_here.
  - intros m [->|Hm]%elem_of_cons; [done|]. specialize (H2 _ Hm). set_solver.
Qed.

Lemma add_missing_all reqs taken n : n ∈ reqs.*1 → n ∈ taken ∨ n ∈ (add_missing reqs taken).*1.
Proof.
  revert taken. induction reqs as [|[m p] reqs IH]; intros taken; cbn; [set_solver|].
  rewrite elem_of_cons. case_bool_decide as Hm.
  - intros [->|Hin]; [by left|by apply IH].
  - cbn. rewrite elem_of_cons. intros [->|Hin]; [auto|]. destruct (IH (m :: taken) Hin) as [Ht|?]; [|auto].
    apply elem_of_cons in Ht as [->|?]; auto.
Qed.

(** A name that is free before is added with the path first asked for. *)
Lemma add_missing_first reqs taken n p :
  (n, p) ∈ reqs → n ∉ taken → (∀ p', (n, p') ∈ reqs → p' = p) → (n, p) ∈ add_missing reqs taken.
Proof.
  intros Hin Hn Hu. destruct (add_missing_all reqs taken n) as [?|Ha]; [apply list_elem_of_fmap; by exists (n, p)|done|].
  apply list_elem_of_fmap in Ha as ([n' p'] & -> & Ha). cbn in *.
  by rewrite <- (Hu p') by by eapply add_missing_in.
Qed.

Lemma add_missing_taken reqs t1 t2 : (∀ n, n ∈ t1 ↔ n ∈ t2) → add_missing reqs t1 = add_missing reqs t2.
Proof.
  revert t1 t2. induction reqs as [|[n p] reqs IH]; intros t1 t2 Ht; cbn; [done|].
  rewrite (bool_decide_ext (n ∈ t1) (n ∈ t2)) by done. rewrite (IH t1 t2), (IH (n :: t1) (n :: t2)); [done| |done].
  intros m. rewrite !elem_of_cons, Ht. done.
Qed.

(** The volumes the tenants and the outputs ask for *)
Definition tenant_request (t : Tenant) : list (string * string) :=
  let p := TenantSpec_PersistenceConfig (Tenant_Spec t) in
  if PersistenceConfig_EnableFileStorage p
  then [(buffer_volume (Tenant_Name t), DetermineFileStorageDirectory (PersistenceConfig_Directory p) (Tenant_Name t))]
  else [].

Definition output_request (o : OutputWithSecretData) : list (string * string) :=
  match OutputSpec_File (Output_Spec (OWS_Output o)) with
  | Some file => [(file_volume (Dir (File_Path file)), Dir (File_Path file))]
  | None => []
  end.

Lemma mounted_snoc n p s l : mounted l (mount_writable n p s) = mounted ((n, p) :: l) s.
Proof. done. Qed.

Lemma volume_names_mount n p s : volume_names (mount_writable n p s) = volume_names s ++ [n].
Proof. unfold volume_names, volumes_of, mount_writable, add_volume. pods. by rewrite elems_append, fmap_app. Qed.

Lemma exists_volume s n : volumeExists (Common_Volumes (vs_fields s)) n = bool_decide (n ∈ volume_names s).
Proof.
  apply eq_bool_prop_intro. rewrite !Is_true_true, volumeExists_spec, bool_decide_eq_true. done.
Qed.

Lemma add_missing_mount n p reqs s :
  add_missing reqs (volume_names (mount_writable n p s)) = add_missing reqs (n :: volume_names s).
Proof. apply add_missing_taken. intros m. rewrite volume_names_mount. set_solver. Qed.

Lemma tenants_mounted ts s : foldl tenant_volume s ts = mounted (add_missing (ts ≫= tenant_request) (volume_names s)) s.
Proof.
  revert s. induction ts as [|t ts IH]; intros s; [done|]. cbn [foldl]. rewrite IH, bind_cons.
  unfold tenant_volume, tenant_request at 2.
  destruct (PersistenceConfig_EnableFileStorage _) eqn:Ep; cbn [negb app add_missing]; [|done].
  rewrite exists_volume. case_bool_decide; [done|]. by rewrite add_missing_mount.
Qed.

(** A path that was processed has its volume. *)
Lemma outputs_mounted outs s processed :
  (∀ p, p ∈ processed → file_volume p ∈ volume_names s) →
  (foldl output_volume (s, processed) outs).1 = mounted (add_missing (outs ≫= output_request) (volume_names s)) s.
Proof.
  revert s processed. induction outs as [|o outs IH]; intros s processed Hp; [done|]. cbn [foldl]. rewrite bind_cons.
  unfold output_volume at 2, output_request at 1. destruct (OutputSpec_File _) as [file|]; [|by apply IH].
  cbn [app add_missing]. rewrite exists_volume.
  case_bool_decide as H1; [rewrite bool_decide_true by auto; by apply IH|].
  case_bool_decide as H2; rewrite IH.
  - done.
  - intros p [->|?]%elem_of_cons; auto.
  - by rewrite add_missing_mount.
  - intros p. rewrite volume_names_mount, elem_of_app, elem_of_cons, list_elem_of_singleton.
    intros [->|?]; [by right|left; auto].
Qed.

Lemma add_missing_app r1 r2 taken :
  add_missing (r1 ++ r2) taken = add_missing r1 taken ++ add_missing r2 (taken ++ (add_missing r1 taken).*1).
Proof.
  revert taken. induction r1 as [|[n p] r1 IH]; intros taken; cbn; [by rewrite app_nil_r|].
  case_bool_decide; [apply IH|]. cbn. f_equal. rewrite IH. f_equal. apply add_missing_taken. set_solver.
Qed.

Implicit Types (f : OpenTelemetryCommonFields).

Definition names_in f : list string := Volume_Name <$> elems (Common_Volumes f).

(** The volumes that are added to a pod template, by name and path *)
Definition added_volumes f (ts : list Tenant) (outs : list OutputWithSecretData) : list (string * string) :=
  add_missing ((ts ≫= tenant_request) ++ (outs ≫= output_request)) (names_in f).

Definition init_chmod (added : list (string * string)) : Container :=
  mkContainer "init-chmod" "busybox" ["sh"; "-c"] [Join ((λ np, chmod_command np.2) <$> added) " && "]
    (Some ((λ np, writable_mount np.1 np.2) <$> added)).

Lemma handleVolumes_spec f ts outs :
  let added := added_volumes f ts outs in
  let f' := handleVolumes f ts outs in
  elems (Common_Volumes f') = elems (Common_Volumes f) ++ ((λ np, writable_volume np.1 np.2) <$> added) ∧
  elems (Common_VolumeMounts f') = elems (Common_VolumeMounts f) ++ ((λ np, writable_mount np.1 np.2) <$> added) ∧
  elems (Common_InitContainers f') = elems (Common_InitContainers f) ++ (if decide (added = []) then [] else [init_chmod added]).
Proof.
  cbn zeta. unfold handleVolumes, appendAdditionalVolumesForTenantsFileStorage, appendFileExporterVolume, added_volumes.
  rewrite tenants_mounted, outputs_mounted by by intros ? ?%not_elem_of_nil.
  rewrite add_missing_app. set (s0 := mkVolumes f None []).
  change (volume_names s0) with (names_in f). set (l1 := add_missing (ts ≫= tenant_request) (names_in f)).
  destruct (mounted_spec l1 s0) as (V1 & M1 & N1 & C1 & I1). set (s1 := mounted l1 s0) in *.
  set (s2 := mkVolumes (vs_fields s1) None []).
  assert (volume_names s2 = names_in f ++ l1.*1) as ->.
  { unfold volume_names. change (volumes_of s2) with (volumes_of s1). rewrite V1, fmap_app, <- list_fmap_compose.
    unfold names_in, volumes_of. f_equal. }
  set (l2 := add_missing _ (_ ++ _)). destruct (mounted_spec l2 s2) as (V2 & M2 & N2 & C2 & I2).
  set (s3 := mounted l2 s2) in *. clearbody s1 s3 l1 l2.
  rewrite C1, C2. cbn [vs_commands s0 s2 app]. rewrite <- fmap_app, length_fmap.
  assert (elems (append (vs_mounts s1) (elems (vs_mounts s3))) = (λ np, writable_mount np.1 np.2) <$> (l1 ++ l2)) as EM.
  { rewrite elems_append, N1, N2, fmap_app. done. }
  unfold volumes_of in *. cbn [vs_fields s2 s0] in *.
  destruct (Nat.ltb_spec 0 (length (l1 ++ l2))) as [Hl|Hl].
  - rewrite decide_False by (intros E; rewrite E in Hl; cbn in Hl; lia).
    unfold add_init_container. pods. rewrite elems_append, V2, V1, M2, M1, I2, I1, !fmap_app, !app_assoc.
    split_and!; [done|done|]. f_equal. unfold init_chmod. rewrite <- fmap_app.
    destruct (append _ _) as [ms|]; cbn in EM; [by rewrite <- EM, fmap_app|].
    symmetry in EM. apply fmap_nil_inv in EM. rewrite EM in Hl. cbn in Hl. lia.
  - assert (l1 ++ l2 = []) as E by (destruct (l1 ++ l2); [done|cbn in Hl; lia]).
    rewrite decide_True by done. rewrite V2, V1, M2, M1, I2, I1, !fmap_app, !app_assoc, app_nil_r. done.
Qed.

Lemma tenant_request_in t n p : (n, p) ∈ tenant_request t →
  n = buffer_volume (Tenant_Name t) ∧
  p = DetermineFileStorageDirectory (PersistenceConfig_Directory (TenantSpec_PersistenceConfig (Tenant_Spec t))) (Tenant_Name t) ∧
  PersistenceConfig_EnableFileStorage (TenantSpec_PersistenceConfig (Tenant_Spec t)) = true.
Proof.
  unfold tenant_request. destruct (PersistenceConfig_EnableFileStorage _); [|by intros ?%not_elem_of_nil].
  by intros [= -> ->]%list_elem_of_singleton.
Qed.

Lemma output_request_in o n p : (n, p) ∈ output_request o →
  ∃ file, OutputSpec_File (Output_Spec (OWS_Output o)) = Some file ∧ p = Dir (File_Path file) ∧ n = file_volume p.
Proof.
  unfold output_request. destruct (OutputSpec_File _) as [file|]; [|by intros ?%not_elem_of_nil].
  intros [= -> ->]%list_elem_of_singleton. eauto.
Qed.

(** C38. The volumes of the pods: what the user gave is kept as it is; the
    volumes that are added have new and distinct names, each is the writable
    host directory of a persistent tenant or of a file output and is mounted
    under its own path; after that every persistent tenant and every file output
    has a volume of its name; and an init container that mounts exactly the
    added volumes makes exactly their paths writable, or there is none when
    nothing was added. *)
Theorem pod_volumes f ts outs :
  let added := added_volumes f ts outs in
  let f' := handleVolumes f ts outs in
  elems (Common_Volumes f') = elems (Common_Volumes f) ++ ((λ np, writable_volume np.1 np.2) <$> added) ∧
  elems (Common_VolumeMounts f') = elems (Common_VolumeMounts f) ++ ((λ np, writable_mount np.1 np.2) <$> added) ∧
  elems (Common_InitContainers f') = elems (Common_InitContainers f) ++ (if decide (added = []) then [] else [init_chmod added]) ∧
  NoDup added.*1 ∧ (∀ n, n ∈ added.*1 → n ∉ names_in f) ∧
  (∀ n p, (n, p) ∈ added → (∃ t, t ∈ ts ∧ (n, p) ∈ tenant_request t) ∨ (∃ o, o ∈ outs ∧ (n, p) ∈ output_request o)) ∧
  (∀ t n p, t ∈ ts → (n, p) ∈ tenant_request t → n ∈ names_in f') ∧
  (∀ o n p, o ∈ outs → (n, p) ∈ output_request o → n ∈ names_in f').
Proof.
  intros added f'. destruct (handleVolumes_spec f ts outs) as (V & M & I). fold added f' in V, M, I.
  destruct (add_missing_nodup ((ts ≫= tenant_request) ++ (outs ≫= output_request)) (names_in f)) as [Hnd Hnew].
  assert (∀ n, n ∈ ((ts ≫= tenant_request) ++ (outs ≫= output_request)).*1 → n ∈ names_in f') as Hall.
  { intros n Hn. unfold names_in. rewrite V, fmap_app, elem_of_app, <- list_fmap_compose. by apply add_missing_all. }
  split_and!; try done.
  - intros n p Hin. apply add_missing_in, elem_of_app in Hin as [Hin|Hin];
      apply list_elem_of_bind in Hin as (x & ? & ?); eauto.
  - intros t n p Ht Hn. apply Hall, list_elem_of_fmap. exists (n, p). split; [done|]. apply elem_of_app. left.
    apply list_elem_of_bind. eauto.
  - intros o n p Ho Hn. apply Hall, list_elem_of_fmap. exists (n, p). split; [done|]. apply elem_of_app. right.
    apply list_elem_of_bind. eauto.
Qed.
End Volumes.

(** * The pod template of the collector object *)
Section Template.
Context `{Platform}.
Implicit Types (f : OpenTelemetryCommonFields).

Lemma foldl_env_frame (g : OutputWithSecretData → list EnvVar) outs f :
  let f' := foldl (λ f o, add_env (g o) f) f outs in
  Common_Image f' = Common_Image f ∧ Common_Args f' = Common_Args f ∧ Common_ServiceAccount f' = Common_ServiceAccount f ∧
  Common_Volumes f' = Common_Volumes f ∧ Common_VolumeMounts f' = Common_VolumeMounts f.
Proof. cbn zeta. revert f. induction outs as [|o outs IH]; intros f; [done|]. cbn. by destruct (IH (add_env (g o) f)) as (-> & -> & -> & -> & ->). Qed.

Lemma default_volume_spec f np :
  let f' := default_volume f np in
  Common_Image f' = Common_Image f ∧ Common_Args f' = Common_Args f ∧ Common_ServiceAccount f' = Common_ServiceAccount f ∧
  (∃ vs, elems (Common_Volumes f') = elems (Common_Volumes f) ++ vs) ∧
  (∃ ms, elems (Common_VolumeMounts f') = elems (Common_VolumeMounts f) ++ ms) ∧
  (∀ n, n ∈ names_in f' → n ∈ names_in f ∨ n = np.1) ∧
  (np.1 ∈ names_in f ∨ mkVolumeMount np.1 true np.2 ∈ elems (Common_VolumeMounts f')).
Proof.
  destruct np as [n p]. cbn zeta. unfold default_volume. destruct (volumeExists (Common_Volumes f) n) eqn:E; cbn [negb].
  - split_and!; try done; [by exists []; rewrite app_nil_r|by exists []; rewrite app_nil_r|auto|].
    left. by apply volumeExists_spec.
  - unfold add_volume. cbn [Common_Image Common_Args Common_ServiceAccount Common_Volumes Common_VolumeMounts].
    unfold names_in. cbn [Common_Volumes]. rewrite !elems_append, fmap_app. split_and!; try done; [by eexists|by eexists| |].
    + intros m. rewrite elem_of_app. intros [?|(v & -> & ->%list_elem_of_singleton)%list_elem_of_fmap]; auto.
    + right. rewrite elem_of_app, list_elem_of_singleton. by right.
Qed.

(** The fields of the collector object, before the environment is complete *)
Definition template (collector : Collector) f (args : gmap string string) ts outs sa : OpenTelemetryCommonFields :=
  setOtelCommonFieldsDefaults
    (if negb (DerefOrZero (CollectorSpec_DryRunMode (Collector_Spec collector)))
     then add_env [node_name_env] (handleVolumes f ts outs) else f) args sa.

Lemma otel_template collector cfg args ts outs sa oc :
  OtelCollector collector cfg args ts outs sa = Some oc →
  ∃ f, CollectorSpec_OtelCommonFields (Collector_Spec collector) = Some f ∧
    let f' := template collector f args ts outs sa in
    Common_Image (Otel_CommonFields oc) = Common_Image f' ∧ Common_Args (Otel_CommonFields oc) = Common_Args f' ∧
    Common_ServiceAccount (Otel_CommonFields oc) = Common_ServiceAccount f' ∧
    Common_Volumes (Otel_CommonFields oc) = Common_Volumes f' ∧ Common_VolumeMounts (Otel_CommonFields oc) = Common_VolumeMounts f'.
Proof.
  unfold OtelCollector. intros E. apply bind_Some in E as (f & Hf & E). apply bind_Some in E as (m & _ & E).
  injection E as <-. exists f. split; [done|]. cbn zeta. cbn [Otel_CommonFields].
  match goal with |- context [foldl (λ f o, add_env (?g o) f) ?x outs] =>
    destruct (foldl_env_frame g outs x) as (-> & -> & -> & -> & ->) end.
  destruct m; done.
Qed.

Lemma template_spec collector f args ts outs sa :
  let f0 := if negb (DerefOrZero (CollectorSpec_DryRunMode (Collector_Spec collector))) then handleVolumes f ts outs else f in
  let f' := template collector f args ts outs sa in
  Common_Image f' = (if bool_decide (Common_Image f0 = "") then axoflowOtelCollectorImageRef else Common_Image f0) ∧
  Common_Args f' = Some (maps_copy (melems (Common_Args f0)) args) ∧ Common_ServiceAccount f' = sa ∧
  (∀ v, v ∈ elems (Common_Volumes f0) → v ∈ elems (Common_Volumes f')) ∧
  (∀ m, m ∈ elems (Common_VolumeMounts f0) → m ∈ elems (Common_VolumeMounts f')) ∧
  (∀ n p, (n, p) ∈ volumeConfigs → n ∈ names_in f0 ∨ mkVolumeMount n true p ∈ elems (Common_VolumeMounts f')).
Proof.
  cbn zeta. unfold template, setOtelCommonFieldsDefaults, volumeConfigs. cbn [foldl].
  set (f0 := if negb _ then handleVolumes f ts outs else f).
  set (f1 := mkCommonFields _ _ _ _ _ _ _ _).
  destruct (default_volume_spec f1 ("varlog", "/var/log")) as (I1 & A1 & S1 & [vs1 V1] & [ms1 M1] & N1 & H1).
  set (f2 := default_volume f1 _) in *.
  destruct (default_volume_spec f2 ("varlibdockercontainers", "/var/lib/docker/containers"))
    as (I2 & A2 & S2 & [vs2 V2] & [ms2 M2] & _ & H2).
  set (f3 := default_volume f2 _) in *. clearbody f2 f3.
  assert (Common_Volumes f1 = Common_Volumes f0 ∧ Common_VolumeMounts f1 = Common_VolumeMounts f0 ∧
    Common_Image f1 = (if bool_decide (Common_Image f0 = "") then axoflowOtelCollectorImageRef else Common_Image f0) ∧
    Common_Args f1 = Some (maps_copy (melems (Common_Args f0)) args)) as (EV & EM & EI & EA).
  { unfold f1, f0. by destruct (negb _). }
  rewrite I2, I1, EI, A2, A1, EA, S2, S1. split_and!; try done.
  - intros v Hv. rewrite V2, V1, EV, !elem_of_app. auto.
  - intros m Hm. rewrite M2, M1, EM, !elem_of_app. auto.
  - assert (names_in f1 = names_in f0) as EN by (unfold names_in; by rewrite EV). rewrite EN in N1, H1. cbn [fst snd] in *.
    intros n p [E|E%list_elem_of_singleton]%elem_of_cons; injection E as -> ->.
    + destruct H1 as [?|?]; [by left|right]. rewrite M2. apply elem_of_app. by left.
    + destruct H2 as [[?|?]%N1|?]; [by left|done|by right].
Qed.

Lemma mounted_frame l s :
  Common_Image (vs_fields (mounted l s)) = Common_Image (vs_fields s) ∧ Common_Args (vs_fields (mounted l s)) = Common_Args (vs_fields s).
Proof. unfold mounted. induction l as [|np l IH] using rev_ind; [done|]. rewrite foldl_snoc. cbn. exact IH. Qed.

Lemma handleVolumes_frame f ts outs :
  Common_Image (handleVolumes f ts outs) = Common_Image f ∧ Common_Args (handleVolumes f ts outs) = Common_Args f.
Proof.
  unfold handleVolumes, appendAdditionalVolumesForTenantsFileStorage, appendFileExporterVolume.
  rewrite tenants_mounted, outputs_mounted by by intros ? ?%not_elem_of_nil.
  set (s1 := mounted _ (mkVolumes f None [])). set (s2 := mounted _ _).
  assert (Common_Image (vs_fields s2) = Common_Image f ∧ Common_Args (vs_fields s2) = Common_Args f) as E.
  { unfold s2. destruct (mounted_frame (add_missing (outs ≫= output_request) (volume_names (mkVolumes (vs_fields s1) None [])))
      (mkVolumes (vs_fields s1) None [])) as [-> ->].
    exact (mounted_frame _ (mkVolumes f None [])). }
  clearbody s1 s2. destruct (0 <? _)%nat; exact E.
Qed.

(** C39. A tenant with persistence gets the directory that its file storage
    extension names: unless the user gave a volume of that name, the pods mount
    it writable under exactly that path, from the same path of the host. *)
Theorem persistent_storage_mounted collector f cfg args ts outs sa oc t :
  OtelCollector collector cfg args ts outs sa = Some oc →
  CollectorSpec_OtelCommonFields (Collector_Spec collector) = Some f →
  DerefOrZero (CollectorSpec_DryRunMode (Collector_Spec collector)) = false →
  NoDup (Tenant_Name <$> ts) → t ∈ ts →
  buffer_volume (Tenant_Name t) ∉ names_in f →
  let p := TenantSpec_PersistenceConfig (Tenant_Spec t) in
  PersistenceConfig_EnableFileStorage p = true →
  ∃ d, GenerateFileStorageExtensionForTenant (PersistenceConfig_Directory p) (Tenant_Name t) !! "directory" = Some (any_string d) ∧
    mkVolumeMount (buffer_volume (Tenant_Name t)) false d ∈ elems (Common_VolumeMounts (Otel_CommonFields oc)) ∧
    mkVolume (buffer_volume (Tenant_Name t)) (Some (mkHostPath d (Some "DirectoryOrCreate")))
      ∈ elems (Common_Volumes (Otel_CommonFields oc)).
Proof.
  intros Hoc Hf Hdry Hnd Ht Hfree p Hp. exists (DetermineFileStorageDirectory (PersistenceConfig_Directory p) (Tenant_Name t)).
  set (d := DetermineFileStorageDirectory _ _). split; [done|].
  destruct (otel_template _ _ _ _ _ _ _ Hoc) as (f' & Hf' & _ & _ & _ & -> & ->).
  rewrite Hf in Hf'. injection Hf' as <-.
  destruct (template_spec collector f args ts outs sa) as (_ & _ & _ & HV & HM & _). rewrite Hdry in HV, HM. cbn [negb] in *.
  assert ((buffer_volume (Tenant_Name t), d) ∈ added_volumes f ts outs) as Hin.
  { apply add_missing_first; [|done|].
    - apply elem_of_app. left. apply list_elem_of_bind. exists t. split; [|done].
      unfold tenant_request. fold p. rewrite Hp. apply list_elem_of_here.
    - intros p' [Hp'|Hp']%elem_of_app; apply list_elem_of_bind in Hp' as (x & Hx & Hxin).
      + apply tenant_request_in in Hx as (E & -> & _). apply (inj _) in E.
        by rewrite (NoDup_key _ _ _ _ Hnd Hxin Ht).
      + apply output_request_in in Hx as (file & _ & _ & E). discriminate E. }
  destruct (handleVolumes_spec f ts outs) as (V & M & _). split.
  - apply HM. rewrite M. apply elem_of_app. right. apply list_elem_of_fmap. by exists (buffer_volume (Tenant_Name t), d).
  - apply HV. rewrite V. apply elem_of_app. right. apply list_elem_of_fmap. by exists (buffer_volume (Tenant_Name t), d).
Qed.

(** The pods run the image the user chose, and the default one otherwise;
    either way the image is a distribution with the byte counting connector
    exactly when the configuration was generated for one. The arguments that
    were derived from the configuration override the user's, which are kept
    otherwise; the service account is the collector's own; and the directories
    of the host's logs are mounted read-only, unless the user or a tenant has
    volumes of these names. *)
Theorem pod_template collector f cfg args ts outs sa oc :
  OtelCollector collector cfg args ts outs sa = Some oc →
  CollectorSpec_OtelCommonFields (Collector_Spec collector) = Some f →
  let f' := Otel_CommonFields oc in
  Common_Image f' = (if decide (Common_Image f = "") then axoflowOtelCollectorImageRef else Common_Image f) ∧
  isAxoflowDistribution (Common_Image f') = isAxoflowDistribution (Common_Image f) ∧
  (∀ k v, melems (Common_Args f') !! k = Some v ↔
     args !! k = Some v ∨ args !! k = None ∧ melems (Common_Args f) !! k = Some v) ∧
  Common_ServiceAccount f' = sa ∧
  (∀ n p, (n, p) ∈ volumeConfigs → n ∈ names_in (if DerefOrZero (CollectorSpec_DryRunMode (Collector_Spec collector)) then f else handleVolumes f ts outs) ∨
     mkVolumeMount n true p ∈ elems (Common_VolumeMounts f')).
Proof.
  intros Hoc Hf. cbn zeta.
  destruct (otel_template _ _ _ _ _ _ _ Hoc) as (f' & Hf' & -> & -> & -> & _ & ->).
  rewrite Hf in Hf'. injection Hf' as <-.
  destruct (template_spec collector f args ts outs sa) as (-> & -> & -> & _ & _ & Hl).
  set (f0 := if negb _ then _ else _) in *.
  assert (Common_Image f0 = Common_Image f ∧ Common_Args f0 = Common_Args f) as [-> ->].
  { unfold f0. destruct (negb _); [apply handleVolumes_frame|done]. }
  assert ((if DerefOrZero (CollectorSpec_DryRunMode (Collector_Spec collector)) then f else handleVolumes f ts outs) = f0) as ->.
  { unfold f0. by destruct (DerefOrZero _). }
  split_and!; [|..|done|exact Hl].
  - case_bool_decide; case_decide; done.
  - case_bool_decide as E; [|done]. rewrite E. by vm_compute.
  - intros k v. change (maps_copy (melems (Common_Args f)) args !! k = Some v ↔ args !! k = Some v ∨ args !! k = None ∧ melems (Common_Args f) !! k = Some v).
    apply lookup_union_Some_raw.
Qed.
End Template.

(** * The memory limit of the Go runtime *)
Lemma float64_error z : (0 <= z)%Z → (2 ^ 53 * Z.abs (float64_of_int z - z) <= z)%Z.
Proof.
  intros Hz. unfold float64_of_int. set (e := (Z.log2 (Z.abs z) - 52)%Z).
  destruct (Z.leb_spec e 0%Z) as [He|He]; [rewrite Z.sub_diag; cbn; lia|].
  rewrite (Z.abs_eq z) in * by lia.
  assert (0 < z)%Z as Hpos. { destruct (Z.eq_dec z 0%Z) as [->|]; [by vm_compute in He|lia]. }
  assert (2 ^ (e + 52) <= z)%Z as Hlow. { replace (e + 52)%Z with (Z.log2 z) by (unfold e; rewrite Z.abs_eq by lia; lia). by apply Z.log2_spec. }
  rewrite Z.sgn_pos by done.
  assert (2 ^ e = 2 * 2 ^ (e - 1))%Z as Eh. { rewrite <- Z.pow_succ_r by lia. f_equal. lia. }
  assert (0 < 2 ^ (e - 1))%Z as Hh by (apply Z.pow_pos_nonneg; lia).
  assert (2 ^ (e + 52) = 2 ^ 53 * 2 ^ (e - 1))%Z as E53. { rewrite <- Z.pow_add_r by lia. f_equal. lia. }
  pose proof (Z.div_mod z (2 ^ e) ltac:(lia)) as Hdm. pose proof (Z.mod_pos_bound z (2 ^ e) ltac:(lia)) as Hb.
  set (q := (z / 2 ^ e)%Z) in *. set (r := (z mod 2 ^ e)%Z) in *. set (h := (2 ^ (e - 1))%Z) in *.
  assert (Z.abs ((if (r <? h)%Z then q else if (h <? r)%Z then q + 1 else if Z.even q then q else q + 1) * 2 ^ e - z) <= h)%Z as Hd.
  { destruct (Z.ltb_spec r h); [|destruct (Z.ltb_spec h r); [|destruct (Z.even q)]]; nia. }
  nia.
Qed.

(** C40. The memory limit of the Go runtime is four fifths of the container's
    limit: for any limit up to a pebibyte the float64 arithmetic is off by less
    than one byte from the exact product. *)
Theorem go_mem_limit_bounds v :
  (0 <= v <= 2 ^ 50)%Z → (Z.abs (5 * goMemLimitValue v - 4 * v) < 5)%Z ∧ (0 <= goMemLimitValue v)%Z.
Proof.
  intros Hv. unfold goMemLimitValue. rewrite (float64_of_int_exact v) by lia.
  set (x := (v * goMemLimitNumerator)%Z). assert (0 <= x)%Z as Hx by (unfold x, goMemLimitNumerator; nia).
  pose proof (float64_error x Hx) as Herr. set (p := float64_of_int x) in *.
  assert (5 * x = v * (2 ^ 54 + 1))%Z as E5 by (unfold x, goMemLimitNumerator; lia).
  assert (0 <= p)%Z as Hp by lia.
  assert (Z.sgn p * ((2 * Z.abs p + 2 ^ 52) / 2 ^ 53) = (2 * p + 2 ^ 52) / 2 ^ 53)%Z as ->.
  { rewrite Z.abs_eq by done. destruct (Z.eq_dec p 0%Z) as [->|]; [done|]. rewrite Z.sgn_pos by lia. lia. }
  pose proof (Z.div_mod (2 * p + 2 ^ 52) (2 ^ 53) ltac:(lia)) as Hdm.
  pose proof (Z.mod_pos_bound (2 * p + 2 ^ 52) (2 ^ 53) ltac:(lia)) as Hb.
  set (g := ((2 * p + 2 ^ 52) / 2 ^ 53)%Z) in *. split; [|apply Z.div_pos; lia].
  change (2 ^ 53)%Z with 9007199254740992%Z in *. change (2 ^ 52)%Z with 4503599627370496%Z in *.
  change (2 ^ 54 + 1)%Z with 18014398509481985%Z in *. change (2 ^ 50)%Z with 1125899906842624%Z in *. lia.
Qed.

(** * The samples *)
#[local] Existing Instance sample_platform.

Definition basic_output (ns name : string) (s : Secret) : OutputWithSecretData :=
  mkOutputWithSecretData (sample_output ns name "red" (Some sample_auth)) s.

(** The condition on sanitised names is needed: the outputs [c] of the
    namespace [a-b] and [b-c] of [a] have the same environment variables and the
    same secret keys, so that the pods authenticate the first output with the
    password of the second, whatever their secrets hold. *)
Theorem credential_keys_collide collector (s1 s2 : Secret) password :
  melems (Secret_Data s2) !! "password" = Some password →
  let o1 := basic_output "a-b" "c" s1 in
  let o2 := basic_output "a" "b-c" s2 in
  output_ref o1 ≠ output_ref o2 ∧
  GenerateBasicAuthExtensionsForOutput o1 = GenerateBasicAuthExtensionsForOutput o2 ∧
  melems (Secret_Data (AuthSecret collector [o1; o2])) !! (BasicAuthSecretKeys (output_ref o1)).2 = Some password.
Proof.
  intros Hp o1 o2. split; [done|]. split; [done|].
  change (auth_secret_data (auth_secret_data ∅ o1) o2 !! (BasicAuthSecretKeys (output_ref o2)).2 = Some password).
  rewrite auth_secret_data_union. apply lookup_union_Some_l, auth_data_lookup. exists "password". split; [|done].
  apply list_elem_of_further, list_elem_of_here.
Qed.

Definition sample_ows' : OutputWithSecretData := basic_output "team" "sink" sample_secret.
Definition pod_collector : Collector :=
  mkCollector "main" (CollectorSpec_SetDefaults (Collector_Spec sample_collector)) (Collector_Status sample_collector).
Definition pod_tenant : Tenant := sample_tenant "red" (sample_transform "" false) true None None None.
Definition pod_config : Config := mkConfig ∅ ∅ ∅ ∅ ∅ None ∅ ∅.
Definition pod_object : option OpenTelemetryCollector :=
  OtelCollector pod_collector pod_config ∅ [pod_tenant] [sample_ows'] "main-sa".

Lemma credentials_resolve_witness : ∃ oc, pod_object = Some oc ∧
  ∃ userVar, resolves oc (AuthSecret pod_collector [sample_ows']) sample_ows' userVar "username".
Proof.
  eexists. split; [reflexivity|].
  destruct (credentials_resolve pod_collector pod_config ∅ [pod_tenant] [sample_ows'] "main-sa" _ sample_ows' sample_auth
    eq_refl (list_elem_of_here _ _)) as [Hb _].
  - by intros o ->%list_elem_of_singleton.
  - reflexivity.
  - destruct (Hb _ eq_refl) as (u & p & _ & Hu & _). exists u. exact Hu.
Defined.

Lemma credential_keys_collide_witness :
  melems (Secret_Data (AuthSecret pod_collector
    [basic_output "a-b" "c" Secret_zero; basic_output "a" "b-c" sample_secret])) !! "basicauth_a_b_c_password" = Some "secret".
Proof. exact (proj2 (proj2 (credential_keys_collide pod_collector Secret_zero sample_secret "secret" eq_refl))). Defined.

Lemma persistent_storage_mounted_witness : ∃ oc, pod_object = Some oc ∧
  mkVolumeMount "buffervolume-red" false "/var/lib/otelcol/file_storage/red" ∈ elems (Common_VolumeMounts (Otel_CommonFields oc)).
Proof.
  eexists. split; [reflexivity|].
  destruct (persistent_storage_mounted pod_collector CommonFields_zero pod_config ∅ [pod_tenant] [sample_ows'] "main-sa" _ pod_tenant
    eq_refl eq_refl eq_refl) as (d & Hd & Hm & _).
  - by apply (bool_decide_unpack _); vm_compute.
  - apply list_elem_of_here.
  - apply not_elem_of_nil.
  - reflexivity.
  - vm_compute in Hd. injection Hd as <-. exact Hm.
Defined.

Lemma pod_template_witness : ∃ oc, pod_object = Some oc ∧
  Common_Image (Otel_CommonFields oc) = axoflowOtelCollectorImageRef ∧ Common_ServiceAccount (Otel_CommonFields oc) = "main-sa".
Proof.
  eexists. split; [reflexivity|].
  destruct (pod_template pod_collector CommonFields_zero pod_config ∅ [pod_tenant] [sample_ows'] "main-sa" _ eq_refl eq_refl)
    as (Hi & _ & _ & Hs & _).
  split; [exact Hi|exact Hs].
Defined.

Lemma go_mem_limit_bounds_witness : (Z.abs (5 * goMemLimitValue 524288000 - 4 * 524288000) < 5)%Z ∧ (0 <= goMemLimitValue 524288000)%Z.
Proof. apply go_mem_limit_bounds. lia. Defined.

(** A file output at a path *)
Definition file_output (name path : string) : OutputWithSecretData :=
  mkOutputWithSecretData
    (mkOutput "team" name (mkOutputSpec None None None (Some (mkFile path false None "" None "" None None)) None None None None)
       (mkOutputStatus "red" StateReady None 0)) Secret_zero.

(** The volume of a file output is named after its directory with the
    slashes replaced, so the directories [/a/b] and [/a-b] share a name: the
    pods get one of the two volumes, and the directory of the other output is
    not mounted, although both outputs have a volume of their name. *)
Theorem file_volumes_collide f :
  "file-exporter-a-b" ∉ names_in f →
  let outs := [file_output "one" "/a/b/log"; file_output "two" "/a-b/log"] in
  let f' := handleVolumes f [] outs in
  elems (Common_VolumeMounts f') = elems (Common_VolumeMounts f) ++ [mkVolumeMount "file-exporter-a-b" false "/a/b"] ∧
  (∀ o n p, o ∈ outs → (n, p) ∈ output_request o → n = "file-exporter-a-b").
Proof.
  intros Hf outs f'. assert (outs ≫= output_request = [("file-exporter-a-b", "/a/b"); ("file-exporter-a-b", "/a-b")]) as Hreq
    by by vm_compute.
  split.
  - unfold f'. destruct (handleVolumes_spec f [] outs) as (_ & -> & _). f_equal. unfold added_volumes. cbn [mbind list_bind app].
    rewrite Hreq. cbn [add_missing]. rewrite bool_decide_false by done. by rewrite bool_decide_true by apply list_elem_of_here.
  - intros o n p Ho Hn. assert ((n, p) ∈ outs ≫= output_request) as Hin by (apply list_elem_of_bind; eauto).
    rewrite Hreq, !elem_of_cons, elem_of_nil in Hin. destruct Hin as [E|[E|[]]]; by injection E as -> _.
Qed.

Lemma file_volumes_collide_witness :
  elems (Common_VolumeMounts (handleVolumes CommonFields_zero [] [file_output "one" "/a/b/log"; file_output "two" "/a-b/log"]))
  = [mkVolumeMount "file-exporter-a-b" false "/a/b"].
Proof. exact (proj1 (file_volumes_collide CommonFields_zero (not_elem_of_nil _))). Defined.
