(* ===== verification/ValidatorSpec.v ===== *)
(** The assembled configuration in the collector's own types: its names are
    names that the validator can decode, and the conversion loses nothing. *)
From S2P Require Import Prelude Strs Json Errors ApiOtlp ApiOutput ApiTypes Kube Relations.
From S2P Require Import Exporters Processors Receivers Extensions Connectors ConfGen Names.
From S2P Require Import ConfGenFacts PipelineFacts WfInput Samples ExporterSpec ConfGenSpec PipelineSpec ExtensionSpec Validator.
From S2P Require Import Cluster CollectorManager CollectorInput.
From Stdlib Require Import Ascii.

(** The component types the generators use before the slash *)
Definition component_types : list string :=
  [ "file_log"; "k8s_events"; "otlp_grpc"; "otlp_http"; "fluentforwardexporter"; "file"; "elasticsearch"; "awss3";
    "prometheus"; "transform"; "attributes"; "filter"; "batch"; "routing"; "count"; "bytes"; "basicauth";
    "bearertokenauth"; "file_storage" ].

(** A name of the configuration: a type and a name, or one of the exceptions *)
Inductive component_name : string → Prop :=
| bare_name k : k ∈ exceptionComponents → component_name k
| typed_name t n : t ∈ component_types → component_name (t +:+ String "/" n).

(** Recognises the type of a printed name. *)
Ltac typed t :=
  match goal with |- component_name ?k => first [apply (typed_name t k) | apply (typed_name t)] end;
  apply (bool_decide_unpack _); by vm_compute.

Section Names.
Context `{Platform} `{MapRange}.
Implicit Types (c : OtelColConfigInput).

Lemma exporter_name o : GetExporterNameForOutput o ≠ "" → component_name (GetExporterNameForOutput o).
Proof.
  unfold GetExporterNameForOutput.
  destruct (OutputSpec_OTLPGRPC _); [intros _; typed "otlp_grpc"|].
  destruct (OutputSpec_OTLPHTTP _); [intros _; typed "otlp_http"|].
  destruct (OutputSpec_Fluentforward _); [intros _; typed "fluentforwardexporter"|].
  destruct (OutputSpec_File _); [intros _; typed "file"|].
  destruct (OutputSpec_Elasticsearch _); [intros _; typed "elasticsearch"|].
  destruct (OutputSpec_AWSS3 _); [intros _; typed "awss3"|done].
Qed.

Lemma receivers_named c k : is_Some (generateReceivers c !! k) → component_name k.
Proof.
  unfold generateReceivers. rewrite insert_all_is_Some, lookup_empty_is_Some, elem_of_bind_fst.
  intros [(name & _ & Hk)|[]]. unfold tenant_receivers in Hk.
  destruct (find_first _ _) as [t|]; [|by apply not_elem_of_nil in Hk]. destruct (_ || _); [|by apply not_elem_of_nil in Hk].
  cbn [fmap list_fmap fst] in Hk. apply elem_of_cons in Hk as [->|Hk]; [typed "file_log"|].
  destruct (Input_EventsToLogs c); [|by apply not_elem_of_nil in Hk].
  apply list_elem_of_singleton in Hk as ->. typed "k8s_events".
Qed.

Lemma processors_named c k : is_Some (generateProcessors c !! k) → component_name k.
Proof.
  rewrite generateProcessors_keys. intros [Hk|[(t & _ & Hk)|[(ref & s & _ & ->)|(o & _ & Hk)]]].
  - rewrite !elem_of_cons, elem_of_nil in Hk. destruct Hk as [->|[->|[->|[->|[->|[]]]]]].
    + apply bare_name. apply (bool_decide_unpack _); by vm_compute.
    + apply bare_name. apply (bool_decide_unpack _); by vm_compute.
    + apply (typed_name "filter" "exclude"). apply (bool_decide_unpack _); by vm_compute.
    + apply bare_name. apply (bool_decide_unpack _); by vm_compute.
    + apply (typed_name "attributes" "metricattributes"). apply (bool_decide_unpack _); by vm_compute.
  - apply elem_of_tenant_processors in Hk as [->|[_ ->]]; [typed "attributes"|typed "transform"].
  - typed "attributes".
  - apply elem_of_output_processors in Hk. unfold output_pipeline_processors in Hk.
    apply elem_of_cons in Hk as [->|Hk]; [typed "attributes"|].
    destruct (OutputSpec_Batch _); [|by apply not_elem_of_nil in Hk]. apply list_elem_of_singleton in Hk as ->. typed "batch".
Qed.

Lemma generated_named entry r k :
  (∀ o k e, entry o = Some (k, e) → component_name k) → is_Some (generate entry r !! k) → component_name k.
Proof. intros He [e E]. apply generate_inv in E as (o & _ & E). by eapply He. Qed.

Lemma exporters_named c k : is_Some (generateExporters c !! k) → component_name k.
Proof.
  assert (is_Some (GenerateDebugExporters !! k) → component_name k) as Hdebug.
  { unfold GenerateDebugExporters. intros [e [<- _]%lookup_singleton_Some]. apply bare_name.
    apply (bool_decide_unpack _); by vm_compute. }
  destruct (Input_DryRunMode c) eqn:Hd; [unfold generateExporters; by rewrite Hd|].
  rewrite generateExporters_cases by done.
  intros [[_ ?]|[Hm|[Hk|[Hk|[Hk|[Hk|[Hk|Hk]]]]]]]; [auto| |revert Hk; apply generated_named; intros o k' e He..].
  - unfold GenerateMetricsExporters in Hm. destruct Hm as [e [<- _]%lookup_singleton_Some].
    apply (typed_name "prometheus" "message_metrics_exporter"). apply (bool_decide_unpack _); by vm_compute.
  - apply bind_Some in He as (api & E & He). apply bind_Some in He as (t & _ & [= <- _]).
    apply exporter_name. unfold GetExporterNameForOutput. rewrite E. repeat case_match; done.
  - apply bind_Some in He as (api & E & He). apply bind_Some in He as (t & _ & [= <- _]).
    apply exporter_name. unfold GetExporterNameForOutput. rewrite E. repeat case_match; done.
  - apply bind_Some in He as (api & _ & He). apply bind_Some in He as (t & _ & [= <- _]). typed "fluentforwardexporter".
  - apply bind_Some in He as (api & _ & He). apply bind_Some in He as (v & _ & [= <- _]). typed "file".
  - apply bind_Some in He as (api & E & He). apply bind_Some in He as (t & _ & [= <- _]).
    apply exporter_name. unfold GetExporterNameForOutput. rewrite E. repeat case_match; done.
  - apply bind_Some in He as (api & E & He). apply bind_Some in He as (t & _ & He). apply bind_Some in He as (v & _ & [= <- _]).
    apply exporter_name. unfold GetExporterNameForOutput. rewrite E. repeat case_match; done.
Qed.

Lemma connectors_named c k : is_Some ((generateConnectors c).1 !! k) → component_name k.
Proof.
  rewrite generateConnectors_keys. intros [Hk|[(t & _ & -> & _)|[(ref & s & _ & -> & _)|(b & _ & ->)]]];
    [|typed "routing"..].
  unfold base_connectors in Hk. destruct (negb _); [|by rewrite lookup_empty_is_Some in Hk].
  assert (is_Some (GenerateCountConnectors !! k) ∨ is_Some (GenerateBytesConnectors !! k)) as [Hc|Hb].
  { destruct (Input_IsAxoflowDistribution c); rewrite ?maps_copy_is_Some, lookup_empty_is_Some in Hk; tauto. }
  - unfold GenerateCountConnectors in Hc. rewrite insert_all_is_Some, lookup_empty_is_Some in Hc.
    cbn [fmap list_fmap fst] in Hc. rewrite !elem_of_cons, elem_of_nil in Hc. destruct Hc as [[->|[->|[]]]|[]]; typed "count".
  - unfold GenerateBytesConnectors in Hb. destruct Hb as [e [<- _]%lookup_singleton_Some]. typed "bytes".
Qed.

Lemma extensions_named c k : is_Some ((generateExtensions c).1 !! k) →
  k = "health_check" ∨ (∃ o, o ∈ in_Outputs c ∧ (k = "basicauth/" +:+ ns_name (output_ref o) ∨ k = "bearertokenauth/" +:+ ns_name (output_ref o)))
  ∨ ∃ t, t ∈ in_Tenants c ∧ k = file_storage_name (Tenant_Name t).
Proof.
  unfold generateExtensions. cbn [fst]. rewrite !insert_all_is_Some, !elem_of_bind_fst.
  intros [(t & Ht & Hk)|[(o & Ho & Hk)|[e He]]].
  - right. right. exists t. split; [done|]. unfold tenant_extensions in Hk. destruct (_ && _); [|by apply not_elem_of_nil in Hk].
    by apply list_elem_of_singleton in Hk.
  - right. left. exists o. split; [done|]. unfold output_extensions in Hk.
    destruct (OutputSpec_Authentication _); [|by apply not_elem_of_nil in Hk]. rewrite fmap_app in Hk.
    apply elem_of_app in Hk as [Hk|Hk]; destruct (is_nil _); cbn in Hk; try (by apply not_elem_of_nil in Hk);
      apply list_elem_of_singleton in Hk as ->; auto.
  - left. destruct (negb _); [by apply lookup_singleton_Some in He as [<- _]|by rewrite lookup_empty in He].
Qed.
End Names.

(** * Decoding *)
Lemma free_of_cons c a s : free_of c (String a s) = true ↔ a ≠ c ∧ free_of c s = true.
Proof.
  change (free_of c (String a s)) with (negb (bool_decide (a = c)) && free_of c s).
  by rewrite andb_true_iff, negb_true_iff, bool_decide_eq_false.
Qed.

Lemma Split_cons c a s w ws : a ≠ c → Split c s = w :: ws → Split c (String a s) = String a w :: ws.
Proof.
  intros Ha E. change (Split c (String a s)) with
    (if bool_decide (a = c) then "" :: Split c s else match Split c s with [] => [String a ""] | w :: ws => String a w :: ws end).
  by rewrite bool_decide_false, E.
Qed.

Lemma Split_free c s : free_of c s = true → Split c s = [s].
Proof. induction s as [|a s IH]; [done|]. intros [Ha Hs]%free_of_cons. by apply Split_cons, IH. Qed.

Lemma Split_two c s t : free_of c s = true → free_of c t = true → Split c (s +:+ String c t) = [s; t].
Proof.
  intros Hs Ht. induction s as [|a s IH].
  - rewrite app_nil_l_str. change (Split c (String c t)) with
      (if bool_decide (c = c) then "" :: Split c t else match Split c t with [] => [String c ""] | w :: ws => String c w :: ws end).
    rewrite bool_decide_true by done. by rewrite Split_free.
  - apply free_of_cons in Hs as [Ha Hs]. rewrite app_cons_str. by apply Split_cons, IH.
Qed.

Lemma dns_ref_slash n : dns_ref n = true → free_of "/"%char (ns_name n) = true.
Proof.
  unfold dns_ref, dns. intros [[_ H1]%andb_prop [_ H2]%andb_prop]%andb_prop. unfold ns_name. by rewrite !free_of_app, H1, H2.
Qed.

Section Decoding.
Context `{Platform} `{MapRange} `{Otel}.

(** The identifiers that a text is decoded to *)
Definition component_of (k : string) : option component_ID :=
  match decodeID ToComponentID k with Returns (AsComponent t n) => Some (t, n) | _ => None end.
Definition pipeline_of (k : string) : option pipeline_ID :=
  match decodeID ToPipelineID k with Returns (AsPipeline s n) => Some (s, n) | _ => None end.

(** The collector's packages accept the types and the signals of the program. *)
Definition accepts_types : Prop :=
  (∀ t, t ∈ component_types ++ exceptionComponents → is_type t = true) ∧ is_signal "logs" = true ∧ is_signal "metrics" = true.

Context (Hotel : accepts_types).

Lemma types_free t : t ∈ component_types ++ exceptionComponents → free_of "/"%char t = true.
Proof.
  intros Ht. assert (Forall (λ t, free_of "/"%char t = true) (component_types ++ exceptionComponents)) as Hf.
  { apply (bool_decide_unpack _). by vm_compute. }
  rewrite Forall_forall in Hf. by apply Hf.
Qed.

Lemma component_of_bare k : k ∈ exceptionComponents → component_of k = Some (k, "").
Proof using Hotel.
  destruct Hotel as [Htypes _]. intros Hk. unfold component_of, decodeID, SplitN2.
  rewrite cut_free by (apply types_free, elem_of_app; by right). rewrite bool_decide_true by done.
  unfold MustNewIDWithName. rewrite Htypes; [done|]. apply elem_of_app. by right.
Qed.

Lemma component_of_typed t n : t ∈ component_types → component_of (t +:+ String "/" n) = Some (t, n).
Proof using Hotel.
  destruct Hotel as [Htypes _]. intros Ht. unfold component_of, decodeID, SplitN2.
  rewrite cut_app by (apply types_free, elem_of_app; by left). unfold MustNewIDWithName.
  rewrite Htypes; [done|]. apply elem_of_app. by left.
Qed.

Lemma component_of_inj k1 k2 : component_name k1 → component_name k2 → component_of k1 = component_of k2 → k1 = k2.
Proof using Hotel.
  intros Hn1 Hn2. assert (∀ t, t ∈ component_types → t ∈ exceptionComponents → False) as Hdisj.
  { assert (Forall (λ t, t ∉ exceptionComponents) component_types) as Hf by (apply (bool_decide_unpack _); by vm_compute).
    rewrite Forall_forall in Hf. exact Hf. }
  destruct Hn1 as [k1 Hk1|t1 n1 Ht1], Hn2 as [k2 Hk2|t2 n2 Ht2];
    rewrite ?(component_of_bare k1), ?(component_of_bare k2), ?(component_of_typed t1 n1), ?(component_of_typed t2 n2) by done;
    intros [= ]; subst; try done; exfalso; eauto.
Qed.

(** The name is decoded to the type and the name it was printed from. *)
Lemma component_name_decodes k : component_name k → ∃ t n, component_of k = Some (t, n) ∧ (k = t ∧ n = "" ∨ k = t +:+ String "/" n).
Proof using Hotel.
  intros [k' Hk|t n Ht]; [exists k', ""; rewrite component_of_bare by done; auto|exists t, n; rewrite component_of_typed by done; auto].
Qed.

Lemma pipeline_name_decodes c k p : pipeline_origin c k p → ∃ signal name,
  pipeline_of k = Some (signal, name) ∧ k = signal +:+ String "/" name.
Proof using Hotel.
  destruct Hotel as (_ & Hl & Hm). intros Hp.
  assert (∃ s n, (s = "logs" ∨ s = "metrics") ∧ k = s +:+ String "/" n) as (s & n & Hs & ->).
  { destruct Hp as [name|k p _ Hk|name|name s|name s ref o]; try (exists "logs"; eexists; split; [by left|reflexivity]).
    exists "metrics". unfold GenerateMetricsPipelines in Hk.
    apply insert_all_inv in Hk as [Hk|[Hk _]]; [|by rewrite lookup_empty in Hk].
    apply elem_of_app in Hk as [Hk|Hk].
    - rewrite !elem_of_cons, elem_of_nil in Hk. destruct Hk as [[= -> _]|[[= -> _]|[]]]; (eexists; split; [by right|reflexivity]).
    - destruct (Input_IsAxoflowDistribution c); [|by apply not_elem_of_nil in Hk].
      apply list_elem_of_singleton in Hk as [= -> _]. eexists; split; [by right|reflexivity]. }
  exists s, n. split; [|done]. unfold pipeline_of, decodeID, SplitN2. rewrite cut_app by (by destruct Hs as [->| ->]).
  by destruct Hs as [->| ->]; rewrite ?Hl, ?Hm.
Qed.

Lemma decode_extension_total k : k = "health_check" ∨ (∃ t n, t ∈ component_types ∧ k = t +:+ String "/" n ∧ free_of "/"%char n = true) →
  ∃ id, decode_extension k = Returns id ∧ component_of k = Some id.
Proof using Hotel.
  pose proof Hotel as [Htypes _]. unfold decode_extension. intros [->|(t & n & Ht & -> & Hn)].
  - assert ("health_check" ∈ exceptionComponents) as He by (apply (bool_decide_unpack _); by vm_compute).
    rewrite Split_free by done. rewrite Htypes by (apply elem_of_app; by right). exists ("health_check", "").
    by rewrite component_of_bare.
  - rewrite Split_two; [|apply types_free, elem_of_app; by left|done].
    rewrite Htypes by (apply elem_of_app; by left). exists (t, n). by rewrite component_of_typed.
Qed.

Lemma decode_extensions_total ks : (∀ k, k ∈ ks → ∃ id, decode_extension k = Returns id ∧ component_of k = Some id) →
  ∃ ids, decodeExtensionsConfig ks = Returns ids ∧ mapM component_of ks = Some ids.
Proof using Type.
  induction ks as [|k ks IH]; intros Hk; [by exists []|].
  destruct (Hk k (list_elem_of_here _ _)) as (id & E & Eo). destruct IH as (ids & Eids & Eos).
  { intros k' Hk'. by apply Hk, list_elem_of_further. }
  exists (id :: ids). cbn [decodeExtensionsConfig mapM]. rewrite E, Eo. cbn. by rewrite Eids, Eos.
Qed.
End Decoding.

Section Assembled.
Context `{Platform} `{MapRange} `{Otel}.
Context (c : OtelColConfigInput) (Hotel : accepts_types) (Hdns : dns_input c).

(** A name of a component of the configuration *)
Definition names_component (k : string) : Prop :=
  is_Some (Config_Receivers (assemble c) !! k) ∨ is_Some (Config_Processors (assemble c) !! k) ∨
  is_Some (Config_Exporters (assemble c) !! k) ∨ is_Some (Config_Connectors (assemble c) !! k) ∨
  is_Some (Config_Extensions (assemble c) !! k).

Lemma components_named k : names_component k → component_name k.
Proof using Type.
  unfold names_component. rewrite assemble_eq.
  cbn [Config_Receivers Config_Processors Config_Exporters Config_Connectors Config_Extensions].
  intros [?%receivers_named|[?%processors_named|[?%exporters_named|[?%connectors_named|Hk%extensions_named]]]]; try done.
  destruct Hk as [->|[(o & _ & [-> | ->])|(t & _ & ->)]]; [|typed "basicauth"|typed "bearertokenauth"|typed "file_storage"].
  apply bare_name. apply (bool_decide_unpack _); by vm_compute.
Qed.

Lemma pipelines_decode k : is_Some (Service_Pipelines (assemble c) !! k) → ∃ signal name,
  pipeline_of k = Some (signal, name) ∧ k = signal +:+ String "/" name.
Proof using Hotel.
  intros [p (p0 & Hp & _)%assemble_pipeline_origin]. by apply pipeline_name_decodes with (p := p0) (c := c).
Qed.

Lemma service_extensions_decode : ∃ ids, decodeExtensionsConfig (elems (Service_Extensions (assemble c))) = Returns ids ∧
  mapM component_of (elems (Service_Extensions (assemble c))) = Some ids.
Proof using Hotel Hdns.
  apply decode_extensions_total. intros k Hk. apply elem_of_service_extensions in Hk. rewrite assemble_eq in Hk.
  apply decode_extension_total; [done|]. apply extensions_named in Hk as [->|[(o & Ho & Hx)|(t & Ht & ->)]]; [by left|right..].
  - pose proof (dns_ref_slash _ (dns_outputs c Hdns o Ho)) as Hfree.
    destruct Hx as [-> | ->]; [exists "basicauth"|exists "bearertokenauth"]; exists (ns_name (output_ref o));
      (split; [apply (bool_decide_unpack _); by vm_compute|done]).
  - exists "file_storage", (Tenant_Name t). pose proof (dns_tenants c Hdns t Ht) as Hd. apply andb_prop in Hd as [_ Hd].
    split; [apply (bool_decide_unpack _); by vm_compute|done].
Qed.
End Assembled.

(** * The configuration in the types of the collector *)
Section Convert.
Context `{Platform} `{MapRange} `{Otel} `{!Mapstructure}.

(** A pipeline with every name decoded *)
Definition pipeline_converted (p : Pipeline) (q : pipeline_Config) : Prop :=
  mapM component_of (Pipeline_Receivers p) = Some (PipelineConfig_Receivers q) ∧
  mapM component_of (Pipeline_Processors p) = Some (PipelineConfig_Processors q) ∧
  mapM component_of (Pipeline_Exporters p) = Some (PipelineConfig_Exporters q).

(** [m'] has the entries of [m] under the decoded keys. *)
Definition converted {A B} (decode : string → option component_ID) (R : A → B → Prop)
    (m : gmap string A) (m' : gmap component_ID B) : Prop :=
  (∀ k x, m !! k = Some x → ∃ id y, decode k = Some id ∧ m' !! id = Some y ∧ R x y) ∧
  (∀ id y, m' !! id = Some y → ∃ k x, decode k = Some id ∧ m !! k = Some x ∧ R x y).

Definition decodable {A} (decode : string → option component_ID) (m : gmap string A) : Prop :=
  (∀ k, is_Some (m !! k) → is_Some (decode k)) ∧
  (∀ k1 k2, is_Some (m !! k1) → is_Some (m !! k2) → decode k1 = decode k2 → k1 = k2).

(** What [mapstructure] documents of decoding a map: the hooks turn every key,
    and every text on the way, into the type that is asked for, and the values
    are decoded in turn. *)
Record mapstructure_laws : Prop := {
  NewDecoder_law config : NewDecoder config = None;
  Decode_components_law A config (m : gmap string A) : DecodeID ∈ DecodeHook config → decodable component_of m →
    ∃ m', Decode_components config m = Returns m' ∧ converted component_of eq m m';
  Decode_pipelines_law config (m : gmap string Pipeline) : DecodeID ∈ DecodeHook config → decodable pipeline_of m →
    (∀ k p, m !! k = Some p → ∃ q, pipeline_converted p q) →
    ∃ m', Decode_pipelines config m = Returns m' ∧ converted pipeline_of pipeline_converted m m'
}.

(** A pipeline of the converted configuration refers to what it defines. *)
Record closed_converted (cfg : otelcol_Config telemetry_Config) (q : pipeline_Config) : Prop := {
  converted_receivers : Forall (λ x, is_Some (Otelcol_Receivers cfg !! x) ∨ is_Some (Otelcol_Connectors cfg !! x))
    (PipelineConfig_Receivers q);
  converted_processors : Forall (λ x, is_Some (Otelcol_Processors cfg !! x)) (PipelineConfig_Processors q);
  converted_exporters : Forall (λ x, is_Some (Otelcol_Exporters cfg !! x) ∨ is_Some (Otelcol_Connectors cfg !! x))
    (PipelineConfig_Exporters q)
}.

Lemma converted_known {A} (m : gmap string A) m' k id : converted component_of eq m m' → is_Some (m !! k) → component_of k = Some id →
  is_Some (m' !! id).
Proof using Type. intros [Hm _] [x Hx] Hk. destruct (Hm k x Hx) as (id' & y & E & Hy & _). rewrite Hk in E. injection E as <-. eauto. Qed.

Lemma mapM_Forall {P : string → Prop} {Q : component_ID → Prop} ks ids : mapM component_of ks = Some ids → Forall P ks →
  (∀ k id, component_of k = Some id → P k → Q id) → Forall Q ids.
Proof using Type.
  intros E Hk HQ. apply mapM_Some_1 in E. induction E as [|k id ks ids E _ IH]; [constructor|].
  apply Forall_cons in Hk as [Hk Hks]. constructor; eauto.
Qed.

Context (c : OtelColConfigInput) (Hotel : accepts_types) (Hlaws : mapstructure_laws).

Lemma component_name_of k : component_name k → is_Some (component_of k).
Proof using Hotel. intros (t & n & -> & _)%(component_name_decodes Hotel). eauto. Qed.

Lemma any_config_decodes {A} (m : gmap string A) : (∀ k, is_Some (m !! k) → component_name k) →
  ∃ m', decodeAnyConfig m = Returns m' ∧ converted component_of eq m m'.
Proof using Hotel Hlaws.
  intros Hm. unfold decodeAnyConfig. rewrite (NewDecoder_law Hlaws). cbn.
  destruct (Decode_components_law Hlaws A (createDecoderConfig [DecodeID; StringToTimeDurationHookFunc; StringToSliceHookFunc ","]) m)
    as (m' & E & Hc).
  - apply list_elem_of_here.
  - split; [intros k Hk; by apply component_name_of, Hm|]. intros k1 k2 H1k H2k. apply (component_of_inj Hotel); auto.
  - exists m'. by rewrite E.
Qed.

Lemma names_decode ks : Forall component_name ks → ∃ ids, mapM component_of ks = Some ids.
Proof using Hotel. intros Hk. apply mapM_is_Some_2. eapply Forall_impl; [exact Hk|]. apply component_name_of. Qed.

Lemma pipeline_names_decode p : closed_pipeline (assemble c) p → ∃ q, pipeline_converted p q.
Proof using Hotel.
  intros [Hrs Hps Hes].
  destruct (names_decode (Pipeline_Receivers p)) as [rs Ers].
  { eapply Forall_impl; [exact Hrs|]. intros k Hk. apply (components_named c). unfold names_component. destruct Hk; tauto. }
  destruct (names_decode (Pipeline_Processors p)) as [ps Eps].
  { eapply Forall_impl; [exact Hps|]. intros k Hk. apply (components_named c). unfold names_component. tauto. }
  destruct (names_decode (Pipeline_Exporters p)) as [es Ees].
  { eapply Forall_impl; [exact Hes|]. intros k Hk. apply (components_named c). unfold names_component. destruct Hk; tauto. }
  by exists (mkPipelineConfig rs ps es).
Qed.

Lemma pipelines_config_decodes : (∀ k p, Service_Pipelines (assemble c) !! k = Some p → closed_pipeline (assemble c) p) →
  ∃ m', decodePipelinesConfig (Service_Pipelines (assemble c)) = Returns m' ∧
    converted pipeline_of pipeline_converted (Service_Pipelines (assemble c)) m'.
Proof using Hotel Hlaws.
  intros Hclosed. unfold decodePipelinesConfig. rewrite (NewDecoder_law Hlaws). cbn.
  destruct (Decode_pipelines_law Hlaws (createDecoderConfig [DecodeID; StringToSliceHookFunc ","; StringToTimeDurationHookFunc])
    (Service_Pipelines (assemble c))) as (m' & E & Hc).
  - apply list_elem_of_here.
  - split.
    + intros k (s & n & -> & _)%(pipelines_decode c Hotel). eauto.
    + intros k1 k2 (s1 & n1 & -> & ->)%(pipelines_decode c Hotel) (s2 & n2 & -> & ->)%(pipelines_decode c Hotel).
      by intros [= -> ->].
  - intros k p Hp. eapply pipeline_names_decode, Hclosed, Hp.
  - exists m'. by rewrite E.
Qed.
End Convert.

Lemma config_converts `{Platform} `{MapRange} `{Otel} `{!Mapstructure} c telemetry :
  wf_input c → routable c → dns_input c → accepts_types → mapstructure_laws →
  (∀ config, Decode_telemetry config (Service_Telemetry (assemble c)) = Returns telemetry) →
  ∃ cfg, convert (assemble c) = Returns cfg ∧
    converted component_of eq (Config_Receivers (assemble c)) (Otelcol_Receivers cfg) ∧
    converted component_of eq (Config_Exporters (assemble c)) (Otelcol_Exporters cfg) ∧
    converted component_of eq (Config_Processors (assemble c)) (Otelcol_Processors cfg) ∧
    converted component_of eq (Config_Connectors (assemble c)) (Otelcol_Connectors cfg) ∧
    converted component_of eq (Config_Extensions (assemble c)) (Otelcol_Extensions cfg) ∧
    converted pipeline_of pipeline_converted (Service_Pipelines (assemble c)) (ServiceConfig_Pipelines (Otelcol_Service cfg)) ∧
    (∀ id q, ServiceConfig_Pipelines (Otelcol_Service cfg) !! id = Some q → closed_converted cfg q) ∧
    Forall (λ x, is_Some (Otelcol_Extensions cfg !! x)) (ServiceConfig_Extensions (Otelcol_Service cfg)) ∧
    ValidateAssembledConfig (assemble c) =
      Some (ErrWrap "invalid OpenTelemetry Collector configuration" <$> otelcol_Validate cfg).
Proof.
  intros Hwf Hr Hdns Hotel Hlaws Htel.
  assert (∀ k, names_component c k → component_name k) as Hnames by apply components_named. unfold names_component in Hnames.
  destruct (any_config_decodes Hotel Hlaws (Config_Receivers (assemble c))) as (rs & Er & Cr); [intros k Hk; apply Hnames; tauto|].
  destruct (any_config_decodes Hotel Hlaws (Config_Exporters (assemble c))) as (es & Ee & Ce); [intros k Hk; apply Hnames; tauto|].
  destruct (any_config_decodes Hotel Hlaws (Config_Processors (assemble c))) as (ps & Ep & Cp); [intros k Hk; apply Hnames; tauto|].
  destruct (any_config_decodes Hotel Hlaws (Config_Connectors (assemble c))) as (xs & Ex & Cx); [intros k Hk; apply Hnames; tauto|].
  destruct (any_config_decodes Hotel Hlaws (Config_Extensions (assemble c))) as (ts & Et & Ct); [intros k Hk; apply Hnames; tauto|].
  destruct (pipelines_config_decodes c Hotel Hlaws) as (ss & Es & Cs); [intros k p; by apply service_closed|].
  destruct (service_extensions_decode c Hotel Hdns) as (ids & Ei & Fi).
  assert (decodeTelemetryConfig (Service_Telemetry (assemble c)) = Returns telemetry) as Etel.
  { unfold decodeTelemetryConfig. rewrite (NewDecoder_law Hlaws). cbn. by rewrite Htel. }
  exists (mkOtelcolConfig rs es ps xs ts (mkServiceConfig telemetry ids ss)).
  assert (convert (assemble c) = Returns (mkOtelcolConfig rs es ps xs ts (mkServiceConfig telemetry ids ss))) as Ec.
  { unfold convert, decodeServiceConfig. by rewrite Er, Ee, Ep, Ex, Et, Etel, Ei, Es. }
  cbn [Otelcol_Receivers Otelcol_Exporters Otelcol_Processors Otelcol_Connectors Otelcol_Extensions Otelcol_Service
       ServiceConfig_Pipelines ServiceConfig_Extensions].
  split_and!; try done.
  - intros id q Hq. destruct Cs as [_ Cs]. destruct (Cs id q Hq) as (k & p & _ & Hp & Eqr & Eqp & Eqe).
    destruct (service_closed c k p Hwf Hr Hp) as [Hrs Hps Hes]. split;
      cbn [Otelcol_Receivers Otelcol_Exporters Otelcol_Processors Otelcol_Connectors].
    + eapply mapM_Forall; [exact Eqr|exact Hrs|]. intros x id' Ex' [Hx|Hx]; [left; by apply (converted_known _ _ _ _ Cr Hx)|right; by apply (converted_known _ _ _ _ Cx Hx)].
    + eapply mapM_Forall; [exact Eqp|exact Hps|]. intros x id' Ex' Hx. by apply (converted_known _ _ _ _ Cp Hx).
    + eapply mapM_Forall; [exact Eqe|exact Hes|]. intros x id' Ex' [Hx|Hx]; [left; by apply (converted_known _ _ _ _ Ce Hx)|right; by apply (converted_known _ _ _ _ Cx Hx)].
  - eapply (mapM_Forall (P := λ k, is_Some (Config_Extensions (assemble c) !! k))); [exact Fi| |].
    + apply Forall_forall. intros k. apply elem_of_service_extensions.
    + intros x id' Ex' Hx. by apply (converted_known _ _ _ _ Ct Hx).
  - unfold ValidateAssembledConfig. rewrite Ec. cbn. by destruct (otelcol_Validate _).
Qed.


(** C6. An assembled configuration converts to the collector's own types, and
    nothing is lost: each component and each pipeline is found again under the
    identifier its name was printed from, the references of the pipelines and
    the extensions of the service are to components that are there, and the
    collector's own validation of the result decides. This is for well-formed
    inputs with Kubernetes names, on a collector that accepts the component
    types, with a decoder that does what its documentation says. *)
Theorem assembled_config_converts `{Platform} `{MapRange} `{Otel} `{!Mapstructure} c telemetry :
  wf_input c → routable c → dns_input c → accepts_types → mapstructure_laws →
  (∀ config, Decode_telemetry config (Service_Telemetry (assemble c)) = Returns telemetry) →
  ∃ cfg, convert (assemble c) = Returns cfg ∧
    converted component_of eq (Config_Receivers (assemble c)) (Otelcol_Receivers cfg) ∧
    converted component_of eq (Config_Exporters (assemble c)) (Otelcol_Exporters cfg) ∧
    converted component_of eq (Config_Processors (assemble c)) (Otelcol_Processors cfg) ∧
    converted component_of eq (Config_Connectors (assemble c)) (Otelcol_Connectors cfg) ∧
    converted component_of eq (Config_Extensions (assemble c)) (Otelcol_Extensions cfg) ∧
    converted pipeline_of pipeline_converted (Service_Pipelines (assemble c)) (ServiceConfig_Pipelines (Otelcol_Service cfg)) ∧
    (∀ id q, ServiceConfig_Pipelines (Otelcol_Service cfg) !! id = Some q → closed_converted cfg q) ∧
    Forall (λ x, is_Some (Otelcol_Extensions cfg !! x)) (ServiceConfig_Extensions (Otelcol_Service cfg)) ∧
    ValidateAssembledConfig (assemble c) =
      Some (ErrWrap "invalid OpenTelemetry Collector configuration" <$> otelcol_Validate cfg).
Proof. apply config_converts. Qed.

#[local] Existing Instance sample_platform.
#[local] Instance sample_types : Otel := {
  is_type s := negb (bool_decide (s = ""));
  is_signal s := bool_decide (s = "logs") || bool_decide (s = "metrics") || bool_decide (s = "traces");
  parse_level _ := None; parse_zap_level _ := None
}.

(** A decoder that only turns the names *)
Definition rekey {A B} (decode : string → option component_ID) (f : A → option B) (m : gmap string A) : gmap component_ID B :=
  insert_all (omap (λ kx, id ← decode kx.1; y ← f kx.2; Some (id, y)) (map_to_list m)) ∅.

Lemma elem_of_rekeyed {A B} (decode : string → option component_ID) (f : A → option B) (m : gmap string A) id y :
  (id, y) ∈ omap (λ kx, id ← decode kx.1; y ← f kx.2; Some (id, y)) (map_to_list m) ↔
  ∃ k x, decode k = Some id ∧ m !! k = Some x ∧ f x = Some y.
Proof.
  rewrite list_elem_of_omap. split.
  - intros ([k x] & Hkx%elem_of_map_to_list & E). apply bind_Some in E as (id' & Ek & E).
    apply bind_Some in E as (y' & Ex & [= -> ->]). exists k, x. done.
  - intros (k & x & Ek & Hx & Ex). exists (k, x). split; [by apply elem_of_map_to_list|]. cbn. by rewrite Ek; cbn; rewrite Ex.
Qed.

Lemma rekey_converted {A B} decode (f : A → option B) (m : gmap string A) : decodable decode m →
  (∀ k x, m !! k = Some x → ∃ y, f x = Some y) → converted decode (λ x y, f x = Some y) m (rekey decode f m).
Proof.
  intros [Hdec Hinj] Hf. split.
  - intros k x Hx. destruct (Hdec k) as [id Hid]; [eauto|]. destruct (Hf k x Hx) as [y Hy]. exists id, y. split_and!; [done| |done].
    apply insert_all_lookup; [apply elem_of_rekeyed; eauto|].
    intros y' (k' & x' & Hk' & Hx' & Hy')%elem_of_rekeyed.
    assert (k' = k) as -> by (apply Hinj; [eauto..|congruence]). congruence.
  - intros id y [(k & x & Hk & Hx & Hy)%elem_of_rekeyed|[E _]]%insert_all_inv; [eauto|by rewrite lookup_empty in E].
Qed.

Lemma converted_mono {A B} decode (R R' : A → B → Prop) m m' : (∀ x y, R x y → R' x y) → converted decode R m m' → converted decode R' m m'.
Proof.
  intros HR [H1 H2]. split.
  - intros k x (id & y & ? & ? & ?)%H1. eauto 10.
  - intros id y (k & x & ? & ? & ?)%H2. eauto 10.
Qed.

Definition convert_pipeline (p : Pipeline) : option pipeline_Config :=
  rs ← mapM component_of (Pipeline_Receivers p);
  ps ← mapM component_of (Pipeline_Processors p);
  es ← mapM component_of (Pipeline_Exporters p);
  Some (mkPipelineConfig rs ps es).

Lemma convert_pipeline_spec p q : convert_pipeline p = Some q ↔ pipeline_converted p q.
Proof.
  unfold convert_pipeline, pipeline_converted. destruct q as [qr qp qe]. cbn.
  destruct (mapM component_of (Pipeline_Receivers p)), (mapM component_of (Pipeline_Processors p)),
    (mapM component_of (Pipeline_Exporters p)); cbn; naive_solver congruence.
Qed.

#[local] Instance sample_mapstructure : Mapstructure := {
  telemetry_Config := unit; NewDecoder _ := None;
  Decode_components A _ m := Returns (rekey component_of Some m);
  Decode_telemetry _ _ := Returns tt;
  Decode_pipelines _ m := Returns (rekey pipeline_of convert_pipeline m);
  otelcol_Validate _ := None
}.

Lemma sample_laws : mapstructure_laws.
Proof.
  split; [done| |].
  - intros A config m _ Hm. eexists. split; [done|]. eapply converted_mono; [|apply (rekey_converted component_of Some m Hm); eauto].
    by intros x y [= ->].
  - intros config m _ Hm Hp. eexists. split; [done|].
    eapply converted_mono; [|apply (rekey_converted pipeline_of convert_pipeline m Hm)].
    + intros p q. apply convert_pipeline_spec.
    + intros k p Hk. destruct (Hp k p Hk) as [q Hq]. exists q. by apply convert_pipeline_spec.
Qed.

Lemma sample_accepts : accepts_types.
Proof.
  split; [|done]. intros t Ht. assert (Forall (λ t, is_type t = true) (component_types ++ exceptionComponents)) as Hf.
  { apply (bool_decide_unpack _). by vm_compute. }
  rewrite Forall_forall in Hf. by apply Hf.
Qed.

Lemma assembled_config_converts_witness : ∃ cfg, convert (assemble sample_input) = Returns cfg ∧
  is_Some (Otelcol_Receivers cfg !! ("file_log", "red")) ∧ ValidateAssembledConfig (assemble sample_input) = Some None.
Proof.
  destruct (assembled_config_converts (H2 := sample_mapstructure) sample_input tt sample_wf sample_routable sample_dns sample_accepts sample_laws (λ _, eq_refl))
    as (cfg & E & Cr & _ & _ & _ & _ & _ & _ & _ & Ev).
  exists cfg. split; [exact E|]. split; [|exact Ev].
  eapply (converted_known _ _ "file_log/red"); [exact Cr|vm_compute; eauto|by vm_compute].
Defined.

(** * What the validation of the input does not look at *)
Definition unrouted_subscription : Subscription :=
  mkSubscription "team" "errors" (mkSubscriptionSpec "true" (Some [out_ref]))
    (mkSubscriptionStatus "red" None StateReady None 0).
Definition unrouted_cluster : cluster :=
  mkCluster ["team"; "apps"] [settled_tenant] [] [sample_collector] [ResSubscription unrouted_subscription] [] false.

Definition unrouted_input : OtelColConfigInput :=
  match (BuildConfigInputForCollector settled_collector unrouted_cluster).2 with
  | Some (Ok c) => c
  | _ => sample_input
  end.

Lemma unrouted_wf : wf_input unrouted_input.
Proof.
  assert (snapshot unrouted_cluster) as Hs.
  { apply (cluster_snapshot (H := sample_platform) sample_matches); [|by constructor].
    apply (bool_decide_unpack _). by vm_compute. }
  destruct (built_input unrouted_cluster settled_collector unrouted_cluster unrouted_input Hs) as (_ & r & l & Hr & _ & ->).
  - vm_compute. reflexivity.
  - by eapply read_wf.
Qed.

(** The exporter [x] of the pipeline [k] is not defined. *)
Definition dangling (cfg : Config) (k x : string) : bool :=
  match Service_Pipelines cfg !! k with
  | Some p => bool_decide (x ∈ Pipeline_Exporters p) && is_nil (Config_Exporters cfg !! x) && is_nil (Config_Connectors cfg !! x)
  | None => false
  end.

Lemma dangling_spec cfg k x : dangling cfg k x = true → ∃ p, Service_Pipelines cfg !! k = Some p ∧ x ∈ Pipeline_Exporters p ∧
  Config_Exporters cfg !! x = None ∧ Config_Connectors cfg !! x = None.
Proof.
  unfold dangling. destruct (Service_Pipelines cfg !! k) as [p|]; [|done].
  rewrite !andb_true_iff, bool_decide_eq_true. intros [[Hx H1] H2]. exists p.
  destruct (Config_Exporters cfg !! x), (Config_Connectors cfg !! x); done.
Qed.

(** The validation of the input asks for outputs in the specification of a
    subscription, but the configuration is generated from the outputs of its
    status. So it accepts a well-formed input whose configuration has a pipeline
    that exports to a component that is not there. *)
Theorem validation_misses_status_outputs : ∃ c,
  wf_input c ∧ ValidateConfigInput c = None ∧
  ∃ k p x, Service_Pipelines (assemble c) !! k = Some p ∧ x ∈ Pipeline_Exporters p ∧
    Config_Exporters (assemble c) !! x = None ∧ Config_Connectors (assemble c) !! x = None.
Proof.
  exists unrouted_input. split; [exact unrouted_wf|]. split; [by vm_compute|].
  exists "logs/tenant_red_subscription_team_errors".
  destruct (dangling_spec (assemble unrouted_input) "logs/tenant_red_subscription_team_errors"
    "routing/subscription_team_errors_outputs") as (p & Hp); [by vm_compute|].
  exists p. eexists. exact Hp.
Qed.
