(* ===== verification/TypeSpec.v ===== *)
(** The types of an assembled configuration: the type in a component's name
    says what its configuration is, and every pipeline is made of components
    that work on the signal in the pipeline's name. *)
From S2P Require Import Prelude Strs Json Errors ApiOtlp ApiOutput ApiTypes Kube Relations.
From S2P Require Import Exporters Processors Receivers Extensions Connectors ConfGen Names.
From S2P Require Import ConfGenFacts PipelineFacts WfInput Samples ExporterSpec ConfGenSpec ExtensionSpec Validator ValidatorSpec.
From Stdlib Require Import Ascii.

(** What stands before the slash of a name *)
Definition type_of (k : string) : string := match cut "/"%char k with Some (t, _) => t | None => k end.

Lemma type_of_app t n : free_of "/"%char t = true → type_of (t +:+ String "/" n) = t.
Proof. intros Ht. unfold type_of. by rewrite cut_app. Qed.

(** Reads the type of a printed name. *)
Ltac typed_as t :=
  match goal with |- context [type_of ?k] =>
    replace (type_of k) with t by (symmetry; by apply (type_of_app t)) end.

(** * Components *)

Section Types.
Context `{Platform} `{MapRange}.
Implicit Types (c : OtelColConfigInput).

(** The configurations a type stands for *)
Definition processor_fits (k : string) (p : processor_config) : Prop :=
  match p with
  | ProcMap _ => type_of k ∈ ["k8s_attributes"; "memory_limiter"; "filter"; "batch"]
  | ProcAttributes _ => type_of k = "attributes"
  | ProcTransform _ => type_of k = "transform"
  | ProcDelta _ => type_of k = "deltatocumulative"
  end.

Definition exporter_fits (k : string) (e : exporter_config) : Prop :=
  match e with
  | ExpMap _ => type_of k ∈ ["debug"; "otlp_grpc"; "otlp_http"; "fluentforwardexporter"; "file"; "elasticsearch"; "awss3"]
  | ExpPrometheus _ => type_of k = "prometheus"
  end.

Definition connector_fits (k : string) (x : connector_config) : Prop :=
  match x with
  | ConnCount _ => type_of k = "count"
  | ConnBytes _ => type_of k = "bytes"
  | ConnRouting rc => type_of k = "routing" ∧ RoutingConnector_Name rc = k
  end.

Definition extension_fits (k : string) (x : extension_config) : Prop :=
  match x with
  | ExtMap _ => type_of k ∈ ["health_check"; "file_storage"]
  | ExtBasicAuth _ => type_of k = "basicauth"
  | ExtBearerAuth _ => type_of k = "bearertokenauth"
  end.

Definition receiver_fits (k : string) (_ : gmap string any) : Prop := type_of k ∈ ["file_log"; "k8s_events"].

Lemma routing_type n : type_of ("routing/" +:+ n) = "routing".
Proof. by apply (type_of_app "routing"). Qed.

Lemma processors_fit c : map_Forall processor_fits (generateProcessors c).
Proof.
  intros k p. unfold generateProcessors. intros [E|[E _]]%insert_all_inv.
  { apply list_elem_of_bind in E as (o & E & _). unfold output_processors in E.
    apply elem_of_cons in E as [[= -> ->]|E]; [by apply (type_of_app "attributes")|].
    destruct (OutputSpec_Batch _); [|by apply not_elem_of_nil in E]. apply list_elem_of_singleton in E as [= -> ->].
    cbn. typed_as "batch". field_here. }
  apply insert_all_inv in E as [E|[E _]].
  { apply list_elem_of_bind in E as (s & [= -> ->]%list_elem_of_singleton & _). by apply (type_of_app "attributes"). }
  apply insert_all_inv in E as [E|[E _]].
  { apply list_elem_of_bind in E as (t & E & _). unfold tenant_processors in E.
    apply elem_of_cons in E as [[= -> ->]|E]; [by apply (type_of_app "attributes")|].
    case_bool_decide; cbn [negb] in E; [by apply not_elem_of_nil in E|]. apply list_elem_of_singleton in E as [= -> ->].
    by apply (type_of_app "transform"). }
  apply maps_copy_inv in E as [E|E];
    (apply insert_all_inv in E as [E|[E _]]; [|by rewrite lookup_empty in E]);
    rewrite !elem_of_cons, elem_of_nil in E; unfold DefaultDeltaToCumulativeProcessorID in E;
    (repeat destruct E as [[= -> ->]|E]); try done; cbn; try done; field_here.
Qed.

Lemma exporter_name_type o : GetExporterNameForOutput o ≠ "" →
  type_of (GetExporterNameForOutput o) ∈ ["otlp_grpc"; "otlp_http"; "fluentforwardexporter"; "file"; "elasticsearch"; "awss3"].
Proof.
  unfold GetExporterNameForOutput.
  destruct (OutputSpec_OTLPGRPC _); [intros _; typed_as "otlp_grpc"; field_here|].
  destruct (OutputSpec_OTLPHTTP _); [intros _; typed_as "otlp_http"; field_here|].
  destruct (OutputSpec_Fluentforward _); [intros _; typed_as "fluentforwardexporter"; field_here|].
  destruct (OutputSpec_File _); [intros _; typed_as "file"; field_here|].
  destruct (OutputSpec_Elasticsearch _); [intros _; typed_as "elasticsearch"; field_here|].
  destruct (OutputSpec_AWSS3 _); [intros _; typed_as "awss3"; field_here|done].
Qed.

Lemma named_fit o m : GetExporterNameForOutput o ≠ "" → exporter_fits (GetExporterNameForOutput o) (ExpMap m).
Proof. intros Hn%exporter_name_type. by apply list_elem_of_further. Qed.

Lemma queued_fit r axoflow entry settings o k e :
  (entry, settings) ∈ queued_exporters r axoflow → entry o = Some (k, e) → exporter_fits k e.
Proof.
  unfold queued_exporters. rewrite !elem_of_cons, elem_of_nil.
  intros [[= -> ->]|[[= -> ->]|[[= -> ->]|[[= -> ->]|[[= -> ->]|[]]]]]] E;
    apply bind_Some in E as (api & Eapi & E); apply bind_Some in E as (t & Et & E).
  5: apply bind_Some in E as (values & Ev & E).
  3: injection E as <- <-; cbn; typed_as "fluentforwardexporter"; field_here.
  all: injection E as <- <-; apply named_fit; unfold GetExporterNameForOutput; rewrite Eapi; by repeat case_match.
Qed.

Lemma exporters_fit c : map_Forall exporter_fits (generateExporters c).
Proof.
  intros k e [e' E|e' E|entry settings o e' _ Hq E|o e' _ E]%generateExporters_origin.
  - unfold GenerateDebugExporters in E. apply lookup_singleton_Some in E as [<- <-]. cbn. field_here.
  - unfold GenerateMetricsExporters in E. apply lookup_singleton_Some in E as [<- <-]. by apply (type_of_app "prometheus").
  - by eapply queued_fit.
  - apply bind_Some in E as (api & _ & E). apply bind_Some in E as (v & _ & [= <- <-]). cbn. typed_as "file". field_here.
Qed.

Lemma extensions_fit c : map_Forall extension_fits (generateExtensions c).1.
Proof.
  intros k x. unfold generateExtensions. cbn [fst]. intros [E|[E _]]%insert_all_inv.
  { apply list_elem_of_bind in E as (t & E & _). unfold tenant_extensions in E.
    destruct (_ && _); [|by apply not_elem_of_nil in E]. apply list_elem_of_singleton in E as [= -> ->].
    cbn. typed_as "file_storage". field_here. }
  apply insert_all_inv in E as [E|[E _]].
  { apply list_elem_of_bind in E as (o & E & _). unfold output_extensions in E.
    destruct (OutputSpec_Authentication _) as [a|]; [|by apply not_elem_of_nil in E].
    apply elem_of_app in E as [E|E]; (destruct (negb _); [|by apply not_elem_of_nil in E]);
      apply list_elem_of_singleton in E as [= -> ->]; [by apply (type_of_app "basicauth")|by apply (type_of_app "bearertokenauth")]. }
  destruct (negb _); [|by rewrite lookup_empty in E]. apply lookup_singleton_Some in E as [<- <-]. cbn. field_here.
Qed.

Lemma receivers_fit c : map_Forall receiver_fits (generateReceivers c).
Proof.
  intros k m E. unfold generateReceivers in E. apply insert_all_inv in E as [E|[E _]]; [|by rewrite lookup_empty in E].
  apply list_elem_of_bind in E as (name & E & _). unfold tenant_receivers in E.
  destruct (find_first _ _); [|by apply not_elem_of_nil in E]. destruct (_ || _); [|by apply not_elem_of_nil in E].
  unfold receiver_fits. apply elem_of_cons in E as [[= -> _]|E]; [typed_as "file_log"; field_here|].
  destruct (Input_EventsToLogs c); [|by apply not_elem_of_nil in E].
  apply list_elem_of_singleton in E as [= -> _]. typed_as "k8s_events". field_here.
Qed.

Lemma routing_fits t rc : RoutingConnector_Name rc = "routing/" +:+ t → connector_fits ("routing/" +:+ t) (ConnRouting rc).
Proof. split; [by apply (type_of_app "routing")|done]. Qed.

Lemma tenant_connectors_fit subs l conns tsm :
  map_Forall connector_fits conns → map_Forall connector_fits (foldl (tenant_connector subs) (conns, tsm) l).1.
Proof.
  revert conns tsm. induction l as [|t l IH]; intros conns tsm Hc; [done|].
  cbn [foldl]. rewrite tenant_connector_step. case_match; apply IH; [|done].
  apply map_Forall_insert_2; [by apply routing_fits|done].
Qed.

Lemma subscription_connectors_fit l conns som :
  map_Forall connector_fits conns → map_Forall connector_fits (foldl subscription_connector (conns, som) l).1.
Proof.
  revert conns som. induction l as [|s l IH]; intros conns som Hc; [done|].
  cbn [foldl]. rewrite subscription_connector_step. case_match; apply IH; [|done].
  apply map_Forall_insert_2; [by apply routing_fits|done].
Qed.

Lemma base_connectors_fit c : map_Forall connector_fits (base_connectors c).
Proof.
  intros k x. unfold base_connectors. destruct (negb _); [|by rewrite lookup_empty].
  intros E. assert (GenerateCountConnectors !! k = Some x ∨ GenerateBytesConnectors !! k = Some x) as [Ec|Eb].
  { destruct (Input_IsAxoflowDistribution c); [apply maps_copy_inv in E as [E|E]; [by right|]|];
      (apply maps_copy_inv in E as [E|E]; [by left|by rewrite lookup_empty in E]). }
  - unfold GenerateCountConnectors in Ec. apply insert_all_inv in Ec as [Ec|[Ec _]]; [|by rewrite lookup_empty in Ec].
    rewrite !elem_of_cons, elem_of_nil in Ec. destruct Ec as [[= -> ->]|[[= -> ->]|[]]]; by apply (type_of_app "count").
  - unfold GenerateBytesConnectors in Eb. apply lookup_singleton_Some in Eb as [<- <-]. by apply (type_of_app "bytes").
Qed.

Lemma connectors_fit c : map_Forall connector_fits (generateConnectors c).1.
Proof.
  unfold generateConnectors. fold (base_connectors c).
  destruct (foldl (tenant_connector _) _ _) as [conns1 tsm] eqn:E1.
  destruct (foldl subscription_connector _ _) as [conns2 som] eqn:E2. cbn [fst].
  intros k x [E|[E _]]%insert_all_inv.
  - apply list_elem_of_fmap in E as (b & [= -> ->] & _). by apply routing_fits.
  - revert k x E. change (map_Forall connector_fits conns2).
    replace conns2 with (conns2, som).1 by done. rewrite <- E2. apply subscription_connectors_fit.
    replace conns1 with (conns1, tsm).1 by done. rewrite <- E1. apply tenant_connectors_fit, base_connectors_fit.
Qed.

End Types.

(** * Signals *)

(** What the collector's components are documented to work on: a component of a
    type gives, processes or takes a signal. *)
Class Signals : Type := {
  gives : string → string → Prop;
  processes : string → string → Prop;
  takes_signal : string → string → Prop
}.

Section Signals.
Context `{Platform} `{MapRange} `{!Signals}.
Implicit Types (c : OtelColConfigInput).

(** The documented behaviour that the configuration relies on *)
Record documented : Prop := {
  logs_given t : t ∈ ["file_log"; "k8s_events"; "routing"] → gives t "logs";
  logs_processed t : t ∈ ["memory_limiter"; "k8s_attributes"; "attributes"; "filter"; "transform"; "batch"] → processes t "logs";
  logs_taken t : t ∈ ["debug"; "otlp_grpc"; "otlp_http"; "fluentforwardexporter"; "file"; "elasticsearch"; "awss3";
                      "routing"; "count"; "bytes"] → takes_signal t "logs";
  metrics_given t : t ∈ ["count"; "bytes"] → gives t "metrics";
  metrics_processed t : t ∈ ["memory_limiter"; "deltatocumulative"; "attributes"] → processes t "metrics";
  metrics_taken : takes_signal "prometheus" "metrics"
}.

Record carries (signal : string) (p : Pipeline) : Prop := {
  carries_receivers : Forall (λ x, gives (type_of x) signal) (Pipeline_Receivers p);
  carries_processors : Forall (λ x, processes (type_of x) signal) (Pipeline_Processors p);
  carries_exporters : Forall (λ x, takes_signal (type_of x) signal) (Pipeline_Exporters p)
}.

Context (Hdoc : documented).

Lemma routing_gives x n : x = "routing/" +:+ n → gives (type_of x) "logs".
Proof using Hdoc. intros ->. apply Hdoc. typed_as "routing". field_here. Qed.

Lemma routing_takes x n : x = "routing/" +:+ n → takes_signal (type_of x) "logs".
Proof using Hdoc. intros ->. apply Hdoc. typed_as "routing". field_here. Qed.

Lemma attributes_process x n signal : signal = "logs" ∨ signal = "metrics" → x = "attributes/" +:+ n → processes (type_of x) signal.
Proof using Hdoc. intros [->| ->] ->; apply Hdoc; typed_as "attributes"; field_here. Qed.

(** A generated pipeline carries what its lists carry, empty names aside. *)
Lemma generated_carries signal rs ps es :
  (∀ x, x ∈ rs → x ≠ "" → gives (type_of x) signal) → (∀ x, x ∈ ps → x ≠ "" → processes (type_of x) signal) →
  (∀ x, x ∈ es → x ≠ "" → takes_signal (type_of x) signal) → carries signal (GeneratePipeline rs ps es).
Proof using Type. intros Hr Hp He. split; apply Forall_forall; intros x [Hx Hne]%elem_of_filterEmpty; auto. Qed.

Lemma root_step_keeps name ev ts rs e :
  (∀ x, x ∈ rs → gives (type_of x) "logs") → (e ≠ "" → takes_signal (type_of e) "logs") →
  let acc := foldl (root_step name ev) (rs, e) ts in
  (∀ x, x ∈ acc.1 → gives (type_of x) "logs") ∧ (acc.2 ≠ "" → takes_signal (type_of acc.2) "logs").
Proof using Hdoc.
  revert rs e. induction ts as [|t ts IH]; intros rs e Hr He; [done|]. cbn [foldl]. cbv zeta. unfold root_step at 2 4 6.
  destruct (negb _); [by apply IH|]. apply IH.
  - intros x. destruct (_ || _); [|by apply Hr].
    intros [Hx|[->|Hx]%elem_of_cons]%elem_of_app; [by apply Hr|apply Hdoc; typed_as "file_log"; field_here|].
    destruct ev; [|by apply not_elem_of_nil in Hx]. apply list_elem_of_singleton in Hx as ->.
    apply Hdoc. typed_as "k8s_events". field_here.
  - destruct (negb _); [|done]. intros _. by eapply routing_takes.
Qed.

Lemma count_takes : takes_signal (type_of tenantCountConnectorName) "logs".
Proof using Hdoc. apply Hdoc. unfold tenantCountConnectorName. typed_as "count". field_here. Qed.

Lemma root_carries c name : carries "logs" (root_pipeline c name).
Proof using Hdoc.
  unfold root_pipeline, GenerateRootPipeline.
  destruct (root_step_keeps name (negb (is_nil (Input_EventsToLogs c))) (in_Tenants c) [] "") as [Hr He];
    [by intros x ?%not_elem_of_nil|done|].
  destruct (foldl _ _ _) as [rs e]. cbn [fst snd] in *.
  assert (∀ x, x ∈ ["k8s_attributes"; "attributes/tenant_" +:+ name; "filter/exclude"] → x ≠ "" → processes (type_of x) "logs") as Hp.
  { intros x. rewrite !elem_of_cons, elem_of_nil. intros [->|[->|[->|[]]]] _.
    - apply Hdoc. change (type_of "k8s_attributes") with "k8s_attributes". field_here.
    - eapply (attributes_process _ _ "logs"); [by left|reflexivity].
    - apply Hdoc. change (type_of "filter/exclude") with "filter". field_here. }
  destruct (Input_DryRunMode c); apply generated_carries; auto; intros x.
  - intros ->%list_elem_of_singleton. apply He.
  - intros [-> | ->%list_elem_of_singleton]%elem_of_cons; [apply He|intros _; apply count_takes].
Qed.

Lemma tenant_root_carries c name : carries "logs" (tenant_root_pipeline c name).
Proof using Hdoc.
  destruct (root_carries c name) as [Hr Hp He]. rewrite Forall_forall in Hr, Hp, He.
  destruct (bridges_pipeline name (root_pipeline c name) (in_Bridges c)) as (Ep & Br & Be).
  unfold tenant_root_pipeline. split; cbn [Pipeline_Receivers Pipeline_Processors Pipeline_Exporters];
    apply Forall_forall; intros x.
  - intros [Hx|(b & _ & -> & _)]%Br; [auto|by eapply routing_gives].
  - rewrite Ep. intros [Hx|(t & _ & _ & _ & ->)]%transform_processors_spec; [auto|].
    apply Hdoc. typed_as "transform". field_here.
  - intros [Hx|(b & _ & -> & _)]%Be; [auto|by eapply routing_takes].
Qed.

Lemma exporter_takes c o x : x ∈ output_pipeline_exporters c o → takes_signal (type_of x) "logs".
Proof using Hdoc.
  intros [[-> _]|(_ & [[-> Hn]|[Hx|[-> _]]])]%output_pipeline_exporters_spec.
  - apply Hdoc. change (type_of DebugExporterID) with "debug". field_here.
  - apply Hdoc. apply list_elem_of_further. pose proof (exporter_name_type o Hn) as Ht. set_solver.
  - rewrite !elem_of_cons, elem_of_nil in Hx. destruct Hx as [->|[->|[]]]; [apply count_takes|].
    apply Hdoc. unfold outputCountConnectorName. typed_as "count". field_here.
  - apply Hdoc. unfold outputBytesConnectorName. typed_as "bytes". field_here.
Qed.

Lemma output_processors_work o x : x ∈ output_pipeline_processors o → processes (type_of x) "logs".
Proof using Hdoc.
  unfold output_pipeline_processors. intros [->|Hx]%elem_of_cons; [by eapply (attributes_process _ _ "logs"); [left|]|].
  destruct (OutputSpec_Batch _); [|by apply not_elem_of_nil in Hx]. apply list_elem_of_singleton in Hx as ->.
  apply Hdoc. typed_as "batch". field_here.
Qed.

Lemma metrics_carries b k p : GenerateMetricsPipelines b !! k = Some p → carries "metrics" p.
Proof using Hdoc.
  intros (x & -> & Hx)%metrics_pipelines_inv. split; cbn; repeat constructor.
  - apply Hdoc. destruct Hx as [Hx|[-> _]].
    + rewrite !elem_of_cons, elem_of_nil in Hx. destruct Hx as [->|[->|[]]];
        unfold tenantCountConnectorName, outputCountConnectorName; typed_as "count"; field_here.
    + unfold outputBytesConnectorName. typed_as "bytes". field_here.
  - apply Hdoc. change (type_of DefaultDeltaToCumulativeProcessorID) with "deltatocumulative". field_here.
  - by eapply (attributes_process _ _ "metrics"); [right|].
  - change (type_of DefaultPrometheusExporterID) with "prometheus". apply Hdoc.
Qed.

Lemma metrics_named b k p : GenerateMetricsPipelines b !! k = Some p → type_of k = "metrics".
Proof using Type.
  intros Hk. unfold GenerateMetricsPipelines in Hk. apply insert_all_inv in Hk as [Hk|[Hk _]]; [|by rewrite lookup_empty in Hk].
  apply elem_of_app in Hk as [Hk|Hk].
  - rewrite !elem_of_cons, elem_of_nil in Hk. by destruct Hk as [[= -> _]|[[= -> _]|[]]].
  - destruct b; [|by apply not_elem_of_nil in Hk]. by apply list_elem_of_singleton in Hk as [= -> _].
Qed.

Lemma origin_carries c k p : pipeline_origin c k p → (type_of k = "logs" ∨ type_of k = "metrics") ∧ carries (type_of k) p.
Proof using Hdoc.
  intros [name _|k' p' _ Hk|name _|name s _ _|name s ref o _ _ _ _].
  2: rewrite (metrics_named _ _ _ Hk); split; [by right|by eapply metrics_carries].
  all: typed_as "logs"; (split; [by left|]).
  - apply root_carries.
  - apply tenant_root_carries.
  - apply generated_carries; intros x ->%list_elem_of_singleton _.
    + by eapply routing_gives.
    + by eapply (attributes_process _ _ "logs"); [left|].
    + by eapply routing_takes.
  - apply generated_carries; intros x Hx _.
    + apply list_elem_of_singleton in Hx as ->. by eapply routing_gives.
    + by apply (output_processors_work (OWS_Output o)).
    + by apply (exporter_takes c (OWS_Output o)).
Qed.
End Signals.

(** C17. Every pipeline of the service carries the signal of its name: its name
    says logs or metrics, and its receivers give that signal, its processors
    work on it and its exporters take it, whatever the tenants, bridges and
    outputs are, when the collector's components do what their documentation
    says. *)
Theorem pipelines_typed `{Platform} `{MapRange} `{!Signals} c k p : documented → Service_Pipelines (assemble c) !! k = Some p →
  (type_of k = "logs" ∨ type_of k = "metrics") ∧ carries (type_of k) p.
Proof.
  intros Hdoc (p0 & Hp & ->)%assemble_pipeline_origin.
  destruct (origin_carries Hdoc c k p0 Hp) as [Hk [Hr Hps He]]. split; [done|]. split; [done| |done].
  constructor; [|done]. change (type_of "memory_limiter") with "memory_limiter".
  destruct Hk as [-> | ->]; apply Hdoc; field_here.
Qed.

#[local] Existing Instance sample_platform.
#[local] Instance sample_signals : Signals := {
  gives t signal := (signal = "metrics" ∧ t ∈ ["count"; "bytes"]) ∨ (signal = "logs" ∧ t ∈ ["file_log"; "k8s_events"; "routing"]);
  processes t signal := t ≠ "deltatocumulative" ∨ signal = "metrics";
  takes_signal t signal := t ≠ "prometheus" ∨ signal = "metrics"
}.

Lemma sample_documented : documented.
Proof.
  split; cbn; try tauto.
  - intros t Ht. left. intros ->. revert Ht. apply (bool_decide_unpack _). by vm_compute.
  - intros t Ht. left. intros ->. revert Ht. apply (bool_decide_unpack _). by vm_compute.
Qed.

Lemma pipelines_typed_witness : ∃ k p, Service_Pipelines (assemble sample_input) !! k = Some p ∧ carries "logs" p.
Proof.
  exists (tenant_pipeline "red").
  destruct (Service_Pipelines (assemble sample_input) !! tenant_pipeline "red") as [p|] eqn:E; [|by vm_compute in E].
  exists p. split; [done|]. exact (proj2 (pipelines_typed sample_input (tenant_pipeline "red") p sample_documented E)).
Defined.
