(* ===== verification/FlowSpec.v ===== *)
(** Where the records of a tenant can go: the pipelines of the assembled
    service as a graph, whose paths are those the subscriptions, their outputs
    and the bridges say, and no others. *)
From S2P Require Import Prelude Strs Json Errors ApiOtlp ApiOutput ApiTypes Kube Relations.
From S2P Require Import Exporters Processors Receivers Extensions Connectors ConfGen Names.
From S2P Require Import ConfGenFacts PipelineFacts WfInput Samples ExporterSpec ConfGenSpec PipelineSpec TypeSpec.
From Stdlib Require Import Ascii.

(** One pipeline hands records to another through a connector, which is an
    exporter of the one and a receiver of the other. *)
Definition feeds (ps : gmap string Pipeline) (k1 k2 : string) : Prop := ∃ p1 p2 x,
  ps !! k1 = Some p1 ∧ ps !! k2 = Some p2 ∧ x ∈ Pipeline_Exporters p1 ∧ x ∈ Pipeline_Receivers p2.

Section Flow.
Context `{Platform}.
Implicit Types (c : OtelColConfigInput) (t : Tenant) (b : Bridge).

(** The pipelines of a tenant: its own, those of its subscriptions and those of
    their outputs *)
Inductive owned_pipeline c t : string → Pipeline → Prop :=
| of_tenant : owned_pipeline c t (tenant_pipeline (Tenant_Name t)) (tenant_root_pipeline c (Tenant_Name t))
| of_subscription ref : ref ∈ elems (TenantStatus_Subscriptions (Tenant_Status t)) →
    owned_pipeline c t (subscription_pipeline (Tenant_Name t) ref)
      (GeneratePipeline [routing_tenant (Tenant_Name t)] [subscription_attributes (NamespacedName_Name ref)]
         [routing_subscription ref])
| of_output ref s o : ref ∈ elems (TenantStatus_Subscriptions (Tenant_Status t)) →
    in_Subscriptions c !! ref = Some s → o ∈ in_Outputs c →
    output_ref o ∈ elems (SubscriptionStatus_Outputs (Subscription_Status s)) →
    owned_pipeline c t (output_pipeline ref (output_ref o))
      (GeneratePipeline [routing_subscription ref] (output_pipeline_processors (OWS_Output o))
         (output_pipeline_exporters c (OWS_Output o))).

(** A bridge leads from one tenant to another. *)
Definition bridge_to c t1 t2 : Prop := t2 ∈ in_Tenants c ∧ ∃ b, b ∈ in_Bridges c ∧
  BridgeSpec_SourceTenant (Bridge_Spec b) = Tenant_Name t1 ∧ BridgeSpec_TargetTenant (Bridge_Spec b) = Tenant_Name t2.

(** Bridges are objects of the cluster, which their names tell apart. *)
Definition bridges_agree c : Prop := ∀ b b', b ∈ in_Bridges c → b' ∈ in_Bridges c → Bridge_Name b = Bridge_Name b' → b = b'.

Lemma pipeline_of_log c t k p : t ∈ in_Tenants c → owned_pipeline c t k p → log_pipeline c k p.
Proof. intros Ht [|ref Hr|ref s o Hr Hs Ho Hi]; [by constructor|by constructor|by apply (log_output c t ref s o)]. Qed.

Lemma log_pipeline_of c k p : log_pipeline c k p → ∃ t, t ∈ in_Tenants c ∧ owned_pipeline c t k p.
Proof.
  intros [t Ht|t ref Ht Hr|t ref s o Ht Hr Hs Ho Hi]; exists t; (split; [done|]);
    [constructor|by constructor|by apply (of_output c t ref s o)].
Qed.

(** * The ends of a tenant's own pipeline *)
Lemma bridges_keep name p bs :
  Pipeline_Receivers p ⊆ Pipeline_Receivers (foldl (add_bridge name) p bs) ∧
  Pipeline_Exporters p ⊆ Pipeline_Exporters (foldl (add_bridge name) p bs).
Proof.
  revert p. induction bs as [|b bs IH]; intros p; cbn [foldl]; [done|].
  destruct (IH (add_bridge name p b)) as [Kr Ke]. destruct (add_bridge_keeps name p b) as [Kr' Ke']. split; by etrans.
Qed.

Lemma bridge_ends name p bs b : (∀ b', b' ∈ bs → Bridge_Name b = Bridge_Name b' → b = b') → b ∈ bs →
  routing_bridge (Bridge_Name b) ∉ Pipeline_Receivers p → routing_bridge (Bridge_Name b) ∉ Pipeline_Exporters p →
  let p' := GenerateRoutingConnectorForBridgesTenantPipeline name p bs in
  (BridgeSpec_TargetTenant (Bridge_Spec b) = name → routing_bridge (Bridge_Name b) ∈ Pipeline_Receivers p') ∧
  (BridgeSpec_SourceTenant (Bridge_Spec b) = name → routing_bridge (Bridge_Name b) ∈ Pipeline_Exporters p').
Proof.
  unfold GenerateRoutingConnectorForBridgesTenantPipeline. revert p.
  induction bs as [|b0 bs IH]; intros p Hag Hb Hr He; [by apply not_elem_of_nil in Hb|]. cbn [foldl]. cbv zeta.
  destruct (decide (Bridge_Name b = Bridge_Name b0)) as [En|Hne].
  - assert (b0 = b) as -> by (symmetry; apply Hag; [apply list_elem_of_here|done]).
    pose proof (bridges_keep name (add_bridge name p b) bs) as [Kr Ke].
    split; intros E; [apply Kr|apply Ke]; unfold add_bridge, checkBridgeConnectorForTenant, addConnectorToPipeline, hasPipelineReceiverOrExporter;
      rewrite (bool_decide_false (_ ∈ Pipeline_Receivers p)), (bool_decide_false (_ ∈ Pipeline_Exporters p)) by done; cbn;
      rewrite (bool_decide_true (_ = name)) by done; apply elem_of_app; right; apply list_elem_of_here.
  - apply elem_of_cons in Hb as [->|Hb]; [done|]. apply IH; [|done|..].
    + intros b' Hb'. apply Hag. by apply list_elem_of_further.
    + destruct (add_bridge_pipeline name p b0) as (_ & Br & _). intros [?|[E%routing_bridge_inj _]]%Br; done.
    + destruct (add_bridge_pipeline name p b0) as (_ & _ & Be). intros [?|[E%routing_bridge_inj _]]%Be; done.
Qed.

Context `{MapRange} {c : OtelColConfigInput} (Hwf : wf_input c) (Hdns : dns_input c).

Lemma root_ends t : t ∈ in_Tenants c →
  let p := tenant_root_pipeline c (Tenant_Name t) in
  (∀ x, x ∈ Pipeline_Receivers p → type_of x ∈ ["file_log"; "k8s_events"] ∨
     ∃ b, b ∈ in_Bridges c ∧ x = routing_bridge (Bridge_Name b) ∧ BridgeSpec_TargetTenant (Bridge_Spec b) = Tenant_Name t) ∧
  (∀ x, x ∈ Pipeline_Exporters p → x = routing_tenant (Tenant_Name t) ∨ type_of x = "count" ∨
     ∃ b, b ∈ in_Bridges c ∧ x = routing_bridge (Bridge_Name b) ∧ BridgeSpec_SourceTenant (Bridge_Spec b) = Tenant_Name t).
Proof using Hwf.
  intros Ht p. destruct (bridges_pipeline (Tenant_Name t) (root_pipeline c (Tenant_Name t)) (in_Bridges c)) as (_ & Br & Be).
  split; intros x Hx; [apply Br in Hx as [Hx|Hx]|apply Be in Hx as [Hx|Hx]];
    [|by right| |by right; right]; rewrite (root_pipeline_eq c t (wf_tenants c Hwf) Ht) in Hx.
  - left. apply elem_of_filterEmpty in Hx as [Hx _]. destruct (reads_logs t); [|by apply not_elem_of_nil in Hx].
    apply elem_of_cons in Hx as [->|Hx]; [typed_as "file_log"; field_here|].
    destruct (negb _); [|by apply not_elem_of_nil in Hx]. apply list_elem_of_singleton in Hx as ->. typed_as "k8s_events". field_here.
  - apply elem_of_filterEmpty in Hx as [Hx Hne]. apply elem_of_cons in Hx as [->|Hx].
    + left. by destruct (is_nil _).
    + right. left. destruct (Input_DryRunMode c); [by apply not_elem_of_nil in Hx|]. by apply list_elem_of_singleton in Hx as ->.
Qed.

Lemma root_bridged t b : bridges_agree c → t ∈ in_Tenants c → b ∈ in_Bridges c →
  let p := tenant_root_pipeline c (Tenant_Name t) in
  (BridgeSpec_TargetTenant (Bridge_Spec b) = Tenant_Name t → routing_bridge (Bridge_Name b) ∈ Pipeline_Receivers p) ∧
  (BridgeSpec_SourceTenant (Bridge_Spec b) = Tenant_Name t → routing_bridge (Bridge_Name b) ∈ Pipeline_Exporters p).
Proof using Hwf.
  intros Hag Ht Hb. apply bridge_ends; [by intros; apply Hag|done|..];
    rewrite (root_pipeline_eq c t (wf_tenants c Hwf) Ht); intros [Hx _]%elem_of_filterEmpty.
  - destruct (reads_logs t); [|by apply not_elem_of_nil in Hx]. apply elem_of_cons in Hx as [?|Hx]; [done|].
    destruct (negb _); [|by apply not_elem_of_nil in Hx]. by apply list_elem_of_singleton in Hx.
  - apply elem_of_cons in Hx as [Hx|Hx]; [by destruct (is_nil _)|].
    destruct (Input_DryRunMode c); [by apply not_elem_of_nil in Hx|]. by apply list_elem_of_singleton in Hx.
Qed.

Lemma root_routes t ref : t ∈ in_Tenants c → ref ∈ elems (TenantStatus_Subscriptions (Tenant_Status t)) →
  routing_tenant (Tenant_Name t) ∈ Pipeline_Exporters (tenant_root_pipeline c (Tenant_Name t)).
Proof using Hwf.
  intros Ht Hr. apply (proj2 (bridges_keep (Tenant_Name t) (root_pipeline c (Tenant_Name t)) (in_Bridges c))).
  rewrite (root_pipeline_eq c t (wf_tenants c Hwf) Ht). apply elem_of_filterEmpty. split; [|done].
  destruct (TenantStatus_Subscriptions _); [|by apply not_elem_of_nil in Hr]. apply list_elem_of_here.
Qed.

(** * The graph *)
Abbreviation pipelines := (Service_Pipelines (assemble c)).

(** A pipeline of the service, the memory limiter aside *)
Lemma service_pipeline k p : pipelines !! k = Some p → ∃ p0,
  Pipeline_Receivers p = Pipeline_Receivers p0 ∧ Pipeline_Exporters p = Pipeline_Exporters p0 ∧
  ((∃ t, t ∈ in_Tenants c ∧ owned_pipeline c t k p0) ∨
   (type_of k = "metrics" ∧ ∃ x, p0 = metrics_pipeline x ∧ type_of x ∈ ["count"; "bytes"])).
Proof using Hwf Hdns.
  rewrite assemble_pipeline. setoid_rewrite (generated_spec Hwf Hdns).
  intros (p0 & [Hl|[_ Hm]] & ->); exists p0; (split; [done|split; [done|]]); [left; by apply log_pipeline_of|right].
  split; [by eapply metrics_named|]. apply metrics_pipelines_inv in Hm as (x & -> & Hx). exists x. split; [done|].
  destruct Hx as [Hx|[-> _]]; [|field_here]. rewrite !elem_of_cons, elem_of_nil in Hx. destruct Hx as [->|[->|[]]]; field_here.
Qed.

Lemma tenant_service t k p : t ∈ in_Tenants c → owned_pipeline c t k p → pipelines !! k = Some (with_memory_limiter p).
Proof using Hwf Hdns.
  intros Ht Hp. apply assemble_pipeline. exists p. split; [|done]. apply (generated_spec Hwf Hdns). left. by apply (pipeline_of_log c t).
Qed.

(** What a tenant's pipelines read *)
Lemma receives t k p x : t ∈ in_Tenants c → owned_pipeline c t k p → x ∈ Pipeline_Receivers p →
  type_of x ∈ ["file_log"; "k8s_events"; "routing"].
Proof using Hwf.
  intros Ht [|ref Hr|ref s o Hr Hs Ho Hi] Hx.
  - apply root_ends in Hx as [Hx|(b & _ & -> & _)]; [|typed_as "routing"; field_here|done].
    revert Hx. rewrite !elem_of_cons, !elem_of_nil. tauto.
  - apply elem_of_filterEmpty in Hx as [->%list_elem_of_singleton _]. typed_as "routing". field_here.
  - apply elem_of_filterEmpty in Hx as [->%list_elem_of_singleton _]. typed_as "routing". field_here.
Qed.

Lemma exports_of_output o x : x ∈ output_pipeline_exporters c o →
  x = GetExporterNameForOutput o ∨ type_of x ∈ ["debug"; "count"; "bytes"].
Proof using Type.
  intros [[-> _]|(_ & [[-> _]|[Hx|[-> _]]])]%output_pipeline_exporters_spec; [right; field_here|by left| |right; field_here].
  right. rewrite !elem_of_cons, elem_of_nil in Hx. destruct Hx as [->|[->|[]]]; field_here.
Qed.

(** The types that end a record's way are not those that read one. *)
Lemma ends_here o x : x ∈ output_pipeline_exporters c o → x ≠ "" → type_of x ∈ ["file_log"; "k8s_events"; "routing"] → False.
Proof using Type.
  clear Hwf Hdns. intros Hx Hne Ht. apply exports_of_output in Hx as [->|Hx].
  - apply exporter_name_type in Hne. set (k := type_of _) in *. clearbody k. set_solver.
  - set (k := type_of x) in *. clearbody k. set_solver.
Qed.

Lemma routing_not_read n : type_of ("routing/" +:+ n) ∈ ["file_log"; "k8s_events"] → False.
Proof using Type. rewrite routing_type, !elem_of_cons, elem_of_nil. by intros [|[|[]]]. Qed.

(** What a tenant's, a subscription's and a bridge's connector leads to *)
Lemma joins_tenant t k p n : t ∈ in_Tenants c → owned_pipeline c t k p → dns n = true →
  routing_tenant n ∈ Pipeline_Receivers p → Tenant_Name t = n.
Proof using Hwf Hdns.
  intros Ht [|ref Hr|ref s o Hr Hs Ho Hi] Hn Hx.
  - apply root_ends in Hx as [Hx%routing_not_read|(b & _ & Hx & _)]; [done|by discriminate Hx|done].
  - apply elem_of_filterEmpty in Hx as [E%list_elem_of_singleton _]. apply routing_tenant_inj in E; [done..|]. by apply (dns_tenants c Hdns).
  - apply elem_of_filterEmpty in Hx as [E%list_elem_of_singleton _]. by discriminate E.
Qed.

Lemma joins_subscription t k p ref : t ∈ in_Tenants c → owned_pipeline c t k p → dns_ref ref = true →
  routing_subscription ref ∈ Pipeline_Receivers p →
  ∀ t', ref ∈ elems (TenantStatus_Subscriptions (Tenant_Status t')) → owned_pipeline c t' k p.
Proof using Hwf Hdns.
  intros Ht [|ref' Hr|ref' s o Hr Hs Ho Hi] Hn Hx t' Ht'.
  - apply root_ends in Hx as [Hx%routing_not_read|(b & _ & Hx & _)]; [done|by discriminate Hx|done].
  - apply elem_of_filterEmpty in Hx as [E%list_elem_of_singleton _]. by discriminate E.
  - apply elem_of_filterEmpty in Hx as [E%list_elem_of_singleton _].
    apply routing_subscription_inj in E as ->; [by apply (of_output c t' ref' s o)|done|].
    by apply (dns_of_tenant_subscription Hwf Hdns t).
Qed.

Lemma joins_bridge t k p n : t ∈ in_Tenants c → owned_pipeline c t k p → routing_bridge n ∈ Pipeline_Receivers p →
  ∃ b, b ∈ in_Bridges c ∧ Bridge_Name b = n ∧ BridgeSpec_TargetTenant (Bridge_Spec b) = Tenant_Name t.
Proof using Hwf.
  intros Ht [|ref Hr|ref s o Hr Hs Ho Hi] Hx.
  - apply root_ends in Hx as [Hx%routing_not_read|(b & Hb & Hx%routing_bridge_inj & Htg)]; [done|by exists b|done].
  - apply elem_of_filterEmpty in Hx as [E%list_elem_of_singleton _]. by discriminate E.
  - apply elem_of_filterEmpty in Hx as [E%list_elem_of_singleton _]. by discriminate E.
Qed.

(** One step from a tenant's pipeline stays with the tenant, or takes a bridge,
    or ends in the metrics. *)
Lemma step_inv t k1 p1 k2 : bridges_agree c → t ∈ in_Tenants c → owned_pipeline c t k1 p1 → feeds pipelines k1 k2 →
  type_of k2 = "metrics" ∨ ∃ t' p2, (t' = t ∨ bridge_to c t t') ∧ t' ∈ in_Tenants c ∧ owned_pipeline c t' k2 p2.
Proof using Hwf Hdns.
  intros Hag Ht H1 (q1 & q2 & x & E1 & E2 & Hx1 & Hx2).
  rewrite (tenant_service t k1 p1 Ht H1) in E1. injection E1 as <-. cbn in Hx1.
  apply service_pipeline in E2 as (p2 & Er & _ & [(t2 & Ht2 & H2)|[Hm _]]); [|by left]. right. rewrite Er in Hx2. clear Er q2.
  pose proof (receives t2 k2 p2 x Ht2 H2 Hx2) as Htype.
  destruct H1 as [|ref Hr|ref s o Hr Hs Ho Hi].
  - apply (root_ends t Ht) in Hx1 as [->|[Hc|(b & Hb & -> & Hsrc)]].
    + apply (joins_tenant t2 k2 p2) in Hx2; [|done..|by apply (dns_tenants c Hdns)].
      assert (t2 = t) as -> by by apply (NoDup_key _ _ _ _ (wf_tenants c Hwf)). exists t, p2. split; [by left|done].
    + rewrite Hc, !elem_of_cons, elem_of_nil in Htype. by destruct Htype as [|[|[|[]]]].
    + apply (joins_bridge t2 k2 p2) in Hx2 as (b' & Hb' & En & Htg); [|done..]. rewrite (Hag b' b Hb' Hb En) in Htg.
      exists t2, p2. split; [right; split; [done|by exists b]|done].
  - apply elem_of_filterEmpty in Hx1 as [->%list_elem_of_singleton _]. exists t, p2. split; [by left|]. split; [done|].
    apply (joins_subscription t2 k2 p2 ref); [done..| |done|done]. by apply (dns_of_tenant_subscription Hwf Hdns t).
  - apply elem_of_filterEmpty in Hx1 as [Hx1 Hne]. by destruct (ends_here _ _ Hx1 Hne Htype).
Qed.

Lemma metrics_end k1 k2 : type_of k1 = "metrics" → feeds pipelines k1 k2 → False.
Proof using Hwf Hdns.
  intros Hk (q1 & q2 & x & E1 & E2 & Hx1 & Hx2).
  apply service_pipeline in E1 as (p1 & _ & Ee & [(t & _ & H1)|[_ (y & -> & _)]]).
  { destruct H1; discriminate Hk. }
  rewrite Ee in Hx1. apply list_elem_of_singleton in Hx1 as ->. 
  apply service_pipeline in E2 as (p2 & Er & _ & [(t & Ht & H2)|[_ (y' & -> & Hy)]]); rewrite Er in Hx2.
  - apply (receives _ _ _ _ Ht H2) in Hx2. change (type_of _) with "prometheus" in Hx2.
    rewrite !elem_of_cons, elem_of_nil in Hx2. by destruct Hx2 as [|[|[|[]]]].
  - apply list_elem_of_singleton in Hx2 as <-. change (type_of _) with "prometheus" in Hy.
    rewrite !elem_of_cons, elem_of_nil in Hy. by destruct Hy as [|[|[]]].
Qed.

(** * Paths *)
Lemma flow_sound t k : bridges_agree c → t ∈ in_Tenants c → rtc (feeds pipelines) (tenant_pipeline (Tenant_Name t)) k →
  type_of k = "metrics" ∨ ∃ t' p, rtc (bridge_to c) t t' ∧ t' ∈ in_Tenants c ∧ owned_pipeline c t' k p.
Proof using Hwf Hdns.
  intros Hag Ht. revert k. refine (rtc_ind_r _ _ _ _); [|intros k1 k2 _ Hk IH].
  - right. exists t, (tenant_root_pipeline c (Tenant_Name t)). split; [apply rtc_refl|]. split; [done|constructor].
  - destruct IH as [Hm|(t1 & p1 & Hb & Ht1 & H1)]; [by destruct (metrics_end k1 k2)|].
    destruct (step_inv t1 k1 p1 k2 Hag Ht1 H1 Hk) as [Hm|(t2 & p2 & Hstep & Ht2 & H2)]; [by left|]. right.
    exists t2, p2. split; [|done]. destruct Hstep as [->|Hstep]; [done|by eapply rtc_r].
Qed.

Lemma tenant_feeds t k1 p1 t' k2 p2 x : t ∈ in_Tenants c → t' ∈ in_Tenants c → owned_pipeline c t k1 p1 → owned_pipeline c t' k2 p2 →
  x ∈ Pipeline_Exporters p1 → x ∈ Pipeline_Receivers p2 → feeds pipelines k1 k2.
Proof using Hwf Hdns.
  intros Ht Ht' H1 H2 Hx1 Hx2. exists (with_memory_limiter p1), (with_memory_limiter p2), x.
  split_and!; [by apply (tenant_service t)|by apply (tenant_service t')|done|done].
Qed.

Lemma bridges_flow t t' : bridges_agree c → t ∈ in_Tenants c → rtc (bridge_to c) t t' →
  rtc (feeds pipelines) (tenant_pipeline (Tenant_Name t)) (tenant_pipeline (Tenant_Name t')).
Proof using Hwf Hdns.
  intros Hag Ht Hb. induction Hb as [|t1 t2 t3 (Ht2 & b & Hin & Hsrc & Htg) _ IH]; [apply rtc_refl|].
  eapply rtc_l; [|by apply IH]. apply (tenant_feeds t1 _ (tenant_root_pipeline c (Tenant_Name t1)) t2 _
    (tenant_root_pipeline c (Tenant_Name t2)) (routing_bridge (Bridge_Name b))); [done|done|constructor|constructor|..].
  - by apply root_bridged.
  - by apply root_bridged.
Qed.

Lemma flow_within t k p : t ∈ in_Tenants c → owned_pipeline c t k p → rtc (feeds pipelines) (tenant_pipeline (Tenant_Name t)) k.
Proof using Hwf Hdns.
  intros Ht. assert (∀ ref, ref ∈ elems (TenantStatus_Subscriptions (Tenant_Status t)) →
    feeds pipelines (tenant_pipeline (Tenant_Name t)) (subscription_pipeline (Tenant_Name t) ref)) as Hsub.
  { intros ref Hr. eapply (tenant_feeds t _ _ t _ _ (routing_tenant (Tenant_Name t))); [done|done|constructor|by constructor|..].
    - by eapply root_routes.
    - apply elem_of_filterEmpty. split; [apply list_elem_of_here|done]. }
  intros [|ref Hr|ref s o Hr Hs Ho Hi]; [apply rtc_refl|by apply rtc_once, Hsub|].
  eapply rtc_l; [by apply Hsub|]. apply rtc_once.
  eapply (tenant_feeds t _ _ t _ _ (routing_subscription ref)); [done|done|by constructor|by eapply of_output|..];
    (apply elem_of_filterEmpty; split; [apply list_elem_of_here|done]).
Qed.

(** The log pipelines that a tenant's records can pass through are those of the
    tenants that bridges lead to, itself first. *)
Lemma flow_exact t k : bridges_agree c → t ∈ in_Tenants c → type_of k = "logs" →
  rtc (feeds pipelines) (tenant_pipeline (Tenant_Name t)) k ↔
  ∃ t' p, rtc (bridge_to c) t t' ∧ t' ∈ in_Tenants c ∧ owned_pipeline c t' k p.
Proof using Hwf Hdns.
  intros Hag Ht Hk. split.
  - intros [Hm|?]%flow_sound; [congruence|done..].
  - intros (t' & p & Hb & Ht' & Hp). etrans; [by apply bridges_flow|by eapply flow_within].
Qed.

(** * Exporters *)
Lemma exporter_name_form o : GetExporterNameForOutput o ≠ "" → ∃ ty, free_of "/"%char ty = true ∧
  GetExporterNameForOutput o = ty +:+ String "/" (ns_name (Output_NamespacedName o)).
Proof using Type.
  unfold GetExporterNameForOutput. intros Hne. repeat case_match; [by exists "otlp_grpc"|by exists "otlp_http"
    |by exists "fluentforwardexporter"|by exists "file"|by exists "elasticsearch"|by exists "awss3"|done].
Qed.

(** No other component is named like an exporter. *)
Lemma exporter_type_only o : GetExporterNameForOutput o ≠ "" →
  type_of (GetExporterNameForOutput o) ∉ ["debug"; "count"; "bytes"; "routing"; "prometheus"].
Proof using Type.
  clear Hwf Hdns. intros Hne%exporter_name_type Ht. set (k := type_of _) in *. clearbody k. set_solver.
Qed.

Lemma exporter_name_inj o o' : dns_ref (Output_NamespacedName o) = true → dns_ref (Output_NamespacedName o') = true →
  GetExporterNameForOutput o ≠ "" → GetExporterNameForOutput o = GetExporterNameForOutput o' →
  Output_NamespacedName o = Output_NamespacedName o'.
Proof using Type.
  intros D D' Hne E. destruct (exporter_name_form o Hne) as (ty & F & Eo).
  destruct (exporter_name_form o') as (ty' & F' & Eo'); [congruence|].
  rewrite Eo, Eo' in E. apply sep_inj in E as [_ E]; [|done..]. by apply ns_name_inj.
Qed.
(** Which pipeline has the exporter of an output *)
Lemma metrics_export_no_output k q o : type_of k = "metrics" → pipelines !! k = Some q → GetExporterNameForOutput o ≠ "" →
  GetExporterNameForOutput o ∉ Pipeline_Exporters q.
Proof using Hwf Hdns.
  intros Hk Eq Hne Hx. apply service_pipeline in Eq as (p0 & _ & Ee & [(t' & _ & Hp)|[_ (x & -> & _)]]); [by destruct Hp|].
  rewrite Ee in Hx. apply list_elem_of_singleton in Hx as E. apply (exporter_type_only o Hne). rewrite E. field_here.
Qed.

Lemma exports_output t k p o : t ∈ in_Tenants c → owned_pipeline c t k p → GetExporterNameForOutput o ≠ "" →
  dns_ref (Output_NamespacedName o) = true → GetExporterNameForOutput o ∈ Pipeline_Exporters p →
  ∃ ref s o', ref ∈ elems (TenantStatus_Subscriptions (Tenant_Status t)) ∧ in_Subscriptions c !! ref = Some s ∧ o' ∈ in_Outputs c ∧
    output_ref o' ∈ elems (SubscriptionStatus_Outputs (Subscription_Status s)) ∧ Output_NamespacedName o = output_ref o'.
Proof using Hwf Hdns.
  intros Ht Hp Hne Hdo Hx. pose proof (exporter_type_only o Hne) as Honly.
  assert (∀ n, GetExporterNameForOutput o ≠ "routing/" +:+ n) as Hrt
    by (intros n E; apply Honly; rewrite E, routing_type; field_here).
  destruct Hp as [|ref Hr|ref s o' Hr Hs Ho' Hi].
  - exfalso. apply (root_ends t Ht) in Hx as [E|[Hc|(b & _ & E & _)]]; [by apply Hrt in E| |by apply Hrt in E].
    apply Honly. rewrite Hc. field_here.
  - by apply elem_of_filterEmpty in Hx as [E%list_elem_of_singleton%Hrt _].
  - exists ref, s, o'. split_and!; [done..|]. apply elem_of_filterEmpty in Hx as [Hx _]. apply exports_of_output in Hx as [E|Hx].
    + by apply exporter_name_inj; [|apply (dns_outputs c Hdns)|..].
    + exfalso. apply Honly. revert Hx. rewrite !elem_of_cons, !elem_of_nil. tauto.
Qed.

(** The records of a tenant can reach the exporter of an output exactly when a
    subscription of the tenant, or of a tenant that a chain of bridges leads to,
    names that output. *)
Theorem records_reach_outputs t (o : Output) : bridges_agree c → Input_DryRunMode c = false → t ∈ in_Tenants c →
  GetExporterNameForOutput o ≠ "" → dns_ref (Output_NamespacedName o) = true →
  (∀ o', o' ∈ in_Outputs c → output_ref o' = Output_NamespacedName o → OWS_Output o' = o) →
  (∃ k p, rtc (feeds pipelines) (tenant_pipeline (Tenant_Name t)) k ∧
     pipelines !! k = Some p ∧ GetExporterNameForOutput o ∈ Pipeline_Exporters p) ↔
  (∃ t' ref s, rtc (bridge_to c) t t' ∧ ref ∈ elems (TenantStatus_Subscriptions (Tenant_Status t')) ∧
     in_Subscriptions c !! ref = Some s ∧ Output_NamespacedName o ∈ elems (SubscriptionStatus_Outputs (Subscription_Status s))).
Proof using Hwf Hdns.
  intros Hag Hdry Ht Hne Hdo Ho. assert (∀ t', rtc (bridge_to c) t t' → t' ∈ in_Tenants c) as Hreach.
  { refine (rtc_ind_r (λ t', t' ∈ in_Tenants c) t Ht _). by intros t1 t2 _ [Ht2 _] _. }
  split.
  - intros (k & q & Hf & Eq & Hx). destruct (flow_sound t k Hag Ht Hf) as [Hm|(t' & p & Hb & Ht' & Hp)].
    + by destruct (metrics_export_no_output k q o Hm Eq Hne).
    + rewrite (tenant_service t' k p Ht' Hp) in Eq. injection Eq as <-.
      destruct (exports_output t' k p o Ht' Hp Hne Hdo Hx) as (ref & s & o' & Hr & Hs & Ho' & Hi & E).
      exists t', ref, s. by rewrite E.
  - intros (t' & ref & s & Hb & Hr & Hs & Hi). pose proof (Hreach t' Hb) as Ht'.
    destruct (proj2 (wf_outputs c Hwf (Output_NamespacedName o))) as (o' & Ho' & Eo').
    { exists ref, (SubscriptionStatus_Outputs (Subscription_Status s)). split; [|done].
      apply (wf_subscription_map c Hwf). by exists s. }
    rewrite <- Eo' in Hi. pose proof (of_output c t' ref s o' Hr Hs Ho' Hi) as Hp. rewrite (Ho o' Ho' Eo') in Hp.
    eexists _, _. split_and!; [etrans; [by apply bridges_flow|by eapply flow_within]|by apply (tenant_service t')|].
    apply elem_of_filterEmpty. split; [|done]. unfold output_pipeline_exporters. rewrite Hdry, (bool_decide_false _ Hne).
    apply elem_of_app. right. apply list_elem_of_here.
Qed.
End Flow.

(** * An example

    The tenant [blue] has no subscription; a bridge leads to [red], which has
    one. *)
#[local] Existing Instance sample_platform.

Definition bridged_relations : ResourceRelations :=
  mkRelations
    (Some [sample_tenant "blue" (sample_transform "" false) false (Some ["web"]) None (Some ["link"]);
           sample_tenant "red" (sample_transform "flat" true) true (Some ["apps"]) (Some [sub_ref]) (Some ["link"])])
    (Subscriptions sample_relations)
    (Some [mkBridge "link" (mkBridgeSpec "blue" "red" "true") (mkBridgeStatus StateReady None 0)])
    (OutputsWithSecretData sample_relations)
    (Some (<["blue" := None]> {[ "red" := Some [sub_ref] ]}))
    (SubscriptionOutputMap sample_relations).

Definition bridged_input : OtelColConfigInput := mkInput bridged_relations MemoryLimiter_default None false false true.

Lemma bridged_tsm : in_TenantSubscriptions bridged_input = <["blue" := None]> {[ "red" := Some [sub_ref] ]}.
Proof. reflexivity. Qed.
Lemma bridged_input_tenants t : t ∈ in_Tenants bridged_input → (Tenant_Name t = "blue" ∧ TenantStatus_Subscriptions (Tenant_Status t) = None)
  ∨ (Tenant_Name t = "red" ∧ TenantStatus_Subscriptions (Tenant_Status t) = Some [sub_ref]).
Proof. intros [->| ->%list_elem_of_singleton]%elem_of_cons; [by left|by right]. Qed.

Lemma bridged_wf : wf_input bridged_input.
Proof.
  destruct sample_wf as [_ _ _ _ S2 S3 S4 S5].
  split; [apply (bool_decide_unpack _); by vm_compute| | | |exact S2|exact S3|exact S4|exact S5].
  - by intros t [->| ->%list_elem_of_singleton]%elem_of_cons.
  - intros name subs. rewrite bridged_tsm, lookup_insert_Some, lookup_singleton_Some. split.
    + intros [[<- <-]|[_ [<- <-]]]; eexists.
      * split; [apply list_elem_of_here|done].
      * split; [apply list_elem_of_further, list_elem_of_here|done].
    + intros (t & [[En Es]|[En Es]]%bridged_input_tenants & <- & <-); rewrite En, Es; [by left|by right; split].
  - intros ref. change (in_Subscriptions bridged_input) with (in_Subscriptions sample_input). rewrite sample_subs.
    unfold is_Some. setoid_rewrite lookup_singleton_Some. rewrite bridged_tsm. setoid_rewrite lookup_insert_Some.
    setoid_rewrite lookup_singleton_Some. split.
    + intros [s [<- _]]. exists "red", (Some [sub_ref]). split; [by right; split|apply list_elem_of_here].
    + intros (name & subs & [[_ <-]|[_ [_ <-]]] & Hin); [by apply not_elem_of_nil in Hin|].
      apply list_elem_of_singleton in Hin as ->. eauto.
Qed.

Lemma bridged_dns : dns_input bridged_input.
Proof.
  split.
  - intros t [[-> _]|[-> _]]%bridged_input_tenants; reflexivity.
  - intros ref. change (in_Subscriptions bridged_input) with (in_Subscriptions sample_input). rewrite sample_subs.
    intros [s [<- _]%lookup_singleton_Some]. reflexivity.
  - intros o ->%list_elem_of_singleton. reflexivity.
Qed.

Lemma records_reach_outputs_witness : ∃ k p,
  rtc (feeds (Service_Pipelines (assemble bridged_input))) "logs/tenant_blue" k ∧
  Service_Pipelines (assemble bridged_input) !! k = Some p ∧ "otlp_grpc/team_sink" ∈ Pipeline_Exporters p.
Proof.
  apply (records_reach_outputs bridged_wf bridged_dns
    (sample_tenant "blue" (sample_transform "" false) false (Some ["web"]) None (Some ["link"]))
    (sample_output "team" "sink" "red" (Some sample_auth))).
  - by intros b b' ->%list_elem_of_singleton ->%list_elem_of_singleton.
  - reflexivity.
  - apply list_elem_of_here.
  - discriminate.
  - reflexivity.
  - by intros o ->%list_elem_of_singleton _.
  - exists (sample_tenant "red" (sample_transform "flat" true) true (Some ["apps"]) (Some [sub_ref]) (Some ["link"])), sub_ref,
      (sample_subscription "team" "errors" "red" "true" [out_ref]). split_and!.
    + apply rtc_once. split; [apply list_elem_of_further, list_elem_of_here|]. eexists. split; [apply list_elem_of_here|by split].
    + apply list_elem_of_here.
    + apply lookup_singleton_eq.
    + apply list_elem_of_here.
Defined.
