(* ===== verification/SetupSpec.v ===== *)
(** What is registered, and why it is enough: every change that a reconciler
    would see puts its requests in the queue, and the field indexes keep the
    promise the tenant reconciler relies on. *)
From S2P Require Import Prelude Strs Json Errors ApiOtlp ApiOutput ApiTypes Kube Watches Main Trace Utils Relations.
From S2P Require Import Cluster Samples TenantManager RouteController TenantSpec.
From S2P Require Import Exporters Processors Extensions Connectors ConfGen CollectorManager Validator CollectorController.
From S2P Require Import CollectorInput CollectorTrace CollectorSpec.

(** * The start of the program *)
Section Startup.
Context `{Platform} {W : Type} `{!Client W} {G : Type} `{!Launcher G} `{!Manager W G}.

(** What the controller manager is asked to do *)
Inductive call :=
| CallNew (o : manager_options)
| CallIndex (idx : field_index)
| CallComplete (c : controller W)
| CallHealthz (n : string)
| CallReadyz (n : string)
| CallStart.

Definition recorded : Type := G * list call.
Definition recording (x : call) (m : M G (option error)) : M recorded (option error) :=
  λ s, let '(g, e) := m s.1 in ((g, s.2 ++ [x]), e).

#[export] Instance recorded_launcher : Launcher recorded := { NewManager o := recording (CallNew o) (NewManager o) }.
#[export] Instance recorded_manager : Manager W recorded := {
  IndexField idx := recording (CallIndex idx) (IndexField idx);
  Complete c := recording (CallComplete c) (Complete c);
  AddHealthzCheck n := recording (CallHealthz n) (AddHealthzCheck n);
  AddReadyzCheck n := recording (CallReadyz n) (AddReadyzCheck n);
  Start := recording CallStart Start
}.

(** Everything that is asked for, in order *)
Definition setup_calls (f : flags) : list call :=
  CallNew (managerOptions f) :: (CallIndex <$> fieldIndexes) ++
  [CallComplete tenant_controller; CallComplete collector_controller; CallHealthz "healthz"; CallReadyz "readyz"].

(** [follows l ok m]: what [m] asks for is a prefix of [l], and all of [l] when
    its result is [ok]; a failing call is the last one. *)
Definition follows {A} (l : list call) (ok : A → Prop) (m : M recorded A) : Prop :=
  ∀ s s' a, m s = (s', a) → ∃ new, s'.2 = s.2 ++ new ∧ new `prefix_of` l ∧ (ok a → new = l).

Lemma follows_recording x m : follows [x] (λ e, e = None) (recording x m).
Proof.
  intros s s' e. unfold recording. destruct (m s.1). intros [= <- <-]. exists [x]. by split_and!.
Qed.

Lemma follows_bind {A B} l1 l2 (ok1 : A → Prop) (ok2 : B → Prop) m f :
  follows l1 ok1 m → (∀ a, (ok1 a ∧ follows l2 ok2 (f a)) ∨ (∃ b, f a = ret b ∧ ¬ ok2 b)) →
  follows (l1 ++ l2) ok2 (bind m f).
Proof.
  intros Hm Hf s s' b. unfold bind. destruct (m s) as [s1 a] eqn:E. destruct (Hm _ _ _ E) as (n1 & E1 & P1 & K1).
  destruct (Hf a) as [[Ha Hfa]|(b' & -> & Hb)].
  - intros Eb. destruct (Hfa _ _ _ Eb) as (n2 & E2 & P2 & K2). rewrite (K1 Ha) in *.
    exists (l1 ++ n2). rewrite E2, E1, app_assoc. split_and!; [done|by apply prefix_app|]. intros Hb. by rewrite K2.
  - intros [= <- <-]. exists n1. split_and!; [done|by apply prefix_app_r|done].
Qed.

Lemma follows_or_exit l1 l2 m k :
  follows l1 (λ e, e = None) m → follows l2 (λ c, c = 0) k → follows (l1 ++ l2) (λ c, c = 0) (or_exit m k).
Proof.
  intros Hm Hk. eapply follows_bind; [exact Hm|]. intros [e|]; [right; by exists 1|by left].
Qed.

Lemma follows_indexes idxs u :
  follows (CallIndex <$> idxs) (λ r, r = Ok tt) (loop (index_field (W := W) (G := recorded)) idxs u).
Proof.
  revert u. induction idxs as [|idx idxs IH]; intros u.
  - intros s s' r. cbn. intros [= <- <-]. exists []. rewrite app_nil_r. by destruct u.
  - cbn [loop fmap list_fmap]. change (CallIndex idx :: ?l) with ([CallIndex idx] ++ l).
    unfold try. eapply (follows_bind _ _ (λ r, r = Ok tt)).
    + unfold index_field. rewrite <- (app_nil_r [CallIndex idx]).
      eapply follows_bind; [apply follows_recording|]. intros [e|].
      * right. by eexists.
      * left. split; [done|]. intros s s' r [= <- <-]. exists []. by rewrite app_nil_r.
    + intros [[]|e]; [by left|]. right. by exists (Err e).
Qed.

Lemma follows_route :
  follows ((CallIndex <$> fieldIndexes) ++ [CallComplete tenant_controller]) (λ e, e = None)
    (RouteReconciler_SetupWithManager (W := W) (G := recorded)).
Proof.
  eapply follows_bind; [apply follows_indexes|]. intros [[]|e]; [left; split; [done|apply follows_recording]|].
  right. by exists (Some e).
Qed.

Lemma follows_setup f : follows (setup_calls f ++ [CallStart]) (λ c, c = 0) (main (W := W) (G := recorded) f).
Proof.
  assert (setup_calls f ++ [CallStart] = [CallNew (managerOptions f)]
    ++ (((CallIndex <$> fieldIndexes) ++ [CallComplete tenant_controller])
    ++ ([CallComplete collector_controller] ++ ([CallHealthz "healthz"] ++ ([CallReadyz "readyz"] ++ ([CallStart] ++ []))))))
    as -> by reflexivity.
  unfold main. apply follows_or_exit; [apply follows_recording|]. apply follows_or_exit; [apply follows_route|].
  do 4 (apply follows_or_exit; [apply follows_recording|]).
  intros s s' c [= <- <-]. exists []. by rewrite app_nil_r.
Qed.
End Startup.
Arguments call {_} W.
Arguments recorded {_} W G.

(** C34. The program asks the controller manager for its set-up in one order
    and starts it last: what has been asked for is always a prefix of that
    order, so the manager never runs before the five field indexes, the two
    controllers and the two checks are registered, and the exit code is zero
    only when all of it was done. The manager is created with HTTP/2 disabled
    unless the flag asks for it, and a secure metrics endpoint has the filter
    that authenticates and authorizes. *)
Theorem started_after_setup `{Platform} {W G} `{!Client W} `{!Launcher G} `{!Manager W G} f (g g' : G) log code :
  main (W := W) (G := recorded W G) f (g, []) = ((g', log), code) →
  log `prefix_of` setup_calls f ++ [CallStart] ∧
  (CallStart ∈ log → log = setup_calls f ++ [CallStart]) ∧
  (code = 0 → log = setup_calls f ++ [CallStart]) ∧
  (∀ o, CallNew o ∈ log →
     (enableHTTP2 f = false → ∀ c, NextProtos (apply_tls (Metrics_TLSOpts (Metrics o)) c) = Some ["http/1.1"]
                                  ∧ NextProtos (apply_tls (Webhook_TLSOpts o) c) = Some ["http/1.1"]) ∧
     (SecureServing (Metrics o) = true → FilterProvider (Metrics o) = Some WithAuthenticationAndAuthorization)).
Proof.
  intros E. destruct (follows_setup f _ _ _ E) as (new & Elog & Hp & Hok). cbn in Elog. subst new.
  split_and!; [done| |done|].
  - intros Hin. destruct Hp as [rest Er]. destruct rest as [|x rest] using rev_ind; [by rewrite app_nil_r in Er|].
    exfalso. rewrite app_assoc in Er. apply app_inj_tail in Er as [Er _].
    assert (CallStart ∈ setup_calls (W := W) f) as Hs by (rewrite Er; set_solver).
    unfold setup_calls in Hs. cbn in Hs. rewrite !elem_of_cons, elem_of_nil in Hs. naive_solver.
  - intros o Ho. assert (o = managerOptions f) as ->.
    { eapply elem_of_prefix in Ho; [|exact Hp]. unfold setup_calls in Ho. cbn in Ho.
      rewrite !elem_of_cons, elem_of_nil in Ho. naive_solver. }
    split.
    + intros Hh c. cbn. unfold tlsOpts. by rewrite Hh.
    + cbn. by intros ->.
Qed.

(** * The scheme *)
Section Registered.
Context `{Platform} {W : Type} `{!Client W} `{!Groups}.

(** What is documented of the other groups: they add types and take none away,
    the types of Kubernetes include namespaces and secrets, and the group of the
    operator its collectors. *)
Record groups_documented : Prop := {
  clientgo_adds s : ∃ s', clientgoscheme_AddToScheme s = Ok s' ∧ s ⊆ s' ∧ NamespaceKind ∈ s'.*2 ∧ SecretKind ∈ s'.*2;
  otel_adds s : ∃ s', otelv1beta1_AddToScheme s = Ok s' ∧ s ⊆ s' ∧ OpenTelemetryCollectorKind ∈ s'.*2;
  rbac_adds s : ∃ s', rbacv1_AddToScheme s = Ok s' ∧ s ⊆ s';
  meta_adds gv s : s ⊆ AddToGroupVersion gv s
}.

(** The kinds a controller is registered for *)
Definition kinds_of (c : controller W) : list Kind := ctl_for c :: (ctl_watches c).*1 ++ ctl_owns c.
Definition kinds_used : list Kind :=
  kinds_of tenant_controller ++ kinds_of collector_controller ++ (fi_obj <$> fieldIndexes) ++
  (list_of <$> [TenantKind; CollectorKind; SubscriptionKind; OutputKind; BridgeKind]).

Lemma subseteq_kinds (s s' : scheme) k : s ⊆ s' → k ∈ s.*2 → k ∈ s'.*2.
Proof. intros Hs (x & -> & Hx)%list_elem_of_fmap. by apply list_elem_of_fmap_2, Hs. Qed.

(** The scheme that [init] builds has every kind that is watched, owned or
    indexed, and the lists of the kinds that are listed. *)
Theorem kinds_registered : groups_documented → ∃ s, init = Some s ∧ ∀ k, k ∈ kinds_used → k ∈ s.*2.
Proof.
  intros Hdoc. destruct (clientgo_adds Hdoc []) as (s1 & E1 & _ & Hns & Hsec).
  destruct (otel_adds Hdoc s1) as (s2 & E2 & S2' & Hotel). destruct (rbac_adds Hdoc s2) as (s3 & E3 & S3).
  eexists. split; [unfold init; rewrite E1; cbn; rewrite E2; cbn; rewrite E3; reflexivity|].
  set (s4 := AddKnownTypes _ _ s3). intros k Hk. eapply subseteq_kinds; [apply (meta_adds Hdoc)|].
  assert (s3.*2 ⊆ s4.*2) as S4 by (unfold s4, AddKnownTypes; rewrite fmap_app; set_solver).
  assert (∀ k', k' ∈ [BridgeKind; list_of BridgeKind; CollectorKind; list_of CollectorKind; OutputKind; list_of OutputKind;
      SubscriptionKind; list_of SubscriptionKind; TenantKind; list_of TenantKind] → k' ∈ s4.*2) as Hown.
  { intros k' Hk'. unfold s4, AddKnownTypes. rewrite fmap_app, elem_of_app. right.
    rewrite <- list_fmap_compose. cbn. exact Hk'. }
  assert (∀ k', k' ∈ [NamespaceKind; SecretKind; OpenTelemetryCollectorKind] → k' ∈ s4.*2) as Hother.
  { intros k' Hk'. apply S4. rewrite !elem_of_cons, elem_of_nil in Hk'. destruct Hk' as [->|[->|[->|[]]]];
      (eapply subseteq_kinds; [exact S3|]); [eapply subseteq_kinds; [exact S2'|done]..|done]. }
  assert (∀ k', k' ∈ kinds_used → k' ∈ [BridgeKind; list_of BridgeKind; CollectorKind; list_of CollectorKind; OutputKind; list_of OutputKind;
      SubscriptionKind; list_of SubscriptionKind; TenantKind; list_of TenantKind] ++ [NamespaceKind; SecretKind; OpenTelemetryCollectorKind]) as Hall.
  { apply Forall_forall. by_decision. }
  apply Hall, elem_of_app in Hk as [Hk|Hk]; auto.
Qed.
End Registered.

(** * The field indexes *)
Section Indexes.
Context `{Platform} {W : Type} `{!Client W}.

(** What a list with a field selector promises: the items are those the index
    registered for the field holds under the value. *)
Definition serves_indexes : Prop := ∀ kind name w w' l r,
  List_Resources_by_tenant (W := W) kind name w = (w', Ok l) → r ∈ l →
  ∃ idx, idx ∈ fieldIndexes ∧ fi_obj idx = resource_kind kind ∧ fi_field idx = StatusTenantReferenceField ∧
    indexed (fi_extractor idx) name (object_of r).

(** The five indexes hold an object exactly under the tenant it names, and
    never under the empty name; so a server that answers field selectors from
    them gives a tenant only what refers to it, which is the promise the
    isolation of tenants rests on. *)
Theorem field_indexes_exact n :
  (∀ s, indexed subscription_tenant n (ObjSubscription s) ↔
     n ≠ "" ∧ SubscriptionStatus_Tenant (Subscription_Status s) = n) ∧
  (∀ o, indexed output_tenant n (ObjOutput o) ↔ n ≠ "" ∧ OutputStatus_Tenant (Output_Status o) = n) ∧
  (∀ b, (indexed bridge_source n (ObjBridge b) ↔ n ≠ "" ∧ BridgeSpec_SourceTenant (Bridge_Spec b) = n) ∧
        (indexed bridge_target n (ObjBridge b) ↔ n ≠ "" ∧ BridgeSpec_TargetTenant (Bridge_Spec b) = n)) ∧
  (∀ t, indexed tenant_name n (ObjTenant t) ↔ Tenant_Name t = n) ∧
  (serves_indexes → index_sound (W := W)).
Proof.
  split_and!; [apply indexed_subscription|apply indexed_output|split; [apply indexed_source|apply indexed_target]
    |apply indexed_name|].
  intros Hs kind name w w' l r E Hr. destruct (Hs _ _ _ _ _ _ E Hr) as (idx & Hidx & _ & Hf & Hi).
  unfold fieldIndexes in Hidx. rewrite !elem_of_cons, elem_of_nil in Hidx.
  destruct Hidx as [-> |[-> |[-> |[-> |[-> |[]]]]]]; try discriminate; destruct r; try done.
  - by apply indexed_subscription in Hi as [_ ?].
  - by apply indexed_output in Hi as [_ ?].
Qed.
End Indexes.

(** * Watches *)

(** The calls the reconciliation of a collector may make *)
Definition collector_reads : list Kind :=
  [CollectorKind; TenantKind; SubscriptionKind; BridgeKind; OutputKind; SecretKind].

Section CollectorCalls.
Context `{Platform} `{MapRange} `{!Mapstructure} `{Otel} {W : Type} `{!Client W} `{!ResourceReconciler W}.

Definition collector_calls (x : access) : Prop :=
  match x with Read k => k ∈ collector_reads | WCollector _ => True | _ => False end.

#[export] Instance traced_reconciler : ResourceReconciler (traced W) := {
  SetControllerReference := SetControllerReference;
  ReconcileResource o := λ s, let '(w, e) := ReconcileResource o s.1 in ((w, s.2), e)
}.

(** [m] makes only such calls. *)
Abbreviation calls_only := (runs (W := W) collector_calls anything).

Lemma calls_ret {A} (a : A) : calls_only (ret a).
Proof. by apply runs_ret. Qed.

Lemma calls_bind {A B} (m : M (traced W) A) (f : A → M (traced W) B) :
  calls_only m → (∀ a, calls_only (f a)) → calls_only (bind m f).
Proof. intros Hm Hf. eapply runs_bind; [exact Hm|]. intros a _. apply Hf. Qed.

Lemma calls_try {A B} (m : M (traced W) (result A)) (f : A → M (traced W) (result B)) :
  calls_only m → (∀ a, calls_only (f a)) → calls_only (try m f).
Proof. intros Hm Hf. apply calls_bind; [done|]. intros [a|e]; [apply Hf|apply calls_ret]. Qed.

Lemma calls_tryP {A B} (m : M (traced W) (option (result A))) (f : A → MP (traced W) B) :
  calls_only m → (∀ a, calls_only (f a)) → calls_only (tryP m f).
Proof. intros Hm Hf. apply calls_bind; [done|]. intros [[a|e]|]; [apply Hf|apply calls_ret..]. Qed.

Lemma calls_wrapM {A} msg (m : M (traced W) (result A)) : calls_only m → calls_only (wrapM msg m).
Proof. intros Hm. apply calls_bind; [done|]. intros r. apply calls_ret. Qed.

Lemma calls_loop {A S} (f : A → S → M (traced W) (result S)) xs :
  (∀ x s, calls_only (f x s)) → ∀ s, calls_only (loop f xs s).
Proof.
  intros Hf. induction xs as [|x xs IH]; intros s; cbn; [apply calls_ret|]. by apply calls_try.
Qed.

Lemma calls_read {A} k (m : M W A) : k ∈ collector_reads → calls_only (reading k m).
Proof. intros Hk. by apply runs_reading. Qed.

Lemma calls_apply o : calls_only (ReconcileResource (W := traced W) o).
Proof.
  intros s s' e. cbn. destruct (ReconcileResource o s.1) as [w a]. intros [= <- <-].
  split; [done|]. exists []. by rewrite app_nil_r.
Qed.
#[local] Hint Resolve calls_ret calls_apply : calls.
#[local] Hint Extern 3 (runs _ _ _) => first [apply calls_ret | apply calls_wrapM | apply calls_read; by_decision] : calls.

Lemma calls_query o q : QueryOutputSecretWithData (W := traced W) o = Some q → calls_only q.
Proof.
  unfold QueryOutputSecretWithData. destruct (OutputSpec_Authentication _) as [a|]; cbn; [|done].
  intros [= <-]. destruct (auth_refs a) as [|[ref n] [|]]; eauto with calls.
Qed.

Lemma calls_build collector : calls_only (BuildConfigInputForCollector (W := traced W) collector).
Proof.
  apply calls_bind; [|eauto with calls]. unfold gather_relations. apply calls_try.
  { apply calls_wrapM. unfold getTenantsMatchingSelectors. destruct (LabelSelectorAsSelector _); [|eauto with calls].
    apply calls_bind; eauto with calls. }
  intros ts. apply calls_try.
  { apply calls_loop. intros t g. unfold gather_tenant. case_bool_decide; [eauto with calls|].
    apply calls_try; [|intros subs; apply calls_try; [|eauto with calls]];
      apply calls_loop; intros x acc; apply calls_try; eauto with calls. }
  intros g. apply calls_try; [|eauto with calls].
  apply calls_loop. intros s [m outs]. apply calls_try; [|eauto with calls].
  apply calls_loop. intros ref os. apply calls_try; [eauto with calls|].
  intros o. destruct (QueryOutputSecretWithData o) as [q|] eqn:Eq; [|eauto with calls].
  apply calls_try; [|eauto with calls]. apply calls_wrapM. by eapply calls_query.
Qed.

Lemma calls_owned collector o r1 r2 : calls_only (apply_owned (W := traced W) collector o r1 r2).
Proof.
  apply calls_tryP; [apply calls_ret|]. intros _. apply calls_bind; [|eauto with calls].
  apply calls_wrapM, calls_bind; eauto with calls.
Qed.

Lemma calls_rbac collector : calls_only (ReconcileRBAC (W := traced W) collector).
Proof.
  apply calls_bind; [|intros e1; apply calls_bind; [|intros sa; apply calls_bind; eauto with calls]];
    unfold reconcileClusterRole, reconcileServiceAccount, reconcileClusterRoleBinding;
    (destruct (SetControllerReference _ _); [eauto with calls|apply calls_bind; eauto with calls]).
Qed.

Lemma calls_creation collector : calls_only (handleCollectorCreation (W := traced W) collector).
Proof.
  unfold handleCollectorCreation. apply calls_tryP; [apply calls_bind; [apply calls_build|eauto with calls]|].
  intros c; cbn beta. apply calls_tryP; [apply calls_ret|]. intros u1; cbn beta.
  apply calls_tryP; [apply calls_ret|]. intros [cfg args]; cbn beta iota.
  apply calls_tryP; [apply calls_bind; eauto with calls|]. intros u2; cbn beta.
  apply calls_tryP; [apply calls_bind; [apply calls_wrapM, calls_rbac|eauto with calls]|]. intros sa; cbn beta zeta.
  apply calls_tryP; [apply calls_owned|]. intros u3; cbn beta. apply calls_tryP; [apply calls_ret|]. intros oc; cbn beta.
  apply calls_tryP; [apply calls_owned|]. intros u4. apply calls_ret.
Qed.

Lemma calls_update c : calls_only (Update_Collector_status (W := traced W) c).
Proof. by apply runs_logging. Qed.

Lemma calls_reconcile name : calls_only (Reconcile_Collector (W := traced W) name).
Proof.
  apply calls_bind; [eauto with calls|]. intros [c|e]; [|eauto with calls].
  apply calls_bind; [apply calls_creation|]. intros [[c'|e]|]; [..|eauto with calls].
  - apply calls_bind; [|eauto with calls]. unfold finish_collector. destruct (negb _); [|eauto with calls].
    apply calls_bind; [apply calls_update|eauto with calls].
  - apply calls_bind; [|eauto with calls]. unfold handleCollectorReconcileError.
    repeat (match goal with |- context [if ?b then _ else _] => destruct b end; [eauto with calls|]).
    apply calls_bind; [apply calls_update|eauto with calls].
Qed.
End CollectorCalls.

Section Noticing.
Context `{Platform} {W : Type} `{!Client W}.

(** An event makes the map function ask for every object of the listing. *)
Definition enqueues {A} (h : map_func (W := W)) (list_all : M W (result (list A))) (name : A → string) : Prop :=
  ∀ obj w w' items, list_all w = (w', Ok items) →
    h obj w = (w', Some ((λ x, mkNamespacedName "" (name x)) <$> items)).

(** A change of an object of kind [k] is noticed: the object is the
    controller's own, is owned by one, or puts all of them in the queue. *)
Definition notices {A} (c : controller W) (list_all : M W (result (list A))) (name : A → string) (k : Kind) : Prop :=
  ctl_for c = k ∨ k ∈ ctl_owns c ∨ ∃ h, (k, h) ∈ ctl_watches c ∧ enqueues h list_all name.

Lemma watch_all_watches resources h (c : controller W) k :
  k ∈ resources → (k, h) ∈ ctl_watches (watch_all resources h c).
Proof.
  unfold watch_all. revert c. induction resources as [|r resources IH]; intros c Hk; [by apply not_elem_of_nil in Hk|].
  cbn. apply elem_of_cons in Hk as [<-|Hk]; [|by apply IH].
  assert ((k, h) ∈ ctl_watches (Watches k h c)) as Hin by (apply elem_of_app; right; apply list_elem_of_here).
  generalize dependent (Watches k h c). clear. induction resources as [|r resources IH]; intros c Hin; [done|].
  cbn. apply IH. apply elem_of_app. by left.
Qed.

Lemma enqueue_tenants : enqueues enqueueAllTenants List_all_Tenants Tenant_Name.
Proof. intros obj w w' items E. unfold enqueueAllTenants, bind. by rewrite E. Qed.

Lemma enqueue_collectors : enqueues enqueueAllCollectors List_all_Collectors Collector_Name.
Proof. intros obj w w' items E. unfold enqueueAllCollectors, bind. by rewrite E. Qed.

Lemma tenant_notices k :
  k ∈ tenant_reads → k ≠ SecretKind → notices tenant_controller List_all_Tenants Tenant_Name k.
Proof.
  intros Hk Hne. destruct (decide (k = TenantKind)) as [->|Ht]; [by left|]. right; right.
  exists enqueueAllTenants. split; [|apply enqueue_tenants]. apply watch_all_watches.
  unfold tenant_reads in Hk. rewrite !elem_of_cons, elem_of_nil in Hk. unfold tenant_watchedResources. set_solver.
Qed.

Lemma collector_notices k :
  k ∈ collector_reads → notices collector_controller List_all_Collectors Collector_Name k.
Proof.
  intros Hk. destruct (decide (k = CollectorKind)) as [->|Ht]; [by left|]. right; right.
  exists enqueueAllCollectors. split; [|apply enqueue_collectors].
  apply (watch_all_watches collector_watchedResources).
  unfold collector_reads in Hk. rewrite !elem_of_cons, elem_of_nil in Hk. unfold collector_watchedResources. set_solver.
Qed.
End Noticing.

(** C30. Whatever the reconciliation of a tenant reads, apart from secrets, is
    noticed when it changes: its kind is watched and an event puts every tenant
    in the queue. Secrets, which decide whether an output is valid, are not
    noticed. *)
Theorem tenant_changes_noticed `{Platform} {W} `{!Client W} name (w w' : W) log res k :
  index_sound (W := W) → get_tenant_sound (W := W) →
  Reconcile_Tenant (W := traced W) name (w, []) = ((w', log), res) → Read k ∈ log →
  (k ≠ SecretKind → notices tenant_controller (List_all_Tenants (W := W)) Tenant_Name k) ∧
  ¬ notices tenant_controller (List_all_Tenants (W := W)) Tenant_Name SecretKind.
Proof.
  intros Hi Hg Hr Hk. split.
  - intros Hne. apply tenant_notices; [|done].
    pose proof (reconcile_allowed _ _ _ _ _ Hi Hg Hr) as Hall. rewrite Forall_forall in Hall. exact (Hall _ Hk).
  - intros [?|[?|(h & Hin & _)]]; [done|by apply not_elem_of_nil in H0|].
    cbn in Hin. rewrite !elem_of_cons, elem_of_nil in Hin. naive_solver.
Qed.


#[local] Existing Instance sample_platform.
#[local] Existing Instance sample_decoders.
#[local] Existing Instance sample_otel.
#[local] Existing Instance sample_reconciler.

(** A controller manager that cannot add the second check *)
#[local] Instance flaky_launcher : Launcher unit := { NewManager _ := ret None }.
#[local] Instance flaky_manager : Manager cluster unit := {
  IndexField _ := ret None; Complete _ := ret None; AddHealthzCheck _ := ret None;
  AddReadyzCheck _ := ret (Some (ErrText "check")); Start := ret None
}.

Definition flaky_start := main (W := cluster) (G := recorded cluster unit) default_flags (tt, []).

Lemma started_after_setup_witness :
  flaky_start.2 = 1 ∧ flaky_start.1.2 `prefix_of` setup_calls default_flags ++ [CallStart] ∧
  (CallStart ∈ flaky_start.1.2 → flaky_start.1.2 = setup_calls default_flags ++ [CallStart]).
Proof.
  split; [reflexivity|].
  destruct (started_after_setup (W := cluster) (G := unit) default_flags tt flaky_start.1.1 flaky_start.1.2 flaky_start.2)
    as (Hp & Hs & _ & _); [unfold flaky_start; by destruct (main _ _) as [[? ?] ?]|].
  split; [exact Hp|exact Hs].
Defined.

Lemma tenant_changes_noticed_witness :
  Read SecretKind ∈ sample_run.1.2 ∧
  ¬ notices tenant_controller (List_all_Tenants (W := cluster)) Tenant_Name SecretKind.
Proof.
  assert (Read SecretKind ∈ sample_run.1.2) as Hin.
  { apply list_elem_of_lookup. exists 11. vm_compute. reflexivity. }
  split; [exact Hin|].
  apply (tenant_changes_noticed (W := cluster) "red" (sample_cluster sample_resources false) sample_run.1.1
    sample_run.1.2 sample_run.2 SecretKind).
  - intros kind name w w' l r. apply cluster_index.
  - intros name w w' t. apply cluster_get_tenant.
  - unfold sample_run. by destruct (Reconcile_Tenant _ _) as [[? ?] ?].
  - exact Hin.
Defined.

Definition collector_run := Reconcile_Collector (W := traced cluster) "main" (settled_cluster, []).

