(* ===== verification/Settle.v ===== *)
(** What the reconciliation of a tenant is for: the cluster it should leave
    behind, said object by object, without the calls, loops and intermediate
    updates of the controller. [SettleRun] shows that the controller does this
    and [ConvergeSpec] what follows from it. *)
From S2P Require Import Prelude Strs Json Errors ApiOtlp ApiOutput ApiTypes Persist Kube Watches Cluster Utils Relations.
From S2P Require Import TenantManager.

#[export] Instance SubscriptionStatus_eq_dec : EqDecision SubscriptionStatus.
Proof. solve_decision. Defined.
#[export] Instance OutputStatus_eq_dec : EqDecision OutputStatus.
Proof. solve_decision. Defined.

Section Settle.
Context `{Platform} (matches : selector → string → bool).

(** * Selection *)
Definition selects (selectors : list label_selector) (ns : string) : bool :=
  existsb (λ ls, match LabelSelectorAsSelector ls with Ok sel => matches sel ns | Err _ => false end) selectors.

(** The namespaces of the cluster a tenant collects resources from *)
Definition collects (w : cluster) (t : Tenant) (ns : string) : bool :=
  selects (TenantSpec_SubscriptionNamespaceSelectors (Tenant_Spec t)) ns && bool_decide (ns ∈ cl_namespaces w).

(** * Resources *)
Section Resources.
Context (name : string) (sel : string → bool).

(** A tenant takes what it owns and what nobody owns. *)
Definition free_for (r : Resource) : bool :=
  bool_decide (GetTenant r = "") || bool_decide (GetTenant r = name).

Definition takes (r : Resource) : bool := sel (GetNamespace r) && free_for r.

Definition taken_subscription (r : Resource) : option Subscription :=
  if takes r then as_Subscription r else None.

Definition taken_subscriptions (rs : list Resource) : list Subscription := omap taken_subscription rs.

(** The outputs the tenant's subscriptions name *)
Definition referenced (rs : list Resource) (ref : NamespacedName) : bool :=
  existsb (λ s, bool_decide (ref ∈ elems (SubscriptionSpec_Outputs (Subscription_Spec s)))) (taken_subscriptions rs).

Definition ready_subscription (s : Subscription) : Subscription :=
  Subscription_set_Status (mkSubscriptionStatus name
    (renil (Some (SortNamespacedNames (elems (SubscriptionSpec_Outputs (Subscription_Spec s)))))) StateReady None 0) s.

Definition ready_output (o : Output) : Output := Output_set_Status (mkOutputStatus name StateReady None 0) o.

(** A resource with the status as the server keeps it *)
Definition kept (r : Resource) : Resource := receive_Resource r r.

Definition settle_resource (refd : NamespacedName → bool) (r : Resource) : Resource :=
  if sel (GetNamespace r) then
    if free_for r then
      match r with
      | ResSubscription s => ResSubscription (ready_subscription s)
      | ResOutput o =>
          if refd (Output_NamespacedName o) then ResOutput (ready_output o) else ResOutput (Output_SetTenant name o)
      end
    else kept (ownership_conflict r)
  else if bool_decide (GetTenant r = name) then SetTenant "" r
  else r.
End Resources.

(** * Bridges and the tenant *)
Definition settle_bridge (name : string) (b : Bridge) : Bridge :=
  if touches name b then mkBridge (Bridge_Name b) (Bridge_Spec b) (mkBridgeStatus StateReady None 0) else b.

(** The names of the tenant's bridges, a bridge at both ends twice *)
Definition bridge_names (name : string) (bs : list Bridge) : list string :=
  Bridge_Name <$> (filter (λ b, BridgeSpec_SourceTenant (Bridge_Spec b) = name) bs
                   ++ filter (λ b, BridgeSpec_TargetTenant (Bridge_Spec b) = name) bs).

Definition settled_status (w : cluster) (t : Tenant) : TenantStatus :=
  mkTenantStatus
    (renil (Some (SortNamespacedNames (Subscription_NamespacedName
       <$> taken_subscriptions (Tenant_Name t) (collects w t) (cl_resources w)))))
    (renil (Some (sort_strings (filter (λ ns, selects (TenantSpec_LogSourceNamespaceSelectors (Tenant_Spec t)) ns = true)
       (cl_namespaces w)))))
    (renil (Some (sort_strings (bridge_names (Tenant_Name t) (cl_bridges w)))))
    StateReady None 0.

Definition find_tenant (w : cluster) (name : string) : option Tenant :=
  find_first (λ t, bool_decide (Tenant_Name t = name)) (cl_tenants w).

(** The cluster after the reconciliation of a tenant *)
Definition settle (name : string) (w : cluster) : cluster :=
  match find_tenant w name with
  | None => w
  | Some t =>
      let sel := collects w t in
      mkCluster (cl_namespaces w)
        ((λ t', if bool_decide (Tenant_Name t' = name) then Tenant_set_Status (settled_status w t) t' else t') <$> cl_tenants w)
        (settle_bridge name <$> cl_bridges w)
        (cl_collectors w)
        (settle_resource name sel (referenced name sel (cl_resources w)) <$> cl_resources w)
        (cl_secrets w) (cl_refuses w)
  end.

(** * When it goes well *)

(** The secret that an output refers to can be read. *)
Definition secret_found (w : cluster) (o : Output) : Prop :=
  (query_secret_error (W := cluster) (Client0 := cluster_client matches) o w).2 = None.

Definition valid_selectors (selectors : list label_selector) : Prop :=
  ∀ ls, ls ∈ selectors → ∃ sel, LabelSelectorAsSelector ls = Ok sel.

(** What a tenant needs for its reconciliation to go through *)
Record healthy (name : string) (w : cluster) (t : Tenant) : Prop := {
  healthy_name : name ≠ "";
  healthy_tenant : find_tenant w name = Some t;
  healthy_server : cl_refuses w = false;
  healthy_logs : valid_selectors (TenantSpec_LogSourceNamespaceSelectors (Tenant_Spec t));
  healthy_selectors : valid_selectors (TenantSpec_SubscriptionNamespaceSelectors (Tenant_Spec t));
  (** no output has been marked as failed *)
  healthy_outputs : ∀ o, ResOutput o ∈ cl_resources w → takes name (collects w t) (ResOutput o) = true →
    OutputStatus_State (Output_Status o) ≠ StateFailed;
  (** the outputs of a subscription are outputs of the tenant, with their secrets *)
  healthy_references : ∀ ref, referenced name (collects w t) (cl_resources w) ref = true →
    ∃ o, ResOutput o ∈ cl_resources w ∧ Output_NamespacedName o = ref ∧
      takes name (collects w t) (ResOutput o) = true ∧ secret_found w o;
  (** the tenants at the other ends of the bridges exist *)
  healthy_bridges : ∀ b, b ∈ cl_bridges w → touches name b = true →
    ∀ n, n ∈ [BridgeSpec_SourceTenant (Bridge_Spec b); BridgeSpec_TargetTenant (Bridge_Spec b)] →
    is_Some (find_tenant w n)
}.

(** What every API server keeps: names are unique, and a status is one that was
    written and read. The printed name of a resource is unique because a
    namespace has no slash in its name. *)
Definition resource_key (r : Resource) : bool * string :=
  (match r with ResSubscription _ => true | ResOutput _ => false end, NamespacedName_String (ref_of r)).

Definition resource_kept (r : Resource) : Prop :=
  match r with
  | ResSubscription s => normal (Subscription_Status s) = Subscription_Status s
  | ResOutput o => normal (Output_Status o) = Output_Status o
  end.

Record well_kept (w : cluster) : Prop := {
  kept_namespaces : NoDup (cl_namespaces w);
  kept_tenant_names : NoDup (Tenant_Name <$> cl_tenants w);
  kept_bridge_names : NoDup (Bridge_Name <$> cl_bridges w);
  kept_resource_names : NoDup (resource_key <$> cl_resources w);
  kept_resources : ∀ r, r ∈ cl_resources w → resource_kept r;
  kept_bridges : ∀ b, b ∈ cl_bridges w → normal (Bridge_Status b) = Bridge_Status b;
  kept_tenants : ∀ t, t ∈ cl_tenants w → normal (Tenant_Status t) = Tenant_Status t
}.

(** * Deciding it *)
Definition valid_selectorsb (selectors : list label_selector) : bool :=
  forallb (λ ls, match LabelSelectorAsSelector ls with Ok _ => true | Err _ => false end) selectors.

Definition valid_reference (name : string) (w : cluster) (t : Tenant) (ref : NamespacedName) : bool :=
  existsb (λ r, match r with
    | ResOutput o => bool_decide (Output_NamespacedName o = ref) && takes name (collects w t) r
                     && is_nil (query_secret_error (W := cluster) (Client0 := cluster_client matches) o w).2
    | _ => false
    end) (cl_resources w).

Definition healthyb (name : string) (w : cluster) : bool :=
  match find_tenant w name with
  | None => false
  | Some t =>
      negb (bool_decide (name = "")) && negb (cl_refuses w)
      && valid_selectorsb (TenantSpec_LogSourceNamespaceSelectors (Tenant_Spec t))
      && valid_selectorsb (TenantSpec_SubscriptionNamespaceSelectors (Tenant_Spec t))
      && forallb (λ r, match r with
           | ResOutput o => negb (takes name (collects w t) r)
                            || negb (bool_decide (OutputStatus_State (Output_Status o) = StateFailed))
           | _ => true
           end) (cl_resources w)
      && forallb (λ s, forallb (valid_reference name w t) (elems (SubscriptionSpec_Outputs (Subscription_Spec s))))
           (taken_subscriptions name (collects w t) (cl_resources w))
      && forallb (λ b, negb (touches name b)
           || negb (is_nil (find_tenant w (BridgeSpec_SourceTenant (Bridge_Spec b))))
              && negb (is_nil (find_tenant w (BridgeSpec_TargetTenant (Bridge_Spec b))))) (cl_bridges w)
  end.

#[export] Instance resource_kept_dec r : Decision (resource_kept r).
Proof. destruct r; apply _. Defined.

Definition well_keptb (w : cluster) : bool :=
  bool_decide (NoDup (cl_namespaces w)) && bool_decide (NoDup (Tenant_Name <$> cl_tenants w))
  && bool_decide (NoDup (Bridge_Name <$> cl_bridges w)) && bool_decide (NoDup (resource_key <$> cl_resources w))
  && forallb (λ r, bool_decide (resource_kept r)) (cl_resources w)
  && forallb (λ b, bool_decide (normal (Bridge_Status b) = Bridge_Status b)) (cl_bridges w)
  && forallb (λ t, bool_decide (normal (Tenant_Status t) = Tenant_Status t)) (cl_tenants w).

Lemma forallb_elem {A} (f : A → bool) l x : forallb f l = true → x ∈ l → f x = true.
Proof. intros Hf Hx. by apply (proj1 (forallb_forall f l) Hf), list_elem_of_In. Qed.

Lemma well_keptb_sound w : well_keptb w = true → well_kept w.
Proof.
  unfold well_keptb. rewrite !andb_true_iff. intros ((((((H1 & H2) & H3) & H4) & H5) & H6) & H7).
  split; try (by eapply bool_decide_eq_true_1).
  - intros r Hr. by eapply bool_decide_eq_true_1, (forallb_elem _ _ _ H5).
  - intros b Hb. by eapply bool_decide_eq_true_1, (forallb_elem _ _ _ H6).
  - intros t Ht. by eapply bool_decide_eq_true_1, (forallb_elem _ _ _ H7).
Qed.

Lemma valid_selectorsb_sound selectors : valid_selectorsb selectors = true → valid_selectors selectors.
Proof.
  intros Hv ls Hls. pose proof (forallb_elem _ _ _ Hv Hls) as E. cbn in E.
  destruct (LabelSelectorAsSelector ls) as [sel|]; [by exists sel|done].
Qed.

Lemma healthyb_sound name w : healthyb name w = true → ∃ t, healthy name w t.
Proof.
  unfold healthyb. destruct (find_tenant w name) as [t|] eqn:Et; [|done].
  rewrite !andb_true_iff. intros ((((((H1 & H2) & H3) & H4) & H5) & H6) & H7). exists t.
  apply negb_true_iff, bool_decide_eq_false in H1. apply negb_true_iff in H2.
  split; auto using valid_selectorsb_sound.
  - intros o Ho Ht. pose proof (forallb_elem _ _ _ H5 Ho) as E. cbn beta iota in E. rewrite Ht in E.
    cbn in E. by apply negb_true_iff, bool_decide_eq_false in E.
  - intros ref (s & Hs & Hr)%existsb_exists. apply bool_decide_eq_true in Hr. apply list_elem_of_In in Hs.
    pose proof (forallb_elem _ _ _ (forallb_elem _ _ _ H6 Hs) Hr) as E. unfold valid_reference in E.
    apply existsb_exists in E as (r & Hin & E). destruct r as [|o]; [done|].
    rewrite !andb_true_iff, bool_decide_eq_true in E. destruct E as [[En Etk] Es]. exists o. split_and!.
    + by apply list_elem_of_In.
    + done.
    + done.
    + unfold secret_found. by destruct (query_secret_error o w).2.
  - intros b Hb Ht n Hn. pose proof (forallb_elem _ _ _ H7 Hb) as E. cbn beta in E. rewrite Ht in E. cbn [negb orb] in E.
    apply andb_true_iff in E as [E1 E2]. rewrite !elem_of_cons, elem_of_nil in Hn.
    destruct Hn as [->|[->|[]]]; [destruct (find_tenant w (BridgeSpec_SourceTenant _))|destruct (find_tenant w (BridgeSpec_TargetTenant _))];
      done.
Qed.
End Settle.
