(* ===== verification/SettleRun.v ===== *)
(** The controller settles a tenant: on the in-memory server, a reconciliation
    of a healthy tenant leaves exactly the cluster of [Settle]. Each part of the
    reconciliation is computed as a function that is mapped over the objects of
    the server. *)
From S2P Require Import Prelude Strs Json Errors ApiOtlp ApiOutput ApiTypes Persist Kube Watches Cluster Utils Relations.
From S2P Require Import TenantManager RouteController TenantSpec TenantBehaviour Settle.

(** Sorting by a key that tells the members apart forgets the order. *)
Lemma sort_by_perm_eq {A} (key : A → string) l1 l2 :
  (∀ x y, x ∈ l1 → y ∈ l1 → key x = key y → x = y) → l1 ≡ₚ l2 → sort_by key l1 = sort_by key l2.
Proof.
  intros Hk Hp. apply (StronglySorted_unique_strong (key_le key)); auto using sort_by_sorted.
  - intros x y Hx Hy H1 H2. rewrite sort_by_perm in Hx. rewrite sort_by_perm, <- Hp in Hy.
    apply Hk; [done..|]. by apply (anti_symm String.le).
  - by rewrite !sort_by_perm.
Qed.

(** * Objects of the server *)
Section Updates.
Context `{Platform}.

Definition with_resources (rs : list Resource) (w : cluster) : cluster :=
  mkCluster (cl_namespaces w) (cl_tenants w) (cl_bridges w) (cl_collectors w) rs (cl_secrets w) (cl_refuses w).

Definition map_resources (g : Resource → Resource) (w : cluster) : cluster := with_resources (g <$> cl_resources w) w.

Lemma map_resources_compose f g w : map_resources g (map_resources f w) = map_resources (g ∘ f) w.
Proof. unfold map_resources, with_resources. cbn. by rewrite list_fmap_compose. Qed.

Lemma map_resources_ext f g w : (∀ r, r ∈ cl_resources w → f r = g r) → map_resources f w = map_resources g w.
Proof.
  intros Hfg. unfold map_resources, with_resources. f_equal. by apply list_fmap_ext_ne || apply Forall_fmap_ext, Forall_forall.
Qed.

Lemma map_resources_id f w : (∀ r, r ∈ cl_resources w → f r = r) → map_resources f w = w.
Proof.
  intros Hf. rewrite (map_resources_ext f id) by done. unfold map_resources, with_resources. rewrite list_fmap_id. by destruct w.
Qed.

(** Two objects with the same kind and name *)
Definition same_key (x y : Resource) : Prop := kind_of x = kind_of y ∧ ref_of x = ref_of y.

Definition upd (x y : Resource) : Resource := if at_ref (ref_of x) (kind_of x) y then receive_Resource x y else y.

Lemma at_ref_iff x y : at_ref (ref_of x) (kind_of x) y = true ↔ same_key x y.
Proof.
  unfold at_ref, same_key, ref_of. rewrite !andb_true_iff, !bool_decide_eq_true.
  destruct x, y; cbn; split; intros Hk; destruct_and?; try done; (split_and!; try done; try congruence);
    match goal with E : mkNamespacedName _ _ = _ |- _ => injection E as E1 E2; by rewrite ?E1, ?E2 end.
Qed.

Lemma upd_hit x y : same_key x y → upd x y = receive_Resource x y.
Proof. intros Hk. unfold upd. by rewrite (proj2 (at_ref_iff x y) Hk). Qed.

Lemma upd_miss x y : ¬ same_key x y → upd x y = y.
Proof. intros Hk. unfold upd. destruct (at_ref _ _ _) eqn:E; [|done]. by apply at_ref_iff in E. Qed.

#[export] Instance same_key_dec x y : Decision (same_key x y).
Proof. refine (cast_if (decide (at_ref (ref_of x) (kind_of x) y = true))); by rewrite <- at_ref_iff. Defined.

Lemma receive_key x y : same_key (receive_Resource x y) y.
Proof. by destruct x, y. Qed.

Lemma upd_key x y : same_key (upd x y) y.
Proof. unfold upd. destruct (at_ref _ _ _); [apply receive_key|done]. Qed.

#[export] Instance same_key_equiv : Equivalence same_key.
Proof.
  split.
  - done.
  - intros x y [Hk Hr]. by split.
  - intros x y z [Hk Hr] [Hk' Hr']. split; congruence.
Qed.

Lemma receive_receive x y : same_key x y → receive_Resource x (receive_Resource x y) = receive_Resource x y.
Proof. intros [Hk _]. by destruct x, y. Qed.

(** What a list of updates makes of an object *)
Definition sent (xs : list Resource) (y : Resource) : Resource := foldl (λ y x, upd x y) y xs.

Lemma sent_app xs1 xs2 y : sent (xs1 ++ xs2) y = sent xs2 (sent xs1 y).
Proof. apply foldl_app. Qed.

Lemma sent_miss xs y : (∀ x, x ∈ xs → ¬ same_key x y) → sent xs y = y.
Proof.
  induction xs as [|x xs IH]; intros Hx; cbn; [done|].
  rewrite (upd_miss x y) by apply Hx, list_elem_of_here. apply IH. intros x' Hx'. by apply Hx, list_elem_of_further.
Qed.

(** All updates of the object say the same. *)
Lemma sent_hit xs x y : x ∈ xs → same_key x y → (∀ x', x' ∈ xs → same_key x' y → x' = x) →
  sent xs y = receive_Resource x y.
Proof.
  intros Hin Hk Hall. assert (∀ zs, zs ⊆ xs → sent zs (receive_Resource x y) = receive_Resource x y) as Hstay.
  { induction zs as [|z zs IH]; intros Hz; cbn; [done|].
    assert (upd z (receive_Resource x y) = receive_Resource x y) as ->.
    { destruct (decide (same_key z y)) as [Hzk|Hzk].
      - rewrite (Hall z) by (try done; apply Hz, list_elem_of_here).
        rewrite upd_hit by (etrans; [exact Hk|symmetry; apply receive_key]). by apply receive_receive.
      - apply upd_miss. intros Hzk'. apply Hzk. etrans; [exact Hzk'|apply receive_key]. }
    apply IH. intros z' Hz'. by apply Hz, list_elem_of_further. }
  revert Hin Hall Hstay. induction xs as [|x' xs IH]; intros Hin Hall Hstay; [by apply not_elem_of_nil in Hin|].
  cbn. destruct (decide (same_key x' y)) as [Hk'|Hk'].
  - rewrite (Hall x') by (try done; apply list_elem_of_here). rewrite upd_hit by done.
    apply Hstay. intros z Hz. by apply list_elem_of_further.
  - rewrite upd_miss by done. apply IH.
    + apply elem_of_cons in Hin as [->|Hin]; [done|exact Hin].
    + intros z Hz. by apply Hall, list_elem_of_further.
    + intros zs Hzs. apply Hstay. intros z Hz. by apply list_elem_of_further, Hzs.
Qed.

Lemma sent_key xs y : same_key (sent xs y) y.
Proof.
  revert y. induction xs as [|x xs IH]; intros y; cbn; [done|]. etrans; [apply IH|apply upd_key].
Qed.
End Updates.

(** * Ownership *)
Section Ownership.
Context `{Platform} (matches : selector → string → bool).
#[local] Instance here : Client cluster := cluster_client matches.

Lemma update_resource x w : cl_refuses w = false → Update_Resource_status x w = (map_resources (upd x) w, None).
Proof. intros Hr. destruct w; cbn in *. by subst. Qed.

(** A loop whose turns send one update each *)
Lemma foreach_sends {A S} (f : A → S → M cluster S) (send : A → list Resource) (step : A → S → S) xs :
  (∀ x s w, cl_refuses w = false → f x s w = (map_resources (sent (send x)) w, step x s)) →
  ∀ s w, cl_refuses w = false →
  foreach f xs s w = (map_resources (sent (xs ≫= send)) w, foldl (λ s x, step x s) s xs).
Proof.
  intros Hf. induction xs as [|x xs IH]; intros s w Hr; cbn.
  - by rewrite map_resources_id.
  - unfold bind. rewrite Hf, IH by done. f_equal. rewrite map_resources_compose.
    apply map_resources_ext. intros r _. cbn. by rewrite sent_app.
Qed.

Section Kind.
Context (name : string) (w : cluster) (k : ResourceKind) (Hk : supported k = true) (Hserver : cl_refuses w = false).

(** What the listing of the tenant's namespaces gives *)
Definition listed_in (nss : list string) (rs : list Resource) : list Resource :=
  nss ≫= λ ns, filter (λ r, is_kind k r = true ∧ GetNamespace r = ns) rs.

Lemma loop_list nss acc : loop (list_in_namespace k) nss acc w = (w, Ok (acc ++ listed_in nss (cl_resources w))).
Proof.
  revert acc. induction nss as [|ns nss IH]; intros acc; [cbn; by rewrite app_nil_r|].
  cbn [loop]. unfold try, bind.
  change (list_in_namespace k ns acc w) with (w, Ok (acc ++ filter (λ r, is_kind k r = true ∧ GetNamespace r = ns) (cl_resources w))).
  cbn iota beta. rewrite IH. unfold listed_in. cbn [mbind list_bind]. by rewrite <- app_assoc.
Qed.

Definition foreign (r : Resource) : Prop := GetTenant r ≠ "" ∧ GetTenant r ≠ name.
Definition owned (r : Resource) : Prop := GetTenant r = name ∧ GetTenant r ≠ "".
Definition unowned (r : Resource) : Prop := GetTenant r = "".

#[export] Instance foreign_dec r : Decision (foreign r).
Proof. unfold foreign. apply _. Defined.
#[export] Instance owned_dec r : Decision (owned r).
Proof. unfold owned. apply _. Defined.
#[export] Instance unowned_dec r : Decision (unowned r).
Proof. unfold unowned. apply _. Defined.

Lemma foreach_classify rs : foreach (classify name) rs ([], []) w =
  (map_resources (sent (ownership_conflict <$> filter foreign rs)) w, (filter owned rs, filter unowned rs)).
Proof.
  destruct (foreach (classify name) rs ([], []) w) as [w' [o u]] eqn:E.
  pose proof (resources_split (Client0 := here) rs w w' o u name E) as [-> ->].
  rewrite (foreach_sends _ (λ r, if decide (foreign r) then [ownership_conflict r] else [])
    (λ r acc, if decide (GetTenant r = "") then (acc.1, acc.2 ++ [r])
              else if decide (GetTenant r = name) then (acc.1 ++ [r], acc.2) else acc)) in E; [|clear E|done].
  - injection E as <- _. f_equal. apply map_resources_ext. intros r _. f_equal.
    clear. induction rs as [|r rs IH]; [done|]. cbn [mbind list_bind]. rewrite filter_cons, IH.
    by destruct (decide (foreign r)).
  - intros r [o u] w0 Hr. unfold classify. unfold foreign.
    destruct (decide (GetTenant r = "")) as [E1|E1].
    + rewrite (bool_decide_true (GetTenant r = "")) by done. rewrite decide_False by tauto. cbn. by rewrite map_resources_id.
    + rewrite (bool_decide_false (GetTenant r = "")) by done.
      destruct (decide (GetTenant r = name)) as [E2|E2].
      * rewrite bool_decide_true by done. rewrite decide_False by tauto. cbn. by rewrite map_resources_id.
      * rewrite bool_decide_false by done. rewrite decide_True by tauto. cbn [negb andb]. unfold bind.
        by rewrite update_resource.
Qed.

Lemma foldl_snoc {A B} (g : A → B) xs s : foldl (λ s x, s ++ [g x]) s xs = s ++ (g <$> xs).
Proof.
  revert s. induction xs as [|x xs IH]; intros s; cbn; [by rewrite app_nil_r|]. by rewrite IH, <- app_assoc.
Qed.

Lemma bind_singletons {A B} (g : A → B) xs : (xs ≫= λ x, [g x]) = g <$> xs.
Proof. induction xs as [|x xs IH]; [done|]. cbn [mbind list_bind]. by rewrite IH. Qed.

Lemma adopt_run us w0 : cl_refuses w0 = false →
  UpdateResourcesForTenant name us w0 = (map_resources (sent (SetTenant name <$> us)) w0, SetTenant name <$> us).
Proof.
  intros Hr. unfold UpdateResourcesForTenant.
  rewrite (foreach_sends _ (λ r, [SetTenant name r]) (λ r acc, acc ++ [SetTenant name r])); [|clear w0 Hr|done].
  - by rewrite foldl_snoc, bind_singletons.
  - intros r acc w0 Hr. unfold adopt, bind. by rewrite update_resource.
Qed.

Lemma disown_run ds w0 : cl_refuses w0 = false →
  DisownResources ds w0 = (map_resources (sent (SetTenant "" <$> ds)) w0, tt).
Proof.
  intros Hr. unfold DisownResources.
  rewrite (foreach_sends _ (λ r, [SetTenant "" r]) (λ _ _, tt)); [|clear w0 Hr|done].
  - rewrite bind_singletons. f_equal. by induction ds.
  - intros r [] w0 Hr. unfold disown, bind. by rewrite update_resource.
Qed.

(** The resources a tenant ends up with, the updates that mark and adopt, and
    those it then has to give up *)
Definition own_list (rs : list Resource) : list Resource := filter owned rs ++ (SetTenant name <$> filter unowned rs).
Definition own_updates (rs : list Resource) : list Resource :=
  (ownership_conflict <$> filter foreign rs) ++ (SetTenant name <$> filter unowned rs).
Definition gone (rs : list Resource) (all : list Resource) : list Resource :=
  filter (λ r, existsb (same_resource r) (own_list rs) = false)
    (filter (λ r, is_kind k r = true ∧ indexed (tenant_index k) name (object_of r)) all).

Lemma own_resources_run t nss :
  Tenant_Name t = name →
  getNamespacesForSelectorSlice (TenantSpec_SubscriptionNamespaceSelectors (Tenant_Spec t)) w = (w, Ok nss) →
  let rs := listed_in nss (cl_resources w) in
  own_resources k t w =
    (map_resources (sent (own_updates rs ++ (SetTenant "" <$> gone rs (sent (own_updates rs) <$> cl_resources w)))) w,
     Ok (own_list rs)).
Proof.
  intros Hn Hns rs. unfold own_resources, try at 1, wrapM at 1, bind at 1 2, GetResourceOwnedByTenant.
  unfold try at 1, wrapM at 1, bind at 1 2. rewrite Hns. cbn [wrap ret]. rewrite Hk. cbn [negb].
  unfold try at 1, bind at 1. rewrite loop_list. cbn [app]. fold rs. unfold bind at 1. rewrite Hn, foreach_classify.
  cbn [wrap ret fst snd]. unfold bind at 1. rewrite adopt_run by done. cbn [fst snd].
  unfold try at 1, wrapM at 1, bind at 1 2, GetResourcesReferencingTenantButNotSelected. rewrite Hk. cbn [negb].
  unfold try at 1, wrapM at 1, bind at 1 2. rewrite Hn.
  set (w1 := map_resources _ (map_resources _ w)).
  change (list_or_empty (List_Resources_by_tenant k name) w1) with
    (w1, Ok (filter (λ r, is_kind k r = true ∧ indexed (tenant_index k) name (object_of r)) (cl_resources w1))).
  cbn [wrap ret]. unfold bind. rewrite disown_run by done. cbn [ret].
  unfold ret. f_equal. unfold w1. rewrite !map_resources_compose. apply map_resources_ext. intros r _. cbn [compose].
  unfold own_updates at 1. rewrite !sent_app. do 3 f_equal. unfold gone, own_list.
  cbn [cl_resources map_resources with_resources].
  assert (sent (SetTenant name <$> filter unowned rs) ∘ sent (ownership_conflict <$> filter foreign rs) <$> cl_resources w
    = sent (own_updates rs) <$> cl_resources w) as ->; [|done].
  apply list_fmap_ext. intros i x _. unfold own_updates. cbn. by rewrite sent_app.
Qed.
End Kind.
End Ownership.

(** * The same, object by object *)
Section OwnStep.
Context `{Platform}.

Lemma SetTenant_key n r : same_key (SetTenant n r) r.
Proof. by destruct r. Qed.

Lemma conflict_key r : same_key (ownership_conflict r) r.
Proof. by destruct r. Qed.

Lemma kept_key r : same_key (kept r) r.
Proof. apply receive_key. Qed.

Lemma same_key_kind k x y : same_key x y → is_kind k x = is_kind k y.
Proof. intros [E _]. by destruct k, x, y. Qed.

Lemma same_key_ns x y : same_key x y → GetNamespace x = GetNamespace y.
Proof. intros [_ [=]]. done. Qed.

Lemma same_key_name x y : same_key x y → GetName x = GetName y.
Proof. intros [_ [=]]. done. Qed.

Lemma SetTenant_same r : SetTenant (GetTenant r) r = r.
Proof. by destruct r as [[? ? ? []]|[? ? ? []]]. Qed.

Lemma receive_SetTenant n r : resource_kept r → receive_Resource (SetTenant n r) r = SetTenant n r.
Proof.
  destruct r as [[? ? ? []]|[? ? ? []]]; cbn; rewrite !stored_normal; cbn; intros [=];
    repeat match goal with E : renil _ = _ |- _ => rewrite E; clear E end; reflexivity.
Qed.

Lemma receive_conflict r : receive_Resource (ownership_conflict r) r = kept (ownership_conflict r).
Proof. by destruct r as [[? ? ? []]|[? ? ? []]]. Qed.

Lemma GetTenant_conflict r : GetTenant (kept (ownership_conflict r)) = GetTenant r.
Proof. destruct r as [[? ? ? []]|[? ? ? []]]; cbn; by rewrite stored_normal. Qed.

Context (name : string) (Hname : name ≠ "") (sel : string → bool) (nss : list string).
Context (Hsel : ∀ ns, ns ∈ nss ↔ sel ns = true) (k : ResourceKind).
Context (R : list Resource) (Hkeys : NoDup (resource_key <$> R)) (Hkept : ∀ r, r ∈ R → resource_kept r).

Lemma unique_resource x y : x ∈ R → y ∈ R → same_key x y → x = y.
Proof.
  intros Hx Hy [Hk Hr]. apply (NoDup_key _ _ _ _ Hkeys Hx Hy). unfold resource_key. rewrite Hr. f_equal. by destruct x, y.
Qed.

Let rs := listed_in k nss R.

Lemma elem_of_listed x : x ∈ rs ↔ x ∈ R ∧ is_kind k x = true ∧ sel (GetNamespace x) = true.
Proof.
  unfold rs, listed_in. rewrite list_elem_of_bind. setoid_rewrite list_elem_of_filter. setoid_rewrite Hsel. naive_solver.
Qed.

Definition own_step (y : Resource) : Resource :=
  if is_kind k y then
    if sel (GetNamespace y) then
      if free_for name y then SetTenant name y else kept (ownership_conflict y)
    else if bool_decide (GetTenant y = name) then SetTenant "" y else y
  else y.

(** After marking and adopting, before giving up *)
Definition mark_step (y : Resource) : Resource :=
  if is_kind k y && sel (GetNamespace y) then
    if free_for name y then SetTenant name y else kept (ownership_conflict y)
  else y.

Lemma free_for_iff y : free_for name y = true ↔ ¬ foreign name y.
Proof.
  unfold free_for, foreign. rewrite orb_true_iff, !bool_decide_eq_true. 
  destruct (decide (GetTenant y = "")), (decide (GetTenant y = name)); tauto.
Qed.

Lemma sent_updates_exact y : y ∈ R → sent (own_updates name rs) y = mark_step y.
Proof.
  intros Hy. unfold mark_step, own_updates.
  assert (∀ x, x ∈ rs → same_key x y → x = y) as Huniq by (intros x [Hx _]%elem_of_listed; by apply unique_resource).
  destruct (is_kind k y && sel (GetNamespace y)) eqn:Eks.
  2:{ apply sent_miss. intros x Hx Hxy. apply elem_of_app in Hx.
    assert (∃ r, r ∈ rs ∧ same_key r y) as (r & Hr & Hry).
    { destruct Hx as [(r & -> & Hr)%list_elem_of_fmap|(r & -> & Hr)%list_elem_of_fmap];
        apply list_elem_of_filter in Hr as [_ Hr]; exists r; (split; [done|]).
      - etrans; [symmetry; apply conflict_key|exact Hxy].
      - etrans; [symmetry; apply SetTenant_key|exact Hxy]. }
    apply (Huniq r Hr) in Hry as ->. apply elem_of_listed in Hr as (_ & Ek & Es). by rewrite Ek, Es in Eks. }
  apply andb_true_iff in Eks as [Ek Es]. assert (y ∈ rs) as Hrs by (by apply elem_of_listed).
  destruct (free_for name y) eqn:Ef.
  - apply free_for_iff in Ef. destruct (decide (GetTenant y = "")) as [Et|Et].
    + rewrite sent_app. rewrite (sent_miss (ownership_conflict <$> _)).
      2:{ intros x (r & -> & [Hf Hr]%list_elem_of_filter)%list_elem_of_fmap Hxy.
        rewrite (Huniq r) in Hf; [done|done|]. etrans; [|exact Hxy]. symmetry. apply conflict_key. }
      rewrite (sent_hit _ (SetTenant name y)).
      * by apply receive_SetTenant, Hkept.
      * apply list_elem_of_fmap_2, list_elem_of_filter. by split.
      * apply SetTenant_key.
      * intros x (r & -> & [_ Hr]%list_elem_of_filter)%list_elem_of_fmap Hxy. f_equal. apply Huniq; [done|].
        etrans; [|exact Hxy]. symmetry. apply SetTenant_key.
    + assert (GetTenant y = name) as <-.
      { destruct (decide (GetTenant y = name)) as [E|E]; [exact E|]. destruct Ef. by split. }
      rewrite SetTenant_same. apply sent_miss. intros x Hx Hxy. apply elem_of_app in Hx as [Hx|Hx].
      * apply list_elem_of_fmap in Hx as (r & -> & [Hf Hr]%list_elem_of_filter).
        rewrite (Huniq r) in Hf; [by destruct Hf|done|]. etrans; [|exact Hxy]. symmetry. apply conflict_key.
      * apply list_elem_of_fmap in Hx as (r & -> & [Hf Hr]%list_elem_of_filter).
        rewrite (Huniq r) in Hf; [by destruct Et|done|]. etrans; [|exact Hxy]. symmetry. apply SetTenant_key.
  - assert (foreign name y) as Hf.
    { destruct (decide (foreign name y)) as [E|E]; [exact E|]. apply free_for_iff in E. congruence. }
    rewrite sent_app, (sent_hit (ownership_conflict <$> _) (ownership_conflict y)).
    + rewrite sent_miss; [apply receive_conflict|].
      intros x (r & -> & [Hu Hr]%list_elem_of_filter)%list_elem_of_fmap Hxy.
      rewrite (Huniq r) in Hu; [exact (proj1 Hf Hu)|done|].
      etrans; [symmetry; apply SetTenant_key|]. etrans; [exact Hxy|apply receive_key].
    + apply list_elem_of_fmap_2, list_elem_of_filter. by split.
    + apply conflict_key.
    + intros x (r & -> & [_ Hr]%list_elem_of_filter)%list_elem_of_fmap Hxy. f_equal. apply Huniq; [done|].
      etrans; [|exact Hxy]. symmetry. apply conflict_key.
Qed.

Lemma mark_step_key y : same_key (mark_step y) y.
Proof.
  unfold mark_step. destruct (_ && _); [|done]. destruct (free_for name y); [apply SetTenant_key|].
  etrans; [apply kept_key|apply conflict_key].
Qed.

Lemma own_list_selected x : x ∈ own_list name rs → sel (GetNamespace x) = true.
Proof.
  unfold own_list. intros [Hx|Hx]%elem_of_app.
  - apply list_elem_of_filter in Hx as [_ Hx]. by apply elem_of_listed in Hx as (_ & _ & ?).
  - apply list_elem_of_fmap in Hx as (r & -> & Hr). apply list_elem_of_filter in Hr as [_ Hr].
    rewrite (same_key_ns _ r) by apply SetTenant_key. by apply elem_of_listed in Hr as (_ & _ & ?).
Qed.

Lemma same_resource_iff x y : same_resource x y = true ↔ GetName x = GetName y ∧ GetNamespace x = GetNamespace y.
Proof. unfold same_resource. by rewrite andb_true_iff, !bool_decide_eq_true. Qed.

Lemma indexed_tenant x : is_kind k x = true → indexed (tenant_index k) name (object_of x) ↔ GetTenant x = name.
Proof.
  intros Ek. destruct k, x; try done; cbn [tenant_index object_of GetTenant];
    rewrite ?indexed_subscription, ?indexed_output; naive_solver.
Qed.

Lemma in_own_list y : y ∈ R → is_kind k y = true → sel (GetNamespace y) = true → free_for name y = true →
  SetTenant name y ∈ own_list name rs.
Proof.
  intros Hy Ek Es Ef. apply free_for_iff in Ef. assert (y ∈ rs) as Hrs by (by apply elem_of_listed).
  unfold own_list. destruct (decide (GetTenant y = "")) as [Et|Et].
  - apply elem_of_app. right. apply list_elem_of_fmap_2, list_elem_of_filter. by split.
  - apply elem_of_app. left. assert (GetTenant y = name) as Etn.
    { destruct (decide (GetTenant y = name)) as [E|E]; [exact E|]. destruct Ef. by split. }
    rewrite <- Etn, SetTenant_same at 1. apply list_elem_of_filter. by repeat split.
Qed.

(** What the tenant gives up is what it owned outside its namespaces. *)
Lemma elem_of_gone x : x ∈ gone name k rs (sent (own_updates name rs) <$> R) ↔
  x ∈ R ∧ is_kind k x = true ∧ sel (GetNamespace x) = false ∧ GetTenant x = name.
Proof.
  unfold gone. rewrite !list_elem_of_filter, list_elem_of_fmap. split.
  - intros (Hnot & (Ek & Hi) & y & -> & Hy). rewrite sent_updates_exact in * by done.
    assert (is_kind k y = true) as Eky by (by rewrite <- (same_key_kind k _ _ (mark_step_key y))).
    apply (indexed_tenant _ Ek) in Hi. unfold mark_step in *. rewrite Eky in *. cbn [andb] in *.
    destruct (sel (GetNamespace y)) eqn:Es; [|done]. exfalso.
    destruct (free_for name y) eqn:Ef.
    + apply not_true_iff_false in Hnot. apply Hnot, existsb_exists. exists (SetTenant name y).
      split; [by apply list_elem_of_In, in_own_list|]. by apply same_resource_iff.
    + rewrite GetTenant_conflict in Hi. unfold free_for in Ef. apply orb_false_iff in Ef as [_ Ef].
      by apply bool_decide_eq_false in Ef.
  - intros (Hx & Ek & Es & Et). split_and!; [|done|by apply indexed_tenant|exists x; split; [|done]].
    + apply not_true_iff_false. intros (z & Hz & Hxz)%existsb_exists. apply list_elem_of_In, own_list_selected in Hz.
      apply same_resource_iff in Hxz as [_ Ens]. congruence.
    + rewrite sent_updates_exact by done. unfold mark_step. by rewrite Es, andb_false_r.
Qed.

Lemma own_step_exact y : y ∈ R →
  sent (own_updates name rs ++ (SetTenant "" <$> gone name k rs (sent (own_updates name rs) <$> R))) y = own_step y.
Proof.
  intros Hy. rewrite sent_app, sent_updates_exact by done.
  assert (∀ x, x ∈ gone name k rs (sent (own_updates name rs) <$> R) → same_key (SetTenant "" x) (mark_step y) → x = y) as Hg.
  { intros x Hx Hxy. apply elem_of_gone in Hx as (Hx & _). apply unique_resource; [done..|].
    etrans; [symmetry; apply SetTenant_key|]. etrans; [exact Hxy|apply mark_step_key]. }
  destruct (is_kind k y && negb (sel (GetNamespace y)) && bool_decide (GetTenant y = name)) eqn:E.
  - apply andb_true_iff in E as [[Ek Es]%andb_true_iff Et]. apply negb_true_iff in Es.
    unfold own_step, mark_step in *. rewrite Ek, Es, Et in *. cbn [andb] in *.
    apply bool_decide_eq_true in Et.
    rewrite (sent_hit _ (SetTenant "" y)); [by apply receive_SetTenant, Hkept|..].
    + apply list_elem_of_fmap_2. by apply elem_of_gone.
    + apply SetTenant_key.
    + intros x (z & -> & Hz)%list_elem_of_fmap Hzy. f_equal. by apply Hg.
  - rewrite sent_miss.
    + unfold own_step, mark_step. destruct (is_kind k y); [|done].
      destruct (sel (GetNamespace y)); [done|]. cbn in E. by rewrite E.
    + intros x (z & -> & Hz)%list_elem_of_fmap Hzy. pose proof (Hg _ Hz Hzy) as ->.
      apply elem_of_gone in Hz as (_ & Ek & Es & Et). rewrite Ek, Es, Et, bool_decide_true in E by done. done.
Qed.

Lemma own_step_key y : same_key (own_step y) y.
Proof.
  unfold own_step. repeat case_match; try done; try apply SetTenant_key.
  etrans; [apply kept_key|apply conflict_key].
Qed.

Lemma own_step_kept y : resource_kept y → resource_kept (own_step y).
Proof.
  unfold own_step. destruct y as [[? ? ? []]|[? ? ? []]]; repeat case_match; try done; cbn;
    rewrite ?stored_normal; cbn; rewrite ?renil_renil; try done; intros [=];
    repeat match goal with E : renil _ = _ |- _ => rewrite E; clear E end; done.
Qed.
(** The tenant's resources, each with the tenant as its owner *)
Lemma own_list_perm : NoDup nss →
  own_list name rs ≡ₚ SetTenant name <$> filter (λ r, is_kind k r = true ∧ takes name sel r = true) R.
Proof.
  intros Hnd. assert (own_list name rs = SetTenant name <$> (filter (owned name) rs ++ filter unowned rs)) as ->.
  { unfold own_list. rewrite fmap_app. f_equal. rewrite <- (list_fmap_id (filter (owned name) rs)) at 1.
    apply Forall_fmap_ext, Forall_forall. intros x [[Ho _] _]%list_elem_of_filter. cbn. by rewrite <- Ho, SetTenant_same. }
  apply fmap_Permutation. assert (NoDup R) as HR by (by eapply NoDup_fmap_1).
  assert (NoDup rs) as Hrs.
  { unfold rs, listed_in. apply NoDup_bind; [|by intros; apply NoDup_filter|done].
    intros n1 n2 y _ _ [[_ <-] _]%list_elem_of_filter [[_ <-] _]%list_elem_of_filter. done. }
  apply NoDup_Permutation; [|by apply NoDup_filter|].
  - apply NoDup_app. split_and!; [by apply NoDup_filter| |by apply NoDup_filter].
    intros x [[_ Hne] _]%list_elem_of_filter [Hu _]%list_elem_of_filter. done.
  - intros x. rewrite elem_of_app, !list_elem_of_filter, elem_of_listed. unfold takes. rewrite andb_true_iff, free_for_iff.
    unfold owned, unowned, foreign. destruct (decide (GetTenant x = "")), (decide (GetTenant x = name)); naive_solver.
Qed.
End OwnStep.

(** * Validation *)
Section Validation.
Context `{Platform} (matches : selector → string → bool).
#[local] Existing Instance here.
Context (name : string) (w : cluster).

Lemma secret_found_frame o o' w' :
  Output_Spec o' = Output_Spec o → cl_secrets w' = cl_secrets w →
  secret_found matches w o → query_secret_error (Client0 := here matches) o' w' = (w', None).
Proof.
  unfold secret_found, query_secret_error, QueryOutputSecret, QueryOutputSecretWithData. intros -> Ew.
  destruct (OutputSpec_Authentication (Output_Spec o)) as [a|]; [|done]. cbn.
  destruct (auth_refs a) as [|[ref n] [|]]; cbn; unfold bind; cbn; [done| |done].
  rewrite Ew. by destruct (find_or _ _ _).
Qed.

(** Marking outputs as ready *)
Definition marks (refs : list NamespacedName) (y : Resource) : Resource :=
  match y with
  | ResOutput o => if bool_decide (Output_NamespacedName o ∈ refs) then ResOutput (ready_output name o) else y
  | _ => y
  end.

Definition mark_sub (s : Subscription) (y : Resource) : Resource :=
  match y with
  | ResSubscription y' =>
      if bool_decide (Subscription_NamespacedName y' = Subscription_NamespacedName s)
      then ResSubscription (Subscription_set_Status (Subscription_Status (ready_subscription name s)) y') else y
  | _ => y
  end.

Definition refs_of (s : Subscription) : list NamespacedName := elems (SubscriptionSpec_Outputs (Subscription_Spec s)).

Lemma marks_nil y : marks [] y = y.
Proof. destruct y; cbn; [done|]. by rewrite bool_decide_false by apply not_elem_of_nil. Qed.

Lemma marks_app l1 l2 y : marks (l1 ++ l2) y = marks l2 (marks l1 y).
Proof.
  destruct y as [|o]; cbn; [done|]. rewrite (bool_decide_ext _ _ (elem_of_app l1 l2 (Output_NamespacedName o))).
  destruct (decide (Output_NamespacedName o ∈ l1)) as [E1|E1].
  - rewrite (bool_decide_true (_ ∨ _)), (bool_decide_true (_ ∈ l1)) by tauto. cbn. by case_bool_decide.
  - rewrite (bool_decide_false (_ ∈ l1)) by done. cbn.
    by rewrite (bool_decide_ext (_ ∨ _) (Output_NamespacedName o ∈ l2)) by tauto.
Qed.

Lemma same_key_output o y : same_key (ResOutput o) y ↔
  ∃ o', y = ResOutput o' ∧ Output_NamespacedName o' = Output_NamespacedName o.
Proof.
  unfold same_key. destruct y as [s|o']; cbn; split; try by intros [? _].
  - by intros (? & ? & _).
  - intros [_ E]. exists o'. by split.
  - intros (? & [= <-] & E). by split.
Qed.

Lemma same_key_subscription s y : same_key (ResSubscription s) y ↔
  ∃ s', y = ResSubscription s' ∧ Subscription_NamespacedName s' = Subscription_NamespacedName s.
Proof.
  unfold same_key. destruct y as [s'|o]; cbn; split; try by intros [? _].
  - intros [_ E]. exists s'. by split.
  - intros (? & [= <-] & E). by split.
  - by intros (? & ? & _).
Qed.

Lemma upd_ready_output o y : OutputStatus_Tenant (Output_Status o) = name →
  upd (ResOutput (Output_SetState StateReady (ClearProblems o))) y = marks [Output_NamespacedName o] y.
Proof.
  intros Ht. set (x := ResOutput _). destruct (decide (same_key x y)) as [Hk|Hk].
  - rewrite upd_hit by done. apply same_key_output in Hk as (o' & -> & E). cbn.
    rewrite bool_decide_true by (rewrite list_elem_of_singleton; exact E). rewrite stored_normal. cbn. by rewrite Ht.
  - rewrite upd_miss by done. destruct y as [|o']; cbn; [done|].
    rewrite bool_decide_false; [done|]. rewrite list_elem_of_singleton. intros E. apply Hk, same_key_output. by exists o'.
Qed.

Lemma upd_judged s y : SubscriptionStatus_Tenant (Subscription_Status s) = name →
  upd (ResSubscription (judged s (append None (refs_of s)) [])) y = mark_sub s y.
Proof.
  intros Ht. set (x := ResSubscription _). destruct (decide (same_key x y)) as [Hk|Hk].
  - rewrite upd_hit by done. apply same_key_subscription in Hk as (s' & -> & E). unfold mark_sub.
    rewrite bool_decide_true by exact E. unfold x, judged, receive_Resource. do 2 f_equal. cbn. rewrite stored_normal. cbn. rewrite Ht.
    f_equal. unfold refs_of. by destruct (elems (SubscriptionSpec_Outputs (Subscription_Spec s))).
  - rewrite upd_miss by done. destruct y as [s'|]; cbn; [|done].
    rewrite bool_decide_false; [done|]. intros E. apply Hk, same_key_subscription. by exists s'.
Qed.

Lemma append_nil {A} (l : golist A) : append l [] = l.
Proof. destruct l; cbn; [by rewrite app_nil_r|done]. Qed.

Lemma append_cons {A} (l : golist A) x xs : append l (x :: xs) = append (append l [x]) xs.
Proof. destruct l, xs; cbn; rewrite <- ?app_assoc; done. Qed.

(** The outputs of the tenant's subscriptions are in the cache and valid. *)
Definition cache_valid (all : list NamespacedName) (c : output_cache) : Prop := ∀ ref, ref ∈ all →
  ∃ o, c !! ref = Some o ∧ Output_NamespacedName o = ref ∧ OutputStatus_Tenant (Output_Status o) = name ∧
       secret_found matches w o.

Lemma secret_found_spec o o' : Output_Spec o' = Output_Spec o → secret_found matches w o → secret_found matches w o'.
Proof. intros Es Hs. exact (f_equal snd (secret_found_frame o o' w Es eq_refl Hs)). Qed.

Context (all : list NamespacedName) (s : Subscription).
Context (Hs : SubscriptionStatus_Tenant (Subscription_Status s) = name).

(** The server still refuses nothing and has the same secrets. *)
Definition serves (w' : cluster) : Prop := cl_refuses w' = false ∧ cl_secrets w' = cl_secrets w.

Lemma validate_run ref c v i w' : serves w' → cache_valid all c → ref ∈ all →
  ∃ c', validate_output (Client0 := here matches) s ref (c, v, i) w' =
    (map_resources (marks [ref]) w', (c', append v [ref], i)) ∧ cache_valid all c'.
Proof.
  intros [Hr Hw] Hc Hin. destruct (Hc ref Hin) as (o & Eo & En & Et & Hsec). unfold validate_output. rewrite Eo, Et, Hs.
  rewrite bool_decide_true by done. cbn [negb orb]. unfold bind at 1. rewrite (secret_found_frame o) by done.
  cbn [is_nil negb]. unfold bind. rewrite update_resource by done. unfold ret.
  eexists. split.
  - f_equal. apply map_resources_ext. intros y _. rewrite <- En. by apply upd_ready_output.
  - intros ref' Hin'. destruct (decide (ref = ref')) as [<-|Hne].
    + rewrite lookup_insert_eq. eexists. split; [done|]. split_and!; [done|done|]. by apply (secret_found_spec o).
    + rewrite lookup_insert_ne by done. by apply Hc.
Qed.

Lemma validate_all_run refs c v i w' : serves w' → cache_valid all c → refs ⊆ all →
  ∃ c', foreach (validate_output (Client0 := here matches) s) refs (c, v, i) w' =
    (map_resources (marks refs) w', (c', append v refs, i)) ∧ cache_valid all c'.
Proof.
  revert c v w'. induction refs as [|ref refs IH]; intros c v w' Hw' Hc Hsub.
  - exists c. split; [|done]. cbn. rewrite append_nil, map_resources_id; [done|]. intros y _. apply marks_nil.
  - destruct (validate_run ref c v i w') as (c1 & E1 & Hc1); [done..|apply Hsub, list_elem_of_here|].
    destruct (IH c1 (append v [ref]) (map_resources (marks [ref]) w')) as (c2 & E2 & Hc2); [exact Hw'|done| |].
    { intros x Hx. by apply Hsub, list_elem_of_further. }
    exists c2. split; [|done]. cbn [foreach]. unfold bind. rewrite E1, E2, map_resources_compose, (append_cons v ref refs). f_equal.
    apply map_resources_ext. intros y _. cbn [compose]. by rewrite <- marks_app.
Qed.

Lemma judge_run c done w' : serves w' → cache_valid all c → refs_of s ⊆ all →
  ∃ c', judge (Client0 := here matches) s (c, done) w' =
    (map_resources (mark_sub s ∘ marks (refs_of s)) w', Ok (c', done ++ [judged s (append None (refs_of s)) []])) ∧
    cache_valid all c'.
Proof.
  intros Hw' Hc Hsub. destruct (validate_all_run (refs_of s) c None [] w') as (c' & E & Hc'); [done..|].
  exists c'. split; [|done]. unfold judge, bind at 1, ValidateSubscriptionReferencedOutputsWithCache.
  fold (refs_of s). rewrite E. unfold bind. rewrite update_resource by apply Hw'. unfold ret. f_equal.
  rewrite map_resources_compose. apply map_resources_ext. intros y _. cbn [compose]. by apply upd_judged.
Qed.
End Validation.

(** * The loop over the subscriptions *)
Section Judging.
Context `{Platform} (matches : selector → string → bool).
#[local] Existing Instance here.
Context (name : string) (w : cluster).

Definition judged_all (ss : list Subscription) (y : Resource) : Resource :=
  foldl (λ y s, mark_sub name s (marks name (refs_of s) y)) y ss.

Lemma judge_all_run all ss c done w' :
  (∀ s, s ∈ ss → SubscriptionStatus_Tenant (Subscription_Status s) = name ∧ refs_of s ⊆ all) →
  serves w w' → cache_valid matches name w all c →
  ∃ c', loop (judge (Client0 := here matches)) ss (c, done) w' =
    (map_resources (judged_all ss) w', Ok (c', done ++ ((λ s, judged s (append None (refs_of s)) []) <$> ss))).
Proof.
  revert c done w'. induction ss as [|s ss IH]; intros c done w' Hss Hw' Hc.
  - exists c. cbn. by rewrite app_nil_r, map_resources_id.
  - destruct (Hss s (list_elem_of_here _ _)) as [Hs Hrefs].
    destruct (judge_run matches name w all s Hs c done w') as (c1 & E1 & Hc1); [done..|].
    destruct (IH c1 (done ++ [judged s (append None (refs_of s)) []])
      (map_resources (mark_sub name s ∘ marks name (refs_of s)) w')) as (c2 & E2); [|exact Hw'|done|].
    { intros s' Hs'. by apply Hss, list_elem_of_further. }
    exists c2. cbn [loop]. unfold try, bind. rewrite E1, E2, map_resources_compose, <- app_assoc. done.
Qed.

Lemma judged_all_output ss o : judged_all ss (ResOutput o) = marks name (ss ≫= refs_of) (ResOutput o).
Proof.
  revert o. induction ss as [|s ss IH]; intros o; [symmetry; apply marks_nil|].
  cbn [judged_all foldl mbind list_bind]. rewrite marks_app.
  assert (∃ o', marks name (refs_of s) (ResOutput o) = ResOutput o') as [o' ->]; [|apply IH].
  cbn. case_bool_decide; eauto.
Qed.

Lemma judged_all_subscription ss y :
  (∀ s, s ∈ ss → Subscription_NamespacedName s = Subscription_NamespacedName y → Subscription_Spec s = Subscription_Spec y) →
  judged_all ss (ResSubscription y) =
    if bool_decide (Subscription_NamespacedName y ∈ Subscription_NamespacedName <$> ss)
    then ResSubscription (ready_subscription name y) else ResSubscription y.
Proof.
  revert y. induction ss as [|s ss IH]; intros y Hss.
  - by rewrite bool_decide_false by apply not_elem_of_nil.
  - cbn [judged_all foldl marks mark_sub fmap list_fmap].
    rewrite (bool_decide_ext _ _ (elem_of_cons _ _ _)).
    assert (∀ s', s' ∈ ss → Subscription_NamespacedName s' = Subscription_NamespacedName y →
      Subscription_Spec s' = Subscription_Spec y) as Hss' by (intros s' Hs'; by apply Hss, list_elem_of_further).
    destruct (decide (Subscription_NamespacedName y = Subscription_NamespacedName s)) as [E|E].
    + rewrite !(bool_decide_true (Subscription_NamespacedName y = _)), (bool_decide_true (_ ∨ _)) by (by left || done).
      pose proof (Hss s (list_elem_of_here _ _) (eq_sym E)) as Espec.
      assert (Subscription_set_Status (Subscription_Status (ready_subscription name s)) y = ready_subscription name y) as ->.
      { unfold ready_subscription. cbn. by rewrite Espec. }
      change (foldl _ ?z ss) with (judged_all ss z). rewrite IH by done. by case_bool_decide.
    + rewrite (bool_decide_false (Subscription_NamespacedName y = _)) by done.
      change (foldl _ ?z ss) with (judged_all ss z). rewrite IH by done.
      rewrite (bool_decide_ext (_ ∨ _) (Subscription_NamespacedName y ∈ Subscription_NamespacedName <$> ss)); [done|].
      tauto.
Qed.

(** * Lists of one type *)
Lemma concrete_list {A} (as_T : Resource → option A) text i rs :
  (∀ r, r ∈ rs → is_Some (as_T r)) → concrete_from as_T text i rs = Ok (omap as_T rs).
Proof.
  intros Hrs. apply concrete_from_Ok. induction rs as [|r rs IH]; cbn; [done|].
  destruct (Hrs r (list_elem_of_here _ _)) as [a Ea]. rewrite Ea. cbn. rewrite IH; [done|].
  intros r' Hr'. by apply Hrs, list_elem_of_further.
Qed.

Lemma cache_of_lookup os o : NoDup (Output_NamespacedName <$> os) → o ∈ os → cache_of os !! Output_NamespacedName o = Some o.
Proof.
  intros Hnd Ho. unfold cache_of. apply insert_all_lookup.
  - apply list_elem_of_fmap. by exists o.
  - intros o' (o'' & Ep & Ho'')%list_elem_of_fmap.
    pose proof (f_equal fst Ep : Output_NamespacedName o = Output_NamespacedName o'') as E.
    pose proof (f_equal snd Ep : o' = o'') as ->. clear Ep.
    by apply (NoDup_key _ _ _ _ Hnd).
Qed.
End Judging.

(** * Namespaces *)
Section Namespaces.
Context `{Platform} (matches : selector → string → bool).
#[local] Existing Instance here.

Definition found_by (nss : list string) (ls : label_selector) : list string :=
  match LabelSelectorAsSelector ls with
  | Ok sel => filter (λ n, matches sel n = true) nss
  | Err _ => []
  end.

Definition namespaces_for (selectors : list label_selector) (nss : list string) : list string :=
  normalizeNamespaceSlice (selectors ≫= found_by nss).

Lemma loop_namespaces_run selectors acc w : valid_selectors selectors →
  loop (namespaces_of_selector (Client0 := here matches)) selectors acc w =
    (w, Ok (acc ++ (selectors ≫= found_by (cl_namespaces w)))).
Proof.
  revert acc. induction selectors as [|ls sels IH]; intros acc Hv; [cbn; by rewrite app_nil_r|].
  destruct (Hv ls (list_elem_of_here _ _)) as [sel Esel].
  cbn [loop mbind list_bind]. unfold try, bind.
  assert (namespaces_of_selector (Client0 := here matches) ls acc w = (w, Ok (acc ++ found_by (cl_namespaces w) ls))) as ->.
  { unfold namespaces_of_selector, found_by. by rewrite Esel. }
  rewrite IH, <- app_assoc; [done|]. intros l Hl. by apply Hv, list_elem_of_further.
Qed.

Lemma namespaces_run selectors w : valid_selectors selectors →
  getNamespacesForSelectorSlice (Client0 := here matches) selectors w = (w, Ok (namespaces_for selectors (cl_namespaces w))).
Proof.
  intros Hv. unfold getNamespacesForSelectorSlice, try at 1, bind. by rewrite loop_namespaces_run.
Qed.

Lemma elem_of_namespaces_for selectors nss n :
  n ∈ namespaces_for selectors nss ↔ selects matches selectors n = true ∧ n ∈ nss.
Proof.
  unfold namespaces_for, selects. destruct (NormalizeStringSlice_spec (selectors ≫= found_by nss)) as (_ & _ & Hin).
  etrans; [apply Hin|]. rewrite list_elem_of_bind, existsb_exists. unfold found_by. split.
  - intros (ls & Hn & Hls). destruct (LabelSelectorAsSelector ls) eqn:E; [|by apply not_elem_of_nil in Hn].
    apply list_elem_of_filter in Hn as [Hm Hn]. split; [|done]. exists ls. rewrite <- list_elem_of_In, E. by split.
  - intros [(ls & Hls%list_elem_of_In & Hm) Hn]. exists ls. split; [|done].
    destruct (LabelSelectorAsSelector ls); [|done]. by apply list_elem_of_filter.
Qed.

Lemma namespaces_for_nodup selectors nss : NoDup (namespaces_for selectors nss).
Proof. apply (NormalizeStringSlice_spec (selectors ≫= found_by nss)). Qed.
End Namespaces.

Lemma find_first_None {A} (f : A → bool) l : (∀ x, x ∈ l → f x = false) → find_first f l = None.
Proof.
  induction l as [|x l IH]; intros Hl; cbn; [done|]. rewrite Hl by apply list_elem_of_here.
  apply IH. intros y Hy. by apply Hl, list_elem_of_further.
Qed.

Lemma filter_fmap_frame {A} (P : A → Prop) `{∀ x, Decision (P x)} (f : A → A) (l : list A) :
  (∀ x, P (f x) ↔ P x) → (∀ x, P x → f x = x) → filter P (f <$> l) = filter P l.
Proof.
  intros HP Hf. induction l as [|x l IH]; [done|]. cbn [fmap list_fmap]. rewrite !filter_cons, IH.
  destruct (decide (P x)) as [Hx|Hx].
  - rewrite decide_True by by apply HP. by rewrite Hf.
  - by rewrite decide_False by by rewrite HP.
Qed.

(** * The owned resources *)
Section OwnedRun.
Context `{Platform} (matches : selector → string → bool).
#[local] Existing Instance here.
Context (name : string) (w : cluster) (t : Tenant).
Context (Hh : healthy matches name w t) (Hw : well_kept w).
Let R := cl_resources w.
Let sel := collects matches w t.
Let nss := namespaces_for matches (TenantSpec_SubscriptionNamespaceSelectors (Tenant_Spec t)) (cl_namespaces w).

Lemma selected_iff n : n ∈ nss ↔ sel n = true.
Proof. unfold nss, sel, collects. by rewrite elem_of_namespaces_for, andb_true_iff, bool_decide_eq_true. Qed.

Lemma tenant_named : Tenant_Name t = name.
Proof. destruct Hh as [_ E _ _ _ _ _ _]. apply find_first_Some in E as [_ E]. by apply bool_decide_eq_true in E. Qed.

Definition taken_of (k : ResourceKind) (rs : list Resource) : list Resource :=
  filter (λ r, is_kind k r = true ∧ takes name sel r = true) rs.

(** One kind, from any state of the server with the same namespaces *)
Lemma own_kind_run t0 k w0 : name ≠ "" → valid_selectors (TenantSpec_SubscriptionNamespaceSelectors (Tenant_Spec t)) →
  Tenant_Name t0 = name → Tenant_Spec t0 = Tenant_Spec t → supported k = true →
  cl_refuses w0 = false → cl_namespaces w0 = cl_namespaces w →
  NoDup (resource_key <$> cl_resources w0) → (∀ r, r ∈ cl_resources w0 → resource_kept r) →
  ∃ rs, own_resources (Client0 := here matches) k t0 w0 = (map_resources (own_step name sel k) w0, Ok rs) ∧
    rs ≡ₚ SetTenant name <$> taken_of k (cl_resources w0).
Proof.
  intros Hne Hv Hn Hspec Hk Hr Ens Hkeys Hkept. exists (own_list name (listed_in k nss (cl_resources w0))). split.
  - rewrite (own_resources_run matches name w0 k Hk Hr t0 nss Hn).
    2:{ rewrite Hspec, namespaces_run by done. by rewrite Ens. }
    f_equal. apply map_resources_ext. intros y Hy. by apply (own_step_exact name Hne sel nss selected_iff).
  - apply (own_list_perm name Hne sel nss selected_iff k _ Hkeys), namespaces_for_nodup.
Qed.
(** The objects of the tenant, by kind *)
Lemma elem_of_taken k r rs : r ∈ taken_of k rs ↔ r ∈ rs ∧ is_kind k r = true ∧ takes name sel r = true.
Proof. unfold taken_of. rewrite list_elem_of_filter. tauto. Qed.

Lemma unique_here x y : x ∈ R → y ∈ R → same_key x y → x = y.
Proof. apply unique_resource, Hw. Qed.

Lemma taken_key_inj k x y : x ∈ taken_of k R → y ∈ taken_of k R →
  NamespacedName_String (ref_of x) = NamespacedName_String (ref_of y) → x = y.
Proof.
  intros (Hx & Kx & _)%elem_of_taken (Hy & Ky & _)%elem_of_taken E.
  apply (NoDup_key _ _ _ _ (kept_resource_names _ Hw) Hx Hy). unfold resource_key. rewrite E. by destruct k, x, y.
Qed.

Lemma ref_of_SetTenant n (rs : list Resource) : ref_of <$> (SetTenant n <$> rs) = ref_of <$> rs.
Proof. induction rs as [|r rs IH]; [done|]. cbn [fmap list_fmap]. rewrite IH. by destruct r. Qed.

(** The names in the status *)
Lemma subscription_names rs : rs ≡ₚ SetTenant name <$> taken_of KSubscription R →
  SortNamespacedNames (GetResourceNamesFromResource rs) =
  SortNamespacedNames (Subscription_NamespacedName <$> taken_subscriptions name sel R).
Proof.
  intros Hp. assert (Subscription_NamespacedName <$> taken_subscriptions name sel R = ref_of <$> taken_of KSubscription R) as ->.
  { unfold taken_subscriptions, taken_of. clear. induction R as [|r rs IH]; [done|].
    rewrite filter_cons. cbn [omap list_omap taken_subscription]. unfold taken_subscription at 1.
    destruct (takes name sel r); [|rewrite decide_False by naive_solver; exact IH].
    destruct r; cbn [as_Subscription is_kind]; [rewrite decide_True by done|rewrite decide_False by naive_solver; exact IH].
    exact (f_equal (cons (Subscription_NamespacedName s)) IH). }
  symmetry. apply sort_by_perm_eq.
  - intros x y (rx & -> & Hx)%list_elem_of_fmap (ry & -> & Hy)%list_elem_of_fmap E. f_equal. by eapply taken_key_inj.
  - change (GetResourceNamesFromResource rs) with (ref_of <$> rs). by rewrite Hp, ref_of_SetTenant.
Qed.

(** The outputs are valid. *)
Lemma outputs_not_failed rs : rs ≡ₚ SetTenant name <$> taken_of KOutput R → failed_resource rs = None.
Proof.
  intros Hp. unfold failed_resource. rewrite find_first_None; [done|]. intros x Hx. rewrite Hp in Hx.
  apply list_elem_of_fmap in Hx as (r & -> & (Hr & Kr & Tr)%elem_of_taken).
  apply bool_decide_eq_false. destruct r as [|o]; [done|]. exact (healthy_outputs _ _ _ _ Hh o Hr Tr).
Qed.

Lemma outputs_listed rs : rs ≡ₚ SetTenant name <$> taken_of KOutput R →
  ∃ os, GetConcreteTypeFromList as_Output "*v1alpha1.Output" rs = Ok os ∧ NoDup (Output_NamespacedName <$> os) ∧
    ∀ o, o ∈ os ↔ ∃ o0, ResOutput o0 ∈ taken_of KOutput R ∧ o = Output_SetTenant name o0.
Proof.
  intros Hp. exists (omap as_Output rs).
  assert (∀ x, x ∈ rs ↔ ∃ o, x = ResOutput (Output_SetTenant name o) ∧ ResOutput o ∈ taken_of KOutput R) as Hrs.
  { intros x. rewrite Hp, list_elem_of_fmap. split.
    - intros (r & -> & Hr). pose proof Hr as (_ & Kr & _)%elem_of_taken. destruct r as [|o]; [done|]. by exists o.
    - intros (o & -> & Ho). by exists (ResOutput o). }
  split_and!.
  - apply concrete_list. intros x (o & -> & _)%Hrs. by eexists.
  - assert (Output_NamespacedName <$> omap as_Output rs = ref_of <$> rs) as ->.
    { assert (∀ x, x ∈ rs → ∃ o, x = ResOutput o) as Ho by (intros x (o & -> & _)%Hrs; by eexists).
      clear Hp Hrs. induction rs as [|r rs IH]; [done|]. destruct (Ho r (list_elem_of_here _ _)) as (o' & ->).
      cbn. f_equal. apply IH. intros x Hx. by apply Ho, list_elem_of_further. }
    rewrite Hp, ref_of_SetTenant. apply NoDup_fmap_2_strong.
    + intros x y Hx Hy E. apply (taken_key_inj KOutput); [done..|]. by rewrite E.
    + apply NoDup_filter. eapply NoDup_fmap_1. apply (kept_resource_names _ Hw).
  - intros o. rewrite list_elem_of_omap. split.
    + intros (x & (o0 & -> & Ho)%Hrs & [= <-]). by exists o0.
    + intros (o0 & Ho & ->). exists (ResOutput (Output_SetTenant name o0)). split; [|done]. apply Hrs. by exists o0.
Qed.

Lemma outputs_cached rs : rs ≡ₚ SetTenant name <$> taken_of KOutput R →
  ∃ os, GetConcreteTypeFromList as_Output "*v1alpha1.Output" rs = Ok os ∧
    ∀ all, (∀ ref, ref ∈ all → referenced name sel R ref = true) → cache_valid matches name w all (cache_of os).
Proof.
  intros Hp. destruct (outputs_listed rs Hp) as (os & Eos & Hnd & Hos). exists os. split; [done|].
  intros all Hall ref Href. destruct (healthy_references _ _ _ _ Hh ref (Hall ref Href)) as (o & Ho & Eo & To & So).
  exists (Output_SetTenant name o). split_and!; [|exact Eo|done|by apply (secret_found_spec matches w o)].
  rewrite <- Eo. apply (cache_of_lookup _ (Output_SetTenant name o) Hnd), Hos. exists o. split; [by apply elem_of_taken|done].
Qed.

(** After the outputs, the subscriptions are as they were. *)
Lemma taken_after_outputs : taken_of KSubscription (own_step name sel KOutput <$> R) = taken_of KSubscription R.
Proof.
  apply filter_fmap_frame.
  - intros r. destruct r; [done|]. pose proof (own_step_key name sel KOutput (ResOutput o)) as Hk.
    rewrite (same_key_kind _ _ _ Hk). cbn. naive_solver.
  - intros r [Kr _]. by destruct r.
Qed.

(** The outputs first, then the subscriptions *)
Lemma both_kinds_run t0 : name ≠ "" → valid_selectors (TenantSpec_SubscriptionNamespaceSelectors (Tenant_Spec t)) →
  Tenant_Name t0 = name → Tenant_Spec t0 = Tenant_Spec t → cl_refuses w = false →
  let w1 := map_resources (own_step name sel KOutput) w in
  ∃ outs subs,
    own_resources (Client0 := here matches) KOutput t0 w = (w1, Ok outs) ∧ outs ≡ₚ SetTenant name <$> taken_of KOutput R ∧
    own_resources (Client0 := here matches) KSubscription t0 w1 = (map_resources (own_step name sel KSubscription) w1, Ok subs) ∧
    subs ≡ₚ SetTenant name <$> taken_of KSubscription R.
Proof.
  intros Hne Hv Hn Hspec Hr w1.
  destruct (own_kind_run t0 KOutput w) as (outs & Eo & Houts); [done..|apply Hw|apply Hw|].
  destruct (own_kind_run t0 KSubscription w1) as (subs & Es & Hsubs); [done..| | |].
  { unfold w1. cbn [cl_resources map_resources with_resources]. fold R.
    assert (resource_key <$> (own_step name sel KOutput <$> R) = resource_key <$> R) as ->; [|apply Hw].
    rewrite <- list_fmap_compose. apply list_fmap_ext. intros i y _. cbn.
    destruct (own_step_key name sel KOutput y) as [Kk Kr]. unfold resource_key. rewrite Kr. f_equal. by destruct (own_step _ _ _ y), y. }
  { intros r (y & -> & Hy)%list_elem_of_fmap. apply own_step_kept. by apply (kept_resources _ Hw). }
  exists outs, subs. split_and!; [done..|].
  rewrite Hsubs. unfold w1. cbn [cl_resources map_resources with_resources]. fold R. by rewrite taken_after_outputs.
Qed.

(** The subscriptions the loop goes through *)
Definition adopted (ss : list Subscription) : Prop :=
  ∀ s, s ∈ ss ↔ ∃ s0, ResSubscription s0 ∈ taken_of KSubscription R ∧ s = Subscription_SetTenant name s0.

Lemma subscriptions_listed rs : rs ≡ₚ SetTenant name <$> taken_of KSubscription R →
  ∃ ss, GetConcreteTypeFromList as_Subscription "*v1alpha1.Subscription" rs = Ok ss ∧ adopted ss.
Proof.
  intros Hp. exists (omap as_Subscription rs).
  assert (∀ x, x ∈ rs ↔ ∃ s0, ResSubscription s0 ∈ taken_of KSubscription R ∧ x = ResSubscription (Subscription_SetTenant name s0)) as Hrs.
  { intros x. rewrite Hp, list_elem_of_fmap. split.
    - intros (r & -> & Hr). pose proof Hr as (_ & Kr & _)%elem_of_taken. destruct r as [s0|]; [|done]. by exists s0.
    - intros (s0 & Hs0 & ->). by exists (ResSubscription s0). }
  split. { apply concrete_list. intros x Hx. apply Hrs in Hx as (s0 & _ & ->). by eexists. }
  intros s. rewrite list_elem_of_omap. split.
  - intros (x & (s0 & Hs0 & ->)%Hrs & [= <-]). by exists s0.
  - intros (s0 & Hs0 & ->). exists (ResSubscription (Subscription_SetTenant name s0)). split; [|done]. apply Hrs. by exists s0.
Qed.

Lemma adopted_refs ss ref : adopted ss → ref ∈ ss ≫= refs_of ↔ referenced name sel R ref = true.
Proof.
  intros Hss. rewrite list_elem_of_bind. unfold referenced. rewrite existsb_exists. split.
  - intros (s & Hr & (s0 & Hs0 & ->)%Hss). exists s0. rewrite bool_decide_eq_true. split; [|exact Hr].
    apply elem_of_taken in Hs0 as (H0 & _ & T0). apply list_elem_of_In, list_elem_of_omap.
    exists (ResSubscription s0). split; [done|]. unfold taken_subscription. by rewrite T0.
  - intros (s0 & Hs0%list_elem_of_In & Hr%bool_decide_eq_true).
    apply list_elem_of_omap in Hs0 as (r & Hr0 & Et). unfold taken_subscription in Et.
    destruct (takes name sel r) eqn:Tr; [|done]. destruct r as [s1|]; [|done]. injection Et as ->.
    exists (Subscription_SetTenant name s0). split; [exact Hr|]. apply Hss. exists s0. split; [|done]. by apply elem_of_taken.
Qed.

(** Object by object, the three phases make what [Settle] says. *)
Lemma phases_exact ss y : adopted ss → y ∈ R →
  judged_all name ss (own_step name sel KSubscription (own_step name sel KOutput y)) =
  settle_resource name sel (referenced name sel R) y.
Proof.
  intros Hss Hy. destruct y as [s|o].
  - change (own_step name sel KOutput (ResSubscription s)) with (ResSubscription s).
    assert (∃ s', own_step name sel KSubscription (ResSubscription s) = ResSubscription s' ∧
      Subscription_NamespacedName s' = Subscription_NamespacedName s ∧ Subscription_Spec s' = Subscription_Spec s) as (s' & Es' & En & Esp).
    { unfold own_step. cbn [is_kind]. repeat case_match; eexists; (split; [reflexivity|]); done. }
    rewrite Es', judged_all_subscription, En.
    2:{ intros s1 (s0 & H0 & ->)%Hss E. rewrite Esp. apply elem_of_taken in H0 as (H0 & _ & _).
      assert (ResSubscription s0 = ResSubscription s) as [= ->]; [|done].
      apply unique_here; [done..|]. split; [done|]. cbn. rewrite En in E. exact E. }
    assert (Subscription_NamespacedName s ∈ Subscription_NamespacedName <$> ss ↔ takes name sel (ResSubscription s) = true) as Hin.
    { rewrite list_elem_of_fmap. split.
      - intros (s1 & E & (s0 & H0 & ->)%Hss). apply elem_of_taken in H0 as (H0 & _ & T0).
        assert (ResSubscription s0 = ResSubscription s) as [= ->]; [|done].
        apply unique_here; [done..|]. split; [done|]. symmetry. exact E.
      - intros Ht. exists (Subscription_SetTenant name s). split; [done|]. apply Hss. exists s. split; [|done].
        by apply elem_of_taken. }
    rewrite (bool_decide_ext _ _ Hin). unfold own_step in Es'. cbn [is_kind] in Es'. unfold settle_resource, takes.
    destruct (sel _) eqn:Esel; cbn [andb].
    + destruct (free_for name (ResSubscription s)) eqn:Ef.
      * rewrite bool_decide_true by done. injection Es' as <-. done.
      * rewrite bool_decide_false by done. by rewrite <- Es'.
    + rewrite bool_decide_false by done. by rewrite <- Es'.
  - assert (∃ o', own_step name sel KOutput (ResOutput o) = ResOutput o' ∧
      Output_NamespacedName o' = Output_NamespacedName o ∧ Output_set_Status (Output_Status o) o' = o) as (o' & Eo' & En & Eset).
    { destruct o. unfold own_step. cbn [is_kind]. repeat case_match; eexists; (split; [reflexivity|]); done. }
    rewrite Eo'. change (own_step name sel KSubscription (ResOutput o')) with (ResOutput o').
    rewrite judged_all_output. cbn [marks]. rewrite En, (bool_decide_ext _ _ (adopted_refs ss (Output_NamespacedName o) Hss)).
    unfold settle_resource. unfold own_step in Eo'. cbn [is_kind] in Eo'.
    destruct (referenced name sel R (Output_NamespacedName o)) eqn:Eref.
    + rewrite bool_decide_true by done.
      destruct (healthy_references _ _ _ _ Hh _ Eref) as (o0 & H0 & E0 & T0 & _).
      assert (ResOutput o0 = ResOutput o) as [= ->] by (by apply unique_here).
      unfold takes in T0. fold sel in T0. apply andb_true_iff in T0 as [-> ->].
      f_equal. rewrite <- Eset. unfold ready_output. by destruct o'.
    + rewrite bool_decide_false by done. rewrite <- Eo'. repeat case_match; done.
Qed.

Lemma owned_run t0 : Tenant_Name t0 = name → Tenant_Spec t0 = Tenant_Spec t →
  handleOwnedResources (Client0 := here matches) t0 w =
    (map_resources (settle_resource name sel (referenced name sel R)) w,
     (Tenant_set_Subscriptions (Some (SortNamespacedNames
        (Subscription_NamespacedName <$> taken_subscriptions name sel R))) t0, None)).
Proof.
  intros Hn Hspec. unfold handleOwnedResources. unfold bind at 1. set (w1 := map_resources (own_step name sel KOutput) w).
  destruct (both_kinds_run t0) as (outs & subs & -> & Houts & Es & Hsubs'); [apply Hh|apply Hh|done|done|apply Hh|].
  rewrite outputs_not_failed by done. unfold bind at 1. fold w1. fold w1 in Es. rewrite Es.
  rewrite (subscription_names subs) by done.
  set (w2 := map_resources (own_step name sel KSubscription) w1).
  destruct (subscriptions_listed subs Hsubs') as (ss & Ess & Hss).
  destruct (outputs_cached outs Houts) as (os & Eos & Hcache).
  unfold validateSubscriptionOutputs, bind. rewrite !ToObject_id, Ess, Eos. unfold try at 1 2, bind at 1 2. cbn [wrap ret].
  destruct (judge_all_run matches name w (ss ≫= refs_of) ss (cache_of os) [] w2) as (c' & E).
  { intros s Hs. split; [by apply Hss in Hs as (s0 & _ & ->)|]. intros ref Hr. apply list_elem_of_bind. by exists s. }
  { split; [apply Hh|done]. }
  { apply Hcache. intros ref. by apply adopted_refs. }
  unfold ret at 1, try, bind. rewrite E. cbn [ret]. unfold ret. f_equal.
  - unfold w2, w1. rewrite !map_resources_compose. apply map_resources_ext. intros y Hy. cbn [compose]. by apply phases_exact.
  - f_equal. unfold failed_resource. rewrite find_first_None; [done|].
    intros x (s & -> & Hx)%list_elem_of_fmap. cbn in Hx. apply list_elem_of_fmap in Hx as (s0 & -> & _). done.
Qed.
End OwnedRun.

(** * Bridges *)
Section BridgesRun.
Context `{Platform} (matches : selector → string → bool).
#[local] Existing Instance here.
Context (name : string) (w : cluster) (t : Tenant).
Context (Hh : healthy matches name w t) (Hw : well_kept w).

Definition map_bridges (g : Bridge → Bridge) (w0 : cluster) : cluster :=
  mkCluster (cl_namespaces w0) (cl_tenants w0) (g <$> cl_bridges w0) (cl_collectors w0) (cl_resources w0)
    (cl_secrets w0) (cl_refuses w0).

Definition ready_bridge (b : Bridge) : Bridge := mkBridge (Bridge_Name b) (Bridge_Spec b) (mkBridgeStatus StateReady None 0).

Definition mark_bridges (names : list string) (y : Bridge) : Bridge :=
  if bool_decide (Bridge_Name y ∈ names) then ready_bridge y else y.

Definition my_bridges : list Bridge :=
  filter (λ b, BridgeSpec_SourceTenant (Bridge_Spec b) = name) (cl_bridges w)
  ++ filter (λ b, BridgeSpec_TargetTenant (Bridge_Spec b) = name) (cl_bridges w).

Lemma elem_of_my_bridges b : b ∈ my_bridges ↔ b ∈ cl_bridges w ∧ touches name b = true.
Proof.
  unfold my_bridges, touches. rewrite elem_of_app, !list_elem_of_filter, orb_true_iff, !bool_decide_eq_true. tauto.
Qed.

(** The objects the bridges are checked against *)
Definition same_bridges (w0 : cluster) : Prop := cl_refuses w0 = false ∧ cl_tenants w0 = cl_tenants w.

Lemma bridges_listed w0 : name ≠ "" → cl_bridges w0 = cl_bridges w →
  GetBridgesForTenant (Client0 := here matches) name w0 = (w0, Ok my_bridges).
Proof.
  intros Hne Eb. unfold GetBridgesForTenant, getBridges, try, list_or_empty, bind, ret. cbn. rewrite Eb. do 2 f_equal.
  unfold my_bridges. rewrite filter_app. f_equal.
  - rewrite list_filter_filter. apply list_filter_iff. intros b. rewrite indexed_source. unfold touches.
    rewrite orb_true_iff, !bool_decide_eq_true. tauto.
  - rewrite list_filter_filter. apply list_filter_iff. intros b. rewrite indexed_target. unfold touches.
    rewrite orb_true_iff, !bool_decide_eq_true. tauto.
Qed.

Lemma reference_valid b ref w0 : same_bridges w0 → is_Some (find_tenant w ref) →
  check_tenant_reference (Client0 := here matches) name b ref tt w0 = (w0, Ok tt).
Proof.
  intros [_ Et] [t' Ht']. unfold check_tenant_reference. destruct (decide (ref = name)) as [->|Hne].
  - by rewrite bool_decide_true.
  - rewrite bool_decide_false by done. cbn [negb]. unfold wrapM, getTenants, list_or_empty, try, bind. cbn. rewrite Et.
    apply find_first_Some in Ht' as [Hin Hn]. apply bool_decide_eq_true in Hn.
    assert (t' ∈ filter (λ t0, indexed tenant_name ref (ObjTenant t0)) (cl_tenants w)) as Hf
      by (by apply list_elem_of_filter; rewrite indexed_name).
    destruct (filter _ _); [by apply not_elem_of_nil in Hf|done].
Qed.

Lemma handle_bridge_run t0 b w0 : Tenant_Name t0 = name → b ∈ my_bridges → same_bridges w0 →
  handle_bridge (Client0 := here matches) t0 b tt w0 = (map_bridges (mark_bridges [Bridge_Name b]) w0, Ok tt).
Proof.
  intros Hn Hb Hw0. pose proof Hb as [Hin Ht]%elem_of_my_bridges.
  assert (∀ n, n ∈ [BridgeSpec_SourceTenant (Bridge_Spec b); BridgeSpec_TargetTenant (Bridge_Spec b)] →
    is_Some (find_tenant w n)) as Hends by (by apply (healthy_bridges _ _ _ _ Hh)).
  unfold handle_bridge. unfold bind at 1. rewrite Hn.
  assert (ValidateBridgeConnection (Client0 := here matches) name b w0 = (w0, Ok tt)) as ->.
  { unfold ValidateBridgeConnection. cbn [loop]. unfold try, bind.
    rewrite reference_valid by (try done; apply Hends, list_elem_of_here).
    rewrite reference_valid by (try done; apply Hends, list_elem_of_further, list_elem_of_here). done. }
  rewrite bool_decide_false.
  2:{ intros E. pose proof (kept_bridges _ Hw b Hin) as Hk. rewrite E in Hk. by destruct b as [? ? []]. }
  cbn [negb]. unfold bind. destruct Hw0 as [Hr _]. cbn. unfold update. rewrite Hr. unfold ret. f_equal.
  unfold map_bridges. rewrite Hr. f_equal. apply list_fmap_ext. intros i y _. unfold mark_bridges.
  rewrite (bool_decide_ext (Bridge_Name y ∈ [Bridge_Name b]) (Bridge_Name y = Bridge_Name b)) by apply list_elem_of_singleton.
  case_bool_decide; [|done]. unfold receive_Bridge, ready_bridge. by rewrite stored_normal.
Qed.

Lemma mark_bridges_app l1 l2 y : mark_bridges (l1 ++ l2) y = mark_bridges l2 (mark_bridges l1 y).
Proof.
  unfold mark_bridges. rewrite (bool_decide_ext _ _ (elem_of_app l1 l2 (Bridge_Name y))).
  destruct (decide (Bridge_Name y ∈ l1)) as [E|E].
  - rewrite (bool_decide_true (_ ∨ _)), (bool_decide_true (_ ∈ l1)) by tauto. cbn. by case_bool_decide.
  - rewrite (bool_decide_false (_ ∈ l1)) by done. by rewrite (bool_decide_ext (_ ∨ _) (Bridge_Name y ∈ l2)) by tauto.
Qed.

Lemma loop_bridges_run t0 bs w0 : Tenant_Name t0 = name → bs ⊆ my_bridges → same_bridges w0 →
  loop (handle_bridge (Client0 := here matches) t0) bs tt w0 = (map_bridges (mark_bridges (Bridge_Name <$> bs)) w0, Ok tt).
Proof.
  intros Hn. revert w0. induction bs as [|b bs IH]; intros w0 Hbs Hw0.
  - cbn. unfold ret. f_equal. destruct w0 as [? ? bs ? ? ? ?]. unfold map_bridges. cbn. f_equal.
    rewrite <- (list_fmap_id bs) at 1. apply list_fmap_ext. intros i y _. unfold mark_bridges.
    by rewrite bool_decide_false by apply not_elem_of_nil.
  - cbn [loop]. unfold try, bind. rewrite handle_bridge_run by (try done; apply Hbs, list_elem_of_here).
    rewrite IH; [|intros x Hx; by apply Hbs, list_elem_of_further|done].
    f_equal. unfold map_bridges. cbn [cl_bridges]. f_equal. rewrite <- list_fmap_compose. apply list_fmap_ext.
    intros i y _. cbn [compose]. by rewrite <- mark_bridges_app.
Qed.

Lemma bridges_run t0 w0 : Tenant_Name t0 = name → same_bridges w0 → cl_bridges w0 = cl_bridges w →
  handleBridgeResources (Client0 := here matches) t0 w0 =
    (map_bridges (settle_bridge name) w0,
     (Tenant_set_ConnectedBridges (Some (sort_strings (bridge_names name (cl_bridges w)))) t0, None)).
Proof.
  intros Hn Hw0 Eb. unfold handleBridgeResources. unfold bind at 1. rewrite Hn, bridges_listed by (done || apply Hh).
  unfold bind. rewrite loop_bridges_run by done. unfold ret. f_equal.
  - unfold map_bridges. f_equal. rewrite Eb. apply Forall_fmap_ext, Forall_forall. intros y Hy.
    unfold mark_bridges, settle_bridge.
    assert (Bridge_Name y ∈ Bridge_Name <$> my_bridges ↔ touches name y = true) as Hin.
    { rewrite list_elem_of_fmap. split; [|intros Ht; exists y; split; [done|by apply elem_of_my_bridges]].
      intros (b & E & [Hb Ht]%elem_of_my_bridges). by rewrite (NoDup_key _ _ _ _ (kept_bridge_names _ Hw) Hy Hb E). }
    rewrite (bool_decide_ext _ _ Hin). destruct (touches name y); [by rewrite bool_decide_true|by rewrite bool_decide_false].
Qed.
End BridgesRun.

(** * The reconciliation *)
Section ReconcileRun.
Context `{Platform} (matches : selector → string → bool).
#[local] Existing Instance here.

Lemma log_sources_run t w : valid_selectors (TenantSpec_LogSourceNamespaceSelectors (Tenant_Spec t)) →
  NoDup (cl_namespaces w) →
  handleLogSourceNamespaces (Client0 := here matches) t w =
    (w, (Tenant_set_LogSourceNamespaces (Some (sort_strings
       (filter (λ ns, selects matches (TenantSpec_LogSourceNamespaceSelectors (Tenant_Spec t)) ns = true) (cl_namespaces w)))) t, None)).
Proof.
  intros Hv Hnd. unfold handleLogSourceNamespaces, GetLogsourceNamespaceNamesForTenant, bind.
  rewrite namespaces_run by done. unfold ret. do 4 f_equal. apply sort_strings_perm_eq.
  apply NoDup_Permutation; [apply namespaces_for_nodup|by apply NoDup_filter|].
  intros n. by rewrite elem_of_namespaces_for, list_elem_of_filter.
Qed.

(** The reconciliation of a healthy tenant settles it. *)
Lemma reconcile_settles name w t : healthy matches name w t → well_kept w →
  Reconcile_Tenant (Client0 := here matches) name w = (settle matches name w, None).
Proof.
  intros Hh Hw. unfold Reconcile_Tenant. unfold bind at 1.
  assert (Get_Tenant name w = (w, Ok t)) as ->.
  { pose proof (healthy_tenant _ _ _ _ Hh) as Et. cbn. unfold look, find_or. unfold find_tenant in Et. by rewrite Et. }
  pose proof (tenant_named matches name w t Hh) as Hn.
  unfold tenant_steps. cbn [run_steps]. unfold bind at 1. rewrite log_sources_run by apply Hh || apply Hw. cbn [fst snd].
  unfold bind at 1. rewrite (owned_run matches name w t Hh Hw) by done. cbn [fst snd].
  unfold bind at 1. rewrite (bridges_run matches name w t Hh Hw); [|done|split; [apply Hh|done]|done]. cbn [fst snd].
  unfold finish. rewrite bool_decide_false.
  2:{ intros E. assert (normal (Tenant_Status t) = Tenant_Status t) as Hk.
      { apply (kept_tenants _ Hw). by apply (find_first_Some _ _ _ (healthy_tenant _ _ _ _ Hh)). }
      rewrite E in Hk. injection Hk. by destruct t as [? ? []]. }
  cbn [negb]. unfold bind. unfold settle. rewrite (healthy_tenant _ _ _ _ Hh).
  cbn. unfold update. cbn [cl_refuses map_bridges map_resources with_resources]. rewrite (healthy_server _ _ _ _ Hh).
  unfold ret. f_equal. unfold map_bridges, map_resources, with_resources. cbn. f_equal.
  apply list_fmap_ext. intros i y _. rewrite Hn. case_bool_decide; [|done]. unfold receive_Tenant. f_equal.
  rewrite stored_normal. unfold settled_status. rewrite Hn. done.
Qed.
End ReconcileRun.
