(* ===== verification/ConvergeSpec.v ===== *)
(** What the reconciliations of the tenants settle to: a healthy tenant is
    settled by one reconciliation and stays as it is; several tenants settle in
    one round, in any order, when no resource is in a namespace that two of them
    select; and they never settle when one is. *)
From S2P Require Import Prelude Strs Json Errors ApiOtlp ApiOutput ApiTypes Persist Kube Watches Cluster Utils Relations.
From S2P Require Import Samples TenantManager RouteController TenantSpec TenantBehaviour Settle SettleRun.

(** * What settling keeps *)
Section Keeps.
Context `{Platform}.
Implicit Types (r : Resource) (b : Bridge).

Lemma settle_resource_key name sel refd r : same_key (settle_resource name sel refd r) r.
Proof.
  unfold settle_resource. repeat case_match; try done; try apply SetTenant_key.
  etrans; [apply kept_key|apply conflict_key].
Qed.

Lemma settle_resource_ns name sel refd r : GetNamespace (settle_resource name sel refd r) = GetNamespace r.
Proof. apply same_key_ns, settle_resource_key. Qed.

(** The owner afterwards *)
Lemma settle_resource_tenant name sel refd r :
  GetTenant (settle_resource name sel refd r) =
    if sel (GetNamespace r) then if free_for name r then name else GetTenant r
    else if bool_decide (GetTenant r = name) then "" else GetTenant r.
Proof.
  unfold settle_resource. destruct (sel _).
  - destruct (free_for name r); [|by rewrite GetTenant_conflict]. destruct r; [done|]. by case_match.
  - case_bool_decide; [|done]. by destruct r.
Qed.

Lemma settle_resource_kept name sel refd r : resource_kept r → resource_kept (settle_resource name sel refd r).
Proof.
  unfold settle_resource. destruct r as [[? ? ? []]|[? ? ? []]]; repeat case_match; try done; cbn;
    rewrite ?stored_normal; cbn; rewrite ?renil_renil; try done; intros [=];
    repeat match goal with E : renil _ = _ |- _ => rewrite E; clear E end; done.
Qed.

Lemma free_for_iff_tenant name r : free_for name r = true ↔ GetTenant r = "" ∨ GetTenant r = name.
Proof. unfold free_for. by rewrite orb_true_iff, !bool_decide_eq_true. Qed.

(** A tenant takes the same resources afterwards. *)
Lemma takes_settled name sel refd r : name ≠ "" →
  takes name sel (settle_resource name sel refd r) = takes name sel r.
Proof.
  intros Hn. unfold takes. rewrite settle_resource_ns. destruct (sel (GetNamespace r)) eqn:Es; [|done]. cbn [andb].
  apply eq_true_iff_eq. rewrite !free_for_iff_tenant, settle_resource_tenant, Es.
  destruct (free_for name r) eqn:Ef; [apply free_for_iff_tenant in Ef; tauto|done].
Qed.

Lemma settle_resource_idemp name sel refd r : name ≠ "" →
  settle_resource name sel refd (settle_resource name sel refd r) = settle_resource name sel refd r.
Proof.
  intros Hn. pose proof (settle_resource_ns name sel refd r) as Ens. pose proof (takes_settled name sel refd r Hn) as Et.
  pose proof (settle_resource_tenant name sel refd r) as Eten.
  unfold settle_resource at 1. rewrite Ens. unfold takes in Et. rewrite Ens in Et.
  destruct (sel (GetNamespace r)) eqn:Es; cbn [andb] in Et.
  - rewrite Et. destruct (free_for name r) eqn:Ef.
    + unfold settle_resource. rewrite Es, Ef. destruct r as [s|o]; [done|].
      destruct (refd (Output_NamespacedName o)) eqn:Er; [|change (Output_NamespacedName (Output_SetTenant name o)) with (Output_NamespacedName o)];
        [change (Output_NamespacedName (ready_output name o)) with (Output_NamespacedName o)|]; by rewrite Er.
    + unfold settle_resource. rewrite Es, Ef. destruct r as [[? ? ? []]|[? ? ? []]]; cbn; rewrite !stored_normal; cbn;
        by rewrite ?renil_renil.
  - rewrite Eten. unfold settle_resource. rewrite Es. case_bool_decide as E.
    + by rewrite bool_decide_false.
    + by rewrite bool_decide_false.
Qed.

Lemma settle_bridge_idemp name b : settle_bridge name (settle_bridge name b) = settle_bridge name b.
Proof. unfold settle_bridge. destruct (touches name b) eqn:E; [|by rewrite E]. unfold touches in *. cbn. by rewrite E. Qed.

Lemma settle_bridge_spec name b : Bridge_Spec (settle_bridge name b) = Bridge_Spec b.
Proof. unfold settle_bridge. by destruct (touches name b). Qed.

Lemma settle_bridge_name name b : Bridge_Name (settle_bridge name b) = Bridge_Name b.
Proof. unfold settle_bridge. by destruct (touches name b). Qed.

Lemma touches_settled n name b : touches n (settle_bridge name b) = touches n b.
Proof. unfold touches. by rewrite settle_bridge_spec. Qed.

Lemma bridge_names_settled n name bs : bridge_names n (settle_bridge name <$> bs) = bridge_names n bs.
Proof.
  unfold bridge_names. rewrite !fmap_app. f_equal.
  - induction bs as [|b bs IH]; [done|]. cbn [fmap list_fmap]. rewrite !filter_cons, settle_bridge_spec.
    destruct (decide _); [|exact IH]. cbn [fmap list_fmap]. by rewrite settle_bridge_name, IH.
  - induction bs as [|b bs IH]; [done|]. cbn [fmap list_fmap]. rewrite !filter_cons, settle_bridge_spec.
    destruct (decide _); [|exact IH]. cbn [fmap list_fmap]. by rewrite settle_bridge_name, IH.
Qed.

(** The subscriptions taken, when every object keeps its place *)
Lemma taken_subscriptions_frame name sel (f : Resource → Resource) rs :
  (∀ r, r ∈ rs → takes name sel (f r) = takes name sel r) →
  (∀ s, ResSubscription s ∈ rs → ∃ s', f (ResSubscription s) = ResSubscription s' ∧ Subscription_Spec s' = Subscription_Spec s
     ∧ Subscription_NamespacedName s' = Subscription_NamespacedName s) →
  (∀ o, ∃ o', f (ResOutput o) = ResOutput o') →
  Forall2 (λ s' s, Subscription_Spec s' = Subscription_Spec s ∧ Subscription_NamespacedName s' = Subscription_NamespacedName s)
    (taken_subscriptions name sel (f <$> rs)) (taken_subscriptions name sel rs).
Proof.
  intros Ht Hs Ho. unfold taken_subscriptions. induction rs as [|r rs IH]; [constructor|].
  cbn [fmap list_fmap omap list_omap].
  assert (taken_subscription name sel (f r) = if takes name sel r then as_Subscription (f r) else None) as ->
    by (unfold taken_subscription; by rewrite Ht by apply list_elem_of_here).
  assert (taken_subscription name sel r = if takes name sel r then as_Subscription r else None) as -> by done.
  assert (Forall2 (λ s' s, Subscription_Spec s' = Subscription_Spec s ∧ Subscription_NamespacedName s' = Subscription_NamespacedName s)
    (omap (taken_subscription name sel) (f <$> rs)) (omap (taken_subscription name sel) rs)) as IH'.
  { apply IH; intros; [apply Ht|apply Hs]; by apply list_elem_of_further. }
  destruct (takes name sel r); [|exact IH']. destruct r as [s|o].
  - destruct (Hs s (list_elem_of_here _ _)) as (s' & -> & Hs'). by constructor.
  - destruct (Ho o) as [o' ->]. exact IH'.
Qed.

Lemma same_specs_referenced ss' ss ref :
  Forall2 (λ s' s, Subscription_Spec s' = Subscription_Spec s ∧ Subscription_NamespacedName s' = Subscription_NamespacedName s) ss' ss →
  existsb (λ s, bool_decide (ref ∈ elems (SubscriptionSpec_Outputs (Subscription_Spec s)))) ss' =
  existsb (λ s, bool_decide (ref ∈ elems (SubscriptionSpec_Outputs (Subscription_Spec s)))) ss.
Proof. induction 1 as [|s' s ss' ss [E _] _ IH]; cbn; [done|]. by rewrite E, IH. Qed.

Lemma same_specs_names (ss' ss : list Subscription) :
  Forall2 (λ s' s, Subscription_Spec s' = Subscription_Spec s ∧ Subscription_NamespacedName s' = Subscription_NamespacedName s) ss' ss →
  Subscription_NamespacedName <$> ss' = Subscription_NamespacedName <$> ss.
Proof. induction 1 as [|s' s ss' ss [_ E] _ IH]; [done|]. cbn [fmap list_fmap]. by rewrite E, IH. Qed.
End Keeps.

(** * Clusters after a tenant was settled *)
Section After.
Context `{Platform} (matches : selector → string → bool).

Lemma settle_subscription_shape name sel refd s :
  ∃ s', settle_resource name sel refd (ResSubscription s) = ResSubscription s' ∧
    Subscription_Spec s' = Subscription_Spec s ∧ Subscription_NamespacedName s' = Subscription_NamespacedName s.
Proof. unfold settle_resource. repeat case_match; eexists; (split; [reflexivity|]); done. Qed.

Lemma settle_output_shape name sel refd o :
  ∃ o', settle_resource name sel refd (ResOutput o) = ResOutput o' ∧
    Output_Spec o' = Output_Spec o ∧ Output_NamespacedName o' = Output_NamespacedName o.
Proof. unfold settle_resource. repeat case_match; eexists; (split; [reflexivity|]); done. Qed.

(** The tenant [b] is settled in [w]. *)
Context (b : string) (w : cluster) (tb : Tenant) (Hb : find_tenant w b = Some tb).
Let w' := settle matches b w.

Lemma settle_unfold : w' =
  mkCluster (cl_namespaces w)
    ((λ t', if bool_decide (Tenant_Name t' = b) then Tenant_set_Status (settled_status matches w tb) t' else t') <$> cl_tenants w)
    (settle_bridge b <$> cl_bridges w) (cl_collectors w)
    (settle_resource b (collects matches w tb) (referenced b (collects matches w tb) (cl_resources w)) <$> cl_resources w)
    (cl_secrets w) (cl_refuses w).
Proof. unfold w', settle. by rewrite Hb. Qed.

Lemma find_tenant_settled n :
  find_tenant w' n = (λ t, if bool_decide (n = b) then Tenant_set_Status (settled_status matches w tb) t else t) <$> find_tenant w n.
Proof.
  rewrite settle_unfold. unfold find_tenant. cbn [cl_tenants]. induction (cl_tenants w) as [|t ts IH]; [done|].
  cbn [fmap list_fmap find_first].
  assert (Tenant_Name (if bool_decide (Tenant_Name t = b) then Tenant_set_Status (settled_status matches w tb) t else t)
    = Tenant_Name t) as -> by by destruct (bool_decide (Tenant_Name t = b)).
  destruct (bool_decide (Tenant_Name t = n)) eqn:E; [|exact IH]. apply bool_decide_eq_true in E. by subst n.
Qed.

Lemma collects_settled t' t : Tenant_Spec t' = Tenant_Spec t → collects matches w' t' = collects matches w t.
Proof. intros E. rewrite settle_unfold. unfold collects. cbn [cl_namespaces]. by rewrite E. Qed.

Lemma well_kept_settled : well_kept w → well_kept w'.
Proof.
  intros Hw. rewrite settle_unfold. split; cbn [cl_namespaces cl_tenants cl_bridges cl_resources].
  - apply Hw.
  - rewrite <- list_fmap_compose.
    assert (Tenant_Name ∘ (λ t', if bool_decide (Tenant_Name t' = b) then Tenant_set_Status (settled_status matches w tb) t' else t')
      <$> cl_tenants w = Tenant_Name <$> cl_tenants w) as ->; [|apply Hw].
    apply list_fmap_ext. intros i t _. cbn. by case_bool_decide.
  - rewrite <- list_fmap_compose.
    assert (Bridge_Name ∘ settle_bridge b <$> cl_bridges w = Bridge_Name <$> cl_bridges w) as ->; [|apply Hw].
    apply list_fmap_ext. intros i y _. apply settle_bridge_name.
  - rewrite <- list_fmap_compose.
    set (f := settle_resource _ _ _). assert (resource_key ∘ f <$> cl_resources w = resource_key <$> cl_resources w) as ->; [|apply Hw].
    apply list_fmap_ext. intros i y _. cbn.
    destruct (settle_resource_key b (collects matches w tb) (referenced b (collects matches w tb) (cl_resources w)) y) as [Kk Kr].
    fold f in Kk, Kr. unfold resource_key. rewrite Kr. f_equal. by destruct (f y), y.
  - intros r (y & -> & Hy)%list_elem_of_fmap. by apply settle_resource_kept, Hw.
  - intros y (z & -> & Hz)%list_elem_of_fmap. unfold settle_bridge. destruct (touches b z); [done|by apply Hw].
  - intros t (z & -> & Hz)%list_elem_of_fmap. case_bool_decide; [|by apply Hw]. cbn. by rewrite !renil_renil.
Qed.

(** * Another tenant, or the same *)
Section Other.
Context (a : string) (ta ta' : Tenant) (Ha : find_tenant w a = Some ta) (Ha' : find_tenant w' a = Some ta').
Let sel := collects matches w ta.
Let f := settle_resource b (collects matches w tb) (referenced b (collects matches w tb) (cl_resources w)).

(** What [a] takes is not affected. *)
Context (Htakes : ∀ r, r ∈ cl_resources w → takes a sel (f r) = takes a sel r).

Lemma other_spec : Tenant_Spec ta' = Tenant_Spec ta.
Proof. rewrite find_tenant_settled, Ha in Ha'. cbn in Ha'. injection Ha' as <-. by case_bool_decide. Qed.

Lemma other_collects : collects matches w' ta' = sel.
Proof. apply collects_settled, other_spec. Qed.

Lemma other_taken : Forall2 (λ s' s, Subscription_Spec s' = Subscription_Spec s
      ∧ Subscription_NamespacedName s' = Subscription_NamespacedName s)
    (taken_subscriptions a sel (f <$> cl_resources w)) (taken_subscriptions a sel (cl_resources w)).
Proof.
  apply taken_subscriptions_frame; [done|intros s _; apply settle_subscription_shape|].
  intros o. destruct (settle_output_shape b (collects matches w tb) (referenced b (collects matches w tb) (cl_resources w)) o)
    as (o' & E & _). by exists o'.
Qed.

Lemma other_referenced ref : referenced a sel (f <$> cl_resources w) ref = referenced a sel (cl_resources w) ref.
Proof. apply same_specs_referenced, other_taken. Qed.

Lemma other_status : settled_status matches w' ta' = settled_status matches w ta.
Proof.
  unfold settled_status. rewrite other_collects.
  assert (Tenant_Name ta' = a) as ->.
  { apply find_first_Some in Ha' as [_ E]. by apply bool_decide_eq_true in E. }
  assert (Tenant_Name ta = a) as ->.
  { apply find_first_Some in Ha as [_ E]. by apply bool_decide_eq_true in E. }
  rewrite other_spec, settle_unfold. cbn [cl_namespaces cl_bridges cl_resources]. fold f.
  by rewrite (same_specs_names _ _ other_taken), bridge_names_settled.
Qed.

Lemma healthy_after : (∀ o, ResOutput o ∈ cl_resources w → takes a sel (ResOutput o) = true →
    ∀ o', f (ResOutput o) = ResOutput o' → OutputStatus_State (Output_Status o') ≠ StateFailed) →
  healthy matches a w ta → healthy matches a w' ta'.
Proof.
  intros Houts Hh. split.
  - apply Hh.
  - exact Ha'.
  - rewrite settle_unfold. apply Hh.
  - rewrite other_spec. apply Hh.
  - rewrite other_spec. apply Hh.
  - rewrite other_collects, settle_unfold. cbn [cl_resources]. fold f.
    intros o' (r & E & Hr)%list_elem_of_fmap Ht. symmetry in E. destruct r as [s|o].
    { destruct (settle_subscription_shape b (collects matches w tb) (referenced b (collects matches w tb) (cl_resources w)) s)
        as (s' & Es & _). unfold f in E. congruence. }
    apply (Houts o); [done| |done]. rewrite <- Htakes by done. by rewrite E.
  - rewrite other_collects. intros ref Href. rewrite settle_unfold in Href |- *. cbn [cl_resources] in Href |- *. fold f in Href |- *.
    rewrite other_referenced in Href. destruct (healthy_references _ _ _ _ Hh ref Href) as (o & Ho & Eo & To & So).
    destruct (settle_output_shape b (collects matches w tb) (referenced b (collects matches w tb) (cl_resources w)) o)
      as (o' & E & Esp & En). fold f in E. exists o'. split_and!.
    + rewrite <- E. by apply list_elem_of_fmap_2.
    + by rewrite En.
    + rewrite <- E. by rewrite Htakes.
    + assert (secret_found matches w o') as So' by (by apply (secret_found_spec matches w o)).
      exact (f_equal snd (secret_found_frame matches w o' o' (mkCluster (cl_namespaces w) _ _ (cl_collectors w) _ (cl_secrets w) (cl_refuses w)) eq_refl eq_refl So')).
  - intros br Hbr Ht n Hn. rewrite find_tenant_settled. apply fmap_is_Some.
    rewrite settle_unfold in Hbr. cbn [cl_bridges] in Hbr. apply list_elem_of_fmap in Hbr as (br0 & -> & Hbr0).
    rewrite touches_settled in Ht. rewrite settle_bridge_spec in Hn. by apply (healthy_bridges _ _ _ _ Hh br0).
Qed.
End Other.
End After.

(** * Clusters that a tenant leaves as they are *)
Section Fixpoints.
Context `{Platform} (matches : selector → string → bool).

Lemma settle_resource_ext name sel refd refd' r : (∀ ref, refd ref = refd' ref) →
  settle_resource name sel refd r = settle_resource name sel refd' r.
Proof. intros E. unfold settle_resource. repeat case_match; try done; congruence. Qed.

Lemma fmap_fixed {A} (f : A → A) (l : list A) : f <$> l = l ↔ ∀ x, x ∈ l → f x = x.
Proof.
  split.
  - intros E x Hx. apply list_elem_of_lookup in Hx as [i Hi]. pose proof Hi as Hf. rewrite <- E, list_lookup_fmap, Hi in Hf.
    by injection Hf.
  - intros Hf. rewrite <- (list_fmap_id l) at 2. by apply Forall_fmap_ext, Forall_forall.
Qed.

(** Object by object *)
Definition fixed (name : string) (w : cluster) (t : Tenant) : Prop :=
  (∀ r, r ∈ cl_resources w →
     settle_resource name (collects matches w t) (referenced name (collects matches w t) (cl_resources w)) r = r) ∧
  (∀ br, br ∈ cl_bridges w → settle_bridge name br = br) ∧
  (∀ t', t' ∈ cl_tenants w → Tenant_Name t' = name → Tenant_Status t' = settled_status matches w t).

Lemma settled_iff name w t : find_tenant w name = Some t → settle matches name w = w ↔ fixed name w t.
Proof.
  intros Ht. rewrite (settle_unfold matches name w t Ht). unfold fixed.
  rewrite <- !fmap_fixed. destruct w as [nss ts bs cs rs ss rf]; cbn [cl_namespaces cl_tenants cl_bridges cl_resources] in *.
  assert ((λ t', if bool_decide (Tenant_Name t' = name)
      then Tenant_set_Status (settled_status matches (mkCluster nss ts bs cs rs ss rf) t) t' else t') <$> ts = ts ↔
    ∀ t', t' ∈ ts → Tenant_Name t' = name → Tenant_Status t' = settled_status matches (mkCluster nss ts bs cs rs ss rf) t) as <-.
  { rewrite fmap_fixed. split.
    - intros Hf t' Hin En. specialize (Hf t' Hin). rewrite bool_decide_true in Hf by done. by rewrite <- Hf at 1.
    - intros Hf t' Hin. case_bool_decide as En; [|done]. rewrite <- (Hf t' Hin En). by destruct t'. }
  split; [intros [= ?? ?]; by split_and!|]. intros (E1 & E2 & E3). by f_equal.
Qed.

(** Settling twice is settling once. *)
Lemma settle_settles name w t t' : name ≠ "" → find_tenant w name = Some t → find_tenant (settle matches name w) name = Some t' →
  settle matches name (settle matches name w) = settle matches name w.
Proof.
  intros Hn Ht Ht'. apply (settled_iff name _ t'); [done|].
  assert (∀ r, r ∈ cl_resources w → takes name (collects matches w t)
    (settle_resource name (collects matches w t) (referenced name (collects matches w t) (cl_resources w)) r)
    = takes name (collects matches w t) r) as Htakes by (intros r _; by apply takes_settled).
  unfold fixed. rewrite (other_collects matches name w t Ht name t t' Ht Ht').
  rewrite (other_status matches name w t Ht name t t' Ht Ht' Htakes).
  rewrite (settle_unfold matches name w t Ht). cbn [cl_resources cl_bridges cl_tenants]. split_and!.
  - intros r (r0 & -> & Hr0)%list_elem_of_fmap. etrans; [|by apply settle_resource_idemp].
    apply settle_resource_ext. intros ref. by apply (other_referenced matches name w t name t Htakes).
  - intros br (br0 & -> & _)%list_elem_of_fmap. apply settle_bridge_idemp.
  - intros t0 (t1 & -> & _)%list_elem_of_fmap. by case_bool_decide.
Qed.
End Fixpoints.

(** * Several tenants *)
Section Group.
Context `{Platform} (matches : selector → string → bool).
#[local] Existing Instance here.

(** A tenant of the cluster selects the namespace of a resource. *)
Definition in_reach (w : cluster) (a : string) (r : Resource) : bool :=
  match find_tenant w a with Some t => collects matches w t (GetNamespace r) | None => false end.

Definition shared (w : cluster) (a b : string) (r : Resource) : Prop := in_reach w a r = true ∧ in_reach w b r = true.

(** Two tenants do not stand in each other's way: neither owns what only the
    other can reach, and what both can reach is a subscription that one of them
    owns. *)
Definition compatible_at (w : cluster) (a b : string) (r : Resource) : Prop :=
  (in_reach w a r = true → in_reach w b r = false → GetTenant r ≠ b) ∧
  (in_reach w b r = true → in_reach w a r = false → GetTenant r ≠ a) ∧
  (shared w a b r → is_kind KSubscription r = true ∧ (GetTenant r = a ∨ GetTenant r = b)).

Definition compatible (w : cluster) (a b : string) : Prop := ∀ r, r ∈ cl_resources w → compatible_at w a b r.

#[export] Instance shared_dec w a b r : Decision (shared w a b r).
Proof. unfold shared. apply _. Defined.
#[export] Instance compatible_at_dec w a b r : Decision (compatible_at w a b r).
Proof. unfold compatible_at. apply _. Defined.

Record group (names : list string) (w : cluster) : Prop := {
  group_kept : well_kept w;
  group_healthy : ∀ a, a ∈ names → ∃ t, healthy matches a w t;
  group_compatible : ∀ a b, a ∈ names → b ∈ names → a ≠ b → compatible w a b
}.

(** The tenants are reconciled one after the other. *)
Definition reconcile_all (schedule : list string) (w : cluster) : cluster :=
  foldl (λ w a, (Reconcile_Tenant (Client0 := here matches) a w).1) w schedule.

Section Step.
Context (b : string) (w : cluster) (tb : Tenant) (Hb : healthy matches b w tb) (Hw : well_kept w).
Let w' := settle matches b w.
Let f := settle_resource b (collects matches w tb) (referenced b (collects matches w tb) (cl_resources w)).

Lemma step_resources : cl_resources w' = f <$> cl_resources w.
Proof. unfold w'. by rewrite (settle_unfold matches b w tb (healthy_tenant _ _ _ _ Hb)). Qed.

Lemma in_reach_self r : in_reach w b r = collects matches w tb (GetNamespace r).
Proof. unfold in_reach. by rewrite (healthy_tenant _ _ _ _ Hb). Qed.

Lemma in_reach_step a r : in_reach w' a (f r) = in_reach w a r.
Proof.
  unfold in_reach, w'. rewrite (find_tenant_settled matches b w tb (healthy_tenant _ _ _ _ Hb)).
  destruct (find_tenant w a) as [t|]; [|done]. cbn. unfold f. rewrite settle_resource_ns.
  rewrite (collects_settled matches b w tb (healthy_tenant _ _ _ _ Hb) _ t); [done|]. by case_bool_decide.
Qed.

(** The owner of a resource after [b] was settled *)
Lemma step_tenant r : GetTenant (f r) =
  if in_reach w b r then if free_for b r then b else GetTenant r
  else if bool_decide (GetTenant r = b) then "" else GetTenant r.
Proof. unfold f. by rewrite settle_resource_tenant, in_reach_self. Qed.

Lemma step_compatible a c : a ≠ "" → c ≠ "" → compatible w a c → compatible w' a c.
Proof.
  intros Ha Hc Hac r' Hr'. rewrite step_resources in Hr'. apply list_elem_of_fmap in Hr' as (r & -> & Hr).
  destruct (Hac r Hr) as (H1 & H2 & H3). unfold compatible_at, shared. rewrite !in_reach_step, step_tenant.
  pose proof (healthy_name _ _ _ _ Hb) as Hnb.
  assert (is_kind KSubscription (f r) = is_kind KSubscription r) as -> by apply same_key_kind, settle_resource_key.
  split_and!.
  - intros Ea Ec. specialize (H1 Ea Ec). repeat case_match; try done; congruence.
  - intros Ec Ea. specialize (H2 Ec Ea). repeat case_match; try done; congruence.
  - intros [Ea Ec]. destruct (H3 (conj Ea Ec)) as [Hk Ht]. split; [done|].
    destruct (in_reach w b r) eqn:Eb.
    + destruct (free_for b r) eqn:Ef; [|done]. apply free_for_iff_tenant in Ef. destruct Ht, Ef; first [exfalso; congruence|left; congruence|right; congruence].
    + case_bool_decide as Et; [|done]. destruct Ht; congruence.
Qed.

Section Other.
Context (a : string) (ta ta' : Tenant) (Ha : healthy matches a w ta) (Ha' : find_tenant w' a = Some ta').
Context (Hab : a = b ∨ compatible w a b).

Lemma in_reach_other r : in_reach w a r = collects matches w ta (GetNamespace r).
Proof. unfold in_reach. by rewrite (healthy_tenant _ _ _ _ Ha). Qed.

Lemma step_takes r : r ∈ cl_resources w →
  takes a (collects matches w ta) (f r) = takes a (collects matches w ta) r.
Proof.
  intros Hr. destruct (decide (a = b)) as [->|Hne].
  { assert (ta = tb) as -> by (pose proof (healthy_tenant _ _ _ _ Ha); pose proof (healthy_tenant _ _ _ _ Hb); congruence).
    apply takes_settled, Hb. }
  destruct Hab as [?|Hc]; [done|]. destruct (Hc r Hr) as (H1 & _ & H3). unfold shared in H3.
  pose proof (healthy_name _ _ _ _ Hb) as Hnb. pose proof (healthy_name _ _ _ _ Ha) as Hna.
  unfold takes. unfold f at 1. rewrite settle_resource_ns, <- in_reach_other.
  destruct (in_reach w a r) eqn:Ea; [|done]. cbn [andb].
  apply eq_true_iff_eq. rewrite !free_for_iff_tenant, step_tenant.
  destruct (in_reach w b r) eqn:Eb.
  - destruct H3 as [_ Ht]; [done|]. destruct (free_for b r) eqn:Ef; [|done]. apply free_for_iff_tenant in Ef.
    assert (GetTenant r = b) as ->; [|done]. destruct Ht, Ef; congruence.
  - specialize (H1 eq_refl eq_refl). by rewrite bool_decide_false.
Qed.

Lemma step_outputs o o' : ResOutput o ∈ cl_resources w → takes a (collects matches w ta) (ResOutput o) = true →
  f (ResOutput o) = ResOutput o' → OutputStatus_State (Output_Status o') ≠ StateFailed.
Proof.
  intros Ho Ht. pose proof (healthy_outputs _ _ _ _ Ha o Ho Ht) as Hs. destruct (decide (a = b)) as [->|Hne].
  - unfold f, settle_resource. repeat case_match; intros E; try done; injection E as <-; try done.
    unfold takes in Ht. assert (ta = tb) as -> by (pose proof (healthy_tenant _ _ _ _ Ha); pose proof (healthy_tenant _ _ _ _ Hb); congruence).
    apply andb_true_iff in Ht as [_ Ht]. congruence.
  - destruct Hab as [?|Hc]; [done|]. destruct (Hc _ Ho) as (H1 & _ & H3).
    unfold takes in Ht. apply andb_true_iff in Ht as [Hr _]. rewrite <- in_reach_other in Hr.
    assert (in_reach w b (ResOutput o) = false) as Eb.
    { apply not_true_iff_false. intros Eb. by destruct H3. }
    unfold f, settle_resource. rewrite <- in_reach_self, Eb, bool_decide_false by by apply H1. by intros [= <-].
Qed.

Lemma step_healthy : healthy matches a w' ta'.
Proof.
  apply (healthy_after matches b w tb (healthy_tenant _ _ _ _ Hb) a ta ta' (healthy_tenant _ _ _ _ Ha) Ha').
  - apply step_takes.
  - intros o Ho Ht o'. by apply step_outputs.
  - done.
Qed.

(** Without a resource in the reach of both, what [a] has settled stays settled. *)
Lemma step_settled : a ≠ b → (∀ r, r ∈ cl_resources w → ¬ shared w a b r) →
  settle matches a w = w → settle matches a w' = w'.
Proof.
  intros Hne Hapart Hs. apply (settled_iff matches a w ta (healthy_tenant _ _ _ _ Ha)) in Hs as (Hr & Hbr & Ht).
  pose proof (healthy_name _ _ _ _ Ha) as Hna.
  destruct Hab as [?|Hc]; [done|]. apply (settled_iff matches a w' ta' Ha'). unfold fixed, w'.
  rewrite (other_collects matches b w tb (healthy_tenant _ _ _ _ Hb) a ta ta' (healthy_tenant _ _ _ _ Ha) Ha').
  rewrite (other_status matches b w tb (healthy_tenant _ _ _ _ Hb) a ta ta' (healthy_tenant _ _ _ _ Ha) Ha' step_takes).
  rewrite (settle_unfold matches b w tb (healthy_tenant _ _ _ _ Hb)). cbn [cl_resources cl_bridges cl_tenants]. split_and!.
  - intros r' (r & -> & Hin)%list_elem_of_fmap. fold f.
    rewrite (settle_resource_ext a _ _ (referenced a (collects matches w ta) (cl_resources w))).
    2:{ intros ref. by apply (other_referenced matches b w tb a ta step_takes). }
    destruct (Hc r Hin) as (H1 & H2 & _). specialize (Hr r Hin). specialize (Hapart r Hin). unfold shared in Hapart.
    destruct (in_reach w a r) eqn:Ea.
    + assert (in_reach w b r = false) as Eb by (apply not_true_iff_false; by intros ?; apply Hapart).
      assert (f r = r) as ->; [|done]. unfold f, settle_resource. rewrite <- in_reach_self, Eb, bool_decide_false; [done|by apply H1].
    + assert (GetTenant r ≠ a) as Hta.
      { intros E. unfold settle_resource in Hr. rewrite <- in_reach_other, Ea, bool_decide_true in Hr by done.
        apply (f_equal GetTenant) in Hr. rewrite GetTenant_SetTenant in Hr. congruence. }
      assert (GetTenant (f r) ≠ a) as Htf.
      { rewrite step_tenant. repeat case_match; congruence. }
      unfold settle_resource. unfold f at 1. rewrite settle_resource_ns, <- in_reach_other, Ea. by rewrite bool_decide_false.
  - intros br (br0 & -> & Hin)%list_elem_of_fmap. specialize (Hbr br0 Hin). unfold settle_bridge at 1.
    rewrite touches_settled. destruct (touches a br0) eqn:Et; [|done]. unfold settle_bridge in Hbr. rewrite Et in Hbr.
    rewrite settle_bridge_name, settle_bridge_spec. rewrite Hbr. unfold settle_bridge. destruct (touches b br0); [|done].
    rewrite <- Hbr. done.
  - intros t0 (t1 & -> & Hin)%list_elem_of_fmap. case_bool_decide as E; [cbn; congruence|]. by apply Ht.
Qed.
End Other.
End Step.

Lemma group_nonempty names w a : group names w → a ∈ names → a ≠ "".
Proof. intros Hg Ha. destruct (group_healthy _ _ Hg a Ha) as [t Ht]. by apply Ht. Qed.

Lemma found_after names w a b : group names w → a ∈ names → b ∈ names →
  is_Some (find_tenant (settle matches b w) a).
Proof.
  intros Hg Ha Hb. destruct (group_healthy _ _ Hg a Ha) as [ta Hta]. destruct (group_healthy _ _ Hg b Hb) as [tb Htb].
  rewrite (find_tenant_settled matches b w tb (healthy_tenant _ _ _ _ Htb)), (healthy_tenant _ _ _ _ Hta). by eexists.
Qed.

Lemma group_step names w b : group names w → b ∈ names → group names (settle matches b w).
Proof.
  intros Hg Hb. destruct (group_healthy _ _ Hg b Hb) as [tb Htb]. split.
  - apply (well_kept_settled matches b w tb); [apply Htb|apply Hg].
  - intros a Ha. destruct (group_healthy _ _ Hg a Ha) as [ta Hta].
    destruct (found_after names w a b Hg Ha Hb) as [ta' Ha']. exists ta'.
    apply (step_healthy b w tb Htb a ta ta' Hta Ha').
    destruct (decide (a = b)); [by left|right; by apply Hg].
  - intros a c Ha Hc Hne. apply (step_compatible b w tb Htb); [by eapply group_nonempty..|]. by apply Hg.
Qed.

Lemma group_reconcile names w b : group names w → b ∈ names →
  Reconcile_Tenant (Client0 := here matches) b w = (settle matches b w, None).
Proof.
  intros Hg Hb. destruct (group_healthy _ _ Hg b Hb) as [tb Htb]. apply (reconcile_settles matches b w tb Htb), Hg.
Qed.

Lemma group_reconcile_all names w schedule : group names w → schedule ⊆ names → group names (reconcile_all schedule w).
Proof.
  revert w. induction schedule as [|b schedule IH]; intros w Hg Hs; [done|].
  cbn [reconcile_all foldl]. assert (b ∈ names) as Hb by apply Hs, list_elem_of_here.
  rewrite (group_reconcile names) by done. cbn [fst]. apply IH; [by apply group_step|].
  intros x Hx. by apply Hs, list_elem_of_further.
Qed.

(** Nothing is in the reach of two of them. *)
Definition apart (names : list string) (w : cluster) : Prop :=
  ∀ a b r, a ∈ names → b ∈ names → a ≠ b → r ∈ cl_resources w → ¬ shared w a b r.

Lemma shared_step w b tb a c r : healthy matches b w tb →
  shared (settle matches b w) a c (settle_resource b (collects matches w tb) (referenced b (collects matches w tb) (cl_resources w)) r)
  ↔ shared w a c r.
Proof. intros Hb. unfold shared. by rewrite !(in_reach_step b w tb Hb). Qed.

Lemma apart_step names w b tb : healthy matches b w tb → apart names w → apart names (settle matches b w).
Proof.
  intros Hb Hap a c r' Ha Hc Hne Hr'. rewrite (step_resources b w tb Hb) in Hr'.
  apply list_elem_of_fmap in Hr' as (r & -> & Hr). rewrite shared_step by done. by apply Hap.
Qed.

(** The tenants that were reconciled are settled. *)
Lemma converges names done schedule w : group names w → apart names w → schedule ⊆ names → done ⊆ names →
  (∀ a, a ∈ done → settle matches a w = w) →
  ∀ a, a ∈ done ++ schedule → settle matches a (reconcile_all schedule w) = reconcile_all schedule w.
Proof.
  revert done w. induction schedule as [|b schedule IH]; intros done w Hg Hap Hs Hd Hdone a Ha.
  { rewrite app_nil_r in Ha. by apply Hdone. }
  assert (b ∈ names) as Hb by apply Hs, list_elem_of_here.
  destruct (group_healthy _ _ Hg b Hb) as [tb Htb].
  cbn [reconcile_all foldl]. rewrite (group_reconcile names) by done. cbn [fst].
  apply (IH (done ++ [b])).
  - by apply group_step.
  - by apply (apart_step names w b tb).
  - intros x Hx. by apply Hs, list_elem_of_further.
  - intros x [Hx|Hx%list_elem_of_singleton]%elem_of_app; [by apply Hd|by subst].
  - intros c [Hc|Hc%list_elem_of_singleton]%elem_of_app.
    + assert (c ∈ names) as Hcn by by apply Hd.
      destruct (group_healthy _ _ Hg c Hcn) as [tc Htc]. destruct (found_after names w c b Hg Hcn Hb) as [tc' Hc'].
      destruct (decide (c = b)) as [->|Hne]; [by eapply settle_settles; [apply Htb|apply Htb|]|].
      apply (step_settled b w tb Htb c tc tc' Htc Hc'); [|done| |by apply Hdone].
      * right. by apply Hg.
      * intros r Hr. by apply (Hap c b).
    + subst c. destruct (found_after names w b b Hg Hb Hb) as [tb' Hb']. eapply settle_settles; [apply Htb|apply Htb|exact Hb'].
  - by rewrite <- app_assoc.
Qed.

(** A subscription that two tenants reach is never right for both. *)
Lemma never_settled names w a b r : group names w → a ∈ names → b ∈ names → a ≠ b → r ∈ cl_resources w → shared w a b r →
  ¬ (settle matches a w = w ∧ settle matches b w = w).
Proof.
  intros Hg Ha Hb Hne Hr Hsh [Sa Sb].
  destruct (group_healthy _ _ Hg a Ha) as [ta Hta]. destruct (group_healthy _ _ Hg b Hb) as [tb Htb].
  assert (∀ x y tx ty, healthy matches x w tx → healthy matches y w ty → x ≠ y → in_reach w x r = true → in_reach w y r = true →
    is_kind KSubscription r = true → GetTenant r = x → settle matches x w = w → settle matches y w = w → False) as Habs.
  { intros x y tx ty Hx Hy Hxy Rx Ry Hk Ht Sx Sy.
    apply (settled_iff matches x w tx (healthy_tenant _ _ _ _ Hx)) in Sx as (Sx & _).
    apply (settled_iff matches y w ty (healthy_tenant _ _ _ _ Hy)) in Sy as (Sy & _).
    specialize (Sx r Hr). specialize (Sy r Hr). unfold settle_resource in Sx, Sy.
    rewrite <- (in_reach_self x w tx Hx), Rx in Sx. rewrite <- (in_reach_self y w ty Hy), Ry in Sy.
    assert (free_for x r = true) as Fx by (apply free_for_iff_tenant; by right).
    assert (free_for y r = false) as Fy.
    { apply not_true_iff_false. intros [E|E]%free_for_iff_tenant; [|congruence].
      apply (healthy_name _ _ _ _ Hx). congruence. }
    rewrite Fx in Sx. rewrite Fy in Sy. destruct r as [s|]; [|done].
    apply (f_equal GetState) in Sx, Sy. rewrite <- Sx in Sy. cbn in Sy. rewrite stored_normal in Sy. done. }
  destruct (group_compatible _ _ Hg a b Ha Hb Hne r Hr) as (_ & _ & [Hk Ht]); [done|]. destruct Hsh as [Ra Rb].
  destruct Ht as [Ht|Ht]; [by eapply (Habs a b)|by eapply (Habs b a)].
Qed.

Lemma shared_stays names w schedule a b r : group names w → schedule ⊆ names → r ∈ cl_resources w → shared w a b r →
  ∃ r', r' ∈ cl_resources (reconcile_all schedule w) ∧ shared (reconcile_all schedule w) a b r'.
Proof.
  revert w r. induction schedule as [|c schedule IH]; intros w r Hg Hs Hr Hsh; [by exists r|].
  assert (c ∈ names) as Hc by apply Hs, list_elem_of_here.
  destruct (group_healthy _ _ Hg c Hc) as [tc Htc].
  cbn [reconcile_all foldl]. rewrite (group_reconcile names) by done. cbn [fst].
  eapply IH; [by apply group_step|intros x Hx; by apply Hs, list_elem_of_further| |by apply shared_step].
  rewrite (step_resources c w tc Htc). by apply list_elem_of_fmap_2.
Qed.
End Group.

(** * The theorems *)
Section Theorems.
Context `{Platform} (matches : selector → string → bool).
#[local] Existing Instance here.

(** C2. The reconciliation of a tenant refines its specification: when the
    tenant has what it needs, every call, loop and intermediate update together
    leave exactly the cluster of [settle], which says object by object what the
    tenant owns, gives up and marks, and no error is returned. *)
Theorem reconcile_refines_settle name w t : healthy matches name w t → well_kept w →
  Reconcile_Tenant (Client0 := here matches) name w = (settle matches name w, None).
Proof. intros Hh Hw. by apply (reconcile_settles matches name w t). Qed.

(** C12. A healthy tenant is settled by one reconciliation: afterwards it is
    ready without problems, and it is still healthy on a cluster whose statuses
    are still as a server keeps them, so the next reconciliation, which sends
    its updates again, changes nothing. *)
Theorem settled_tenant_is_stable name w t : healthy matches name w t → well_kept w →
  ∃ w' t', Reconcile_Tenant (Client0 := here matches) name w = (w', None) ∧
    healthy matches name w' t' ∧ well_kept w' ∧
    TenantStatus_State (Tenant_Status t') = StateReady ∧ TenantStatus_Problems (Tenant_Status t') = None ∧
    Reconcile_Tenant (Client0 := here matches) name w' = (w', None).
Proof.
  intros Hh Hw. exists (settle matches name w), (Tenant_set_Status (settled_status matches w t) t).
  assert (find_tenant (settle matches name w) name = Some (Tenant_set_Status (settled_status matches w t) t)) as Ht'.
  { rewrite (find_tenant_settled matches name w t (healthy_tenant _ _ _ _ Hh)), (healthy_tenant _ _ _ _ Hh). cbn.
    by rewrite bool_decide_true. }
  assert (healthy matches name (settle matches name w) (Tenant_set_Status (settled_status matches w t) t)) as Hh'
    by (apply (step_healthy matches name w t Hh name t _ Hh Ht'); by left).
  assert (well_kept (settle matches name w)) as Hw' by (apply (well_kept_settled matches name w t); [apply Hh|done]).
  split_and!; try done; [by apply (reconcile_settles matches name w t)|].
  rewrite (reconcile_settles matches name _ _ Hh' Hw'). f_equal.
  exact (settle_settles matches name w t _ (healthy_name _ _ _ _ Hh) (healthy_tenant _ _ _ _ Hh) Ht').
Qed.


(** C13. Tenants of a group that share a subscription, which one of them owns,
    never settle: however the reconciliations of the group are scheduled, the
    next reconciliation of each of the two succeeds, and that of one of them
    changes the cluster. *)
Theorem shared_namespace_never_settles names schedule w a b r : group matches names w →
  a ∈ names → b ∈ names → a ≠ b → r ∈ cl_resources w → shared matches w a b r → schedule ⊆ names →
  let w' := reconcile_all matches schedule w in
  ¬ (Reconcile_Tenant (Client0 := here matches) a w' = (w', None) ∧ Reconcile_Tenant (Client0 := here matches) b w' = (w', None)) ∧
  (∃ w1 w2, Reconcile_Tenant (Client0 := here matches) a w' = (w1, None) ∧ Reconcile_Tenant (Client0 := here matches) b w' = (w2, None)).
Proof.
  intros Hg Ha Hb Hne Hr Hsh Hs w'. assert (group matches names w') as Hg' by by apply group_reconcile_all.
  destruct (shared_stays matches names w schedule a b r) as (r' & Hr' & Hsh'); [done..|].
  rewrite !(group_reconcile matches names w') by done. split; [|eauto].
  intros [[= Ea] [= Eb]]. by apply (never_settled matches names w' a b r').
Qed.
End Theorems.

(** * Samples *)
#[local] Existing Instance sample_platform.

Lemma sample_healthy : ∃ t, healthy sample_matches "red" (sample_cluster sample_resources false) t.
Proof. apply healthyb_sound. by vm_compute. Qed.

Lemma sample_well_kept : well_kept (sample_cluster sample_resources false).
Proof. apply well_keptb_sound. by vm_compute. Qed.

Lemma reconcile_refines_settle_witness :
  Reconcile_Tenant (Client0 := here sample_matches) "red" (sample_cluster sample_resources false) =
    (settle sample_matches "red" (sample_cluster sample_resources false), None) ∧
  GetTenant <$> cl_resources (settle sample_matches "red" (sample_cluster sample_resources false)) = ["red"; "blue"; "red"].
Proof.
  split; [|vm_compute; reflexivity]. destruct sample_healthy as [t Ht].
  exact (reconcile_refines_settle (H := sample_platform) sample_matches "red" _ t Ht sample_well_kept).
Defined.

Lemma settled_tenant_is_stable_witness :
  ∃ w', Reconcile_Tenant (Client0 := here sample_matches) "red" (sample_cluster sample_resources false) = (w', None) ∧
    Reconcile_Tenant (Client0 := here sample_matches) "red" w' = (w', None).
Proof.
  destruct sample_healthy as [t Ht].
  destruct (settled_tenant_is_stable (H := sample_platform) sample_matches "red" _ t Ht sample_well_kept) as (w' & t' & E & _ & _ & _ & _ & E').
  exists w'. exact (conj E E').
Defined.

(** Two tenants with a namespace each and one in common; a selector selects the
    namespace of its name. *)
Definition by_name (sel ns : string) : bool := bool_decide (sel = ns).

Definition neighbour (name : string) : Tenant :=
  mkTenant name (mkTenantSpec [name +:+ "-ns"; "common"] ["apps"] false (sample_transform "" false)
    (mkRouteConfig None "") (mkPersistenceConfig false "")) (mkTenantStatus None None None "" None 0).

Definition neighbours (rs : list Resource) : cluster :=
  mkCluster ["red-ns"; "green-ns"; "common"; "apps"] [neighbour "red"; neighbour "green"]
    [mkBridge "link" (mkBridgeSpec "red" "green" "true") (mkBridgeStatus "" None 0)] [sample_collector] rs [sample_secret] false.

Definition own_resources_of (name : string) : list Resource :=
  [ ResOutput (sample_output (name +:+ "-ns") "sink" "" (Some sample_auth));
    ResSubscription (sample_subscription (name +:+ "-ns") "errors" "" "true" [mkNamespacedName (name +:+ "-ns") "sink"]) ].

Definition apart_cluster : cluster := neighbours (own_resources_of "red" ++ own_resources_of "green").
Definition shared_subscription : Resource :=
  ResSubscription (sample_subscription "common" "all" "red" "true" [mkNamespacedName "red-ns" "sink"]).
Definition shared_cluster : cluster := neighbours (shared_subscription :: own_resources_of "red" ++ own_resources_of "green").

(** A check on every element *)
Lemma every_element {A} (P : A → Prop) `{∀ r, Decision (P r)} (rs : list A) :
  forallb (λ r, bool_decide (P r)) rs = true → ∀ r, r ∈ rs → P r.
Proof. intros Hf r Hr. by eapply bool_decide_eq_true_1, (forallb_elem _ _ _ Hf). Qed.

Lemma neighbours_group w : well_keptb w = true → healthyb by_name "red" w = true → healthyb by_name "green" w = true →
  compatible by_name w "red" "green" → compatible by_name w "green" "red" → group by_name ["red"; "green"] w.
Proof.
  intros Hw Hr Hg Hrg Hgr. split.
  - by apply well_keptb_sound.
  - intros a Ha. rewrite !elem_of_cons, elem_of_nil in Ha. destruct Ha as [->|[->|[]]]; by apply healthyb_sound.
  - intros a b Ha Hb Hne. rewrite !elem_of_cons, elem_of_nil in Ha, Hb.
    destruct Ha as [->|[->|[]]], Hb as [->|[->|[]]]; done.
Qed.

Lemma apart_group : group by_name ["red"; "green"] apart_cluster.
Proof.
  apply neighbours_group; [vm_compute; reflexivity..| |].
  - refine (every_element (compatible_at by_name apart_cluster "red" "green") (cl_resources apart_cluster) _). vm_compute. reflexivity.
  - refine (every_element (compatible_at by_name apart_cluster "green" "red") (cl_resources apart_cluster) _). vm_compute. reflexivity.
Qed.

Lemma shared_group : group by_name ["red"; "green"] shared_cluster.
Proof.
  apply neighbours_group; [vm_compute; reflexivity..| |].
  - refine (every_element (compatible_at by_name shared_cluster "red" "green") (cl_resources shared_cluster) _). vm_compute. reflexivity.
  - refine (every_element (compatible_at by_name shared_cluster "green" "red") (cl_resources shared_cluster) _). vm_compute. reflexivity.
Qed.

Lemma apart_apart : apart by_name ["red"; "green"] apart_cluster.
Proof.
  assert (∀ r, r ∈ cl_resources apart_cluster → ¬ shared by_name apart_cluster "red" "green" r) as Hrg
    by (refine (every_element (λ r, ¬ shared by_name apart_cluster "red" "green" r) (cl_resources apart_cluster) _); vm_compute; reflexivity).
  intros a b r Ha Hb Hne Hr. rewrite !elem_of_cons, elem_of_nil in Ha, Hb.
  destruct Ha as [->|[->|[]]], Hb as [->|[->|[]]]; try done; [by apply Hrg|].
  intros [H1 H2]. by apply (Hrg r).
Qed.


Lemma shared_namespace_never_settles_witness :
  let w' := reconcile_all by_name ["red"; "green"; "red"] shared_cluster in
  ¬ (Reconcile_Tenant (Client0 := here by_name) "red" w' = (w', None) ∧ Reconcile_Tenant (Client0 := here by_name) "green" w' = (w', None)).
Proof.
  apply (shared_namespace_never_settles (H := sample_platform) by_name ["red"; "green"] ["red"; "green"; "red"] shared_cluster "red" "green"
    shared_subscription shared_group).
  - apply list_elem_of_here.
  - apply list_elem_of_further, list_elem_of_here.
  - done.
  - apply list_elem_of_here.
  - split; by vm_compute.
  - set_solver.
Defined.

(** * A namespace that changes hands

    An output that [red] owns is in a namespace that only [green] selects now.
    When [red] is reconciled first, it gives the output up and [green] adopts
    it. When [green] is reconciled first, it marks the output as failed before
    [red] gives it up, and adopts it with that mark: from then on the
    reconciliation of [green] fails and changes nothing but its own status. *)
Definition moved_cluster : cluster :=
  neighbours [ResOutput (sample_output "green-ns" "sink" "red" (Some sample_auth))].

Definition run_tenant (a : string) (w : cluster) : cluster * option error :=
  Reconcile_Tenant (Client0 := here by_name) a w.

Definition good_order : cluster := reconcile_all by_name ["red"; "green"] moved_cluster.
Definition bad_order : cluster := reconcile_all by_name ["green"; "red"; "green"] moved_cluster.

Example handover_depends_on_order :
  is_nil (run_tenant "green" good_order).2 = true ∧
  is_nil (run_tenant "green" bad_order).2 = false ∧
  (λ r, (GetTenant r, GetState r)) <$> cl_resources good_order = [("green", "ready")] ∧
  (λ r, (GetTenant r, GetState r)) <$> cl_resources bad_order = [("green", "failed")] ∧
  (λ r, (GetTenant r, GetState r)) <$> cl_resources (run_tenant "green" bad_order).1 = [("green", "failed")].
Proof. split_and!; vm_compute; reflexivity. Qed.
