(* ===== verification/HealthSpec.v ===== *)
(** The other direction of [SettleRun]: a reconciliation of a tenant that
    returns no error had everything it needs, so the state in a tenant's status
    is the truth about the cluster the reconciliation was started on. *)
From S2P Require Import Prelude Strs Json Errors ApiOtlp ApiOutput ApiTypes ProblemSpec Persist Kube Watches Trace Cluster Utils Relations.
From S2P Require Import TenantManager RouteController TenantSpec TenantBehaviour Settle SettleRun ConvergeSpec Samples.

Open Scope world_scope.

(** * What a computation leaves alone

    [does part Q m]: whatever the state, [m] leaves a part of it as it is, and
    its result satisfies [Q]. *)
Section Does.
Context {W B : Type} (part : W → B).

Definition does {A} (Q : A → Prop) (m : M W A) : Prop := ∀ w, part (m w).1 = part w ∧ Q (m w).2.

Lemma does_ret {A} (Q : A → Prop) a : Q a → does Q (ret a).
Proof. by intros Ha w. Qed.

Lemma does_anything {A} (Q : A → Prop) m : does Q m → does anything m.
Proof. intros Hm w. by destruct (Hm w). Qed.

Lemma does_bind {A A'} (Q : A' → Prop) (m : M W A) f : does anything m → (∀ a, does Q (f a)) → does Q (bind m f).
Proof.
  intros Hm Hf w. unfold bind. destruct (Hm w) as [E _]. destruct (m w) as [w1 a]. cbn in E. destruct (Hf a w1) as [E1 Ha].
  split; [congruence|done].
Qed.

Lemma does_try {A A'} (m : M W (result A)) (f : A → M W (result A')) : does anything m → (∀ a, does anything (f a)) → does anything (try m f).
Proof. intros Hm Hf. apply does_bind; [done|]. intros [a|e]; [apply Hf|by apply does_ret]. Qed.

Lemma does_wrapM {A} msg (m : M W (result A)) : does anything m → does anything (wrapM msg m).
Proof. intros Hm. apply does_bind; [done|]. intros r. by apply does_ret. Qed.

Lemma does_list_or_empty {A} (m : M W (result (list A))) : does anything m → does anything (list_or_empty m).
Proof. intros Hm. apply does_bind; [done|]. intros r. by apply does_ret. Qed.

Lemma does_loop {A S} (f : A → S → M W (result S)) xs : (∀ x s, does anything (f x s)) → ∀ s, does anything (loop f xs s).
Proof. intros Hf. induction xs as [|x xs IH]; intros s; cbn; [by apply does_ret|]. by apply does_try. Qed.

Lemma does_foreach {A S} (f : A → S → M W S) xs : (∀ x s, does anything (f x s)) → ∀ s, does anything (foreach f xs s).
Proof. intros Hf. induction xs as [|x xs IH]; intros s; cbn; [by apply does_ret|]. by apply does_bind. Qed.

(** Every turn of a loop that ends without an error ended without one. *)
Lemma loop_turns {A S} (f : A → S → M W (result S)) xs s w w' s' : (∀ x s, does anything (f x s)) → loop f xs s w = (w', Ok s') →
  ∀ x, x ∈ xs → ∃ s0 w0 w1 s1, f x s0 w0 = (w1, Ok s1) ∧ part w0 = part w.
Proof.
  intros Hf. revert s w. induction xs as [|y xs IH]; intros s w E x Hx; [by apply not_elem_of_nil in Hx|].
  cbn in E. unfold try, bind in E. destruct (Hf y s w) as [Ep _]. destruct (f y s w) as [w1 [s1|e]] eqn:Ey; [|done].
  apply elem_of_cons in Hx as [->|Hx]; [by exists s, w, w1, s1|].
  destruct (IH s1 w1 E x Hx) as (s0 & w0 & w2 & s2 & E0 & Ep0). exists s0, w0, w2, s2. split; [done|]. by rewrite Ep0.
Qed.
End Does.

Ltac keeping := repeat first
  [ progress intros | solve [auto] | apply does_ret; done | apply does_list_or_empty | apply does_wrapM | apply does_loop | apply does_foreach
  | apply does_try | apply does_bind | case_match ].

(** * The steps leave the rest of the cluster alone. *)
Section Frames.
Context `{Platform} (matches : selector → string → bool).
#[local] Existing Instance here.

(** What no step changes, and what the first two do not *)
Definition rest (w : cluster) := (cl_namespaces w, cl_tenants w, cl_secrets w, cl_refuses w).
Definition outside_resources (w : cluster) := (rest w, cl_bridges w).

Lemma does_look {A B} (part : cluster → B) (f : cluster → A) : does part anything (look f).
Proof. by split. Qed.

Lemma does_update_resource r : does outside_resources anything (Update_Resource_status (Client := here matches) r).
Proof. intros w. cbn. unfold update. split; [|exact I]. unfold outside_resources, rest. destruct (cl_refuses w) eqn:E; cbn; by rewrite ?E. Qed.

Lemma does_update_bridge b : does rest anything (Update_Bridge_status (Client := here matches) b).
Proof. intros w. cbn. unfold update. split; [|exact I]. unfold outside_resources, rest. destruct (cl_refuses w) eqn:E; cbn; by rewrite ?E. Qed.

Lemma does_rest {A} (Q : A → Prop) m : does outside_resources Q m → does rest Q m.
Proof. intros Hm w. destruct (Hm w) as [E Hq]. split; [|done]. exact (f_equal fst E). Qed.

#[local] Hint Resolve does_update_resource does_update_bridge : core.
#[local] Hint Extern 1 (does _ anything (look _)) => exact (does_look _ _) : core.
#[local] Hint Extern 1 (does _ anything (List_Namespaces _)) => exact (does_look _ _) : core.
#[local] Hint Extern 1 (does _ anything (List_Tenants_by_name _)) => exact (does_look _ _) : core.
#[local] Hint Extern 1 (does _ anything (List_Bridges_by_source _)) => exact (does_look _ _) : core.
#[local] Hint Extern 1 (does _ anything (List_Bridges_by_target _)) => exact (does_look _ _) : core.
#[local] Hint Extern 1 (does _ anything (List_Resources_by_tenant _ _)) => exact (does_look _ _) : core.
#[local] Hint Extern 1 (does _ anything (List_Resources_in _ _)) => exact (does_look _ _) : core.

Lemma does_selector {B} (part : cluster → B) ls s : does part anything (namespaces_of_selector (Client0 := here matches) ls s).
Proof. unfold namespaces_of_selector. keeping. Qed.
#[local] Hint Resolve does_selector : core.

Lemma does_namespaces {B} (part : cluster → B) ls : does part anything (getNamespacesForSelectorSlice (Client0 := here matches) ls).
Proof. unfold getNamespacesForSelectorSlice. keeping. Qed.
#[local] Hint Resolve does_namespaces : core.

Lemma does_own k t : does outside_resources anything (own_resources (Client0 := here matches) k t).
Proof.
  unfold own_resources, GetResourceOwnedByTenant, unsupported, list_in_namespace, classify, UpdateResourcesForTenant, adopt,
    GetResourcesReferencingTenantButNotSelected, DisownResources, disown. keeping.
Qed.

Lemma does_secret {B} (part : cluster → B) o : does part anything (query_secret_error (Client0 := here matches) o).
Proof.
  unfold query_secret_error, QueryOutputSecret, QueryOutputSecretWithData.
  destruct (OutputSpec_Authentication _) as [a|]; cbn; [|by apply does_ret].
  destruct (auth_refs a) as [|[ref n] [|]]; keeping.
Qed.
#[local] Hint Resolve does_secret : core.

Lemma does_validate s ref acc : does outside_resources anything (validate_output (Client0 := here matches) s ref acc).
Proof. unfold validate_output. keeping. Qed.
#[local] Hint Resolve does_validate : core.

Lemma does_judge s acc : does outside_resources anything (judge (Client0 := here matches) s acc).
Proof. unfold judge, ValidateSubscriptionReferencedOutputsWithCache. keeping. Qed.

Lemma does_reference {B} (part : cluster → B) n b ref s : does part anything (check_tenant_reference (Client0 := here matches) n b ref s).
Proof. unfold check_tenant_reference, getTenants. keeping. Qed.
#[local] Hint Resolve does_reference : core.

Lemma does_handle_bridge t b s : does rest anything (handle_bridge (Client0 := here matches) t b s).
Proof. unfold handle_bridge, ValidateBridgeConnection. keeping. Qed.

(** A step gives back the tenant with its name and its specification. *)
Definition same_tenant (t : Tenant) (out : Tenant * option error) : Prop :=
  Tenant_Name out.1 = Tenant_Name t ∧ Tenant_Spec out.1 = Tenant_Spec t.

#[local] Hint Resolve does_own does_judge does_handle_bridge : core.
Lemma does_log_sources t : does id (same_tenant t) (handleLogSourceNamespaces (Client0 := here matches) t).
Proof. unfold handleLogSourceNamespaces, GetLogsourceNamespaceNamesForTenant. keeping. Qed.

Lemma does_owned t : does outside_resources (same_tenant t) (handleOwnedResources (Client0 := here matches) t).
Proof. unfold handleOwnedResources, validateSubscriptionOutputs. keeping. Qed.

Lemma does_bridges t : does rest (same_tenant t) (handleBridgeResources (Client0 := here matches) t).
Proof. unfold handleBridgeResources, GetBridgesForTenant, getBridges. keeping. Qed.
End Frames.

(** * What a success says *)
Section Inversion.
Context `{Platform} (matches : selector → string → bool).
#[local] Existing Instance here.

Lemma namespaces_Ok selectors (w w' : cluster) r :
  getNamespacesForSelectorSlice (Client0 := here matches) selectors w = (w', Ok r) → valid_selectors selectors.
Proof.
  unfold getNamespacesForSelectorSlice, try at 1, bind. destruct (loop _ selectors [] w) as [w1 [l|e]] eqn:E; [|done]. intros _ ls Hls.
  destruct (loop_turns id _ _ _ _ _ _ (λ ls s, does_selector matches id ls s) E ls Hls) as (s0 & w0 & w2 & s1 & Et & _).
  unfold namespaces_of_selector in Et. destruct (LabelSelectorAsSelector ls) as [sel|]; [by exists sel|done].
Qed.

Lemma log_sources_Ok t (w w' : cluster) t' : handleLogSourceNamespaces (Client0 := here matches) t w = (w', (t', None)) →
  w' = w ∧ valid_selectors (TenantSpec_LogSourceNamespaceSelectors (Tenant_Spec t)).
Proof.
  intros E. destruct (does_log_sources matches t w) as [Ew _]. rewrite E in Ew. split; [exact Ew|].
  revert E. unfold handleLogSourceNamespaces, bind, ret, GetLogsourceNamespaceNamesForTenant.
  destruct (getNamespacesForSelectorSlice _ w) as [w1 [l|e]] eqn:En; [|done]. intros _. by eapply namespaces_Ok.
Qed.

Lemma own_resources_Ok k t (w w' : cluster) rs : own_resources (Client0 := here matches) k t w = (w', Ok rs) →
  valid_selectors (TenantSpec_SubscriptionNamespaceSelectors (Tenant_Spec t)).
Proof.
  unfold own_resources, try at 1, bind, wrapM, bind, ret, GetResourceOwnedByTenant, try at 1, wrapM, bind, ret.
  destruct (getNamespacesForSelectorSlice _ w) as [w1 [l|e]] eqn:En; [|done]. intros _. by eapply namespaces_Ok.
Qed.

(** ** Validation

    What is in the cache are outputs of the tenant, whatever was written to
    their statuses. *)
Context (w : cluster) (os : list Output).

Definition cached (c : output_cache) : Prop := ∀ ref o, c !! ref = Some o →
  ∃ o0, o0 ∈ os ∧ Output_NamespacedName o0 = ref ∧ Output_NamespacedName o = ref ∧ Output_Spec o = Output_Spec o0.

(** A reference to one of them, with its secret *)
Definition good (ref : NamespacedName) : Prop :=
  ∃ o, o ∈ os ∧ Output_NamespacedName o = ref ∧ secret_found matches w o.

Definition same_object (o o' : Output) : Prop :=
  Output_NamespacedName o' = Output_NamespacedName o ∧ Output_Spec o' = Output_Spec o.

Lemma same_object_Add o ps : same_object o (Add o ps).
Proof. by destruct (Add_frame o ps) as [->|[l ->]]. Qed.

Lemma same_object_trans o1 o2 o3 : same_object o1 o2 → same_object o2 o3 → same_object o1 o3.
Proof. intros [E1 S1] [E2 S2]. split; congruence. Qed.

Lemma cached_insert c ref o o' : cached c → c !! ref = Some o → same_object o o' → cached (<[ref := o']> c).
Proof.
  intros Hc Ho [En Es] ref' o''. destruct (decide (ref = ref')) as [<-|Hne].
  - rewrite lookup_insert_eq. intros [= <-]. destruct (Hc ref o Ho) as (o0 & Hin & E0 & E1 & E2). exists o0. split_and!; congruence.
  - rewrite lookup_insert_ne by done. apply Hc.
Qed.

(** The secret of a cached output is looked for as the output's own was. *)
Lemma secret_of_cached c ref o w1 : cached c → c !! ref = Some o → cl_secrets w1 = cl_secrets w →
  ∀ o', same_object o o' → (query_secret_error (Client0 := here matches) o' w1).2 = None → good ref.
Proof.
  intros Hc Ho Ew o' [_ Es] Eq. destruct (Hc ref o Ho) as (o0 & Hin & E0 & _ & E2). exists o0. split_and!; [done..|].
  refine (f_equal snd (secret_found_frame matches w1 o' o0 w _ _ Eq)); congruence.
Qed.

(** A list of invalid references that is empty in the end was empty before. *)
Lemma validate_Ok s ref c v i w1 w2 c' v' i' : cached c → cl_secrets w1 = cl_secrets w →
  validate_output (Client0 := here matches) s ref (c, v, i) w1 = (w2, (c', v', i')) →
  cached c' ∧ (i' = [] → i = [] ∧ good ref).
Proof.
  intros Hc Ew. unfold validate_output. destruct (c !! ref) as [o|] eqn:Eo.
  2:{ intros [= _ <- _ <-]. split; [done|]. by intros [_ ?]%app_nil. }
  set (mismatch := negb _). set (o1 := if mismatch then _ else _).
  assert (same_object o o1) as H1 by (unfold o1; destruct mismatch; [apply same_object_Add|done]).
  unfold bind at 1. destruct (query_secret_error o1 w1) as [w1' se] eqn:Eq. set (o2 := match se with Some _ => _ | None => _ end).
  assert (same_object o o2) as H2 by (unfold o2; destruct se; [by eapply same_object_trans, same_object_Add|done]).
  destruct (mismatch || negb (is_nil se)) eqn:Em; unfold bind, ret; destruct (Update_Resource_status _ w1') as [w2' u].
  - intros [= _ <- _ <-]. split; [by eapply cached_insert|]. by intros [_ ?]%app_nil.
  - intros [= _ <- _ <-]. split; [eapply cached_insert; [done..|]; by destruct u|]. intros ->. split; [done|].
    apply orb_false_iff in Em as [_ Es]. destruct se; [done|]. apply (secret_of_cached c ref o w1 Hc Eo Ew o1 H1). by rewrite Eq.
Qed.

Lemma validate_all_Ok s refs c v i w1 w2 c' v' i' : cached c → cl_secrets w1 = cl_secrets w →
  foreach (validate_output (Client0 := here matches) s) refs (c, v, i) w1 = (w2, (c', v', i')) →
  cached c' ∧ cl_secrets w2 = cl_secrets w ∧ (i' = [] → i = [] ∧ ∀ ref, ref ∈ refs → good ref).
Proof.
  revert c v i w1. induction refs as [|ref refs IH]; intros c v i w1 Hc Ew.
  - intros [= <- <- _ <-]. split_and!; [done..|]. intros ->. split; [done|]. by intros ref ?%not_elem_of_nil.
  - cbn [foreach]. unfold bind at 1. pose proof (does_validate matches s ref (c, v, i) w1) as [Er _].
    destruct (validate_output s ref (c, v, i) w1) as [w0 [[c0 v0] i0]] eqn:E0. cbn in Er. intros E.
    destruct (validate_Ok _ _ _ _ _ _ _ _ _ _ Hc Ew E0) as [Hc0 Hi0].
    destruct (IH c0 v0 i0 w0 Hc0) as (Hc' & Ew' & Hi); [by injection Er; congruence|done|]. split_and!; [done..|].
    intros Hi'. destruct (Hi Hi') as [Hi0' Hrefs]. destruct (Hi0 Hi0') as [Hi'' Href]. split; [done|].
    intros x [->|Hx]%elem_of_cons; [done|by apply Hrefs].
Qed.

Lemma judge_Ok s c done w1 w2 c' done' : cached c → cl_secrets w1 = cl_secrets w →
  judge (Client0 := here matches) s (c, done) w1 = (w2, Ok (c', done')) →
  cached c' ∧ cl_secrets w2 = cl_secrets w ∧
  ∃ s', done' = done ++ [s'] ∧ (GetState (ResSubscription s') ≠ StateFailed → ∀ ref, ref ∈ refs_of s → good ref).
Proof.
  intros Hc Ew. pose proof (does_judge matches s (c, done) w1) as [Er _]. unfold judge in *.
  unfold ValidateSubscriptionReferencedOutputsWithCache in *. fold (refs_of s) in *. unfold bind at 1.
  unfold bind at 1 in Er. destruct (foreach _ (refs_of s) (c, None, []) w1) as [w0 [[c0 v0] i0]] eqn:E0.
  destruct (validate_all_Ok _ _ _ _ _ _ _ _ _ _ Hc Ew E0) as (Hc0 & Ew0 & Hi).
  unfold bind, ret in *. destruct (Update_Resource_status _ w0) as [w3 [u|]]; [done|]. intros [= <- <- <-].
  split_and!; [done|by injection Er; congruence|]. eexists. split; [done|]. intros Hs. apply Hi. destruct i0 as [|x i0]; [done|].
  exfalso. apply Hs. cbn. by destruct (Add_frame (Subscription_SetState StateFailed s) [invalid_outputs_text s (x :: i0)]) as [E|[l E]]; rewrite E.
Qed.

Lemma judge_all_Ok ss c done w1 w2 c' done' : cached c → cl_secrets w1 = cl_secrets w →
  loop (judge (Client0 := here matches)) ss (c, done) w1 = (w2, Ok (c', done')) →
  ∃ l, done' = done ++ l ∧ (failed_resource (ResSubscription <$> l) = None → ∀ s ref, s ∈ ss → ref ∈ refs_of s → good ref).
Proof.
  revert c done w1. induction ss as [|s ss IH]; intros c done w1 Hc Ew.
  - intros [= _ _ <-]. exists []. rewrite app_nil_r. split; [done|]. by intros _ s ref ?%not_elem_of_nil.
  - cbn [loop]. unfold try, bind at 1. destruct (judge s (c, done) w1) as [w0 [[c0 done0]|]] eqn:E0; [|done]. intros E.
    destruct (judge_Ok _ _ _ _ _ _ _ Hc Ew E0) as (Hc0 & Ew0 & s' & -> & Hs).
    destruct (IH _ _ _ Hc0 Ew0 E) as (l & -> & Hl). exists (s' :: l). rewrite <- app_assoc. split; [done|].
    unfold failed_resource in *. cbn [fmap list_fmap find_first]. case_bool_decide as Ef; [done|]. intros Hn s1 ref [->|H1]%elem_of_cons; [by apply Hs|by eapply Hl].
Qed.
End Inversion.

Lemma find_first_not {A} (f : A → bool) l : find_first f l = None → ∀ x, x ∈ l → f x = false.
Proof.
  induction l as [|y l IH]; intros E x Hx; [by apply not_elem_of_nil in Hx|]. cbn in E. destruct (f y) eqn:Ey; [done|].
  apply elem_of_cons in Hx as [->|Hx]; [done|by apply IH].
Qed.

(** ** The steps *)
Section Steps.
Context `{Platform} (matches : selector → string → bool).
#[local] Existing Instance here.
Context (name : string) (w : cluster) (t : Tenant).
Context (Hw : well_kept w) (Hne : name ≠ "").
Let R := cl_resources w.
Let sel := collects matches w t.

Lemma owned_Ok t0 w' t' : cl_refuses w = false → Tenant_Name t0 = name → Tenant_Spec t0 = Tenant_Spec t →
  handleOwnedResources (Client0 := here matches) t0 w = (w', (t', None)) →
  valid_selectors (TenantSpec_SubscriptionNamespaceSelectors (Tenant_Spec t)) ∧
  (∀ o, ResOutput o ∈ R → takes name sel (ResOutput o) = true → OutputStatus_State (Output_Status o) ≠ StateFailed) ∧
  (∀ ref, referenced name sel R ref = true →
     ∃ o, ResOutput o ∈ R ∧ Output_NamespacedName o = ref ∧ takes name sel (ResOutput o) = true ∧ secret_found matches w o).
Proof.
  intros Hr Hn Hspec. unfold handleOwnedResources, bind at 1.
  destruct (own_resources KOutput t0 w) as [w1 [outs|e]] eqn:Eo; [|done].
  pose proof (own_resources_Ok matches _ _ _ _ _ Eo) as Hv. rewrite Hspec in Hv.
  destruct (both_kinds_run matches name w t Hw t0 Hne Hv Hn Hspec Hr) as (outs' & subs & Eo' & Houts & Es & Hsubs).
  rewrite Eo in Eo'. injection Eo' as -> <-. destruct (failed_resource outs) eqn:Ef; [done|].
  unfold bind at 1. rewrite Es. unfold bind at 1. set (w2 := map_resources _ (map_resources _ w)).
  destruct (outputs_listed matches name w t Hw outs Houts) as (os & Eos & Hnd & Hos).
  destruct (subscriptions_listed matches name w t subs Hsubs) as (ss & Ess & Hss).
  unfold validateSubscriptionOutputs. rewrite !ToObject_id, Ess, Eos. unfold try at 1 2, bind at 1 2. cbn [wrap ret]. unfold ret at 1, try, bind.
  destruct (loop judge ss (cache_of os, []) w2) as [w3 [[c' l]|e]] eqn:El; [|done]. cbn [ret snd]. unfold ret. intros [= _ _ Hl].
  split; [done|]. split.
  - intros o Ho Ht. assert (SetTenant name (ResOutput o) ∈ outs) as Hin.
    { rewrite Houts. apply (list_elem_of_fmap_2 (SetTenant name)). by apply elem_of_taken. }
    unfold failed_resource in Ef. destruct (find_first _ outs) eqn:Eff; [done|].
    exact (bool_decide_eq_false_1 _ (find_first_not _ _ Eff _ Hin)).
  - destruct (judge_all_Ok matches w os ss (cache_of os) [] w2 w3 c' l) as (l' & -> & Hgood); [|done..|].
    { intros ref o [(o' & [= -> ->] & Hin)%list_elem_of_fmap|[? _]]%insert_all_inv; [|done]. by exists o'. }
    intros ref Href%(adopted_refs matches name w t ss ref Hss). apply list_elem_of_bind in Href as (s & Hs & Hin).
    destruct (Hgood Hl s ref Hin Hs) as (o & Ho & <- & Hsec). apply Hos in Ho as (o0 & (H0 & _ & T0)%elem_of_taken & ->).
    exists o0. by split_and!.
Qed.

Context (Ht : find_tenant w name = Some t).

Lemma reference_Ok b ref u w0 w1 r : rest w0 = rest w →
  check_tenant_reference (Client0 := here matches) name b ref u w0 = (w1, Ok r) → is_Some (find_tenant w ref).
Proof.
  intros Er. assert (cl_tenants w0 = cl_tenants w) as Et by (injection Er; congruence).
  unfold check_tenant_reference. case_bool_decide as E; cbn [negb]; [intros _; subst ref; by eexists|].
  unfold wrapM, getTenants, list_or_empty, try, bind. cbn. rewrite Et. destruct (filter _ _) as [|t' l] eqn:El; [done|]. intros _.
  assert (t' ∈ filter (λ t0, indexed tenant_name ref (ObjTenant t0)) (cl_tenants w)) as Hin
    by (rewrite El; apply list_elem_of_here).
  apply list_elem_of_filter in Hin as [Hi Hin]. rewrite indexed_name in Hi.
  unfold find_tenant. destruct (find_first _ (cl_tenants w)) eqn:Ef; [by eexists|].
  pose proof (find_first_not _ _ Ef t' Hin) as Hf. by apply bool_decide_eq_false in Hf.
Qed.

Lemma handle_bridge_Ok t0 b u w0 w1 r : Tenant_Name t0 = name → rest w0 = rest w →
  handle_bridge (Client0 := here matches) t0 b u w0 = (w1, Ok r) →
  ∀ n, n ∈ [BridgeSpec_SourceTenant (Bridge_Spec b); BridgeSpec_TargetTenant (Bridge_Spec b)] → is_Some (find_tenant w n).
Proof.
  intros Hn Er. unfold handle_bridge, bind at 1. rewrite Hn.
  destruct (ValidateBridgeConnection name b w0) as [w2 [[]|e]] eqn:Ev.
  - intros _ n Hin. destruct (loop_turns rest _ _ _ _ _ _ (does_reference matches rest name b) Ev n Hin) as (s0 & w3 & w4 & s1 & Ec & E3).
    eapply reference_Ok; [|exact Ec]. by rewrite E3.
  - unfold bind. destruct (Update_Bridge_status _ w2) as [w3 [|]]; done.
Qed.

Lemma bridges_Ok t0 w0 w' t' : Tenant_Name t0 = name → outside_resources w0 = outside_resources w →
  handleBridgeResources (Client0 := here matches) t0 w0 = (w', (t', None)) →
  ∀ b, b ∈ cl_bridges w → touches name b = true →
  ∀ n, n ∈ [BridgeSpec_SourceTenant (Bridge_Spec b); BridgeSpec_TargetTenant (Bridge_Spec b)] → is_Some (find_tenant w n).
Proof.
  intros Hn Eo. assert (rest w0 = rest w ∧ cl_bridges w0 = cl_bridges w) as [Er Eb] by (injection Eo; intros; unfold rest; split; congruence).
  unfold handleBridgeResources, bind at 1. rewrite Hn, (bridges_listed matches name w w0 Hne Eb).
  unfold bind. destruct (loop _ _ _ w0) as [w1 [r|e]] eqn:El; [|done]. intros _ b Hb Htb.
  destruct (loop_turns rest _ _ _ _ _ _ (does_handle_bridge matches t0) El b) as (s0 & w2 & w3 & s1 & Ec & E2).
  { by apply elem_of_my_bridges. }
  eapply handle_bridge_Ok; [done| |exact Ec]. by rewrite E2.
Qed.
End Steps.

(** * The outcome *)
Section Outcome.
Context `{Platform} (matches : selector → string → bool).
#[local] Existing Instance here.

Lemma update_found sent w t : find_tenant w (Tenant_Name sent) = Some t → cl_refuses w = false →
  ∃ w', Update_Tenant_status (Client := here matches) sent w = (w', None) ∧
    find_tenant w' (Tenant_Name sent) = Some (receive_Tenant sent t).
Proof.
  intros Ht Hr. cbn. unfold update. rewrite Hr. eexists. split; [done|]. revert Ht. unfold find_tenant, update_in. cbn.
  induction (cl_tenants w) as [|t' ts IH]; cbn; [done|].
  destruct (bool_decide (Tenant_Name t' = Tenant_Name sent)) eqn:E; cbn; rewrite E; [by intros [= ->]|exact IH].
Qed.

Lemma finish_Ok original t0 w w' : normal original = original → finish (Client0 := here matches) original t0 w = (w', None) →
  cl_refuses w = false.
Proof.
  intros Hn. unfold finish. rewrite bool_decide_false.
  2:{ intros E. rewrite E in Hn. injection Hn. by destruct t0 as [? ? []]. }
  cbn. unfold bind, update. by destruct (cl_refuses w).
Qed.

Lemma finish_serves original t0 w : cl_refuses w = false → (finish (Client0 := here matches) original t0 w).2 = None.
Proof. intros Hr. unfold finish. case_bool_decide; cbn; [done|]. unfold bind, update. by rewrite Hr. Qed.

(** The steps and the end of a reconciliation without an error *)
Lemma run_steps_Ok steps original t0 w w' : run_steps (Client0 := here matches) steps original t0 w = (w', None) →
  match steps with
  | [] => finish (Client0 := here matches) original t0 w = (w', None)
  | s :: steps => ∃ w1 t1, s.2 t0 w = (w1, (t1, None)) ∧ run_steps (Client0 := here matches) steps original t1 w1 = (w', None)
  end.
Proof.
  destruct steps as [|[n fn] steps]; cbn [run_steps]; [done|]. unfold bind at 1.
  destruct (fn t0 w) as [w1 [t1 [e|]]] eqn:E; cbn [fst snd]; [|intros E'; by exists w1, t1].
  unfold handleTenantReconcileError, bind. by destruct (Update_Tenant_status _ w1).
Qed.

(** A reconciliation with an error marks the tenant. *)
Lemma run_steps_Err steps original name t0 t w : Forall (λ s, ∀ t, does rest (same_tenant t) (s.2 t)) steps →
  Tenant_Name t0 = name → find_tenant w name = Some t → cl_refuses w = false →
  (run_steps (Client0 := here matches) steps original t0 w).2 ≠ None →
  ∃ t', find_tenant (run_steps (Client0 := here matches) steps original t0 w).1 name = Some t' ∧
    TenantStatus_State (Tenant_Status t') = StateFailed.
Proof.
  intros Hsteps Hn Ht Hr. revert t0 w Hn Ht Hr. induction Hsteps as [|[n fn] steps Hfn _ IH]; intros t0 w Hn Ht Hr; cbn [run_steps].
  - intros Hf. by rewrite finish_serves in Hf.
  - unfold bind at 1 2. cbn in Hfn. destruct (Hfn t0 w) as [Er [En _]]. destruct (fn t0 w) as [w1 [t1 e]]. cbn in *.
    assert (find_tenant w1 name = Some t ∧ cl_refuses w1 = false) as [Ht1 Hr1].
    { injection Er as _ Et _ Ec. unfold find_tenant. rewrite Et. split; [exact Ht|congruence]. }
    destruct e as [e|]; [|apply IH; [congruence|done..]]. intros _. unfold handleTenantReconcileError, bind.
    set (sent := Tenant_set_State StateFailed _).
    assert (Tenant_Name sent = name) as Hs by (unfold sent; cbn; by rewrite Tenant_Add_name, En).
    destruct (update_found sent w1 t) as (w2 & -> & Hf); [by rewrite Hs|done|].
    rewrite Hs in Hf. exists (receive_Tenant sent t). split; [exact Hf|]. cbn. by rewrite stored_normal.
Qed.

Lemma steps_leave : Forall (λ s, ∀ t, does rest (same_tenant t) (s.2 t)) (tenant_steps (Client0 := here matches)).
Proof.
  unfold tenant_steps. apply Forall_cons; split; [|apply Forall_cons; split; [|apply Forall_singleton]]; intros t0; cbn [snd].
  - intros w0. destruct (does_log_sources matches t0 w0) as [Ew Hq]. split; [exact (f_equal rest Ew)|done].
  - apply does_rest, does_owned.
  - apply does_bridges.
Qed.

(** Nothing is missing when no error is returned. *)
Lemma reconcile_needs_health name w w' t : well_kept w → name ≠ "" → find_tenant w name = Some t →
  Reconcile_Tenant (Client0 := here matches) name w = (w', None) → healthy matches name w t.
Proof.
  intros Hw Hne Ht. unfold Reconcile_Tenant, bind at 1.
  assert (Get_Tenant name w = (w, Ok t)) as -> by (cbn; unfold look, find_or; unfold find_tenant in Ht; by rewrite Ht).
  pose proof Ht as [Hin Hn%bool_decide_eq_true]%find_first_Some.
  intros (w1 & t1 & E1 & (w2 & t2 & E2 & (w3 & t3 & E3 & Ef)%run_steps_Ok)%run_steps_Ok)%run_steps_Ok. cbn [snd] in *.
  destruct (log_sources_Ok matches _ _ _ _ E1) as [-> Hlogs].
  destruct (does_log_sources matches t w) as [_ [N1 S1]]. rewrite E1 in N1, S1. cbn in N1, S1.
  destruct (does_owned matches t1 w) as [R2 [N2 S2]]. rewrite E2 in R2, N2, S2. cbn in N2, S2.
  destruct (does_bridges matches t2 w2) as [R3 _]. rewrite E3 in R3. cbn in R2, R3.
  assert (cl_refuses w = false) as Hr.
  { pose proof (finish_Ok _ _ _ _ (kept_tenants _ Hw t Hin) Ef) as Hr3. injection R3 as _ _ _ E. injection R2 as _ _ _ E' _. congruence. }
  destruct (owned_Ok matches name w t Hw Hne t1 w2 t2 Hr) as (Hsel & Hout & Href); [congruence|done..|].
  split; try done.
  eapply (bridges_Ok matches name w t Hne Ht t2); [congruence|exact R2|exact E3].
Qed.

(** C11. The state in a tenant's status is the truth: a reconciliation returns no
    error exactly when the cluster it was started on had everything the tenant
    needs, and it leaves the tenant ready in that case and failed in every
    other, whatever the status said before. *)
Theorem reconcile_succeeds_iff_healthy name w t : well_kept w → name ≠ "" → find_tenant w name = Some t →
  let '(w', err) := Reconcile_Tenant (Client0 := here matches) name w in
  (err = None ↔ healthy matches name w t) ∧
  (cl_refuses w = false → ∃ t', find_tenant w' name = Some t' ∧
     (TenantStatus_State (Tenant_Status t') = StateReady ↔ healthy matches name w t) ∧
     (TenantStatus_State (Tenant_Status t') = StateFailed ↔ ¬ healthy matches name w t)).
Proof.
  intros Hw Hne Ht. destruct (Reconcile_Tenant name w) as [w' err] eqn:E.
  assert (healthy matches name w t → err = None ∧ w' = settle matches name w) as Hback.
  { intros Hh. rewrite (reconcile_settles matches name w t Hh Hw) in E. by injection E as <- <-. }
  split.
  { split; [intros ->; by apply (reconcile_needs_health name w w')|]. intros Hh. by apply Hback. }
  intros Hr. destruct err as [e|].
  - assert (¬ healthy matches name w t) as Hn by (intros Hh; by destruct (Hback Hh)).
    revert E. unfold Reconcile_Tenant, bind at 1.
    assert (Get_Tenant name w = (w, Ok t)) as -> by (cbn; unfold look, find_or; unfold find_tenant in Ht; by rewrite Ht).
    pose proof Ht as [_ Et%bool_decide_eq_true]%find_first_Some. intros E.
    destruct (run_steps_Err (tenant_steps (Client0 := here matches)) (Tenant_Status t) name t t w) as (t' & Hf & Es); [|done..|by rewrite E|].
    { apply steps_leave. }
    rewrite E in Hf. exists t'. rewrite Es. split_and!; [done|by split|by split].
  - assert (healthy matches name w t) as Hh by by apply (reconcile_needs_health name w w').
    destruct (Hback Hh) as [_ ->]. rewrite (find_tenant_settled matches name w t Ht), Ht. cbn.
    pose proof Ht as [_ Et%bool_decide_eq_true]%find_first_Some. rewrite bool_decide_true by done.
    eexists. split; [done|]. cbn. split; split; done.
Qed.
End Outcome.

#[local] Existing Instance sample_platform.
Lemma failed_well_kept : well_kept failed_cluster.
Proof. apply well_keptb_sound. by vm_compute. Qed.

Lemma reconcile_succeeds_iff_healthy_witness :
  healthy (H := sample_platform) sample_matches "red" (sample_cluster sample_resources false) (fresh_tenant "red") ∧
  ¬ healthy (H := sample_platform) sample_matches "red" failed_cluster (fresh_tenant "red").
Proof.
  split.
  - pose proof (reconcile_succeeds_iff_healthy (H := sample_platform) sample_matches "red" (sample_cluster sample_resources false)
      (fresh_tenant "red") sample_well_kept ltac:(discriminate) eq_refl) as T.
    destruct (Reconcile_Tenant "red" (sample_cluster sample_resources false)) as [w' err] eqn:E. apply T.
    vm_compute in E. injection E as _ <-. reflexivity.
  - pose proof (reconcile_succeeds_iff_healthy (H := sample_platform) sample_matches "red" failed_cluster
      (fresh_tenant "red") failed_well_kept ltac:(discriminate) eq_refl) as T.
    destruct (Reconcile_Tenant "red" failed_cluster) as [w' err] eqn:E. intros Hh. apply T in Hh. subst err.
    vm_compute in E. discriminate.
Defined.
