(* ===== verification/EndToEnd.v ===== *)
(** From the reconciliations of the tenants to the input of the collector: once
    every tenant is settled, the collector finds everything that the statuses
    refer to, and its input passes validation. *)
From S2P Require Import Prelude Strs Json Errors ApiOtlp ApiOutput ApiTypes Persist Kube Watches Trace Cluster Utils Relations.
From S2P Require Import Exporters Processors Receivers Extensions Connectors ConfGen ConfGenFacts PipelineFacts WfInput.
From S2P Require Import Samples TenantManager RouteController CollectorManager Validator CollectorController.
From S2P Require Import CollectorInput CollectorTrace CollectorSpec Settle SettleRun ConvergeSpec.

Section EndToEnd.
Context `{Platform} (matches : selector → string → bool).

(** * Reading *)
#[local] Instance server : Client cluster := here matches.

(** What was read satisfies what reading promises. *)
Lemma answers_reads {A} (w : cluster) (Q : A → Prop) (m : M cluster (result A)) :
  answers w m → reads w (on_Ok Q) m → ∃ a, m w = (w, Ok a) ∧ Q a.
Proof. intros [a E] [_ HQ]. rewrite E in HQ. by exists a. Qed.

(** Names are unique, so an object is found under its own. *)
Lemma find_resource {A} (w : cluster) (as_T : Resource → option A) r x : well_kept w → r ∈ cl_resources w → as_T r = Some x →
  find_or (at_ref (ref_of r) (kind_of r)) as_T (cl_resources w) = Ok x.
Proof.
  intros Hw Hr Hx. unfold find_or.
  destruct (find_first_is_Some (at_ref (ref_of r) (kind_of r)) (cl_resources w) r) as [r' E]; [done|by apply at_ref_iff|].
  pose proof (find_first_Some _ _ _ E) as [Hr' Hk%at_ref_iff].
  rewrite E. cbn. assert (r = r') as <- by by apply (unique_resource _ (kept_resource_names _ Hw)).
  by rewrite Hx.
Qed.

Lemma get_subscription (w : cluster) s : well_kept w → ResSubscription s ∈ cl_resources w →
  Get_Subscription (Subscription_NamespacedName s) w = (w, Ok s).
Proof. intros Hw Hs. cbn. unfold look. f_equal. by apply (find_resource w _ (ResSubscription s)). Qed.

Lemma get_output (w : cluster) o : well_kept w → ResOutput o ∈ cl_resources w →
  Get_Output (Output_NamespacedName o) w = (w, Ok o).
Proof. intros Hw Ho. cbn. unfold look. f_equal. by apply (find_resource w _ (ResOutput o)). Qed.

Lemma get_bridge (w : cluster) b : well_kept w → b ∈ cl_bridges w → Get_Bridge (Bridge_Name b) w = (w, Ok b).
Proof.
  intros Hw Hb. cbn. unfold look, find_or. f_equal.
  destruct (find_first_is_Some (λ b', bool_decide (Bridge_Name b' = Bridge_Name b)) (cl_bridges w) b) as [b' E];
    [done|by apply bool_decide_eq_true|].
  pose proof (find_first_Some _ _ _ E) as [Hb' En%bool_decide_eq_true]. rewrite E. cbn. f_equal.
  by apply (NoDup_key Bridge_Name (cl_bridges w)); [apply Hw|..].
Qed.

Lemma secret_answers (w : cluster) o q : secret_found matches w o → QueryOutputSecretWithData o = Some q → answers w q.
Proof.
  intros Hs Hq. unfold secret_found, query_secret_error, QueryOutputSecret in Hs.
  change (cluster_client matches) with server in Hs. rewrite Hq in Hs.
  assert (∃ a, OutputSpec_Authentication (Output_Spec o) = Some a) as [a Ea].
  { unfold QueryOutputSecretWithData in Hq. destruct (OutputSpec_Authentication (Output_Spec o)); [eauto|done]. }
  rewrite Ea in Hs. cbn in Hs. unfold bind, ret in Hs.
  assert ((q w).1 = w) as Ew.
  { unfold QueryOutputSecretWithData in Hq. rewrite Ea in Hq. cbn in Hq. injection Hq as <-.
    destruct (auth_refs a) as [|[ref n] [|]]; done. }
  destruct (q w) as [w' [sec|e]] eqn:E; cbn in Hs, Ew; [|done]. subst w'. by exists sec.
Qed.

(** * A cluster whose tenants are settled *)
Section Settled.
Context (w : cluster) (Hw : well_kept w).

(** Every tenant is healthy, and its last reconciliation changed nothing. *)
Definition all_settled : Prop := ∀ t, t ∈ cl_tenants w →
  healthy matches (Tenant_Name t) w t ∧ settle matches (Tenant_Name t) w = w.

Context (Hall : all_settled).

(** What a tenant takes, and where it can look *)
Definition taken_by (t : Tenant) : list Subscription :=
  taken_subscriptions (Tenant_Name t) (collects matches w t) (cl_resources w).

Lemma settled_tenant_status t : t ∈ cl_tenants w → Tenant_Status t = settled_status matches w t.
Proof using Hall.
  intros Ht. destruct (Hall t Ht) as [Hh Hs].
  apply (settled_iff matches _ w t (healthy_tenant _ _ _ _ Hh)) in Hs as (_ & _ & Hst). by apply Hst.
Qed.

Lemma status_subscriptions_of t ref : t ∈ cl_tenants w →
  ref ∈ status_subscriptions t ↔ ∃ s, s ∈ taken_by t ∧ Subscription_NamespacedName s = ref.
Proof using Hall.
  intros Ht. unfold status_subscriptions. rewrite (settled_tenant_status t Ht). cbn [settled_status TenantStatus_Subscriptions].
  rewrite elems_renil. cbn [elems default]. rewrite SortNamespacedNames_perm. unfold taken_by.
  split; [intros (s & -> & Hs)%list_elem_of_fmap; by exists s|intros (s & Hs & <-); by apply list_elem_of_fmap_2].
Qed.

Lemma status_bridges_of t n : t ∈ cl_tenants w →
  n ∈ status_bridges t ↔ ∃ b, b ∈ cl_bridges w ∧ Bridge_Name b = n ∧ touches (Tenant_Name t) b = true.
Proof using Hall.
  intros Ht. unfold status_bridges. rewrite (settled_tenant_status t Ht). cbn [settled_status TenantStatus_ConnectedBridges].
  rewrite elems_renil. cbn [elems default]. rewrite sort_strings_perm. unfold bridge_names, touches.
  etrans; [apply list_elem_of_fmap|]. setoid_rewrite elem_of_app. setoid_rewrite list_elem_of_filter.
  setoid_rewrite orb_true_iff. setoid_rewrite bool_decide_eq_true. naive_solver.
Qed.

Lemma taken_settled t s : t ∈ cl_tenants w → s ∈ taken_by t →
  ResSubscription s ∈ cl_resources w ∧ s = ready_subscription (Tenant_Name t) s.
Proof using Hall.
  intros Ht (r & Hr & Hs)%list_elem_of_omap. unfold taken_subscription in Hs. destruct (takes _ _ r) eqn:Etk; [|done].
  destruct r as [s'|]; [|done]. injection Hs as ->. split; [done|].
  destruct (Hall t Ht) as [Hh Hst]. apply (settled_iff matches _ w t (healthy_tenant _ _ _ _ Hh)) in Hst as (Hres & _).
  specialize (Hres _ Hr). unfold takes in Etk. apply andb_true_iff in Etk as [E1 E2].
  unfold settle_resource in Hres. rewrite E1, E2 in Hres. by injection Hres.
Qed.

Lemma taken_outputs t s : t ∈ cl_tenants w → s ∈ taken_by t → status_outputs s ≡ₚ elems (SubscriptionSpec_Outputs (Subscription_Spec s)).
Proof using Hall.
  intros Ht Hs. destruct (taken_settled t s Ht Hs) as [_ E]. unfold status_outputs. rewrite E at 1.
  cbn [ready_subscription Subscription_set_Status Subscription_Status SubscriptionStatus_Outputs].
  rewrite elems_renil. apply SortNamespacedNames_perm.
Qed.

Lemma settled_readable t : t ∈ cl_tenants w → readable w t.
Proof using Hall Hw.
  intros Ht. split.
  - intros ref (s & Hs & <-)%status_subscriptions_of; [|done]. exists s. apply get_subscription; [done|].
    by apply (taken_settled t).
  - intros n (b & Hb & <- & _)%status_bridges_of; [|done]. exists b. by apply get_bridge.
Qed.

(** * What the collector reads there *)
Context `{MapRange}.

Lemma settled_snapshot_here : snapshot w.
Proof using Hall Hw.
  apply (cluster_snapshot matches); [apply Hw|]. apply Forall_forall. intros t Ht. rewrite (settled_tenant_status t Ht).
  split; apply decoded_renil.
Qed.

(** A subscription that a status names, as it is read *)
Lemma read_subscription t ref s : t ∈ cl_tenants w → ref ∈ status_subscriptions t → subscription_at w ref s → s ∈ taken_by t.
Proof using Hall Hw.
  intros Ht (s' & Hs' & <-)%status_subscriptions_of Hat; [|done]. unfold subscription_at in Hat.
  rewrite (get_subscription w s' Hw (proj1 (taken_settled t s' Ht Hs'))) in Hat. by injection Hat as <-.
Qed.

Lemma read_bridge t n b : t ∈ cl_tenants w → n ∈ status_bridges t → bridge_at w n b →
  b ∈ cl_bridges w ∧ touches (Tenant_Name t) b = true.
Proof using Hall Hw.
  intros Ht (b' & Hb' & <- & Htb)%status_bridges_of Hat; [|done]. unfold bridge_at in Hat.
  rewrite (get_bridge w b' Hw Hb') in Hat. by injection Hat as <-.
Qed.

(** An output that a settled subscription names can be read, and its secret. *)
Lemma settled_output t s ref : t ∈ cl_tenants w → s ∈ taken_by t → ref ∈ status_outputs s → ∀ outs, answers w (gather_output s ref outs).
Proof using Hall Hw.
  intros Ht Hs Hr outs. rewrite (taken_outputs t s Ht Hs) in Hr. destruct (Hall t Ht) as [Hh _].
  destruct (healthy_references _ _ _ _ Hh ref) as (o & Ho & <- & _ & Hsec).
  { apply existsb_exists. exists s. rewrite bool_decide_eq_true. split; [by apply list_elem_of_In|done]. }
  unfold gather_output. apply answers_try_at with (a := o).
  - unfold wrapM, bind, ret. by rewrite (get_output w o Hw Ho).
  - destruct (QueryOutputSecretWithData o) as [q|] eqn:Eq; [|by eexists].
    apply answers_try; [|intros sec; by eexists]. apply answers_wrapM. by apply (secret_answers w o).
Qed.

Lemma settled_relations collector sel : LabelSelectorAsSelector (CollectorSpec_TenantSelector (Collector_Spec collector)) = Ok sel →
  answers w (gather_relations collector).
Proof using Hall Hw.
  intros Hsel. unfold gather_relations. apply answers_try_at with (a := Some (cl_tenants w)).
  { unfold wrapM, getTenantsMatchingSelectors. rewrite Hsel. reflexivity. }
  cbn [elems default].
  destruct (answers_reads w (tenants_read w (cl_tenants w)) (loop gather_tenant (cl_tenants w) (mkGathered ∅ ∅ None)))
    as (g & Eg & _ & [Hsat Hsdom] & _).
  { apply answers_loop. intros t g Ht. apply gather_tenant_answers; [by apply settled_readable|].
    by rewrite (settled_tenant_status t Ht). }
  { apply (reads_tenants w settled_snapshot_here). }
  apply answers_try_at with (a := g); [done|].
  apply answers_try; [|intros outs; by eexists].
  apply answers_loop. intros s [m outs] Hs. cbn. apply answers_try; [|intros outs'; by eexists].
  apply elem_of_range_map_values in Hs as [ref Hs].
  assert (∃ t, t ∈ cl_tenants w ∧ ref ∈ status_subscriptions t) as (t & Ht & Href).
  { assert (ref ∈ cl_tenants w ≫= status_subscriptions) as (t & ? & ?)%list_elem_of_bind by (apply Hsdom; eauto). eauto. }
  apply answers_loop. intros oref outs' Ho. apply (settled_output t); [done| |done].
  by apply (read_subscription t ref s Ht Href), Hsat.
Qed.

(** What the specifications of tenants and subscriptions have to say for an
    input to pass validation: there is a subscription that a tenant takes, every
    one has outputs, and no tenant that selects logs from all namespaces also
    selects some. *)
Record presentable : Prop := {
  presentable_taken : ∃ t s, t ∈ cl_tenants w ∧ s ∈ taken_by t;
  presentable_outputs t s : t ∈ cl_tenants w → s ∈ taken_by t → elems (SubscriptionSpec_Outputs (Subscription_Spec s)) ≠ [];
  presentable_logs t : t ∈ cl_tenants w → TenantSpec_SelectFromAllNamespaces (Tenant_Spec t) = true →
    TenantSpec_LogSourceNamespaceSelectors (Tenant_Spec t) = []
}.

Lemma relations_of_settled collector sel r : LabelSelectorAsSelector (CollectorSpec_TenantSelector (Collector_Spec collector)) = Ok sel →
  relations_read w collector r →
  elems (Tenants r) = cl_tenants w ∧
  (∀ ref s, melems (Subscriptions r) !! ref = Some s → ∃ t, t ∈ cl_tenants w ∧ s ∈ taken_by t) ∧
  (∀ t s, t ∈ cl_tenants w → s ∈ taken_by t → melems (Subscriptions r) !! Subscription_NamespacedName s = Some s) ∧
  (∀ b, b ∈ elems (Bridges r) ↔ ∃ t, t ∈ cl_tenants w ∧ b ∈ cl_bridges w ∧ touches (Tenant_Name t) b = true).
Proof using Hall Hw.
  intros Hsel (ts & g & outs & (sel' & _ & Hl) & (_ & [Hat Hdom] & Hbs & _) & _ & ->). cbn in Hl. subst ts.
  cbn [Tenants Subscriptions Bridges elems melems default] in *. split_and!.
  - done.
  - intros ref s Hs. assert (ref ∈ cl_tenants w ≫= status_subscriptions) as (t & Href & Ht)%list_elem_of_bind by (apply Hdom; eauto).
    exists t. split; [done|]. by apply (read_subscription t ref s Ht Href), Hat.
  - intros t s Ht Hs. destruct (proj2 (Hdom (Subscription_NamespacedName s))) as [s' Es].
    { apply list_elem_of_bind. exists t. split; [|done]. apply status_subscriptions_of; [done|]. by exists s. }
    etrans; [exact Es|]. f_equal. apply Hat in Es. unfold subscription_at in Es.
    rewrite (get_subscription w s Hw (proj1 (taken_settled t s Ht Hs))) in Es. by injection Es.
  - intros b. split.
    + intros Hb. destruct (Forall2_in_r _ _ _ _ Hbs Hb) as (n & (t & Hn & Ht)%list_elem_of_bind & Hat').
      exists t. split; [done|]. by apply (read_bridge t n b).
    + intros (t & Ht & Hb & Htb). destruct (Forall2_in_l _ _ _ (Bridge_Name b) Hbs) as (b' & Hb' & Hat').
      { apply list_elem_of_bind. exists t. split; [|done]. apply status_bridges_of; [done|]. by exists b. }
      unfold bridge_at in Hat'. rewrite (get_bridge w b Hw Hb) in Hat'. by injection Hat' as <-.
Qed.

Lemma settled_valid collector sel r limiter events debug dry axo : presentable →
  LabelSelectorAsSelector (CollectorSpec_TenantSelector (Collector_Spec collector)) = Ok sel → relations_read w collector r →
  ValidateConfigInput (mkInput r limiter events debug dry axo) = None.
Proof using Hall Hw.
  intros [(t0 & s0 & Ht0 & Hs0) Houts Hlogs] Hsel Hr.
  destruct (relations_of_settled collector sel r Hsel Hr) as (Ets & Hsubs & Htaken & Hbs).
  apply ValidateConfigInput_None. unfold in_Tenants, in_Subscriptions, in_Bridges. cbn [Input_Relations]. rewrite Ets. split_and!.
  - intros E. rewrite E in Ht0. by apply not_elem_of_nil in Ht0.
  - intros t Ht [Hl Hf]. apply Hl. rewrite (settled_tenant_status t Ht). cbn [settled_status TenantStatus_LogSourceNamespaces].
    rewrite (Hlogs t Ht Hf). cbn [selects existsb]. by induction (cl_namespaces w).
  - left. intros E. specialize (Htaken t0 s0 Ht0 Hs0). rewrite E, lookup_empty in Htaken. done.
  - intros ref s (t & Ht & Hs)%Hsubs. by apply (Houts t).
  - intros b (t & Ht & Hb & Htb)%Hbs. destruct (Hall t Ht) as [Hh _].
    assert (∀ n, n ∈ [BridgeSpec_SourceTenant (Bridge_Spec b); BridgeSpec_TargetTenant (Bridge_Spec b)] →
      n ∈ Tenant_Name <$> cl_tenants w) as Hends.
    { intros n Hn. destruct (healthy_bridges _ _ _ _ Hh b Hb Htb n Hn) as [t' [Ht' Ep]%find_first_Some].
      apply bool_decide_eq_true in Ep as <-. by apply list_elem_of_fmap_2. }
    split; apply Hends; [apply list_elem_of_here|apply list_elem_of_further, list_elem_of_here].
Qed.
(** The outputs that are read are those of the cluster. *)
Lemma read_outputs collector r o : relations_read w collector r → o ∈ elems (OutputsWithSecretData r) →
  ResOutput (OWS_Output o) ∈ cl_resources w.
Proof using Type.
  intros (ts & g & outs & _ & _ & [_ Ho] & ->) Hin. cbn in Hin.
  apply (Forall2_in_r _ _ _ _ Ho) in Hin as (ref & _ & Hat & _). cbn in Hat. unfold look, find_or in Hat. cbn in Hat.
  destruct (find_first _ _) as [r|] eqn:E; cbn in Hat; [|done].
  apply find_first_Some in E as [Hr _]. destruct r; [done|]. by injection Hat as <-.
Qed.

(** The input that is built there *)
Record settled_input (c : OtelColConfigInput) : Prop := {
  settled_wf : wf_input c;
  settled_accepted : ValidateConfigInput c = None;
  settled_tenants : in_Tenants c = cl_tenants w;
  settled_taken ref s : in_Subscriptions c !! ref = Some s →
    ∃ t, t ∈ cl_tenants w ∧ s ∈ taken_by t ∧ Subscription_NamespacedName s = ref;
  settled_all_taken t s : t ∈ cl_tenants w → s ∈ taken_by t → in_Subscriptions c !! Subscription_NamespacedName s = Some s;
  settled_bridges b : b ∈ in_Bridges c ↔ ∃ t, t ∈ cl_tenants w ∧ b ∈ cl_bridges w ∧ touches (Tenant_Name t) b = true;
  settled_outputs o : o ∈ in_Outputs c → ResOutput (OWS_Output o) ∈ cl_resources w;
  settled_routes ref s : in_Subscriptions c !! ref = Some s → elems (SubscriptionStatus_Outputs (Subscription_Status s)) ≠ []
}.

Lemma settled_build collector sel : presentable →
  LabelSelectorAsSelector (CollectorSpec_TenantSelector (Collector_Spec collector)) = Ok sel →
  ∃ c, BuildConfigInputForCollector (Collector_SetDefaults collector) w = (w, Some (Ok c)) ∧ settled_input c.
Proof using Hall Hw.
  intros Hp Hsel. set (col := Collector_SetDefaults collector).
  assert (LabelSelectorAsSelector (CollectorSpec_TenantSelector (Collector_Spec col)) = Ok sel) as Hsel' by done.
  destruct (settled_relations col sel Hsel') as [r Er].
  pose proof (reads_relations w settled_snapshot_here col) as [_ Hr]. rewrite Er in Hr. cbn in Hr.
  destruct (relations_of_settled col sel r Hsel' Hr) as (Ets & Hsubs & Htaken & Hbs).
  eexists. split; [unfold BuildConfigInputForCollector, bind at 1; rewrite Er; reflexivity|].
  match goal with |- settled_input ?x => set (c := x) end.
  assert (wf_input c) as Hwf by by apply (read_wf w settled_snapshot_here col).
  split; try done.
  - by apply (settled_valid col sel).
  - intros ref s Es. destruct (Hsubs ref s Es) as (t & Ht & Hin). exists t. split_and!; [done..|].
    by apply (wf_subscription_name c Hwf).
  - intros o. by apply (read_outputs col).
  - intros ref s (t & Ht & Hin)%Hsubs E. apply (presentable_outputs Hp t s Ht Hin).
    apply Permutation_nil. rewrite <- E. apply (taken_outputs t s Ht Hin).
Qed.
End Settled.

(** * After the tenants were reconciled *)

(** What a subscription is asked to be *)
Definition wanted (s : Subscription) : SubscriptionSpec * NamespacedName := (Subscription_Spec s, Subscription_NamespacedName s).

(** A tenant has the same to do in two clusters. *)
Definition same_task (w w' : cluster) (t t' : Tenant) : Prop :=
  Tenant_Name t' = Tenant_Name t ∧ Tenant_Spec t' = Tenant_Spec t ∧
  wanted <$> taken_by w' t' = wanted <$> taken_by w t.

Lemma same_task_refl w t : same_task w w t t.
Proof. done. Qed.

Lemma same_task_trans w0 w1 w2 t0 t1 t2 : same_task w0 w1 t0 t1 → same_task w1 w2 t1 t2 → same_task w0 w2 t0 t2.
Proof. unfold same_task. intuition congruence. Qed.

(** A subscription that is taken here has a counterpart there. *)
Lemma same_task_taken w w' t t' s : same_task w w' t t' → s ∈ taken_by w' t' → ∃ s0, s0 ∈ taken_by w t ∧ wanted s = wanted s0.
Proof.
  intros (_ & _ & E) Hs. assert (wanted s ∈ wanted <$> taken_by w t) as (s0 & ? & ?)%list_elem_of_fmap; [|eauto].
  rewrite <- E. by apply list_elem_of_fmap_2.
Qed.

Lemma same_task_sym w w' t t' : same_task w w' t t' → same_task w' w t' t.
Proof. unfold same_task. intuition congruence. Qed.

Lemma settle_same_task names w b a ta : group matches names w → b ∈ names → a ∈ names → find_tenant w a = Some ta →
  ∃ ta', find_tenant (settle matches b w) a = Some ta' ∧ same_task w (settle matches b w) ta ta'.
Proof.
  intros Hg Hb Ha Hta. destruct (group_healthy _ _ _ Hg b Hb) as [tb Htb]. destruct (group_healthy _ _ _ Hg a Ha) as [ta0 Hh].
  assert (ta0 = ta) as -> by (pose proof (healthy_tenant _ _ _ _ Hh); congruence).
  destruct (found_after matches names w a b Hg Ha Hb) as [ta1 Hta1]. exists ta1. split; [done|].
  assert (a = b ∨ compatible matches w a b) as Hab by (destruct (decide (a = b)); [by left|right; by apply Hg]).
  pose proof (step_takes matches b w tb Htb a ta ta1 Hh Hta1 Hab) as Htk.
  pose proof (healthy_tenant _ _ _ _ Htb) as Eb.
  pose proof Hta as [_ En%bool_decide_eq_true]%find_first_Some. pose proof Hta1 as [_ En1%bool_decide_eq_true]%find_first_Some.
  split_and!; [congruence|by apply (other_spec matches b w tb Eb a)|]. unfold taken_by. rewrite En1, En.
  rewrite (other_collects matches b w tb Eb a ta ta1 Hta Hta1), (settle_unfold matches b w tb Eb).
  pose proof (other_taken matches b w tb a ta Htk) as Hf. cbn [cl_resources]. unfold wanted.
  induction Hf as [|s' s ss' ss [E1 E2] _ IHf]; [done|]. by rewrite !fmap_cons, IHf, E1, E2.
Qed.

Lemma group_same_task names schedule w : group matches names w → schedule ⊆ names →
  ∀ a ta, a ∈ names → find_tenant w a = Some ta →
  ∃ ta', find_tenant (reconcile_all matches schedule w) a = Some ta' ∧ same_task w (reconcile_all matches schedule w) ta ta'.
Proof.
  revert w. induction schedule as [|b schedule IH]; intros w Hg Hs a ta Ha Hta.
  { exists ta. split; [done|apply same_task_refl]. }
  assert (b ∈ names) as Hb by apply Hs, list_elem_of_here.
  cbn [reconcile_all foldl]. rewrite (group_reconcile matches names) by done. cbn [fst].
  destruct (settle_same_task names w b a ta Hg Hb Ha Hta) as (ta1 & E1 & T1).
  destruct (IH (settle matches b w)) with (a := a) (ta := ta1) as (ta' & E & T); [by apply group_step| |done..|].
  { intros x Hx. by apply Hs, list_elem_of_further. }
  exists ta'. split; [done|]. by eapply same_task_trans.
Qed.

Lemma settle_tenant_names b w : Tenant_Name <$> cl_tenants (settle matches b w) = Tenant_Name <$> cl_tenants w.
Proof.
  unfold settle. destruct (find_tenant w b); [|done]. cbn. rewrite <- list_fmap_compose.
  apply list_fmap_ext. intros _ t' _. cbn. by case_bool_decide.
Qed.

Lemma group_tenant_names names schedule w : group matches names w → schedule ⊆ names →
  Tenant_Name <$> cl_tenants (reconcile_all matches schedule w) = Tenant_Name <$> cl_tenants w.
Proof.
  revert w. induction schedule as [|b schedule IH]; intros w Hg Hs; [done|].
  assert (b ∈ names) as Hb by apply Hs, list_elem_of_here.
  cbn [reconcile_all foldl]. rewrite (group_reconcile matches names) by done. cbn [fst].
  rewrite <- (settle_tenant_names b w). apply IH; [by apply group_step|]. intros x Hx. by apply Hs, list_elem_of_further.
Qed.

Lemma find_named w t : well_kept w → t ∈ cl_tenants w → find_tenant w (Tenant_Name t) = Some t.
Proof.
  intros Hw Ht. unfold find_tenant. destruct (find_first_is_Some (λ t', bool_decide (Tenant_Name t' = Tenant_Name t)) (cl_tenants w) t) as [t' E];
    [done|by apply bool_decide_eq_true|].
  pose proof (find_first_Some _ _ _ E) as [Ht' En%bool_decide_eq_true]. rewrite E. f_equal.
  by apply (NoDup_key Tenant_Name (cl_tenants w)); [apply Hw|..].
Qed.

Context `{MapRange}.

(** A group of tenants that includes every tenant of the cluster *)
Section Everyone.
Context (w : cluster) (schedule : list string).
Let names := Tenant_Name <$> cl_tenants w.
Context (Hg : group matches names w) (Hap : apart matches names w).
Context (Hs : schedule ⊆ names) (Hs' : names ⊆ schedule).
Let w' := reconcile_all matches schedule w.

Lemma everyone_kept : well_kept w'.
Proof using Hg Hs. apply (group_reconcile_all matches names); done. Qed.

Lemma everyone_named t' : t' ∈ cl_tenants w' → Tenant_Name t' ∈ names.
Proof using Hg Hs. intros Ht'. unfold names. rewrite <- (group_tenant_names names schedule w Hg Hs). by apply list_elem_of_fmap_2. Qed.

Lemma everyone_settled : all_settled w'.
Proof using Hg Hap Hs Hs'.
  intros t' Ht'. pose proof (everyone_named t' Ht') as Hin. split.
  - destruct (group_healthy _ _ _ (group_reconcile_all matches names w schedule Hg Hs) (Tenant_Name t') Hin) as [t'' Hh].
    assert (t'' = t') as ->; [|done]. pose proof (healthy_tenant _ _ _ _ Hh) as E. fold w' in E.
    rewrite (find_named w' t' everyone_kept Ht') in E. by injection E.
  - apply (converges matches names [] schedule w Hg Hap Hs); [intros x []%not_elem_of_nil|intros x []%not_elem_of_nil|by apply Hs'].
Qed.

(** Every tenant has its counterpart. *)
Lemma everyone_before t' : t' ∈ cl_tenants w' → ∃ t, t ∈ cl_tenants w ∧ same_task w w' t t'.
Proof using Hg Hs.
  intros Ht'. pose proof (everyone_named t' Ht') as Hin. destruct (group_healthy _ _ _ Hg _ Hin) as [t Hh].
  pose proof (healthy_tenant _ _ _ _ Hh) as E. exists t. split; [by apply (find_first_Some _ _ _ E)|].
  destruct (group_same_task names schedule w Hg Hs _ t Hin E) as (t'' & E' & T). fold w' in E', T.
  rewrite (find_named w' t' everyone_kept Ht') in E'. by injection E' as ->.
Qed.

Lemma everyone_after t : t ∈ cl_tenants w → ∃ t', t' ∈ cl_tenants w' ∧ same_task w w' t t'.
Proof using Hg Hs.
  intros Ht. destruct (group_same_task names schedule w Hg Hs (Tenant_Name t) t) as (t' & E & T).
  - by apply list_elem_of_fmap_2.
  - apply find_named; [apply Hg|done].
  - exists t'. split; [by apply (find_first_Some _ _ _ E)|done].
Qed.

Lemma everyone_presentable : presentable w → presentable w'.
Proof using Hg Hs.
  intros [(t & s & Ht & Hts) Houts Hlogs]. split.
  - destruct (everyone_after t Ht) as (t' & Ht' & T).
    destruct (same_task_taken _ _ _ _ s (same_task_sym _ _ _ _ T) Hts) as (s' & Hs'' & _). eauto.
  - intros t' s' Ht' Hs''. destruct (everyone_before t' Ht') as (t0 & Ht0 & T).
    destruct (same_task_taken _ _ _ _ s' T Hs'') as (s0 & Hs0 & [= -> _]). by apply (Houts t0).
  - intros t' Ht'. destruct (everyone_before t' Ht') as (t0 & Ht0 & _ & -> & _). by apply Hlogs.
Qed.

Lemma everyone_taken ref :
  (∃ t' s', t' ∈ cl_tenants w' ∧ s' ∈ taken_by w' t' ∧ Subscription_NamespacedName s' = ref) ↔
  (∃ t s, t ∈ cl_tenants w ∧ s ∈ taken_by w t ∧ Subscription_NamespacedName s = ref).
Proof using Hg Hs.
  split.
  - intros (t' & s' & Ht' & Hs'' & <-). destruct (everyone_before t' Ht') as (t & Ht & T).
    destruct (same_task_taken _ _ _ _ s' T Hs'') as (s & Hin & E). exists t, s. by rewrite (f_equal snd E : Subscription_NamespacedName s' = _).
  - intros (t & s & Ht & Hts & <-). destruct (everyone_after t Ht) as (t' & Ht' & T).
    destruct (same_task_taken _ _ _ _ s (same_task_sym _ _ _ _ T) Hts) as (s' & Hin & E). exists t', s'. by rewrite (f_equal snd E : Subscription_NamespacedName s = _).
Qed.
End Everyone.

(** From the tenants to the collector: once every tenant was reconciled, in
    any order, the input of a collector can be built, is well formed and passes
    validation, every subscription has an output to route to, and the
    subscriptions are those that the tenants of the cluster take. The collector
    waits for no tenant and skips no resource. *)
Theorem settled_tenants_make_a_valid_input w schedule collector sel :
  group matches (Tenant_Name <$> cl_tenants w) w → apart matches (Tenant_Name <$> cl_tenants w) w → presentable w →
  schedule ⊆ Tenant_Name <$> cl_tenants w → Tenant_Name <$> cl_tenants w ⊆ schedule →
  LabelSelectorAsSelector (CollectorSpec_TenantSelector (Collector_Spec collector)) = Ok sel →
  let w' := reconcile_all matches schedule w in
  ∃ c, BuildConfigInputForCollector (Client0 := here matches) (Collector_SetDefaults collector) w' = (w', Some (Ok c)) ∧
    ValidateConfigInput c = None ∧ wf_input c ∧
    Tenant_Name <$> in_Tenants c = Tenant_Name <$> cl_tenants w ∧
    (∀ ref s, in_Subscriptions c !! ref = Some s → elems (SubscriptionStatus_Outputs (Subscription_Status s)) ≠ []) ∧
    (∀ ref, is_Some (in_Subscriptions c !! ref) ↔
      ∃ t s, t ∈ cl_tenants w ∧ s ∈ taken_by w t ∧ Subscription_NamespacedName s = ref).
Proof.
  intros Hg Hap Hp Hs Hs' Hsel w'. pose proof (everyone_kept w schedule Hg Hs) as Hw'.
  pose proof (everyone_settled w schedule Hg Hap Hs Hs') as Hall. pose proof (everyone_presentable w schedule Hg Hs Hp) as Hp'.
  destruct (settled_build w' Hw' Hall collector sel Hp' Hsel) as (c & Hb & Hc). exists c.
  split_and!; [exact Hb|apply Hc|apply Hc| |apply Hc|].
  - rewrite (settled_tenants _ _ Hc). by apply group_tenant_names with (names := Tenant_Name <$> cl_tenants w).
  - intros ref. rewrite <- (everyone_taken w schedule Hg Hs ref). fold w'. split.
    + intros [s (t & Ht & Hin & E)%(settled_taken _ _ Hc)]. eauto.
    + intros (t & s & Ht & Hin & <-). exists s. by apply (settled_all_taken _ _ Hc t).
Qed.
End EndToEnd.

#[local] Existing Instance sample_platform.

Lemma apart_presentable : presentable by_name apart_cluster.
Proof.
  assert (∀ t, t ∈ cl_tenants apart_cluster →
    Forall (λ s, elems (SubscriptionSpec_Outputs (Subscription_Spec s)) ≠ []) (taken_by by_name apart_cluster t)) as Houts.
  { refine (every_element (λ t, Forall (λ s, elems (SubscriptionSpec_Outputs (Subscription_Spec s)) ≠ [])
      (taken_by by_name apart_cluster t)) (cl_tenants apart_cluster) _). vm_compute. reflexivity. }
  split.
  - exists (neighbour "red"). eexists. split; [apply list_elem_of_here|].
    apply list_elem_of_lookup. exists 0%nat. vm_compute. reflexivity.
  - intros t s Ht. apply (proj1 (Forall_forall _ _) (Houts t Ht)).
  - assert (∀ t, t ∈ cl_tenants apart_cluster → TenantSpec_SelectFromAllNamespaces (Tenant_Spec t) = false) as Hf.
    { refine (every_element (λ t, TenantSpec_SelectFromAllNamespaces (Tenant_Spec t) = false) (cl_tenants apart_cluster) _).
      vm_compute. reflexivity. }
    intros t Ht. by rewrite (Hf t Ht).
Qed.

Lemma settled_tenants_make_a_valid_input_witness :
  let w' := reconcile_all by_name ["green"; "red"] apart_cluster in
  ∃ c, BuildConfigInputForCollector (Client0 := here by_name) (Collector_SetDefaults sample_collector) w' = (w', Some (Ok c)) ∧
    ValidateConfigInput c = None.
Proof.
  assert (∃ sel, LabelSelectorAsSelector (CollectorSpec_TenantSelector (Collector_Spec sample_collector)) = Ok sel) as [sel Hsel]
    by (eexists; reflexivity).
  destruct (settled_tenants_make_a_valid_input (H := sample_platform) by_name apart_cluster ["green"; "red"] sample_collector sel)
    as (c & Hb & Hv & _); [exact apart_group|exact apart_apart|exact apart_presentable| | |exact Hsel|exists c; exact (conj Hb Hv)].
  - intros x Hx. change (x ∈ ["red"; "green"]). set_solver.
  - intros x Hx. change (x ∈ ["red"; "green"]) in Hx. set_solver.
Defined.
