(* ===== verification/DeploySpec.v ===== *)
(** The whole way from the tenants to the collector: once the tenants are
    settled, the reconciliation of a collector assembles a configuration that
    passes every check of the program, applies all its objects and reports that
    it is ready. *)
From S2P Require Import Prelude Strs Json Errors ApiOtlp ApiOutput ApiTypes Persist Kube Watches Trace Cluster Utils Relations.
From S2P Require Import Exporters Processors Receivers Extensions Connectors ConfGen Names ConfGenFacts PipelineFacts WfInput.
From S2P Require Import Samples ConfGenSpec PipelineSpec ModeSpec TenantManager RouteController CollectorManager Validator CollectorController.
From S2P Require Import CollectorInput CollectorTrace CollectorSpec ValidatorSpec Settle SettleRun ConvergeSpec EndToEnd.

(** * What reconciling a tenant keeps of the resources *)
Section Kept.
Context `{Platform} (matches : selector → string → bool).

(** What the user wrote *)
Definition written (r : Resource) : NamespacedName * (SubscriptionSpec + OutputSpec) :=
  (ref_of r, match r with ResSubscription s => inl (Subscription_Spec s) | ResOutput o => inr (Output_Spec o) end).

Lemma settle_written b w : written <$> cl_resources (settle matches b w) = written <$> cl_resources w.
Proof.
  unfold settle. destruct (find_tenant w b) as [t|]; [|done]. cbn. rewrite <- list_fmap_compose.
  apply list_fmap_ext. intros _ r _. cbn. unfold written. destruct r as [s|o].
  - destruct (settle_subscription_shape b (collects matches w t) (referenced b (collects matches w t) (cl_resources w)) s)
      as (s' & -> & E1 & E2). cbn. rewrite E1. f_equal. exact E2.
  - destruct (settle_output_shape b (collects matches w t) (referenced b (collects matches w t) (cl_resources w)) o)
      as (o' & -> & E1 & E2). cbn. rewrite E1. f_equal. exact E2.
Qed.

Lemma group_written names schedule w : group matches names w → schedule ⊆ names →
  written <$> cl_resources (reconcile_all matches schedule w) = written <$> cl_resources w.
Proof.
  revert w. induction schedule as [|b schedule IH]; intros w Hg Hs; [done|].
  assert (b ∈ names) as Hb by apply Hs, list_elem_of_here.
  cbn [reconcile_all foldl]. rewrite (group_reconcile matches names) by done. cbn [fst].
  rewrite <- (settle_written b w). apply IH; [by apply group_step|]. intros x Hx. by apply Hs, list_elem_of_further.
Qed.

Lemma written_elem (rs rs' : list Resource) r : written <$> rs' = written <$> rs → r ∈ rs' → ∃ r0, r0 ∈ rs ∧ written r = written r0.
Proof.
  intros E Hr. assert (written r ∈ written <$> rs) as (r0 & ? & ?)%list_elem_of_fmap; [|eauto].
  rewrite <- E. by apply list_elem_of_fmap_2.
Qed.

(** Names as Kubernetes allows them, none with the word that the additional
    arguments look for, and encodings whose identifiers can be written *)
Definition plain_name (n : string) : Prop := dns n = true ∧ Contains n "transform" = false.

Record well_named (w : cluster) : Prop := {
  named_tenants t : t ∈ cl_tenants w → plain_name (Tenant_Name t);
  named_resources r : r ∈ cl_resources w → dns_ref (ref_of r) = true ∧ plain_name (GetName r);
  named_encodings o : ResOutput o ∈ cl_resources w → encodable o
}.

Lemma group_well_named names schedule w : group matches names w → schedule ⊆ names →
  well_named w → well_named (reconcile_all matches schedule w).
Proof.
  intros Hg Hs [Ht Hr Ho]. pose proof (group_written names schedule w Hg Hs) as Ew. split.
  - intros t Hin. assert (Tenant_Name t ∈ Tenant_Name <$> cl_tenants w) as (t0 & -> & Ht0)%list_elem_of_fmap.
    { rewrite <- (group_tenant_names matches names schedule w Hg Hs). by apply list_elem_of_fmap_2. }
    by apply Ht.
  - intros r (r0 & Hr0 & E)%(written_elem _ _ _ Ew). destruct (Hr r0 Hr0) as [H1 H2].
    rewrite (f_equal fst E : ref_of r = _). split; [done|].
    by rewrite (f_equal (λ x, NamespacedName_Name x.1) E : GetName r = _).
  - intros o (r0 & Hr0 & E)%(written_elem _ _ _ Ew). destruct r0 as [s|o0]; [discriminate (f_equal snd E)|].
    assert (Output_Spec o = Output_Spec o0) as Es by (pose proof (f_equal snd E) as E2; cbn in E2; congruence).
    specialize (Ho o0 Hr0). unfold encodable in *. by rewrite Es.
Qed.

(** The input that is built on a settled cluster is as its theorems want it. *)
Context `{MapRange}.

Lemma settled_routable w c : well_named w → settled_input matches w c → routable c.
Proof.
  intros Hn Hc. split; [apply Hc|]. intros o Ho. by apply (named_encodings w Hn), (settled_outputs _ _ _ Hc).
Qed.

Lemma settled_subscription w c ref s : all_settled matches w → settled_input matches w c → in_Subscriptions c !! ref = Some s →
  ResSubscription s ∈ cl_resources w ∧ Subscription_NamespacedName s = ref.
Proof.
  intros Hall Hc Hs. destruct (settled_taken _ _ _ Hc ref s Hs) as (t & Ht & Hin & E).
  split; [|done]. by apply (taken_settled matches w Hall t).
Qed.

Lemma settled_dns w c : all_settled matches w → well_named w → settled_input matches w c → dns_input c.
Proof.
  intros Hall Hn Hc. split.
  - intros t. rewrite (settled_tenants _ _ _ Hc). intros Ht. by apply (named_tenants w Hn).
  - intros ref [s Hs]. destruct (settled_subscription w c ref s Hall Hc Hs) as [Hin <-].
    apply (named_resources w Hn _ Hin).
  - intros o Ho. apply (named_resources w Hn (ResOutput (OWS_Output o))), (settled_outputs _ _ _ Hc), Ho.
Qed.

Lemma settled_plain w c : all_settled matches w → well_named w → settled_input matches w c → plain_names c.
Proof.
  intros Hall Hn Hc. split.
  - intros t. rewrite (settled_tenants _ _ _ Hc). intros Ht. by apply (named_tenants w Hn).
  - intros ref s Hs. destruct (settled_subscription w c ref s Hall Hc Hs) as [Hin _].
    apply (named_resources w Hn _ Hin).
  - intros o Ho. apply (named_resources w Hn (ResOutput (OWS_Output o))), (settled_outputs _ _ _ Hc), Ho.
Qed.

Lemma plain_assembles c : plain_names c → ∃ args, AssembleConfig c = Some (assemble c, args).
Proof.
  intros Hp. unfold AssembleConfig, assembleAdditionalArgs. cbv zeta.
  replace (Config_Processors (assemble c)) with (generateProcessors c) by by rewrite assemble_eq.
  rewrite flatten_enabled_plain; [cbn; eauto|].
  intros k p Hk%elem_of_range_map. by eapply transform_named.
Qed.
End Kept.

(** * The reconciliation of the collector *)
Section Deploy.
Context `{Platform} `{MapRange} `{!Mapstructure} `{Otel} {W : Type} `{!Client W} `{!ResourceReconciler W}.

(** A resource reconciler that does what it is asked, outside of what the
    controllers read *)
Definition reliable : Prop :=
  (∀ collector o, SetControllerReference collector o = None) ∧ ∀ o (w : W), ReconcileResource o w = (w, None).

Context (Hrel : reliable).

Lemma reference_reliable collector o : SetControllerReference (ResourceReconciler := observed_reconciler (W := W)) collector o = None.
Proof using Hrel. apply Hrel. Qed.

Lemma reconcile_reliable o (w : W) log : ReconcileResource (W := observed W) o (w, log) = ((w, log ++ [Applied o]), None).
Proof using Hrel. cbn. unfold noting. cbn. by rewrite (proj2 Hrel). Qed.

Lemma apply_owned_reliable collector o m1 m2 (w : W) log :
  apply_owned (W := observed W) collector o m1 m2 (w, log) = ((w, log ++ [Applied o]), Some (Ok tt)).
Proof using Hrel.
  unfold apply_owned. rewrite reference_reliable. cbn [of_error wrap]. unfold tryP at 1, pureP, bind at 1, ret at 1.
  unfold lift, wrapM, bind. by rewrite reconcile_reliable.
Qed.

Lemma RBAC_reliable collector (w : W) log :
  ReconcileRBAC (W := observed W) collector (w, log) = ((w, log ++ (Applied <$> rbac_objects collector)), Ok (sa_ref collector)).
Proof using Hrel.
  unfold ReconcileRBAC, reconcileClusterRole, reconcileServiceAccount, reconcileClusterRoleBinding.
  rewrite !reference_reliable. unfold bind, ret. rewrite !reconcile_reliable. cbn [wrap_err fmap option_fmap option_map].
  by rewrite <- !app_assoc.
Qed.

(** Everything is applied, in order. *)
Lemma creation_succeeds collector f (w : W) c cfg args :
  CollectorSpec_OtelCommonFields (Collector_Spec collector) = Some f →
  BuildConfigInputForCollector (W := W) collector w = (w, Some (Ok c)) → ValidateConfigInput c = None →
  AssembleConfig c = Some (cfg, args) → ValidateAssembledConfig cfg = Some None →
  ∃ oc, OtelCollector collector cfg args (in_Tenants c) (in_Outputs c) (SA_Name (service_account collector)) = Some oc ∧ Otel_Config oc = cfg ∧
    handleCollectorCreation (W := observed W) collector (w, []) =
      ((w, Applied <$> all_objects collector c oc),
       Some (Ok (Collector_set_Tenants (Some (NormalizeStringSlice (names_of c))) collector))).
Proof using Hrel.
  intros Hf Hb Hv Ha Hc.
  destruct (OtelCollector_total collector f cfg args (in_Tenants c) (in_Outputs c) (SA_Name (service_account collector)) Hf)
    as (oc & Hoc & Ecfg). exists oc. split; [done|]. split; [done|].
  unfold handleCollectorCreation, wrapP at 1, tryP at 1, bind at 1 2. rewrite agrees_build, Hb. cbn [fst snd].
  unfold ret at 1. cbn [fmap option_fmap option_map wrap].
  unfold validate_input. rewrite Hv. unfold tryP at 1, pureP at 1, bind at 1, ret at 1.
  rewrite Ha. unfold tryP at 1, pureP at 1, bind at 1, ret at 1. cbn [fmap option_fmap option_map].
  rewrite Hc. unfold tryP at 1, wrapP at 1, pureP at 1, bind at 1 2, ret at 1 2. cbn [fmap option_fmap option_map of_error wrap].
  unfold tryP at 1, lift at 1, wrapM at 1, bind at 1 2 3, ret at 1 2. rewrite RBAC_reliable. cbn [wrap].
  unfold tryP at 1, bind at 1. rewrite apply_owned_reliable. cbn [NamespacedName_Name sa_ref].
  rewrite Hoc. unfold tryP at 1, pureP at 1, bind at 1, ret at 1. cbn [fmap option_fmap option_map].
  unfold tryP at 1, bind at 1. rewrite apply_owned_reliable. unfold pureP, ret. do 2 f_equal.
Qed.
End Deploy.

(** * The theorem *)
Section Deployed.
Context `{Platform} (matches : selector → string → bool).

(** What the collector is told when its objects are applied *)
Definition deployed_status (c : OtelColConfigInput) : CollectorStatus :=
  mkCollectorStatus (renil (Some (NormalizeStringSlice (names_of c)))) StateReady None 0.

Definition report (name : string) (st : CollectorStatus) (w : cluster) : cluster :=
  mkCluster (cl_namespaces w) (cl_tenants w) (cl_bridges w)
    ((λ c, if bool_decide (Collector_Name c = name) then Collector_set_Status st c else c) <$> cl_collectors w)
    (cl_resources w) (cl_secrets w) (cl_refuses w).

#[local] Existing Instance here.

Lemma finish_reports (collector : Collector) c (w : cluster) log : cl_refuses w = false →
  normal (Collector_Status collector) = Collector_Status collector →
  finish_collector (W := observed cluster) (Client0 := observed_client (Client0 := here matches)) (Collector_Status collector)
      (Collector_set_Tenants (Some (NormalizeStringSlice (names_of c))) (Collector_SetDefaults collector)) (w, log) =
    ((report (Collector_Name collector) (deployed_status c) w,
      log ++ [Sent (WCollector (ClearProblems (Collector_set_State StateReady
        (Collector_set_Tenants (Some (NormalizeStringSlice (names_of c))) (Collector_SetDefaults collector)))))]),
     mkReconcileResult None None).
Proof.
  intros Hr Hk. unfold finish_collector. rewrite bool_decide_false.
  2:{ intros E. apply (f_equal CollectorStatus_Problems) in E. cbn in E. rewrite <- Hk in E. cbn in E.
      by destruct (CollectorStatus_Problems (Collector_Status collector)) as [[|]|]. }
  cbn [negb]. unfold bind, ret. cbn [Update_Collector_status observed_client client_over here cluster_client]. unfold noting. cbn [fst snd].
  unfold update. rewrite Hr. unfold report, update_in. do 2 f_equal. f_equal; [|done].
  apply list_fmap_ext. intros _ c' _. destruct (decide (Collector_Name c' = Collector_Name collector)).
  - rewrite !bool_decide_true by done. unfold receive_Collector. by rewrite stored_normal.
  - by rewrite !bool_decide_false.
Qed.

Context `{MapRange} `{!Mapstructure} `{Otel} `{!ResourceReconciler cluster}.

(** A settled cluster is deployed. *)
Lemma settled_deploys (w : cluster) name (collector : Collector) sel telemetry :
  well_kept w → all_settled matches w → presentable matches w → well_named w →
  find_first (λ c, bool_decide (Collector_Name c = name)) (cl_collectors w) = Some collector →
  normal (Collector_Status collector) = Collector_Status collector →
  LabelSelectorAsSelector (CollectorSpec_TenantSelector (Collector_Spec collector)) = Ok sel →
  reliable (W := cluster) → accepts_types → mapstructure_laws →
  (∀ config c, Decode_telemetry config (generateTelemetry c) = Returns telemetry) →
  ∃ c cfg args oc,
    settled_input matches w c ∧ BuildConfigInputForCollector (Client0 := here matches) (Collector_SetDefaults collector) w = (w, Some (Ok c)) ∧
    AssembleConfig c = Some (assemble c, args) ∧ convert (assemble c) = Returns cfg ∧ Otel_Config oc = assemble c ∧
    OtelCollector (Collector_SetDefaults collector) (assemble c) args (in_Tenants c) (in_Outputs c)
      (SA_Name (service_account (Collector_SetDefaults collector))) = Some oc ∧
    (otelcol_Validate cfg = None →
     ∃ log, Reconcile_Collector (W := observed cluster) (Client0 := observed_client (Client0 := here matches)) name (w, []) =
         ((report name (deployed_status c) w, log), Some (mkReconcileResult None None)) ∧
       applied_objects log = all_objects (Collector_SetDefaults collector) c oc).
Proof.
  intros Hw Hall Hp Hn Hcol Hst Hsel Hrel Hotel Hlaws Htel.
  destruct (settled_build matches w Hw Hall collector sel Hp Hsel) as (c & Hb & Hc).
  destruct (plain_assembles c) as [args Ha]; [exact (settled_plain matches w c Hall Hn Hc)|].
  pose proof (settled_routable matches w c Hn Hc) as Hrt. pose proof (settled_dns matches w c Hall Hn Hc) as Hdns.
  destruct (config_converts c telemetry (settled_wf _ _ _ Hc) Hrt Hdns Hotel Hlaws) as (cfg & Ecfg & _ & _ & _ & _ & _ & _ & _ & _ & Ev).
  { intros config. rewrite assemble_eq. apply Htel. }
  set (col := Collector_SetDefaults collector).
  destruct (OtelCollector_total col _ (assemble c) args (in_Tenants c) (in_Outputs c) (SA_Name (service_account col)) eq_refl)
    as (oc & Hoc & Eoc).
  exists c, cfg, args, oc. do 6 (split; [done|]).
  intros Hval. rewrite Hval in Ev. cbn in Ev.
  destruct (creation_succeeds (Client0 := here matches) Hrel col _ w c (assemble c) args eq_refl Hb (settled_accepted _ _ _ Hc) Ha Ev)
    as (oc' & Hoc' & _ & Ec). assert (oc' = oc) as -> by congruence.
  assert (cl_refuses w = false) as Hserver.
  { destruct (presentable_taken _ _ Hp) as (t & _ & Ht & _). destruct (Hall t Ht) as [Hh _]. apply Hh. }
  assert (Collector_Name collector = name) as Ename.
  { apply find_first_Some in Hcol as [_ E]. by apply bool_decide_eq_true in E. }
  eexists. split.
  - unfold Reconcile_Collector, bind at 1. cbn [Get_Collector observed_client client_over]. unfold quietly at 1. cbn [fst snd].
    replace (Get_Collector (Client := here matches) name w) with (w, @Ok Collector collector)
      by (cbn; unfold look, find_or; by rewrite Hcol).
    unfold bind at 1. fold col. rewrite Ec. unfold bind at 1. fold (observed cluster).
    change (Collector_Status col) with (Collector_Status collector). unfold col at 1. rewrite finish_reports by done.
    rewrite Ename. reflexivity.
  - by apply (applied_objects_app _ [_]).
Qed.

(** ** After the report

    Reporting to a collector changes nothing that a tenant or the input of a
    collector is made from. *)
Lemma report_reads name st : same_reads (Client0 := here matches) (Client1 := here matches) (λ w' w, w' = report name st w).
Proof. split; intros x w' w ->; cbn; unfold look; by repeat case_match. Qed.

Lemma report_build name st (collector : Collector) w r : BuildConfigInputForCollector (Client0 := here matches) collector w = (w, r) →
  BuildConfigInputForCollector (Client0 := here matches) collector (report name st w) = (report name st w, r).
Proof.
  intros E. destruct (lockstep_build _ (report_reads name st) collector _ w eq_refl) as [E1 E2]. rewrite E in E1, E2. cbn in E1, E2.
  etrans; [apply surjective_pairing|by rewrite E1, E2].
Qed.

Lemma report_secret name st w o : secret_found matches w o → secret_found matches (report name st w) o.
Proof.
  unfold secret_found, query_secret_error, QueryOutputSecret, QueryOutputSecretWithData. intros Hs.
  destruct (OutputSpec_Authentication _) as [a|]; [|done]. cbn in *. by destruct (auth_refs a) as [|[ref n] [|]].
Qed.

Lemma report_healthy name st w n t : healthy matches n w t → healthy matches n (report name st w) t.
Proof.
  intros Hh. split; try apply Hh.
  intros ref Href. destruct (healthy_references _ _ _ _ Hh ref Href) as (o & Ho & E & Ht & Hs). exists o. split_and!; [done..|by apply report_secret].
Qed.

Lemma report_settled name st w : all_settled matches w → all_settled matches (report name st w).
Proof.
  intros Hall t Ht. destruct (Hall t Ht) as [Hh E]. split; [by apply report_healthy|].
  unfold settle in *. change (find_tenant (report name st w)) with (find_tenant w).
  rewrite (healthy_tenant _ _ _ _ Hh) in *. cbn [cl_namespaces cl_tenants cl_bridges cl_resources cl_collectors cl_secrets cl_refuses report].
  unfold report. f_equal; [exact (f_equal cl_tenants E)|exact (f_equal cl_bridges E)|exact (f_equal cl_resources E)].
Qed.

Lemma report_twice name st w : report name st (report name st w) = report name st w.
Proof.
  unfold report. cbn. f_equal. rewrite <- list_fmap_compose. apply list_fmap_ext. intros _ c _. cbn.
  destruct (decide (Collector_Name c = name)).
  - rewrite (bool_decide_true (Collector_Name c = name)) by done. cbn. by rewrite bool_decide_true.
  - by rewrite !(bool_decide_false (Collector_Name c = name)).
Qed.

Lemma report_found name st w collector :
  find_first (λ c, bool_decide (Collector_Name c = name)) (cl_collectors w) = Some collector →
  find_first (λ c, bool_decide (Collector_Name c = name)) (cl_collectors (report name st w)) = Some (Collector_set_Status st collector).
Proof.
  cbn. induction (cl_collectors w) as [|c cs IH]; cbn; [done|].
  destruct (bool_decide (Collector_Name c = name)) eqn:E; cbn; rewrite E; [by intros [= ->]|apply IH].
Qed.

End Deployed.

#[local] Existing Instance sample_platform.
#[local] Existing Instance sample_types.
#[local] Existing Instance sample_mapstructure.
#[local] Existing Instance sample_reconciler.

Lemma apart_named : well_named apart_cluster.
Proof.
  split.
  - refine (every_element (λ t, dns (Tenant_Name t) = true ∧ Contains (Tenant_Name t) "transform" = false) (cl_tenants apart_cluster) _).
    vm_compute. reflexivity.
  - refine (every_element (λ r, dns_ref (ref_of r) = true ∧ dns (GetName r) = true ∧ Contains (GetName r) "transform" = false)
      (cl_resources apart_cluster) _). vm_compute. reflexivity.
  - assert (∀ r, r ∈ cl_resources apart_cluster → match r with
        | ResOutput o => OutputSpec_File (Output_Spec o) = None ∧ OutputSpec_AWSS3 (Output_Spec o) = None
        | _ => True
        end) as Hr.
    { intros r. unfold apart_cluster, neighbours, own_resources_of. cbn [cl_resources app].
      rewrite !elem_of_cons, elem_of_nil. by intros [->|[->|[->|[->|[]]]]]. }
    intros o Ho. destruct (Hr _ Ho) as [E1 E2]. split; [by rewrite E1|by rewrite E2].
Qed.


