(* ===== verification/IsolationSpec.v ===== *)
(** What the two reconcilers make of the resources a user writes, seen from the
    data: on a cluster whose tenants are settled, the configuration that is
    built moves the records of a tenant to the outputs that subscriptions in
    the tenant's namespaces name, and over bridges, and nowhere else. *)
From S2P Require Import Prelude Strs Json Errors ApiOtlp ApiOutput ApiTypes Persist Kube Watches Cluster Utils Relations.
From S2P Require Import Exporters Processors Receivers Extensions Connectors ConfGen Names ConfGenFacts PipelineFacts WfInput Samples.
From S2P Require Import ConfGenSpec PipelineSpec TypeSpec FlowSpec.
From S2P Require Import TenantManager RouteController TenantSpec Settle SettleRun ConvergeSpec.
From S2P Require Import CollectorManager CollectorController CollectorInput CollectorSpec EndToEnd DeploySpec.

Section Isolation.
Context `{Platform} `{MapRange} (matches : selector → string → bool).
#[local] Existing Instance here.
Context (w : cluster) (Hw : well_kept w) (Hall : all_settled matches w) (Hn : well_named w).

(** A bridge of the cluster leads from one tenant to another. *)
Definition bridged (t1 t2 : Tenant) : Prop := t2 ∈ cl_tenants w ∧ ∃ b, b ∈ cl_bridges w ∧
  BridgeSpec_SourceTenant (Bridge_Spec b) = Tenant_Name t1 ∧ BridgeSpec_TargetTenant (Bridge_Spec b) = Tenant_Name t2.

Context (c : OtelColConfigInput) (Hc : settled_input matches w c).

Lemma settled_bridges_agree : bridges_agree c.
Proof using Hw Hc.
  intros b b' Hb Hb' E. apply (settled_bridges _ _ _ Hc) in Hb as (t & _ & Hb & _), Hb' as (t' & _ & Hb' & _).
  by apply (NoDup_key _ _ _ _ (kept_bridge_names _ Hw)).
Qed.

Lemma settled_bridge_to t1 t2 : bridge_to c t1 t2 ↔ bridged t1 t2.
Proof using Hc.
  unfold bridge_to, bridged. rewrite (settled_tenants _ _ _ Hc). split.
  - intros [Ht2 (b & Hb & E1 & E2)]. split; [done|]. apply (settled_bridges _ _ _ Hc) in Hb as (t & _ & Hb & _). by exists b.
  - intros [Ht2 (b & Hb & E1 & E2)]. split; [done|]. exists b. split; [|done]. apply (settled_bridges _ _ _ Hc). exists t2. split_and!; [done..|].
    unfold touches. rewrite (bool_decide_true (BridgeSpec_TargetTenant _ = _)) by done. apply orb_true_r.
Qed.

(** What the settled statuses say is what the specifications ask for. *)
Lemma settled_names t o :
  t ∈ cl_tenants w →
  (∃ ref s, ref ∈ elems (TenantStatus_Subscriptions (Tenant_Status t)) ∧ in_Subscriptions c !! ref = Some s ∧
     Output_NamespacedName o ∈ elems (SubscriptionStatus_Outputs (Subscription_Status s))) ↔
  (∃ s, s ∈ taken_by matches w t ∧ Output_NamespacedName o ∈ elems (SubscriptionSpec_Outputs (Subscription_Spec s))).
Proof using Hw Hall Hc.
  intros Ht. split.
  - intros (ref & s & Hr & Hs & Ho). apply (status_subscriptions_of matches w Hall t ref Ht) in Hr as (s' & Hs' & <-).
    rewrite (settled_all_taken _ _ _ Hc t s' Ht Hs') in Hs. injection Hs as <-. exists s'. split; [done|].
    by rewrite <- (taken_outputs matches w Hall t s' Ht Hs').
  - intros (s & Hs & Ho). exists (Subscription_NamespacedName s), s. split_and!.
    + apply (status_subscriptions_of matches w Hall t _ Ht). by exists s.
    + by apply (settled_all_taken _ _ _ Hc t).
    + by rewrite <- (taken_outputs matches w Hall t s Ht Hs) in Ho.
Qed.

Lemma bridged_tenants t t' : t ∈ cl_tenants w → rtc bridged t t' → t' ∈ cl_tenants w.
Proof using Type. intros Ht. revert t'. refine (rtc_ind_r (λ t', t' ∈ cl_tenants w) t Ht _). by intros t1 t2 _ [Ht2 _] _. Qed.

Lemma settled_reach t o : Input_DryRunMode c = false → t ∈ cl_tenants w → ResOutput o ∈ cl_resources w →
  GetExporterNameForOutput o ≠ "" →
  (∃ k p, rtc (feeds (Service_Pipelines (assemble c))) (tenant_pipeline (Tenant_Name t)) k ∧
     Service_Pipelines (assemble c) !! k = Some p ∧ GetExporterNameForOutput o ∈ Pipeline_Exporters p) ↔
  (∃ t' s, rtc bridged t t' ∧ s ∈ taken_by matches w t' ∧
     Output_NamespacedName o ∈ elems (SubscriptionSpec_Outputs (Subscription_Spec s))).
Proof using Hw Hall Hn Hc.
  intros Hdry Ht Ho Hne.
  assert (t ∈ in_Tenants c) as Htc by (by rewrite (settled_tenants _ _ _ Hc)).
  assert (∀ o', o' ∈ in_Outputs c → output_ref o' = Output_NamespacedName o → OWS_Output o' = o) as Hag.
  { intros o' Ho' E. apply (settled_outputs _ _ _ Hc) in Ho'.
    assert (ResOutput (OWS_Output o') = ResOutput o) as [= ->]; [|done]. apply (NoDup_key _ _ _ _ (kept_resource_names _ Hw)); [done..|].
    unfold resource_key. f_equal. exact (f_equal NamespacedName_String E). }
  rewrite (records_reach_outputs (settled_wf _ _ _ Hc) (settled_dns matches w c Hall Hn Hc) t o settled_bridges_agree Hdry Htc Hne
    (proj1 (named_resources w Hn _ Ho)) Hag). split.
  - intros (t' & ref & s & Hb & Hs). apply (rtc_subrel _ bridged) in Hb; [|by intros t1 t2 ?%settled_bridge_to].
    destruct (proj1 (settled_names t' o (bridged_tenants t t' Ht Hb))) as (s' & Hs'); [by exists ref, s|]. by exists t', s'.
  - intros (t' & s & Hb & Hs). destruct (proj2 (settled_names t' o (bridged_tenants t t' Ht Hb))) as (ref & s' & Hs'); [by exists s|].
    apply (rtc_subrel _ (bridge_to c)) in Hb; [|by intros t1 t2 ?%settled_bridge_to]. by exists t', ref, s'.
Qed.
End Isolation.

Section EndToEndFlow.
Context `{Platform} `{MapRange} (matches : selector → string → bool).
#[local] Existing Instance here.

Lemma built_dry collector (w w' : cluster) c : BuildConfigInputForCollector (Client0 := here matches) collector w = (w', Some (Ok c)) →
  Input_DryRunMode c = DerefOrZero (CollectorSpec_DryRunMode (Collector_Spec collector)).
Proof.
  unfold BuildConfigInputForCollector, bind. destruct (gather_relations _ w) as [w1 [r|e]]; [|done].
  intros [= _ E]. apply bind_Some in E as (l & _ & E). by injection E as <-.
Qed.

End EndToEndFlow.

#[local] Existing Instance sample_platform.

Ltac listed_at n := apply list_elem_of_lookup; exists n; vm_compute; reflexivity.

