(* ===== verification/GoHeap.v ===== *)
(** The memory behind Go values: variables, arrays and maps at locations, and
    the values that refer to them. The rest of the development treats objects as
    values; this file says what that leaves out, for the deep copies of
    [api/telemetry/v1alpha1/zz_generated.deepcopy.go].

    A [shape] reads a value of a Go type from the memory: the tree of data it
    stands for, and the locations it was read from. A [copier] makes a value
    from another one and may allocate. [Copies s c] is the contract of a deep
    copy: the same data, at new locations, and the old memory is as it was. *)
From S2P Require Import Prelude Errors.

Abbreviation loc := positive.

(** * Values and memory *)
Inductive base := GoBool (b : bool) | GoInt (z : Z) | GoString (s : string).

(** A pointer and a map are a reference; a slice is one with a length, to an
    array that may be longer. *)
Inductive val :=
| Base (b : base)
| Nil
| Ref (l : loc)
| Slice (l : loc) (len : nat)
| Fields (fs : list (string * val)).

Inductive cell :=
| Var (v : val)
| Array (vs : list val)
| MapOf (m : gmap string val).

Abbreviation heap := (gmap loc cell).

(** The data of a value: [TNil] is a nil pointer, slice or map. *)
Inductive tree :=
| TBase (b : base)
| TNil
| TPtr (t : tree)
| TSlice (ts : list tree)
| TMap (kts : list (string * tree))
| TFields (fs : list (string * tree)).

#[export] Instance base_eq_dec : EqDecision base.
Proof. solve_decision. Defined.

#[export] Instance tree_eq_dec : EqDecision tree.
Proof.
  refine (fix go t1 t2 :=
    let eq : EqDecision tree := @go in
    match t1, t2 with
    | TBase b1, TBase b2 => cast_if (decide (b1 = b2))
    | TNil, TNil => left eq_refl
    | TPtr t1, TPtr t2 => cast_if (decide (t1 = t2))
    | TSlice ts1, TSlice ts2 => cast_if (decide (ts1 = ts2))
    | TMap ts1, TMap ts2 => cast_if (decide (ts1 = ts2))
    | TFields ts1, TFields ts2 => cast_if (decide (ts1 = ts2))
    | _, _ => right _
    end); clear eq go; congruence.
Defined.

(** * Shapes *)
Abbreviation footprint := (gset loc).
Definition shape : Type := heap → val → option (tree * footprint).

(** Values without references: booleans, numbers, strings and structs of them *)
Fixpoint flat_tree (v : val) : option tree :=
  match v with
  | Base b => Some (TBase b)
  | Fields fs =>
      TFields <$> (fix go (fs : list (string * val)) : option (list (string * tree)) :=
        match fs with
        | [] => Some []
        | (n, v) :: fs => t ← flat_tree v; ts ← go fs; Some ((n, t) :: ts)
        end) fs
  | _ => None
  end.

Definition flat : shape := λ _ v, t ← flat_tree v; Some (t, ∅).

(** [*T] *)
Definition pointer (s : shape) : shape := λ h v,
  match v with
  | Nil => Some (TNil, ∅)
  | Ref l =>
      match h !! l with
      | Some (Var x) => '(t, L) ← s h x; Some (TPtr t, {[l]} ∪ L)
      | _ => None
      end
  | _ => None
  end.

Fixpoint read_all (s : shape) (h : heap) (vs : list val) : option (list tree * footprint) :=
  match vs with
  | [] => Some ([], ∅)
  | v :: vs => '(t, L) ← s h v; '(ts, Ls) ← read_all s h vs; Some (t :: ts, L ∪ Ls)
  end.

(** [[]T] *)
Definition slice (s : shape) : shape := λ h v,
  match v with
  | Nil => Some (TNil, ∅)
  | Slice l n =>
      match h !! l with
      | Some (Array vs) =>
          if decide (n ≤ length vs) then '(ts, L) ← read_all s h (take n vs); Some (TSlice ts, {[l]} ∪ L) else None
      | _ => None
      end
  | _ => None
  end.

(** [map[string]T] *)
Definition map_of (s : shape) : shape := λ h v,
  match v with
  | Nil => Some (TNil, ∅)
  | Ref l =>
      match h !! l with
      | Some (MapOf m) =>
          '(ts, L) ← read_all s h ((map_to_list m).*2); Some (TMap (zip (map_to_list m).*1 ts), {[l]} ∪ L)
      | _ => None
      end
  | _ => None
  end.

(** A struct, field by field *)
Fixpoint read_fields (ss : list (string * shape)) (h : heap) (fs : list (string * val))
    : option (list (string * tree) * footprint) :=
  match ss, fs with
  | [], [] => Some ([], ∅)
  | (n, s) :: ss, (m, v) :: fs =>
      if decide (n = m) then '(t, L) ← s h v; '(ts, Ls) ← read_fields ss h fs; Some ((n, t) :: ts, L ∪ Ls) else None
  | _, _ => None
  end.

Definition struct_of (ss : list (string * shape)) : shape := λ h v,
  match v with Fields fs => '(ts, L) ← read_fields ss h fs; Some (TFields ts, L) | _ => None end.

(** * Copiers

    A function [DeepCopyInto] takes the value its receiver points to and gives
    the value that it writes. On values that are not of its type, which the
    compiler excludes, a copier gives back what it was given. *)
Definition copier : Type := val → M heap val.
Open Scope world_scope.

Definition alloc (c : cell) : M heap loc := λ h, let l := fresh (dom h) in (<[l := c]> h, l).
Definition store (l : loc) (c : cell) : M heap unit := λ h, (<[l := c]> h, tt).
Definition load (l : loc) : M heap (option cell) := λ h, (h, h !! l).

(** What [new] and [make] put in memory *)
Definition zero : val := Nil.

(** [*out = *in] *)
Definition assign : copier := λ v, ret v.

(** [if in.X != nil { *out = new(T); ... }]: the variable pointed to is copied
    by the copier. *)
Definition copy_pointer (c : copier) : copier := λ v,
  match v with
  | Ref l =>
      content <~ load l;
      match content with
      | Some (Var x) => p <~ alloc (Var zero); y <~ c x; _ <~ store p (Var y); ret (Ref p)
      | _ => ret v
      end
  | _ => ret v
  end.

Fixpoint copy_all (c : copier) (vs : list val) : M heap (list val) :=
  match vs with
  | [] => ret []
  | v :: vs => y <~ c v; ys <~ copy_all c vs; ret (y :: ys)
  end.

(** [if in.X != nil { *out = make([]T, len); ... }]: the elements in sight are
    copied one after the other; the array is filled when they are there. *)
Definition copy_slice (c : copier) : copier := λ v,
  match v with
  | Slice l n =>
      content <~ load l;
      match content with
      | Some (Array vs) =>
          p <~ alloc (Array (replicate n zero));
          ys <~ copy_all c (take n vs);
          _ <~ store p (Array ys); ret (Slice p n)
      | _ => ret v
      end
  | _ => ret v
  end.

(** [if in.X != nil { *out = make(map[string]T, len); ... }]: the entries are
    set in the order of a range over the map. *)
Definition copy_map `{MapRange} (site : nat) : copier := λ v,
  match v with
  | Ref l =>
      content <~ load l;
      match content with
      | Some (MapOf m) =>
          p <~ alloc (MapOf ∅);
          _ <~ store p (MapOf (insert_all (range_map site m) ∅)); ret (Ref p)
      | _ => ret v
      end
  | _ => ret v
  end.

(** Fields of a struct by name *)
Definition get_field (n : string) (fs : list (string * val)) : val :=
  match find_first (λ f, bool_decide (f.1 = n)) fs with Some f => f.2 | None => zero end.
Definition set_field (n : string) (x : val) (fs : list (string * val)) : list (string * val) :=
  (λ f, if bool_decide (f.1 = n) then (n, x) else f) <$> fs.

(** One field of [out], copied from the field of [in] *)
Definition copy_field (fs : list (string * val)) (nc : string * copier) (out : list (string * val))
    : M heap (list (string * val)) :=
  x <~ nc.2 (get_field nc.1 fs); ret (set_field nc.1 x out).

(** [*out = *in], and then the fields one by one *)
Definition into (cs : list (string * copier)) : copier := λ v,
  match v with
  | Fields fs =>
      out <~ foreach (copy_field fs) cs fs; ret (Fields out)
  | _ => ret v
  end.

(** * Laws *)

(** Reading depends on the footprint alone. *)
Class Framed (s : shape) : Prop := {
  read_footprint h v t L : s h v = Some (t, L) → L ⊆ dom h;
  read_frame h h' v t L : s h v = Some (t, L) → (∀ l, l ∈ L → h' !! l = h !! l) → s h' v = Some (t, L)
}.

Class Copies (s : shape) (c : copier) : Prop :=
  copies h v t L : s h v = Some (t, L) →
    ∃ h' v' L', c v h = (h', v') ∧ h ⊆ h' ∧ s h' v' = Some (t, L') ∧ L' ## dom h.

(** Takes the binds of a reading apart. *)
Ltac reading :=
  repeat match goal with
  | H : (_ ≫= _) = Some _ |- _ => apply bind_Some in H as (? & ? & ?)
  | p : (_ * _)%type |- _ => destruct p
  | H : context [match ?x with _ => _ end] |- _ => destruct x eqn:?; try discriminate
  | H : None = Some _ |- _ => discriminate H
  | H : Some _ = Some _ |- _ => injection H as <- <- || injection H as <-
  end.

Lemma read_grown s `{!Framed s} h h' v t L : s h v = Some (t, L) → h ⊆ h' → s h' v = Some (t, L).
Proof.
  intros E Hh. eapply read_frame; [exact E|]. intros l Hl.
  apply (read_footprint _ _ _ _ E), elem_of_dom in Hl as [x Hx]. rewrite Hx. by eapply lookup_weaken.
Qed.

Lemma alloc_grows (h : heap) c : h ⊆ <[fresh (dom h) := c]> h.
Proof. apply insert_subseteq, not_elem_of_dom, is_fresh. Qed.

Lemma store_grows (h h' : heap) l c : h ⊆ h' → h !! l = None → h ⊆ <[l := c]> h'.
Proof.
  intros Hh Hl. apply map_subseteq_spec. intros k x Hk. rewrite lookup_insert_ne; [by eapply lookup_weaken|congruence].
Qed.

(** ** Framing *)
Lemma footprint_at (h : heap) l x (L : footprint) : h !! l = Some x → L ⊆ dom h → {[l]} ∪ L ⊆ dom h.
Proof. intros Hl HL. apply union_subseteq; split; [apply singleton_subseteq_l, elem_of_dom; eauto|done]. Qed.

Lemma flat_nothing h v t L : flat h v = Some (t, L) → L = ∅.
Proof. unfold flat. intros E. by reading. Qed.

#[export] Instance flat_framed : Framed flat.
Proof. split; intros *; intros E; [|done]. apply flat_nothing in E. set_solver. Qed.

#[export] Instance pointer_framed s : Framed s → Framed (pointer s).
Proof.
  intros Hs. split; intros *; unfold pointer; intros E; reading; [set_solver| |done|].
  - eapply footprint_at; [done|by eapply read_footprint].
  - intros Hf. rewrite Hf, Heqo by set_solver. erewrite read_frame; [done|done|]. intros l' Hl'. apply Hf. set_solver.
Qed.

Section Elements.
Context (s : shape) `{!Framed s}.

Lemma read_all_footprint h vs ts L : read_all s h vs = Some (ts, L) → L ⊆ dom h.
Proof.
  revert ts L. induction vs as [|v vs IH]; intros ts L; cbn; intros E; reading; [set_solver|].
  apply union_subseteq; split; [by eapply read_footprint|by eapply IH].
Qed.

Lemma read_all_frame h h' vs ts L : read_all s h vs = Some (ts, L) → (∀ l, l ∈ L → h' !! l = h !! l) →
  read_all s h' vs = Some (ts, L).
Proof.
  revert ts L. induction vs as [|v vs IH]; intros ts L; cbn; intros E; reading; [done|]. intros Hf.
  erewrite read_frame; [|done|set_solver]. cbn. by erewrite IH by set_solver.
Qed.

Lemma read_all_grown h h' vs ts L : read_all s h vs = Some (ts, L) → h ⊆ h' → read_all s h' vs = Some (ts, L).
Proof.
  intros E Hh. eapply read_all_frame; [done|]. intros l Hl.
  apply (read_all_footprint _ _ _ _ E), elem_of_dom in Hl as [x Hx]. rewrite Hx. by eapply lookup_weaken.
Qed.

#[export] Instance slice_framed : Framed (slice s).
Proof.
  split; intros *; unfold slice; intros E; reading; [set_solver| |done|].
  - eapply footprint_at; [done|by eapply read_all_footprint].
  - intros Hf. rewrite Hf, Heqo, decide_True by set_solver. by erewrite read_all_frame by set_solver.
Qed.

#[export] Instance map_of_framed : Framed (map_of s).
Proof.
  split; intros *; unfold map_of; intros E; reading; [set_solver| |done|].
  - eapply footprint_at; [done|by eapply read_all_footprint].
  - intros Hf. rewrite Hf, Heqo by set_solver. by erewrite read_all_frame by set_solver.
Qed.
End Elements.

Section Fields.
Context (ss : list (string * shape)) (Hss : Forall (Framed ∘ snd) ss).

Lemma read_fields_footprint h fs ts L : read_fields ss h fs = Some (ts, L) → L ⊆ dom h.
Proof.
  revert fs ts L. induction Hss as [|[n s] ss' Hs Hss' IH]; intros [|[m v] fs] ts L; cbn; intros E; reading; [set_solver|].
  change (Framed s) in Hs. apply union_subseteq; split; [by eapply read_footprint|by eapply IH].
Qed.

Lemma read_fields_frame h h' fs ts L : read_fields ss h fs = Some (ts, L) → (∀ l, l ∈ L → h' !! l = h !! l) →
  read_fields ss h' fs = Some (ts, L).
Proof.
  revert fs ts L. induction Hss as [|[n s] ss' Hs Hss' IH]; intros [|[m v] fs] ts L; cbn; intros E; reading; [done|]. intros Hf.
  change (Framed s) in Hs. erewrite read_frame; [|done|set_solver]. cbn. by erewrite IH by set_solver.
Qed.

#[export] Instance struct_framed : Framed (struct_of ss).
Proof.
  unfold struct_of. split; intros *; intros E; reading; [by eapply read_fields_footprint|].
  intros Hf. by erewrite read_fields_frame.
Qed.
End Fields.

(** ** Copying *)

(** The old memory, and what was copied so far *)
Lemma copied_grown s `{!Framed s} (h0 h h' : heap) v t L : s h v = Some (t, L) → L ## dom h0 → h ⊆ h' →
  ∃ L', s h' v = Some (t, L') ∧ L' ## dom h0.
Proof. intros E HL Hh. exists L. split; [by eapply read_grown|done]. Qed.

#[export] Instance flat_assign : Copies flat assign.
Proof.
  intros h v t L E. exists h, v, L. split_and!; [done|done|done|]. apply flat_nothing in E. set_solver.
Qed.

(** A new cell, filled when the copy of its content is there *)
Lemma filled (h h1 h2 : heap) p c0 c1 (L : footprint) : p = fresh (dom h) → h1 = <[p := c0]> h → h1 ⊆ h2 → L ## dom h1 →
  h ⊆ <[p := c1]> h2 ∧ (∀ l, l ∈ L → <[p := c1]> h2 !! l = h2 !! l) ∧ {[p]} ∪ L ## dom h.
Proof.
  intros Hp -> H12 HL.
  assert (h !! p = None) as Hn by (apply not_elem_of_dom; rewrite Hp; apply is_fresh). split_and!.
  - apply store_grows; [|done]. etrans; [by apply insert_subseteq|done].
  - intros l Hl. rewrite lookup_insert_ne; [done|]. intros <-. apply (HL p); [done|]. set_solver.
  - rewrite dom_insert in HL. apply not_elem_of_dom in Hn. set_solver.
Qed.

#[export] Instance copy_pointer_copies s c : Framed s → Copies s c → Copies (pointer s) (copy_pointer c).
Proof.
  intros Hs Hc h v t L E. unfold pointer in E. destruct v; try discriminate.
  { exists h, Nil, ∅. split_and!; [done|done|by reading|]. set_solver. }
  reading. unfold copy_pointer, bind, load, alloc, store, ret. rewrite Heqo. set (p := fresh (dom h)).
  destruct (Hc (<[p := Var zero]> h) v t0 g) as (h2 & y & L' & -> & Hh & Ey & HL).
  { eapply read_grown; [done..|]. apply alloc_grows. }
  destruct (filled h _ h2 p (Var zero) (Var y) L' eq_refl eq_refl Hh HL) as (H1 & H2 & H3).
  exists (<[p := Var y]> h2), (Ref p), ({[p]} ∪ L'). split_and!; [done|done| |done].
  cbn. rewrite lookup_insert_eq. by rewrite (read_frame _ _ _ _ _ Ey H2).
Qed.

Lemma copy_all_copies s c : Framed s → Copies s c → ∀ vs h ts L, read_all s h vs = Some (ts, L) →
  ∃ h' ys L', copy_all c vs h = (h', ys) ∧ h ⊆ h' ∧ read_all s h' ys = Some (ts, L') ∧ L' ## dom h ∧ length ys = length vs.
Proof.
  intros Hs Hc vs. induction vs as [|v vs IH]; intros h ts L E; cbn in E; reading.
  { exists h, [], ∅. split_and!; [done|done|done|set_solver|done]. }
  destruct (Hc h v t g) as (h1 & y & L1 & Ey & H1 & Er & HL1); [done|].
  assert (read_all s h1 vs = Some (l, g0)) as E1 by by eapply read_all_grown.
  destruct (IH h1 l g0 E1) as (h2 & ys & L2 & Eys & H2 & Ers & HL2 & Hlen).
  exists h2, (y :: ys), (L1 ∪ L2). split_and!.
  - cbn. unfold bind, ret. by rewrite Ey, Eys.
  - by etrans.
  - cbn. erewrite read_grown; [|done..]. cbn. by rewrite Ers.
  - apply subseteq_dom in H1. set_solver.
  - cbn. by rewrite Hlen.
Qed.

#[export] Instance copy_slice_copies s c : Framed s → Copies s c → Copies (slice s) (copy_slice c).
Proof.
  intros Hs Hc h v t L E. unfold slice in E. destruct v; try discriminate.
  { exists h, Nil, ∅. split_and!; [done|done|by reading|]. set_solver. }
  reading. unfold copy_slice, bind, load, alloc, store, ret. rewrite Heqo. set (p := fresh (dom h)).
  destruct (copy_all_copies s c Hs Hc (take len vs) (<[p := Array (replicate len zero)]> h) l1 g)
    as (h2 & ys & L' & -> & Hh & Ey & HL & Hlen).
  { eapply read_all_grown; [done..|]. apply alloc_grows. }
  destruct (filled h _ h2 p (Array (replicate len zero)) (Array ys) L' eq_refl eq_refl Hh HL) as (H1 & H2 & H3).
  exists (<[p := Array ys]> h2), (Slice p len), ({[p]} ∪ L'). split_and!; [done|done| |done].
  rewrite length_take, Nat.min_l in Hlen by done.
  cbn. rewrite lookup_insert_eq, decide_True, take_ge by lia. by rewrite (read_all_frame _ _ _ _ _ _ Ey H2).
Qed.

(** Setting every entry of a map in an empty one, in any order *)
Lemma insert_all_range `{MapRange} {V} site (m : gmap string V) : insert_all (range_map site m) ∅ = m.
Proof.
  apply map_eq. intros k. destruct (m !! k) as [v|] eqn:E.
  - apply insert_all_lookup; [by apply elem_of_range_map|]. intros v' Hv'%elem_of_range_map. congruence.
  - rewrite insert_all_notin; [done|]. rewrite elem_of_range_map_keys, E. by intros [].
Qed.

Lemma read_all_flat h h' vs ts L : read_all flat h vs = Some (ts, L) → read_all flat h' vs = Some (ts, L) ∧ L = ∅.
Proof.
  revert ts L. induction vs as [|v vs IH]; intros ts L; cbn; intros E; reading; [done|].
  change (flat h' v) with (flat h v). apply IH in H0 as [-> ->]. rewrite H. apply flat_nothing in H as ->. split; [done|set_solver].
Qed.

#[export] Instance copy_map_copies `{MapRange} site : Copies (map_of flat) (copy_map site).
Proof.
  intros h v t L E. unfold map_of in E. destruct v; try discriminate.
  { exists h, Nil, ∅. split_and!; [done|done|by reading|]. set_solver. }
  reading. unfold copy_map, bind, load, alloc, store, ret. rewrite Heqo, insert_all_range. set (p := fresh (dom h)).
  destruct (read_all_flat h (<[p := MapOf m]> (<[p := MapOf ∅]> h)) _ _ _ H0) as [E ->].
  destruct (filled h _ _ p (MapOf ∅) (MapOf m) ∅ eq_refl eq_refl (reflexivity _)) as (H1 & _ & H3); [set_solver|].
  eexists _, (Ref p), ({[p]} ∪ ∅). split_and!; [done|done| |done].
  cbn. rewrite lookup_insert_eq. cbn. by rewrite E.
Qed.

(** *** Structs

    The fields of a struct while it is copied: their shapes, the values that
    [out] holds now, and what was read of them. *)
Record entry := mkEntry { e_name : string; e_shape : shape; e_val : val; e_tree : tree; e_footprint : footprint }.

Definition e_sig (e : entry) : string * shape := (e_name e, e_shape e).
Definition e_out (e : entry) : string * val := (e_name e, e_val e).
Definition e_read (e : entry) : string * tree := (e_name e, e_tree e).
Definition e_holds (h : heap) (e : entry) : Prop := e_shape e h (e_val e) = Some (e_tree e, e_footprint e).

Lemma read_entries ss h fs ts L : read_fields ss h fs = Some (ts, L) →
  ∃ es, ss = e_sig <$> es ∧ fs = e_out <$> es ∧ ts = e_read <$> es ∧ Forall (e_holds h) es ∧
    Forall (λ e, e_footprint e ⊆ L) es.
Proof.
  revert fs ts L. induction ss as [|[n s] ss IH]; intros [|[m v] fs] ts L; cbn; intros E; reading; [by exists []|]. subst m.
  destruct (IH _ _ _ H0) as (es & -> & -> & -> & Hes & HL).
  exists (mkEntry n s v t g :: es). split_and!; [done..|by constructor|]. constructor; [apply union_subseteq_l|].
  eapply Forall_impl; [exact HL|]. intros e He. cbn. set_solver.
Qed.

Lemma entries_read (h : heap) (D : footprint) es : Forall (e_holds h) es → Forall (λ e, e_footprint e ## D) es →
  ∃ L, read_fields (e_sig <$> es) h (e_out <$> es) = Some (e_read <$> es, L) ∧ L ## D.
Proof.
  induction es as [|e es IH]; intros Hh HD; [exists ∅; split; [done|set_solver]|].
  apply Forall_cons in Hh as [He Hh], HD as [HeD HD]. destruct (IH Hh HD) as (L & E & HL).
  exists (e_footprint e ∪ L). split; [|set_solver]. cbn. rewrite decide_True by done. unfold e_holds in He. rewrite He. cbn. by rewrite E.
Qed.

(** The copier of a field *)
Definition copier_of (n : string) (cs : list (string * copier)) : copier :=
  match find_first (λ c, bool_decide (c.1 = n)) cs with Some c => c.2 | None => assign end.

Section Into.
Context (h0 : heap) (fs0 : list (string * val)).

(** A field that is still to be copied is as it was, the others are new. *)
Definition partly_copied (h : heap) (pending : list string) (e : entry) : Prop :=
  Framed (e_shape e) ∧ e_holds h e ∧ (e_name e ∈ pending → e_val e = get_field (e_name e) fs0) ∧
  (e_name e ∉ pending → e_footprint e ## dom h0).

Definition set_entry (n : string) (x : val) (L : footprint) (e : entry) : entry :=
  if bool_decide (e_name e = n) then mkEntry (e_name e) (e_shape e) x (e_tree e) L else e.

Lemma set_entry_out n x L (es : list entry) : set_field n x (e_out <$> es) = e_out <$> (set_entry n x L <$> es).
Proof.
  unfold set_field. rewrite <- !list_fmap_compose. apply list_fmap_ext. intros _ e _. cbn. unfold set_entry.
  by case_bool_decide as E; [subst|].
Qed.

Lemma set_entry_sig n x L (es : list entry) : e_sig <$> (set_entry n x L <$> es) = e_sig <$> es.
Proof. rewrite <- list_fmap_compose. apply list_fmap_ext. intros _ e _. cbn. unfold set_entry. by case_bool_decide. Qed.

Lemma set_entry_name n x L (es : list entry) : e_name <$> (set_entry n x L <$> es) = e_name <$> es.
Proof. rewrite <- list_fmap_compose. apply list_fmap_ext. intros _ e _. cbn. unfold set_entry. by case_bool_decide. Qed.

Lemma set_entry_read n x L (es : list entry) : e_read <$> (set_entry n x L <$> es) = e_read <$> es.
Proof. rewrite <- list_fmap_compose. apply list_fmap_ext. intros _ e _. cbn. unfold set_entry. by case_bool_decide. Qed.

Lemma copy_entries cs : ∀ es h,
  h0 ⊆ h → NoDup (cs.*1) → NoDup (e_name <$> es) →
  Forall (λ c, ∃ s, (c.1, s) ∈ e_sig <$> es ∧ Copies s c.2) cs →
  Forall (partly_copied h (cs.*1)) es →
  ∃ h' es', foreach (copy_field fs0) cs (e_out <$> es) h = (h', e_out <$> es') ∧
    h ⊆ h' ∧ e_sig <$> es' = e_sig <$> es ∧ e_read <$> es' = e_read <$> es ∧ Forall (partly_copied h' []) es'.
Proof.
  induction cs as [|[n c] cs IH]; intros es h Hh Hnd Hes Hcs Hp.
  { by exists h, es. }
  apply Forall_cons in Hcs as [(s & Hs & Hc) Hcs]. apply NoDup_cons in Hnd as [Hn Hnd]. cbn in Hs, Hn, Hc.
  apply list_elem_of_fmap in Hs as (e & [= -> ->] & He).
  pose proof (proj1 (Forall_forall _ _) Hp e He) as (Hf & Hr & Hv & _).
  unfold e_holds in Hr. rewrite Hv in Hr by left.
  destruct (Hc _ _ _ _ Hr) as (h1 & x & L & Ex & H1 & Ex' & HL).
  destruct (IH (set_entry (e_name e) x L <$> es) h1) as (h2 & es' & E2 & H2 & Hsig & Hread & Hdone).
  - by etrans.
  - done.
  - by rewrite set_entry_name.
  - by rewrite set_entry_sig.
  - apply Forall_fmap, Forall_forall. intros e' He'. cbn.
    pose proof (proj1 (Forall_forall _ _) Hp e' He') as (Hf' & Hr' & Hv' & Hd'). unfold set_entry. case_bool_decide as Ee.
    + assert (e' = e) as ->.
      { by apply (NoDup_key _ es _ _ Hes). }
      split_and!; cbn; [done|done|done|]. intros _. apply subseteq_dom in Hh. set_solver.
    + split_and!; [done| | |].
      * by eapply read_grown.
      * intros Hin. apply Hv'. by right.
      * intros Hin. apply Hd'. cbn. set_solver.
  - exists h2, es'. split_and!; [| |by rewrite Hsig, set_entry_sig|by rewrite Hread, set_entry_read|done].
    + cbn. unfold bind, copy_field, bind, ret. cbn. rewrite Ex, set_entry_out with (L := L). exact E2.
    + by etrans.
Qed.
End Into.

Lemma get_field_entry es e : NoDup (e_name <$> es) → e ∈ es → get_field (e_name e) (e_out <$> es) = e_val e.
Proof.
  intros Hnd He. unfold get_field.
  destruct (find_first_is_Some (λ f, bool_decide (f.1 = e_name e)) (e_out <$> es) (e_out e)) as [f E].
  { by apply list_elem_of_fmap_2. }
  { by apply bool_decide_eq_true. }
  rewrite E. apply find_first_Some in E as [(e' & -> & He')%list_elem_of_fmap En%bool_decide_eq_true].
  cbn in *. by rewrite (NoDup_key _ es e' e Hnd).
Qed.

Lemma copier_of_listed n c cs : NoDup (cs.*1) → (n, c) ∈ cs → copier_of n cs = c.
Proof.
  intros Hnd Hin. unfold copier_of.
  destruct (find_first_is_Some (λ f : string * copier, bool_decide (f.1 = n)) cs (n, c)) as [[m d] E].
  { done. }
  { by apply bool_decide_eq_true. }
  rewrite E. apply find_first_Some in E as [Hin' En%bool_decide_eq_true]. cbn in *. subst m.
  by injection (NoDup_key _ cs _ _ Hnd Hin Hin' eq_refl) as <-.
Qed.

Lemma copier_of_absent n cs : n ∉ cs.*1 → copier_of n cs = assign.
Proof.
  intros Hn. unfold copier_of. destruct (find_first _ cs) as [[m d]|] eqn:E; [|done].
  apply find_first_Some in E as [Hin En%bool_decide_eq_true]. cbn in En. subst m. destruct Hn.
  apply list_elem_of_fmap. by exists (n, d).
Qed.

(** A struct is copied when each of its fields is: by its copier, or with the
    struct when it has none. *)
Lemma into_copies ss cs :
  Forall (Framed ∘ snd) ss → NoDup (ss.*1) → NoDup (cs.*1) → cs.*1 ⊆ ss.*1 →
  Forall (λ f, Copies f.2 (copier_of f.1 cs)) ss → Copies (struct_of ss) (into cs).
Proof.
  intros Hfr Hnd Hndc Hsub Hc h v t L E. unfold struct_of in E. reading.
  destruct (read_entries _ _ _ _ _ H) as (es & -> & -> & -> & Hes & _). clear H.
  assert (NoDup (e_name <$> es)) as Hnd' by by rewrite <- list_fmap_compose in Hnd.
  rewrite Forall_fmap in Hfr. rewrite Forall_fmap in Hc.
  assert (∀ n, n ∈ cs.*1 → ∃ e, e ∈ es ∧ e_name e = n) as Hnames.
  { intros n Hn. apply Hsub in Hn. rewrite <- list_fmap_compose in Hn. apply list_elem_of_fmap in Hn as (e & -> & He). by exists e. }
  rewrite Forall_forall in Hfr, Hc, Hes.
  destruct (copy_entries h (e_out <$> es) cs es h) as (h' & es' & Ef & Hh & Hsig & Hread & Hdone); [done..| | |].
  - apply Forall_forall. intros [n c] Hin. destruct (Hnames n) as (e & He & <-); [apply list_elem_of_fmap; by exists (n, c)|].
    exists (e_shape e). split; [by apply (list_elem_of_fmap_2 e_sig)|]. cbn.
    rewrite <- (copier_of_listed (e_name e) c cs) by done. by apply (Hc e).
  - apply Forall_forall. intros e He. split_and!; [by apply (Hfr e)|by apply Hes|by rewrite get_field_entry|].
    intros Hn. specialize (Hc e He). cbn in Hc. rewrite copier_of_absent in Hc by done.
    destruct (Hc _ _ _ _ (Hes e He)) as (h' & v' & L' & [= <- <-] & _ & E & HL). rewrite (Hes e He) in E. by injection E as ->.
  - destruct (entries_read h' (dom h) es') as (L' & E' & HL').
    + eapply Forall_impl; [exact Hdone|]. by intros e (_ & ? & _).
    + eapply Forall_impl; [exact Hdone|]. intros e (_ & _ & _ & Hd). apply Hd, not_elem_of_nil.
    + exists h', (Fields (e_out <$> es')), L'. split_and!; [|done| |done].
      * cbn. unfold bind, ret. by rewrite Ef.
      * cbn. by rewrite <- Hsig, E', Hread.
Qed.

Lemma copier_of_here s n c cs : Copies s c → Copies s (copier_of n ((n, c) :: cs)).
Proof. intros Hc. unfold copier_of. cbn. by rewrite bool_decide_true. Qed.

Lemma copier_of_further s n m c cs : m ≠ n → Copies s (copier_of n cs) → Copies s (copier_of n ((m, c) :: cs)).
Proof. intros Hn Hc. unfold copier_of. cbn. by rewrite bool_decide_false. Qed.

Lemma copier_of_none s n : Copies s assign → Copies s (copier_of n []).
Proof. done. Qed.

(** A struct that is copied with the one it is in *)
Lemma assign_struct ss : Copies (struct_of ss) (into []) → Copies (struct_of ss) assign.
Proof.
  intros Hc h v t L E. destruct (Hc h v t L E) as (h' & v' & L' & Ec & Hh).
  unfold struct_of in E. reading. injection Ec as <- <-. eauto 10.
Qed.

(** The names of the fields are distinct, and the copied ones are fields. *)
Definition well_listed (ss : list (string * shape)) (cs : list (string * copier)) : bool :=
  bool_decide (NoDup (ss.*1)) && bool_decide (NoDup (cs.*1)) && forallb (λ n, bool_decide (n ∈ ss.*1)) (cs.*1).

Lemma well_listed_copies ss cs : well_listed ss cs = true → Forall (Framed ∘ snd) ss →
  Forall (λ f, Copies f.2 (copier_of f.1 cs)) ss → Copies (struct_of ss) (into cs).
Proof.
  unfold well_listed. rewrite !andb_true_iff, !bool_decide_eq_true, forallb_forall. intros [[Hs Hc] Hn] Hf Hall.
  apply into_copies; [done..| |done]. intros n Hin. apply (bool_decide_eq_true_1 _), Hn. by apply list_elem_of_In.
Qed.

(** Decides the side conditions and searches the instances of the fields. *)
Ltac copy_field :=
  lazymatch goal with
  | |- Copies _ (copier_of ?n ((?n, _) :: _)) => apply copier_of_here; apply _
  | |- Copies _ (copier_of _ (_ :: _)) => apply copier_of_further; [discriminate|copy_field]
  | |- Copies _ (copier_of _ []) => apply copier_of_none; apply _
  end.
Ltac copy_struct :=
  apply well_listed_copies;
  [ reflexivity
  | repeat (apply Forall_cons; split; [cbn; apply _|]); apply Forall_nil_2
  | repeat (apply Forall_cons; split; [cbn [fst snd]; copy_field|]); apply Forall_nil_2 ].
