(* ===== verification/GoTypes.v ===== *)
(** The struct types of [api/telemetry/v1alpha1] as shapes in memory, field by
    field: what is a pointer, a slice or a map is one here, what holds no
    reference is flat. The types of other modules that hold references are
    parameters, with the copiers they come with; those that hold none
    ([TypeMeta], [SecretReference], [component.ID], ...) are flat. *)
From S2P Require Import Prelude Errors GoHeap.

(** Types of the Kubernetes and OpenTelemetry operator modules *)
Class Foreign : Type := {
  ObjectMeta_shape : shape;
  ObjectMeta_DeepCopyInto : copier;
  ListMeta_shape : shape;
  ListMeta_DeepCopyInto : copier;
  LabelSelector_shape : shape;
  LabelSelector_DeepCopyInto : copier;
  OpenTelemetryCommonFields_shape : shape;
  OpenTelemetryCommonFields_DeepCopyInto : copier
}.

(** Their documented contract: they copy. *)
Class ForeignLaws `{!Foreign} : Prop := {
  #[global] ObjectMeta_framed :: Framed ObjectMeta_shape;
  #[global] ObjectMeta_copies :: Copies ObjectMeta_shape ObjectMeta_DeepCopyInto;
  #[global] ListMeta_framed :: Framed ListMeta_shape;
  #[global] ListMeta_copies :: Copies ListMeta_shape ListMeta_DeepCopyInto;
  #[global] LabelSelector_framed :: Framed LabelSelector_shape;
  #[global] LabelSelector_copies :: Copies LabelSelector_shape LabelSelector_DeepCopyInto;
  #[global] OpenTelemetryCommonFields_framed :: Framed OpenTelemetryCommonFields_shape;
  #[global] OpenTelemetryCommonFields_copies :: Copies OpenTelemetryCommonFields_shape OpenTelemetryCommonFields_DeepCopyInto
}.

Section Types.
Context `{!Foreign}.

Definition TimeoutSettings_shape : shape := struct_of
  [ ("Timeout", pointer flat) ].

Definition QueueBatch_shape : shape := struct_of
  [ ("FlushTimeout", flat); ("MinSize", pointer flat); ("MaxSize", pointer flat); ("Sizer", pointer flat);
    ("MetadataKeys", slice flat) ].

Definition QueueSettings_shape : shape := struct_of
  [ ("NumConsumers", pointer flat); ("QueueSize", pointer flat); ("Sizer", pointer flat);
    ("WaitForResult", pointer flat); ("BlockOnOverflow", pointer flat); ("Batch", pointer QueueBatch_shape) ].

Definition BackOffConfig_shape : shape := struct_of
  [ ("InitialInterval", pointer flat); ("RandomizationFactor", pointer flat); ("Multiplier", pointer flat);
    ("MaxInterval", pointer flat); ("MaxElapsedTime", pointer flat) ].

Definition S3UploaderConfig_shape : shape := struct_of
  [ ("Region", flat); ("S3Bucket", flat); ("S3BasePrefix", flat); ("S3Prefix", flat);
    ("S3PartitionFormat", flat); ("S3PartitionTimezone", flat); ("FilePrefix", flat); ("Endpoint", flat);
    ("RoleArn", flat); ("S3ForcePathStyle", flat); ("DisableSSL", flat); ("ACL", flat); ("StorageClass", flat);
    ("Compression", flat); ("RetryMode", flat); ("RetryMaxAttempts", flat); ("RetryMaxBackoff", pointer flat);
    ("UniqueKeyFuncName", flat) ].

Definition ResourceAttrsToS3_shape : shape := struct_of
  [ ("S3Bucket", flat); ("S3Prefix", flat) ].

Definition AWSS3_shape : shape := struct_of
  [ ("S3Uploader", pointer S3UploaderConfig_shape); ("MarshalerName", pointer flat); ("Encoding", pointer flat);
    ("EncodingFileExtension", flat); ("ResourceAttrsToS3", pointer ResourceAttrsToS3_shape);
    ("TimeoutSettings", TimeoutSettings_shape); ("QueueConfig", pointer QueueSettings_shape);
    ("RetryConfig", pointer BackOffConfig_shape) ].

Definition Authentication_shape : shape := struct_of
  [ ("AuthenticatorID", pointer flat) ].

Definition BasicAuthConfig_shape : shape := struct_of
  [ ("SecretRef", pointer flat); ("UsernameField", flat); ("PasswordField", flat) ].

Definition Batch_shape : shape := struct_of
  [ ("Timeout", flat); ("SendBatchSize", flat); ("SendBatchMaxSize", flat); ("MetadataKeys", slice flat);
    ("MetadataCardinalityLimit", flat) ].

Definition BearerAuthConfig_shape : shape := struct_of
  [ ("SecretRef", pointer flat); ("TokenField", flat) ].

Definition BridgeSpec_shape : shape := struct_of
  [ ("SourceTenant", flat); ("TargetTenant", flat); ("Condition", flat) ].

Definition BridgeStatus_shape : shape := struct_of
  [ ("State", flat); ("Problems", slice flat); ("ProblemsCount", flat) ].

Definition Bridge_shape : shape := struct_of
  [ ("TypeMeta", flat); ("ObjectMeta", ObjectMeta_shape); ("Spec", BridgeSpec_shape);
    ("Status", BridgeStatus_shape) ].

Definition BridgeList_shape : shape := struct_of
  [ ("TypeMeta", flat); ("ListMeta", ListMeta_shape); ("Items", slice Bridge_shape) ].

Definition MemoryLimiter_shape : shape := struct_of
  [ ("CheckInterval", flat); ("MemoryLimitMiB", flat); ("MemorySpikeLimitMiB", flat);
    ("MemoryLimitPercentage", flat); ("MemorySpikePercentage", flat) ].

Definition EventsToLogs_shape : shape := struct_of
  [ ("KubeAPIQPS", pointer flat); ("KubeAPIBurst", pointer flat); ("DedupInterval", pointer flat) ].

Definition CollectorSpec_shape : shape := struct_of
  [ ("TenantSelector", LabelSelector_shape); ("ControlNamespace", flat); ("Debug", pointer flat);
    ("DryRunMode", pointer flat); ("EventsToLogs", pointer EventsToLogs_shape);
    ("MemoryLimiter", pointer MemoryLimiter_shape);
    ("OtelCommonFields", pointer OpenTelemetryCommonFields_shape) ].

Definition CollectorStatus_shape : shape := struct_of
  [ ("Tenants", slice flat); ("State", flat); ("Problems", slice flat); ("ProblemsCount", flat) ].

Definition Collector_shape : shape := struct_of
  [ ("TypeMeta", flat); ("ObjectMeta", ObjectMeta_shape); ("Spec", CollectorSpec_shape);
    ("Status", CollectorStatus_shape) ].

Definition CollectorList_shape : shape := struct_of
  [ ("TypeMeta", flat); ("ListMeta", ListMeta_shape); ("Items", slice Collector_shape) ].

Definition CompressionParams_shape : shape := struct_of
  [ ("Level", pointer flat) ].

Definition CookiesConfig_shape : shape := struct_of
  [ ("Enabled", flat) ].

Definition TLSSetting_shape : shape := struct_of
  [ ("CAFile", flat); ("CAPem", flat); ("IncludeSystemCACertsPool", flat); ("CertFile", flat);
    ("CertPem", flat); ("KeyFile", flat); ("KeyPem", flat); ("MinVersion", flat); ("MaxVersion", flat);
    ("CipherSuites", slice flat); ("ReloadInterval", pointer flat); ("CurvePreferences", slice flat) ].

Definition TLSClientSetting_shape : shape := struct_of
  [ ("TLSSetting", TLSSetting_shape); ("Insecure", flat); ("InsecureSkipVerify", flat); ("ServerName", flat) ].

Definition ElasticsearchMapping_shape : shape := struct_of
  [ ("Mode", pointer flat) ].

Definition ElasticsearchRetry_shape : shape := struct_of
  [ ("Enabled", pointer flat); ("MaxRetries", pointer flat); ("InitialInterval", pointer flat);
    ("MaxInterval", pointer flat); ("RetryOnStatus", slice flat) ].

Definition ElasticsearchFlush_shape : shape := struct_of
  [ ("Bytes", pointer flat); ("Interval", pointer flat) ].

Definition ElasticsearchDiscover_shape : shape := struct_of
  [ ("OnStart", pointer flat); ("Interval", pointer flat) ].

Definition Elasticsearch_shape : shape := struct_of
  [ ("Endpoint", pointer flat); ("Endpoints", slice flat); ("CloudID", pointer flat); ("User", pointer flat);
    ("Password", pointer flat); ("APIKey", pointer flat); ("LogsIndex", pointer flat);
    ("MetricsIndex", pointer flat); ("TracesIndex", pointer flat);
    ("Mapping", pointer ElasticsearchMapping_shape); ("Retry", pointer ElasticsearchRetry_shape);
    ("Flush", pointer ElasticsearchFlush_shape); ("QueueConfig", pointer QueueSettings_shape);
    ("NumWorkers", pointer flat); ("TLSSetting", pointer TLSClientSetting_shape); ("Pipeline", pointer flat);
    ("Discover", pointer ElasticsearchDiscover_shape) ].

Definition Endpoint_shape : shape := struct_of
  [ ("TCPAddr", pointer flat); ("ValidateTCPResolution", flat) ].

Definition Rotation_shape : shape := struct_of
  [ ("MaxMegabytes", flat); ("MaxDays", flat); ("MaxBackups", flat); ("LocalTime", pointer flat) ].

Definition GroupBy_shape : shape := struct_of
  [ ("Enabled", flat); ("ResourceAttribute", flat); ("MaxOpenFiles", flat) ].

Definition File_shape : shape := struct_of
  [ ("Path", flat); ("Append", flat); ("Rotation", pointer Rotation_shape); ("FormatType", flat);
    ("Encoding", pointer flat); ("Compression", flat); ("FlushInterval", pointer flat);
    ("GroupBy", pointer GroupBy_shape) ].

Definition KubernetesMetadata_shape : shape := struct_of
  [ ("Key", flat); ("IncludePodLabels", flat) ].

Definition TCPClientSettings_shape : shape := struct_of
  [ ("Endpoint", pointer Endpoint_shape); ("ConnectionTimeout", pointer flat);
    ("TLSSetting", pointer TLSClientSetting_shape); ("SharedKey", pointer flat) ].

Definition Fluentforward_shape : shape := struct_of
  [ ("TCPClientSettings", TCPClientSettings_shape); ("RequireAck", pointer flat); ("Tag", pointer flat);
    ("CompressGzip", pointer flat); ("DefaultLabelsEnabled", pointer (map_of flat));
    ("QueueConfig", pointer QueueSettings_shape); ("RetryConfig", pointer BackOffConfig_shape);
    ("Kubernetes", pointer KubernetesMetadata_shape) ].

Definition KeepaliveClientConfig_shape : shape := struct_of
  [ ("Time", pointer flat); ("Timeout", pointer flat); ("PermitWithoutStream", flat) ].

Definition GRPCClientConfig_shape : shape := struct_of
  [ ("Endpoint", pointer flat); ("Compression", pointer flat); ("TLSSetting", pointer TLSClientSetting_shape);
    ("Keepalive", pointer KeepaliveClientConfig_shape); ("ReadBufferSize", pointer flat);
    ("WriteBufferSize", pointer flat); ("WaitForReady", pointer flat); ("Headers", pointer (map_of flat));
    ("BalancerName", pointer flat); ("Authority", pointer flat); ("Auth", pointer Authentication_shape) ].

Definition HTTPClientConfig_shape : shape := struct_of
  [ ("Endpoint", pointer flat); ("ProxyURL", pointer flat); ("TLSSetting", pointer TLSClientSetting_shape);
    ("ReadBufferSize", pointer flat); ("WriteBufferSize", pointer flat); ("Timeout", pointer flat);
    ("Headers", pointer (map_of flat)); ("Auth", pointer Authentication_shape); ("Compression", pointer flat);
    ("CompressionParams", pointer CompressionParams_shape); ("MaxIdleConns", pointer flat);
    ("MaxIdleConnsPerHost", pointer flat); ("MaxConnsPerHost", pointer flat); ("IdleConnTimeout", pointer flat);
    ("DisableKeepAlives", pointer flat); ("HTTP2ReadIdleTimeout", pointer flat);
    ("HTTP2PingTimeout", pointer flat); ("Cookies", pointer CookiesConfig_shape) ].

Definition NamespacedName_shape : shape := struct_of
  [ ("Namespace", flat); ("Name", flat) ].

Definition OTLPGRPC_shape : shape := struct_of
  [ ("QueueConfig", pointer QueueSettings_shape); ("RetryConfig", pointer BackOffConfig_shape);
    ("TimeoutSettings", TimeoutSettings_shape); ("GRPCClientConfig", GRPCClientConfig_shape) ].

Definition OTLPHTTP_shape : shape := struct_of
  [ ("QueueConfig", pointer QueueSettings_shape); ("RetryConfig", pointer BackOffConfig_shape);
    ("HTTPClientConfig", HTTPClientConfig_shape); ("Encoding", pointer flat) ].

Definition OutputAuth_shape : shape := struct_of
  [ ("BasicAuth", pointer BasicAuthConfig_shape); ("BearerAuth", pointer BearerAuthConfig_shape) ].

Definition OutputSpec_shape : shape := struct_of
  [ ("OTLPGRPC", pointer OTLPGRPC_shape); ("Fluentforward", pointer Fluentforward_shape);
    ("OTLPHTTP", pointer OTLPHTTP_shape); ("File", pointer File_shape);
    ("Elasticsearch", pointer Elasticsearch_shape); ("AWSS3", pointer AWSS3_shape);
    ("Authentication", pointer OutputAuth_shape); ("Batch", pointer Batch_shape) ].

Definition OutputStatus_shape : shape := struct_of
  [ ("Tenant", flat); ("State", flat); ("Problems", slice flat); ("ProblemsCount", flat) ].

Definition Output_shape : shape := struct_of
  [ ("TypeMeta", flat); ("ObjectMeta", ObjectMeta_shape); ("Spec", OutputSpec_shape);
    ("Status", OutputStatus_shape) ].

Definition OutputList_shape : shape := struct_of
  [ ("TypeMeta", flat); ("ListMeta", ListMeta_shape); ("Items", slice Output_shape) ].

Definition PersistenceConfig_shape : shape := struct_of
  [ ("EnableFileStorage", flat); ("Directory", flat) ].

Definition RouteConfig_shape : shape := struct_of
  [ ("DefaultPipelines", slice flat); ("ErrorMode", flat) ].

Definition SubscriptionSpec_shape : shape := struct_of
  [ ("Condition", flat); ("Outputs", slice NamespacedName_shape) ].

Definition SubscriptionStatus_shape : shape := struct_of
  [ ("Tenant", flat); ("Outputs", slice NamespacedName_shape); ("State", flat); ("Problems", slice flat);
    ("ProblemsCount", flat) ].

Definition Subscription_shape : shape := struct_of
  [ ("TypeMeta", flat); ("ObjectMeta", ObjectMeta_shape); ("Spec", SubscriptionSpec_shape);
    ("Status", SubscriptionStatus_shape) ].

Definition SubscriptionList_shape : shape := struct_of
  [ ("TypeMeta", flat); ("ListMeta", ListMeta_shape); ("Items", slice Subscription_shape) ].

Definition TransformStatement_shape : shape := struct_of
  [ ("Context", flat); ("Conditions", slice flat); ("Statements", slice flat); ("ErrorMode", flat) ].

Definition Transform_shape : shape := struct_of
  [ ("Name", flat); ("FlattenData", flat); ("ErrorMode", flat);
    ("TraceStatements", slice TransformStatement_shape); ("MetricStatements", slice TransformStatement_shape);
    ("LogStatements", slice TransformStatement_shape) ].

Definition TenantSpec_shape : shape := struct_of
  [ ("SubscriptionNamespaceSelectors", slice LabelSelector_shape);
    ("LogSourceNamespaceSelectors", slice LabelSelector_shape); ("SelectFromAllNamespaces", flat);
    ("Transform", Transform_shape); ("RouteConfig", RouteConfig_shape);
    ("PersistenceConfig", PersistenceConfig_shape) ].

Definition TenantStatus_shape : shape := struct_of
  [ ("Subscriptions", slice NamespacedName_shape); ("LogSourceNamespaces", slice flat);
    ("ConnectedBridges", slice flat); ("State", flat); ("Problems", slice flat); ("ProblemsCount", flat) ].

Definition Tenant_shape : shape := struct_of
  [ ("TypeMeta", flat); ("ObjectMeta", ObjectMeta_shape); ("Spec", TenantSpec_shape);
    ("Status", TenantStatus_shape) ].

Definition TenantList_shape : shape := struct_of
  [ ("TypeMeta", flat); ("ListMeta", ListMeta_shape); ("Items", slice Tenant_shape) ].
End Types.

(** * Framing *)
Ltac frame_struct := apply struct_framed; repeat (apply Forall_cons; split; [cbn; apply _|]); apply Forall_nil_2.

Section Framing.
Context `{ForeignLaws}.

#[export] Instance TimeoutSettings_framed : Framed TimeoutSettings_shape. Proof. frame_struct. Qed.
#[export] Instance QueueBatch_framed : Framed QueueBatch_shape. Proof. frame_struct. Qed.
#[export] Instance QueueSettings_framed : Framed QueueSettings_shape. Proof. frame_struct. Qed.
#[export] Instance BackOffConfig_framed : Framed BackOffConfig_shape. Proof. frame_struct. Qed.
#[export] Instance S3UploaderConfig_framed : Framed S3UploaderConfig_shape. Proof. frame_struct. Qed.
#[export] Instance ResourceAttrsToS3_framed : Framed ResourceAttrsToS3_shape. Proof. frame_struct. Qed.
#[export] Instance AWSS3_framed : Framed AWSS3_shape. Proof. frame_struct. Qed.
#[export] Instance Authentication_framed : Framed Authentication_shape. Proof. frame_struct. Qed.
#[export] Instance BasicAuthConfig_framed : Framed BasicAuthConfig_shape. Proof. frame_struct. Qed.
#[export] Instance Batch_framed : Framed Batch_shape. Proof. frame_struct. Qed.
#[export] Instance BearerAuthConfig_framed : Framed BearerAuthConfig_shape. Proof. frame_struct. Qed.
#[export] Instance BridgeSpec_framed : Framed BridgeSpec_shape. Proof. frame_struct. Qed.
#[export] Instance BridgeStatus_framed : Framed BridgeStatus_shape. Proof. frame_struct. Qed.
#[export] Instance Bridge_framed : Framed Bridge_shape. Proof. frame_struct. Qed.
#[export] Instance BridgeList_framed : Framed BridgeList_shape. Proof. frame_struct. Qed.
#[export] Instance MemoryLimiter_framed : Framed MemoryLimiter_shape. Proof. frame_struct. Qed.
#[export] Instance EventsToLogs_framed : Framed EventsToLogs_shape. Proof. frame_struct. Qed.
#[export] Instance CollectorSpec_framed : Framed CollectorSpec_shape. Proof. frame_struct. Qed.
#[export] Instance CollectorStatus_framed : Framed CollectorStatus_shape. Proof. frame_struct. Qed.
#[export] Instance Collector_framed : Framed Collector_shape. Proof. frame_struct. Qed.
#[export] Instance CollectorList_framed : Framed CollectorList_shape. Proof. frame_struct. Qed.
#[export] Instance CompressionParams_framed : Framed CompressionParams_shape. Proof. frame_struct. Qed.
#[export] Instance CookiesConfig_framed : Framed CookiesConfig_shape. Proof. frame_struct. Qed.
#[export] Instance TLSSetting_framed : Framed TLSSetting_shape. Proof. frame_struct. Qed.
#[export] Instance TLSClientSetting_framed : Framed TLSClientSetting_shape. Proof. frame_struct. Qed.
#[export] Instance ElasticsearchMapping_framed : Framed ElasticsearchMapping_shape. Proof. frame_struct. Qed.
#[export] Instance ElasticsearchRetry_framed : Framed ElasticsearchRetry_shape. Proof. frame_struct. Qed.
#[export] Instance ElasticsearchFlush_framed : Framed ElasticsearchFlush_shape. Proof. frame_struct. Qed.
#[export] Instance ElasticsearchDiscover_framed : Framed ElasticsearchDiscover_shape. Proof. frame_struct. Qed.
#[export] Instance Elasticsearch_framed : Framed Elasticsearch_shape. Proof. frame_struct. Qed.
#[export] Instance Endpoint_framed : Framed Endpoint_shape. Proof. frame_struct. Qed.
#[export] Instance Rotation_framed : Framed Rotation_shape. Proof. frame_struct. Qed.
#[export] Instance GroupBy_framed : Framed GroupBy_shape. Proof. frame_struct. Qed.
#[export] Instance File_framed : Framed File_shape. Proof. frame_struct. Qed.
#[export] Instance KubernetesMetadata_framed : Framed KubernetesMetadata_shape. Proof. frame_struct. Qed.
#[export] Instance TCPClientSettings_framed : Framed TCPClientSettings_shape. Proof. frame_struct. Qed.
#[export] Instance Fluentforward_framed : Framed Fluentforward_shape. Proof. frame_struct. Qed.
#[export] Instance KeepaliveClientConfig_framed : Framed KeepaliveClientConfig_shape. Proof. frame_struct. Qed.
#[export] Instance GRPCClientConfig_framed : Framed GRPCClientConfig_shape. Proof. frame_struct. Qed.
#[export] Instance HTTPClientConfig_framed : Framed HTTPClientConfig_shape. Proof. frame_struct. Qed.
#[export] Instance NamespacedName_framed : Framed NamespacedName_shape. Proof. frame_struct. Qed.
#[export] Instance OTLPGRPC_framed : Framed OTLPGRPC_shape. Proof. frame_struct. Qed.
#[export] Instance OTLPHTTP_framed : Framed OTLPHTTP_shape. Proof. frame_struct. Qed.
#[export] Instance OutputAuth_framed : Framed OutputAuth_shape. Proof. frame_struct. Qed.
#[export] Instance OutputSpec_framed : Framed OutputSpec_shape. Proof. frame_struct. Qed.
#[export] Instance OutputStatus_framed : Framed OutputStatus_shape. Proof. frame_struct. Qed.
#[export] Instance Output_framed : Framed Output_shape. Proof. frame_struct. Qed.
#[export] Instance OutputList_framed : Framed OutputList_shape. Proof. frame_struct. Qed.
#[export] Instance PersistenceConfig_framed : Framed PersistenceConfig_shape. Proof. frame_struct. Qed.
#[export] Instance RouteConfig_framed : Framed RouteConfig_shape. Proof. frame_struct. Qed.
#[export] Instance SubscriptionSpec_framed : Framed SubscriptionSpec_shape. Proof. frame_struct. Qed.
#[export] Instance SubscriptionStatus_framed : Framed SubscriptionStatus_shape. Proof. frame_struct. Qed.
#[export] Instance Subscription_framed : Framed Subscription_shape. Proof. frame_struct. Qed.
#[export] Instance SubscriptionList_framed : Framed SubscriptionList_shape. Proof. frame_struct. Qed.
#[export] Instance TransformStatement_framed : Framed TransformStatement_shape. Proof. frame_struct. Qed.
#[export] Instance Transform_framed : Framed Transform_shape. Proof. frame_struct. Qed.
#[export] Instance TenantSpec_framed : Framed TenantSpec_shape. Proof. frame_struct. Qed.
#[export] Instance TenantStatus_framed : Framed TenantStatus_shape. Proof. frame_struct. Qed.
#[export] Instance Tenant_framed : Framed Tenant_shape. Proof. frame_struct. Qed.
#[export] Instance TenantList_framed : Framed TenantList_shape. Proof. frame_struct. Qed.
End Framing.
