(* ===== verification/DeepCopy.v ===== *)
(** [api/telemetry/v1alpha1/zz_generated.deepcopy.go]: the copiers of the types
    of the group, one for each function of the file. A [DeepCopyInto] lists the
    fields that are written after [*out = *in]; a [DeepCopy] takes a pointer and
    gives one; a [DeepCopyObject] gives an interface value. *)
From S2P Require Import Prelude Errors GoHeap GoTypes.

(** [if in == nil { return nil }; out := new(T); in.DeepCopyInto(out); return out] *)
Definition deep_copy (c : copier) : copier := copy_pointer c.

(** [if c := in.DeepCopy(); c != nil { return c }; return nil]: [None] is the
    nil interface. *)
Definition deep_copy_object (c : copier) (v : val) : M heap (option val) :=
  bind (c v) (λ c, ret match c with Nil => None | _ => Some c end).

Section DeepCopy.
Context `{!Foreign} `{MapRange}.

(** The ranges over maps *)
Definition site_Fluentforward_DefaultLabelsEnabled : nat := 11.
Definition site_GRPCClientConfig_Headers : nat := 12.
Definition site_HTTPClientConfig_Headers : nat := 13.

Definition TimeoutSettings_DeepCopyInto : copier := into
  [ ("Timeout", copy_pointer assign) ].
Definition TimeoutSettings_DeepCopy : copier := deep_copy TimeoutSettings_DeepCopyInto.

Definition QueueBatch_DeepCopyInto : copier := into
  [ ("MinSize", copy_pointer assign); ("MaxSize", copy_pointer assign); ("Sizer", copy_pointer assign);
    ("MetadataKeys", copy_slice assign) ].
Definition QueueBatch_DeepCopy : copier := deep_copy QueueBatch_DeepCopyInto.

Definition QueueSettings_DeepCopyInto : copier := into
  [ ("NumConsumers", copy_pointer assign); ("QueueSize", copy_pointer assign); ("Sizer", copy_pointer assign);
    ("WaitForResult", copy_pointer assign); ("BlockOnOverflow", copy_pointer assign);
    ("Batch", copy_pointer QueueBatch_DeepCopyInto) ].
Definition QueueSettings_DeepCopy : copier := deep_copy QueueSettings_DeepCopyInto.

Definition BackOffConfig_DeepCopyInto : copier := into
  [ ("InitialInterval", copy_pointer assign); ("RandomizationFactor", copy_pointer assign);
    ("Multiplier", copy_pointer assign); ("MaxInterval", copy_pointer assign);
    ("MaxElapsedTime", copy_pointer assign) ].
Definition BackOffConfig_DeepCopy : copier := deep_copy BackOffConfig_DeepCopyInto.

Definition S3UploaderConfig_DeepCopyInto : copier := into
  [ ("RetryMaxBackoff", copy_pointer assign) ].
Definition S3UploaderConfig_DeepCopy : copier := deep_copy S3UploaderConfig_DeepCopyInto.

Definition ResourceAttrsToS3_DeepCopyInto : copier := into [].
Definition ResourceAttrsToS3_DeepCopy : copier := deep_copy ResourceAttrsToS3_DeepCopyInto.

Definition AWSS3_DeepCopyInto : copier := into
  [ ("S3Uploader", copy_pointer S3UploaderConfig_DeepCopyInto); ("MarshalerName", copy_pointer assign);
    ("Encoding", copy_pointer assign); ("ResourceAttrsToS3", copy_pointer assign);
    ("TimeoutSettings", TimeoutSettings_DeepCopyInto); ("QueueConfig", copy_pointer QueueSettings_DeepCopyInto);
    ("RetryConfig", copy_pointer BackOffConfig_DeepCopyInto) ].
Definition AWSS3_DeepCopy : copier := deep_copy AWSS3_DeepCopyInto.

Definition Authentication_DeepCopyInto : copier := into
  [ ("AuthenticatorID", copy_pointer assign) ].
Definition Authentication_DeepCopy : copier := deep_copy Authentication_DeepCopyInto.

Definition BasicAuthConfig_DeepCopyInto : copier := into
  [ ("SecretRef", copy_pointer assign) ].
Definition BasicAuthConfig_DeepCopy : copier := deep_copy BasicAuthConfig_DeepCopyInto.

Definition Batch_DeepCopyInto : copier := into
  [ ("MetadataKeys", copy_slice assign) ].
Definition Batch_DeepCopy : copier := deep_copy Batch_DeepCopyInto.

Definition BearerAuthConfig_DeepCopyInto : copier := into
  [ ("SecretRef", copy_pointer assign) ].
Definition BearerAuthConfig_DeepCopy : copier := deep_copy BearerAuthConfig_DeepCopyInto.

Definition BridgeSpec_DeepCopyInto : copier := into [].
Definition BridgeSpec_DeepCopy : copier := deep_copy BridgeSpec_DeepCopyInto.

Definition BridgeStatus_DeepCopyInto : copier := into
  [ ("Problems", copy_slice assign) ].
Definition BridgeStatus_DeepCopy : copier := deep_copy BridgeStatus_DeepCopyInto.

Definition Bridge_DeepCopyInto : copier := into
  [ ("TypeMeta", assign); ("ObjectMeta", ObjectMeta_DeepCopyInto); ("Spec", assign);
    ("Status", BridgeStatus_DeepCopyInto) ].
Definition Bridge_DeepCopy : copier := deep_copy Bridge_DeepCopyInto.
Definition Bridge_DeepCopyObject (v : val) : M heap (option val) := deep_copy_object Bridge_DeepCopy v.

Definition BridgeList_DeepCopyInto : copier := into
  [ ("TypeMeta", assign); ("ListMeta", ListMeta_DeepCopyInto); ("Items", copy_slice Bridge_DeepCopyInto) ].
Definition BridgeList_DeepCopy : copier := deep_copy BridgeList_DeepCopyInto.
Definition BridgeList_DeepCopyObject (v : val) : M heap (option val) := deep_copy_object BridgeList_DeepCopy v.

Definition MemoryLimiter_DeepCopyInto : copier := into [].
Definition MemoryLimiter_DeepCopy : copier := deep_copy MemoryLimiter_DeepCopyInto.

Definition EventsToLogs_DeepCopyInto : copier := into
  [ ("KubeAPIQPS", copy_pointer assign); ("KubeAPIBurst", copy_pointer assign);
    ("DedupInterval", copy_pointer assign) ].
Definition EventsToLogs_DeepCopy : copier := deep_copy EventsToLogs_DeepCopyInto.

Definition CollectorSpec_DeepCopyInto : copier := into
  [ ("TenantSelector", LabelSelector_DeepCopyInto); ("Debug", copy_pointer assign);
    ("DryRunMode", copy_pointer assign); ("EventsToLogs", copy_pointer EventsToLogs_DeepCopyInto);
    ("MemoryLimiter", copy_pointer assign);
    ("OtelCommonFields", copy_pointer OpenTelemetryCommonFields_DeepCopyInto) ].
Definition CollectorSpec_DeepCopy : copier := deep_copy CollectorSpec_DeepCopyInto.

Definition CollectorStatus_DeepCopyInto : copier := into
  [ ("Tenants", copy_slice assign); ("Problems", copy_slice assign) ].
Definition CollectorStatus_DeepCopy : copier := deep_copy CollectorStatus_DeepCopyInto.

Definition Collector_DeepCopyInto : copier := into
  [ ("TypeMeta", assign); ("ObjectMeta", ObjectMeta_DeepCopyInto); ("Spec", CollectorSpec_DeepCopyInto);
    ("Status", CollectorStatus_DeepCopyInto) ].
Definition Collector_DeepCopy : copier := deep_copy Collector_DeepCopyInto.
Definition Collector_DeepCopyObject (v : val) : M heap (option val) := deep_copy_object Collector_DeepCopy v.

Definition CollectorList_DeepCopyInto : copier := into
  [ ("TypeMeta", assign); ("ListMeta", ListMeta_DeepCopyInto); ("Items", copy_slice Collector_DeepCopyInto) ].
Definition CollectorList_DeepCopy : copier := deep_copy CollectorList_DeepCopyInto.
Definition CollectorList_DeepCopyObject (v : val) : M heap (option val) := deep_copy_object CollectorList_DeepCopy v.

Definition CompressionParams_DeepCopyInto : copier := into
  [ ("Level", copy_pointer assign) ].
Definition CompressionParams_DeepCopy : copier := deep_copy CompressionParams_DeepCopyInto.

Definition CookiesConfig_DeepCopyInto : copier := into [].
Definition CookiesConfig_DeepCopy : copier := deep_copy CookiesConfig_DeepCopyInto.

Definition TLSSetting_DeepCopyInto : copier := into
  [ ("CipherSuites", copy_slice assign); ("ReloadInterval", copy_pointer assign);
    ("CurvePreferences", copy_slice assign) ].
Definition TLSSetting_DeepCopy : copier := deep_copy TLSSetting_DeepCopyInto.

Definition TLSClientSetting_DeepCopyInto : copier := into
  [ ("TLSSetting", TLSSetting_DeepCopyInto) ].
Definition TLSClientSetting_DeepCopy : copier := deep_copy TLSClientSetting_DeepCopyInto.

Definition ElasticsearchMapping_DeepCopyInto : copier := into
  [ ("Mode", copy_pointer assign) ].
Definition ElasticsearchMapping_DeepCopy : copier := deep_copy ElasticsearchMapping_DeepCopyInto.

Definition ElasticsearchRetry_DeepCopyInto : copier := into
  [ ("Enabled", copy_pointer assign); ("MaxRetries", copy_pointer assign);
    ("InitialInterval", copy_pointer assign); ("MaxInterval", copy_pointer assign);
    ("RetryOnStatus", copy_slice assign) ].
Definition ElasticsearchRetry_DeepCopy : copier := deep_copy ElasticsearchRetry_DeepCopyInto.

Definition ElasticsearchFlush_DeepCopyInto : copier := into
  [ ("Bytes", copy_pointer assign); ("Interval", copy_pointer assign) ].
Definition ElasticsearchFlush_DeepCopy : copier := deep_copy ElasticsearchFlush_DeepCopyInto.

Definition ElasticsearchDiscover_DeepCopyInto : copier := into
  [ ("OnStart", copy_pointer assign); ("Interval", copy_pointer assign) ].
Definition ElasticsearchDiscover_DeepCopy : copier := deep_copy ElasticsearchDiscover_DeepCopyInto.

Definition Elasticsearch_DeepCopyInto : copier := into
  [ ("Endpoint", copy_pointer assign); ("Endpoints", copy_slice assign); ("CloudID", copy_pointer assign);
    ("User", copy_pointer assign); ("Password", copy_pointer assign); ("APIKey", copy_pointer assign);
    ("LogsIndex", copy_pointer assign); ("MetricsIndex", copy_pointer assign);
    ("TracesIndex", copy_pointer assign); ("Mapping", copy_pointer ElasticsearchMapping_DeepCopyInto);
    ("Retry", copy_pointer ElasticsearchRetry_DeepCopyInto);
    ("Flush", copy_pointer ElasticsearchFlush_DeepCopyInto);
    ("QueueConfig", copy_pointer QueueSettings_DeepCopyInto); ("NumWorkers", copy_pointer assign);
    ("TLSSetting", copy_pointer TLSClientSetting_DeepCopyInto); ("Pipeline", copy_pointer assign);
    ("Discover", copy_pointer ElasticsearchDiscover_DeepCopyInto) ].
Definition Elasticsearch_DeepCopy : copier := deep_copy Elasticsearch_DeepCopyInto.

Definition Endpoint_DeepCopyInto : copier := into
  [ ("TCPAddr", copy_pointer assign) ].
Definition Endpoint_DeepCopy : copier := deep_copy Endpoint_DeepCopyInto.

Definition Rotation_DeepCopyInto : copier := into
  [ ("LocalTime", copy_pointer assign) ].
Definition Rotation_DeepCopy : copier := deep_copy Rotation_DeepCopyInto.

Definition GroupBy_DeepCopyInto : copier := into [].
Definition GroupBy_DeepCopy : copier := deep_copy GroupBy_DeepCopyInto.

Definition File_DeepCopyInto : copier := into
  [ ("Rotation", copy_pointer Rotation_DeepCopyInto); ("Encoding", copy_pointer assign);
    ("FlushInterval", copy_pointer assign); ("GroupBy", copy_pointer assign) ].
Definition File_DeepCopy : copier := deep_copy File_DeepCopyInto.

Definition KubernetesMetadata_DeepCopyInto : copier := into [].
Definition KubernetesMetadata_DeepCopy : copier := deep_copy KubernetesMetadata_DeepCopyInto.

Definition TCPClientSettings_DeepCopyInto : copier := into
  [ ("Endpoint", copy_pointer Endpoint_DeepCopyInto); ("ConnectionTimeout", copy_pointer assign);
    ("TLSSetting", copy_pointer TLSClientSetting_DeepCopyInto); ("SharedKey", copy_pointer assign) ].
Definition TCPClientSettings_DeepCopy : copier := deep_copy TCPClientSettings_DeepCopyInto.

Definition Fluentforward_DeepCopyInto : copier := into
  [ ("TCPClientSettings", TCPClientSettings_DeepCopyInto); ("RequireAck", copy_pointer assign);
    ("Tag", copy_pointer assign); ("CompressGzip", copy_pointer assign);
    ("DefaultLabelsEnabled", copy_pointer (copy_map site_Fluentforward_DefaultLabelsEnabled));
    ("QueueConfig", copy_pointer QueueSettings_DeepCopyInto);
    ("RetryConfig", copy_pointer BackOffConfig_DeepCopyInto); ("Kubernetes", copy_pointer assign) ].
Definition Fluentforward_DeepCopy : copier := deep_copy Fluentforward_DeepCopyInto.

Definition KeepaliveClientConfig_DeepCopyInto : copier := into
  [ ("Time", copy_pointer assign); ("Timeout", copy_pointer assign) ].
Definition KeepaliveClientConfig_DeepCopy : copier := deep_copy KeepaliveClientConfig_DeepCopyInto.

Definition GRPCClientConfig_DeepCopyInto : copier := into
  [ ("Endpoint", copy_pointer assign); ("Compression", copy_pointer assign);
    ("TLSSetting", copy_pointer TLSClientSetting_DeepCopyInto);
    ("Keepalive", copy_pointer KeepaliveClientConfig_DeepCopyInto); ("ReadBufferSize", copy_pointer assign);
    ("WriteBufferSize", copy_pointer assign); ("WaitForReady", copy_pointer assign);
    ("Headers", copy_pointer (copy_map site_GRPCClientConfig_Headers)); ("BalancerName", copy_pointer assign);
    ("Authority", copy_pointer assign); ("Auth", copy_pointer Authentication_DeepCopyInto) ].
Definition GRPCClientConfig_DeepCopy : copier := deep_copy GRPCClientConfig_DeepCopyInto.

Definition HTTPClientConfig_DeepCopyInto : copier := into
  [ ("Endpoint", copy_pointer assign); ("ProxyURL", copy_pointer assign);
    ("TLSSetting", copy_pointer TLSClientSetting_DeepCopyInto); ("ReadBufferSize", copy_pointer assign);
    ("WriteBufferSize", copy_pointer assign); ("Timeout", copy_pointer assign);
    ("Headers", copy_pointer (copy_map site_HTTPClientConfig_Headers));
    ("Auth", copy_pointer Authentication_DeepCopyInto); ("Compression", copy_pointer assign);
    ("CompressionParams", copy_pointer CompressionParams_DeepCopyInto); ("MaxIdleConns", copy_pointer assign);
    ("MaxIdleConnsPerHost", copy_pointer assign); ("MaxConnsPerHost", copy_pointer assign);
    ("IdleConnTimeout", copy_pointer assign); ("DisableKeepAlives", copy_pointer assign);
    ("HTTP2ReadIdleTimeout", copy_pointer assign); ("HTTP2PingTimeout", copy_pointer assign);
    ("Cookies", copy_pointer assign) ].
Definition HTTPClientConfig_DeepCopy : copier := deep_copy HTTPClientConfig_DeepCopyInto.

Definition NamespacedName_DeepCopyInto : copier := into [].
Definition NamespacedName_DeepCopy : copier := deep_copy NamespacedName_DeepCopyInto.

Definition OTLPGRPC_DeepCopyInto : copier := into
  [ ("QueueConfig", copy_pointer QueueSettings_DeepCopyInto);
    ("RetryConfig", copy_pointer BackOffConfig_DeepCopyInto); ("TimeoutSettings", TimeoutSettings_DeepCopyInto);
    ("GRPCClientConfig", GRPCClientConfig_DeepCopyInto) ].
Definition OTLPGRPC_DeepCopy : copier := deep_copy OTLPGRPC_DeepCopyInto.

Definition OTLPHTTP_DeepCopyInto : copier := into
  [ ("QueueConfig", copy_pointer QueueSettings_DeepCopyInto);
    ("RetryConfig", copy_pointer BackOffConfig_DeepCopyInto);
    ("HTTPClientConfig", HTTPClientConfig_DeepCopyInto); ("Encoding", copy_pointer assign) ].
Definition OTLPHTTP_DeepCopy : copier := deep_copy OTLPHTTP_DeepCopyInto.

Definition OutputAuth_DeepCopyInto : copier := into
  [ ("BasicAuth", copy_pointer BasicAuthConfig_DeepCopyInto);
    ("BearerAuth", copy_pointer BearerAuthConfig_DeepCopyInto) ].
Definition OutputAuth_DeepCopy : copier := deep_copy OutputAuth_DeepCopyInto.

Definition OutputSpec_DeepCopyInto : copier := into
  [ ("OTLPGRPC", copy_pointer OTLPGRPC_DeepCopyInto);
    ("Fluentforward", copy_pointer Fluentforward_DeepCopyInto);
    ("OTLPHTTP", copy_pointer OTLPHTTP_DeepCopyInto); ("File", copy_pointer File_DeepCopyInto);
    ("Elasticsearch", copy_pointer Elasticsearch_DeepCopyInto); ("AWSS3", copy_pointer AWSS3_DeepCopyInto);
    ("Authentication", copy_pointer OutputAuth_DeepCopyInto); ("Batch", copy_pointer Batch_DeepCopyInto) ].
Definition OutputSpec_DeepCopy : copier := deep_copy OutputSpec_DeepCopyInto.

Definition OutputStatus_DeepCopyInto : copier := into
  [ ("Problems", copy_slice assign) ].
Definition OutputStatus_DeepCopy : copier := deep_copy OutputStatus_DeepCopyInto.

Definition Output_DeepCopyInto : copier := into
  [ ("TypeMeta", assign); ("ObjectMeta", ObjectMeta_DeepCopyInto); ("Spec", OutputSpec_DeepCopyInto);
    ("Status", OutputStatus_DeepCopyInto) ].
Definition Output_DeepCopy : copier := deep_copy Output_DeepCopyInto.
Definition Output_DeepCopyObject (v : val) : M heap (option val) := deep_copy_object Output_DeepCopy v.

Definition OutputList_DeepCopyInto : copier := into
  [ ("TypeMeta", assign); ("ListMeta", ListMeta_DeepCopyInto); ("Items", copy_slice Output_DeepCopyInto) ].
Definition OutputList_DeepCopy : copier := deep_copy OutputList_DeepCopyInto.
Definition OutputList_DeepCopyObject (v : val) : M heap (option val) := deep_copy_object OutputList_DeepCopy v.

Definition PersistenceConfig_DeepCopyInto : copier := into [].
Definition PersistenceConfig_DeepCopy : copier := deep_copy PersistenceConfig_DeepCopyInto.

Definition RouteConfig_DeepCopyInto : copier := into
  [ ("DefaultPipelines", copy_slice assign) ].
Definition RouteConfig_DeepCopy : copier := deep_copy RouteConfig_DeepCopyInto.

Definition SubscriptionSpec_DeepCopyInto : copier := into
  [ ("Outputs", copy_slice assign) ].
Definition SubscriptionSpec_DeepCopy : copier := deep_copy SubscriptionSpec_DeepCopyInto.

Definition SubscriptionStatus_DeepCopyInto : copier := into
  [ ("Outputs", copy_slice assign); ("Problems", copy_slice assign) ].
Definition SubscriptionStatus_DeepCopy : copier := deep_copy SubscriptionStatus_DeepCopyInto.

Definition Subscription_DeepCopyInto : copier := into
  [ ("TypeMeta", assign); ("ObjectMeta", ObjectMeta_DeepCopyInto); ("Spec", SubscriptionSpec_DeepCopyInto);
    ("Status", SubscriptionStatus_DeepCopyInto) ].
Definition Subscription_DeepCopy : copier := deep_copy Subscription_DeepCopyInto.
Definition Subscription_DeepCopyObject (v : val) : M heap (option val) := deep_copy_object Subscription_DeepCopy v.

Definition SubscriptionList_DeepCopyInto : copier := into
  [ ("TypeMeta", assign); ("ListMeta", ListMeta_DeepCopyInto); ("Items", copy_slice Subscription_DeepCopyInto) ].
Definition SubscriptionList_DeepCopy : copier := deep_copy SubscriptionList_DeepCopyInto.
Definition SubscriptionList_DeepCopyObject (v : val) : M heap (option val) := deep_copy_object SubscriptionList_DeepCopy v.

Definition TransformStatement_DeepCopyInto : copier := into
  [ ("Conditions", copy_slice assign); ("Statements", copy_slice assign) ].
Definition TransformStatement_DeepCopy : copier := deep_copy TransformStatement_DeepCopyInto.

Definition Transform_DeepCopyInto : copier := into
  [ ("TraceStatements", copy_slice TransformStatement_DeepCopyInto);
    ("MetricStatements", copy_slice TransformStatement_DeepCopyInto);
    ("LogStatements", copy_slice TransformStatement_DeepCopyInto) ].
Definition Transform_DeepCopy : copier := deep_copy Transform_DeepCopyInto.

Definition TenantSpec_DeepCopyInto : copier := into
  [ ("SubscriptionNamespaceSelectors", copy_slice LabelSelector_DeepCopyInto);
    ("LogSourceNamespaceSelectors", copy_slice LabelSelector_DeepCopyInto);
    ("Transform", Transform_DeepCopyInto); ("RouteConfig", RouteConfig_DeepCopyInto);
    ("PersistenceConfig", assign) ].
Definition TenantSpec_DeepCopy : copier := deep_copy TenantSpec_DeepCopyInto.

Definition TenantStatus_DeepCopyInto : copier := into
  [ ("Subscriptions", copy_slice assign); ("LogSourceNamespaces", copy_slice assign);
    ("ConnectedBridges", copy_slice assign); ("Problems", copy_slice assign) ].
Definition TenantStatus_DeepCopy : copier := deep_copy TenantStatus_DeepCopyInto.

Definition Tenant_DeepCopyInto : copier := into
  [ ("TypeMeta", assign); ("ObjectMeta", ObjectMeta_DeepCopyInto); ("Spec", TenantSpec_DeepCopyInto);
    ("Status", TenantStatus_DeepCopyInto) ].
Definition Tenant_DeepCopy : copier := deep_copy Tenant_DeepCopyInto.
Definition Tenant_DeepCopyObject (v : val) : M heap (option val) := deep_copy_object Tenant_DeepCopy v.

Definition TenantList_DeepCopyInto : copier := into
  [ ("TypeMeta", assign); ("ListMeta", ListMeta_DeepCopyInto); ("Items", copy_slice Tenant_DeepCopyInto) ].
Definition TenantList_DeepCopy : copier := deep_copy TenantList_DeepCopyInto.
Definition TenantList_DeepCopyObject (v : val) : M heap (option val) := deep_copy_object TenantList_DeepCopy v.
End DeepCopy.
