(* ===== verification/DeepCopySpec.v ===== *)
(** What the deep copies promise: every one of them makes a value that reads as
    the one it was made from and shares no memory with it, so neither is
    disturbed by what is done to the other. *)
From S2P Require Import Prelude Errors GoHeap GoTypes DeepCopy.

Section Instances.
(** The instances are found by the names of the types. *)
#[local] Hint Constants Opaque : typeclass_instances.

Context `{ForeignLaws} `{MapRange}.

#[export] Instance TimeoutSettings_copies : Copies TimeoutSettings_shape TimeoutSettings_DeepCopyInto. Proof. copy_struct. Qed.
#[export] Instance QueueBatch_copies : Copies QueueBatch_shape QueueBatch_DeepCopyInto. Proof. copy_struct. Qed.
#[export] Instance QueueSettings_copies : Copies QueueSettings_shape QueueSettings_DeepCopyInto. Proof. copy_struct. Qed.
#[export] Instance BackOffConfig_copies : Copies BackOffConfig_shape BackOffConfig_DeepCopyInto. Proof. copy_struct. Qed.
#[export] Instance S3UploaderConfig_copies : Copies S3UploaderConfig_shape S3UploaderConfig_DeepCopyInto. Proof. copy_struct. Qed.
#[export] Instance ResourceAttrsToS3_copies : Copies ResourceAttrsToS3_shape ResourceAttrsToS3_DeepCopyInto. Proof. copy_struct. Qed.
#[export] Instance ResourceAttrsToS3_assign : Copies ResourceAttrsToS3_shape assign. Proof. apply assign_struct, ResourceAttrsToS3_copies. Qed.
#[export] Instance AWSS3_copies : Copies AWSS3_shape AWSS3_DeepCopyInto. Proof. copy_struct. Qed.
#[export] Instance Authentication_copies : Copies Authentication_shape Authentication_DeepCopyInto. Proof. copy_struct. Qed.
#[export] Instance BasicAuthConfig_copies : Copies BasicAuthConfig_shape BasicAuthConfig_DeepCopyInto. Proof. copy_struct. Qed.
#[export] Instance Batch_copies : Copies Batch_shape Batch_DeepCopyInto. Proof. copy_struct. Qed.
#[export] Instance BearerAuthConfig_copies : Copies BearerAuthConfig_shape BearerAuthConfig_DeepCopyInto. Proof. copy_struct. Qed.
#[export] Instance BridgeSpec_copies : Copies BridgeSpec_shape BridgeSpec_DeepCopyInto. Proof. copy_struct. Qed.
#[export] Instance BridgeSpec_assign : Copies BridgeSpec_shape assign. Proof. apply assign_struct, BridgeSpec_copies. Qed.
#[export] Instance BridgeStatus_copies : Copies BridgeStatus_shape BridgeStatus_DeepCopyInto. Proof. copy_struct. Qed.
#[export] Instance Bridge_copies : Copies Bridge_shape Bridge_DeepCopyInto. Proof. copy_struct. Qed.
#[export] Instance BridgeList_copies : Copies BridgeList_shape BridgeList_DeepCopyInto. Proof. copy_struct. Qed.
#[export] Instance MemoryLimiter_copies : Copies MemoryLimiter_shape MemoryLimiter_DeepCopyInto. Proof. copy_struct. Qed.
#[export] Instance MemoryLimiter_assign : Copies MemoryLimiter_shape assign. Proof. apply assign_struct, MemoryLimiter_copies. Qed.
#[export] Instance EventsToLogs_copies : Copies EventsToLogs_shape EventsToLogs_DeepCopyInto. Proof. copy_struct. Qed.
#[export] Instance CollectorSpec_copies : Copies CollectorSpec_shape CollectorSpec_DeepCopyInto. Proof. copy_struct. Qed.
#[export] Instance CollectorStatus_copies : Copies CollectorStatus_shape CollectorStatus_DeepCopyInto. Proof. copy_struct. Qed.
#[export] Instance Collector_copies : Copies Collector_shape Collector_DeepCopyInto. Proof. copy_struct. Qed.
#[export] Instance CollectorList_copies : Copies CollectorList_shape CollectorList_DeepCopyInto. Proof. copy_struct. Qed.
#[export] Instance CompressionParams_copies : Copies CompressionParams_shape CompressionParams_DeepCopyInto. Proof. copy_struct. Qed.
#[export] Instance CookiesConfig_copies : Copies CookiesConfig_shape CookiesConfig_DeepCopyInto. Proof. copy_struct. Qed.
#[export] Instance CookiesConfig_assign : Copies CookiesConfig_shape assign. Proof. apply assign_struct, CookiesConfig_copies. Qed.
#[export] Instance TLSSetting_copies : Copies TLSSetting_shape TLSSetting_DeepCopyInto. Proof. copy_struct. Qed.
#[export] Instance TLSClientSetting_copies : Copies TLSClientSetting_shape TLSClientSetting_DeepCopyInto. Proof. copy_struct. Qed.
#[export] Instance ElasticsearchMapping_copies : Copies ElasticsearchMapping_shape ElasticsearchMapping_DeepCopyInto. Proof. copy_struct. Qed.
#[export] Instance ElasticsearchRetry_copies : Copies ElasticsearchRetry_shape ElasticsearchRetry_DeepCopyInto. Proof. copy_struct. Qed.
#[export] Instance ElasticsearchFlush_copies : Copies ElasticsearchFlush_shape ElasticsearchFlush_DeepCopyInto. Proof. copy_struct. Qed.
#[export] Instance ElasticsearchDiscover_copies : Copies ElasticsearchDiscover_shape ElasticsearchDiscover_DeepCopyInto. Proof. copy_struct. Qed.
#[export] Instance Elasticsearch_copies : Copies Elasticsearch_shape Elasticsearch_DeepCopyInto. Proof. copy_struct. Qed.
#[export] Instance Endpoint_copies : Copies Endpoint_shape Endpoint_DeepCopyInto. Proof. copy_struct. Qed.
#[export] Instance Rotation_copies : Copies Rotation_shape Rotation_DeepCopyInto. Proof. copy_struct. Qed.
#[export] Instance GroupBy_copies : Copies GroupBy_shape GroupBy_DeepCopyInto. Proof. copy_struct. Qed.
#[export] Instance GroupBy_assign : Copies GroupBy_shape assign. Proof. apply assign_struct, GroupBy_copies. Qed.
#[export] Instance File_copies : Copies File_shape File_DeepCopyInto. Proof. copy_struct. Qed.
#[export] Instance KubernetesMetadata_copies : Copies KubernetesMetadata_shape KubernetesMetadata_DeepCopyInto. Proof. copy_struct. Qed.
#[export] Instance KubernetesMetadata_assign : Copies KubernetesMetadata_shape assign. Proof. apply assign_struct, KubernetesMetadata_copies. Qed.
#[export] Instance TCPClientSettings_copies : Copies TCPClientSettings_shape TCPClientSettings_DeepCopyInto. Proof. copy_struct. Qed.
#[export] Instance Fluentforward_copies : Copies Fluentforward_shape Fluentforward_DeepCopyInto. Proof. copy_struct. Qed.
#[export] Instance KeepaliveClientConfig_copies : Copies KeepaliveClientConfig_shape KeepaliveClientConfig_DeepCopyInto. Proof. copy_struct. Qed.
#[export] Instance GRPCClientConfig_copies : Copies GRPCClientConfig_shape GRPCClientConfig_DeepCopyInto. Proof. copy_struct. Qed.
#[export] Instance HTTPClientConfig_copies : Copies HTTPClientConfig_shape HTTPClientConfig_DeepCopyInto. Proof. copy_struct. Qed.
#[export] Instance NamespacedName_copies : Copies NamespacedName_shape NamespacedName_DeepCopyInto. Proof. copy_struct. Qed.
#[export] Instance NamespacedName_assign : Copies NamespacedName_shape assign. Proof. apply assign_struct, NamespacedName_copies. Qed.
#[export] Instance OTLPGRPC_copies : Copies OTLPGRPC_shape OTLPGRPC_DeepCopyInto. Proof. copy_struct. Qed.
#[export] Instance OTLPHTTP_copies : Copies OTLPHTTP_shape OTLPHTTP_DeepCopyInto. Proof. copy_struct. Qed.
#[export] Instance OutputAuth_copies : Copies OutputAuth_shape OutputAuth_DeepCopyInto. Proof. copy_struct. Qed.
#[export] Instance OutputSpec_copies : Copies OutputSpec_shape OutputSpec_DeepCopyInto. Proof. copy_struct. Qed.
#[export] Instance OutputStatus_copies : Copies OutputStatus_shape OutputStatus_DeepCopyInto. Proof. copy_struct. Qed.
#[export] Instance Output_copies : Copies Output_shape Output_DeepCopyInto. Proof. copy_struct. Qed.
#[export] Instance OutputList_copies : Copies OutputList_shape OutputList_DeepCopyInto. Proof. copy_struct. Qed.
#[export] Instance PersistenceConfig_copies : Copies PersistenceConfig_shape PersistenceConfig_DeepCopyInto. Proof. copy_struct. Qed.
#[export] Instance PersistenceConfig_assign : Copies PersistenceConfig_shape assign. Proof. apply assign_struct, PersistenceConfig_copies. Qed.
#[export] Instance RouteConfig_copies : Copies RouteConfig_shape RouteConfig_DeepCopyInto. Proof. copy_struct. Qed.
#[export] Instance SubscriptionSpec_copies : Copies SubscriptionSpec_shape SubscriptionSpec_DeepCopyInto. Proof. copy_struct. Qed.
#[export] Instance SubscriptionStatus_copies : Copies SubscriptionStatus_shape SubscriptionStatus_DeepCopyInto. Proof. copy_struct. Qed.
#[export] Instance Subscription_copies : Copies Subscription_shape Subscription_DeepCopyInto. Proof. copy_struct. Qed.
#[export] Instance SubscriptionList_copies : Copies SubscriptionList_shape SubscriptionList_DeepCopyInto. Proof. copy_struct. Qed.
#[export] Instance TransformStatement_copies : Copies TransformStatement_shape TransformStatement_DeepCopyInto. Proof. copy_struct. Qed.
#[export] Instance Transform_copies : Copies Transform_shape Transform_DeepCopyInto. Proof. copy_struct. Qed.
#[export] Instance TenantSpec_copies : Copies TenantSpec_shape TenantSpec_DeepCopyInto. Proof. copy_struct. Qed.
#[export] Instance TenantStatus_copies : Copies TenantStatus_shape TenantStatus_DeepCopyInto. Proof. copy_struct. Qed.
#[export] Instance Tenant_copies : Copies Tenant_shape Tenant_DeepCopyInto. Proof. copy_struct. Qed.
#[export] Instance TenantList_copies : Copies TenantList_shape TenantList_DeepCopyInto. Proof. copy_struct. Qed.
End Instances.

(** * The table of the functions *)
Section Table.
#[local] Hint Constants Opaque : typeclass_instances.
Context `{!Foreign} `{MapRange}.

(** A type, its shape, and its [DeepCopy] *)
Definition deep_copies : list (string * shape * copier) :=
  [ ("AWSS3", AWSS3_shape, AWSS3_DeepCopy); ("Authentication", Authentication_shape, Authentication_DeepCopy);
    ("BackOffConfig", BackOffConfig_shape, BackOffConfig_DeepCopy);
    ("BasicAuthConfig", BasicAuthConfig_shape, BasicAuthConfig_DeepCopy);
    ("Batch", Batch_shape, Batch_DeepCopy);
    ("BearerAuthConfig", BearerAuthConfig_shape, BearerAuthConfig_DeepCopy);
    ("Bridge", Bridge_shape, Bridge_DeepCopy); ("BridgeList", BridgeList_shape, BridgeList_DeepCopy);
    ("BridgeSpec", BridgeSpec_shape, BridgeSpec_DeepCopy);
    ("BridgeStatus", BridgeStatus_shape, BridgeStatus_DeepCopy);
    ("Collector", Collector_shape, Collector_DeepCopy);
    ("CollectorList", CollectorList_shape, CollectorList_DeepCopy);
    ("CollectorSpec", CollectorSpec_shape, CollectorSpec_DeepCopy);
    ("CollectorStatus", CollectorStatus_shape, CollectorStatus_DeepCopy);
    ("CompressionParams", CompressionParams_shape, CompressionParams_DeepCopy);
    ("CookiesConfig", CookiesConfig_shape, CookiesConfig_DeepCopy);
    ("Elasticsearch", Elasticsearch_shape, Elasticsearch_DeepCopy);
    ("ElasticsearchDiscover", ElasticsearchDiscover_shape, ElasticsearchDiscover_DeepCopy);
    ("ElasticsearchFlush", ElasticsearchFlush_shape, ElasticsearchFlush_DeepCopy);
    ("ElasticsearchMapping", ElasticsearchMapping_shape, ElasticsearchMapping_DeepCopy);
    ("ElasticsearchRetry", ElasticsearchRetry_shape, ElasticsearchRetry_DeepCopy);
    ("Endpoint", Endpoint_shape, Endpoint_DeepCopy);
    ("EventsToLogs", EventsToLogs_shape, EventsToLogs_DeepCopy); ("File", File_shape, File_DeepCopy);
    ("Fluentforward", Fluentforward_shape, Fluentforward_DeepCopy);
    ("GRPCClientConfig", GRPCClientConfig_shape, GRPCClientConfig_DeepCopy);
    ("GroupBy", GroupBy_shape, GroupBy_DeepCopy);
    ("HTTPClientConfig", HTTPClientConfig_shape, HTTPClientConfig_DeepCopy);
    ("KeepaliveClientConfig", KeepaliveClientConfig_shape, KeepaliveClientConfig_DeepCopy);
    ("KubernetesMetadata", KubernetesMetadata_shape, KubernetesMetadata_DeepCopy);
    ("MemoryLimiter", MemoryLimiter_shape, MemoryLimiter_DeepCopy);
    ("NamespacedName", NamespacedName_shape, NamespacedName_DeepCopy);
    ("OTLPGRPC", OTLPGRPC_shape, OTLPGRPC_DeepCopy); ("OTLPHTTP", OTLPHTTP_shape, OTLPHTTP_DeepCopy);
    ("Output", Output_shape, Output_DeepCopy); ("OutputAuth", OutputAuth_shape, OutputAuth_DeepCopy);
    ("OutputList", OutputList_shape, OutputList_DeepCopy);
    ("OutputSpec", OutputSpec_shape, OutputSpec_DeepCopy);
    ("OutputStatus", OutputStatus_shape, OutputStatus_DeepCopy);
    ("PersistenceConfig", PersistenceConfig_shape, PersistenceConfig_DeepCopy);
    ("QueueBatch", QueueBatch_shape, QueueBatch_DeepCopy);
    ("QueueSettings", QueueSettings_shape, QueueSettings_DeepCopy);
    ("ResourceAttrsToS3", ResourceAttrsToS3_shape, ResourceAttrsToS3_DeepCopy);
    ("Rotation", Rotation_shape, Rotation_DeepCopy); ("RouteConfig", RouteConfig_shape, RouteConfig_DeepCopy);
    ("S3UploaderConfig", S3UploaderConfig_shape, S3UploaderConfig_DeepCopy);
    ("Subscription", Subscription_shape, Subscription_DeepCopy);
    ("SubscriptionList", SubscriptionList_shape, SubscriptionList_DeepCopy);
    ("SubscriptionSpec", SubscriptionSpec_shape, SubscriptionSpec_DeepCopy);
    ("SubscriptionStatus", SubscriptionStatus_shape, SubscriptionStatus_DeepCopy);
    ("TCPClientSettings", TCPClientSettings_shape, TCPClientSettings_DeepCopy);
    ("TLSClientSetting", TLSClientSetting_shape, TLSClientSetting_DeepCopy);
    ("TLSSetting", TLSSetting_shape, TLSSetting_DeepCopy); ("Tenant", Tenant_shape, Tenant_DeepCopy);
    ("TenantList", TenantList_shape, TenantList_DeepCopy);
    ("TenantSpec", TenantSpec_shape, TenantSpec_DeepCopy);
    ("TenantStatus", TenantStatus_shape, TenantStatus_DeepCopy);
    ("TimeoutSettings", TimeoutSettings_shape, TimeoutSettings_DeepCopy);
    ("Transform", Transform_shape, Transform_DeepCopy);
    ("TransformStatement", TransformStatement_shape, TransformStatement_DeepCopy) ].

(** [DeepCopyObject] of the types that are API objects *)
Definition deep_copy_objects : list (string * shape * (val → M heap (option val))) :=
  [ ("Bridge", Bridge_shape, Bridge_DeepCopyObject); ("BridgeList", BridgeList_shape, BridgeList_DeepCopyObject);
    ("Collector", Collector_shape, Collector_DeepCopyObject); ("CollectorList", CollectorList_shape, CollectorList_DeepCopyObject);
    ("Output", Output_shape, Output_DeepCopyObject); ("OutputList", OutputList_shape, OutputList_DeepCopyObject);
    ("Subscription", Subscription_shape, Subscription_DeepCopyObject);
    ("SubscriptionList", SubscriptionList_shape, SubscriptionList_DeepCopyObject);
    ("Tenant", Tenant_shape, Tenant_DeepCopyObject); ("TenantList", TenantList_shape, TenantList_DeepCopyObject) ].

Lemma table_copies `{!ForeignLaws} : Forall (λ e, Framed e.1.2 ∧ Copies (pointer e.1.2) e.2) deep_copies.
Proof.
  repeat (apply Forall_cons; split; [split; [cbn; apply _|apply copy_pointer_copies; cbn; apply _]|]). apply Forall_nil_2.
Qed.

Lemma objects_copy `{!ForeignLaws} :
  Forall (λ e, ∃ c, e.2 = deep_copy_object c ∧ Framed e.1.2 ∧ Copies (pointer e.1.2) c) deep_copy_objects.
Proof.
  repeat (apply Forall_cons; split; [eexists; split; [reflexivity|split; [cbn; apply _|apply copy_pointer_copies; cbn; apply _]]|]).
  apply Forall_nil_2.
Qed.
End Table.

(** * Writing *)

(** What a program can do that holds the locations [own]: write to them, and
    allocate, which gives it new ones. *)
Inductive writes : footprint → heap → heap → Prop :=
| no_writes own h : writes own h h
| write_cell own h l c h' : l ∈ own → writes own (<[l := c]> h) h' → writes own h h'
| write_new own h l c h' : h !! l = None → writes ({[l]} ∪ own) (<[l := c]> h) h' → writes own h h'.

Lemma writes_elsewhere own h h' : writes own h h' → ∀ l, l ∈ dom h → l ∉ own → h' !! l = h !! l.
Proof.
  induction 1 as [|own h k c h' Hk _ IH|own h k c h' Hk _ IH]; intros l Hl Hn; [done|..].
  - rewrite IH; [|set_solver|done]. rewrite lookup_insert_ne; [done|]. by intros <-.
  - assert (k ≠ l) as Hkl by by intros <-; apply elem_of_dom in Hl as [? ?]; congruence.
    rewrite IH; [|set_solver|set_solver]. by rewrite lookup_insert_ne.
Qed.

Lemma writes_keep s `{!Framed s} own h h' v t L : s h v = Some (t, L) → writes own h h' → own ## L → s h' v = Some (t, L).
Proof.
  intros E Hw Hd. eapply read_frame; [done|]. intros l Hl. apply (writes_elsewhere _ _ _ Hw).
  - by apply (read_footprint _ _ _ _ E).
  - set_solver.
Qed.

Lemma pointer_nil s h p t L : pointer s h p = Some (t, L) → p = Nil ↔ t = TNil.
Proof. unfold pointer. intros E. destruct p; try done; [by injection E as <- _|]. by reading. Qed.

(** C35. Every [DeepCopy] of the API group makes a copy: whatever the value the
    pointer leads to, the new pointer leads to one that reads the same, nil for
    nil, at locations that are all new, and the memory that was there is
    unchanged. *)
Theorem deep_copies_are_fresh `{ForeignLaws} `{MapRange} (name : string) s (f : copier) h p t L :
  (name, s, f) ∈ deep_copies → pointer s h p = Some (t, L) →
  ∃ h' p' L', f p h = (h', p') ∧ h ⊆ h' ∧ pointer s h' p' = Some (t, L') ∧ L' ## dom h.
Proof.
  intros Hin E. pose proof table_copies as Ht. rewrite Forall_forall in Ht.
  destruct (Ht _ Hin) as [_ Hc]. by apply (Hc h p t L).
Qed.

(** C24. An object and what [DeepCopyObject] made of it do not see each other:
    the nil interface is given for a nil pointer only, and whatever a program
    writes to or allocates from what it reaches through one of the two, the
    other still reads as it did. So an object of the client's cache is not
    changed by a reconciliation that works on its copy. *)
Theorem object_copies_are_isolated `{ForeignLaws} `{MapRange} (name : string) s (f : val → M heap (option val)) h p t L :
  (name, s, f) ∈ deep_copy_objects → pointer s h p = Some (t, L) →
  ∃ h' copy, f p h = (h', copy) ∧ (copy = None ↔ p = Nil) ∧
    ∀ p', copy = Some p' → ∃ L', pointer s h' p' = Some (t, L') ∧
      (∀ h2, writes L' h' h2 → pointer s h2 p = Some (t, L)) ∧
      (∀ h2, writes L h' h2 → pointer s h2 p' = Some (t, L')).
Proof.
  intros Hin E. pose proof objects_copy as Ht. rewrite Forall_forall in Ht.
  destruct (Ht _ Hin) as (c & Ef & Hf & Hc). cbn in Ef, Hf, Hc. subst f.
  destruct (Hc h p t L E) as (h' & p' & L' & Ec & Hh & E' & HL).
  assert (p' = Nil ↔ p = Nil) as Hnil.
  { by rewrite (pointer_nil _ _ _ _ _ E), (pointer_nil _ _ _ _ _ E'). }
  unfold deep_copy_object, bind, ret. rewrite Ec. eexists _, _. split; [done|]. split.
  { rewrite <- Hnil. by destruct p'. }
  intros q Hq. assert (q = p') as -> by (clear -Hq; destruct p'; congruence). exists L'. split_and!; [done| |].
  - intros h2 Hw. apply (writes_keep (pointer s) L' h'); [exact (read_grown _ _ _ _ _ _ E Hh)|done|].
    pose proof (read_footprint _ _ _ _ E). set_solver.
  - intros h2 Hw. apply (writes_keep (pointer s) L h'); [done|done|]. pose proof (read_footprint _ _ _ _ E). set_solver.
Qed.

(** * An example

    The types of the other modules with the fields that hold references here *)
#[local] Instance sample_foreign : Foreign := {
  ObjectMeta_shape := struct_of [("Name", flat); ("Labels", map_of flat)];
  ObjectMeta_DeepCopyInto := into [("Labels", copy_map (H := forward_range) 0)];
  ListMeta_shape := struct_of [("RemainingItemCount", pointer flat)];
  ListMeta_DeepCopyInto := into [("RemainingItemCount", copy_pointer assign)];
  LabelSelector_shape := struct_of [("MatchLabels", map_of flat)];
  LabelSelector_DeepCopyInto := into [("MatchLabels", copy_map (H := forward_range) 0)];
  OpenTelemetryCommonFields_shape := struct_of [("Args", map_of flat); ("ServiceAccount", flat)];
  OpenTelemetryCommonFields_DeepCopyInto := into [("Args", copy_map (H := forward_range) 0)]
}.
#[local] Instance sample_foreign_laws : ForeignLaws.
Proof. split; first [frame_struct | copy_struct]. Qed.

(** A bridge with a label and a problem *)
Definition bridge_memory : heap :=
  {[ 1%positive := Var (Fields
       [ ("TypeMeta", Fields []);
         ("ObjectMeta", Fields [("Name", Base (GoString "link")); ("Labels", Ref 2)]);
         ("Spec", Fields [("SourceTenant", Base (GoString "red")); ("TargetTenant", Base (GoString "green")); ("Condition", Base (GoString "true"))]);
         ("Status", Fields [("State", Base (GoString "failed")); ("Problems", Slice 3 1); ("ProblemsCount", Base (GoInt 1))]) ]);
     2%positive := MapOf {["env" := Base (GoString "prod")]};
     3%positive := Array [Base (GoString "dangling")] ]}.

Lemma deep_copies_are_fresh_witness :
  let '(h', p') := Bridge_DeepCopy (Ref 1) bridge_memory in
  bridge_memory ⊆ h' ∧ fst <$> pointer Bridge_shape h' p' = fst <$> pointer Bridge_shape bridge_memory (Ref 1).
Proof.
  destruct (pointer Bridge_shape bridge_memory (Ref 1)) as [[t L]|] eqn:E; [|vm_compute in E; discriminate].
  destruct (deep_copies_are_fresh (H1 := forward_range) "Bridge" Bridge_shape Bridge_DeepCopy bridge_memory (Ref 1) t L)
    as (h' & p' & L' & Ec & Hh & E' & _).
  - unfold deep_copies. repeat first [apply list_elem_of_here | apply list_elem_of_further].
  - exact E.
  - rewrite Ec. split; [exact Hh|]. by rewrite E'.
Defined.

Lemma object_copies_are_isolated_witness :
  ∃ h' p' L', Bridge_DeepCopyObject (Ref 1) bridge_memory = (h', Some p') ∧
    ∀ h2, writes L' h' h2 → pointer Bridge_shape h2 (Ref 1) = pointer Bridge_shape bridge_memory (Ref 1).
Proof.
  destruct (pointer Bridge_shape bridge_memory (Ref 1)) as [[t L]|] eqn:E; [|vm_compute in E; discriminate].
  destruct (object_copies_are_isolated (H1 := forward_range) "Bridge" Bridge_shape Bridge_DeepCopyObject bridge_memory (Ref 1) t L)
    as (h' & copy & Ec & Hn & Hw).
  - unfold deep_copy_objects. repeat first [apply list_elem_of_here | apply list_elem_of_further].
  - exact E.
  - destruct copy as [p'|]; [|discriminate (proj1 Hn eq_refl)].
    destruct (Hw p' eq_refl) as (L' & _ & Hw' & _). exists h', p', L'. split; [exact Ec|exact Hw'].
Defined.
