(* ===== verification/InPlace.v ===== *)
(** Objects that are changed in place: the problem list of a resource
    ([pkg/resources/problem]) as the reconcilers change it in memory, where an
    append may write into an array that other slices see. The functions on
    values of the rest of the development are what these do, and the statuses
    that were kept for comparison ([originalTenantStatus := tenant.Status],
    [originalBridgeStatus := bridge.Status.DeepCopy()]) stay as they were. *)
From S2P Require Import Prelude Strs Errors Json ApiOtlp ApiOutput ApiTypes GoHeap GoTypes DeepCopy.

Open Scope world_scope.

(** * Operations *)
Section Operations.
(** The spare capacity of an array that [append] allocates *)
Context (spare : nat → nat).

(** [append(s, x)]: in place when the array has room behind the slice *)
Definition append_val (s x : val) : M heap val :=
  match s with
  | Nil => p <~ alloc (Array (x :: replicate (spare 1) zero)); ret (Slice p 1)
  | Slice l n =>
      content <~ load l;
      match content with
      | Some (Array vs) =>
          if decide (n < length vs) then _ <~ store l (Array (<[n := x]> vs)); ret (Slice l (S n))
          else p <~ alloc (Array (take n vs ++ x :: replicate (spare (S n)) zero)); ret (Slice p (S n))
      | _ => ret s
      end
  | _ => ret s
  end.

Definition len (s : val) : nat := match s with Slice _ n => n | _ => 0 end.

(** [slices.Contains] on a slice of strings *)
Definition contains (s : val) (x : string) : M heap bool := λ h,
  (h, match s with
      | Slice l n =>
          match h !! l with
          | Some (Array vs) => existsb (λ v, match v with Base (GoString y) => bool_decide (y = x) | _ => false end) (take n vs)
          | _ => false
          end
      | _ => false
      end).

(** The status of a resource is a list of fields; [SetProblems] sets two. *)
Definition set_problems (ps : val) (fs : list (string * val)) : list (string * val) :=
  set_field "ProblemsCount" (Base (GoInt (Z.of_nat (len ps)))) (set_field "Problems" ps fs).

Definition add_problem (problem : string) (fs : list (string * val)) : M heap (list (string * val)) :=
  let problem := TrimSpace problem in
  if bool_decide (problem = "") then ret fs
  else
    known <~ contains (get_field "Problems" fs) problem;
    if known : bool then ret fs
    else ps <~ append_val (get_field "Problems" fs) (Base (GoString problem)); ret (set_problems ps fs).

Definition add_problems (problems : list string) (fs : list (string * val)) : M heap (list (string * val)) :=
  foreach add_problem problems fs.

(** [SetProblems([]string{})] *)
Definition clear_problems (fs : list (string * val)) : M heap (list (string * val)) :=
  p <~ alloc (Array []); ret (set_problems (Slice p 0) fs).
End Operations.

(** * Statuses in memory *)
Definition string_tree (s : string) : tree := TBase (GoString s).
Definition strings_tree (l : golist string) : tree := match l with None => TNil | Some l => TSlice (string_tree <$> l) end.
Definition ref_tree (n : NamespacedName) : tree :=
  TFields [("Namespace", string_tree (NamespacedName_Namespace n)); ("Name", string_tree (NamespacedName_Name n))].
Definition refs_tree (l : golist NamespacedName) : tree := match l with None => TNil | Some l => TSlice (ref_tree <$> l) end.
Definition count_tree (n : nat) : tree := TBase (GoInt (Z.of_nat n)).

(** A field of a tree *)
Definition set_tree (n : string) (x : tree) (ts : list (string * tree)) : list (string * tree) :=
  (λ t, if bool_decide (t.1 = n) then (n, x) else t) <$> ts.

(** What a resource's status looks like in memory *)
Class InMemory (C : Type) `{!ProblemHandler C} : Type := {
  status_fields : list (string * shape);
  status_tree : C → list (string * tree)
}.

Class InMemoryLaws (C : Type) `{InMemory C} : Prop := {
  status_framed : Forall (Framed ∘ snd) status_fields;
  status_names : NoDup (status_fields.*1);
  status_problems : ("Problems", slice flat) ∈ status_fields;
  status_count : ("ProblemsCount", flat) ∈ status_fields;
  tree_problems c : ("Problems", strings_tree (GetProblems c)) ∈ status_tree c;
  tree_set_problems ps c : status_tree (SetProblems ps c) =
    set_tree "ProblemsCount" (count_tree (length (elems ps))) (set_tree "Problems" (strings_tree ps) (status_tree c))
}.

Section Instances.
Context `{Platform}.

#[export] Instance Tenant_memory : InMemory Tenant := {
  status_fields :=
    [ ("Subscriptions", slice NamespacedName_shape); ("LogSourceNamespaces", slice flat); ("ConnectedBridges", slice flat);
      ("State", flat); ("Problems", slice flat); ("ProblemsCount", flat) ];
  status_tree t := let s := Tenant_Status t in
    [ ("Subscriptions", refs_tree (TenantStatus_Subscriptions s));
      ("LogSourceNamespaces", strings_tree (TenantStatus_LogSourceNamespaces s));
      ("ConnectedBridges", strings_tree (TenantStatus_ConnectedBridges s));
      ("State", string_tree (TenantStatus_State s));
      ("Problems", strings_tree (TenantStatus_Problems s));
      ("ProblemsCount", count_tree (TenantStatus_ProblemsCount s)) ]
}.

#[export] Instance Subscription_memory : InMemory Subscription := {
  status_fields :=
    [ ("Tenant", flat); ("Outputs", slice NamespacedName_shape); ("State", flat); ("Problems", slice flat);
      ("ProblemsCount", flat) ];
  status_tree t := let s := Subscription_Status t in
    [ ("Tenant", string_tree (SubscriptionStatus_Tenant s));
      ("Outputs", refs_tree (SubscriptionStatus_Outputs s));
      ("State", string_tree (SubscriptionStatus_State s));
      ("Problems", strings_tree (SubscriptionStatus_Problems s));
      ("ProblemsCount", count_tree (SubscriptionStatus_ProblemsCount s)) ]
}.

#[export] Instance Output_memory : InMemory Output := {
  status_fields := [ ("Tenant", flat); ("State", flat); ("Problems", slice flat); ("ProblemsCount", flat) ];
  status_tree t := let s := Output_Status t in
    [ ("Tenant", string_tree (OutputStatus_Tenant s));
      ("State", string_tree (OutputStatus_State s));
      ("Problems", strings_tree (OutputStatus_Problems s));
      ("ProblemsCount", count_tree (OutputStatus_ProblemsCount s)) ]
}.

#[export] Instance Bridge_memory : InMemory Bridge := {
  status_fields := [ ("State", flat); ("Problems", slice flat); ("ProblemsCount", flat) ];
  status_tree t := let s := Bridge_Status t in
    [ ("State", string_tree (BridgeStatus_State s));
      ("Problems", strings_tree (BridgeStatus_Problems s));
      ("ProblemsCount", count_tree (BridgeStatus_ProblemsCount s)) ]
}.

#[export] Instance Collector_memory : InMemory Collector := {
  status_fields := [ ("Tenants", slice flat); ("State", flat); ("Problems", slice flat); ("ProblemsCount", flat) ];
  status_tree t := let s := Collector_Status t in
    [ ("Tenants", strings_tree (CollectorStatus_Tenants s));
      ("State", string_tree (CollectorStatus_State s));
      ("Problems", strings_tree (CollectorStatus_Problems s));
      ("ProblemsCount", count_tree (CollectorStatus_ProblemsCount s)) ]
}.
End Instances.

(** * What an append leaves alone *)

(** A value that does not see what is behind the first [n] elements of the
    array at [l] *)
Definition behind (l : loc) (n : nat) (e : entry) : Prop :=
  l ∉ e_footprint e ∨ (e_shape e = slice flat ∧ ∃ n0, e_val e = Slice l n0 ∧ n0 ≤ n).

(** The values that are in use while the slice [ps] may be appended to *)
Definition stable (h : heap) (ps : val) (es : list entry) : Prop :=
  Forall (λ e, Framed (e_shape e) ∧ e_holds h e ∧ ∀ l n, ps = Slice l n → behind l n e) es.

Lemma store_behind h l n x vs e : h !! l = Some (Array vs) → Framed (e_shape e) → e_holds h e → behind l n e →
  e_holds (<[l := Array (<[n := x]> vs)]> h) e.
Proof.
  intros Hl Hf He [Hb|(Es & n0 & Ev & Hn)]; unfold e_holds in *.
  - eapply read_frame; [done|]. intros k Hk. rewrite lookup_insert_ne; [done|]. by intros <-.
  - rewrite Es, Ev in *. unfold slice in *. rewrite Hl in He. rewrite lookup_insert_eq, length_insert.
    case_decide; [|done]. rewrite take_insert_ge by done. reading.
    match goal with H : read_all _ _ _ = _ |- _ => by destruct (read_all_flat _ (<[l := Array (<[n := x]> vs)]> h) _ _ _ H) as [-> _] end.
Qed.

(** The strings of a slice *)
Lemma read_strings h vs ts L : read_all flat h vs = Some (string_tree <$> ts, L) → vs = (λ s, Base (GoString s)) <$> ts.
Proof.
  revert vs L. induction ts as [|s ts IH]; intros [|v vs] L; cbn; intros E; reading; try congruence.
  injection H1 as -> -> _. f_equal; [|by eapply IH].
  unfold flat, string_tree in H. destruct v; cbn in H; try done; [congruence|].
  apply bind_Some in H as (t & (fts & _ & ->)%fmap_Some & [=]).
Qed.

Lemma strings_read h ts : read_all flat h ((λ s, Base (GoString s)) <$> ts) = Some (string_tree <$> ts, ∅).
Proof. induction ts as [|s ts IH]; cbn; [done|]. by rewrite IH. Qed.

(** A slice of strings in memory, and whether a string is in it *)
Lemma contains_spec h v g L x : slice flat h v = Some (strings_tree g, L) →
  contains v x h = (h, bool_decide (x ∈ elems g)) ∧ len v = length (elems g).
Proof.
  unfold contains, slice. intros E. destruct v as [| | |l n|]; try done.
  { injection E as E _. destruct g; [done|]. split; [by rewrite bool_decide_false by apply not_elem_of_nil|done]. }
  destruct (h !! l) as [[v'|vs|m]|] eqn:Hl; try done. case_decide as Hn; [|done]. reading.
  destruct g as [ts|]; [|done]. injection H0 as -> _. apply read_strings in H as Ets. rewrite Ets. cbn [elems]. split.
  - f_equal. clear. induction ts as [|t ts IH]; [by rewrite bool_decide_false by apply not_elem_of_nil|].
    cbn. rewrite IH. rewrite <- bool_decide_or. apply bool_decide_ext. rewrite elem_of_cons. naive_solver.
  - apply (f_equal length) in Ets. rewrite length_take, length_fmap in Ets. cbn. lia.
Qed.

Lemma stable_grown h h' ps es p n : stable h ps es → h ⊆ h' → h !! p = None → stable h' (Slice p n) es.
Proof.
  intros Hs Hh Hp. eapply Forall_impl; [exact Hs|]. intros e (Hf & He & _). split_and!; [done|by eapply read_grown|].
  intros l k [= <- <-]. left. intros Hin. apply (read_footprint _ _ _ _ He), elem_of_dom in Hin as [c Hc]. congruence.
Qed.

Lemma fresh_none (h : heap) : h !! fresh (dom h) = None.
Proof. apply not_elem_of_dom, is_fresh. Qed.

(** A new array of strings *)
Lemma slice_alloc (h : heap) p vs ts : h !! p = Some (Array vs) → take (length ts) vs = (λ s, Base (GoString s)) <$> ts →
  slice flat h (Slice p (length ts)) = Some (strings_tree (Some ts), {[p]} ∪ ∅).
Proof.
  intros Hp Ht. unfold slice. rewrite Hp, decide_True, Ht, strings_read; [done|].
  apply (f_equal length) in Ht. rewrite length_take, length_fmap in Ht. lia.
Qed.

Lemma append_in_place spare h ps g L x es : slice flat h ps = Some (strings_tree g, L) → stable h ps es →
  ∃ h' ps' L', append_val spare ps (Base (GoString x)) h = (h', ps') ∧
    slice flat h' ps' = Some (strings_tree (append g [x]), L') ∧ stable h' ps' es.
Proof.
  intros E Hs. pose proof (contains_spec _ _ _ _ x E) as [_ Hlen]. unfold slice in E.
  unfold append_val, bind, load, store, alloc, ret. destruct ps as [| | |l n|]; try done.
  - destruct g; [done|]. eexists _, _, _. split_and!; [done| |].
    + eapply (slice_alloc _ _ _ [x]); [apply lookup_insert_eq|done].
    + eapply stable_grown; [done|apply alloc_grows|apply fresh_none].
  - destruct (h !! l) as [[v|vs|m]|] eqn:Hl; try done. case_decide as Hn; [|done]. reading.
    destruct g as [ts|]; [|done]. injection H0 as -> _. apply read_strings in H as Ets. cbn [append len] in *. change (elems (Some ts)) with ts in *.
    case_decide as Hr.
    + eexists _, _, _. split_and!; [done| |].
      * replace (S n) with (length (ts ++ [x])) by (rewrite length_app; cbn; lia).
        eapply slice_alloc; [apply lookup_insert_eq|].
        rewrite length_app, <- Hlen. cbn. rewrite Nat.add_1_r, (take_S_r _ _ (Base (GoString x))) by by apply list_lookup_insert_eq.
        by rewrite take_insert_ge, Ets, fmap_app.
      * eapply Forall_impl; [exact Hs|]. intros e (Hf & He & Hb). split_and!; [done|by apply store_behind; auto|].
        intros l' k [= <- <-]. destruct (Hb l n eq_refl) as [?|(? & n0 & ? & ?)]; [by left|right; split; [done|]]. exists n0. split; [done|lia].
    + eexists _, _, _. split_and!; [done| |].
      * replace (S n) with (length (ts ++ [x])) by (rewrite length_app; cbn; lia).
        eapply slice_alloc; [apply lookup_insert_eq|].
        rewrite Ets, fmap_app, length_app. cbn. by rewrite take_app_add' by by rewrite length_fmap.
      * eapply stable_grown; [done|apply alloc_grows|apply fresh_none].
Qed.

(** * Edits of a status *)
Section Edits.
Context {C : Type} `{InMemoryLaws C}.
Implicit Types (c : C) (es old : list entry) (h : heap).

(** The entries of a status that stands for [c] *)
Definition status_of c es : Prop := e_sig <$> es = status_fields ∧ e_read <$> es = status_tree c.

(** The slice of problems that an append may extend *)
Definition problems_of es : val := get_field "Problems" (e_out <$> es).

(** An edit does in memory what it does on values, and leaves every value alone
    that does not see behind the problems, among them earlier copies of the
    status. *)
Definition sound (run : list (string * val) → M heap (list (string * val))) (on : C → C) : Prop :=
  ∀ c es old h, status_of c es → stable h (problems_of es) (es ++ old) →
    ∃ h' es', run (e_out <$> es) h = (h', e_out <$> es') ∧ status_of (on c) es' ∧ stable h' (problems_of es') (es' ++ old).

Lemma sound_id : sound ret id.
Proof. intros c es old h Hc Hs. by exists h, es. Qed.

Lemma sound_seq run1 on1 run2 on2 : sound run1 on1 → sound run2 on2 →
  sound (λ fs, bind (run1 fs) run2) (λ c, on2 (on1 c)).
Proof.
  intros H1 H2 c es old h Hc Hs. destruct (H1 c es old h Hc Hs) as (h1 & es1 & E1 & Hc1 & Hs1).
  destruct (H2 _ es1 old h1 Hc1 Hs1) as (h2 & es2 & E2 & Hc2 & Hs2). exists h2, es2.
  split; [|done]. unfold bind. by rewrite E1.
Qed.

(** A field with a new value *)
Definition put (n : string) (x : val) (t : tree) (L : footprint) (e : entry) : entry :=
  if bool_decide (e_name e = n) then mkEntry n (e_shape e) x t L else e.

Lemma put_out n x t L es : e_out <$> (put n x t L <$> es) = set_field n x (e_out <$> es).
Proof.
  unfold set_field. rewrite <- !list_fmap_compose. apply list_fmap_ext. intros _ e _. cbn. unfold put. by case_bool_decide.
Qed.

Lemma put_sig n x t L es : e_sig <$> (put n x t L <$> es) = e_sig <$> es.
Proof.
  rewrite <- list_fmap_compose. apply list_fmap_ext. intros _ e _. cbn. unfold put. by case_bool_decide as E; [subst|].
Qed.

Lemma put_read n x t L es : e_read <$> (put n x t L <$> es) = set_tree n t (e_read <$> es).
Proof.
  unfold set_tree. rewrite <- !list_fmap_compose. apply list_fmap_ext. intros _ e _. cbn. unfold put. by case_bool_decide.
Qed.

Lemma status_entry es n s : e_sig <$> es = status_fields → (n, s) ∈ status_fields → ∀ e, e ∈ es → e_name e = n → e_shape e = s.
Proof.
  intros Hsig Hin e He En. rewrite <- Hsig in Hin. apply list_elem_of_fmap in Hin as (e' & [= -> ->] & He').
  pose proof status_names as Hnd. rewrite <- Hsig, <- list_fmap_compose in Hnd. by rewrite (NoDup_key _ es e e' Hnd).
Qed.

Lemma status_get es n s : e_sig <$> es = status_fields → (n, s) ∈ status_fields →
  ∃ e, e ∈ es ∧ e_name e = n ∧ e_shape e = s ∧ e_val e = get_field n (e_out <$> es).
Proof.
  intros Hsig Hin. rewrite <- Hsig in Hin. apply list_elem_of_fmap in Hin as (e & [= -> ->] & He).
  exists e. split_and!; [done..|]. rewrite get_field_entry; [done| |done].
  pose proof status_names as Hnd. by rewrite <- Hsig, <- list_fmap_compose in Hnd.
Qed.

Lemma get_set_field n m x es : n ≠ m → get_field n (set_field m x (e_out <$> es)) = get_field n (e_out <$> es).
Proof.
  intros Hn. unfold get_field, set_field. induction es as [|e es IH]; [done|]. cbn.
  destruct (decide (e_name e = m)) as [E|E].
  - rewrite (bool_decide_true (e_name e = m)) by done. cbn. rewrite !bool_decide_false by congruence. exact IH.
  - rewrite (bool_decide_false (e_name e = m)) by done. cbn. case_bool_decide; [done|]. exact IH.
Qed.

Lemma get_set_same n x es e : e ∈ es → e_name e = n → get_field n (set_field n x (e_out <$> es)) = x.
Proof.
  intros He En. unfold get_field, set_field. induction es as [|e' es IH]; [by apply elem_of_nil in He|]. cbn.
  destruct (decide (e_name e' = n)) as [E|E].
  - rewrite (bool_decide_true (e_name e' = n)) by done. cbn. by rewrite bool_decide_true.
  - rewrite (bool_decide_false (e_name e' = n)) by done. cbn. rewrite bool_decide_false by done. apply IH.
    apply elem_of_cons in He as [->|?]; done.
Qed.

(** The values in use after a field was put *)
Lemma put_stable h ps es old n s x t L : e_sig <$> es = status_fields → (n, s) ∈ status_fields → stable h ps (es ++ old) →
  s h x = Some (t, L) → (∀ l k, ps = Slice l k → behind l k (mkEntry n s x t L)) →
  stable h ps ((put n x t L <$> es) ++ old).
Proof.
  intros Hsig Hin [Hs Hold]%Forall_app Hx Hb. apply Forall_app. split; [|done].
  apply Forall_fmap, Forall_forall. intros e He. pose proof (proj1 (Forall_forall _ _) Hs e He) as (Hf & Hh & Hbe). cbn.
  unfold put. case_bool_decide as En; [|done]. pose proof (status_entry _ _ _ Hsig Hin e He En) as Es.
  rewrite Es in *. by split_and!.
Qed.

Lemma put_status c c' es n x t L : status_of c es → status_tree c' = set_tree n t (status_tree c) →
  status_of c' (put n x t L <$> es).
Proof. intros [Hsig Hread] E. split; [by rewrite put_sig|]. by rewrite put_read, Hread, E. Qed.

Lemma put_problems n x t L es : n ≠ "Problems" → problems_of (put n x t L <$> es) = problems_of es.
Proof. intros Hn. unfold problems_of. rewrite put_out. by apply get_set_field. Qed.

(** [c.Status.F = v] for a value without references *)
Definition set_flat (n : string) (b : base) (fs : list (string * val)) : M heap (list (string * val)) :=
  ret (set_field n (Base b) fs).

Lemma sound_flat n b on : (n, flat) ∈ status_fields → n ≠ "Problems" →
  (∀ c, status_tree (on c) = set_tree n (TBase b) (status_tree c)) → sound (set_flat n b) on.
Proof.
  intros Hin Hn Hon c es old h Hc Hs. exists h, (put n (Base b) (TBase b) ∅ <$> es).
  split; [by rewrite put_out|split; [by eapply put_status|]]. rewrite put_problems by done.
  eapply put_stable; [apply Hc|done|done|reflexivity|]. intros l k _. left. apply not_elem_of_empty.
Qed.

(** [c.Status.F = s] for a slice that was just built *)
Definition set_slice (n : string) (vs : list val) (fs : list (string * val)) : M heap (list (string * val)) :=
  p <~ alloc (Array vs); ret (set_field n (Slice p (length vs)) fs).

Lemma stable_alloc h ps cl es : stable h ps es → stable (<[fresh (dom h) := cl]> h) ps es.
Proof.
  intros Hs. eapply Forall_impl; [exact Hs|]. intros e (Hf & He & Hb). pose proof (alloc_grows h cl).
  split_and!; [done|by eapply read_grown|done].
Qed.

Lemma sound_slice n s vs ts on : (n, slice s) ∈ status_fields → n ≠ "Problems" →
  (∀ h, read_all s h vs = Some (ts, ∅)) →
  (∀ c, status_tree (on c) = set_tree n (TSlice ts) (status_tree c)) → sound (set_slice n vs) on.
Proof.
  intros Hin Hn Hvs Hon c es old h Hc Hs. unfold set_slice, bind, alloc, ret. set (p := fresh (dom h)).
  exists (<[p := Array vs]> h), (put n (Slice p (length vs)) (TSlice ts) ({[p]} ∪ ∅) <$> es).
  split; [by rewrite put_out|split; [by eapply put_status|]]. rewrite put_problems by done.
  eapply put_stable; [apply Hc|done|by apply stable_alloc| |].
  - unfold slice. by rewrite lookup_insert_eq, decide_True, firstn_all, Hvs.
  - intros l k E. left. cbn. intros Hl. destruct (status_get _ _ _ (proj1 Hc) status_problems) as (e & He & _ & Es & Ev).
    apply Forall_app in Hs as [Hs _]. pose proof (proj1 (Forall_forall _ _) Hs e He) as (_ & Hh & _).
    unfold e_holds in Hh. rewrite Es, Ev in Hh. unfold problems_of in E. rewrite E in Hh. unfold slice in Hh.
    assert (l = p) as -> by set_solver. pose proof (fresh_none h) as Hp.
    fold p in Hp. by rewrite Hp in Hh.
Qed.

(** [SetProblems] with a slice that reads as [g] *)
Lemma set_problems_sound c es old h ps g L : status_of c es → slice flat h ps = Some (strings_tree g, L) →
  stable h ps (es ++ old) →
  ∃ es', set_problems ps (e_out <$> es) = e_out <$> es' ∧ status_of (SetProblems g c) es' ∧ stable h (problems_of es') (es' ++ old).
Proof.
  intros Hc E Hs. pose proof (contains_spec _ _ _ _ "" E) as [_ Hlen].
  set (es1 := put "Problems" ps (strings_tree g) L <$> es).
  set (b := GoInt (Z.of_nat (len ps))).
  assert (e_sig <$> es1 = status_fields) as Hsig1 by (unfold es1; rewrite put_sig; apply Hc).
  assert (stable h ps (es1 ++ old)) as Hs1.
  { eapply put_stable; [apply Hc|apply status_problems|done|done|]. intros l k ->. right. split; [done|]. by exists k. }
  assert (problems_of (put "ProblemsCount" (Base b) (TBase b) ∅ <$> es1) = ps) as Hps.
  { rewrite put_problems by done. unfold problems_of, es1. rewrite put_out.
    destruct (status_get _ _ _ (proj1 Hc) status_problems) as (e & He & En & _). by apply (get_set_same _ _ _ e). }
  exists (put "ProblemsCount" (Base b) (TBase b) ∅ <$> es1). split; [|split; [split|]].
  - unfold set_problems. by rewrite put_out; unfold es1; rewrite put_out.
  - by rewrite put_sig.
  - rewrite put_read. unfold es1. rewrite put_read, tree_set_problems. destruct Hc as [_ ->]. unfold b, count_tree. by rewrite Hlen.
  - rewrite Hps. eapply put_stable; [done|apply status_count|done|done|]. intros l k _. left. apply not_elem_of_empty.
Qed.

(** What the problems of a status read as *)
Lemma problems_read c es old h : status_of c es → stable h (problems_of es) (es ++ old) →
  ∃ L, slice flat h (problems_of es) = Some (strings_tree (GetProblems c), L).
Proof.
  intros Hc [Hs _]%Forall_app. destruct (status_get _ _ _ (proj1 Hc) status_problems) as (e & He & En & Es & Ev).
  pose proof (proj1 (Forall_forall _ _) Hs e He) as (_ & Hh & _). unfold e_holds in Hh. rewrite Es, Ev in Hh.
  exists (e_footprint e). unfold problems_of. rewrite Hh. do 2 f_equal.
  assert (("Problems", e_tree e) ∈ status_tree c) as Ht.
  { destruct Hc as [_ <-]. apply list_elem_of_fmap. exists e. split; [|done]. unfold e_read. by rewrite En. }
  eapply nodup_fst_fun; [|exact Ht|apply tree_problems].
  destruct Hc as [Hsig <-]. pose proof status_names as Hnd. rewrite <- Hsig, <- list_fmap_compose in Hnd.
  by rewrite <- list_fmap_compose.
Qed.

Lemma sound_add1 spare problem : sound (add_problem spare problem) (λ c, Add1 c problem).
Proof.
  intros c es old h Hc Hs. unfold add_problem, Add1. case_bool_decide; [by exists h, es|].
  destruct (problems_read _ _ _ _ Hc Hs) as [L E]. fold (problems_of es).
  destruct (contains_spec _ _ _ _ (TrimSpace problem) E) as [Ec _]. unfold bind at 1. rewrite Ec.
  case_bool_decide; [by exists h, es|].
  destruct (append_in_place spare h _ _ _ (TrimSpace problem) (es ++ old) E Hs) as (h' & ps' & L' & Ea & E' & Hs').
  destruct (set_problems_sound c es old h' ps' _ L' Hc E' Hs') as (es' & Eset & Hc' & Hes').
  exists h', es'. split; [|done]. unfold bind. rewrite Ea. cbn. by rewrite Eset.
Qed.

Lemma sound_add spare problems : sound (add_problems spare problems) (λ c, Add c problems).
Proof.
  unfold add_problems, Add. induction problems as [|p ps IH]; [exact sound_id|].
  exact (sound_seq _ _ _ _ (sound_add1 spare p) IH).
Qed.

Lemma sound_clear : sound clear_problems ClearProblems.
Proof.
  intros c es old h Hc Hs. unfold clear_problems, bind, alloc, ret. set (p := fresh (dom h)).
  destruct (set_problems_sound c es old (<[p := Array []]> h) (Slice p 0) (Some []) ({[p]} ∪ ∅) Hc) as (es' & Eset & Hc' & Hes').
  - eapply (slice_alloc _ _ _ []); [apply lookup_insert_eq|done].
  - eapply stable_grown; [done|apply alloc_grows|apply fresh_none].
  - exists (<[p := Array []]> h), es'. by rewrite Eset.
Qed.
End Edits.
