(* ===== verification/InPlaceSpec.v ===== *)
(** The comparisons that guard the status updates, in memory: whatever the
    edits of a reconciliation are, what was kept of the status before them still
    reads as it did, so [reflect.DeepEqual] finds exactly the differences that
    the functions on values make. *)
From S2P Require Import Prelude Strs Errors Json ApiOtlp ApiOutput ApiTypes Samples GoHeap GoTypes DeepCopy DeepCopySpec InPlace.

(** [reflect.DeepEqual] on two structs *)
Definition deep_equal (ss : list (string * shape)) (h : heap) (fs fs' : list (string * val)) : bool :=
  match read_fields ss h fs, read_fields ss h fs' with
  | Some (ts, _), Some (ts', _) => bool_decide (ts = ts')
  | _, _ => false
  end.

(** ** Trees determine statuses. *)
#[export] Instance string_tree_inj : Inj (=) (=) string_tree.
Proof. by intros ? ? [=]. Qed.
#[export] Instance ref_tree_inj : Inj (=) (=) ref_tree.
Proof. by intros [] [] [= -> ->]. Qed.
#[export] Instance strings_tree_inj : Inj (=) (=) strings_tree.
Proof. intros [l|] [l'|]; cbn; try done. by intros [= ->%(inj (fmap string_tree))]. Qed.
#[export] Instance refs_tree_inj : Inj (=) (=) refs_tree.
Proof. intros [l|] [l'|]; cbn; try done. by intros [= ->%(inj (fmap ref_tree))]. Qed.
#[export] Instance count_tree_inj : Inj (=) (=) count_tree.
Proof. intros n n' [= E]. lia. Qed.

(** Solves the laws of a status. *)
Ltac status_laws :=
  split;
  [ repeat (apply Forall_cons; split; [cbn; apply _|]); apply Forall_nil_2
  | apply (bool_decide_unpack _); reflexivity
  | cbn; set_solver
  | cbn; set_solver
  | cbn; intros; set_solver
  | reflexivity ].

Section Laws.
Context `{Platform}.
#[export] Instance Tenant_memory_laws : InMemoryLaws Tenant. Proof. status_laws. Qed.
#[export] Instance Subscription_memory_laws : InMemoryLaws Subscription. Proof. status_laws. Qed.
#[export] Instance Output_memory_laws : InMemoryLaws Output. Proof. status_laws. Qed.
#[export] Instance Bridge_memory_laws : InMemoryLaws Bridge. Proof. status_laws. Qed.
#[export] Instance Collector_memory_laws : InMemoryLaws Collector. Proof. status_laws. Qed.
End Laws.

(** ** Before and after *)
Section Guards.
Context {C : Type} `{InMemoryLaws C}.
Implicit Types (c : C) (h : heap).

(** The array of the problems is not the array of another field. *)
Definition own_problems h (fs : list (string * val)) : Prop :=
  ∀ l n m s t L, get_field "Problems" fs = Slice l n → (m, s) ∈ status_fields → m ≠ "Problems" →
    s h (get_field m fs) = Some (t, L) → l ∉ L.

Lemma stable_start c fs h L : read_fields status_fields h fs = Some (status_tree c, L) → own_problems h fs →
  ∃ es, fs = e_out <$> es ∧ status_of c es ∧ stable h (problems_of es) es.
Proof.
  intros E Hown. destruct (read_entries _ _ _ _ _ E) as (es & Hsig & -> & Hread & Hes & _). exists es.
  split; [done|]. split; [done|]. pose proof status_framed as Hf. rewrite Hsig, Forall_fmap in Hf.
  rewrite Forall_forall in Hf, Hes. apply Forall_forall. intros e He. split_and!; [by apply (Hf e)|by apply Hes|].
  intros l n Ep. pose proof status_names as Hnd. rewrite Hsig, <- list_fmap_compose in Hnd.
  assert (e_val e = get_field (e_name e) (e_out <$> es)) as Ev by by rewrite get_field_entry.
  destruct (decide (e_name e = "Problems")) as [En|En].
  - right. split; [by apply (status_entry es "Problems"); [| apply status_problems|..]|]. exists n. split; [|done].
    rewrite Ev, En. exact Ep.
  - left. apply (Hown l n (e_name e) (e_shape e) (e_tree e)); [done| |done|].
    + rewrite Hsig. by apply (list_elem_of_fmap_2 e_sig).
    + rewrite <- Ev. by apply Hes.
Qed.

Lemma stable_read c h ps es old : status_of c es → stable h ps (es ++ old) →
  ∃ L, read_fields status_fields h (e_out <$> es) = Some (status_tree c, L).
Proof.
  intros [Hsig Hread] [Hs _]%Forall_app. rewrite <- Hsig, <- Hread.
  destruct (entries_read h ∅ es) as (L & E & _).
  - eapply Forall_impl; [exact Hs|]. by intros e (_ & ? & _).
  - apply Forall_forall. intros e _. apply disjoint_empty_r.
  - by exists L.
Qed.

Lemma guard_shallow run on c fs h L : sound run on →
  read_fields status_fields h fs = Some (status_tree c, L) → own_problems h fs →
  ∃ h' fs' L', run fs h = (h', fs') ∧ read_fields status_fields h' fs' = Some (status_tree (on c), L') ∧
    deep_equal status_fields h' fs fs' = bool_decide (status_tree c = status_tree (on c)).
Proof.
  intros Hsound E Hown. destruct (stable_start _ _ _ _ E Hown) as (es & -> & Hc & Hs).
  destruct (Hsound c es es h Hc) as (h' & es' & Er & Hc' & Hs'); [by apply Forall_app|].
  destruct (stable_read _ _ _ _ _ Hc' Hs') as [L' E'].
  destruct (stable_read c h' (problems_of es') es [] Hc) as [L0 E0].
  { apply Forall_app in Hs' as [_ Hs']. by rewrite app_nil_r. }
  exists h', (e_out <$> es'), L'. split_and!; [done|done|]. unfold deep_equal. by rewrite E0, E'.
Qed.

Lemma guard_deep f run on c fs h L : Copies (struct_of status_fields) f → sound run on →
  read_fields status_fields h fs = Some (status_tree c, L) → own_problems h fs →
  ∃ h1 fs0 h' fs' L', f (Fields fs) h = (h1, Fields fs0) ∧ run fs h1 = (h', fs') ∧
    read_fields status_fields h' fs' = Some (status_tree (on c), L') ∧
    deep_equal status_fields h' fs0 fs' = bool_decide (status_tree c = status_tree (on c)).
Proof.
  intros Hf Hsound E Hown. destruct (stable_start _ _ _ _ E Hown) as (es & -> & Hc & Hs).
  destruct (Hf h (Fields (e_out <$> es)) (TFields (status_tree c)) L) as (h1 & v & L1 & Ef & Hh & Ev & HL).
  { cbn. by rewrite E. }
  unfold struct_of in Ev. destruct v as [| | | |fs0]; try done.
  apply bind_Some in Ev as ([ts L2] & Er & [= -> ->]).
  destruct (read_entries _ _ _ _ _ Er) as (es0 & Hsig & -> & Hread & Hes & HLs).
  assert (stable h1 (problems_of es) (es ++ es0)) as Hs1.
  { apply Forall_app. split.
    - eapply Forall_impl; [exact Hs|]. intros e (Hfr & Hh' & Hb). split_and!; [done|by eapply read_grown|done].
    - pose proof status_framed as Hfr. rewrite Hsig, Forall_fmap in Hfr. rewrite Forall_forall in Hfr, Hes, HLs.
      apply Forall_forall. intros e He. split_and!; [by apply (Hfr e)|by apply Hes|]. intros l n Ep. left.
      destruct (problems_read c es [] h Hc) as [Lp Ep']; [by rewrite app_nil_r|]. rewrite Ep in Ep'. unfold slice in Ep'.
      destruct (h !! l) eqn:El; [|done]. intros Hin. apply (HL l); [by eapply (HLs e)|by apply elem_of_dom]. }
  destruct (Hsound c es es0 h1 Hc Hs1) as (h' & es' & Er' & Hc' & Hs').
  destruct (stable_read _ _ _ _ _ Hc' Hs') as [L' E'].
  destruct (stable_read c h' (problems_of es') es0 []) as [L0 E0]; [done| |].
  { apply Forall_app in Hs' as [_ Hs']. by rewrite app_nil_r. }
  exists h1, (e_out <$> es0), h', (e_out <$> es'), L'. split_and!; [done..|]. unfold deep_equal. by rewrite E0, E'.
Qed.
End Guards.

(** * The edits of the reconcilers *)
Definition string_vals (l : list string) : list val := (λ s, Base (GoString s)) <$> l.
Definition ref_vals (l : list NamespacedName) : list val :=
  (λ n, Fields [("Namespace", Base (GoString (NamespacedName_Namespace n))); ("Name", Base (GoString (NamespacedName_Name n)))]) <$> l.

Lemma refs_read h l : read_all NamespacedName_shape h (ref_vals l) = Some (ref_tree <$> l, ∅).
Proof.
  induction l as [|n l IH]; [done|]. change (ref_vals (n :: l)) with (ref_vals [n] ++ ref_vals l). cbn. rewrite IH. cbn.
  done.
Qed.

Section ReconcilerEdits.
Context `{Platform} (spare : nat → nat).

(** What the reconciliation of a tenant does to its status *)
Inductive tenant_edit :=
| TenantState (st : State)
| TenantLogSources (l : list string)
| TenantSubscriptions (l : list NamespacedName)
| TenantBridges (l : list string)
| TenantProblems (ps : list string)
| TenantClear.

Definition run_tenant_edit (e : tenant_edit) : list (string * val) → M heap (list (string * val)) :=
  match e with
  | TenantState st => set_flat "State" (GoString st)
  | TenantLogSources l => set_slice "LogSourceNamespaces" (string_vals l)
  | TenantSubscriptions l => set_slice "Subscriptions" (ref_vals l)
  | TenantBridges l => set_slice "ConnectedBridges" (string_vals l)
  | TenantProblems ps => add_problems spare ps
  | TenantClear => clear_problems
  end.

Definition edit_tenant (e : tenant_edit) (t : Tenant) : Tenant :=
  match e with
  | TenantState st => Tenant_set_State st t
  | TenantLogSources l => Tenant_set_LogSourceNamespaces (Some l) t
  | TenantSubscriptions l => Tenant_set_Subscriptions (Some l) t
  | TenantBridges l => Tenant_set_ConnectedBridges (Some l) t
  | TenantProblems ps => Add t ps
  | TenantClear => ClearProblems t
  end.

(** ... of a bridge *)
Inductive bridge_edit :=
| BridgeState (st : State)
| BridgeProblems (ps : list string)
| BridgeClear.

Definition run_bridge_edit (e : bridge_edit) : list (string * val) → M heap (list (string * val)) :=
  match e with
  | BridgeState st => set_flat "State" (GoString st)
  | BridgeProblems ps => add_problems spare ps
  | BridgeClear => clear_problems
  end.

Definition edit_bridge (e : bridge_edit) (b : Bridge) : Bridge :=
  match e with
  | BridgeState st => Bridge_set_State st b
  | BridgeProblems ps => Add b ps
  | BridgeClear => ClearProblems b
  end.

(** ... and of a collector *)
Inductive collector_edit :=
| CollectorState (st : State)
| CollectorTenants (l : list string)
| CollectorProblems (ps : list string)
| CollectorClear.

Definition run_collector_edit (e : collector_edit) : list (string * val) → M heap (list (string * val)) :=
  match e with
  | CollectorState st => set_flat "State" (GoString st)
  | CollectorTenants l => set_slice "Tenants" (string_vals l)
  | CollectorProblems ps => add_problems spare ps
  | CollectorClear => clear_problems
  end.

Definition edit_collector (e : collector_edit) (c : Collector) : Collector :=
  match e with
  | CollectorState st => Collector_set_State st c
  | CollectorTenants l => Collector_set_Tenants (Some l) c
  | CollectorProblems ps => Add c ps
  | CollectorClear => ClearProblems c
  end.

(** One edit after the other *)
Definition run_edits {E} (run : E → list (string * val) → M heap (list (string * val))) (es : list E)
    : list (string * val) → M heap (list (string * val)) := foreach run es.
Definition edited {E C} (on : E → C → C) (es : list E) (c : C) : C := foldl (λ c e, on e c) c es.

Lemma sound_edits {E C} `{InMemoryLaws C} (run : E → _) (on : E → C → C) es :
  (∀ e, sound (run e) (on e)) → sound (run_edits run es) (edited on es).
Proof.
  intros He. unfold run_edits, edited. induction es as [|e es IH]; [exact sound_id|].
  exact (sound_seq _ _ _ _ (He e) IH).
Qed.

(** The fields that an edit sets *)
Ltac listed := cbn; repeat first [apply list_elem_of_here | apply list_elem_of_further].
Ltac sound_edit :=
  first [ apply sound_add | apply sound_clear
        | apply sound_flat; [listed|done|reflexivity]
        | eapply sound_slice; [listed|done|intros; first [apply strings_read | apply refs_read]|reflexivity] ].

Lemma sound_tenant_edit e : sound (run_tenant_edit e) (edit_tenant e).
Proof. destruct e; sound_edit. Qed.
Lemma sound_bridge_edit e : sound (run_bridge_edit e) (edit_bridge e).
Proof. destruct e; sound_edit. Qed.
Lemma sound_collector_edit e : sound (run_collector_edit e) (edit_collector e).
Proof. destruct e; sound_edit. Qed.

(** Equal trees are equal statuses. *)
Ltac same_leaves :=
  intros [=]; cbn; f_equal; first [done | by apply (inj strings_tree) | by apply (inj refs_tree) | lia].
Lemma tenant_tree t t' : status_tree t = status_tree t' ↔ Tenant_Status t = Tenant_Status t'.
Proof.
  split; [|by cbn; intros ->]. destruct t as [? ? []], t' as [? ? []]. same_leaves.
Qed.
Lemma bridge_tree b b' : status_tree b = status_tree b' ↔ Bridge_Status b = Bridge_Status b'.
Proof.
  split; [|by cbn; intros ->]. destruct b as [? ? []], b' as [? ? []]. same_leaves.
Qed.
Lemma collector_tree c c' : status_tree c = status_tree c' ↔ Collector_Status c = Collector_Status c'.
Proof.
  split; [|by cbn; intros ->]. destruct c as [? ? []], c' as [? ? []]. same_leaves.
Qed.
End ReconcilerEdits.

(** The statuses have the fields of their types. *)
Lemma status_shapes `{Platform} :
  struct_of (status_fields (C := Tenant)) = TenantStatus_shape ∧
  struct_of (status_fields (C := Subscription)) = SubscriptionStatus_shape ∧
  struct_of (status_fields (C := Output)) = OutputStatus_shape ∧
  struct_of (status_fields (C := Bridge)) = BridgeStatus_shape ∧
  struct_of (status_fields (C := Collector)) = CollectorStatus_shape.
Proof. done. Qed.

(** C25. The comparisons that guard the status updates mean in memory what they
    mean on values: a tenant's and a collector's status is kept as a shallow
    copy that shares its arrays, a bridge's as a deep copy; then the
    reconciliation edits the status in place, and an append may write into a
    shared array; after any sequence of edits the status in memory reads as the
    functions on values compute it, and [reflect.DeepEqual] of what was kept
    with it decides whether the values differ. *)
Theorem status_guards_in_memory `{Platform} `{MapRange} spare :
  (∀ t fs L h es, read_fields (status_fields (C := Tenant)) h fs = Some (status_tree t, L) → own_problems (C := Tenant) h fs →
     ∃ h' fs' L', run_edits (run_tenant_edit spare) es fs h = (h', fs') ∧
       read_fields (status_fields (C := Tenant)) h' fs' = Some (status_tree (edited edit_tenant es t), L') ∧
       deep_equal (status_fields (C := Tenant)) h' fs fs' = bool_decide (Tenant_Status t = Tenant_Status (edited edit_tenant es t))) ∧
  (∀ c fs L h es, read_fields (status_fields (C := Collector)) h fs = Some (status_tree c, L) → own_problems (C := Collector) h fs →
     ∃ h' fs' L', run_edits (run_collector_edit spare) es fs h = (h', fs') ∧
       read_fields (status_fields (C := Collector)) h' fs' = Some (status_tree (edited edit_collector es c), L') ∧
       deep_equal (status_fields (C := Collector)) h' fs fs' = bool_decide (Collector_Status c = Collector_Status (edited edit_collector es c))) ∧
  (∀ b fs L h es, read_fields (status_fields (C := Bridge)) h fs = Some (status_tree b, L) → own_problems (C := Bridge) h fs →
     ∃ h1 fs0 h' fs' L', BridgeStatus_DeepCopyInto (Fields fs) h = (h1, Fields fs0) ∧
       run_edits (run_bridge_edit spare) es fs h1 = (h', fs') ∧
       read_fields (status_fields (C := Bridge)) h' fs' = Some (status_tree (edited edit_bridge es b), L') ∧
       deep_equal (status_fields (C := Bridge)) h' fs0 fs' = bool_decide (Bridge_Status b = Bridge_Status (edited edit_bridge es b))).
Proof.
  split_and!; intros x fs L h es E Hown.
  - rewrite <- (bool_decide_ext _ _ (tenant_tree _ _)). eapply guard_shallow; [|done..]. apply sound_edits, sound_tenant_edit.
  - rewrite <- (bool_decide_ext _ _ (collector_tree _ _)). eapply guard_shallow; [|done..]. apply sound_edits, sound_collector_edit.
  - rewrite <- (bool_decide_ext _ _ (bridge_tree _ _)). eapply guard_deep; [|apply sound_edits, sound_bridge_edit|done..].
    exact BridgeStatus_copies.
Qed.

(** A tenant with one problem in an array with room for two more *)
Definition sample_memory : heap :=
  {[ 1%positive := Array [Base (GoString "stale"); zero; zero]; 2%positive := Array [Base (GoString "apps")] ]}.
Definition sample_status : list (string * val) :=
  [ ("Subscriptions", Nil); ("LogSourceNamespaces", Slice 2 1); ("ConnectedBridges", Nil);
    ("State", Base (GoString "failed")); ("Problems", Slice 1 1); ("ProblemsCount", Base (GoInt 1)) ].
Definition stale_tenant : Tenant (H := sample_platform) :=
  Tenant_set_Status (mkTenantStatus None (Some ["apps"]) None StateFailed (Some ["stale"]) 1) (fresh_tenant "red").

Lemma status_guards_in_memory_witness :
  let '(h', fs') := run_edits (run_tenant_edit (λ _, 0)) [TenantLogSources ["apps"]; TenantProblems [" broken "]] sample_status sample_memory in
  deep_equal (status_fields (C := Tenant (H := sample_platform))) h' sample_status fs' = false ∧
  h' !! 1%positive = Some (Array [Base (GoString "stale"); Base (GoString "broken"); zero]).
Proof.
  destruct (status_guards_in_memory (H := sample_platform) (H0 := forward_range) (λ _, 0)) as [Ht _].
  destruct (Ht stale_tenant sample_status {[1%positive; 2%positive]} sample_memory [TenantLogSources ["apps"]; TenantProblems [" broken "]])
    as (h' & fs' & L' & E & _ & G).
  - vm_compute. reflexivity.
  - intros l n m s t L [= <- <-] Hin Hm. revert Hin. cbn. rewrite !elem_of_cons, elem_of_nil.
    intros [[= -> ->]|[[= -> ->]|[[= -> ->]|[[= -> ->]|[[= -> ->]|[[= -> ->]|[]]]]]]] [= _ <-]; by apply (bool_decide_unpack _).
  - assert (h' = (run_edits (run_tenant_edit (λ _, 0)) [TenantLogSources ["apps"]; TenantProblems [" broken "]]
                    sample_status sample_memory).1) as Eh by by rewrite E.
    rewrite E. split; [exact G|]. rewrite Eh. vm_compute. reflexivity.
Defined.
